(* ===== verification/_CoqProject ===== *)
-Q . S2P
Prelude.v
Mem.v
Text.v
Layout.v
FreeList.v
Balloc.v
Pages.v
Numa.v
Demo.v
Nvmalloc.v
Vfs.v
Dir.v
Bdev.v
Pgtable.v
SlaveMem.v
Mapping.v
Rdma.v
Acl.v
Inode.v
Protocol.v
FileData.v
Growth.v
Service.v
Server.v
DirMap.v
DirFs.v
DirOps.v
DirGrow.v
Frame.v
Namei.v
DirNew.v
NewInode.v
NameSpec.v
NameNew.v
NameDemo.v
Options.v
Mount.v
MountSpec.v
Client.v
