(* ===== verification/Prelude.v ===== *)
(** * RDFS: a verification of a distributed filesystem over RDMA

    RDFS is a Linux filesystem ("master") that keeps its metadata in one range
    of byte-addressable memory and the data of its files in the memory of other
    machines ("slaves"), reached by RDMA.  A client library and a small user-space
    server let programs outside the kernel use it.  This library models the parts
    that carry the logic and proves what makes them correct, or, where the code
    does something else than it means to, what it does.

    ** Parts and files

    Memory and allocation
    - [Prelude], [Mem], [Text]: shared notation, tactics and lemmas; one
      little-endian byte memory with the loads and stores of the C types; the
      conversions of sprintf and sscanf.
    - [Layout] (rdfs.h, rdfs_const.h, macro_cfg.h): struct offsets, virtual and
      physical addresses, inode numbers, page-table entries.
    - [FreeList], [Balloc], [Pages] (balloc.c): the free lists of pages and inode
      slots of a NUMA node.  [Pages.PageAlloc] is the class through which the
      inode, directory and table code uses them; [Pages] proves its instance.
      [Numa] is batched release on filesystems with one node or two.
    - [Bdev] (balloc.c): sector pools of block devices.
    - [Nvmalloc] (nvmalloc.c): kernel address areas as pointer lists.
    - [SlaveMem] (memory.c, rdfs_search_metadata): the master's accounting of the
      slaves' blocks, and the pages of entries that name them.

    Files and directories
    - [Vfs] (rdfs.h), [Inode] (inode.c, tool.c): in-core inodes and their slots.
    - [Pgtable] (pgtable.c, nvmalloc.c), [Mapping] (pgtable.c): the page table of
      an inode, its entry into the kernel's table and the counted mapping.
    - [Dir] (dir.c): directory records in the bytes of a mapped directory; the
      operations that need a block are completed in [DirMap] and [Namei].
    - [Acl] (acl.c, acl.h, xattr.h): access control lists.
    - [FileData], [Growth] (inode.c, file.c, pgtable.c): growing, cutting, reading
      and writing files.
    - [DirMap], [DirFs], [DirOps], [DirGrow] (dir.c, pgtable.c, inode.c):
      directories in the mounted filesystem.  [DirMap.fs] is the state (area,
      kernel table, address areas, inode cache), [DirMap.fs_rep] relates it to
      [DirMap.afs], a map from directories to names and a map of link counts.
    - [Namei] (namei.c, symlink.c, super.c): the inode operations of directories;
      [NameSpec] their refinement to operations on [afs].
    - [Frame], [DirNew], [NewInode], [NameNew] (dir.c, inode.c, namei.c): creation.
      [Frame.Framed] carries a part of the memory that an operation leaves alone,
      the list of free inode slots or the table of a new inode, through the lemmas
      on every page allocator; [NameNew.slot_rep] is a represented filesystem with
      its free slots.
    - [Options] (tool.c, balloc.c, super.c): the options of a mount.  [Mount]
      (super.c, tool.c, wprotect.h, balloc.c): formatting, mounting and the
      super-block operations; [MountSpec] what a mounted filesystem represents.

    Communication
    - [Rdma] (server.c): one transfer, and callers, completions and fatal signals
      as a transition system.
    - [Protocol] (network.c, network.cpp, rdfs_sock.c): messages, handshakes and
      the structs of different size in which messages travel.
    - [Service] (master_service.c): registration of slaves, the list of tasks and
      its worker.
    - [Server] (rdfs_server): the event loop of the user-space server.
    - [Client] (rdfs.cpp): the client library on the bytes of its two connections,
      with [Server] and [Service] at their other ends.

    [Demo] and [NameDemo] hold concrete filesystems, built by the code's own
    functions, on which the theorems are instantiated.

    ** How the code is modelled

    Integers are [Z], cut to the width of the C type where they are stored
    ([u8], [u16], [u32], [u64], [s32], [s64] and the stores of [Mem]).  Structs in
    the area are bytes at the offsets the compiler gives them; structs in the
    kernel's heap are records.
    A call that can fault (a NULL or unmapped pointer) returns an outcome, and
    theorems that an operation succeeds prove that it does not fault.  Errors are
    the negative numbers of the kernel.  Code of the kernel the sources call is a
    parameter (for instance the class [Pgtable.KernelPg] for the kernel's page
    directory, with the instance [x86_pg]) or is modelled by its documented
    effect.

    ** What the theorems show
    - Allocation: formatting yields complete and disjoint free lists; allocation
      is all or nothing; freeing restores; batches equal single calls, on one node
      or two; address areas never overlap; sectors and slave blocks are handed out
      once, with the conditions this needs and what happens without them
      (exhausted slaves, the reserved pool, devices of a multiple of 512 blocks).
    - Tables and mapping: an inserted block is found and no other is disturbed;
      removing a table of pairwise different pages frees each once (a file of two
      blocks has its page of entries twice, and that page is freed twice); mapping
      and unmapping are inverse and counted.
    - Mounting: after module initialisation a mount that formats an area yields a
      filesystem that represents the root directory alone; options are typed and
      their loops end; failed mounts and what they return; a mounted area cannot
      be mounted a second time.
    - Creation: create and mkdir on every represented filesystem with a free slot
      and pages give a fresh inode its name and, for a directory, its first two
      names, with all other names, link counts, sizes and free slots as before
      (but for the first bytes of the next slot in the area, which creation
      clears); the instances start from a mounted area.
    - Names: lookup, unlink, link, rmdir and rename implement the operations of
      [NameSpec] on every represented filesystem, leave every directory unmapped
      and refuse what they must without a change.  A represented filesystem has
      directories of at most 15 pages.
    - Data: what is written, less than a page, is read back; grown blocks are
      found; the two ways in which blocks of large or later files are confused.
    - Communication: a caller returns exactly on its own completion or a fatal
      signal while numbers are not reused, and may return early otherwise;
      handshakes deliver all fields; the server's table, registrations and sockets
      agree, and which requests and connections make it leave its arrays; what a
      client that connects, opens and closes a file gets, which is the right
      descriptor and, because of the sizes of the structs, never the inode's number
      and size.

    ** Fuel

    Loops over lists and tables recurse on a [nat] computed from what bounds them:
    the number of pages and the page size for directory walks (each record
    advances by at least 12 bytes), the 512 entries of a table page, the number of
    elements for pointer lists, the number of bytes for a stream.  The theorems of total correctness prove the bound
    to be enough: the operations return, they do not run out.

    ** Not modelled, and why
    - Failure of small kernel allocations (kmalloc of list cells): the code does
      not test most of them; the modelled allocations of the area do fail.
    - Locks: spinlocks serialise the bodies they protect, which are atomic
      steps here; the lock-free part of server.c is modelled with interleavings.
    - The dentry cache, quota calls, reference counts and writeback: the kernel's.
    - Only one kernel address space: the code passes current->mm and init_mm,
      which share the tables of the addresses used.
    - How a stream is cut into packets: recv finds all that was sent and not read.
    - Registration with the verbs library (rdfs_rdma.c, device.c, the slave's
      main.c and rdfs.c): sequences of library calls without logic of their own.
    - Refinement of symlink, tmpfile and mknod (the last never succeeds), and of a
      mount with block devices or on two nodes: these are modelled and run, the
      theorems cover one node without block devices.
    - Raw socket transfer, starting and stopping of threads, debugging output
      (debug.c), and fs.h, which is a copy of a Linux header. *)

From stdpp Require Export base numbers list gmap.
From Stdlib Require Export ZArith Lia.

#[export] Set Default Goal Selector "!".

Declare Scope rdfs_scope.
Delimit Scope rdfs_scope with rdfs.
Global Open Scope Z_scope.

(** ** Machine integers

    A C integer of width w is a [Z]; [u8] .. [u64] is conversion to an unsigned
    type (wrap-around), [s32] and [s64] conversion to a signed type (two's
    complement, as gcc defines it). *)
Definition u8 (x : Z) : Z := x mod 2 ^ 8.
Definition u16 (x : Z) : Z := x mod 2 ^ 16.
Definition u32 (x : Z) : Z := x mod 2 ^ 32.
Definition u64 (x : Z) : Z := x mod 2 ^ 64.
Definition s32 (x : Z) : Z := (x + 2 ^ 31) mod 2 ^ 32 - 2 ^ 31.
Definition s64 (x : Z) : Z := (x + 2 ^ 63) mod 2 ^ 64 - 2 ^ 63.

(** ** Faults

    [Oops] is a kernel fault: a NULL dereference, an access outside an array, a
    self-deadlock on a spinlock.  C functions that fail without faulting return
    a value, as in the source. *)
Inductive outcome (A : Type) : Type :=
| Ret (a : A)
| Oops.
Arguments Ret {A} a.
Arguments Oops {A}.

#[export] Instance outcome_ret : MRet outcome := fun A a => Ret a.
#[export] Instance outcome_bind : MBind outcome :=
  fun A B f c => match c with Ret a => f a | Oops => Oops end.

Lemma bind_Ret {A B} (f : A -> outcome B) (a : A) : (Ret a ≫= f) = f a.
Proof. reflexivity. Qed.

(** ** Arithmetic automation *)

Create HintDb rdfs discriminated.
Create Rewrite HintDb rdfs.

(** [zdm] decides linear goals with division and remainder by constants. *)
Ltac zdm := Z.to_euclidean_division_equations; lia.

(** [conv] unfolds the conversions and finishes with [zdm]. *)
Ltac conv := unfold u8, u16, u32, u64, s32, s64 in *; zdm.

Lemma u64_small x : 0 <= x < 2 ^ 64 -> u64 x = x.
Proof. intros; unfold u64; apply Z.mod_small; lia. Qed.

Lemma u64_range x : 0 <= u64 x < 2 ^ 64.
Proof. unfold u64; apply Z.mod_pos_bound; lia. Qed.

Lemma u32_small x : 0 <= x < 2 ^ 32 -> u32 x = x.
Proof. intros; unfold u32; apply Z.mod_small; lia. Qed.

Lemma u32_range x : 0 <= u32 x < 2 ^ 32.
Proof. unfold u32; apply Z.mod_pos_bound; lia. Qed.

Lemma u16_small x : 0 <= x < 2 ^ 16 -> u16 x = x.
Proof. intros; unfold u16; apply Z.mod_small; lia. Qed.

Lemma u16_range x : 0 <= u16 x < 2 ^ 16.
Proof. unfold u16; apply Z.mod_pos_bound; lia. Qed.

Lemma u8_range x : 0 <= u8 x < 2 ^ 8.
Proof. unfold u8; apply Z.mod_pos_bound; lia. Qed.

Lemma s32_small x : - 2 ^ 31 <= x < 2 ^ 31 -> s32 x = x.
Proof. intros; conv. Qed.

Lemma s64_small x : - 2 ^ 63 <= x < 2 ^ 63 -> s64 x = x.
Proof. intros; conv. Qed.

Lemma u64_add_u64_l x y : u64 (u64 x + y) = u64 (x + y).
Proof. unfold u64. apply Zplus_mod_idemp_l. Qed.

Lemma u64_sub_u64_l x y : u64 (u64 x - y) = u64 (x - y).
Proof. unfold u64. apply Zminus_mod_idemp_l. Qed.

(** Rounding up to a page. *)
Lemma round_up x : x <= (x + 4096 - 1) / 4096 * 4096 < x + 4096.
Proof. zdm. Qed.

#[export] Hint Rewrite u64_small u32_small u16_small s32_small s64_small using lia : rdfs.

(** ** Bit fields *)

(** Masking with 2^n - 1 is a remainder; clearing the low n bits rounds down. *)
Lemma land_ones_mod x n : 0 <= n -> Z.land x (2 ^ n - 1) = x mod 2 ^ n.
Proof.
  intros. replace (2 ^ n - 1) with (Z.ones n) by (rewrite Z.ones_equiv; lia).
  by apply Z.land_ones.
Qed.

Lemma shiftr_div x n : 0 <= n -> Z.shiftr x n = x / 2 ^ n.
Proof. apply Z.shiftr_div_pow2. Qed.

Lemma shiftl_mul x n : 0 <= n -> Z.shiftl x n = x * 2 ^ n.
Proof. apply Z.shiftl_mul_pow2. Qed.

(** Bits below n of a multiple of 2^n are clear, bits from n on of a value below
    2^n are clear: the two halves of an or of disjoint fields. *)
Lemma testbit_mul_low x n i : 0 <= n -> i < n -> Z.testbit (x * 2 ^ n) i = false.
Proof. intros. apply Z.mul_pow2_bits_low; lia. Qed.

Lemma testbit_small x n i : 0 <= x < 2 ^ n -> n <= i -> Z.testbit x i = false.
Proof.
  intros Hx Hi. destruct (decide (n < 0)) as [Hn|Hn].
  { rewrite Z.pow_neg_r in Hx; lia. }
  rewrite <- (Z.mod_small x (2 ^ n)) by lia. apply Z.mod_pow2_bits_high. lia.
Qed.

Lemma lor_range n x y : 0 <= n -> 0 <= x < 2 ^ n -> 0 <= y < 2 ^ n -> 0 <= Z.lor x y < 2 ^ n.
Proof.
  intros Hn Hx Hy. split; [apply Z.lor_nonneg; lia|].
  assert (E : Z.lor x y = Z.lor x y mod 2 ^ n).
  { symmetry. rewrite <- Z.land_ones by lia. apply Z.bits_inj'. intros k Hk. rewrite Z.land_spec, !Z.lor_spec.
    destruct (decide (k < n)).
    - rewrite Z.ones_spec_low by lia. apply andb_true_r.
    - rewrite (testbit_small x n), (testbit_small y n) by lia. done. }
  rewrite E. apply Z.mod_pos_bound. lia.
Qed.

Lemma lor_disjoint_add hi lo n :
  0 <= n -> 0 <= lo < 2 ^ n -> Z.lor (hi * 2 ^ n) lo = hi * 2 ^ n + lo.
Proof.
  intros Hn Hlo.
  assert (Hand : Z.land (hi * 2 ^ n) lo = 0).
  { apply Z.bits_inj'; intros i Hi. rewrite Z.land_spec, Z.bits_0.
    destruct (decide (i < n)).
    - by rewrite testbit_mul_low by lia.
    - rewrite (testbit_small lo n i) by lia. apply andb_false_r. }
  pose proof (Z.add_lor_land (hi * 2 ^ n) lo). lia.
Qed.

(** Clearing bits outside [n, w) of a w-bit value whose low field is [lo]. *)
Lemma land_mask_field x n w :
  0 <= n <= w -> Z.land x (2 ^ w - 2 ^ n) = (x mod 2 ^ w) / 2 ^ n * 2 ^ n.
Proof.
  intros Hn. apply Z.bits_inj'; intros i Hi.
  rewrite Z.land_spec.
  replace (2 ^ w - 2 ^ n) with (Z.shiftl (Z.ones (w - n)) n).
  2:{ rewrite Z.shiftl_mul_pow2, Z.ones_equiv by lia.
      replace (2 ^ w) with (2 ^ (w - n) * 2 ^ n)
        by (rewrite <- Z.pow_add_r by lia; f_equal; lia).
      lia. }
  rewrite Z.shiftl_spec by lia.
  destruct (decide (i < n)).
  - rewrite (Z.testbit_neg_r _ (i - n)) by lia. rewrite andb_false_r.
    rewrite Z.mul_pow2_bits_low; [done|lia].
  - rewrite Z.testbit_ones_nonneg by lia.
    rewrite Z.mul_pow2_bits by lia. rewrite Z.div_pow2_bits by lia.
    replace (i - n + n) with i by lia.
    destruct (decide (i < w)).
    + rewrite Z.mod_pow2_bits_low by lia.
      replace (i - n <? w - n) with true by lia. by rewrite andb_true_r.
    + rewrite Z.mod_pow2_bits_high by lia.
      replace (i - n <? w - n) with false by lia. by rewrite andb_false_r.
Qed.

(** ** Lists *)

Lemma NoDup_take {A} (l : list A) n : NoDup l -> NoDup (take n l).
Proof. intros H. rewrite <- (take_drop n l) in H. by apply NoDup_app in H as [? _]. Qed.

Lemma NoDup_drop {A} (l : list A) n : NoDup l -> NoDup (drop n l).
Proof.
  intros H. rewrite <- (take_drop n l) in H. by apply NoDup_app in H as (_ & _ & ?).
Qed.

Lemma Forall_take_drop {A} (P : A -> Prop) (l : list A) n :
  Forall P l -> Forall P (take n l) /\ Forall P (drop n l).
Proof. intros H. split; [by apply Forall_take|by apply Forall_drop]. Qed.

Lemma take_drop_disjoint {A} (l : list A) n x :
  NoDup l -> x ∈ take n l -> x ∈ drop n l -> False.
Proof.
  intros H. rewrite <- (take_drop n l) in H.
  apply NoDup_app in H as (_ & Hd & _). intros Hx. by apply (Hd x).
Qed.

(** Distinct integers of a range are at most as many as the range is long. *)
Lemma NoDup_range_length (l : list Z) lo hi :
  NoDup l -> Forall (fun p => lo <= p < hi) l -> lo <= hi -> Z.of_nat (length l) <= hi - lo.
Proof.
  intros Hn Hf Hle. rewrite Forall_forall in Hf.
  assert (Hs : l ⊆+ seqZ lo (hi - lo)).
  { apply NoDup_submseteq; [done|]. intros x Hx. apply elem_of_seqZ. specialize (Hf x Hx). lia. }
  apply submseteq_length in Hs. rewrite length_seqZ in Hs. lia.
Qed.

(** Moving an element from the middle of the second list to the front of the first. *)
Lemma perm_mid {A} (F U1 U2 : list A) x : ((x :: F) ++ (U1 ++ U2)) ≡ₚ (F ++ (U1 ++ x :: U2)).
Proof. cbn. by rewrite <- (Permutation_middle U1), <- (Permutation_middle F). Qed.

Lemma NoDup_mid {A} (F U1 U2 : list A) x : NoDup (F ++ (U1 ++ x :: U2)) ->
  NoDup ((x :: F) ++ (U1 ++ U2)) /\ x ∉ F /\ x ∉ U1 /\ x ∉ U2.
Proof.
  rewrite <- perm_mid. intros H. split; [done|]. cbn in H. apply NoDup_cons in H as [H _].
  rewrite !not_elem_of_app in H. tauto.
Qed.

(** Consecutive elements of size [esz] from [p]. *)
Fixpoint elems (p esz : Z) (n : nat) : list Z :=
  match n with O => [] | S n' => p :: elems (p + esz) esz n' end.

Lemma elems_ge p esz n q : 0 <= esz -> q ∈ elems p esz n -> p <= q.
Proof.
  revert p. induction n as [|n IH]; intros p He Hq; cbn in Hq; [by apply not_elem_of_nil in Hq|].
  apply elem_of_cons in Hq as [->|Hq]; [lia|]. apply IH in Hq; lia.
Qed.

Lemma elems_nodup p esz n : 0 < esz -> NoDup (elems p esz n).
Proof.
  revert p. induction n as [|n IH]; intros p He; cbn; constructor; [|by apply IH].
  intros Hq%elems_ge; lia.
Qed.

Lemma length_elems p esz n : length (elems p esz n) = n.
Proof. revert p; induction n as [|n IH]; intros p; cbn; [done|by rewrite IH]. Qed.

Lemma elems_lookup p esz n k q : elems p esz n !! k = Some q -> q = p + Z.of_nat k * esz /\ (k < n)%nat.
Proof.
  revert p k. induction n as [|n IH]; intros p k; [done|]. destruct k as [|k]; cbn; [intros [= <-]; lia|]. intros [-> ?]%IH. lia.
Qed.

Lemma elem_of_elems p esz n q :
  q ∈ elems p esz n <-> exists i, 0 <= i < Z.of_nat n /\ q = p + i * esz.
Proof.
  revert p. induction n as [|n IH]; intros p; cbn [elems].
  - rewrite elem_of_nil. split; [done|]. intros (i & ? & _). lia.
  - rewrite elem_of_cons, IH. split.
    + intros [->|(i & Hi & ->)]; [exists 0; lia|exists (i + 1); lia].
    + intros (i & Hi & ->). destruct (decide (i = 0)) as [->|]; [left; lia|].
      right. exists (i - 1). lia.
Qed.
