(* ===== verification/Mem.v ===== *)
(** * Byte-addressed memory

    Everything the filesystem keeps in the ioremapped area (super block, NUMA
    descriptors, inodes, page tables, directory pages) is C data accessed through
    pointers of different widths, so the model keeps one little-endian byte
    memory and the loads and stores of the C types on it. *)

From S2P Require Import Prelude.

Abbreviation mem := (gmap Z Z).

(** A byte that was never written reads as 0. *)
Definition ldb (m : mem) (a : Z) : Z := default 0 (m !! a) mod 256.

(** [ld n m a] reads the n-byte little-endian unsigned integer at [a];
    [st n m a v] writes the low n bytes of [v] there. *)
Fixpoint ld (n : nat) (m : mem) (a : Z) : Z :=
  match n with
  | O => 0
  | S n' => ldb m a + 256 * ld n' m (a + 1)
  end.

Fixpoint st (n : nat) (m : mem) (a : Z) (v : Z) : mem :=
  match n with
  | O => m
  | S n' => st n' (<[a := v mod 256]> m) (a + 1) (v / 256)
  end.

(** memset(a, c, n) and byte-string reads and writes (memcpy, memcmp). *)
Fixpoint memset (m : mem) (a c : Z) (n : nat) : mem :=
  match n with
  | O => m
  | S n' => memset (<[a := c mod 256]> m) (a + 1) c n'
  end.

Fixpoint ld_bytes (m : mem) (a : Z) (n : nat) : list Z :=
  match n with
  | O => []
  | S n' => ldb m a :: ld_bytes m (a + 1) n'
  end.

Fixpoint st_bytes (m : mem) (a : Z) (bs : list Z) : mem :=
  match bs with
  | [] => m
  | b :: bs' => st_bytes (<[a := b mod 256]> m) (a + 1) bs'
  end.

(** memcpy(dst, src, n) between disjoint ranges. *)
Definition memcpy (m : mem) (dst src : Z) (n : nat) : mem :=
  st_bytes m dst (ld_bytes m src n).

Arguments ld : simpl never.
Arguments st : simpl never.
Arguments memset : simpl never.
Arguments ld_bytes : simpl never.
Arguments st_bytes : simpl never.

(** ** Laws: a load sees the last store to its bytes *)

Lemma ldb_range m a : 0 <= ldb m a < 256.
Proof. unfold ldb. apply Z.mod_pos_bound. lia. Qed.

Lemma ldb_insert m a v b :
  ldb (<[a := v]> m) b = if decide (a = b) then v mod 256 else ldb m b.
Proof. unfold ldb. rewrite lookup_insert. by case_decide. Qed.

Lemma ldb_st n m a v b :
  ldb (st n m a v) b =
  if decide (a <= b < a + Z.of_nat n) then v / 256 ^ (b - a) mod 256 else ldb m b.
Proof.
  revert m a v. induction n as [|n IH]; intros m a v.
  { case_decide; [lia|done]. }
  change (st (S n) m a v) with (st n (<[a := v mod 256]> m) (a + 1) (v / 256)).
  rewrite IH, ldb_insert.
  repeat case_decide; try lia; try done.
  - replace (b - a) with (1 + (b - (a + 1))) by lia.
    by rewrite Z.pow_add_r, Z.div_div by lia.
  - subst. rewrite Z.sub_diag, Z.pow_0_r, Z.div_1_r. by rewrite Zmod_mod.
Qed.

Lemma ld_S n m a : ld (S n) m a = ldb m a + 256 * ld n m (a + 1).
Proof. reflexivity. Qed.

Lemma ld_range n m a : 0 <= ld n m a < 256 ^ Z.of_nat n.
Proof.
  revert a. induction n as [|n IH]; intros a.
  { change (0 <= 0 < 1). lia. }
  rewrite ld_S. pose proof (ldb_range m a). specialize (IH (a + 1)).
  replace (256 ^ Z.of_nat (S n)) with (256 * 256 ^ Z.of_nat n)
    by (rewrite Nat2Z.inj_succ, Z.pow_succ_r; lia).
  nia.
Qed.

Lemma ld_ext n m m' a b :
  (forall i, 0 <= i < Z.of_nat n -> ldb m (a + i) = ldb m' (b + i)) ->
  ld n m a = ld n m' b.
Proof.
  revert a b. induction n as [|n IH]; intros a b H; [done|].
  rewrite !ld_S. f_equal.
  - specialize (H 0). rewrite !Z.add_0_r in H. apply H. lia.
  - f_equal. apply IH. intros i Hi. specialize (H (1 + i)).
    rewrite !Z.add_assoc in H. apply H. lia.
Qed.

(** The value of an n-byte load is determined by its bytes. *)
Lemma ld_val n m a v :
  (forall i, 0 <= i < Z.of_nat n -> ldb m (a + i) = v / 256 ^ i mod 256) ->
  ld n m a = v mod 256 ^ Z.of_nat n.
Proof.
  revert a v. induction n as [|n IH]; intros a v H.
  { symmetry. apply Z.mod_1_r. }
  rewrite ld_S, (IH (a + 1) (v / 256)).
  - specialize (H 0). rewrite Z.add_0_r in H. rewrite H by lia.
    rewrite Z.pow_0_r, Z.div_1_r.
    replace (256 ^ Z.of_nat (S n)) with (256 * 256 ^ Z.of_nat n)
      by (rewrite Nat2Z.inj_succ, Z.pow_succ_r; lia).
    rewrite Z.rem_mul_r; lia.
  - intros i Hi. specialize (H (1 + i)). rewrite Z.add_assoc in H. rewrite H by lia.
    by rewrite Z.pow_add_r, Z.div_div by lia.
Qed.

Lemma ld_st_same n m a v : ld n (st n m a v) a = v mod 256 ^ Z.of_nat n.
Proof.
  apply ld_val. intros i Hi. rewrite ldb_st, decide_True by lia.
  by replace (a + i - a) with i by lia.
Qed.

Lemma ld_st_ne k n m a v b :
  b + Z.of_nat k <= a \/ a + Z.of_nat n <= b -> ld k (st n m a v) b = ld k m b.
Proof. intros H. apply ld_ext. intros i Hi. rewrite ldb_st, decide_False by lia. done. Qed.

Lemma ldb_memset m a c n b :
  ldb (memset m a c n) b = if decide (a <= b < a + Z.of_nat n) then c mod 256 else ldb m b.
Proof.
  revert m a. induction n as [|n IH]; intros m a.
  { case_decide; [lia|done]. }
  change (memset m a c (S n)) with (memset (<[a := c mod 256]> m) (a + 1) c n).
  rewrite IH, ldb_insert. repeat case_decide; try lia; try done.
  by rewrite Zmod_mod.
Qed.

Lemma ld_memset_ne k m a c n b :
  b + Z.of_nat k <= a \/ a + Z.of_nat n <= b -> ld k (memset m a c n) b = ld k m b.
Proof. intros H. apply ld_ext. intros i Hi. rewrite ldb_memset, decide_False by lia. done. Qed.

Lemma ld_zero k m a : (forall b, a <= b < a + Z.of_nat k -> ldb m b = 0) -> ld k m a = 0.
Proof.
  intros H. rewrite (ld_val k _ a 0).
  - apply Z.mod_0_l. lia.
  - intros i Hi. rewrite H by lia. by rewrite Z.div_0_l by lia.
Qed.

Lemma ld_memset_0 k m a n b :
  a <= b -> b + Z.of_nat k <= a + Z.of_nat n -> ld k (memset m a 0 n) b = 0.
Proof. intros H1 H2. apply ld_zero. intros c Hc. by rewrite ldb_memset, decide_True by lia. Qed.

Lemma ldb_st_0 n m a b :
  ldb (st n m a 0) b = if decide (a <= b < a + Z.of_nat n) then 0 else ldb m b.
Proof. rewrite ldb_st. case_decide; [|done]. by rewrite Zdiv_0_l. Qed.

(** ** Byte strings *)

Lemma length_ld_bytes m a n : length (ld_bytes m a n) = n.
Proof. revert a; induction n as [|n IH]; intros a; [done|].
  change (S (length (ld_bytes m (a + 1) n)) = S n). by rewrite IH.
Qed.

Lemma ld_bytes_S m a n : ld_bytes m a (S n) = ldb m a :: ld_bytes m (a + 1) n.
Proof. reflexivity. Qed.

Lemma ld_bytes_ext m m' a b n :
  (forall i, 0 <= i < Z.of_nat n -> ldb m (a + i) = ldb m' (b + i)) ->
  ld_bytes m a n = ld_bytes m' b n.
Proof.
  revert a b. induction n as [|n IH]; intros a b H; [done|].
  rewrite !ld_bytes_S. f_equal.
  - specialize (H 0). rewrite !Z.add_0_r in H. apply H. lia.
  - apply IH. intros i Hi. specialize (H (1 + i)). rewrite !Z.add_assoc in H. apply H. lia.
Qed.

Lemma ldb_st_bytes m a bs b :
  ldb (st_bytes m a bs) b =
  if decide (a <= b < a + Z.of_nat (length bs))
  then default 0 (bs !! Z.to_nat (b - a)) mod 256 else ldb m b.
Proof.
  revert m a. induction bs as [|x bs IH]; intros m a.
  { case_decide; [cbn in *; lia|done]. }
  change (st_bytes m a (x :: bs)) with (st_bytes (<[a := x mod 256]> m) (a + 1) bs).
  rewrite IH, ldb_insert. cbn [length].
  repeat case_decide; try lia; try done.
  - replace (Z.to_nat (b - a)) with (S (Z.to_nat (b - (a + 1)))) by lia. done.
  - subst. rewrite Z.sub_diag. cbn. by rewrite Zmod_mod.
Qed.

Lemma ld_st_bytes_ne k m a bs b :
  b + Z.of_nat k <= a \/ a + Z.of_nat (length bs) <= b ->
  ld k (st_bytes m a bs) b = ld k m b.
Proof. intros H. apply ld_ext. intros i Hi. rewrite ldb_st_bytes, decide_False by lia. done. Qed.

Lemma ld_bytes_st_ne n m a v b k :
  b + Z.of_nat k <= a \/ a + Z.of_nat n <= b ->
  ld_bytes (st n m a v) b k = ld_bytes m b k.
Proof.
  intros H. apply ld_bytes_ext. intros i Hi. rewrite ldb_st, decide_False by lia. done.
Qed.

Lemma ld_bytes_st_bytes_ne m a bs b k :
  b + Z.of_nat k <= a \/ a + Z.of_nat (length bs) <= b ->
  ld_bytes (st_bytes m a bs) b k = ld_bytes m b k.
Proof.
  intros H. apply ld_bytes_ext. intros i Hi. rewrite ldb_st_bytes, decide_False by lia. done.
Qed.

Definition is_byte (b : Z) : Prop := 0 <= b < 256.

Lemma ld_bytes_lookup m a n j : (j < n)%nat -> ld_bytes m a n !! j = Some (ldb m (a + Z.of_nat j)).
Proof.
  revert a j. induction n as [|n IH]; intros a j Hj; [lia|].
  rewrite ld_bytes_S. destruct j as [|j]; cbn; [by rewrite Z.add_0_r|].
  rewrite IH by lia. do 2 f_equal. lia.
Qed.

(** Copying [n] bytes. *)
Lemma ldb_copy m m' a b n x :
  ldb (st_bytes m a (ld_bytes m' b n)) x =
  if decide (a <= x < a + Z.of_nat n) then ldb m' (b + (x - a)) else ldb m x.
Proof.
  rewrite ldb_st_bytes, length_ld_bytes. case_decide; [|done]. rewrite ld_bytes_lookup by lia. cbn.
  replace (b + Z.of_nat (Z.to_nat (x - a))) with (b + (x - a)) by lia. apply Z.mod_small, ldb_range.
Qed.

Lemma ld_st_bytes_take m a bs n :
  Forall is_byte bs -> (n <= length bs)%nat -> ld_bytes (st_bytes m a bs) a n = take n bs.
Proof.
  intros Hb Hn. apply list_eq. intros i. destruct (decide (i < n)%nat) as [Hi|Hi].
  2:{ rewrite !lookup_ge_None_2; [done|rewrite length_take; lia|rewrite length_ld_bytes; lia]. }
  rewrite ld_bytes_lookup, lookup_take_lt by lia. rewrite ldb_st_bytes, decide_True by lia.
  replace (Z.to_nat (a + Z.of_nat i - a)) with i by lia.
  destruct (lookup_lt_is_Some_2 bs i ltac:(lia)) as [x Hx]. rewrite Hx. cbn. f_equal.
  apply Z.mod_small. eapply Forall_lookup_1 in Hb; eauto.
Qed.

Lemma ld_st_bytes_same m a bs :
  Forall is_byte bs -> ld_bytes (st_bytes m a bs) a (length bs) = bs.
Proof. intros Hb. rewrite ld_st_bytes_take by done. apply firstn_all. Qed.

(** ** Automation: [mem_simpl] pushes every load through the stores above it,
    closing address comparisons with [lia]. *)
Lemma pow256_1 : 256 ^ Z.of_nat 1 = 2 ^ 8. Proof. reflexivity. Qed.
Lemma pow256_2 : 256 ^ Z.of_nat 2 = 2 ^ 16. Proof. reflexivity. Qed.
Lemma pow256_4 : 256 ^ Z.of_nat 4 = 2 ^ 32. Proof. reflexivity. Qed.
Lemma pow256_8 : 256 ^ Z.of_nat 8 = 2 ^ 64. Proof. reflexivity. Qed.

Lemma ld8_range m a : 0 <= ld 8 m a < 2 ^ 64.
Proof. pose proof (ld_range 8 m a). rewrite pow256_8 in *. lia. Qed.
Lemma ld4_range m a : 0 <= ld 4 m a < 2 ^ 32.
Proof. pose proof (ld_range 4 m a). rewrite pow256_4 in *. lia. Qed.
Lemma ld2_range m a : 0 <= ld 2 m a < 2 ^ 16.
Proof. pose proof (ld_range 2 m a). rewrite pow256_2 in *. lia. Qed.
Lemma ld1_range m a : 0 <= ld 1 m a < 2 ^ 8.
Proof. pose proof (ld_range 1 m a). rewrite pow256_1 in *. lia. Qed.

Lemma ld8_st8 m a v : 0 <= v < 2 ^ 64 -> ld 8 (st 8 m a v) a = v.
Proof. intros. rewrite ld_st_same, pow256_8. apply Z.mod_small. lia. Qed.
Lemma ld4_st4 m a v : 0 <= v < 2 ^ 32 -> ld 4 (st 4 m a v) a = v.
Proof. intros. rewrite ld_st_same, pow256_4. apply Z.mod_small. lia. Qed.
Lemma ld2_st2 m a v : 0 <= v < 2 ^ 16 -> ld 2 (st 2 m a v) a = v.
Proof. intros. rewrite ld_st_same, pow256_2. apply Z.mod_small. lia. Qed.
Lemma ld1_st1 m a v : 0 <= v < 2 ^ 8 -> ld 1 (st 1 m a v) a = v.
Proof. intros. rewrite ld_st_same, pow256_1. apply Z.mod_small. lia. Qed.

Ltac mem_step :=
  match goal with
  | |- context [ld ?n (st ?n ?m ?a ?v) ?a] =>
      first [ rewrite (ld8_st8 m a v) by lia | rewrite (ld4_st4 m a v) by lia
            | rewrite (ld2_st2 m a v) by lia | rewrite (ld1_st1 m a v) by lia ]
  | |- context [ld ?k (st ?n ?m ?a ?v) ?b] => rewrite (ld_st_ne k n m a v b) by lia
  | |- context [ld ?k (memset ?m ?a ?c ?n) ?b] => rewrite (ld_memset_ne k m a c n b) by lia
  | |- context [ld ?k (memset ?m ?a 0 ?n) ?b] => rewrite (ld_memset_0 k m a n b) by lia
  | |- context [ld ?k (st_bytes ?m ?a ?bs) ?b] => rewrite (ld_st_bytes_ne k m a bs b) by lia
  end.
Ltac mem_simpl := repeat mem_step.
