(* ===== verification/Text.v ===== *)
(** * Text messages (sprintf and sscanf)

    The parts of the system exchange numbers as text: sprintf on one side,
    sscanf on the other.  The file holds the conversions they use (%d, %u, %ld,
    %x, %lx, %016Lx, %s), as the kernel's lib/vsprintf.c and the C library
    define them, and proves that a printed number is read back. *)

From S2P Require Import Prelude.

Definition colon : Z := 58.
Definition minus : Z := 45.

Definition digit_char (d : Z) : Z := if d <? 10 then 48 + d else 87 + d.

Definition digit_val (c : Z) : option Z :=
  if (48 <=? c) && (c <=? 57) then Some (c - 48)
  else if (97 <=? c) && (c <=? 102) then Some (c - 87)
  else if (65 <=? c) && (c <=? 70) then Some (c - 55)
  else None.

Definition is_digit (base c : Z) : bool :=
  match digit_val c with Some d => d <? base | None => false end.

(** ** Printing *)

(** 64-bit numbers have at most 20 digits. *)
Fixpoint digits (base : Z) (fuel : nat) (n : Z) : list Z :=
  match fuel with
  | O => []
  | S fuel' => if n <? base then [digit_char n] else digits base fuel' (n / base) ++ [digit_char (n mod base)]
  end.

Definition print_u (n : Z) : list Z := digits 10 20 n.
Definition print_d (n : Z) : list Z := if n <? 0 then minus :: print_u (- n) else print_u n.
Definition print_x (n : Z) : list Z := digits 16 20 n.

(** %016Lx *)
Definition print_x16 (n : Z) : list Z := replicate (16 - length (print_x n)) 48 ++ print_x n.

(** ** Scanning *)

Fixpoint scan_digits (base : Z) (s : list Z) (width : nat) (acc : Z) : Z * list Z :=
  match width, s with
  | S width', c :: s' =>
      match digit_val c with
      | Some d => if d <? base then scan_digits base s' width' (u64 (acc * base + d)) else (acc, s)
      | None => (acc, s)
      end
  | _, _ => (acc, s)
  end.

Definition is_space (c : Z) : bool := (c =? 32) || ((9 <=? c) && (c <=? 13)).

Fixpoint skip_spaces (s : list Z) : list Z :=
  match s with c :: s' => if is_space c then skip_spaces s' else s | [] => [] end.

(** %u and %x: leading space, at least one digit, an optional 0x before a
    hexadecimal number; [width] is 0 for no limit. *)
Definition scan_u (base : Z) (width : nat) (s : list Z) : option (Z * list Z) :=
  let s := skip_spaces s in
  match s with
  | c :: rest =>
      if is_digit base c then
        let s := match rest with
                 | x :: rest' => if (base =? 16) && (c =? 48) && ((x =? 120) || (x =? 88)) then rest' else s
                 | [] => s
                 end in
        Some (scan_digits base s (if Nat.eqb width 0 then length s else width) 0)
      else None
  | [] => None
  end.

(** %d *)
Definition scan_d (s : list Z) : option (Z * list Z) :=
  match skip_spaces s with
  | c :: rest =>
      if c =? minus then
        match rest with
        | d :: _ => if is_digit 10 d then let '(n, r) := scan_digits 10 rest (length rest) 0 in Some (- n, r) else None
        | [] => None
        end
      else scan_u 10 0 (c :: rest)
  | [] => None
  end.

(** %s: up to white space. *)
Fixpoint take_word (s : list Z) : list Z * list Z :=
  match s with
  | c :: s' => if is_space c then ([], s) else let '(w, r) := take_word s' in (c :: w, r)
  | [] => ([], [])
  end.

Inductive conv := CU (base : Z) (width : nat) | CD.

Definition scan_conv (c : conv) (s : list Z) : option (Z * list Z) :=
  match c with CU base width => scan_u base width s | CD => scan_d s end.

(** sscanf of conversions separated by colons: the values before the first one
    that does not match, and the rest of the text. *)
Fixpoint scan_list (cs : list conv) (s : list Z) : list Z * list Z :=
  match cs with
  | [] => ([], s)
  | c :: cs' =>
      match scan_conv c s with
      | Some (v, rest) =>
          match cs', rest with
          | [], _ => ([v], rest)
          | _, x :: rest' =>
              if x =? colon then let '(vs, r) := scan_list cs' rest' in (v :: vs, r) else ([v], rest)
          | _, [] => ([v], rest)
          end
      | None => ([], s)
      end
  end.

(** The same with sprintf. *)
Fixpoint print_list (ps : list (list Z)) : list Z :=
  match ps with
  | [] => []
  | p :: ps' => match ps' with [] => p | _ => p ++ colon :: print_list ps' end
  end.

(** ** A printed number is read back *)

Lemma digit_val_char d : 0 <= d < 16 -> digit_val (digit_char d) = Some d.
Proof.
  intros Hd. unfold digit_val, digit_char. destruct (Z.ltb_spec d 10).
  - rewrite (proj2 (Z.leb_le 48 _)), (proj2 (Z.leb_le _ 57)) by lia. cbn. f_equal. lia.
  - rewrite (proj2 (Z.leb_gt (87 + d) 57)) by lia. rewrite andb_false_r.
    rewrite (proj2 (Z.leb_le 97 _)), (proj2 (Z.leb_le _ 102)) by lia. cbn. f_equal. lia.
Qed.

Lemma digits_length base fuel n : 2 <= base -> 0 <= n < base ^ Z.of_nat fuel -> (length (digits base fuel n) <= fuel)%nat.
Proof.
  intros Hb. revert n. induction fuel as [|fuel IH]; intros n Hn; [done|]. cbn [digits].
  destruct (Z.ltb_spec n base); [cbn; lia|]. rewrite length_app. cbn [length].
  assert (0 <= n / base < base ^ Z.of_nat fuel).
  { rewrite Nat2Z.inj_succ, Z.pow_succ_r in Hn by lia. split; [apply Z.div_pos; lia|]. apply Z.div_lt_upper_bound; lia. }
  specialize (IH (n / base)). lia.
Qed.

(** More fuel than digits changes nothing. *)
Lemma digits_fuel base f f' n : 2 <= base -> 0 <= n < base ^ Z.of_nat f -> 0 <= n < base ^ Z.of_nat f' ->
  (0 < f)%nat -> (0 < f')%nat -> digits base f n = digits base f' n.
Proof.
  intros Hb. revert f' n. induction f as [|f IH]; intros f' n Hn Hn' Hf Hf'; [lia|]. destruct f' as [|f']; [lia|].
  cbn [digits]. destruct (Z.ltb_spec n base) as [Hlt|Hge]; [done|].
  rewrite Nat2Z.inj_succ, Z.pow_succ_r in Hn, Hn' by lia.
  assert (Hq : 1 <= n / base) by (apply Z.div_le_lower_bound; lia).
  assert (H1 : n / base < base ^ Z.of_nat f) by (apply Z.div_lt_upper_bound; lia).
  assert (H2 : n / base < base ^ Z.of_nat f') by (apply Z.div_lt_upper_bound; lia).
  f_equal. apply IH; [lia|lia|..].
  - destruct f; [change (base ^ Z.of_nat 0) with 1 in H1; lia|lia].
  - destruct f'; [change (base ^ Z.of_nat 0) with 1 in H2; lia|lia].
Qed.

Lemma scan_digits_app base fuel n rest w acc :
  2 <= base <= 16 -> 0 <= n < base ^ Z.of_nat fuel -> 0 <= acc ->
  (length (digits base fuel n) <= w)%nat -> acc * base ^ Z.of_nat (length (digits base fuel n)) + n < 2 ^ 64 ->
  scan_digits base (digits base fuel n ++ rest) w acc
  = scan_digits base rest (w - length (digits base fuel n))
      (acc * base ^ Z.of_nat (length (digits base fuel n)) + n).
Proof.
  intros Hb. revert n rest w acc. induction fuel as [|fuel IH]; intros n rest w acc Hn Ha Hw Ho.
  { change (base ^ Z.of_nat 0) with 1 in Hn. assert (n = 0) as -> by lia. cbn in *. f_equal; lia. }
  cbn [digits] in *. destruct (Z.ltb_spec n base) as [Hlt|Hge].
  - cbn [app length] in *. destruct w as [|w]; [lia|]. cbn [scan_digits]. rewrite digit_val_char by lia.
    change (Z.of_nat 1) with 1 in *. rewrite Z.pow_1_r in *. rewrite (proj2 (Z.ltb_lt n base)), u64_small by nia.
    f_equal. lia.
  - rewrite length_app in *. cbn [length] in *. set (k := length (digits base fuel (n / base))) in *.
    rewrite Nat2Z.inj_succ, Z.pow_succ_r in Hn by lia. rewrite Nat2Z.inj_add, Z.pow_add_r in Ho by lia.
    change (base ^ Z.of_nat 1) with (base ^ 1) in Ho. rewrite Z.pow_1_r in Ho.
    assert (Hq : 0 <= n / base < base ^ Z.of_nat fuel).
    { split; [apply Z.div_pos; lia|]. apply Z.div_lt_upper_bound; lia. }
    pose proof (Z.div_mod n base ltac:(lia)) as Hdm. pose proof (Z.mod_pos_bound n base ltac:(lia)) as Hm.
    assert (0 <= base ^ Z.of_nat k) by (apply Z.pow_nonneg; lia).
    rewrite <- app_assoc, IH by (fold k; nia || lia). fold k.
    destruct (w - k)%nat as [|w'] eqn:Ew; [lia|]. cbn [app scan_digits]. rewrite digit_val_char by lia.
    rewrite (proj2 (Z.ltb_lt (n mod base) base)) by lia. rewrite u64_small by nia.
    replace (w - (k + 1))%nat with w' by lia. f_equal.
    rewrite Nat2Z.inj_add, Z.pow_add_r by lia. change (base ^ Z.of_nat 1) with (base ^ 1). rewrite Z.pow_1_r. nia.
Qed.

(** Text that does not go on with a digit. *)
Definition stops (base : Z) (rest : list Z) : Prop :=
  match rest with [] => True | c :: _ => is_digit base c = false end.

Lemma scan_digits_stop base rest w acc : stops base rest -> scan_digits base rest w acc = (acc, rest).
Proof.
  intros Hs. destruct rest as [|c rest]; [by destruct w|]. destruct w as [|w]; [done|]. cbn in *. unfold is_digit in Hs.
  destruct (digit_val c) as [d|]; [by rewrite Hs|done].
Qed.

(** The text ends or goes on with a colon. *)
Definition ends (rest : list Z) : Prop := match rest with [] => True | c :: _ => c = colon end.

Lemma ends_stops base rest : ends rest -> stops base rest.
Proof. destruct rest as [|c rest]; intros E; cbn in *; [done|by subst c]. Qed.

Lemma is_digit_char base d : 0 <= d < base -> base <= 16 -> is_digit base (digit_char d) = true.
Proof. intros Hd Hb. unfold is_digit. rewrite digit_val_char by lia. apply Z.ltb_lt. lia. Qed.

Lemma is_digit_not base c : is_digit base c = true -> is_space c = false /\ (c =? 120) = false /\ (c =? 88) = false /\ c <> minus.
Proof.
  intros H. assert (Hr : 48 <= c <= 57 \/ 97 <= c <= 102 \/ 65 <= c <= 70).
  { unfold is_digit, digit_val in H. destruct ((48 <=? c) && (c <=? 57)) eqn:E1; [lia|].
    destruct ((97 <=? c) && (c <=? 102)) eqn:E2; [lia|]. destruct ((65 <=? c) && (c <=? 70)) eqn:E3; [lia|done]. }
  unfold is_space, minus. lia.
Qed.

Lemma digits_digits base fuel n : 2 <= base <= 16 -> 0 <= n -> Forall (fun c => is_digit base c = true) (digits base fuel n).
Proof.
  intros Hb. revert n. induction fuel as [|fuel IH]; intros n Hn; cbn [digits]; [done|].
  destruct (Z.ltb_spec n base); [repeat constructor; apply is_digit_char; lia|].
  apply Forall_app. split; [apply IH, Z.div_pos; lia|]. repeat constructor. apply is_digit_char; [|lia].
  apply Z.mod_pos_bound. lia.
Qed.

Lemma digits_nonempty base fuel n : digits base (S fuel) n <> [].
Proof. cbn [digits]. destruct (n <? base); [done|]. by destruct (digits base fuel (n / base)). Qed.

Arguments digits : simpl never.

(** [scan_u] on a text of digits. *)
Lemma scan_u_text base width p rest : p <> [] -> Forall (fun c => is_digit base c = true) p -> ends rest ->
  scan_u base width (p ++ rest) = Some (scan_digits base (p ++ rest) (if Nat.eqb width 0 then length (p ++ rest) else width) 0).
Proof.
  intros Hp Hd He. destruct p as [|c p]; [done|]. apply Forall_cons in Hd as [Hc Hd].
  destruct (is_digit_not base c Hc) as (Hs & _). unfold scan_u. cbn [app skip_spaces]. rewrite Hs, Hc.
  destruct (p ++ rest) as [|x r] eqn:E; [done|].
  assert (Hx : (x =? 120) || (x =? 88) = false).
  { destruct p as [|y p]; cbn [app] in E.
    - subst rest. cbn in He. by subst x.
    - injection E as -> _. apply Forall_cons in Hd as [Hy _]. destruct (is_digit_not base x Hy) as (_ & -> & -> & _). done. }
  by rewrite Hx, andb_false_r.
Qed.

Lemma scan_zeros base z s w : 2 <= base -> (z <= w)%nat -> scan_digits base (replicate z 48 ++ s) w 0 = scan_digits base s (w - z) 0.
Proof.
  intros Hb. revert w. induction z as [|z IH]; intros w Hz; [by rewrite Nat.sub_0_r|]. destruct w as [|w]; [lia|].
  cbn [replicate app scan_digits]. change (digit_val 48) with (Some 0). cbv iota beta. rewrite (proj2 (Z.ltb_lt 0 base)) by lia.
  change (u64 (0 * base + 0)) with 0. apply IH. lia.
Qed.

(** A number printed with [z] leading zeros. *)
Lemma scan_u_print base width z n rest :
  base = 10 \/ base = 16 -> 0 <= n < 2 ^ 64 -> ends rest ->
  (width = 0%nat \/ (z + length (digits base 20 n) <= width)%nat) ->
  scan_u base width (replicate z 48 ++ digits base 20 n ++ rest) = Some (n, rest).
Proof.
  intros Hb Hn He Hw. assert (H16 : 2 <= base <= 16) by lia. set (p := digits base 20 n).
  assert (Hf : n < base ^ Z.of_nat 20) by (destruct Hb as [-> | ->]; [change (10 ^ Z.of_nat 20) with (10 ^ 20)|change (16 ^ Z.of_nat 20) with (16 ^ 20)]; lia).
  rewrite app_assoc, scan_u_text; [|..|done].
  - rewrite <- app_assoc, scan_zeros by (try lia; rewrite !length_app, length_replicate in *; destruct (Nat.eqb_spec width 0); lia).
    set (w := ((if Nat.eqb width 0 then _ else _) - z)%nat).
    assert (Hl : (length p <= w)%nat).
    { unfold w. rewrite !length_app, length_replicate. destruct (Nat.eqb_spec width 0); unfold p in *; lia. }
    unfold p in *. rewrite scan_digits_app by lia. rewrite Z.mul_0_l, Z.add_0_l. by rewrite scan_digits_stop by by apply ends_stops.
  - intros E. apply app_eq_nil in E as [_ E]. by apply digits_nonempty in E.
  - apply Forall_app. split; [|apply digits_digits; lia]. apply Forall_forall. intros c Hc.
    apply elem_of_replicate in Hc as [-> _]. destruct Hb as [-> | ->]; reflexivity.
Qed.

Lemma scan_u_plain base n rest : base = 10 \/ base = 16 -> 0 <= n < 2 ^ 64 -> ends rest ->
  scan_u base 0 (digits base 20 n ++ rest) = Some (n, rest).
Proof. intros Hb Hn He. apply (scan_u_print base 0 0 n rest Hb Hn He). by left. Qed.

Lemma scan_x16 n rest : 0 <= n < 2 ^ 64 -> ends rest -> scan_u 16 16 (print_x16 n ++ rest) = Some (n, rest).
Proof.
  intros Hn He. unfold print_x16, print_x. rewrite <- app_assoc. apply scan_u_print; [by right|done|done|right].
  assert (Hl : (length (digits 16 20 n) <= 16)%nat); [|lia]. rewrite (digits_fuel 16 20 16) by lia.
  apply digits_length; [lia|]. change (16 ^ Z.of_nat 16) with (2 ^ 64). lia.
Qed.

Lemma scan_d_print n rest : - 2 ^ 63 <= n < 2 ^ 63 -> ends rest -> scan_d (print_d n ++ rest) = Some (n, rest).
Proof.
  intros Hn He. unfold print_d, print_u. destruct (Z.ltb_spec n 0) as [Hneg|Hpos].
  - pose proof (scan_u_plain 10 (- n) rest ltac:(by left) ltac:(lia) He) as Hs.
    pose proof (digits_digits 10 20 (- n) ltac:(lia) ltac:(lia)) as Hd. pose proof (digits_nonempty 10 19 (- n)) as Hne.
    remember (digits 10 20 (- n)) as ds eqn:Eds. unfold scan_d. cbn [app skip_spaces]. change (is_space minus) with false. change (minus =? minus) with true.
    rewrite scan_u_text in Hs by done. injection Hs as Hs. change (Nat.eqb 0 0) with true in Hs. cbn iota in Hs.
    clear Eds. destruct ds as [|c p]; [done|]. apply Forall_cons in Hd as [Hc _]. cbn [app] in *. rewrite Hc, Hs.
    do 2 f_equal. lia.
  - pose proof (scan_u_plain 10 n rest ltac:(by left) ltac:(lia) He) as Hs.
    pose proof (digits_digits 10 20 n ltac:(lia) ltac:(lia)) as Hd. pose proof (digits_nonempty 10 19 n) as Hne.
    remember (digits 10 20 n) as ds eqn:Eds. clear Eds. unfold scan_d. destruct ds as [|c p]; [done|]. apply Forall_cons in Hd as [Hc _]. cbn [app skip_spaces].
    destruct (is_digit_not 10 c Hc) as (-> & _ & _ & Hm). by rewrite (proj2 (Z.eqb_neq c minus)).
Qed.

(** Two numbers printed one after the other are read as one. *)
Lemma scan_d_two n m rest : 0 <= n < 2 ^ 63 -> 0 <= m < 2 ^ 63 -> ends rest ->
  n * 10 ^ Z.of_nat (length (print_d m)) + m < 2 ^ 64 ->
  scan_d (print_d n ++ print_d m ++ rest) = Some (n * 10 ^ Z.of_nat (length (print_d m)) + m, rest).
Proof.
  intros Hn Hm He Ho. unfold print_d, print_u in *. rewrite !(proj2 (Z.ltb_ge _ 0)) in * by lia.
  pose proof (digits_digits 10 20 n ltac:(lia) ltac:(lia)) as Dn. pose proof (digits_digits 10 20 m ltac:(lia) ltac:(lia)) as Dm.
  pose proof (digits_nonempty 10 19 n) as Nn.
  assert (E : scan_u 10 0 (digits 10 20 n ++ digits 10 20 m ++ rest)
    = Some (n * 10 ^ Z.of_nat (length (digits 10 20 m)) + m, rest)).
  { rewrite app_assoc, scan_u_text; [|by intros [? _]%app_eq_nil|by apply Forall_app|done]. cbn [Nat.eqb].
    assert (H20 : 2 ^ 64 <= 10 ^ Z.of_nat 20) by (change (10 ^ Z.of_nat 20) with (10 ^ 20); lia).
    rewrite <- app_assoc, scan_digits_app by (rewrite ?length_app; lia). rewrite Z.mul_0_l, Z.add_0_l.
    rewrite scan_digits_app by (rewrite ?length_app; lia). by rewrite scan_digits_stop by by apply ends_stops. }
  unfold scan_d. destruct (digits 10 20 n) as [|c p]; [done|]. apply Forall_cons in Dn as [Hc _]. cbn [app skip_spaces] in *.
  destruct (is_digit_not 10 c Hc) as (-> & _ & _ & Hmi). by rewrite (proj2 (Z.eqb_neq c minus)).
Qed.

(** A conversion and a printed value that belong together. *)
Inductive printed : conv -> Z -> list Z -> Prop :=
| pr_u n : 0 <= n < 2 ^ 64 -> printed (CU 10 0) n (print_u n)
| pr_x n : 0 <= n < 2 ^ 64 -> printed (CU 16 0) n (print_x n)
| pr_x16 n : 0 <= n < 2 ^ 64 -> printed (CU 16 16) n (print_x16 n)
| pr_d n : - 2 ^ 63 <= n < 2 ^ 63 -> printed CD n (print_d n).

Lemma scan_printed c v p rest : printed c v p -> ends rest -> scan_conv c (p ++ rest) = Some (v, rest).
Proof.
  intros [n Hn|n Hn|n Hn|n Hn] He; cbn [scan_conv].
  - by apply scan_u_plain; [left|..].
  - by apply scan_u_plain; [right|..].
  - by apply scan_x16.
  - by apply scan_d_print.
Qed.

Lemma length_print_d n b : 0 <= n < 10 ^ Z.of_nat b -> (0 < b <= 20)%nat -> (length (print_d n) <= b)%nat.
Proof.
  intros Hn Hb. unfold print_d, print_u. rewrite (proj2 (Z.ltb_ge n 0)) by lia.
  assert (10 ^ Z.of_nat b <= 10 ^ Z.of_nat 20) by (apply Z.pow_le_mono_r; lia).
  rewrite (digits_fuel 10 20 b) by lia. apply digits_length; lia.
Qed.

(** What sprintf wrote with a list of conversions, sscanf reads with it. *)
Lemma scan_print_list cs vs ps rest : Forall3 printed cs vs ps -> ends rest ->
  scan_list cs (print_list ps ++ rest) = (vs, rest) \/ cs = [].
Proof.
  intros H He. induction H as [|c v p cs vs ps Hp H IH]; [by right|left]. cbn [scan_list print_list].
  destruct ps as [|p2 ps].
  - inversion H; subst. by rewrite (scan_printed c v p rest Hp He).
  - inversion H; subst. destruct IH as [IH|IH]; [|done]. rewrite <- app_assoc. cbn [app].
    rewrite (scan_printed c v p) by done. change (colon =? colon) with true. cbn iota. by rewrite IH.
Qed.
