(* ===== verification/Layout.v ===== *)
(** * On-media layout and address arithmetic (rdfs.h, rdfs_const.h, macro_cfg.h)

    Constants, the byte offsets of the structs the master keeps in the
    ioremapped area, the virtual/physical translation, NUMA selection, the
    inode-number arithmetic and the page-table entry accessors. *)

From S2P Require Import Prelude Mem.

(** ** Constants *)

(** x86-64 page geometry. *)
Definition PAGE_SHIFT : Z := 12.
Definition PAGE_SIZE : Z := 4096.
(** [PAGE_MASK] is ~(PAGE_SIZE - 1) as an unsigned long. *)
Definition PAGE_MASK : Z := 2 ^ 64 - 2 ^ 12.
Definition PTRS_PER_TABLE : Z := 512.
Definition PUD_SHIFT : Z := 30.

Definition RDFS_START : Z := 0xffffcb0000000000.
Definition RDFS_END : Z := 0xffffe8ffffffffff.
Definition DIR_AREA_SIZE : Z := 2 ^ 35.
Definition MAX_DIR_SIZE : Z := 2 ^ 21.
Definition MAX_FILE_NUM : Z := 1024.
Definition MAX_FILE_SIZE : Z := 2 ^ 35.
Definition RDFS_SB_SIZE : Z := PAGE_SIZE / 2.
Definition RDFS_SB_SPACE : Z := PAGE_SIZE.
Definition ADDRESS_TO_INO_SPACE : Z := MAX_FILE_NUM * 8.
Definition BDEV_DES_OFFSET : Z := RDFS_SB_SPACE + ADDRESS_TO_INO_SPACE.
Definition RDFS_ROOT_INO : Z := 1.
Definition RDFS_INODE_BITS : Z := 7.
Definition RDFS_INODE_SIZE : Z := 128.
Definition RDFS_EOFBLOCKS_FL : Z := 0x20000000.
Definition BADINO : Z := 0x10002.
Definition PGFAILD : Z := 0x10003.
Definition rdfs_NUMA_LINE : Z := 0x1880000000.
Definition NUMA_NODE1_MASK : Z := 0xfc0fc0.
Definition NUMA_MASK : Z := NUMA_NODE1_MASK.
Definition CPU_NR : Z := 24.
Definition COUNT_PER_ALLOC : Z := 512.
Definition DEFAYLT_CAPACITY : Z := 512.

(** ** Struct offsets (natural alignment of the x86-64 ABI) *)

Module super_block_off.
Definition s_numa_flag : Z := 48.
Definition s_bdev_count : Z := 49.
Definition s_magic : Z := 50.
Definition s_mtime : Z := 52.
Definition s_wtime : Z := 56.
Definition s_sum : Z := 60.
Definition s_blocksize : Z := 64.
Definition s_inode_size : Z := 68.
Definition s_physaddr : Z := 72.
Definition s_inode_count : Z := 80.
Definition s_block_count : Z := 88.
Definition s_size : Z := 96.
Definition s_numa_des : Z := 104.
Definition p_address_to_ino : Z := 120.
End super_block_off.

Module numa_off.
Definition free_inode_count : Z := 0.
Definition free_page_count : Z := 8.
Definition free_inode_phy : Z := 16.
Definition free_page_phy : Z := 24.
Definition inode_lock : Z := 32.
Definition free_list_lock : Z := 36.
Definition lru_rwlock : Z := 40.
Definition padding : Z := 48.
End numa_off.
(** "keep the size 128B" *)
Definition sizeof_numa_des : Z := 128.

Module inode_off.
Definition i_sum : Z := 0.
Definition i_mode : Z := 4.
Definition i_link_counts : Z := 8.
Definition i_bytes : Z := 12.
Definition i_flags : Z := 16.
Definition i_file_acl : Z := 20.
Definition i_dir_acl : Z := 24.
Definition i_atime : Z := 28.
Definition i_ctime : Z := 32.
Definition i_mtime : Z := 36.
Definition i_dtime : Z := 40.
Definition i_uid : Z := 44.
Definition i_gid : Z := 48.
Definition i_generation : Z := 52.
Definition i_blocks : Z := 56.
Definition i_size : Z := 64.
Definition i_pg_addr : Z := 72.
Definition i_accessed_count : Z := 80.
Definition list_pro : Z := 88.
Definition list_next : Z := 96.
Definition i_hot_page_num : Z := 104.
Definition i_cold_dram : Z := 112.
Definition i_hot_dram : Z := 120.
Definition i_cold_page_start : Z := 128.
Definition i_cold_page_num : Z := 132.
End inode_off.
Definition sizeof_rdfs_inode : Z := 136.

(** struct bdev_des: 8 bdev, 8 spinlock and padding, 16 start/end, 25 pools of 24
    bytes, 16 pgtable/free_pmd_page. *)
Definition sizeof_bdev_des : Z := 8 + 8 + 16 + (CPU_NR + 1) * 24 + 16.

(** ** The mounted filesystem (struct rdfs_sb_info) *)

Record rdfs_sb_info := mk_sbi {
  virt_addr : Z;
  phy_addr : Z;
  num_inodes : Z;
  sb_blocksize : Z;
  s_inode_size : Z;
  bpi : Z;
  initsize : Z;
  s_mount_opt : Z;
  sb_uid : Z;
  sb_gid : Z;
  sb_mode : Z;
  next_generation : Z;
  bdev_count : Z;
  atomic_bdev_post : Z
}.

Definition rdfs_va (sbi : rdfs_sb_info) (phys : Z) : Z :=
  u64 (phys - phy_addr sbi + virt_addr sbi).

Definition rdfs_pa (sbi : rdfs_sb_info) (virt : Z) : Z :=
  u64 (virt - virt_addr sbi + phy_addr sbi).

Definition rdfs_get_super (sbi : rdfs_sb_info) : Z := virt_addr sbi.

Definition rdfs_get_redund_super (sbi : rdfs_sb_info) : Z :=
  u64 (virt_addr sbi + RDFS_SB_SIZE).

(** Fields of the super block in memory. *)
Definition s_numa_flag (m : mem) (sbi : rdfs_sb_info) : bool :=
  negb (ld 1 m (rdfs_get_super sbi + super_block_off.s_numa_flag) =? 0).

Definition s_numa_des (m : mem) (sbi : rdfs_sb_info) (id : Z) : Z :=
  ld 8 m (rdfs_get_super sbi + super_block_off.s_numa_des + 8 * id).

Definition p_address_to_ino (m : mem) (sbi : rdfs_sb_info) : Z :=
  ld 8 m (rdfs_get_super sbi + super_block_off.p_address_to_ino).

(** ** NUMA selection *)

Definition rdfs_get_cpu_numa_id : Z := 0.

Definition rdfs_get_numa_by_id (m : mem) (sbi : rdfs_sb_info) (id : Z) : Z :=
  s_numa_des m sbi id.

Definition rdfs_get_phys_numa_id (m : mem) (sbi : rdfs_sb_info) (phys : Z) : Z :=
  if s_numa_flag m sbi && (rdfs_NUMA_LINE <? phys) then 1 else 0.

Definition rdfs_get_inode_numa_id (m : mem) (sbi : rdfs_sb_info) (ni : Z) : Z :=
  rdfs_get_phys_numa_id m sbi (rdfs_pa sbi ni).

Definition rdfs_get_numa_by_inode (m : mem) (sbi : rdfs_sb_info) (ni : Z) : Z :=
  rdfs_get_numa_by_id m sbi (rdfs_get_inode_numa_id m sbi ni).

(** ** Disk-sector page-table entries *)

Definition get_sn_from_pte_v (pte_v : Z) : Z :=
  Z.shiftr (Z.land pte_v 0x0FFFFFFFFFFF000) 12.

Definition get_bdev_id_from_pte_v (pte_v : Z) : Z :=
  Z.shiftr (Z.land pte_v 0x7000000000000000) 60.

(** get_sn_from_pte and get_bdev_id_from_pte take the entry's address. *)
Definition get_sn_from_pte (m : mem) (pte : Z) : Z := get_sn_from_pte_v (ld 8 m pte).
Definition get_bdev_id_from_pte (m : mem) (pte : Z) : Z := get_bdev_id_from_pte_v (ld 8 m pte).

Definition get_bdev_des_by_id (sbi : rdfs_sb_info) (bdev_id : Z) : Z :=
  u64 (virt_addr sbi + BDEV_DES_OFFSET + bdev_id * sizeof_bdev_des).

Definition pte_is_sn (m : mem) (pte : Z) : bool :=
  Z.land (ld 8 m pte) (PAGE_SIZE - 1) =? 0.

(** The slot of the address-to-inode table for a mapped file.  The pointer sum is
    scaled by the element size once more, because the offset is already in bytes. *)
Definition rdfs_address_to_ino (m : mem) (sbi : rdfs_sb_info) (address : Z) : Z :=
  let index := s32 (u64 (address - RDFS_START - DIR_AREA_SIZE) / MAX_FILE_SIZE) in
  u64 (p_address_to_ino m sbi + u64 (index * 8) * 8).

(** ** Inode numbers *)

Definition get_rdfs_inode (m : mem) (sbi : rdfs_sb_info) (ino : Z) : Z :=
  if s_numa_flag m sbi then
    if Z.land ino 1 =? 0 then
      u64 (s_numa_des m sbi 1 + sizeof_numa_des
           + u64 (Z.shiftl (Z.shiftr (u64 (ino - 2)) 1) RDFS_INODE_BITS))
    else
      u64 (s_numa_des m sbi 0 + sizeof_numa_des
           + u64 (Z.shiftl (Z.shiftr (u64 (ino - 1)) 1) RDFS_INODE_BITS))
  else
    u64 (s_numa_des m sbi 0 + sizeof_numa_des
         + u64 (Z.shiftl (u64 (ino - 1)) RDFS_INODE_BITS)).

Definition get_rdfs_inode_phy_addr (m : mem) (sbi : rdfs_sb_info) (ino : Z) : Z :=
  rdfs_pa sbi (get_rdfs_inode m sbi ino).

Definition get_rdfs_inodenr (m : mem) (sbi : rdfs_sb_info) (inode_phy : Z) : Z :=
  if s_numa_flag m sbi then
    if rdfs_NUMA_LINE <? inode_phy then
      u64 (u64 (Z.shiftl (Z.shiftr (u64 (inode_phy - rdfs_pa sbi (s_numa_des m sbi 1)
                                         - sizeof_numa_des)) RDFS_INODE_BITS) 1) + 2)
    else
      u64 (u64 (Z.shiftl (Z.shiftr (u64 (inode_phy - rdfs_pa sbi (s_numa_des m sbi 0)
                                         - sizeof_numa_des)) RDFS_INODE_BITS) 1) + 1)
  else
    u64 (Z.shiftr (u64 (inode_phy - rdfs_pa sbi (s_numa_des m sbi 0)
                        - sizeof_numa_des)) RDFS_INODE_BITS + 1).

(** ** Page-table entries

    Flag bits and entry tests of the kernel's page-table headers, which are not
    part of the sources: a parameter with the x86-64 facts the code relies on. *)
Class KernelPg := {
  PAGE_TABLE : Z;        (* _PAGE_TABLE *)
  PAGE_KERNEL : Z;       (* __PAGE_KERNEL *)
  entry_none : Z -> bool;    (* pud_none, pmd_none, pte_none *)
  entry_present : Z -> bool; (* pud_present, pmd_present *)
  pmd_index : Z -> Z;
  pte_index : Z -> Z;
  PAGE_TABLE_low : 0 < PAGE_TABLE < 2 ^ 12;
  PAGE_KERNEL_low : 0 < PAGE_KERNEL mod 2 ^ 12;
  PAGE_KERNEL_nx : PAGE_KERNEL / 2 ^ 12 = 0 \/ PAGE_KERNEL / 2 ^ 12 = 2 ^ 51;
  entry_none_spec : forall v, entry_none v = (v =? 0);
  entry_present_0 : entry_present 0 = false;
  pmd_index_spec : forall a, pmd_index a = a / 2 ^ 21 mod 512;
  pte_index_spec : forall a, pte_index a = a / 2 ^ 12 mod 512
}.

Section pgtable_entries.
Context `{!KernelPg} (sbi : rdfs_sb_info).

Definition get_phys_from_pte_val (pte : Z) : Z := Z.land pte 0x7ffffffffffff000.
Definition rdfs_get_phy_from_pte (m : mem) (pte : Z) : Z := Z.land (ld 8 m pte) 0x7ffffffffffff000.
Definition rdfs_get_phy_from_pmd (m : mem) (pmd : Z) : Z := Z.land (ld 8 m pmd) 0x7ffffffffffff000.
Definition rdfs_get_phy_from_pud (m : mem) (pud : Z) : Z := Z.land (ld 8 m pud) 0x7ffffffffffff000.

Definition rdfs_set_pte (m : mem) (pte phys : Z) : mem := st 8 m pte (Z.lor phys PAGE_KERNEL).
Definition rdfs_set_pmd (m : mem) (pmd pte : Z) : mem :=
  st 8 m pmd (Z.lor (rdfs_pa sbi pte) PAGE_TABLE).
Definition rdfs_set_pud (m : mem) (pud pmd : Z) : mem :=
  st 8 m pud (Z.lor (rdfs_pa sbi pmd) PAGE_TABLE).

(** NULL is 0. *)
Definition rdfs_get_pud (m : mem) (ino : Z) : Z :=
  let ni := get_rdfs_inode m sbi ino in
  if ld 8 m (ni + inode_off.i_pg_addr) =? 0 then 0
  else rdfs_va sbi (ld 8 m (ni + inode_off.i_pg_addr)).

Definition rdfs_get_pmd (m : mem) (pud : Z) : Z := rdfs_va sbi (Z.land (ld 8 m pud) PAGE_MASK).
Definition rdfs_get_pte (m : mem) (pmd : Z) : Z := rdfs_va sbi (Z.land (ld 8 m pmd) PAGE_MASK).

Definition rdfs_pmd_offset (m : mem) (pud address : Z) : Z :=
  u64 (rdfs_va sbi (rdfs_get_phy_from_pud m pud) + 8 * pmd_index address).
Definition rdfs_pte_offset (m : mem) (pmd address : Z) : Z :=
  u64 (rdfs_va sbi (rdfs_get_phy_from_pmd m pmd) + 8 * pte_index address).

Definition rdfs_pud_populate (m : mem) (pud pmd : Z) : mem := rdfs_set_pud m pud pmd.
End pgtable_entries.

(** ** Facts about translation *)

Lemma u64_shift x a b : u64 (u64 (x - a + b) - b + a) = u64 x.
Proof.
  unfold u64. replace ((x - a + b) mod 2 ^ 64 - b + a)
    with ((x - a + b) mod 2 ^ 64 + (a - b)) by lia.
  rewrite Zplus_mod_idemp_l. f_equal. lia.
Qed.

Lemma rdfs_pa_va sbi p : 0 <= p < 2 ^ 64 -> rdfs_pa sbi (rdfs_va sbi p) = p.
Proof. intros. unfold rdfs_pa, rdfs_va. rewrite u64_shift. by apply u64_small. Qed.

Lemma rdfs_va_pa sbi v : 0 <= v < 2 ^ 64 -> rdfs_va sbi (rdfs_pa sbi v) = v.
Proof. intros. unfold rdfs_pa, rdfs_va. rewrite u64_shift. by apply u64_small. Qed.

(** [Area sbi size]: the filesystem occupies [size] bytes at [phy_addr], mapped at
    [virt_addr]; physical addresses have at most 52 bits and the virtual range does
    not wrap around. *)
Class Area (sbi : rdfs_sb_info) (size : Z) : Prop := {
  area_phy : 0 <= phy_addr sbi;
  area_virt : 0 < virt_addr sbi;
  area_size : 0 < size;
  area_phy_end : phy_addr sbi + size < 2 ^ 52;
  area_virt_end : virt_addr sbi + size < 2 ^ 64
}.

Section area.
Context {sbi : rdfs_sb_info} {size : Z} {A : Area sbi size}.

Lemma va_eq p :
  phy_addr sbi <= p < phy_addr sbi + size -> rdfs_va sbi p = p - phy_addr sbi + virt_addr sbi.
Proof. destruct A. intros. unfold rdfs_va. apply u64_small. lia. Qed.

Lemma pa_eq v :
  virt_addr sbi <= v < virt_addr sbi + size -> rdfs_pa sbi v = v - virt_addr sbi + phy_addr sbi.
Proof. destruct A. intros. unfold rdfs_pa. apply u64_small. lia. Qed.
End area.

(** ** Inode slots

    Node [k] owns inode numbers 1, 2, 3, ... without NUMA, the odd ones (node 0)
    or the even ones (node 1) with it. *)
Definition ino_node (m : mem) (sbi : rdfs_sb_info) (ino : Z) : Z :=
  if s_numa_flag m sbi && (Z.land ino 1 =? 0) then 1 else 0.

Definition ino_index (m : mem) (sbi : rdfs_sb_info) (ino : Z) : Z :=
  if s_numa_flag m sbi then (ino - 1) / 2 else ino - 1.

(** The slots of both nodes lie in the area, on their side of the NUMA line. *)
Record slot_ok (m : mem) (sbi : rdfs_sb_info) (size ino : Z) : Prop := {
  slot_ino : 1 <= ino;
  slot_lo : virt_addr sbi <= s_numa_des m sbi (ino_node m sbi ino);
  slot_hi : s_numa_des m sbi (ino_node m sbi ino) + sizeof_numa_des
            + ino_index m sbi ino * RDFS_INODE_SIZE < virt_addr sbi + size;
  slot_node0 : s_numa_flag m sbi = true -> ino_node m sbi ino = 0 ->
    rdfs_pa sbi (s_numa_des m sbi 0 + sizeof_numa_des + ino_index m sbi ino * RDFS_INODE_SIZE)
    <= rdfs_NUMA_LINE;
  slot_node1 : s_numa_flag m sbi = true -> rdfs_NUMA_LINE <= rdfs_pa sbi (s_numa_des m sbi 1)
}.

Lemma land_1_mod x : Z.land x 1 = x mod 2.
Proof. change 1 with (2 ^ 1 - 1) at 1. by rewrite land_ones_mod. Qed.

Ltac slot_arith :=
  unfold RDFS_INODE_BITS, RDFS_INODE_SIZE, sizeof_numa_des in *;
  rewrite ?shiftr_div, ?shiftl_mul in * by lia; conv.

Lemma get_rdfs_inode_eq m sbi size ino :
  Area sbi size -> slot_ok m sbi size ino ->
  get_rdfs_inode m sbi ino =
  s_numa_des m sbi (ino_node m sbi ino) + sizeof_numa_des + ino_index m sbi ino * RDFS_INODE_SIZE.
Proof.
  intros [] [H1 H2 H3 _ _]. unfold get_rdfs_inode, ino_node, ino_index in *.
  rewrite land_1_mod in *.
  destruct (s_numa_flag m sbi); cbn in *; [destruct (Z.eqb_spec (ino mod 2) 0)|]; slot_arith.
Qed.

Lemma slot_delta nd i v f :
  nd + sizeof_numa_des + i * RDFS_INODE_SIZE - v + f - (nd - v + f) - sizeof_numa_des
  = i * RDFS_INODE_SIZE.
Proof. lia. Qed.

Lemma slot_shift i : 0 <= i * RDFS_INODE_SIZE < 2 ^ 64 ->
  Z.shiftr (u64 (i * RDFS_INODE_SIZE)) RDFS_INODE_BITS = i.
Proof. intros. rewrite u64_small by lia. slot_arith. Qed.

(** Inode numbers and inode addresses determine each other. The slot address
    computed by [get_rdfs_inode] for any inode number whose slot lies in the
    filesystem area maps back to that number under [get_rdfs_inodenr], on one
    NUMA node or two. *)
Theorem inodenr_roundtrip m sbi size ino :
  Area sbi size -> slot_ok m sbi size ino ->
  get_rdfs_inodenr m sbi (get_rdfs_inode_phy_addr m sbi ino) = ino.
Proof.
  intros A S. unfold get_rdfs_inode_phy_addr. rewrite (get_rdfs_inode_eq m sbi size ino A S).
  destruct S as [H1 H2 H3 H4 H5]. pose proof A as [].
  assert (Hi : 0 <= ino_index m sbi ino)
    by (unfold ino_index; destruct (s_numa_flag m sbi); [zdm|lia]).
  assert (Hs : 0 <= ino_index m sbi ino * RDFS_INODE_SIZE < 2 ^ 64)
    by (unfold RDFS_INODE_SIZE, sizeof_numa_des in *; lia).
  unfold get_rdfs_inodenr.
  unfold ino_node in *. rewrite land_1_mod in *.
  destruct (s_numa_flag m sbi) eqn:Hf; cbn in *; [destruct (Z.eqb_spec (ino mod 2) 0)|].
  - specialize (H5 eq_refl). rewrite !(pa_eq (size := size)) in *
      by (unfold RDFS_INODE_SIZE, sizeof_numa_des in *; lia).
    rewrite (proj2 (Z.ltb_lt _ _)) by (unfold RDFS_INODE_SIZE, sizeof_numa_des in *; lia).
    rewrite slot_delta, slot_shift by done. unfold ino_index in *. rewrite Hf in *. slot_arith.
  - specialize (H4 eq_refl eq_refl). rewrite (proj2 (Z.ltb_ge _ _)) by done.
    rewrite !(pa_eq (size := size)) by (unfold RDFS_INODE_SIZE, sizeof_numa_des in *; lia).
    rewrite slot_delta, slot_shift by done. unfold ino_index in *. rewrite Hf in *. slot_arith.
  - rewrite !(pa_eq (size := size)) by (unfold RDFS_INODE_SIZE, sizeof_numa_des in *; lia).
    rewrite slot_delta, slot_shift by done. unfold ino_index in *. rewrite Hf in *. slot_arith.
Qed.
