(* ===== verification/FreeList.v ===== *)
(** * Intrusive free lists in memory

    Free pages and free inodes are singly linked through a word of the free
    element itself, with the head and the count kept in a NUMA descriptor.  This
    file relates such a list to its abstract value, the list of the physical
    addresses of the free elements in order. *)

From S2P Require Import Prelude Mem Layout.

(** Where a free list lives: the virtual addresses of its count and head words,
    the physical range of its elements, their size and the link word's offset. *)
Record flist := mk_flist {
  fl_count : Z;
  fl_head : Z;
  fl_lo : Z;
  fl_hi : Z;
  fl_esz : Z;
  fl_off : Z
}.

Section freelist.
Context (sbi : rdfs_sb_info) (size : Z) {A : Area sbi size}.
Context (F : flist).

Definition link (p : Z) : Z := rdfs_va sbi p + fl_off F.

(** [chain m p l]: following the links from [p] visits exactly [l]. *)
Fixpoint chain (m : mem) (p : Z) (l : list Z) : Prop :=
  match l with
  | [] => True
  | q :: l' => p = q /\ chain m (ld 8 m (link q)) l'
  end.

(** The pointer reached after following [n] links. *)
Fixpoint nth_ptr (m : mem) (n : nat) (p : Z) : Z :=
  match n with O => p | S n' => nth_ptr m n' (ld 8 m (link p)) end.

Definition elem_ok (p : Z) : Prop :=
  fl_lo F <= p /\ p + fl_esz F <= fl_hi F /\ (fl_esz F | p - fl_lo F).

Definition outside (a : Z) : Prop :=
  a + 8 <= rdfs_va sbi (fl_lo F) \/ rdfs_va sbi (fl_lo F) + (fl_hi F - fl_lo F) <= a.

Record flist_wf : Prop := {
  wf_lo : phy_addr sbi <= fl_lo F;
  wf_hi : fl_hi F <= phy_addr sbi + size;
  wf_esz : 8 <= fl_esz F;
  wf_off : 0 <= fl_off F /\ fl_off F + 8 <= fl_esz F;
  wf_words : fl_count F + 8 <= fl_head F \/ fl_head F + 8 <= fl_count F;
  wf_count : fl_lo F < fl_hi F -> outside (fl_count F);
  wf_head : fl_lo F < fl_hi F -> outside (fl_head F)
}.

(** The memory represents the abstract free list [l]. *)
Record free_rep (m : mem) (l : list Z) : Prop := {
  rep_count : ld 8 m (fl_count F) = Z.of_nat (length l);
  rep_chain : chain m (ld 8 m (fl_head F)) l;
  rep_elems : Forall elem_ok l;
  rep_nodup : NoDup l
}.

(** ** Lemmas *)

Lemma elem_disjoint p q : 0 < fl_esz F -> elem_ok p -> elem_ok q -> p <> q ->
  p + fl_esz F <= q \/ q + fl_esz F <= p.
Proof using Type.
  intros He (_ & _ & [a Ha]) (_ & _ & [b Hb]) Hne.
  destruct (Z.lt_trichotomy a b) as [?|[?|?]]; [left|subst; lia|right]; nia.
Qed.

Lemma elem_range (W : flist_wf) p : elem_ok p ->
  phy_addr sbi <= p /\ p + 8 <= p + fl_esz F /\ p + fl_esz F <= phy_addr sbi + size.
Proof. destruct W. intros (? & ? & _). lia. Qed.

Lemma elem_u64 (W : flist_wf) p : elem_ok p -> 0 <= p < 2 ^ 64.
Proof. intros H. pose proof (elem_range W p H). destruct A. lia. Qed.

Lemma link_eq (W : flist_wf) p : elem_ok p -> link p = p - phy_addr sbi + virt_addr sbi + fl_off F.
Proof.
  intros H. pose proof (elem_range W p H). unfold link. rewrite (va_eq (size := size)) by lia. lia.
Qed.

Lemma lo_eq (W : flist_wf) p : elem_ok p ->
  rdfs_va sbi (fl_lo F) = fl_lo F - phy_addr sbi + virt_addr sbi /\ fl_lo F < fl_hi F.
Proof.
  intros H. pose proof (elem_range W p H) as Hr. destruct H as (? & ? & _). destruct W.
  rewrite (va_eq (size := size)) by lia. lia.
Qed.

(** A link word is disjoint from the descriptor's words and from other links. *)
Lemma link_words (W : flist_wf) p : elem_ok p ->
  (link p + 8 <= fl_count F \/ fl_count F + 8 <= link p) /\
  (link p + 8 <= fl_head F \/ fl_head F + 8 <= link p).
Proof.
  intros H. rewrite (link_eq W p H). destruct (lo_eq W p H) as [Hlo Hlt].
  pose proof W as []. specialize (wf_count0 Hlt). specialize (wf_head0 Hlt).
  unfold outside in *. rewrite Hlo in *. destruct H as (? & ? & _). lia.
Qed.

Lemma link_disjoint (W : flist_wf) p q : elem_ok p -> elem_ok q -> p <> q ->
  link p + 8 <= link q \/ link q + 8 <= link p.
Proof.
  intros Hp Hq Hne. rewrite (link_eq W p Hp), (link_eq W q Hq).
  pose proof W as []. destruct (elem_disjoint p q ltac:(lia) Hp Hq Hne); lia.
Qed.

Lemma chain_frame m m' p l :
  (forall q, q ∈ l -> ld 8 m' (link q) = ld 8 m (link q)) -> chain m p l -> chain m' p l.
Proof using Type.
  revert p. induction l as [|q l IH]; intros p Hf; [done|]. intros [-> Hc].
  split; [done|]. rewrite Hf by constructor. apply IH; [|done]. intros; apply Hf; by constructor.
Qed.

Lemma chain_take m p l n : chain m p l -> chain m p (take n l).
Proof using Type.
  revert p n. induction l as [|q l IH]; intros p [|n] Hc; try done.
  destruct Hc as [-> Hc]. cbn. auto.
Qed.

Lemma chain_drop m p l n :
  (n <= length l)%nat -> chain m p l -> chain m (nth_ptr m n p) (drop n l).
Proof using Type.
  revert p l. induction n as [|n IH]; intros p l Hn Hc; [done|].
  destruct l as [|q l]; [cbn in Hn; lia|]. destruct Hc as [-> Hc]. cbn. apply IH; [cbn in Hn; lia|done].
Qed.

Lemma nth_ptr_range m n p : 0 <= p < 2 ^ 64 -> 0 <= nth_ptr m n p < 2 ^ 64.
Proof using Type. revert p. induction n as [|n IH]; intros p Hp; [done|]. apply IH, ld8_range. Qed.

Lemma chain_app m p l1 l2 :
  chain m p (l1 ++ l2) <-> chain m p l1 /\ chain m (nth_ptr m (length l1) p) l2.
Proof using Type.
  revert p. induction l1 as [|q l1 IH]; intros p; cbn; [tauto|].
  split.
  - intros [-> H]. apply IH in H. tauto.
  - intros [[-> H1] H2]. split; [done|]. apply IH. tauto.
Qed.

Lemma nth_ptr_frame m m' p l :
  chain m p l -> (forall q, q ∈ l -> ld 8 m' (link q) = ld 8 m (link q)) ->
  nth_ptr m' (length l) p = nth_ptr m (length l) p.
Proof using Type.
  revert p. induction l as [|q l IH]; intros p Hc Hf; [done|].
  destruct Hc as [-> Hc]. cbn. rewrite Hf by constructor. apply IH; [done|].
  intros; apply Hf; by constructor.
Qed.

(** The head of a non-empty list is its first element. *)
Lemma rep_head m q l : free_rep m (q :: l) -> ld 8 m (fl_head F) = q.
Proof using Type. intros [_ [H _] _ _]. done. Qed.

(** Framing: memory that agrees on the two words and the links of the free
    elements represents the same list. *)
Lemma rep_frame m m' l :
  ld 8 m' (fl_count F) = ld 8 m (fl_count F) ->
  ld 8 m' (fl_head F) = ld 8 m (fl_head F) ->
  (forall q, q ∈ l -> ld 8 m' (link q) = ld 8 m (link q)) ->
  free_rep m l -> free_rep m' l.
Proof using Type.
  intros H1 H2 H3 []. split; try done; [congruence|]. rewrite H2. by eapply chain_frame.
Qed.

(** Framing for a store that misses the list: outside the elements, or in an
    element that is not free. *)
Lemma rep_st_outside (W : flist_wf) m l n a v :
  (a + Z.of_nat n <= fl_count F \/ fl_count F + 8 <= a) ->
  (a + Z.of_nat n <= fl_head F \/ fl_head F + 8 <= a) ->
  (forall q, q ∈ l -> a + Z.of_nat n <= link q \/ link q + 8 <= a) ->
  free_rep m l -> free_rep (st n m a v) l.
Proof.
  intros H1 H2 H3. apply rep_frame; [by rewrite ld_st_ne by lia..|].
  intros q Hq. specialize (H3 q Hq). by rewrite ld_st_ne by lia.
Qed.

(** ** The three list operations *)

(** Popping [n] elements: new head and count, links untouched. *)
Lemma rep_pop (W : flist_wf) m l n :
  free_rep m l -> (n <= length l)%nat ->
  free_rep (st 8 (st 8 m (fl_count F) (Z.of_nat (length l) - Z.of_nat n))
              (fl_head F) (nth_ptr m n (ld 8 m (fl_head F)))) (drop n l).
Proof.
  intros [H1 H2 H3 H4] Hn. pose proof W as [].
  pose proof (ld8_range m (fl_count F)).
  pose proof (nth_ptr_range m n (ld 8 m (fl_head F)) (ld8_range _ _)).
  split.
  - rewrite ld_st_ne by lia. rewrite ld8_st8 by lia. rewrite length_drop. lia.
  - rewrite ld8_st8 by lia. eapply chain_frame; [|by apply chain_drop].
    intros q Hq. apply Forall_take_drop with (n := n) in H3 as [_ H3].
    rewrite Forall_forall in H3. destruct (link_words W q (H3 q Hq)).
    rewrite !ld_st_ne by lia. done.
  - by apply Forall_drop.
  - by apply NoDup_drop.
Qed.

(** Pushing one element: its link is set to the old head. *)
Lemma rep_push (W : flist_wf) m l p :
  free_rep m l -> elem_ok p -> p ∉ l -> Z.of_nat (length l) + 1 < 2 ^ 64 ->
  free_rep (st 8 (st 8 (st 8 m (link p) (ld 8 m (fl_head F))) (fl_head F) p)
              (fl_count F) (Z.of_nat (length l) + 1)) (p :: l).
Proof.
  intros [H1 H2 H3 H4] Hp Hnin Hlen. pose proof W as [].
  pose proof (ld8_range m (fl_head F)). pose proof (elem_u64 W p Hp).
  destruct (link_words W p Hp).
  split.
  - rewrite ld8_st8 by lia. cbn. lia.
  - cbn. rewrite !(ld_st_ne _ _ _ (fl_count F)) by lia. rewrite ld8_st8 by lia.
    split; [done|]. rewrite (ld_st_ne _ _ _ (fl_head F)) by lia. rewrite ld8_st8 by lia.
    eapply chain_frame; [|done]. intros q Hq.
    rewrite Forall_forall in H3. specialize (H3 q Hq).
    destruct (link_words W q H3). assert (p <> q) by set_solver.
    destruct (link_disjoint W p q); try done; rewrite !ld_st_ne by lia; done.
  - by constructor.
  - by constructor.
Qed.

(** Splicing a private chain [l1] in front: its last link is set to the old head. *)
Lemma chain_splice (W : flist_wf) m p l1 e l2 :
  Forall elem_ok (l1 ++ [e]) -> NoDup ((l1 ++ [e]) ++ l2) -> Forall elem_ok l2 ->
  chain m p (l1 ++ [e]) -> chain m (ld 8 m (fl_head F)) l2 ->
  chain (st 8 m (link e) (ld 8 m (fl_head F))) p ((l1 ++ [e]) ++ l2).
Proof.
  intros Hf Hn Hf2 Hc1 Hc2. pose proof (ld8_range m (fl_head F)).
  assert (He : elem_ok e) by (apply Forall_app in Hf as [_ Hf]; by inversion Hf).
  assert (Hfr : forall q, q ∈ l1 \/ q ∈ l2 -> elem_ok q ->
    ld 8 (st 8 m (link e) (ld 8 m (fl_head F))) (link q) = ld 8 m (link q)).
  { intros q Hq Hok. assert (e <> q).
    { intros ->. apply NoDup_app in Hn as (Hn1 & Hd & _). destruct Hq as [Hq|Hq].
      - apply NoDup_app in Hn1 as (_ & Hd1 & _). apply (Hd1 q Hq). set_solver.
      - apply (Hd q); [set_solver|done]. }
    destruct (link_disjoint W e q); try done; rewrite ld_st_ne by lia; done. }
  rewrite <- app_assoc. apply chain_app in Hc1 as [Hc1 [Hend _]].
  assert (Hc1' : chain (st 8 m (link e) (ld 8 m (fl_head F))) p l1).
  { eapply chain_frame; [|done]. intros q Hq. apply Hfr; [by left|].
    apply Forall_app in Hf as [Hf _]. rewrite Forall_forall in Hf. by apply Hf. }
  apply chain_app. split; [done|].
  rewrite (nth_ptr_frame m); [|done|].
  - rewrite Hend. split; [done|]. rewrite ld8_st8 by lia. eapply chain_frame; [|done].
    intros q Hq. apply Hfr; [by right|]. rewrite Forall_forall in Hf2. by apply Hf2.
  - intros q Hq. apply Hfr; [by left|].
    apply Forall_app in Hf as [Hf _]. rewrite Forall_forall in Hf. by apply Hf.
Qed.
End freelist.

#[export] Hint Resolve elem_u64 rep_elems rep_nodup : rdfs.
