(* ===== verification/Balloc.v ===== *)
(** * NVM block and inode space (balloc.c)

    The page and inode free lists of the NUMA descriptors: formatting
    ([rdfs_init_numa]), allocation ([rdfs_new_block], [rdfs_get_zeroed_page]),
    release ([rdfs_free_block]) and batched release ([rdfs_pre_free_block],
    [rdfs_pre_free_list]).  The spinlocks serialise the bodies, which are
    therefore modelled as atomic transitions on the memory. *)

From S2P Require Import Prelude Mem Layout FreeList.

Section balloc.
Context (sbi : rdfs_sb_info).

(** ** Descriptor selection *)

Definition get_cpu_numa (m : mem) (cpu : Z) : Z :=
  if s_numa_flag m sbi && negb (Z.land (Z.shiftl 1 cpu) NUMA_MASK =? 0)
  then s_numa_des m sbi 1 else s_numa_des m sbi 0.

(** The static [next_numa_id] is threaded through. *)
Definition get_a_numa (m : mem) (next_numa_id : Z) : Z * Z :=
  if s_numa_flag m sbi then
    let next_numa_id := s32 (next_numa_id + 1) in
    (s_numa_des m sbi (Z.land next_numa_id 1), next_numa_id)
  else (s_numa_des m sbi 0, next_numa_id).

Definition get_rdfs_inode_numa (m : mem) (inode : Z) : Z :=
  if s_numa_flag m sbi && (rdfs_NUMA_LINE <? rdfs_pa sbi inode)
  then s_numa_des m sbi 1 else s_numa_des m sbi 0.

(** ** Allocation *)

(** for (i = 0; i < num; ++i) next = rdfs_va( *next) *)
Fixpoint walk_next (m : mem) (n : nat) (next : Z) : Z :=
  match n with
  | O => next
  | S n' => walk_next m n' (rdfs_va sbi (ld 8 m next))
  end.

(** Returns the error value, the out-parameter and the memory.  The count is
    tested before and again after taking the lock. *)
Definition rdfs_new_block (m : mem) (cpu : Z) (physaddr num : Z) (ni : option Z) : Z * Z * mem :=
  let numa_des_p :=
    match ni with
    | Some ni => rdfs_get_numa_by_inode m sbi ni
    | None => get_cpu_numa m cpu
    end in
  let free_page_count := ld 8 m (numa_des_p + numa_off.free_page_count) in
  if free_page_count <? u64 num then (-1, physaddr, m)
  else if free_page_count <? u64 num then (-1, physaddr, m)
  else
    let physaddr := ld 8 m (numa_des_p + numa_off.free_page_phy) in
    let next := walk_next m (Z.to_nat num) (rdfs_va sbi physaddr) in
    let m := st 8 m (numa_des_p + numa_off.free_page_count) (u64 (free_page_count - num)) in
    let m := st 8 m (numa_des_p + numa_off.free_page_phy) (rdfs_pa sbi next) in
    (0, physaddr, m).

(** [virt_addr] is returned uninitialised when no page was obtained. *)
Definition rdfs_get_page (m : mem) (cpu : Z) : outcome (Z * mem) :=
  let '(_, physaddr, m) := rdfs_new_block m cpu 0 1 None in
  if physaddr =? 0 then Oops else Ret (rdfs_va sbi physaddr, m).

Definition rdfs_get_zeroed_page (m : mem) (cpu : Z) : Z * mem :=
  let '(_, physaddr, m) := rdfs_new_block m cpu 0 1 None in
  if physaddr =? 0 then (0, m)
  else
    let virt_addr := rdfs_va sbi physaddr in
    (virt_addr, memset m virt_addr 0 (Z.to_nat PAGE_SIZE)).

(** ** Release *)

Definition rdfs_free_block (m : mem) (phys : Z) : mem :=
  let numa_id := if s_numa_flag m sbi && (rdfs_NUMA_LINE <? phys) then 1 else 0 in
  let numa_des_p := s_numa_des m sbi numa_id in
  let m := st 8 m (rdfs_va sbi phys) (ld 8 m (numa_des_p + numa_off.free_page_phy)) in
  let m := st 8 m (numa_des_p + numa_off.free_page_phy) phys in
  st 8 m (numa_des_p + numa_off.free_page_count)
    (u64 (ld 8 m (numa_des_p + numa_off.free_page_count) + 1)).

Definition rdfs_count_free_blocks (m : mem) : Z :=
  let count := ld 8 m (s_numa_des m sbi 0 + numa_off.free_page_count) in
  if s_numa_des m sbi 1 =? 0 then count
  else u64 (count + ld 8 m (s_numa_des m sbi 1 + numa_off.free_page_count)).

(** struct __pre_free_struct; a [pre_free_struct] is a pair of them, one per node. *)
Record pre_free := mk_pre_free {
  free_start : Z;
  free_end : Z;
  free_count : Z
}.

Definition rdfs_pre_free_init : pre_free * pre_free :=
  (mk_pre_free 0 0 0, mk_pre_free 0 0 0).

Definition pre_free_add (m : mem) (s : pre_free) (phys : Z) : pre_free * mem :=
  if free_count s =? 0 then (mk_pre_free phys phys 1, m)
  else (mk_pre_free phys (free_end s) (u64 (free_count s + 1)),
        st 8 m (rdfs_va sbi phys) (free_start s)).

Definition rdfs_pre_free_block (m : mem) (s : pre_free * pre_free) (phys : Z)
  : (pre_free * pre_free) * mem :=
  if rdfs_get_phys_numa_id m sbi phys =? 0 then
    let '(s0, m) := pre_free_add m s.1 phys in ((s0, s.2), m)
  else
    let '(s1, m) := pre_free_add m s.2 phys in ((s.1, s1), m).

Definition pre_free_flush (m : mem) (numa_des_p : Z) (s : pre_free) : mem :=
  if free_count s =? 0 then m
  else
    let m := st 8 m (rdfs_va sbi (free_end s)) (ld 8 m (numa_des_p + numa_off.free_page_phy)) in
    let m := st 8 m (numa_des_p + numa_off.free_page_phy) (free_start s) in
    st 8 m (numa_des_p + numa_off.free_page_count)
      (u64 (ld 8 m (numa_des_p + numa_off.free_page_count) + free_count s)).

(** i = 0, 1; each descriptor pointer is read in its own iteration. *)
Definition rdfs_pre_free_list (m : mem) (s : pre_free * pre_free) : mem :=
  let m := pre_free_flush m (s_numa_des m sbi 0) s.1 in
  pre_free_flush m (s_numa_des m sbi 1) s.2.

(** ** Formatting *)

Fixpoint init_inode_loop (n : nat) (m : mem) (start_addr next : Z) : mem :=
  match n with
  | O => m
  | S n' =>
      let m := st 8 m (start_addr + inode_off.i_pg_addr) (rdfs_pa sbi next) in
      init_inode_loop n' m (u64 (start_addr + RDFS_INODE_SIZE)) (u64 (next + RDFS_INODE_SIZE))
  end.

(** [inode_count] is an unsigned int. *)
Definition rdfs_init_free_inode_list_offset (m : mem) (numa_des_p : Z) : mem :=
  let start_addr := rdfs_va sbi (ld 8 m (numa_des_p + numa_off.free_inode_phy)) in
  let inode_count := u32 (ld 8 m (numa_des_p + numa_off.free_inode_count)) in
  init_inode_loop (Z.to_nat inode_count) m start_addr (u64 (start_addr + RDFS_INODE_SIZE)).

Fixpoint init_block_loop (n : nat) (m : mem) (temp next : Z) : mem :=
  match n with
  | O => m
  | S n' =>
      let m := st 8 m temp next in
      init_block_loop n' m (u64 (temp + PAGE_SIZE)) (u64 (next + PAGE_SIZE))
  end.

Definition rdfs_init_free_block_list_offset (m : mem) (numa_des_p : Z) : mem :=
  let start_addr := ld 8 m (numa_des_p + numa_off.free_page_phy) in
  let page_count := ld 8 m (numa_des_p + numa_off.free_page_count) in
  init_block_loop (Z.to_nat page_count) m (rdfs_va sbi start_addr) (u64 (start_addr + PAGE_SIZE)).

(** The unsigned inode count is compared with 0, so only the value 0 is refused. *)
Definition rdfs_init_numa (m : mem) (start end_ percentage : Z) : Z * mem :=
  let nd := rdfs_va sbi start in
  if end_ <? start then (-1, m)
  else
    let m := memset m nd 0 (Z.to_nat (sizeof_numa_des + RDFS_INODE_SIZE)) in
    let m := st 8 m (nd + numa_off.free_inode_phy)
               (u64 (start + sizeof_numa_des + RDFS_INODE_SIZE)) in
    let m := st 8 m (nd + numa_off.free_inode_count)
               (u64 (u64 ((end_ - start) * percentage) / 100 / RDFS_INODE_SIZE - 1)) in
    if ld 8 m (nd + numa_off.free_inode_count) <=? 0 then (-1, m)
    else
      let m := st 8 m (nd + numa_off.free_page_phy)
                 (u64 (ld 8 m (nd + numa_off.free_inode_phy)
                       + ld 8 m (nd + numa_off.free_inode_count) * RDFS_INODE_SIZE)) in
      let m := st 8 m (nd + numa_off.free_page_phy)
                 (Z.land (u64 (ld 8 m (nd + numa_off.free_page_phy) + PAGE_SIZE - 1)) PAGE_MASK) in
      let m := st 8 m (nd + numa_off.free_page_count)
                 (Z.shiftr (u64 (end_ - ld 8 m (nd + numa_off.free_page_phy))) PAGE_SHIFT) in
      let m := rdfs_init_free_inode_list_offset m nd in
      let m := rdfs_init_free_block_list_offset m nd in
      (0, m).
End balloc.

(** ** Representation

    The page list of the descriptor at [nd] with pages in the physical range
    [lo, hi), and the inode list with slots in [lo, hi). *)
Definition page_list (nd lo hi : Z) : flist :=
  mk_flist (nd + numa_off.free_page_count) (nd + numa_off.free_page_phy) lo hi PAGE_SIZE 0.

Definition inode_list (nd lo hi : Z) : flist :=
  mk_flist (nd + numa_off.free_inode_count) (nd + numa_off.free_inode_phy) lo hi
    RDFS_INODE_SIZE inode_off.i_pg_addr.

(** ** Refinement of the list operations, for any descriptor *)

Section refinement.
Context (sbi : rdfs_sb_info) (size : Z) {A : Area sbi size}.
Context (nd lo hi : Z).
Local Abbreviation F := (page_list nd lo hi).
Context (W : flist_wf sbi size F).

Lemma page_link p : link sbi F p = rdfs_va sbi p.
Proof. unfold link. cbn. lia. Qed.

Lemma walk_next_eq m n p :
  walk_next sbi m n (rdfs_va sbi p) = rdfs_va sbi (nth_ptr sbi F m n p).
Proof.
  revert p. induction n as [|n IH]; intros p; cbn; [done|]. by rewrite IH, page_link.
Qed.

(** The descriptor [rdfs_new_block] works on. *)
Definition new_block_numa (m : mem) (cpu : Z) (ni : option Z) : Z :=
  match ni with
  | Some ni => rdfs_get_numa_by_inode m sbi ni
  | None => get_cpu_numa sbi m cpu
  end.

Lemma rep_len m l : free_rep sbi F m l -> Z.of_nat (length l) < 2 ^ 64.
Proof. intros [H _ _ _]. rewrite <- H. apply ld8_range. Qed.

Lemma new_block_ok m cpu pa num ni l :
  new_block_numa m cpu ni = nd -> free_rep sbi F m l -> 0 <= num <= Z.of_nat (length l) ->
  exists m', rdfs_new_block sbi m cpu pa num ni = (0, ld 8 m (fl_head F), m') /\
    m' = st 8 (st 8 m (fl_count F) (Z.of_nat (length l) - num)) (fl_head F)
           (nth_ptr sbi F m (Z.to_nat num) (ld 8 m (fl_head F))) /\
    free_rep sbi F m' (drop (Z.to_nat num) l).
Proof.
  intros Hn R Hnum. pose proof (rep_len m l R). eexists. split; [|split; [done|]].
  - unfold rdfs_new_block. fold (new_block_numa m cpu ni). rewrite Hn.
    change (nd + numa_off.free_page_count) with (fl_count F).
    change (nd + numa_off.free_page_phy) with (fl_head F).
    rewrite (rep_count _ _ _ _ R), (u64_small num) by lia.
    rewrite (proj2 (Z.ltb_ge _ _)) by lia. rewrite walk_next_eq, rdfs_pa_va.
    + by rewrite u64_small by lia.
    + apply nth_ptr_range, ld8_range.
  - replace num with (Z.of_nat (Z.to_nat num)) at 1 by lia. apply (rep_pop _ size); [done..|lia].
Qed.

Lemma new_block_fail m cpu pa num ni l :
  new_block_numa m cpu ni = nd -> free_rep sbi F m l ->
  Z.of_nat (length l) < num < 2 ^ 31 \/ - 2 ^ 31 <= num < 0 /\ Z.of_nat (length l) < 2 ^ 63 ->
  rdfs_new_block sbi m cpu pa num ni = (-1, pa, m).
Proof.
  intros Hn R Hnum. pose proof (rep_len m l R). unfold rdfs_new_block.
  fold (new_block_numa m cpu ni). rewrite Hn.
  change (nd + numa_off.free_page_count) with (fl_count F).
  rewrite (rep_count _ _ _ _ R). rewrite (proj2 (Z.ltb_lt _ _)); [done|]. conv.
Qed.

(** Taken pages keep their links, so the caller can walk them. *)
Lemma pop_chain m l num m' :
  free_rep sbi F m l ->
  m' = st 8 (st 8 m (fl_count F) (Z.of_nat (length l) - num)) (fl_head F)
         (nth_ptr sbi F m (Z.to_nat num) (ld 8 m (fl_head F))) ->
  chain sbi F m' (ld 8 m (fl_head F)) (take (Z.to_nat num) l).
Proof.
  intros R ->. eapply chain_frame; [|apply chain_take, (rep_chain _ _ _ _ R)].
  intros q Hq. assert (Hok : elem_ok F q).
  { pose proof (rep_elems _ _ _ _ R) as Hf. rewrite Forall_forall in Hf.
    apply Hf. by apply elem_of_take in Hq as (? & ?%list_elem_of_lookup_2 & _). }
  destruct (link_words sbi size F W q Hok). by rewrite !ld_st_ne by lia.
Qed.

Lemma free_block_ok m phys l :
  s_numa_des m sbi (if s_numa_flag m sbi && (rdfs_NUMA_LINE <? phys) then 1 else 0) = nd ->
  free_rep sbi F m l -> elem_ok F phys -> phys ∉ l ->
  Z.of_nat (length l) + 1 < 2 ^ 64 ->
  rdfs_free_block sbi m phys =
    st 8 (st 8 (st 8 m (link sbi F phys) (ld 8 m (fl_head F))) (fl_head F) phys)
      (fl_count F) (Z.of_nat (length l) + 1) /\
  free_rep sbi F (rdfs_free_block sbi m phys) (phys :: l).
Proof.
  intros Hn R Hok Hnin Hlen.
  assert (E : rdfs_free_block sbi m phys =
    st 8 (st 8 (st 8 m (link sbi F phys) (ld 8 m (fl_head F))) (fl_head F) phys)
      (fl_count F) (Z.of_nat (length l) + 1)).
  { unfold rdfs_free_block. rewrite Hn.
    change (nd + numa_off.free_page_count) with (fl_count F).
    change (nd + numa_off.free_page_phy) with (fl_head F). rewrite <- page_link.
    destruct (link_words sbi size F W phys Hok). destruct W.
    rewrite !(ld_st_ne 8 8 _ _ _ (fl_count F)) by lia.
    rewrite (rep_count _ _ _ _ R). by rewrite u64_small by lia. }
  split; [done|]. rewrite E. by apply (rep_push _ size).
Qed.

(** ** Batched release *)

(** The private chain of a [pre_free] accumulator. *)
Record pre_rep (m : mem) (s : pre_free) (ps : list Z) : Prop := {
  pre_count : free_count s = Z.of_nat (length ps);
  pre_chain : ps <> [] -> chain sbi F m (free_start s) ps;
  pre_last : ps <> [] -> exists ps', ps = ps' ++ [free_end s]
}.

Lemma pre_free_add_ok m s ps p l :
  pre_rep m s ps -> free_rep sbi F m l -> elem_ok F p -> Forall (elem_ok F) ps ->
  NoDup (p :: ps ++ l) -> Z.of_nat (length ps) + 1 < 2 ^ 64 ->
  let '(s', m') := pre_free_add sbi m s p in
  pre_rep m' s' (p :: ps) /\ free_rep sbi F m' l.
Proof.
  intros [Hc Hch Hl] R Hp Hps Hnd Hlen. unfold pre_free_add.
  apply NoDup_cons in Hnd as [Hnin Hnd].
  destruct (Z.eqb_spec (free_count s) 0) as [E|E].
  - destruct ps as [|q ps]; [|rewrite Hc in E; cbn in E; lia].
    split; [|done]. split; cbn; [done|done|]. intros _. by exists [].
  - assert (Hne : ps <> []) by (intros ->; cbn in Hc; lia).
    specialize (Hch Hne). specialize (Hl Hne).
    assert (Hst : 0 <= free_start s < 2 ^ 64).
    { destruct ps as [|q ps]; [done|]. destruct Hch as [-> _]. inversion Hps; subst.
      by eapply elem_u64. }
    rewrite <- page_link.
    assert (Hfr : forall q, q ∈ ps ++ l -> elem_ok F q ->
      ld 8 (st 8 m (link sbi F p) (free_start s)) (link sbi F q) = ld 8 m (link sbi F q)).
    { intros q Hq Hok. assert (p <> q) by set_solver.
      destruct (link_disjoint sbi size F W p q); try done; by rewrite ld_st_ne by lia. }
    split; [split|].
    + cbn. rewrite u64_small by lia. lia.
    + intros _. split; [done|]. rewrite ld8_st8 by lia. eapply chain_frame; [|done].
      intros q Hq. apply Hfr; [set_solver|]. rewrite Forall_forall in Hps. by apply Hps.
    + intros _. destruct Hl as [ps' ->]. exists (p :: ps'). done.
    + destruct (link_words sbi size F W p Hp).
      eapply rep_frame; [..|done]; [by rewrite ld_st_ne by lia..|].
      intros q Hq. apply Hfr; [set_solver|].
      pose proof (rep_elems _ _ _ _ R) as Hf. rewrite Forall_forall in Hf. by apply Hf.
Qed.

Lemma pre_free_flush_ok m s ps l :
  pre_rep m s ps -> free_rep sbi F m l -> Forall (elem_ok F) ps -> NoDup (ps ++ l) ->
  Z.of_nat (length ps) + Z.of_nat (length l) < 2 ^ 64 ->
  free_rep sbi F (pre_free_flush sbi m nd s) (ps ++ l).
Proof.
  intros [Hc Hch Hl] R Hps Hnd Hlen. unfold pre_free_flush.
  destruct (Z.eqb_spec (free_count s) 0) as [E|E].
  { destruct ps; [done|rewrite Hc in E; cbn in E; lia]. }
  assert (Hne : ps <> []) by (intros ->; cbn in Hc; lia).
  specialize (Hch Hne). destruct (Hl Hne) as [ps' ->].
  change (nd + numa_off.free_page_count) with (fl_count F).
  change (nd + numa_off.free_page_phy) with (fl_head F). rewrite <- page_link.
  assert (Hok : elem_ok F (free_end s)) by (apply Forall_app in Hps as [_ Hps]; by inversion Hps).
  destruct (link_words sbi size F W _ Hok). pose proof W as [].
  assert (Hst : 0 <= free_start s < 2 ^ 64).
  { destruct ps' as [|q ps']; destruct Hch as [-> _]; inversion Hps; subst; by eapply elem_u64. }
  rewrite !(ld_st_ne 8 8 _ _ _ (fl_count F)) by lia.
  rewrite (rep_count _ _ _ _ R), Hc. rewrite u64_small by lia.
  split.
  - rewrite ld8_st8 by lia. rewrite !length_app. lia.
  - rewrite !(ld_st_ne _ _ _ (fl_count F)) by lia. rewrite ld8_st8 by lia.
    assert (Hall : Forall (elem_ok F) ((ps' ++ [free_end s]) ++ l)).
    { apply Forall_app. split; [done|apply R]. }
    eapply chain_frame; [|apply (chain_splice _ size); try done; apply R].
    intros q Hq. rewrite Forall_forall in Hall. destruct (link_words sbi size F W q (Hall q Hq)).
    by rewrite !ld_st_ne by lia.
  - apply Forall_app. split; [done|apply R].
  - done.
Qed.
End refinement.

(** ** Formatting builds the two lists *)

Section format.
Context (sbi : rdfs_sb_info) (size : Z) {A : Area sbi size}.

Lemma elems_ok F p n :
  fl_lo F <= p -> (fl_esz F | p - fl_lo F) -> 0 < fl_esz F ->
  p + fl_esz F * Z.of_nat n <= fl_hi F -> Forall (elem_ok F) (elems p (fl_esz F) n).
Proof.
  revert p. induction n as [|n IH]; intros p H1 H2 H3 H4; cbn; constructor.
  - split; [lia|]. split; [lia|done].
  - apply IH; [lia| |lia|lia]. replace (p + fl_esz F - fl_lo F) with (p - fl_lo F + fl_esz F) by lia.
    apply Z.divide_add_r; [done|apply Z.divide_refl].
Qed.

Definition lin (p : Z) : Z := p - phy_addr sbi + virt_addr sbi.

Lemma init_block_loop_spec F n m temp next p :
  fl_off F = 0 -> fl_esz F = PAGE_SIZE ->
  phy_addr sbi <= p -> p + PAGE_SIZE * Z.of_nat n <= phy_addr sbi + size ->
  ((0 < n)%nat -> temp = lin p) -> ((1 < n)%nat -> next = p + PAGE_SIZE) ->
  chain sbi F (init_block_loop n m temp next) p (elems p (fl_esz F) n) /\
  (forall k b, b + Z.of_nat k <= lin p \/ lin p + PAGE_SIZE * Z.of_nat n <= b ->
     ld k (init_block_loop n m temp next) b = ld k m b).
Proof.
  intros Ho Hz. revert m temp next p. induction n as [|n IH]; intros m temp next p Hp Hh Ht Hn.
  { split; [done|]. done. }
  cbn [init_block_loop elems]. unfold lin, PAGE_SIZE in *. rewrite Ht by lia.
  destruct A. rewrite Hz in *.
  destruct (IH (st 8 m (p - phy_addr sbi + virt_addr sbi) next)
    (u64 (p - phy_addr sbi + virt_addr sbi + 4096)) (u64 (next + 4096)) (p + 4096))
    as [IHc IHf]; [lia|lia| | |].
  { intros. rewrite u64_small by lia. lia. }
  { intros. rewrite Hn by lia. apply u64_small. lia. }
  split.
  - cbn. split; [done|]. destruct n as [|n]; [done|].
    rewrite Hn in * by lia.
    unfold link. rewrite Ho, (va_eq (size := size)), Z.add_0_r by lia.
    rewrite IHf by lia. rewrite ld8_st8 by lia. exact IHc.
  - intros k b Hb. rewrite IHf by lia. by rewrite ld_st_ne by lia.
Qed.

Lemma init_inode_loop_spec F n m start next p :
  fl_off F = inode_off.i_pg_addr -> fl_esz F = RDFS_INODE_SIZE ->
  phy_addr sbi <= p -> p + RDFS_INODE_SIZE * Z.of_nat n <= phy_addr sbi + size ->
  ((0 < n)%nat -> start = lin p) -> ((1 < n)%nat -> next = lin (p + RDFS_INODE_SIZE)) ->
  chain sbi F (init_inode_loop sbi n m start next) p (elems p (fl_esz F) n) /\
  (forall k b, b + Z.of_nat k <= lin p \/ lin p + RDFS_INODE_SIZE * Z.of_nat n <= b ->
     ld k (init_inode_loop sbi n m start next) b = ld k m b).
Proof.
  intros Ho Hz. revert m start next p. induction n as [|n IH]; intros m start next p Hp Hh Ht Hn.
  { split; [done|]. done. }
  cbn [init_inode_loop elems]. unfold lin, RDFS_INODE_SIZE, inode_off.i_pg_addr in *.
  rewrite Ht by lia. pose proof A as []. rewrite Hz in *.
  destruct (IH (st 8 m (p - phy_addr sbi + virt_addr sbi + 72) (rdfs_pa sbi next))
    (u64 (p - phy_addr sbi + virt_addr sbi + 128)) (u64 (next + 128)) (p + 128))
    as [IHc IHf]; [lia|lia| | |].
  { intros. rewrite u64_small by lia. lia. }
  { intros. rewrite Hn by lia. rewrite u64_small by lia. lia. }
  split.
  - cbn. split; [done|]. destruct n as [|n]; [done|].
    rewrite Hn in * by lia. rewrite (pa_eq (size := size)) in * by lia.
    unfold link. rewrite Ho, (va_eq (size := size)) by lia.
    rewrite IHf by lia. rewrite ld8_st8 by lia.
    replace (p + 128 - phy_addr sbi + virt_addr sbi - virt_addr sbi + phy_addr sbi)
      with (p + 128) in * by lia. exact IHc.
  - intros k b Hb. rewrite IHf by lia. by rewrite ld_st_ne by lia.
Qed.

(** The geometry [rdfs_init_numa] computes. *)
Definition numa_inodes (start end_ percentage : Z) : Z :=
  (end_ - start) * percentage / 100 / RDFS_INODE_SIZE - 1.
Definition numa_slots (start : Z) : Z := start + sizeof_numa_des + RDFS_INODE_SIZE.
Definition numa_pages (start end_ percentage : Z) : Z :=
  (numa_slots start + numa_inodes start end_ percentage * RDFS_INODE_SIZE + PAGE_SIZE - 1)
    / PAGE_SIZE * PAGE_SIZE.

Record format_ok (start end_ percentage : Z) : Prop := {
  fmt_start : phy_addr sbi <= start;
  fmt_end : end_ <= phy_addr sbi + size;
  fmt_inodes : 0 < numa_inodes start end_ percentage < 2 ^ 32;
  fmt_prod : 0 <= (end_ - start) * percentage < 2 ^ 64;
  fmt_pages : numa_pages start end_ percentage <= end_
}.

(** The descriptor's four words after its header was computed. *)
Lemma init_numa_header m start end_ percentage :
  format_ok start end_ percentage ->
  let nd := lin start in
  let fi := numa_inodes start end_ percentage in
  let fp := numa_pages start end_ percentage in
  exists m1,
    rdfs_init_numa sbi m start end_ percentage =
      (0, rdfs_init_free_block_list_offset sbi (rdfs_init_free_inode_list_offset sbi m1 nd) nd) /\
    ld 8 m1 (nd + numa_off.free_inode_count) = fi /\
    ld 8 m1 (nd + numa_off.free_inode_phy) = numa_slots start /\
    ld 8 m1 (nd + numa_off.free_page_phy) = fp /\
    ld 8 m1 (nd + numa_off.free_page_count) = (end_ - fp) / PAGE_SIZE /\
    (forall k b, b + Z.of_nat k <= nd -> ld k m1 b = ld k m b) /\
    (forall k b, nd + sizeof_numa_des <= b -> b + Z.of_nat k <= nd + sizeof_numa_des + RDFS_INODE_SIZE -> ld k m1 b = 0).
Proof.
  intros [H1 H2 H3 H4 H5]. cbn zeta. pose proof A as [].
  unfold numa_pages, numa_inodes, numa_slots, PAGE_SIZE, RDFS_INODE_SIZE, sizeof_numa_des in *.
  assert (Hse : start <= end_) by zdm.
  assert (E1 : rdfs_va sbi start = lin start).
  { apply (va_eq (size := size)). zdm. }
  unfold rdfs_init_numa. rewrite E1, (proj2 (Z.ltb_ge _ _)) by lia.
  unfold numa_off.free_inode_phy, numa_off.free_inode_count, numa_off.free_page_phy,
    numa_off.free_page_count, PAGE_SIZE, RDFS_INODE_SIZE, sizeof_numa_des.
  rewrite (u64_small ((end_ - start) * percentage)) by lia.
  rewrite (u64_small (_ / 100 / 128 - 1)) by lia.
  rewrite (u64_small (start + 128 + 128)) by zdm.
  set (fi := (end_ - start) * percentage / 100 / 128 - 1) in *.
  set (fp := (start + 128 + 128 + fi * 128 + 4096 - 1) / 4096 * 4096) in *.
  assert (Hfp : start + 128 + 128 + fi * 128 <= fp) by apply round_up.
  assert (Efp : Z.land (u64 (start + 128 + 128 + fi * 128 + 4096 - 1)) PAGE_MASK = fp).
  { unfold PAGE_MASK. rewrite land_mask_field by lia.
    change (2 ^ 12) with 4096. assert (fp = fp / 4096 * 4096) by (unfold fp; zdm).
    rewrite (Z.mod_small _ (2 ^ 64)) by apply u64_range. rewrite u64_small; [done|].
    clearbody fp fi. assert (fp < 2 ^ 64) by lia. clear H4 H5. zdm. }
  mem_simpl. rewrite (proj2 (Z.leb_gt _ _)) by lia.
  rewrite (u64_small (start + 128 + 128 + fi * 128)) by lia. mem_simpl.
  rewrite Efp. mem_simpl. rewrite (u64_small (end_ - fp)) by lia.
  rewrite shiftr_div by (unfold PAGE_SHIFT; lia). change (2 ^ PAGE_SHIFT) with 4096.
  assert (0 <= (end_ - fp) / 4096 < 2 ^ 64) by (clear - Hfp H5 H2 area_phy_end H1 area_phy H3; zdm).
  eexists. split; [reflexivity|]. mem_simpl.
  split; [done|]. split; [done|]. split; [done|]. split; [done|]. split.
  - intros k b Hb. mem_simpl. done.
  - intros k b Hb Hb'. rewrite !ld_st_ne by lia. apply ld_memset_0; lia.
Qed.

(** The two lists of a formatted node. *)
Definition node_inodes (start end_ percentage : Z) : flist :=
  inode_list (lin start) (numa_slots start)
    (numa_slots start + numa_inodes start end_ percentage * RDFS_INODE_SIZE).
Definition node_pages (start end_ percentage : Z) : flist :=
  page_list (lin start) (numa_pages start end_ percentage) end_.

Lemma numa_geometry start end_ percentage :
  format_ok start end_ percentage ->
  phy_addr sbi <= start /\ numa_slots start = start + 256 /\
    0 < numa_inodes start end_ percentage < 2 ^ 32 /\
    start + 256 + numa_inodes start end_ percentage * 128 <= numa_pages start end_ percentage /\
    numa_pages start end_ percentage <= end_ <= phy_addr sbi + size.
Proof.
  intros [? ? ? ? ?].
  pose proof (round_up (numa_slots start + numa_inodes start end_ percentage * 128)) as R.
  unfold numa_pages, numa_slots, RDFS_INODE_SIZE, sizeof_numa_des, PAGE_SIZE in *. lia.
Qed.

Lemma node_lists_wf start end_ percentage :
  format_ok start end_ percentage ->
  flist_wf sbi size (node_inodes start end_ percentage) /\
    flist_wf sbi size (node_pages start end_ percentage).
Proof.
  intros Hf. destruct (numa_geometry _ _ _ Hf) as (? & ? & ? & ? & ?). pose proof A as [].
  split; split; cbn -[Z.mul]; unfold outside, RDFS_INODE_SIZE, PAGE_SIZE, inode_off.i_pg_addr,
    numa_off.free_inode_count, numa_off.free_inode_phy, numa_off.free_page_phy,
    numa_off.free_page_count in *; cbn -[Z.mul]; try lia; intros; left;
    rewrite (va_eq (size := size)) by lia; unfold lin; lia.
Qed.

(** The list loops run on the descriptor's words. *)
Lemma init_inodes_run m1 nd p n :
  ld 8 m1 (nd + numa_off.free_inode_count) = n -> ld 8 m1 (nd + numa_off.free_inode_phy) = p ->
  0 < n < 2 ^ 32 -> phy_addr sbi <= p -> p + RDFS_INODE_SIZE * n <= phy_addr sbi + size ->
  rdfs_init_free_inode_list_offset sbi m1 nd =
  init_inode_loop sbi (Z.to_nat n) m1 (lin p) (lin (p + RDFS_INODE_SIZE)).
Proof.
  intros E1 E2 Hn Hp Hh. pose proof A as []. unfold RDFS_INODE_SIZE in *.
  unfold rdfs_init_free_inode_list_offset. rewrite E1, E2.
  rewrite (va_eq (size := size)) by lia. rewrite u32_small by lia.
  unfold lin, RDFS_INODE_SIZE. rewrite u64_small by lia. f_equal; lia.
Qed.

Lemma init_blocks_run m1 nd p n :
  ld 8 m1 (nd + numa_off.free_page_count) = n -> ld 8 m1 (nd + numa_off.free_page_phy) = p ->
  0 <= n -> phy_addr sbi <= p -> p + PAGE_SIZE * n <= phy_addr sbi + size ->
  rdfs_init_free_block_list_offset sbi m1 nd =
  init_block_loop (Z.to_nat n) m1 (lin p) (p + PAGE_SIZE).
Proof.
  intros E1 E2 Hn Hp Hh. pose proof A as []. unfold PAGE_SIZE in *.
  unfold rdfs_init_free_block_list_offset, PAGE_SIZE. rewrite E1, E2.
  destruct (Z.to_nat n) eqn:En; [done|].
  rewrite (va_eq (size := size)) by lia. by rewrite u64_small by lia.
Qed.

(** Formatting a node succeeds and builds both free lists: every inode slot and
    every page of the node, once, in address order; nothing below the
    descriptor changes, and the root's slot behind it is cleared. *)
Lemma init_numa_lists m start end_ percentage :
  format_ok start end_ percentage ->
  exists m', rdfs_init_numa sbi m start end_ percentage = (0, m') /\
    free_rep sbi (node_inodes start end_ percentage) m'
      (elems (numa_slots start) RDFS_INODE_SIZE (Z.to_nat (numa_inodes start end_ percentage))) /\
    free_rep sbi (node_pages start end_ percentage) m'
      (elems (numa_pages start end_ percentage) PAGE_SIZE
         (Z.to_nat ((end_ - numa_pages start end_ percentage) / PAGE_SIZE))) /\
    (forall k b, b + Z.of_nat k <= lin start -> ld k m' b = ld k m b) /\
    (forall k b, lin start + sizeof_numa_des <= b -> b + Z.of_nat k <= lin start + sizeof_numa_des + RDFS_INODE_SIZE -> ld k m' b = 0).
Proof.
  intros Hf. destruct (init_numa_header m _ _ _ Hf) as (m1 & E & E1 & E2 & E3 & E4 & Hfr & Hz).
  destruct (numa_geometry _ _ _ Hf) as (? & ? & ? & ? & ?). pose proof A as [].
  destruct (node_lists_wf _ _ _ Hf) as [Wi Wp].
  set (fi := numa_inodes start end_ percentage) in *.
  set (fp := numa_pages start end_ percentage) in *.
  set (np := (end_ - fp) / PAGE_SIZE) in *.
  assert (Hfp : 0 <= np /\ fp + PAGE_SIZE * np <= end_) by (unfold np, PAGE_SIZE; zdm).
  assert (Oi : Forall (elem_ok (node_inodes start end_ percentage))
    (elems (numa_slots start) RDFS_INODE_SIZE (Z.to_nat fi))).
  { apply (elems_ok (node_inodes start end_ percentage)); cbn -[Z.mul]; [lia| | |];
      rewrite ?Z.sub_diag; try apply Z.divide_0_r; unfold RDFS_INODE_SIZE; lia. }
  assert (Op : Forall (elem_ok (node_pages start end_ percentage))
    (elems fp PAGE_SIZE (Z.to_nat np))).
  { apply (elems_ok (node_pages start end_ percentage)); cbn -[Z.mul]; [lia| | |];
      rewrite ?Z.sub_diag; try apply Z.divide_0_r; unfold PAGE_SIZE in *; lia. }
  rewrite (init_inodes_run m1 _ _ _ E1 E2) in E by (unfold RDFS_INODE_SIZE; lia).
  destruct (init_inode_loop_spec (node_inodes start end_ percentage) (Z.to_nat fi) m1
    (lin (numa_slots start)) (lin (numa_slots start + RDFS_INODE_SIZE)) (numa_slots start))
    as [C1 F1]; [done..|lia|unfold RDFS_INODE_SIZE; lia|done|done|].
  set (m2 := init_inode_loop _ _ _ _ _) in *.
  unfold lin, RDFS_INODE_SIZE, numa_off.free_page_phy, numa_off.free_page_count,
    numa_off.free_inode_phy, numa_off.free_inode_count in *.
  rewrite <- (F1 _ (start - phy_addr sbi + virt_addr sbi + 24)) in E3 by lia.
  rewrite <- (F1 _ (start - phy_addr sbi + virt_addr sbi + 8)) in E4 by lia.
  rewrite (init_blocks_run m2 _ _ _ E4 E3) in E by lia.
  destruct (init_block_loop_spec (node_pages start end_ percentage)
    (Z.to_nat np) m2 (lin fp) (fp + PAGE_SIZE) fp) as [C2 F2]; [done..|lia|lia|done|done|].
  set (m3 := init_block_loop _ _ _ _) in *. unfold lin in *.
  exists m3. split; [done|]. split; [|split; [|split]].
  - split; cbn -[Z.mul Z.sub]; rewrite ?length_elems; unfold lin, numa_off.free_inode_count,
      numa_off.free_inode_phy in *; [| |done|by apply elems_nodup].
    + rewrite F2, F1 by lia. rewrite E1. lia.
    + rewrite F2, F1, E2 by lia. eapply chain_frame; [|exact C1].
      intros q Hq. rewrite Forall_forall in Oi. specialize (Oi q Hq).
      rewrite (link_eq sbi size _ Wi _ Oi).
      destruct Oi as (_ & Hhi & _). cbn -[Z.mul] in *.
      unfold RDFS_INODE_SIZE, inode_off.i_pg_addr in *. by rewrite F2 by lia.
  - split; cbn -[Z.mul Z.sub]; rewrite ?length_elems; unfold lin, numa_off.free_page_count,
      numa_off.free_page_phy in *; [| |done|by apply elems_nodup].
    + rewrite F2, E4 by lia. lia.
    + rewrite F2, E3 by lia. exact C2.
  - intros k b Hb. rewrite F2, F1 by lia. apply Hfr. lia.
  - intros k b Hb Hb'. unfold sizeof_numa_des in *. rewrite F2, F1 by lia. apply Hz; lia.
Qed.
End format.
