(* ===== verification/Pages.v ===== *)
(** * The page allocator as its clients see it

    [PageAlloc] is the contract the inode, directory and page-table code relies
    on: an abstract list of free pages, the bytes the allocator reads (its
    footprint) and the effect of the operations of balloc.c on both.  [Node]
    describes a mounted one-node filesystem; its instance proves the contract
    from the free-list refinement of [Balloc]. *)

From S2P Require Import Prelude Mem Layout FreeList Balloc.

Section pages.
Context (sbi : rdfs_sb_info).

(** The bytes of the page at physical address [p]. *)
Definition in_page (p a : Z) : Prop := rdfs_va sbi p <= a < rdfs_va sbi p + PAGE_SIZE.

(** [meta]: the bytes of the inode slots. *)
Class PageAlloc (free : mem -> list Z -> Prop) (foot : list Z -> Z -> Prop)
  (page_ok meta : Z -> Prop) := {
  page_phys p : page_ok p -> 0 < p < 2 ^ 52 /\ p mod PAGE_SIZE = 0;
  page_virt p : page_ok p -> 0 < rdfs_va sbi p /\ rdfs_va sbi p + PAGE_SIZE < 2 ^ 64;
  page_disjoint p q a : page_ok p -> page_ok q -> in_page p a -> in_page q a -> p = q;
  free_pages m l : free m l -> Forall page_ok l /\ NoDup l;
  free_ext m m' l : (forall a, foot l a -> ldb m' a = ldb m a) -> free m l -> free m' l;
  foot_page p l a : Forall page_ok l -> page_ok p -> p ∉ l -> in_page p a -> ~ foot l a;
  foot_cons p l a : foot l a -> foot (p :: l) a;
  meta_page p a : page_ok p -> meta a -> ~ in_page p a;
  meta_foot l a : Forall page_ok l -> meta a -> ~ foot l a;
  free_inode m m' l l' ino : free m l -> free m' l' ->
    get_rdfs_inode m' sbi ino = get_rdfs_inode m sbi ino;
  get_page_ok m cpu p l : free m (p :: l) ->
    exists m', rdfs_get_zeroed_page sbi m cpu = (rdfs_va sbi p, m') /\ free m' l /\
      (forall a, in_page p a -> ldb m' a = 0) /\
      (forall a, ~ foot (p :: l) a -> ~ in_page p a -> ldb m' a = ldb m a);
  new_page_ok m cpu pa ni p l : free m (p :: l) ->
    exists m', rdfs_new_block sbi m cpu pa 1 (Some ni) = (0, p, m') /\ free m' l /\
      (forall a, ~ foot (p :: l) a -> ldb m' a = ldb m a);
  get_page_none m cpu : free m [] -> rdfs_get_zeroed_page sbi m cpu = (0, m);
  free_block_page m p l : free m l -> page_ok p -> p ∉ l ->
    free (rdfs_free_block sbi m p) (p :: l) /\
    (forall a, ~ foot l a -> ~ in_page p a -> ldb (rdfs_free_block sbi m p) a = ldb m a)
}.
End pages.

(** ** A one-node filesystem *)

(** The descriptor and the page range of the node. *)
Record node := mk_node { node_des : Z; node_lo : Z; node_hi : Z }.

Class Node (sbi : rdfs_sb_info) (size : Z) (N : node) : Prop := {
  node_area :: Area sbi size;
  node_super : virt_addr sbi + RDFS_SB_SPACE <= node_des N;
  node_low : node_des N + sizeof_numa_des <= node_lo N - phy_addr sbi + virt_addr sbi;
  node_range : phy_addr sbi < node_lo N /\ node_lo N <= node_hi N <= phy_addr sbi + size;
  node_align : node_lo N mod PAGE_SIZE = 0
}.

Section node.
Context (sbi : rdfs_sb_info) (size : Z) (N : node) `{!Node sbi size N}.
Local Abbreviation F := (page_list (node_des N) (node_lo N) (node_hi N)).

Definition node_free (m : mem) (l : list Z) : Prop :=
  s_numa_flag m sbi = false /\ s_numa_des m sbi 0 = node_des N /\ free_rep sbi F m l.

Definition word_at (w a : Z) : Prop := w <= a < w + 8.

Definition node_foot (l : list Z) (a : Z) : Prop :=
  a = virt_addr sbi + super_block_off.s_numa_flag \/
  word_at (virt_addr sbi + super_block_off.s_numa_des) a \/
  word_at (fl_count F) a \/ word_at (fl_head F) a \/
  exists p, p ∈ l /\ word_at (rdfs_va sbi p) a.

Definition node_page (p : Z) : Prop := elem_ok F p.

Lemma node_wf : flist_wf sbi size F.
Proof.
  pose proof node_area as []. destruct Node0. cbn in *.
  split; cbn -[Z.mul]; unfold outside, numa_off.free_page_count, numa_off.free_page_phy,
    RDFS_SB_SPACE, PAGE_SIZE, sizeof_numa_des in *; cbn -[Z.mul]; try lia;
    intros; rewrite (va_eq (size := size)) by lia; lia.
Qed.

Lemma node_page_range p : node_page p ->
  rdfs_va sbi p = p - phy_addr sbi + virt_addr sbi /\
  node_des N + sizeof_numa_des <= rdfs_va sbi p /\
  rdfs_va sbi p + PAGE_SIZE <= virt_addr sbi + size.
Proof.
  intros H. pose proof (elem_range sbi size F node_wf p H). pose proof node_area as [].
  destruct Node0. destruct H as (? & ? & _). cbn in *. unfold PAGE_SIZE in *.
  rewrite (va_eq (size := size)) by lia. lia.
Qed.

Lemma ld_foot n m m' a :
  (forall b, a <= b < a + Z.of_nat n -> ldb m' b = ldb m b) -> ld n m' a = ld n m a.
Proof. intros H. apply ld_ext. intros i Hi. apply H. lia. Qed.

Lemma node_free_ext m m' l :
  (forall a, node_foot l a -> ldb m' a = ldb m a) -> node_free m l -> node_free m' l.
Proof.
  intros H (H1 & H2 & H3). unfold node_free, s_numa_flag, s_numa_des, rdfs_get_super in *.
  assert (Hw : forall w, (forall a, word_at w a -> node_foot l a) -> ld 8 m' w = ld 8 m w).
  { intros w Hw. apply ld_foot. intros b Hb. apply H, Hw. unfold word_at. lia. }
  split; [|split].
  - rewrite (ld_foot 1 m m'); [done|]. intros b Hb. apply H. left. lia.
  - rewrite Z.mul_0_r, Z.add_0_r in *. rewrite Hw; [done|]. unfold node_foot. tauto.
  - eapply rep_frame; [..|exact H3]; try (apply Hw; unfold node_foot; tauto).
    intros q Hq. rewrite page_link. apply Hw. unfold node_foot. intros a Ha.
    do 4 right. by exists q.
Qed.

Lemma node_foot_page p l a :
  Forall node_page l -> node_page p -> p ∉ l -> in_page sbi p a -> ~ node_foot l a.
Proof.
  intros Hl Hp Hn Ha. destruct (node_page_range p Hp) as (E & Hlo & Hhi).
  pose proof node_area as []. destruct Node0.
  unfold in_page, node_foot, word_at, super_block_off.s_numa_flag, super_block_off.s_numa_des,
    RDFS_SB_SPACE, sizeof_numa_des, PAGE_SIZE, numa_off.free_page_count, numa_off.free_page_phy in *.
  cbn. unfold numa_off.free_page_count, numa_off.free_page_phy.
  intros [?|[?|[?|[?|(q & Hq & ?)]]]]; [lia..|].
  rewrite Forall_forall in Hl. specialize (Hl q Hq).
  destruct (node_page_range q Hl) as (E' & _ & _).
  destruct (elem_disjoint F p q) as [Hd|Hd]; cbn in *; unfold PAGE_SIZE in *; try done; try lia.
  by intros ->.
Qed.

Lemma foot_count l a : word_at (fl_count F) a -> node_foot l a.
Proof. unfold node_foot. tauto. Qed.

Lemma foot_head l a : word_at (fl_head F) a -> node_foot l a.
Proof. unfold node_foot. tauto. Qed.

(** Stores from the descriptor on leave the super block alone. *)
Lemma super_st n m a v : node_des N <= a ->
  s_numa_flag (st n m a v) sbi = s_numa_flag m sbi /\
  s_numa_des (st n m a v) sbi 0 = s_numa_des m sbi 0.
Proof.
  intros Ha. pose proof node_area as []. destruct Node0.
  unfold s_numa_flag, s_numa_des, rdfs_get_super, super_block_off.s_numa_flag,
    super_block_off.s_numa_des, RDFS_SB_SPACE, PAGE_SIZE in *. by rewrite !ld_st_ne by lia.
Qed.

Lemma super_st_free n m a v : node_des N <= a ->
  s_numa_flag m sbi = false /\ s_numa_des m sbi 0 = node_des N ->
  s_numa_flag (st n m a v) sbi = false /\ s_numa_des (st n m a v) sbi 0 = node_des N.
Proof. intros Ha [H1 H2]. destruct (super_st n m a v Ha) as [-> ->]. done. Qed.

Lemma node_free_intro m l :
  s_numa_flag m sbi = false /\ s_numa_des m sbi 0 = node_des N -> free_rep sbi F m l ->
  node_free m l.
Proof. unfold node_free. tauto. Qed.

Lemma node_words : node_des N <= fl_count F /\ node_des N <= fl_head F.
Proof. cbn. unfold numa_off.free_page_count, numa_off.free_page_phy. lia. Qed.

(** The free pages fit in the area, so the counter never overflows. *)
Lemma node_free_length m l : node_free m l -> Z.of_nat (length l) + 1 < 2 ^ 64.
Proof.
  intros (_ & _ & R). pose proof node_area as []. destruct Node0.
  enough (Z.of_nat (length l) <= node_hi N - node_lo N) by lia.
  apply NoDup_range_length; [apply R| |lia].
  eapply Forall_impl; [apply R|]. intros p (Hlo & Hhi & _). cbn in *. unfold PAGE_SIZE in *. lia.
Qed.

Lemma node_new_block m cpu pa num ni l :
  node_free m l -> 0 <= num <= Z.of_nat (length l) ->
  exists m', rdfs_new_block sbi m cpu pa num ni = (0, ld 8 m (fl_head F), m') /\
    node_free m' (drop (Z.to_nat num) l) /\
    chain sbi F m' (ld 8 m (fl_head F)) (take (Z.to_nat num) l) /\
    (forall a, ~ node_foot l a -> ldb m' a = ldb m a).
Proof.
  intros (H1 & H2 & H3) Hn. pose proof node_wf as W.
  destruct (new_block_ok sbi size _ _ _ W m cpu pa num ni l) as (m' & E & Em & R); [|done..|].
  { destruct ni; cbn; unfold rdfs_get_numa_by_inode, rdfs_get_inode_numa_id, rdfs_get_phys_numa_id, rdfs_get_numa_by_id, get_cpu_numa; by rewrite ?H1, ?H2. }
  pose proof (pop_chain sbi size _ _ _ W m l num m' H3 Em) as Hc.
  exists m'. split; [done|].
  assert (Hf : forall a, ~ node_foot l a -> ldb m' a = ldb m a).
  { intros a Ha. rewrite Em, !ldb_st, !decide_False; [done|..];
      intros ?; apply Ha; first [apply foot_head; unfold word_at; lia|apply foot_count; unfold word_at; lia]. }
  split; [|by split]. apply node_free_intro; [|done]. rewrite Em.
  destruct node_words. by repeat apply super_st_free.
Qed.

Lemma node_get_page m cpu p l : node_free m (p :: l) ->
  exists m', rdfs_get_zeroed_page sbi m cpu = (rdfs_va sbi p, m') /\ node_free m' l /\
    (forall a, in_page sbi p a -> ldb m' a = 0) /\
    (forall a, ~ node_foot (p :: l) a -> ~ in_page sbi p a -> ldb m' a = ldb m a).
Proof.
  intros Hf. destruct (node_new_block m cpu 0 1 None _ Hf) as (m1 & E & Hf1 & _ & Hb); [cbn; lia|].
  change (Z.to_nat 1) with 1%nat in Hf1. rewrite skipn_cons, drop_0 in Hf1.
  destruct Hf as (_ & _ & R). rewrite (rep_head _ _ _ _ _ R) in E.
  pose proof (rep_elems _ _ _ _ R) as Hl. inversion Hl as [|? ? Hp Hl']; subst.
  pose proof (rep_nodup _ _ _ _ R) as Hd. inversion Hd as [|? ? Hnin Hd']; subst.
  destruct (node_page_range p Hp) as (Ep & _ & _).
  unfold rdfs_get_zeroed_page. rewrite E.
  replace (p =? 0) with false.
  2:{ pose proof node_area as []. destruct Node0, Hp as (? & _); cbn in *. lia. }
  eexists; split; [done|]. split; [|split].
  - eapply node_free_ext; [|exact Hf1]. intros a Ha. rewrite ldb_memset, decide_False; [done|].
    intros Hr. apply (node_foot_page p l a); try done.
  - intros a Ha. rewrite ldb_memset, decide_True; [done|]. unfold in_page, PAGE_SIZE in *. lia.
  - intros a Ha Hn. rewrite ldb_memset, decide_False by done. by apply Hb.
Qed.

Lemma node_free_block m p l : node_free m l -> node_page p -> p ∉ l ->
  node_free (rdfs_free_block sbi m p) (p :: l) /\
  (forall a, ~ node_foot l a -> ~ in_page sbi p a -> ldb (rdfs_free_block sbi m p) a = ldb m a).
Proof.
  intros (H1 & H2 & R) Hp Hn. destruct (node_page_range p Hp) as (Ep & Hlo & Hhi).
  destruct (free_block_ok sbi size _ _ _ node_wf m p l) as [E R']; [by rewrite H1|done..| |].
  { pose proof (node_free_length m l (conj H1 (conj H2 R))). lia. }
  rewrite E in *. pose proof node_area as []. destruct Node0. rewrite page_link in *.
  split; [apply node_free_intro; [|done]|].
  { destruct node_words. unfold sizeof_numa_des in *. repeat apply super_st_free; try done; lia. }
  intros a Ha Hi. rewrite !ldb_st, !decide_False; [done|..]; intros ?.
  - apply Hi. unfold in_page, PAGE_SIZE. lia.
  - apply Ha, foot_head. unfold word_at. lia.
  - apply Ha, foot_count. unfold word_at. lia.
Qed.

(** balloc.c implements the contract. *)
Definition node_meta (a : Z) : Prop :=
  node_des N + sizeof_numa_des <= a < node_lo N - phy_addr sbi + virt_addr sbi.

#[export] Instance node_alloc : PageAlloc sbi node_free node_foot node_page node_meta.
Proof.
  pose proof node_area as HA. split.
  - intros p Hp. pose proof (elem_range sbi size F node_wf p Hp). destruct Node0, HA.
    destruct Hp as (Hlo & _ & Hd). cbn in *. split; [lia|].
    apply Z.mod_divide in node_align0; [|done]. apply Z.mod_divide; [done|].
    replace p with (p - node_lo N + node_lo N) by lia. by apply Z.divide_add_r.
  - intros p Hp. destruct (node_page_range p Hp) as (? & ? & ?). destruct Node0, HA.
    unfold RDFS_SB_SPACE, PAGE_SIZE, sizeof_numa_des in *. lia.
  - intros p q a Hp Hq Hpa Hqa. destruct (node_page_range p Hp) as (? & ? & ?).
    destruct (node_page_range q Hq) as (? & ? & ?). unfold in_page, PAGE_SIZE in *.
    destruct (decide (p = q)); [done|].
    destruct (elem_disjoint F p q); cbn in *; unfold PAGE_SIZE in *; try done; lia.
  - intros m l (_ & _ & R). split; apply R.
  - apply node_free_ext.
  - apply node_foot_page.
  - unfold node_foot. intros p l a [?|[?|[?|[?|(q & Hq & ?)]]]]; try tauto.
    do 4 right. exists q. split; [|done]. by constructor.
  - intros p a Hp Ha. destruct (node_page_range p Hp) as (? & ? & ?). destruct Hp as (? & _).
    unfold node_meta, in_page in *. cbn in *. lia.
  - intros l a Hl Ha. unfold node_meta, node_foot, word_at, super_block_off.s_numa_flag,
      super_block_off.s_numa_des in *. cbn. destruct Node0, HA.
    unfold numa_off.free_page_count, numa_off.free_page_phy, sizeof_numa_des, RDFS_SB_SPACE, PAGE_SIZE in *.
    intros [?|[?|[?|[?|(q & Hq & ?)]]]]; [lia..|].
    rewrite Forall_forall in Hl. specialize (Hl q Hq).
    destruct (node_page_range q Hl) as (? & ? & ?). destruct Hl as (? & _). cbn in *. lia.
  - intros m m' l l' ino (H1 & H2 & _) (H1' & H2' & _). unfold get_rdfs_inode.
    by rewrite H1, H1', H2, H2'.
  - apply node_get_page.
  - intros m cpu pa ni p l Hf. destruct (node_new_block m cpu pa 1 (Some ni) _ Hf) as (m1 & E & Hf1 & _ & Hb); [cbn; lia|].
    destruct Hf as (_ & _ & R). rewrite (rep_head _ _ _ _ _ R) in E. exists m1. by split.
  - intros m cpu (H1 & H2 & R). unfold rdfs_get_zeroed_page.
    rewrite (new_block_fail sbi (node_des N) (node_lo N) (node_hi N) m cpu 0 1 None []); [done| |done|cbn; lia].
    cbn. unfold get_cpu_numa. by rewrite H1.
  - apply node_free_block.
Qed.

End node.

(** ** Properties *)

(** C1: formatting a NUMA node. For a node range inside the area with room for at
    least one inode, [rdfs_init_numa] returns 0 and leaves the descriptor
    representing exactly two lists: all inode slots and all whole pages of the
    range, each once, in address order. The slots lie below the pages, every
    list is well formed, and no byte below the descriptor changes. *)
Theorem init_numa_formats sbi size m start end_ percentage :
  Area sbi size -> format_ok sbi size start end_ percentage ->
  exists m', rdfs_init_numa sbi m start end_ percentage = (0, m') /\
    free_rep sbi (node_inodes sbi start end_ percentage) m'
      (elems (numa_slots start) RDFS_INODE_SIZE (Z.to_nat (numa_inodes start end_ percentage))) /\
    free_rep sbi (node_pages sbi start end_ percentage) m'
      (elems (numa_pages start end_ percentage) PAGE_SIZE
         (Z.to_nat ((end_ - numa_pages start end_ percentage) / PAGE_SIZE))) /\
    flist_wf sbi size (node_inodes sbi start end_ percentage) /\
    flist_wf sbi size (node_pages sbi start end_ percentage) /\
    fl_hi (node_inodes sbi start end_ percentage) <= fl_lo (node_pages sbi start end_ percentage) /\
    (forall k b, b + Z.of_nat k <= lin sbi start -> ld k m' b = ld k m b).
Proof.
  intros A Hf. destruct (init_numa_lists sbi size m _ _ _ Hf) as (m' & E & Ri & Rp & Hb & _).
  destruct (node_lists_wf sbi size _ _ _ Hf) as [Wi Wp]. exists m'.
  destruct (numa_geometry sbi size _ _ _ Hf) as (? & ? & ? & ? & ?).
  repeat (split; [done|]). split; [|done]. cbn -[Z.mul]. unfold RDFS_INODE_SIZE. lia.
Qed.

(** C3: page allocation. On the descriptor it selects (by the owner inode's NUMA
    node, or by CPU), [rdfs_new_block] is all or nothing: with enough free pages
    it returns 0, hands out the first [num] pages, still linked in list order
    from the returned address, and keeps the rest as the free list; with too
    few it returns -1 and changes neither the memory nor the out-parameter. *)
Theorem new_block_all_or_nothing sbi size nd lo hi m cpu pa num ni l :
  Area sbi size -> flist_wf sbi size (page_list nd lo hi) ->
  new_block_numa sbi m cpu ni = nd -> free_rep sbi (page_list nd lo hi) m l -> 0 <= num < 2 ^ 31 ->
  if num <=? Z.of_nat (length l) then
    exists m' p, rdfs_new_block sbi m cpu pa num ni = (0, p, m') /\
      chain sbi (page_list nd lo hi) m' p (take (Z.to_nat num) l) /\
      free_rep sbi (page_list nd lo hi) m' (drop (Z.to_nat num) l)
  else rdfs_new_block sbi m cpu pa num ni = (-1, pa, m).
Proof.
  intros A W Hn R Hnum. destruct (Z.leb_spec num (Z.of_nat (length l))) as [Hle|Hlt].
  - destruct (new_block_ok sbi size nd lo hi W m cpu pa num ni l Hn R) as (m' & E & Em & R'); [lia|].
    exists m', (ld 8 m (fl_head (page_list nd lo hi))). split; [done|]. split; [|done].
    by eapply pop_chain.
  - apply (new_block_fail sbi nd lo hi m cpu pa num ni l); [done..|lia].
Qed.

(** C4: release and reallocation. On a one-node filesystem, freeing an allocated
    page puts it at the front of the free list, and the next single-page
    allocation returns that very page and restores the old free list. *)
Theorem free_block_roundtrip sbi size N m cpu pa p l :
  Node sbi size N -> node_free sbi N m l -> node_page N p -> p ∉ l ->
  node_free sbi N (rdfs_free_block sbi m p) (p :: l) /\
  exists m', rdfs_new_block sbi (rdfs_free_block sbi m p) cpu pa 1 None = (0, p, m') /\
    node_free sbi N m' l.
Proof.
  intros HN Hf Hp Hn. destruct (node_free_block sbi size N m p l Hf Hp Hn) as [Hf' _].
  split; [done|].
  destruct (node_new_block sbi size N _ cpu pa 1 None _ Hf') as (m' & E & Hf2 & _ & _); [cbn; lia|].
  destruct Hf' as (_ & _ & R). rewrite (rep_head _ _ _ _ _ R) in E. by exists m'.
Qed.

(** Zeroed pages. [rdfs_get_zeroed_page] returns NULL without any change when
    no page is free; otherwise it returns the first free page, all zero, and
    changes nothing but that page and the allocator's own words. *)
Theorem get_zeroed_page_fresh sbi size N m cpu l :
  Node sbi size N -> node_free sbi N m l ->
  match l with
  | [] => rdfs_get_zeroed_page sbi m cpu = (0, m)
  | p :: l' => exists m', rdfs_get_zeroed_page sbi m cpu = (rdfs_va sbi p, m') /\
      node_free sbi N m' l' /\ (forall a, in_page sbi p a -> ldb m' a = 0) /\
      (forall a, ~ node_foot sbi N l a -> ~ in_page sbi p a -> ldb m' a = ldb m a)
  end.
Proof.
  intros HN Hf. destruct l as [|p l]; [by apply (get_page_none sbi (page_ok := node_page N))|by apply (get_page_ok sbi (page_ok := node_page N))].
Qed.
