(* ===== verification/Numa.v ===== *)
(** * Releasing pages on one or two NUMA nodes (balloc.c)

    A filesystem has one node, or two when [s_numa_flag] is set; a page belongs to
    the second when it lies above [rdfs_NUMA_LINE].  [rdfs_pre_free_block]
    collects pages in one private chain per node and [rdfs_pre_free_list] gives
    each chain to its node.  The file proves that this comes to the same as
    releasing the pages one by one, for any mixture of pages of both nodes. *)

From S2P Require Import Prelude Mem Layout FreeList Balloc Pages.

Section numa.
Context (sbi : rdfs_sb_info) (size : Z).

(** The value of [s_numa_flag] and the nodes. *)
Context (flag : bool) (nodes : bool -> node).

Definition present (b : bool) : Prop := b = true -> flag = true.

(** The bytes of a node: its descriptor, slots and pages. *)
Definition node_top (b : bool) : Z := node_hi (nodes b) - phy_addr sbi + virt_addr sbi.

Class Nodes : Prop := {
  nodes_area :: Area sbi size;
  nodes_node b : present b -> Node sbi size (nodes b);
  nodes_split : flag = true -> node_top false <= node_des (nodes true)
}.

Local Abbreviation F b := (page_list (node_des (nodes b)) (node_lo (nodes b)) (node_hi (nodes b))).

(** The node that the address of a page selects. *)
Definition sel (p : Z) : bool := flag && (rdfs_NUMA_LINE <? p).
Definition own_page (p : Z) : Prop := node_page (nodes (sel p)) p.

(** The free pages [L b] of each node. *)
Definition nodes_free (m : mem) (L : bool -> list Z) : Prop :=
  s_numa_flag m sbi = flag /\
  forall b, present b -> s_numa_des m sbi (Z.b2z b) = node_des (nodes b) /\ free_rep sbi (F b) m (L b).

(** The pages of [ps] that belong to node [b]. *)
Definition of_node (b : bool) (ps : list Z) : list Z := filter (fun p => sel p = b) ps.

(** ** Releasing pages singly and in a batch *)

Definition free_each (m : mem) (ps : list Z) : mem := foldl (rdfs_free_block sbi) m ps.

Definition pre_free_each (m : mem) (s : pre_free * pre_free) (ps : list Z) : (pre_free * pre_free) * mem :=
  foldl (fun '(s, m) p => rdfs_pre_free_block sbi m s p) (s, m) ps.

Definition free_batch (m : mem) (ps : list Z) : mem :=
  let '(s, m) := pre_free_each m rdfs_pre_free_init ps in rdfs_pre_free_list sbi m s.

(** ** Changes inside one node *)

Definition in_node (b : bool) (a : Z) : Prop := node_des (nodes b) <= a < node_top b.
Definition only_in (b : bool) (m m' : mem) : Prop := forall a, ~ in_node b a -> ldb m' a = ldb m a.

Lemma only_in_refl b m : only_in b m m.
Proof. by intros a. Qed.

Lemma only_in_st b n m m' a v : node_des (nodes b) <= a -> a + Z.of_nat n <= node_top b -> only_in b m m' -> only_in b m (st n m' a v).
Proof. intros H1 H2 Hm x Hx. rewrite ldb_st, decide_False; [by apply Hm|]. intros ?. apply Hx. unfold in_node. lia. Qed.

Lemma sel_present p : present (sel p).
Proof. unfold present, sel. by destruct flag. Qed.

Context `{!Nodes}.

Lemma present_false : present false.
Proof. done. Qed.

(** A page's link and the descriptor's words are bytes of the node. *)
Lemma page_in_node b p : present b -> node_page (nodes b) p ->
  node_des (nodes b) <= rdfs_va sbi p /\ rdfs_va sbi p + 8 <= node_top b.
Proof.
  intros Hb Hp. pose proof (nodes_node b Hb) as HN. destruct (node_page_range sbi size _ p Hp) as (E & Hlo & _).
  destruct Hp as (_ & Hhi & _). cbn in Hhi. unfold node_top, PAGE_SIZE, sizeof_numa_des in *. lia.
Qed.

Lemma words_in_node b : present b ->
  node_des (nodes b) <= fl_head (F b) /\ fl_head (F b) + 8 <= node_top b /\
  node_des (nodes b) <= fl_count (F b) /\ fl_count (F b) + 8 <= node_top b.
Proof.
  intros Hb. pose proof (nodes_node b Hb) as [_ _ Hl Hr _]. cbn.
  unfold node_top, numa_off.free_page_count, numa_off.free_page_phy, sizeof_numa_des in *. lia.
Qed.

Lemma ld_only_in b n m m' a : only_in b m m' -> (forall x, a <= x < a + Z.of_nat n -> ~ in_node b x) -> ld n m' a = ld n m a.
Proof. intros Hm Ha. apply ld_foot. intros x Hx. by apply Hm, Ha. Qed.

Lemma nodes_disjoint b b' x : present b -> present b' -> b <> b' -> in_node b' x -> ~ in_node b x.
Proof.
  intros Hb Hb' Hne Hx Hy. assert (Hf : flag = true) by (destruct b, b'; auto; done). pose proof (nodes_split Hf) as Hs.
  unfold in_node in *. destruct b, b'; try done; lia.
Qed.

(** The super block is outside every node. *)
Lemma super_only_in b m m' : present b -> only_in b m m' ->
  s_numa_flag m' sbi = s_numa_flag m sbi /\ forall b', s_numa_des m' sbi (Z.b2z b') = s_numa_des m sbi (Z.b2z b').
Proof.
  intros Hb Hm. pose proof (nodes_node b Hb) as [_ Hs _ _ _]. pose proof nodes_area as [].
  unfold s_numa_flag, s_numa_des, rdfs_get_super, super_block_off.s_numa_flag, super_block_off.s_numa_des, RDFS_SB_SPACE, PAGE_SIZE, in_node in *.
  split; [|intros b'].
  - rewrite (ld_only_in b 1 m m'); [done|done|]. intros x Hx [? ?]. lia.
  - rewrite (ld_only_in b 8 m m'); [done|done|]. intros x Hx [? ?]. destruct b'; cbn [Z.b2z] in *; lia.
Qed.

(** The other node's list and private chain stay. *)
Lemma link_other b b' m m' q : present b -> present b' -> b <> b' -> only_in b m m' -> node_page (nodes b') q ->
  ld 8 m' (link sbi (F b') q) = ld 8 m (link sbi (F b') q).
Proof.
  intros Hb Hb' Hne Hm Hq. rewrite page_link. apply (ld_only_in b); [done|]. intros x Hx. apply (nodes_disjoint b b'); try done.
  pose proof (page_in_node b' q Hb' Hq). unfold in_node. lia.
Qed.

Lemma rep_other b b' m m' l : present b -> present b' -> b <> b' -> only_in b m m' -> free_rep sbi (F b') m l -> free_rep sbi (F b') m' l.
Proof.
  intros Hb Hb' Hne Hm R. pose proof (words_in_node b' Hb') as Hw.
  assert (Hword : forall w, node_des (nodes b') <= w -> w + 8 <= node_top b' -> ld 8 m' w = ld 8 m w).
  { intros w H1 H2. apply (ld_only_in b); [done|]. intros x Hx. apply (nodes_disjoint b b'); try done. unfold in_node. lia. }
  eapply rep_frame; [..|exact R]; [apply Hword; lia..|]. intros q Hq. apply (link_other b b'); try done.
  pose proof (rep_elems _ _ _ _ R) as He. rewrite Forall_forall in He. by apply He.
Qed.

Lemma pre_other b b' m m' s qs : present b -> present b' -> b <> b' -> only_in b m m' -> Forall (node_page (nodes b')) qs ->
  pre_rep sbi (node_des (nodes b')) (node_lo (nodes b')) (node_hi (nodes b')) m s qs ->
  pre_rep sbi (node_des (nodes b')) (node_lo (nodes b')) (node_hi (nodes b')) m' s qs.
Proof.
  intros Hb Hb' Hne Hm Hq [H1 H2 H3]. split; [done| |done]. intros Hn. eapply chain_frame; [|by apply H2].
  intros q Hx. apply (link_other b b'); try done. rewrite Forall_forall in Hq. by apply Hq.
Qed.

Lemma nodes_length b l : present b -> Forall (node_page (nodes b)) l -> NoDup l -> Z.of_nat (length l) + 1 < 2 ^ 64.
Proof.
  intros Hb Hl Hn. pose proof (nodes_node b Hb) as [_ _ _ Hr _]. pose proof nodes_area as [].
  enough (Z.of_nat (length l) <= node_hi (nodes b) - node_lo (nodes b)) by lia.
  apply NoDup_range_length; [done| |lia].
  eapply Forall_impl; [done|]. intros p (Hlo & Hhi & _). cbn in *. unfold PAGE_SIZE in *. lia.
Qed.

(** ** Releasing one page *)

Definition push (b : bool) (p : Z) (L : bool -> list Z) (b' : bool) : list Z := if Bool.eqb b b' then p :: L b' else L b'.

Lemma nodes_free_step b m m' L p : present b -> nodes_free m L -> only_in b m m' -> free_rep sbi (F b) m' (p :: L b) -> nodes_free m' (push b p L).
Proof.
  intros Hb [H1 H2] Hm R. destruct (super_only_in b m m' Hb Hm) as [E1 E2]. split; [by rewrite E1|]. intros b' Hb'.
  destruct (H2 b' Hb') as [Hd R']. split; [by rewrite E2|]. unfold push. destruct (Bool.eqb_spec b b') as [<-|Hne]; [done|].
  by apply (rep_other b b' m).
Qed.

Lemma nodes_free_block m L p : nodes_free m L -> own_page p -> p ∉ L (sel p) -> nodes_free (rdfs_free_block sbi m p) (push (sel p) p L).
Proof.
  intros Hf Hp Hn. pose proof Hf as [H1 H2]. pose proof (sel_present p) as Hb. destruct (H2 _ Hb) as [Hd R].
  pose proof (nodes_node _ Hb) as HN.
  destruct (free_block_ok sbi size _ _ _ (node_wf sbi size (nodes (sel p))) m p (L (sel p))) as [E R']; [|done..| |].
  { rewrite H1, <- Hd. fold (sel p). by destruct (sel p). }
  { eapply (nodes_length (sel p)); [done|apply R|apply R]. }
  apply (nodes_free_step (sel p) m); try done. rewrite E. pose proof (words_in_node _ Hb). pose proof (page_in_node _ p Hb Hp).
  rewrite page_link. repeat apply only_in_st; try lia. apply only_in_refl.
Qed.

Lemma of_node_cons b p ps : of_node b (p :: ps) = (if Bool.eqb (sel p) b then [p] else []) ++ of_node b ps.
Proof.
  unfold of_node. destruct (Bool.eqb_spec (sel p) b) as [E|E]; [by rewrite filter_cons_True|by rewrite filter_cons_False].
Qed.

(** The lists after releasing [ps]. *)
Definition released (ps : list Z) (L : bool -> list Z) (b : bool) : list Z := rev (of_node b ps) ++ L b.

Lemma released_cons p ps L b : released (p :: ps) L b = released ps (push (sel p) p L) b.
Proof.
  unfold released, push. rewrite of_node_cons. destruct (Bool.eqb (sel p) b); cbn; [by rewrite <- app_assoc|done].
Qed.

Lemma nodes_free_ext m L L' : (forall b, L b = L' b) -> nodes_free m L -> nodes_free m L'.
Proof. intros E [H1 H2]. split; [done|]. intros b Hb. rewrite <- E. by apply H2. Qed.

Lemma free_each_ok ps m L : nodes_free m L -> Forall own_page ps -> NoDup ps -> (forall p, p ∈ ps -> p ∉ L (sel p)) ->
  nodes_free (free_each m ps) (released ps L).
Proof.
  revert m L. induction ps as [|p ps IH]; intros m L Hf Hp Hn Hd; [done|].
  apply Forall_cons in Hp as [Hp1 Hp2]. apply NoDup_cons in Hn as [Hn1 Hn2].
  eapply nodes_free_ext; [intros b; symmetry; apply released_cons|]. cbn. apply IH; [|done|done|].
  - apply nodes_free_block; [done|done|]. apply Hd. constructor.
  - intros q Hq. unfold push. destruct (Bool.eqb _ _); [|apply Hd; by constructor].
    apply not_elem_of_cons. split; [by intros ->|]. apply Hd. by constructor.
Qed.

(** ** Releasing a batch *)

Definition acc (s : pre_free * pre_free) (b : bool) : pre_free := if b then s.2 else s.1.

(** The state between two [rdfs_pre_free_block] calls: the pages [Q b] so far are
    chained in the accumulator of their node. *)
Record batching (m : mem) (s : pre_free * pre_free) (Q L : bool -> list Z) : Prop := {
  ba_free : nodes_free m L;
  ba_pre b : present b -> pre_rep sbi (node_des (nodes b)) (node_lo (nodes b)) (node_hi (nodes b)) m (acc s b) (Q b);
  ba_none : flag = false -> free_count s.2 = 0;
  ba_pages b : present b -> Forall (node_page (nodes b)) (Q b);
  ba_nodup b : present b -> NoDup (Q b ++ L b)
}.

Lemma add_only_in b m s p : present b -> node_page (nodes b) p -> only_in b m (pre_free_add sbi m s p).2.
Proof.
  intros Hb Hp. unfold pre_free_add. destruct (_ =? 0); [apply only_in_refl|]. cbn. pose proof (page_in_node b p Hb Hp).
  apply only_in_st; try lia. apply only_in_refl.
Qed.

Lemma pre_free_block_sel m s p : s_numa_flag m sbi = flag ->
  rdfs_pre_free_block sbi m s p
  = let '(x, m') := pre_free_add sbi m (acc s (sel p)) p in (if sel p then (s.1, x) else (x, s.2), m').
Proof.
  intros Hf. unfold rdfs_pre_free_block, rdfs_get_phys_numa_id. rewrite Hf. fold (sel p). destruct (sel p); cbn; by destruct (pre_free_add _ _ _ _).
Qed.

Lemma batching_step m s Q L p : batching m s Q L -> own_page p -> p ∉ Q (sel p) ++ L (sel p) ->
  let '(s', m') := rdfs_pre_free_block sbi m s p in batching m' s' (push (sel p) p Q) L.
Proof.
  intros [Hf Hq H0 Hqs Hn] Hp Hnin. pose proof Hf as [H1 H2]. pose proof (sel_present p) as Hb. destruct (H2 _ Hb) as [Hd R].
  pose proof (nodes_node _ Hb) as HN. rewrite pre_free_block_sel by done.
  pose proof (pre_free_add_ok sbi size _ _ _ (node_wf sbi size (nodes (sel p))) m (acc s (sel p)) (Q (sel p)) p _ (Hq _ Hb) R Hp (Hqs _ Hb)) as Hadd.
  pose proof (add_only_in (sel p) m (acc s (sel p)) p Hb Hp) as Ho. destruct (pre_free_add sbi m (acc s (sel p)) p) as [x m']. cbn in Ho.
  destruct Hadd as [Ha1 Ha2].
  { constructor; [done|by apply Hn]. }
  { apply (nodes_length (sel p)); [done|by apply Hqs|]. specialize (Hn _ Hb). by apply NoDup_app in Hn as (? & _). }
  destruct (super_only_in _ m m' Hb Ho) as [E1 E2]. split.
  - split; [by rewrite E1|]. intros b Hb'. destruct (H2 b Hb') as [Hd' R']. split; [by rewrite E2|].
    destruct (decide (sel p = b)) as [<-|Hne]; [done|]. by apply (rep_other (sel p) b m).
  - intros b Hb'. unfold push. destruct (Bool.eqb_spec (sel p) b) as [<-|Hne].
    + by destruct (sel p).
    + replace (acc _ b) with (acc s b) by (destruct (sel p), b; done). apply (pre_other (sel p) b m); try done; auto.
  - intros Hfl. unfold sel. rewrite Hfl. cbn. auto.
  - intros b Hb'. unfold push. destruct (Bool.eqb_spec (sel p) b) as [<-|Hne]; [|auto]. constructor; auto.
  - intros b Hb'. unfold push. destruct (Bool.eqb_spec (sel p) b) as [<-|Hne]; [|auto]. cbn. constructor; auto.
Qed.

Lemma pre_free_each_ok ps m s Q L : batching m s Q L -> Forall own_page ps -> NoDup ps -> (forall p, p ∈ ps -> p ∉ Q (sel p) ++ L (sel p)) ->
  exists Q', (forall b, Q' b = released ps Q b) /\ let '(s', m') := pre_free_each m s ps in batching m' s' Q' L.
Proof.
  revert m s Q. induction ps as [|p ps IH]; intros m s Q HB Hp Hn Hd; [by exists Q|].
  apply Forall_cons in Hp as [Hp1 Hp2]. apply NoDup_cons in Hn as [Hn1 Hn2].
  pose proof (batching_step m s Q L p HB Hp1 ltac:(apply Hd; constructor)) as Hs. cbn.
  destruct (rdfs_pre_free_block sbi m s p) as [s' m']. destruct (IH m' s' _ Hs Hp2 Hn2) as (Q' & EQ & HB').
  - intros q Hq. unfold push. destruct (Bool.eqb _ _); [|apply Hd; by constructor].
    cbn. apply not_elem_of_cons. split; [by intros ->|]. apply Hd. by constructor.
  - exists Q'. split; [|done]. intros b. rewrite EQ. symmetry. apply released_cons.
Qed.

(** Giving one chain to its node. *)
Lemma flush_only_in b m s qs : present b -> pre_rep sbi (node_des (nodes b)) (node_lo (nodes b)) (node_hi (nodes b)) m s qs ->
  Forall (node_page (nodes b)) qs -> only_in b m (pre_free_flush sbi m (node_des (nodes b)) s).
Proof.
  intros Hb [Hc _ Hl] Hq. unfold pre_free_flush. destruct (Z.eqb_spec (free_count s) 0) as [E|E]; [apply only_in_refl|].
  destruct Hl as [qs' ->]; [intros ->; cbn in Hc; lia|]. apply Forall_app in Hq as [_ Hq]. inversion Hq as [|? ? He _]; subst.
  pose proof (page_in_node b _ Hb He). pose proof (words_in_node b Hb) as Hw. cbn in Hw. repeat apply only_in_st; try lia. apply only_in_refl.
Qed.

Lemma flush_rep b m s qs l : present b -> pre_rep sbi (node_des (nodes b)) (node_lo (nodes b)) (node_hi (nodes b)) m s qs ->
  Forall (node_page (nodes b)) qs -> NoDup (qs ++ l) -> free_rep sbi (F b) m l ->
  free_rep sbi (F b) (pre_free_flush sbi m (node_des (nodes b)) s) (qs ++ l).
Proof.
  intros Hb Hq Hqs Hn R. pose proof (nodes_node _ Hb) as HN.
  assert (Hlen : Z.of_nat (length (qs ++ l)) + 1 < 2 ^ 64).
  { apply (nodes_length b); [done| |done]. apply Forall_app. split; [done|apply R]. }
  rewrite length_app in Hlen. apply (pre_free_flush_ok sbi size); try done; [by apply (node_wf sbi size)|lia].
Qed.

Lemma nodes_flush m s Q L : batching m s Q L -> nodes_free (rdfs_pre_free_list sbi m s) (fun b => Q b ++ L b).
Proof.
  intros [Hf Hq H0 Hqs Hn]. pose proof Hf as [H1 H2]. pose proof present_false as Hb. destruct (H2 _ Hb) as [Hd R].
  change (rdfs_pre_free_list sbi m s) with
    (let m1 := pre_free_flush sbi m (s_numa_des m sbi (Z.b2z false)) (acc s false) in pre_free_flush sbi m1 (s_numa_des m1 sbi (Z.b2z true)) (acc s true)).
  cbv zeta. rewrite Hd.
  pose proof (flush_only_in false m _ _ Hb (Hq _ Hb) (Hqs _ Hb)) as Ho1.
  pose proof (flush_rep false m _ _ _ Hb (Hq _ Hb) (Hqs _ Hb) (Hn _ Hb) R) as R1.
  set (m1 := pre_free_flush sbi m (node_des (nodes false)) (acc s false)) in *. destruct (super_only_in _ m m1 Hb Ho1) as [E1 E2].
  destruct (bool_dec flag true) as [Hfl|Hfl%not_true_iff_false].
  - assert (Ht : present true) by (by intros _). destruct (H2 _ Ht) as [Hd' R'].
    rewrite E2, Hd'.
    assert (Hq1 := pre_other false true m m1 _ _ Hb Ht ltac:(done) Ho1 (Hqs _ Ht) (Hq _ Ht)).
    assert (R2 := rep_other false true m m1 _ Hb Ht ltac:(done) Ho1 R').
    pose proof (flush_only_in true m1 _ _ Ht Hq1 (Hqs _ Ht)) as Ho2.
    pose proof (flush_rep true m1 _ _ _ Ht Hq1 (Hqs _ Ht) (Hn _ Ht) R2) as R3.
    set (m2 := pre_free_flush sbi m1 (node_des (nodes true)) (acc s true)) in *. destruct (super_only_in _ m1 m2 Ht Ho2) as [E3 E4].
    split; [by rewrite E3, E1|]. intros b Hb'. rewrite E4, E2. split; [by apply H2|]. destruct b; [done|].
    by apply (rep_other true false m1).
  - unfold pre_free_flush at 1. change (acc s true) with (s.2). rewrite (H0 Hfl). cbn [Z.eqb]. split; [by rewrite E1|]. intros b Hb'.
    destruct b; [specialize (Hb' eq_refl); congruence|]. by rewrite E2.
Qed.

Lemma free_batch_ok m ps L : nodes_free m L -> Forall own_page ps -> NoDup ps -> (forall p, p ∈ ps -> p ∉ L (sel p)) ->
  nodes_free (free_batch m ps) (released ps L).
Proof.
  intros Hf Hp Hn Hd. unfold free_batch.
  destruct (pre_free_each_ok ps m rdfs_pre_free_init (fun _ => []) L) as (Q & EQ & HB); [|done..|].
  - split; try done.
    + intros b _. destruct b; by split.
    + intros b Hb. cbn. destruct Hf as [_ H2]. destruct (H2 b Hb) as [_ R]. apply R.
  - destruct (pre_free_each m rdfs_pre_free_init ps) as [s m']. eapply nodes_free_ext; [|by apply nodes_flush].
    intros b. cbn. rewrite EQ. unfold released. by rewrite app_nil_r.
Qed.
End numa.

(** C5: batched release. On a filesystem with one node or with two, for any pages
    of either node that are not free: collecting them with
    [rdfs_pre_free_block] and returning them with one [rdfs_pre_free_list] leaves
    on each node the same free list as freeing them one by one with
    [rdfs_free_block], namely the released pages of that node, last first, before
    the pages that were free. *)
Theorem pre_free_equiv sbi size flag nodes m ps L : Nodes sbi size flag nodes -> nodes_free sbi flag nodes m L ->
  Forall (own_page flag nodes) ps -> NoDup ps -> (forall p, p ∈ ps -> p ∉ L (sel flag p)) ->
  nodes_free sbi flag nodes (free_batch sbi m ps) (fun b => rev (of_node flag b ps) ++ L b) /\
  nodes_free sbi flag nodes (free_each sbi m ps) (fun b => rev (of_node flag b ps) ++ L b).
Proof. intros HN Hf Hp Hn Hd. split; [by apply (free_batch_ok sbi size)|by apply (free_each_ok sbi size)]. Qed.
