(* ===== verification/Demo.v ===== *)
(** * A small mounted filesystem

    A concrete area of 32 pages, formatted by [rdfs_init_numa], on which the
    theorems of the other files are instantiated. *)

From S2P Require Import Prelude Mem Layout FreeList Balloc Pages Numa.

Definition demo_sbi : rdfs_sb_info :=
  mk_sbi 0x20000000 0x10000000 0 4096 128 0 0x20000 0 0 0 0 0 0 0.
Definition demo_size : Z := 0x20000.
Definition demo_start : Z := 0x10008000.
Definition demo_end : Z := 0x10020000.

#[export] Instance demo_area : Area demo_sbi demo_size.
Proof. split; cbn; unfold demo_size; lia. Qed.

Lemma demo_format : format_ok demo_sbi demo_size demo_start demo_end 10.
Proof. split; vm_compute; repeat split; congruence. Qed.

Definition demo_node : node :=
  mk_node (lin demo_sbi demo_start) (numa_pages demo_start demo_end 10) demo_end.

#[export] Instance demo_node_ok : Node demo_sbi demo_size demo_node.
Proof. split; [apply _|vm_compute; repeat split; congruence..]. Qed.

(** The descriptor's address in the super block, then the node formatted. *)
Definition demo_super : mem :=
  st 8 ∅ (virt_addr demo_sbi + super_block_off.s_numa_des) (lin demo_sbi demo_start).
Definition demo_mem : mem := (rdfs_init_numa demo_sbi demo_super demo_start demo_end 10).2.

Definition demo_pages : list Z :=
  elems (numa_pages demo_start demo_end 10) PAGE_SIZE
    (Z.to_nat ((demo_end - numa_pages demo_start demo_end 10) / PAGE_SIZE)).

Lemma demo_free : node_free demo_sbi demo_node demo_mem demo_pages.
Proof.
  destruct (init_numa_lists demo_sbi demo_size demo_super _ _ _ demo_format)
    as (m' & E & _ & R & Hb & _).
  unfold demo_mem. rewrite E. cbn [snd]. split; [|split; [|exact R]].
  - unfold s_numa_flag. rewrite Hb by (vm_compute; congruence). reflexivity.
  - unfold s_numa_des. rewrite Hb by (vm_compute; congruence). reflexivity.
Qed.

Definition demo_page : Z := 0x1000b000.

(** The x86-64 values of the kernel's page-table definitions. *)
Definition x86_pg : KernelPg.
Proof.
  refine {| PAGE_TABLE := 0x67; PAGE_KERNEL := 2 ^ 63 + 0x163; entry_none := fun v => v =? 0;
    entry_present := Z.odd; pmd_index := fun a => a / 2 ^ 21 mod 512;
    pte_index := fun a => a / 2 ^ 12 mod 512 |}; try done.
  by right.
Defined.

(** The bytes of inode 1's slot lie between the descriptor and the pages. *)
Lemma demo_slot m : get_rdfs_inode m demo_sbi 1 = 0x20008080 -> forall a,
  get_rdfs_inode m demo_sbi 1 <= a < get_rdfs_inode m demo_sbi 1 + RDFS_INODE_SIZE ->
  node_meta demo_sbi demo_node a.
Proof.
  intros -> a. unfold node_meta, RDFS_INODE_SIZE.
  change (node_des demo_node + sizeof_numa_des) with 0x20008080.
  change (node_lo demo_node - phy_addr demo_sbi + virt_addr demo_sbi) with (0x2000b000). lia.
Qed.

Lemma demo_slot_mem : get_rdfs_inode demo_mem demo_sbi 1 = 0x20008080.
Proof. vm_compute. reflexivity. Qed.

(** ** The allocator's theorems on it *)

Lemma init_numa_formats_witness :
  exists m', rdfs_init_numa demo_sbi ∅ demo_start demo_end 10 = (0, m') /\
    free_rep demo_sbi (node_inodes demo_sbi demo_start demo_end 10) m'
      (elems (numa_slots demo_start) RDFS_INODE_SIZE 75).
Proof.
  destruct (init_numa_formats demo_sbi demo_size ∅ demo_start demo_end 10 demo_area demo_format)
    as (m' & E & R & _). exists m'. split; [exact E|exact R].
Defined.

Lemma new_block_all_or_nothing_witness :
  rdfs_new_block demo_sbi demo_mem 0 7 1000 None = (-1, 7, demo_mem).
Proof.
  refine (new_block_all_or_nothing demo_sbi demo_size (node_des demo_node) (node_lo demo_node)
    (node_hi demo_node) demo_mem 0 7 1000 None demo_pages _ _ _ _ _).
  - apply node_wf, demo_node_ok.
  - vm_compute. reflexivity.
  - apply demo_free.
  - lia.
Defined.

Lemma free_block_roundtrip_witness :
  let p := hd 0 demo_pages in
  exists m1 m2, rdfs_new_block demo_sbi demo_mem 0 0 1 None = (0, p, m1) /\
    rdfs_new_block demo_sbi (rdfs_free_block demo_sbi m1 p) 0 0 1 None = (0, p, m2).
Proof.
  destruct (node_new_block demo_sbi demo_size demo_node demo_mem 0 0 1 None demo_pages demo_free)
    as (m1 & E & Hf & _ & _); [vm_compute; split; congruence|].
  destruct (free_block_roundtrip demo_sbi demo_size demo_node m1 0 0 (hd 0 demo_pages)
    (drop (Z.to_nat 1) demo_pages)) as (_ & m2 & E2 & _).
  - apply demo_node_ok.
  - exact Hf.
  - vm_compute. repeat split; try congruence. by exists 0.
  - apply (bool_decide_unpack _). vm_compute. exact I.
  - exists m1, m2. split; [|exact E2]. rewrite E. vm_compute. reflexivity.
Defined.

Lemma get_zeroed_page_fresh_witness :
  exists m', rdfs_get_zeroed_page demo_sbi demo_mem 0 = (rdfs_va demo_sbi (hd 0 demo_pages), m') /\
    node_free demo_sbi demo_node m' (tl demo_pages).
Proof.
  destruct (get_zeroed_page_fresh demo_sbi demo_size demo_node demo_mem 0 demo_pages demo_node_ok
    demo_free) as (m' & E & Hf & _). exists m'. split; [exact E|exact Hf].
Defined.

Lemma inodenr_roundtrip_witness :
  get_rdfs_inodenr demo_mem demo_sbi (get_rdfs_inode_phy_addr demo_mem demo_sbi 17) = 17.
Proof.
  apply (inodenr_roundtrip demo_mem demo_sbi demo_size 17 demo_area).
  split; vm_compute; congruence.
Defined.

(** ** Two nodes

    An area on both sides of [rdfs_NUMA_LINE], both nodes formatted, and pages
    allocated by a processor of each. *)

Definition two_sbi : rdfs_sb_info := mk_sbi 0x20000000 (rdfs_NUMA_LINE - 0x18000) 0 4096 128 0 0x30000 0 0 0 0 0 0 0.
Definition two_start (b : bool) : Z := if b then rdfs_NUMA_LINE else rdfs_NUMA_LINE - 0x10000.
Definition two_end (b : bool) : Z := if b then rdfs_NUMA_LINE + 0x18000 else rdfs_NUMA_LINE.
Definition two_nodes (b : bool) : node :=
  mk_node (lin two_sbi (two_start b)) (numa_pages (two_start b) (two_end b) 10) (two_end b).
Definition two_pages (b : bool) : list Z :=
  elems (numa_pages (two_start b) (two_end b) 10) PAGE_SIZE (Z.to_nat ((two_end b - numa_pages (two_start b) (two_end b) 10) / PAGE_SIZE)).

Definition two_mem : mem :=
  let m := st 1 ∅ (virt_addr two_sbi + super_block_off.s_numa_flag) 1 in
  let m := st 8 m (virt_addr two_sbi + super_block_off.s_numa_des) (lin two_sbi (two_start false)) in
  let m := st 8 m (virt_addr two_sbi + super_block_off.s_numa_des + 8) (lin two_sbi (two_start true)) in
  let m := (rdfs_init_numa two_sbi m (two_start false) (two_end false) 10).2 in
  let m := (rdfs_init_numa two_sbi m (two_start true) (two_end true) 10).2 in
  let m := (rdfs_new_block two_sbi m 0 0 2 None).2 in
  (rdfs_new_block two_sbi m 6 0 1 None).2.

Definition two_free (b : bool) : list Z := drop (if b then 1 else 2) (two_pages b).

Definition elem_check (lo hi p : Z) : bool := (lo <=? p) && (p + PAGE_SIZE <=? hi) && ((p - lo) mod PAGE_SIZE =? 0).

Lemma elem_check_ok nd lo hi p : elem_check lo hi p = true -> elem_ok (page_list nd lo hi) p.
Proof.
  unfold elem_check, elem_ok. rewrite !andb_true_iff, !Z.leb_le, Z.eqb_eq. intros [[H1 H2] H3]. split; [done|]. split; [done|].
  by apply Z.mod_divide.
Qed.

Lemma elems_check_ok nd lo hi l : forallb (elem_check lo hi) l = true -> Forall (elem_ok (page_list nd lo hi)) l.
Proof. rewrite forallb_forall. intros H. apply Forall_forall. intros p Hp. apply elem_check_ok, H. by apply list_elem_of_In. Qed.

#[export] Instance two_area : Area two_sbi 0x30000.
Proof. split; cbn; unfold rdfs_NUMA_LINE; lia. Qed.

#[export] Instance two_nodes_ok : Nodes two_sbi 0x30000 true two_nodes.
Proof.
  split; [apply _| |].
  - intros [] _; (split; [apply _|vm_compute; repeat split; congruence..]).
  - intros _. vm_compute. congruence.
Qed.

Lemma two_free_ok : nodes_free two_sbi true two_nodes two_mem two_free.
Proof.
  split; [vm_compute; reflexivity|]. intros b _. split; [destruct b; vm_compute; reflexivity|]. split.
  - destruct b; vm_compute; reflexivity.
  - destruct b; vm_compute; repeat split; reflexivity.
  - apply elems_check_ok. destruct b; vm_compute; reflexivity.
  - apply (bool_decide_unpack _). destruct b; vm_compute; exact I.
Qed.

(** Two pages of the first node and one of the second, in mixed order. *)
Lemma pre_free_equiv_witness :
  let p b k := nth k (two_pages b) 0 in
  nodes_free two_sbi true two_nodes (free_batch two_sbi two_mem [p false 0%nat; p true 0%nat; p false 1%nat])
    (fun b => if b then p true 0%nat :: two_free true else p false 1%nat :: p false 0%nat :: two_free false).
Proof.
  intros p. eapply nodes_free_ext; [|refine (proj1 (pre_free_equiv two_sbi 0x30000 true two_nodes two_mem [p false 0%nat; p true 0%nat; p false 1%nat] two_free
    two_nodes_ok two_free_ok _ _ _))].
  - intros b. destruct b; vm_compute; reflexivity.
  - repeat (constructor; [apply elem_check_ok; vm_compute; reflexivity|]). constructor.
  - apply (bool_decide_unpack _). vm_compute. exact I.
  - apply Forall_forall. apply (bool_decide_unpack _). vm_compute. exact I.
Defined.
