(* ===== verification/Nvmalloc.v ===== *)
(** * Virtual address areas (nvmalloc.c)

    The two pools of fixed-size virtual areas files and directories are mapped
    at: linked lists of [nvm_struct] cells, modelled at pointer level, with
    [nvmalloc_init], [nvmalloc] and [nvfree], and their refinement to abstract
    lists of areas.  The list lock serialises the bodies. *)

From S2P Require Import Prelude Mem Layout.

(** struct nvm_struct; pointers are integers, NULL is 0. *)
Record nvm_struct := mk_nvm { next : Z; vaddr : Z; nvm_size : Z }.

Abbreviation heap := (gmap Z nvm_struct).

(** The static lists and counters of one pool. *)
Record pool := mk_pool { free_list : Z; used_list : Z; free_cnt : Z; used_cnt : Z }.

Record nvm_state := mk_nvm_state { cells : heap; reg_pool : pool; dir_pool : pool }.

Definition deref (h : heap) (p : Z) : outcome nvm_struct :=
  match h !! p with Some n => Ret n | None => Oops end.

Definition set_next (n : nvm_struct) (q : Z) : nvm_struct := mk_nvm q (vaddr n) (nvm_size n).

(** mode 0: regular file, mode 1: directory *)
Definition get_pool (s : nvm_state) (mode : Z) : option pool :=
  if mode =? 0 then Some (reg_pool s) else if mode =? 1 then Some (dir_pool s) else None.

Definition set_pool (s : nvm_state) (mode : Z) (h : heap) (pl : pool) : nvm_state :=
  if mode =? 0 then mk_nvm_state h pl (dir_pool s) else mk_nvm_state h (reg_pool s) pl.

Definition nvmalloc (s : nvm_state) (mode : Z) : outcome (Z * nvm_state) :=
  match get_pool s mode with
  | None => Ret (0, s)
  | Some pl =>
      if 0 <? free_cnt pl then
        let p := free_list pl in
        n ← deref (cells s) p;
        let h := if used_list pl =? 0 then <[p := set_next n 0]> (cells s)
                 else <[p := set_next n (used_list pl)]> (cells s) in
        Ret (vaddr n, set_pool s mode h
               (mk_pool (next n) p (s32 (free_cnt pl - 1)) (s32 (used_cnt pl + 1))))
      else Ret (0, s)
  end.

(** for (p = used_list->next; p != NULL; p = p->next): the cell with address
    [addr] and its predecessor.  Running out of fuel is reported as a fault. *)
Fixpoint find_used (fuel : nat) (h : heap) (addr pre p : Z) : outcome (option (Z * Z)) :=
  match fuel with
  | O => Oops
  | S fuel' =>
      if p =? 0 then Ret None
      else
        n ← deref h p;
        if vaddr n =? addr then Ret (Some (pre, p)) else find_used fuel' h addr p (next n)
  end.

Definition addr_mode (addr : Z) : option Z :=
  if (RDFS_START <=? addr) && (addr <? RDFS_START + DIR_AREA_SIZE) then Some 1
  else if (RDFS_START + DIR_AREA_SIZE <=? addr) && (addr <? RDFS_END) then Some 0
  else None.

Definition nvfree (s : nvm_state) (addr : Z) : outcome nvm_state :=
  if addr =? 0 then Ret s
  else
    match addr_mode addr with
    | None => Ret s
    | Some mode =>
        let pl := if mode =? 1 then dir_pool s else reg_pool s in
        u ← deref (cells s) (used_list pl);
        if vaddr u =? addr then
          let p := used_list pl in
          Ret (set_pool s mode (<[p := set_next u (free_list pl)]> (cells s))
                 (mk_pool p (next u) (s32 (free_cnt pl + 1)) (s32 (used_cnt pl - 1))))
        else
          r ← find_used (S (size (cells s))) (cells s) addr (used_list pl) (next u);
          match r with
          | None => Ret s
          | Some (pre, p) =>
              n ← deref (cells s) p;
              b ← deref (cells s) pre;
              let h := <[pre := set_next b (next n)]> (cells s) in
              Ret (set_pool s mode (<[p := set_next n (free_list pl)]> h)
                     (mk_pool p (used_list pl) (s32 (free_cnt pl + 1)) (s32 (used_cnt pl - 1))))
          end
    end.

(** The kernel's slab allocator: a fresh cell or NULL. *)
Class Kzalloc := {
  kzalloc : heap -> Z;
  kzalloc_fresh h : kzalloc h <> 0 -> h !! kzalloc h = None
}.

Section init.
Context `{!Kzalloc}.

(** area = kzalloc_node(...); area->vaddr = addr; area->size = size; area->next = NULL *)
Definition new_area (h : heap) (addr sz : Z) : outcome (Z * heap) :=
  let area := kzalloc h in
  if area =? 0 then Oops else Ret (area, <[area := mk_nvm 0 addr sz]> h).

(** while (addr + size - 1 < limit) { ...; p->next = area; p = area; addr += size; cnt++ } *)
Fixpoint init_areas (fuel : nat) (h : heap) (p addr cnt sz limit : Z) : outcome (Z * heap) :=
  match fuel with
  | O => Oops
  | S fuel' =>
      if u64 (addr + sz - 1) <? limit then
        '(area, h) ← new_area h addr sz;
        n ← deref h p;
        let h := <[p := set_next n area]> h in
        init_areas fuel' h area (u64 (addr + sz)) (s32 (cnt + 1)) sz limit
      else Ret (cnt, h)
  end.

(** One pool: the first area, then the loop. *)
Definition init_pool (fuel : nat) (h : heap) (addr cnt sz limit : Z) : outcome (pool * heap) :=
  '(area, h) ← new_area h addr sz;
  '(cnt, h) ← init_areas fuel h area (u64 (addr + sz)) (s32 (cnt + 1)) sz limit;
  Ret (mk_pool area 0 cnt 0, h).

(** The initial value of the statics. *)
Definition nvm_reset : nvm_state := mk_nvm_state ∅ (mk_pool 0 0 0 0) (mk_pool 0 0 0 0).

Definition nvmalloc_init (fuel : nat) (s : nvm_state) : outcome (Z * nvm_state) :=
  '(dir, h) ← init_pool fuel (cells s) RDFS_START (free_cnt (dir_pool s)) MAX_DIR_SIZE
                (RDFS_START + DIR_AREA_SIZE);
  '(reg, h) ← init_pool fuel h (RDFS_START + DIR_AREA_SIZE) (free_cnt (reg_pool s)) MAX_FILE_SIZE
                RDFS_END;
  Ret (0, mk_nvm_state h
            (mk_pool (free_list reg) (used_list (reg_pool s)) (free_cnt reg) (used_cnt (reg_pool s)))
            (mk_pool (free_list dir) (used_list (dir_pool s)) (free_cnt dir) (used_cnt (dir_pool s)))).
End init.

(** ** Representation *)

(** A cell on an abstract list: its pointer and its area's address. *)
Abbreviation cell := (Z * Z)%type.

Fixpoint nv_chain (h : heap) (sz p : Z) (l : list cell) : Prop :=
  match l with
  | [] => p = 0
  | (q, v) :: l' => p = q /\ q <> 0 /\ exists nx, h !! q = Some (mk_nvm nx v sz) /\ nv_chain h sz nx l'
  end.

(** The free list [F] and the used list [U] of a pool of areas of size [sz]. *)
Record pool_rep (h : heap) (sz : Z) (pl : pool) (F U : list cell) : Prop := {
  pool_free : nv_chain h sz (free_list pl) F;
  pool_used : nv_chain h sz (used_list pl) U;
  pool_fcnt : free_cnt pl = Z.of_nat (length F);
  pool_ucnt : used_cnt pl = Z.of_nat (length U);
  pool_ptrs : NoDup (F.*1 ++ U.*1);
  pool_addrs : NoDup (F.*2 ++ U.*2);
  pool_total : Z.of_nat (length F + length U) < 2 ^ 31
}.

(** Addresses of a pool: [base + i * sz] for i < n. *)
Definition area_ok (base sz : Z) (n : nat) (v : Z) : Prop :=
  exists i, 0 <= i < Z.of_nat n /\ v = base + i * sz.

Definition DIR_AREAS : nat := Z.to_nat (DIR_AREA_SIZE / MAX_DIR_SIZE).
(** RDFS_END is one below a multiple of the area size, so the last area is left out. *)
Definition REG_AREAS : nat :=
  Z.to_nat ((RDFS_END - RDFS_START - DIR_AREA_SIZE) / MAX_FILE_SIZE).

(** An abstract pool: its free and its used cells. *)
Abbreviation apool := (list cell * list cell)%type.

Definition ptrs (P : apool) : list Z := P.1.*1 ++ P.2.*1.

(** The state holds the abstract pools [R] (regular files) and [D] (directories). *)
Record nvm_rep (s : nvm_state) (R D : apool) : Prop := {
  rep_null : cells s !! 0 = None;
  rep_reg : pool_rep (cells s) MAX_FILE_SIZE (reg_pool s) R.1 R.2;
  rep_dir : pool_rep (cells s) MAX_DIR_SIZE (dir_pool s) D.1 D.2;
  rep_apart : ptrs R ## ptrs D;
  rep_reg_addr : Forall (fun c => area_ok (RDFS_START + DIR_AREA_SIZE) MAX_FILE_SIZE REG_AREAS c.2)
                   (R.1 ++ R.2);
  rep_dir_addr : Forall (fun c => area_ok RDFS_START MAX_DIR_SIZE DIR_AREAS c.2) (D.1 ++ D.2)
}.

(** ** Abstract operations *)

(** The first free area becomes the first used one; 0 when there is none. *)
Definition spec_alloc (P : apool) : Z * apool :=
  match P.1 with
  | [] => (0, P)
  | c :: F => (c.2, (F, c :: P.2))
  end.

(** The used area with address [v] becomes the first free one. *)
Definition spec_free (v : Z) (P : apool) : apool :=
  match list_find (fun c => c.2 = v) P.2 with
  | Some (i, c) => (c :: P.1, take i P.2 ++ drop (S i) P.2)
  | None => P
  end.

(** ** Chains *)

Lemma nv_chain_frame h h' sz p l :
  (forall q, q ∈ l.*1 -> h' !! q = h !! q) -> nv_chain h sz p l -> nv_chain h' sz p l.
Proof.
  revert p. induction l as [|[q v] l IH]; intros p Hf Hc; [done|].
  destruct Hc as (-> & Hq & nx & E & Hc). split; [done|]. split; [done|].
  exists nx. rewrite Hf by (cbn; constructor). split; [done|].
  apply IH; [|done]. intros q' Hq'. apply Hf. cbn. by constructor.
Qed.

Lemma nv_chain_insert h sz p l q n : q ∉ l.*1 -> nv_chain h sz p l -> nv_chain (<[q := n]> h) sz p l.
Proof.
  intros Hq. apply nv_chain_frame. intros q' Hq'. rewrite lookup_insert_ne; [done|]. by intros ->.
Qed.

Lemma nv_chain_in h sz p l q : nv_chain h sz p l -> q ∈ l.*1 -> is_Some (h !! q).
Proof.
  revert p. induction l as [|[q' v] l IH]; intros p Hc Hq; [by apply not_elem_of_nil in Hq|].
  destruct Hc as (-> & _ & nx & E & Hc). cbn in Hq. apply elem_of_cons in Hq as [->|Hq]; eauto.
Qed.

Lemma nv_chain_size h sz p l : nv_chain h sz p l -> NoDup l.*1 -> (length l <= size h)%nat.
Proof.
  intros Hc Hn. pose proof (length_fmap fst l) as El.
  enough (size (list_to_set l.*1 : gset Z) <= size (dom h))%nat as Hs.
  { rewrite size_list_to_set, size_dom in Hs by done. lia. }
  apply subseteq_size. intros q Hq. apply elem_of_list_to_set in Hq. apply elem_of_dom.
  by eapply nv_chain_in.
Qed.

(** The chain up to a cell, and the cell itself. *)
Lemma nv_chain_mid h sz p l1 q v l2 :
  nv_chain h sz p (l1 ++ (q, v) :: l2) ->
  q <> 0 /\ exists nx, h !! q = Some (mk_nvm nx v sz) /\ nv_chain h sz nx l2.
Proof.
  revert p. induction l1 as [|[q' v'] l1 IH]; intros p Hc; cbn in Hc.
  - destruct Hc as (_ & ? & ?). done.
  - destruct Hc as (_ & _ & nx & _ & Hc). by eapply IH.
Qed.

(** Unlinking the cell after [(b, w)]. *)
Lemma nv_chain_unlink h sz p l1 b w q v l2 nx nb :
  nv_chain h sz p (l1 ++ (b, w) :: (q, v) :: l2) -> NoDup (l1 ++ (b, w) :: (q, v) :: l2).*1 ->
  h !! q = Some (mk_nvm nx v sz) -> h !! b = Some nb ->
  nv_chain (<[b := set_next nb nx]> h) sz p (l1 ++ (b, w) :: l2).
Proof.
  revert p. induction l1 as [|[q' v'] l1 IH]; intros p Hc Hn Hq Hb; cbn in *.
  - destruct Hc as (-> & ? & nb' & E & -> & ? & nx' & E' & Hc).
    rewrite Hb in E. injection E as ->. rewrite Hq in E'. injection E' as ->.
    split; [done|]. split; [done|]. exists nx'. rewrite lookup_insert_eq. split; [done|].
    apply nv_chain_insert; [|done]. apply NoDup_cons in Hn as [Hn _]. set_solver.
  - destruct Hc as (-> & ? & nx' & E & Hc). apply NoDup_cons in Hn as [Hnin Hn].
    split; [done|]. split; [done|]. exists nx'. rewrite lookup_insert_ne; [split; [done|by apply IH]|].
    intros ->. apply Hnin. rewrite fmap_app. set_solver.
Qed.

Lemma find_used_none fuel h sz addr pre p l :
  nv_chain h sz p l -> addr ∉ l.*2 -> (length l < fuel)%nat ->
  find_used fuel h addr pre p = Ret None.
Proof.
  revert fuel pre p. induction l as [|[q v] l IH]; intros [|fuel] pre p Hc Hn Hf; cbn in *; try lia.
  - by rewrite Hc.
  - destruct Hc as (-> & Hq & nx & E & Hc). rewrite (proj2 (Z.eqb_neq q 0) Hq).
    unfold deref. rewrite E. cbn. apply not_elem_of_cons in Hn as [Hv Hn].
    rewrite (proj2 (Z.eqb_neq v addr)) by done. apply IH; [done..|lia].
Qed.

Lemma find_used_some fuel h sz pre p l1 q v l2 :
  nv_chain h sz p (l1 ++ (q, v) :: l2) -> v ∉ l1.*2 -> (length l1 < fuel)%nat ->
  find_used fuel h v pre p = Ret (Some (default pre (last l1.*1), q)).
Proof.
  revert fuel pre p. induction l1 as [|[q' v'] l1 IH]; intros [|fuel] pre p Hc Hn Hf; cbn in *; try lia.
  - destruct Hc as (-> & Hq & nx & E & Hc). rewrite (proj2 (Z.eqb_neq q 0) Hq).
    unfold deref. rewrite E. cbn. by rewrite Z.eqb_refl.
  - destruct Hc as (-> & Hq & nx & E & Hc). rewrite (proj2 (Z.eqb_neq q' 0) Hq).
    unfold deref. rewrite E. cbn. apply not_elem_of_cons in Hn as [Hv Hn].
    rewrite (proj2 (Z.eqb_neq v' v)) by done. rewrite (IH fuel q' nx Hc Hn) by lia.
    do 3 f_equal. destruct (last l1.*1) as [x|] eqn:El.
    + destruct l1; [done|]. cbn in *. by rewrite El.
    + apply last_None in El. destruct l1; [done|done].
Qed.

(** ** Pool operations *)

Lemma pool_pop h sz pl p v F U :
  pool_rep h sz pl ((p, v) :: F) U ->
  exists nx, h !! free_list pl = Some (mk_nvm nx v sz) /\ free_list pl = p /\
    pool_rep (<[p := mk_nvm (used_list pl) v sz]> h) sz
      (mk_pool nx p (free_cnt pl - 1) (used_cnt pl + 1)) F ((p, v) :: U).
Proof.
  intros [Hf Hu Hfc Huc Hp Ha Ht]. cbn in Hf. destruct Hf as (-> & Hp0 & nx & E & Hf).
  exists nx. split; [done|]. split; [done|]. cbn in Hp, Ha, Hfc, Ht.
  split; cbn -[Z.of_nat]; try lia.
  - apply nv_chain_insert; [|done]. apply NoDup_cons in Hp as [Hp _]. set_solver.
  - split; [done|]. split; [done|]. exists (used_list pl). rewrite lookup_insert_eq. split; [done|].
    apply nv_chain_insert; [|done]. apply NoDup_cons in Hp as [Hp _]. set_solver.
  - by rewrite <- Permutation_middle.
  - by rewrite <- Permutation_middle.
Qed.

(** Where the cell is on the used list decides which pointer is updated. *)
Definition unlink (h : heap) (pl : pool) (U1 : list cell) (p nx : Z) : heap * Z :=
  match last U1 with
  | None => (h, nx)
  | Some (b, _) =>
      match h !! b with
      | Some nb => (<[b := set_next nb nx]> h, used_list pl)
      | None => (h, used_list pl)
      end
  end.

Lemma pool_push h sz pl F U1 p v U2 :
  pool_rep h sz pl F (U1 ++ (p, v) :: U2) ->
  exists nx, h !! p = Some (mk_nvm nx v sz) /\
    pool_rep (<[p := mk_nvm (free_list pl) v sz]> (unlink h pl U1 p nx).1) sz
      (mk_pool p (unlink h pl U1 p nx).2 (free_cnt pl + 1) (used_cnt pl - 1))
      ((p, v) :: F) (U1 ++ U2).
Proof.
  intros [Hf Hu Hfc Huc Hp Ha Ht].
  destruct (nv_chain_mid _ _ _ _ _ _ _ Hu) as (Hp0 & nx & E & Hc2).
  exists nx. split; [done|]. rewrite length_app in *. cbn [length] in *.
  rewrite fmap_app in Hp, Ha. cbn in Hp, Ha.
  destruct (NoDup_mid _ _ _ _ Hp) as (Hp' & HpF & HpU1 & HpU2).
  destruct (NoDup_mid _ _ _ _ Ha) as (Ha' & _).
  split; cbn [free_list used_list free_cnt used_cnt]; rewrite ?length_app; cbn [length]; try lia.
  - split; [done|]. split; [done|]. exists (free_list pl). rewrite lookup_insert_eq.
    split; [done|]. apply nv_chain_insert; [done|]. unfold unlink.
    destruct (last U1) as [[b w]|] eqn:El; [|done]. destruct (h !! b) as [nb|]; [|done].
    apply nv_chain_insert; [|done]. apply last_Some in El as [U1' ->].
    rewrite fmap_app in Hp. apply NoDup_app in Hp as (_ & Hd & _).
    intros Hb. apply (Hd b Hb). rewrite <- app_assoc. cbn. set_solver.
  - apply nv_chain_insert; [rewrite fmap_app; set_solver|]. unfold unlink.
    destruct (last U1) as [[b w]|] eqn:El; cbn.
    + apply last_Some in El as [U1' ->]. rewrite <- app_assoc in Hu. cbn in Hu.
      destruct (nv_chain_mid _ _ _ _ _ _ _ Hu) as (Hb0 & nb & Eb & _). rewrite Eb. cbn.
      rewrite <- app_assoc. cbn. eapply nv_chain_unlink; [exact Hu| |done|done].
      apply NoDup_app in Hp as (_ & _ & Hp). rewrite fmap_app, <- app_assoc in Hp.
      rewrite fmap_app. exact Hp.
    + apply last_None in El as ->. done.
  - by rewrite fmap_app.
  - by rewrite fmap_app.
Qed.

(** ** The other pool is untouched *)

Lemma pool_frame h h' sz pl F U :
  (forall q, q ∈ ptrs (F, U) -> h' !! q = h !! q) -> pool_rep h sz pl F U -> pool_rep h' sz pl F U.
Proof.
  intros Hf []. split; try done; (eapply nv_chain_frame; [|done]); intros q Hq; apply Hf;
    apply elem_of_app; auto.
Qed.

Lemma unlink_other h pl U1 p nx q : q ∉ U1.*1 -> (unlink h pl U1 p nx).1 !! q = h !! q.
Proof.
  intros Hq. unfold unlink. destruct (last U1) as [[b w]|] eqn:El; [|done].
  destruct (h !! b); [|done]. apply lookup_insert_ne. intros ->. apply Hq.
  apply last_Some in El as [U1' ->]. rewrite fmap_app. set_solver.
Qed.

Lemma pop_apart h sz pl sz2 pl2 p v F U P2 n :
  pool_rep h sz pl ((p, v) :: F) U -> pool_rep h sz2 pl2 P2.1 P2.2 -> ptrs ((p, v) :: F, U) ## ptrs P2 ->
  pool_rep (<[p := n]> h) sz2 pl2 P2.1 P2.2 /\ ptrs (F, (p, v) :: U) ## ptrs P2.
Proof.
  intros _ H2 Ha. unfold ptrs in *. cbn in *. split.
  - eapply pool_frame; [|done]. intros q Hq. apply lookup_insert_ne. intros ->.
    apply (Ha q); [constructor|done].
  - intros q Hq. apply Ha. rewrite <- Permutation_middle in Hq. done.
Qed.

Lemma push_apart h sz2 pl pl2 p v F U1 U2 P2 nx n :
  pool_rep h sz2 pl2 P2.1 P2.2 -> ptrs (F, U1 ++ (p, v) :: U2) ## ptrs P2 ->
  pool_rep (<[p := n]> (unlink h pl U1 p nx).1) sz2 pl2 P2.1 P2.2 /\
  ptrs ((p, v) :: F, U1 ++ U2) ## ptrs P2.
Proof.
  intros H2 Ha. unfold ptrs in *. cbn [fst snd] in *. rewrite !fmap_app in *. cbn in *. split.
  - eapply pool_frame; [|done]. unfold ptrs. cbn. intros q Hq. rewrite lookup_insert_ne.
    + apply unlink_other. intros Hq'. apply (Ha q); [set_solver|done].
    + intros ->. apply (Ha q); [set_solver|done].
  - intros q Hq. apply Ha. rewrite <- perm_mid. done.
Qed.

(** NULL is never a cell. *)
Lemma null_insert (h : heap) p n : p <> 0 -> h !! 0 = None -> (<[p := n]> h) !! 0 = None.
Proof. intros Hp H0. by rewrite lookup_insert_ne. Qed.

Lemma null_unlink h pl U1 p nx : h !! 0 = None -> (unlink h pl U1 p nx).1 !! 0 = None.
Proof.
  intros H0. unfold unlink. destruct (last U1) as [[b w]|]; [|done].
  destruct (h !! b) eqn:E; [|done]. apply null_insert; [|done]. by intros ->; rewrite E in H0.
Qed.

Lemma set_next_used (pl : pool) h p n :
  (if used_list pl =? 0 then <[p := set_next n 0]> h else <[p := set_next n (used_list pl)]> h)
  = <[p := set_next n (used_list pl)]> (h : heap).
Proof. destruct (Z.eqb_spec (used_list pl) 0) as [->|]; done. Qed.

Lemma Forall_perm_app {A} (Q : A -> Prop) (l l' : list A) : l ≡ₚ l' -> Forall Q l -> Forall Q l'.
Proof. by intros ->. Qed.

(** ** Refinement *)

Lemma nvmalloc_mode s mode pl sz P :
  get_pool s mode = Some pl -> pool_rep (cells s) sz pl P.1 P.2 ->
  match P.1 with
  | [] => nvmalloc s mode = Ret (0, s)
  | (p, v) :: F => exists pl',
      let h' := <[p := mk_nvm (used_list pl) v sz]> (cells s) in
      nvmalloc s mode = Ret (v, set_pool s mode h' pl') /\ pool_rep h' sz pl' F ((p, v) :: P.2)
  end.
Proof.
  intros Hg HP. unfold nvmalloc. rewrite Hg. destruct P as [[|[p v] F] U]; cbn [fst snd] in *.
  - destruct HP. by rewrite pool_fcnt0.
  - pose proof HP as []. cbn [length] in *. rewrite (proj2 (Z.ltb_lt _ _)) by lia.
    destruct (pool_pop _ _ _ _ _ _ _ HP) as (nx & E & Ep & Hr). unfold deref. rewrite E. cbn.
    rewrite set_next_used, !s32_small, Ep by lia. eexists. split; [reflexivity|exact Hr].
Qed.

Lemma nvmalloc_refines s R D mode :
  nvm_rep s R D ->
  exists s', nvmalloc s mode =
      Ret (if mode =? 0 then (spec_alloc R).1 else if mode =? 1 then (spec_alloc D).1 else 0, s') /\
    nvm_rep s' (if mode =? 0 then (spec_alloc R).2 else R)
      (if mode =? 1 then (spec_alloc D).2 else D).
Proof.
  intros [H0 HR HD Ha HRa HDa].
  destruct (Z.eqb_spec mode 0) as [->|Hm0]; [|destruct (Z.eqb_spec mode 1) as [->|H1]].
  - pose proof (nvmalloc_mode s 0 _ _ R eq_refl HR) as Hm. destruct R as [[|[p v] F] U]; cbn in *.
    { exists s. by split. }
    destruct Hm as (pl' & -> & Hr). eexists; split; [reflexivity|].
    destruct (pop_apart _ _ _ _ _ _ _ _ _ D (mk_nvm (used_list (reg_pool s)) v MAX_FILE_SIZE)
      HR HD Ha) as [HD' Ha'].
    split; cbn; try done; [by apply null_insert; [apply (pool_free _ _ _ _ _ HR)|]|]. eapply Forall_perm_app; [|exact HRa]. cbn. by rewrite <- Permutation_middle.
  - pose proof (nvmalloc_mode s 1 _ _ D eq_refl HD) as Hm. destruct D as [[|[p v] F] U]; cbn in *.
    { exists s. by split. }
    destruct Hm as (pl' & -> & Hr). eexists; split; [reflexivity|].
    destruct (pop_apart _ _ _ _ _ _ _ _ _ R (mk_nvm (used_list (dir_pool s)) v MAX_DIR_SIZE)
      HD HR (fun q H1 H2 => Ha q H2 H1)) as [HR' Ha'].
    split; cbn; try done;
      [by apply null_insert; [apply (pool_free _ _ _ _ _ HD)|]|intros q H1 H2; by apply (Ha' q)|].
    eapply Forall_perm_app; [|exact HDa]. cbn. by rewrite <- Permutation_middle.
  - exists s. unfold nvmalloc, get_pool.
    rewrite (proj2 (Z.eqb_neq mode 0) Hm0), (proj2 (Z.eqb_neq mode 1) H1). by split.
Qed.

(** The pool an address of a mode lives in. *)
Definition pool_at (s : nvm_state) (mode : Z) : pool := if mode =? 1 then dir_pool s else reg_pool s.

(** Freeing a used address, with the used list cut at its cell. *)
Lemma nvfree_mode s mode sz F U1 p v U2 :
  addr_mode v = Some mode -> v <> 0 -> v ∉ U1.*2 ->
  pool_rep (cells s) sz (pool_at s mode) F (U1 ++ (p, v) :: U2) ->
  exists pl' nx, let h' := <[p := mk_nvm (free_list (pool_at s mode)) v sz]>
                         (unlink (cells s) (pool_at s mode) U1 p nx).1 in
    nvfree s v = Ret (set_pool s mode h' pl') /\ pool_rep h' sz pl' ((p, v) :: F) (U1 ++ U2).
Proof.
  intros Hm Hv Hn HP. pose proof HP as [Hf Hu Hfc Huc Hp Ha Ht].
  destruct (pool_push _ _ _ _ _ _ _ _ HP) as (nx & E & Hr).
  unfold nvfree. rewrite (proj2 (Z.eqb_neq v 0) Hv), Hm. fold (pool_at s mode).
  rewrite length_app in *. cbn [length] in *. rewrite Hfc, Huc, !s32_small by lia.
  rewrite Hfc, Huc in Hr.
  destruct U1 as [|[q w] U1].
  - cbn in Hu. destruct Hu as (Eu & Hp0 & nx' & E' & Hc). rewrite E in E'. injection E' as <-.
    eexists _, nx. cbn zeta. unfold deref. rewrite Eu, E. cbn. rewrite Z.eqb_refl.
    split; [reflexivity|exact Hr].
  - pose proof Hu as Hu'. cbn in Hu. destruct Hu as (Eu & Hq0 & nq & Eq & Hc).
    cbn in Hn. apply not_elem_of_cons in Hn as [Hw Hn].
    eexists _, nx. cbn zeta. unfold deref. rewrite Eu, Eq. cbn [mbind outcome_bind].
    cbn [vaddr next]. rewrite (proj2 (Z.eqb_neq w v)) by done.
    rewrite (find_used_some _ _ _ _ _ _ _ _ _ Hc Hn).
    2:{ pose proof (nv_chain_size _ _ _ _ Hu') as Hs.
        assert (Hd : NoDup (((q, w) :: U1) ++ (p, v) :: U2).*1)
          by (apply NoDup_app in Hp as (_ & _ & Hp); exact Hp).
        specialize (Hs Hd). rewrite length_app in Hs. cbn in Hs. lia. }
    cbn [mbind outcome_bind]. rewrite E. cbn [mbind outcome_bind next].
    unfold unlink in *. rewrite last_cons in *.
    assert (Eb : default q (last U1.*1) = match last U1 with Some y => y.1 | None => q end)
      by (rewrite fmap_last; destruct (last U1); done).
    rewrite Eb. destruct (last U1) as [[b x]|] eqn:El.
    + cbn [fst]. destruct (cells s !! b) as [nb|] eqn:Eb'.
      * cbn. rewrite Eu in Hr. split; [reflexivity|exact Hr].
      * exfalso. apply last_Some in El as [U1' ->]. 
        change (((q, w) :: U1' ++ [(b, x)]) ++ (p, v) :: U2)
          with (((q, w) :: (U1' ++ [(b, x)])) ++ (p, v) :: U2) in Hu'.
        destruct (nv_chain_in _ _ _ _ b Hu') as [? ?]; [|congruence].
        rewrite fmap_app. cbn. rewrite fmap_app. set_solver.
    + rewrite Eq in *. cbn. rewrite Eu in Hr. split; [reflexivity|exact Hr].
Qed.

Lemma addr_mode_cases v mode : addr_mode v = Some mode -> v <> 0 /\ (mode = 0 \/ mode = 1).
Proof.
  unfold addr_mode, RDFS_START, DIR_AREA_SIZE. intros H.
  destruct (_ && _) eqn:E1; [|destruct (_ && _) eqn:E2 in H; [|done]]; injection H as <-; lia.
Qed.

(** [list_find] cuts the used list at the cell. *)
Lemma used_cut v (U : list cell) i c :
  list_find (fun c => c.2 = v) U = Some (i, c) ->
  exists p U1 U2, c = (p, v) /\ U = U1 ++ (p, v) :: U2 /\ take i U = U1 /\ drop (S i) U = U2 /\ v ∉ U1.*2.
Proof.
  intros (Hi & Hc & Hmin)%list_find_Some. destruct c as [p w]. cbn in Hc. subst w.
  exists p, (take i U), (drop (S i) U). repeat (split; [done|]). split; [by rewrite take_drop_middle|].
  split; [done|]. split; [done|]. intros (c & E & Hc)%list_elem_of_fmap.
  apply elem_of_take in Hc as (j & Hj & Hlt). by apply (Hmin j c Hj Hlt).
Qed.

Lemma nvfree_unknown s mode sz F U v :
  addr_mode v = Some mode -> U <> [] -> list_find (fun c : cell => c.2 = v) U = None ->
  pool_rep (cells s) sz (pool_at s mode) F U -> nvfree s v = Ret s.
Proof.
  intros Hm HU Hf HP. destruct (addr_mode_cases _ _ Hm) as [Hv _]. destruct U as [|[q w] U]; [done|].
  apply list_find_None in Hf. rewrite Forall_cons in Hf. cbn in Hf. destruct Hf as [Hw Hf].
  pose proof (pool_used _ _ _ _ _ HP) as Hc. pose proof Hc as (Eu & Hq & nx & E & Hn).
  unfold nvfree. rewrite (proj2 (Z.eqb_neq v 0) Hv), Hm. fold (pool_at s mode).
  unfold deref. rewrite Eu, E. cbn [mbind outcome_bind vaddr next].
  rewrite (proj2 (Z.eqb_neq w v) Hw). rewrite (find_used_none _ _ _ _ _ _ _ Hn); [done| |].
  - intros (c & E' & Hin)%list_elem_of_fmap. rewrite Forall_forall in Hf. by apply (Hf c Hin).
  - pose proof (nv_chain_size _ _ _ _ Hc) as Hs.
    pose proof (pool_ptrs _ _ _ _ _ HP) as Hp. apply NoDup_app in Hp as (_ & _ & Hp).
    specialize (Hs Hp). cbn in Hs. lia.
Qed.

Lemma nvfree_refines s R D v mode :
  nvm_rep s R D -> addr_mode v = Some mode -> (if mode =? 1 then D.2 else R.2) <> [] ->
  exists s', nvfree s v = Ret s' /\
    nvm_rep s' (if mode =? 0 then spec_free v R else R) (if mode =? 1 then spec_free v D else D).
Proof.
  intros HS Hm HU. pose proof HS as [H0 HR HD Ha HRa HDa].
  destruct (addr_mode_cases _ _ Hm) as [Hv [->| ->]]; cbn in HU |- *; unfold spec_free.
  - destruct (list_find (fun c => c.2 = v) R.2) as [[i c]|] eqn:Ef.
    2:{ exists s. split; [|done]. by eapply (nvfree_unknown s 0 _ R.1 R.2). }
    destruct (used_cut _ _ _ _ Ef) as (p & U1 & U2 & -> & EU & -> & -> & Hn).
    rewrite EU in HR. destruct (nvfree_mode s 0 _ _ _ _ _ _ Hm Hv Hn HR) as (pl' & nx & -> & Hr).
    eexists; split; [reflexivity|]. destruct R as [F U]. cbn in *. subst U.
    destruct (push_apart _ _ (reg_pool s) _ p v F U1 U2 D nx
      (mk_nvm (free_list (reg_pool s)) v MAX_FILE_SIZE) HD Ha) as [HD' Ha'].
    destruct (nv_chain_mid _ _ _ _ _ _ _ (pool_used _ _ _ _ _ HR)) as [Hp0 _].
    split; cbn; try done; [by apply null_insert, null_unlink|]. eapply Forall_perm_app; [|exact HRa]. symmetry. apply perm_mid.
  - destruct (list_find (fun c => c.2 = v) D.2) as [[i c]|] eqn:Ef.
    2:{ exists s. split; [|done]. by eapply (nvfree_unknown s 1 _ D.1 D.2). }
    destruct (used_cut _ _ _ _ Ef) as (p & U1 & U2 & -> & EU & -> & -> & Hn).
    rewrite EU in HD. destruct (nvfree_mode s 1 _ _ _ _ _ _ Hm Hv Hn HD) as (pl' & nx & -> & Hr).
    eexists; split; [reflexivity|]. destruct D as [F U]. cbn in *. subst U.
    destruct (push_apart _ _ (dir_pool s) _ p v F U1 U2 R nx
      (mk_nvm (free_list (dir_pool s)) v MAX_DIR_SIZE) HR (fun q H1 H2 => Ha q H2 H1)) as [HR' Ha'].
    destruct (nv_chain_mid _ _ _ _ _ _ _ (pool_used _ _ _ _ _ HD)) as [Hp0 _].
    split; cbn; try done; [by apply null_insert, null_unlink|intros q H1 H2; by apply (Ha' q)|].
    eapply Forall_perm_app; [|exact HDa]. symmetry. apply perm_mid.
Qed.

(** ** Initialisation *)

Section init_ok.
Context `{!Kzalloc} (Hkz : forall h, kzalloc h <> 0).

Lemma new_area_ok h addr sz :
  exists a, new_area h addr sz = Ret (a, <[a := mk_nvm 0 addr sz]> h) /\ a <> 0 /\ h !! a = None.
Proof.
  exists (kzalloc h). unfold new_area. rewrite (proj2 (Z.eqb_neq _ 0) (Hkz h)).
  split; [done|]. split; [apply Hkz|]. apply kzalloc_fresh, Hkz.
Qed.

(** The loop appends one fresh cell per area below the limit. *)
Lemma init_areas_ok n fuel h p vp addr cnt sz limit :
  h !! p = Some (mk_nvm 0 vp sz) -> p <> 0 -> (n < fuel)%nat -> 0 < sz -> 0 <= addr ->
  addr + Z.of_nat n * sz - 1 < limit -> limit <= addr + (Z.of_nat n + 1) * sz - 1 ->
  addr + (Z.of_nat n + 1) * sz <= 2 ^ 64 -> 0 <= cnt -> cnt + Z.of_nat n < 2 ^ 31 ->
  exists l h', init_areas fuel h p addr cnt sz limit = Ret (cnt + Z.of_nat n, h') /\
    nv_chain h' sz p ((p, vp) :: l) /\ l.*2 = elems addr sz n /\ NoDup l.*1 /\
    (forall q, q ∈ l.*1 -> h !! q = None) /\
    (forall q, q <> p -> is_Some (h !! q) -> h' !! q = h !! q) /\
    (h !! 0 = None -> h' !! 0 = None).
Proof.
  revert fuel h p vp addr cnt. induction n as [|n IH];
    intros [|fuel] h p vp addr cnt Hp Hp0 Hf Hsz Ha Hl1 Hl2 Hw Hc Hc2; try lia; cbn [init_areas].
  { rewrite (proj2 (Z.ltb_ge _ _)) by (rewrite u64_small; lia). exists [], h.
    rewrite Z.add_0_r. split; [done|]. cbn. split; [|split; [done|split; [constructor|]]].
    { split; [done|]. split; [done|]. by exists 0. }
    split; [intros q Hq; by apply not_elem_of_nil in Hq|]. split; done. }
  rewrite (proj2 (Z.ltb_lt _ _)) by (rewrite u64_small; lia).
  destruct (new_area_ok h addr sz) as (a & -> & Ha0 & Hfr). cbn [mbind outcome_bind].
  assert (Hne : a <> p) by congruence.
  unfold deref. rewrite lookup_insert_ne, Hp by done. cbn [mbind outcome_bind set_next vaddr nvm_size].
  set (h2 := <[p := _]> _). rewrite u64_small, s32_small by lia.
  assert (Ea : h2 !! a = Some (mk_nvm 0 addr sz))
    by (unfold h2; rewrite lookup_insert_ne by done; apply lookup_insert_eq).
  destruct (IH fuel h2 a addr (addr + sz) (cnt + 1)) as (l & h' & E & Hch & Hl & Hn & Hfresh & Hkeep & Hnull);
    [done|done|lia..|].
  exists ((a, addr) :: l), h'. rewrite E. split; [f_equal; f_equal; lia|].
  assert (Hpl : h' !! p = h2 !! p).
  { apply Hkeep; [done|]. unfold h2. rewrite lookup_insert_eq. done. }
  unfold h2 in Hpl. rewrite lookup_insert_eq in Hpl.
  split; [|split; [|split; [|split; [|split]]]].
  - cbn [nv_chain]. split; [done|]. split; [done|]. exists a. split; [done|]. exact Hch.
  - cbn. by rewrite Hl.
  - cbn. constructor; [|done]. intros Hin. apply Hfresh in Hin. congruence.
  - cbn. intros q [->|Hq]%elem_of_cons; [done|]. apply Hfresh in Hq. unfold h2 in Hq.
    apply lookup_insert_None in Hq as [Hq _]. by apply lookup_insert_None in Hq as [Hq _].
  - intros q Hq [x Hx]. rewrite Hkeep; [|congruence|]; unfold h2;
      rewrite !lookup_insert_ne by congruence; [done|]. by exists x.
  - intros H0. apply Hnull. unfold h2. by repeat apply null_insert.
Qed.

Lemma init_pool_ok n fuel h addr sz limit :
  (n < fuel)%nat -> 0 < sz -> 0 <= addr ->
  addr + Z.of_nat (S n) * sz - 1 < limit -> limit <= addr + Z.of_nat (S (S n)) * sz - 1 ->
  addr + Z.of_nat (S (S n)) * sz <= 2 ^ 64 -> Z.of_nat (S n) < 2 ^ 31 ->
  exists l h' pl, init_pool fuel h addr 0 sz limit = Ret (pl, h') /\
    pool_rep h' sz pl l [] /\ l.*2 = elems addr sz (S n) /\
    (forall q, q ∈ l.*1 -> h !! q = None) /\
    (forall q, is_Some (h !! q) -> h' !! q = h !! q) /\ (h !! 0 = None -> h' !! 0 = None).
Proof.
  intros Hf Hsz Ha Hl1 Hl2 Hw Hc. unfold init_pool.
  destruct (new_area_ok h addr sz) as (a & -> & Ha0 & Hfr). cbn [mbind outcome_bind].
  rewrite u64_small, s32_small by lia.
  destruct (init_areas_ok n fuel (<[a := mk_nvm 0 addr sz]> h) a addr (addr + sz) (0 + 1) sz limit)
    as (l & h' & -> & Hch & Hl & Hn & Hfresh & Hkeep & Hnull); [apply lookup_insert_eq|done|lia..|].
  cbn [mbind outcome_bind].
  assert (Hlen : length l = n).
  { rewrite <- (length_elems (addr + sz) sz n), <- Hl. symmetry. apply length_fmap. }
  assert (Ha1 : a ∉ l.*1).
  { intros Hin. apply Hfresh in Hin. by rewrite lookup_insert_eq in Hin. }
  exists ((a, addr) :: l), h'. eexists. split; [reflexivity|].
  split; [split|split; [|split; [|split]]]; rewrite ?app_nil_r; try done.
  - cbn [free_cnt length]. lia.
  - cbn. by constructor.
  - cbn. rewrite Hl. change (addr :: elems (addr + sz) sz n) with (elems addr sz (S n)).
    by apply elems_nodup.
  - cbn [length]. lia.
  - cbn. by rewrite Hl.
  - cbn. intros q [->|Hq]%elem_of_cons; [done|]. apply Hfresh in Hq.
    by apply lookup_insert_None in Hq as [Hq _].
  - intros q [x Hx]. assert (q <> a) by congruence.
    rewrite Hkeep; [|done|]; rewrite lookup_insert_ne by done; [done|]. by exists x.
  - intros H0. by apply Hnull, null_insert.
Qed.

Lemma dir_areas_eq : DIR_AREAS = S (Z.to_nat 16383).
Proof. unfold DIR_AREAS. change (DIR_AREA_SIZE / MAX_DIR_SIZE) with 16384. lia. Qed.

Lemma reg_areas_eq : REG_AREAS = S (Z.to_nat 957).
Proof.
  unfold REG_AREAS. change ((RDFS_END - RDFS_START - DIR_AREA_SIZE) / MAX_FILE_SIZE) with 958. lia.
Qed.

Lemma nvmalloc_init_ok :
  exists s R D, nvmalloc_init DIR_AREAS nvm_reset = Ret (0, s) /\ nvm_rep s (R, []) (D, []) /\
    R.*2 = elems (RDFS_START + DIR_AREA_SIZE) MAX_FILE_SIZE REG_AREAS /\
    D.*2 = elems RDFS_START MAX_DIR_SIZE DIR_AREAS.
Proof.
  unfold nvmalloc_init, nvm_reset. cbn [cells reg_pool dir_pool free_cnt used_cnt used_list].
  destruct (init_pool_ok (Z.to_nat 16383) DIR_AREAS ∅ RDFS_START MAX_DIR_SIZE (RDFS_START + DIR_AREA_SIZE))
    as (D & h & pd & -> & HD & ED & _ & _ & Hn1);
    [rewrite dir_areas_eq; lia|unfold RDFS_START, MAX_DIR_SIZE, DIR_AREA_SIZE; lia..|]. cbn [mbind outcome_bind].
  destruct (init_pool_ok (Z.to_nat 957) DIR_AREAS h (RDFS_START + DIR_AREA_SIZE) MAX_FILE_SIZE RDFS_END)
    as (R & h' & pr & -> & HR & ER & Hfr & Hk & Hn2);
    [rewrite dir_areas_eq; lia|unfold RDFS_START, RDFS_END, MAX_FILE_SIZE, DIR_AREA_SIZE; lia..|]. cbn [mbind outcome_bind].
  rewrite <- dir_areas_eq in ED. rewrite <- reg_areas_eq in ER.
  eexists _, R, D. split; [reflexivity|].
  split; [|split; [exact ER|exact ED]]. split; cbn [cells reg_pool dir_pool fst snd].
  - apply Hn2, Hn1, lookup_empty.
  - destruct HR. by split.
  - destruct HD as [Hf Hu ? ? ? ? ?]. split; try done.
    eapply nv_chain_frame; [|exact Hf]. intros q Hq. apply Hk.
    by apply (nv_chain_in _ _ _ _ q Hf).
  - unfold ptrs. cbn. rewrite !app_nil_r. intros q HqR HqD. apply Hfr in HqR.
    destruct (nv_chain_in _ _ _ _ q (pool_free _ _ _ _ _ HD) HqD). congruence.
  - rewrite app_nil_r, Forall_forall. intros c Hc. apply elem_of_elems. rewrite <- ER.
    by apply list_elem_of_fmap_2.
  - rewrite app_nil_r, Forall_forall. intros c Hc. apply elem_of_elems. rewrite <- ED.
    by apply list_elem_of_fmap_2.
Qed.
End init_ok.

(** ** Properties *)

Lemma reg_area_mode v :
  area_ok (RDFS_START + DIR_AREA_SIZE) MAX_FILE_SIZE REG_AREAS v -> addr_mode v = Some 0.
Proof.
  intros (i & Hi & ->). rewrite reg_areas_eq in Hi.
  unfold addr_mode, RDFS_START, RDFS_END, DIR_AREA_SIZE, MAX_FILE_SIZE in *.
  rewrite (proj2 (andb_false_iff _ _)) by (right; lia). by rewrite (proj2 (andb_true_iff _ _)) by lia.
Qed.

Lemma dir_area_mode v : area_ok RDFS_START MAX_DIR_SIZE DIR_AREAS v -> addr_mode v = Some 1.
Proof.
  intros (i & Hi & ->). rewrite dir_areas_eq in Hi.
  unfold addr_mode, RDFS_START, RDFS_END, DIR_AREA_SIZE, MAX_DIR_SIZE in *.
  by rewrite (proj2 (andb_true_iff _ _)) by lia.
Qed.

Lemma spec_free_head c F U : spec_free c.2 (F, c :: U) = (c :: F, U).
Proof. unfold spec_free. cbn. rewrite decide_True by done. cbn. by rewrite drop_0. Qed.

(** One call of the allocator by any thread; the lock makes the calls atomic. *)
Inductive nv_step : nvm_state -> nvm_state -> Prop :=
| step_nvmalloc s mode v s' : nvmalloc s mode = Ret (v, s') -> nv_step s s'
| step_nvfree s addr s' : nvfree s addr = Ret s' -> nv_step s s'.

Definition reg_areas : list Z := elems (RDFS_START + DIR_AREA_SIZE) MAX_FILE_SIZE REG_AREAS.
Definition dir_areas : list Z := elems RDFS_START MAX_DIR_SIZE DIR_AREAS.

(** Every area is on exactly one list of its pool. *)
Definition accounts (areas : list Z) (P : apool) : Prop := (P.1.*2 ++ P.2.*2) ≡ₚ areas.

Definition nv_inv (s : nvm_state) : Prop :=
  exists R D, nvm_rep s R D /\ accounts reg_areas R /\ accounts dir_areas D.

Lemma accounts_fresh areas F : F.*2 = areas -> accounts areas (F, []).
Proof. intros <-. unfold accounts. cbn. by rewrite app_nil_r. Qed.

Lemma spec_alloc_accounts areas P : accounts areas P -> accounts areas (spec_alloc P).2.
Proof.
  destruct P as [[|c F] U]; [done|]. unfold accounts. cbn. by rewrite <- Permutation_middle.
Qed.

Lemma spec_free_accounts areas v P : accounts areas P -> accounts areas (spec_free v P).
Proof.
  unfold spec_free. destruct (list_find _ P.2) as [[i c]|] eqn:E; [|done].
  destruct P as [F U]. destruct (used_cut _ _ _ _ E) as (p & U1 & U2 & -> & EU & -> & -> & _).
  cbn in EU. subst U. unfold accounts. cbn [fst snd]. rewrite !fmap_app. cbn.
  intros <-. apply (perm_mid F.*2 U1.*2 U2.*2 v).
Qed.

Lemma nvfree_empty s mode v h sz F :
  addr_mode v = Some mode -> pool_rep h sz (pool_at s mode) F [] -> cells s !! 0 = None ->
  nvfree s v = Oops.
Proof.
  intros Hm HP H0. destruct (addr_mode_cases _ _ Hm) as [Hv _].
  unfold nvfree. rewrite (proj2 (Z.eqb_neq v 0) Hv), Hm. fold (pool_at s mode).
  pose proof (pool_used _ _ _ _ _ HP) as Hu. cbn in Hu. unfold deref. by rewrite Hu, H0.
Qed.

Lemma nv_step_inv s s' : nv_inv s -> nv_step s s' -> nv_inv s'.
Proof.
  intros (R & D & HS & HR & HD) Hst. destruct Hst as [s mode v s' E|s v s' E].
  - destruct (nvmalloc_refines s R D mode HS) as (s2 & E2 & HS2). rewrite E in E2.
    injection E2 as -> ->. eexists _, _. split; [exact HS2|].
    destruct (mode =? 0), (mode =? 1); split; auto using spec_alloc_accounts.
  - destruct (addr_mode v) as [mode|] eqn:Hm.
    2:{ unfold nvfree in E. rewrite Hm in E. destruct (v =? 0); injection E as <-; by exists R, D. }
    destruct (decide ((if mode =? 1 then D.2 else R.2) = [])) as [Hnil|HU].
    { exfalso. destruct HS. rewrite (nvfree_empty s mode v (cells s)
        (if mode =? 1 then MAX_DIR_SIZE else MAX_FILE_SIZE) (if mode =? 1 then D.1 else R.1)) in E;
        [done|done| |done]. unfold pool_at. destruct (mode =? 1); by rewrite <- Hnil. }
    destruct (nvfree_refines s R D v mode HS Hm HU) as (s2 & E2 & HS2). rewrite E in E2.
    injection E2 as ->. eexists _, _. split; [exact HS2|].
    destruct (mode =? 0), (mode =? 1); split; auto using spec_free_accounts.
Qed.

(** The areas in use, as (address, size) pairs. *)
Definition live (R D : apool) : list (Z * Z) :=
  ((fun v => (v, MAX_FILE_SIZE)) <$> R.2.*2) ++ ((fun v => (v, MAX_DIR_SIZE)) <$> D.2.*2).

Lemma area_disjoint base sz n v w :
  0 < sz -> area_ok base sz n v -> area_ok base sz n w -> v <> w -> v + sz <= w \/ w + sz <= v.
Proof. intros Hs (i & _ & ->) (j & _ & ->) Hne. assert (i <> j) by congruence. nia. Qed.

Lemma reg_dir_disjoint v w :
  area_ok (RDFS_START + DIR_AREA_SIZE) MAX_FILE_SIZE REG_AREAS v ->
  area_ok RDFS_START MAX_DIR_SIZE DIR_AREAS w -> w + MAX_DIR_SIZE <= v.
Proof.
  intros (i & Hi & ->) (j & Hj & ->). rewrite dir_areas_eq in Hj.
  unfold DIR_AREA_SIZE, MAX_FILE_SIZE, MAX_DIR_SIZE in *. lia.
Qed.

Lemma live_in s R D x : nvm_rep s R D -> x ∈ live R D ->
  area_ok (RDFS_START + DIR_AREA_SIZE) MAX_FILE_SIZE REG_AREAS x.1 /\ x.2 = MAX_FILE_SIZE \/
  area_ok RDFS_START MAX_DIR_SIZE DIR_AREAS x.1 /\ x.2 = MAX_DIR_SIZE.
Proof.
  intros [_ _ _ _ HR HD]. unfold live.
  intros [(v & -> & (c & -> & Hc)%list_elem_of_fmap)%list_elem_of_fmap
         |(v & -> & (c & -> & Hc)%list_elem_of_fmap)%list_elem_of_fmap]%elem_of_app; [left|right].
  - rewrite Forall_forall in HR. split; [|done]. apply (HR c). apply elem_of_app. by right.
  - rewrite Forall_forall in HD. split; [|done]. apply (HD c). apply elem_of_app. by right.
Qed.

(** C21: no two live areas overlap. In every state reachable from
    [nvmalloc_init] by calls of [nvmalloc] and [nvfree] in any order and with any
    arguments, the lists are well formed, every area is on exactly one list of
    its pool, no area is live twice and any two live areas, of files or
    directories, are disjoint. *)
Theorem nvmalloc_reachable_disjoint `{!Kzalloc} s0 s :
  (forall h, kzalloc h <> 0) -> nvmalloc_init DIR_AREAS nvm_reset = Ret (0, s0) -> rtc nv_step s0 s ->
  exists R D, nvm_rep s R D /\ accounts reg_areas R /\ accounts dir_areas D /\
    NoDup (live R D) /\
    (forall x y, x ∈ live R D -> y ∈ live R D -> x <> y -> x.1 + x.2 <= y.1 \/ y.1 + y.2 <= x.1).
Proof.
  intros Hkz E Hr. assert (Hinv : nv_inv s).
  { destruct (nvmalloc_init_ok Hkz) as (s1 & R & D & E1 & HS & ER & ED). rewrite E in E1.
    injection E1 as ->. assert (H1 : nv_inv s1).
    { exists (R, []), (D, []). split; [exact HS|]. split; by apply accounts_fresh. }
    clear -Hr H1. induction Hr as [|? ? ? Hs _ IH]; [done|]. by apply IH, (nv_step_inv x). }
  destruct Hinv as (R & D & HS & HR & HD). exists R, D. do 3 (split; [done|]). split.
  - pose proof HS as [_ [_ _ _ _ _ HaR _] [_ _ _ _ _ HaD _] _ _ _].
    apply NoDup_app in HaR as (_ & _ & HaR). apply NoDup_app in HaD as (_ & _ & HaD).
    unfold live. apply NoDup_app. split; [|split].
    + apply NoDup_fmap_2; [|done]. by intros ? ? [= ->].
    + intros x (v & -> & _)%list_elem_of_fmap (w & E' & _)%list_elem_of_fmap. by inversion E'.
    + apply NoDup_fmap_2; [|done]. by intros ? ? [= ->].
  - intros [v n] [w k] Hx Hy Hne. apply (live_in s R D _ HS) in Hx, Hy. cbn in *.
    destruct Hx as [[Hv ->]|[Hv ->]], Hy as [[Hw ->]|[Hw ->]].
    + eapply area_disjoint; [done|done|done|congruence].
    + right. by apply reg_dir_disjoint.
    + left. by apply reg_dir_disjoint.
    + eapply area_disjoint; [done|done|done|congruence].
Qed.

(** Allocation and release are inverse. When [nvmalloc] hands out an area of
    either pool, [nvfree] of that area returns and restores the abstract lists. *)
Theorem nvfree_nvmalloc s R D mode v s1 :
  nvm_rep s R D -> nvmalloc s mode = Ret (v, s1) -> v <> 0 ->
  exists s2, nvfree s1 v = Ret s2 /\ nvm_rep s2 R D.
Proof.
  intros HS E Hv. destruct (nvmalloc_refines s R D mode HS) as (s1' & E' & HS').
  rewrite E in E'. injection E' as Ev ->.
  destruct (Z.eqb_spec mode 0) as [->|Hm0]; [|destruct (Z.eqb_spec mode 1) as [->|Hm1]; [|done]].
  - cbn in HS'. destruct R as [[|c F] U]; cbn in Ev; [done|]. subst v. cbn in HS'.
    assert (Hm : addr_mode c.2 = Some 0).
    { apply reg_area_mode. pose proof (rep_reg_addr _ _ _ HS) as Hf. by inversion Hf. }
    destruct (nvfree_refines _ _ _ c.2 0 HS' Hm) as (s2 & E2 & HS2); [done|].
    exists s2. split; [done|]. cbn in HS2. by rewrite spec_free_head in HS2.
  - cbn in HS'. destruct D as [[|c F] U]; cbn in Ev; [done|]. subst v. cbn in HS'.
    assert (Hm : addr_mode c.2 = Some 1).
    { apply dir_area_mode. pose proof (rep_dir_addr _ _ _ HS) as Hf. by inversion Hf. }
    destruct (nvfree_refines _ _ _ c.2 1 HS' Hm) as (s2 & E2 & HS2); [done|].
    exists s2. split; [done|]. cbn in HS2. by rewrite spec_free_head in HS2.
Qed.

(** Releasing when nothing is in use. [nvfree] of any address of a pool whose
    used list is empty dereferences the NULL list head. *)
Theorem nvfree_empty_faults s R D v mode :
  nvm_rep s R D -> addr_mode v = Some mode -> (if mode =? 1 then D.2 else R.2) = [] ->
  nvfree s v = Oops.
Proof.
  intros [H0 HR HD _ _ _] Hm Hnil.
  apply (nvfree_empty s mode v (cells s) (if mode =? 1 then MAX_DIR_SIZE else MAX_FILE_SIZE)
    (if mode =? 1 then D.1 else R.1)); [done| |done].
  unfold pool_at. destruct (mode =? 1); by rewrite <- Hnil.
Qed.

(** ** Instances *)

(** An allocator that returns the first address above all cells. *)
Definition top (h : heap) : Z := map_fold (fun k _ acc => Z.max k acc) 0 h.

Lemma top_ge h : 0 <= top h /\ forall k, is_Some (h !! k) -> k <= top h.
Proof.
  unfold top. apply (map_fold_weak_ind (fun r (h : heap) => 0 <= r /\ forall k, is_Some (h !! k) -> k <= r)).
  - split; [lia|]. intros k [x Hx]. by rewrite lookup_empty in Hx.
  - intros i x m r Hi [Hr IH]. split; [lia|]. intros k [y Hy].
    apply lookup_insert_Some in Hy as [[-> _]|[_ Hy]]; [lia|]. specialize (IH k (mk_is_Some _ _ Hy)). lia.
Qed.

#[export] Instance top_kzalloc : Kzalloc.
Proof.
  refine {| kzalloc h := top h + 1 |}. intros h _. destruct (h !! (top h + 1)) eqn:E; [|done].
  pose proof (proj2 (top_ge h) _ (mk_is_Some _ _ E)). lia.
Defined.

Lemma top_kzalloc_ok h : kzalloc h <> 0.
Proof. cbn. pose proof (top_ge h). lia. Qed.

Lemma nvmalloc_reachable_disjoint_witness :
  exists s0 s, nvmalloc_init DIR_AREAS nvm_reset = Ret (0, s0) /\ nvmalloc s0 0 = Ret (RDFS_START + DIR_AREA_SIZE, s) /\
    exists R D, nvm_rep s R D /\ NoDup (live R D).
Proof.
  destruct (nvmalloc_init_ok top_kzalloc_ok) as (s0 & R & D & E & HS & ER & ED).
  destruct (nvmalloc_refines s0 (R, []) (D, []) 0 HS) as (s & E1 & _).
  exists s0, s. split; [exact E|]. split.
  - rewrite E1. rewrite reg_areas_eq in ER.
    destruct R as [|c R]; [discriminate ER|].
    assert (Ec : c.2 = RDFS_START + DIR_AREA_SIZE) by exact (f_equal (hd 0) ER).
    cbn. by rewrite Ec.
  - destruct (nvmalloc_reachable_disjoint s0 s top_kzalloc_ok E) as (R' & D' & H1 & _ & _ & H2 & _).
    + eapply rtc_l; [|apply rtc_refl]. by eapply step_nvmalloc.
    + exists R', D'. split; [exact H1|exact H2].
Defined.

Lemma nvfree_nvmalloc_witness :
  exists s0 s1 s2, nvmalloc s0 1 = Ret (RDFS_START, s1) /\ nvfree s1 RDFS_START = Ret s2.
Proof.
  destruct (nvmalloc_init_ok top_kzalloc_ok) as (s0 & R & D & E & HS & ER & ED).
  destruct (nvmalloc_refines s0 (R, []) (D, []) 1 HS) as (s1 & E1 & _).
  destruct D as [|c D]; [rewrite dir_areas_eq in ED; discriminate ED|].
  rewrite dir_areas_eq in ED.
  assert (Ec : c.2 = RDFS_START) by exact (f_equal (hd 0) ED). cbn in E1. rewrite Ec in E1.
  destruct (nvfree_nvmalloc s0 (R, []) (c :: D, []) 1 RDFS_START s1 HS E1) as (s2 & E2 & _);
    [discriminate|]. exists s0, s1, s2. split; [exact E1|exact E2].
Defined.

Lemma nvfree_empty_faults_witness :
  exists s0, nvmalloc_init DIR_AREAS nvm_reset = Ret (0, s0) /\ nvfree s0 RDFS_START = Oops.
Proof.
  destruct (nvmalloc_init_ok top_kzalloc_ok) as (s0 & R & D & E & HS & _ & _).
  exists s0. split; [exact E|].
  apply (nvfree_empty_faults s0 (R, []) (D, []) RDFS_START 1 HS); reflexivity.
Defined.
