(* ===== verification/Vfs.v ===== *)
(** * In-core inodes (rdfs.h: struct rdfs_inode_info and its embedded VFS inode)

    The fields of the VFS inode and of [rdfs_inode_info] the modelled code reads
    or writes, with one update function per field, the kernel's error numbers
    and the mode and flag bits of the ABI. *)

From S2P Require Import Prelude.

(** Kernel error numbers. *)
Definition ENOENT : Z := 2.
Definition EIO : Z := 5.
Definition ENOMEM : Z := 12.
Definition EACCES : Z := 13.
Definition EEXIST : Z := 17.
Definition EINVAL : Z := 22.
Definition ENOSPC : Z := 28.
Definition ENAMETOOLONG : Z := 36.
Definition ENOTEMPTY : Z := 39.
Definition ENODATA : Z := 61.
Definition EOPNOTSUPP : Z := 95.
Definition ESTALE : Z := 116.

(** File modes. *)
Definition S_IFMT : Z := 0xF000.
Definition S_IFSOCK : Z := 0xC000.
Definition S_IFLNK : Z := 0xA000.
Definition S_IFREG : Z := 0x8000.
Definition S_IFBLK : Z := 0x6000.
Definition S_IFDIR : Z := 0x4000.
Definition S_IFCHR : Z := 0x2000.
Definition S_IFIFO : Z := 0x1000.
Definition S_ISGID : Z := 0x400.
Definition S_ISUID : Z := 0x800.
Definition S_ISREG (m : Z) : bool := Z.land m S_IFMT =? S_IFREG.
Definition S_ISDIR (m : Z) : bool := Z.land m S_IFMT =? S_IFDIR.
Definition S_ISLNK (m : Z) : bool := Z.land m S_IFMT =? S_IFLNK.

(** Inode flags (FS_*_FL, which the RDFS_*_FL names stand for) and VFS flags. *)
Definition RDFS_SECRM_FL : Z := 0x1.
Definition RDFS_UNRM_FL : Z := 0x2.
Definition RDFS_COMPR_FL : Z := 0x4.
Definition RDFS_SYNC_FL : Z := 0x8.
Definition RDFS_IMMUTABLE_FL : Z := 0x10.
Definition RDFS_APPEND_FL : Z := 0x20.
Definition RDFS_NODUMP_FL : Z := 0x40.
Definition RDFS_NOATIME_FL : Z := 0x80.
Definition RDFS_BTREE_FL : Z := 0x1000.
Definition RDFS_DIRSYNC_FL : Z := 0x10000.
Definition FS_TOPDIR_FL : Z := 0x20000.
Definition FS_COMPRBLK_FL : Z := 0x200.
Definition FS_NOCOMP_FL : Z := 0x400.
Definition FS_JOURNAL_DATA_FL : Z := 0x4000.
Definition FS_NOTAIL_FL : Z := 0x8000.
Definition S_SYNC : Z := 1.
Definition S_NOATIME : Z := 2.
Definition S_APPEND : Z := 4.
Definition S_IMMUTABLE : Z := 8.
Definition S_DIRSYNC : Z := 64.

Record inode := mk_inode {
  i_ino : Z;
  i_mode : Z;
  i_uid : Z;
  i_gid : Z;
  i_nlink : Z;
  i_size : Z;
  i_blocks : Z;
  i_atime : Z;
  i_mtime : Z;
  i_ctime : Z;
  i_generation : Z;
  i_flags : Z;
  ni_state : Z;
  ni_flags : Z;
  ni_file_acl : Z;
  ni_dir_acl : Z;
  ni_dtime : Z;
  ni_pg_addr : Z;
  ni_virt_addr : Z;
  ni_counter : Z;
  ni_mapping_count : Z
}.

(** inode->field = x *)
Definition set_i_ino (x : Z) (i : inode) : inode :=
  mk_inode x (i_mode i) (i_uid i) (i_gid i) (i_nlink i) (i_size i) (i_blocks i) (i_atime i)
    (i_mtime i) (i_ctime i) (i_generation i) (i_flags i) (ni_state i) (ni_flags i) (ni_file_acl i)
    (ni_dir_acl i) (ni_dtime i) (ni_pg_addr i) (ni_virt_addr i) (ni_counter i) (ni_mapping_count
    i).
Definition set_i_mode (x : Z) (i : inode) : inode :=
  mk_inode (i_ino i) x (i_uid i) (i_gid i) (i_nlink i) (i_size i) (i_blocks i) (i_atime i)
    (i_mtime i) (i_ctime i) (i_generation i) (i_flags i) (ni_state i) (ni_flags i) (ni_file_acl i)
    (ni_dir_acl i) (ni_dtime i) (ni_pg_addr i) (ni_virt_addr i) (ni_counter i) (ni_mapping_count
    i).
Definition set_i_uid (x : Z) (i : inode) : inode :=
  mk_inode (i_ino i) (i_mode i) x (i_gid i) (i_nlink i) (i_size i) (i_blocks i) (i_atime i)
    (i_mtime i) (i_ctime i) (i_generation i) (i_flags i) (ni_state i) (ni_flags i) (ni_file_acl i)
    (ni_dir_acl i) (ni_dtime i) (ni_pg_addr i) (ni_virt_addr i) (ni_counter i) (ni_mapping_count
    i).
Definition set_i_gid (x : Z) (i : inode) : inode :=
  mk_inode (i_ino i) (i_mode i) (i_uid i) x (i_nlink i) (i_size i) (i_blocks i) (i_atime i)
    (i_mtime i) (i_ctime i) (i_generation i) (i_flags i) (ni_state i) (ni_flags i) (ni_file_acl i)
    (ni_dir_acl i) (ni_dtime i) (ni_pg_addr i) (ni_virt_addr i) (ni_counter i) (ni_mapping_count
    i).
Definition set_i_nlink (x : Z) (i : inode) : inode :=
  mk_inode (i_ino i) (i_mode i) (i_uid i) (i_gid i) x (i_size i) (i_blocks i) (i_atime i) (i_mtime
    i) (i_ctime i) (i_generation i) (i_flags i) (ni_state i) (ni_flags i) (ni_file_acl i)
    (ni_dir_acl i) (ni_dtime i) (ni_pg_addr i) (ni_virt_addr i) (ni_counter i) (ni_mapping_count
    i).
Definition set_i_size (x : Z) (i : inode) : inode :=
  mk_inode (i_ino i) (i_mode i) (i_uid i) (i_gid i) (i_nlink i) x (i_blocks i) (i_atime i)
    (i_mtime i) (i_ctime i) (i_generation i) (i_flags i) (ni_state i) (ni_flags i) (ni_file_acl i)
    (ni_dir_acl i) (ni_dtime i) (ni_pg_addr i) (ni_virt_addr i) (ni_counter i) (ni_mapping_count
    i).
Definition set_i_blocks (x : Z) (i : inode) : inode :=
  mk_inode (i_ino i) (i_mode i) (i_uid i) (i_gid i) (i_nlink i) (i_size i) x (i_atime i) (i_mtime
    i) (i_ctime i) (i_generation i) (i_flags i) (ni_state i) (ni_flags i) (ni_file_acl i)
    (ni_dir_acl i) (ni_dtime i) (ni_pg_addr i) (ni_virt_addr i) (ni_counter i) (ni_mapping_count
    i).
Definition set_i_atime (x : Z) (i : inode) : inode :=
  mk_inode (i_ino i) (i_mode i) (i_uid i) (i_gid i) (i_nlink i) (i_size i) (i_blocks i) x (i_mtime
    i) (i_ctime i) (i_generation i) (i_flags i) (ni_state i) (ni_flags i) (ni_file_acl i)
    (ni_dir_acl i) (ni_dtime i) (ni_pg_addr i) (ni_virt_addr i) (ni_counter i) (ni_mapping_count
    i).
Definition set_i_mtime (x : Z) (i : inode) : inode :=
  mk_inode (i_ino i) (i_mode i) (i_uid i) (i_gid i) (i_nlink i) (i_size i) (i_blocks i) (i_atime
    i) x (i_ctime i) (i_generation i) (i_flags i) (ni_state i) (ni_flags i) (ni_file_acl i)
    (ni_dir_acl i) (ni_dtime i) (ni_pg_addr i) (ni_virt_addr i) (ni_counter i) (ni_mapping_count
    i).
Definition set_i_ctime (x : Z) (i : inode) : inode :=
  mk_inode (i_ino i) (i_mode i) (i_uid i) (i_gid i) (i_nlink i) (i_size i) (i_blocks i) (i_atime
    i) (i_mtime i) x (i_generation i) (i_flags i) (ni_state i) (ni_flags i) (ni_file_acl i)
    (ni_dir_acl i) (ni_dtime i) (ni_pg_addr i) (ni_virt_addr i) (ni_counter i) (ni_mapping_count
    i).
Definition set_i_generation (x : Z) (i : inode) : inode :=
  mk_inode (i_ino i) (i_mode i) (i_uid i) (i_gid i) (i_nlink i) (i_size i) (i_blocks i) (i_atime
    i) (i_mtime i) (i_ctime i) x (i_flags i) (ni_state i) (ni_flags i) (ni_file_acl i) (ni_dir_acl
    i) (ni_dtime i) (ni_pg_addr i) (ni_virt_addr i) (ni_counter i) (ni_mapping_count i).
Definition set_i_flags (x : Z) (i : inode) : inode :=
  mk_inode (i_ino i) (i_mode i) (i_uid i) (i_gid i) (i_nlink i) (i_size i) (i_blocks i) (i_atime
    i) (i_mtime i) (i_ctime i) (i_generation i) x (ni_state i) (ni_flags i) (ni_file_acl i)
    (ni_dir_acl i) (ni_dtime i) (ni_pg_addr i) (ni_virt_addr i) (ni_counter i) (ni_mapping_count
    i).
Definition set_ni_state (x : Z) (i : inode) : inode :=
  mk_inode (i_ino i) (i_mode i) (i_uid i) (i_gid i) (i_nlink i) (i_size i) (i_blocks i) (i_atime
    i) (i_mtime i) (i_ctime i) (i_generation i) (i_flags i) x (ni_flags i) (ni_file_acl i)
    (ni_dir_acl i) (ni_dtime i) (ni_pg_addr i) (ni_virt_addr i) (ni_counter i) (ni_mapping_count
    i).
Definition set_ni_flags (x : Z) (i : inode) : inode :=
  mk_inode (i_ino i) (i_mode i) (i_uid i) (i_gid i) (i_nlink i) (i_size i) (i_blocks i) (i_atime
    i) (i_mtime i) (i_ctime i) (i_generation i) (i_flags i) (ni_state i) x (ni_file_acl i)
    (ni_dir_acl i) (ni_dtime i) (ni_pg_addr i) (ni_virt_addr i) (ni_counter i) (ni_mapping_count
    i).
Definition set_ni_file_acl (x : Z) (i : inode) : inode :=
  mk_inode (i_ino i) (i_mode i) (i_uid i) (i_gid i) (i_nlink i) (i_size i) (i_blocks i) (i_atime
    i) (i_mtime i) (i_ctime i) (i_generation i) (i_flags i) (ni_state i) (ni_flags i) x
    (ni_dir_acl i) (ni_dtime i) (ni_pg_addr i) (ni_virt_addr i) (ni_counter i) (ni_mapping_count
    i).
Definition set_ni_dir_acl (x : Z) (i : inode) : inode :=
  mk_inode (i_ino i) (i_mode i) (i_uid i) (i_gid i) (i_nlink i) (i_size i) (i_blocks i) (i_atime
    i) (i_mtime i) (i_ctime i) (i_generation i) (i_flags i) (ni_state i) (ni_flags i) (ni_file_acl
    i) x (ni_dtime i) (ni_pg_addr i) (ni_virt_addr i) (ni_counter i) (ni_mapping_count i).
Definition set_ni_dtime (x : Z) (i : inode) : inode :=
  mk_inode (i_ino i) (i_mode i) (i_uid i) (i_gid i) (i_nlink i) (i_size i) (i_blocks i) (i_atime
    i) (i_mtime i) (i_ctime i) (i_generation i) (i_flags i) (ni_state i) (ni_flags i) (ni_file_acl
    i) (ni_dir_acl i) x (ni_pg_addr i) (ni_virt_addr i) (ni_counter i) (ni_mapping_count i).
Definition set_ni_pg_addr (x : Z) (i : inode) : inode :=
  mk_inode (i_ino i) (i_mode i) (i_uid i) (i_gid i) (i_nlink i) (i_size i) (i_blocks i) (i_atime
    i) (i_mtime i) (i_ctime i) (i_generation i) (i_flags i) (ni_state i) (ni_flags i) (ni_file_acl
    i) (ni_dir_acl i) (ni_dtime i) x (ni_virt_addr i) (ni_counter i) (ni_mapping_count i).
Definition set_ni_virt_addr (x : Z) (i : inode) : inode :=
  mk_inode (i_ino i) (i_mode i) (i_uid i) (i_gid i) (i_nlink i) (i_size i) (i_blocks i) (i_atime
    i) (i_mtime i) (i_ctime i) (i_generation i) (i_flags i) (ni_state i) (ni_flags i) (ni_file_acl
    i) (ni_dir_acl i) (ni_dtime i) (ni_pg_addr i) x (ni_counter i) (ni_mapping_count i).
Definition set_ni_counter (x : Z) (i : inode) : inode :=
  mk_inode (i_ino i) (i_mode i) (i_uid i) (i_gid i) (i_nlink i) (i_size i) (i_blocks i) (i_atime
    i) (i_mtime i) (i_ctime i) (i_generation i) (i_flags i) (ni_state i) (ni_flags i) (ni_file_acl
    i) (ni_dir_acl i) (ni_dtime i) (ni_pg_addr i) (ni_virt_addr i) x (ni_mapping_count i).
Definition set_ni_mapping_count (x : Z) (i : inode) : inode :=
  mk_inode (i_ino i) (i_mode i) (i_uid i) (i_gid i) (i_nlink i) (i_size i) (i_blocks i) (i_atime
    i) (i_mtime i) (i_ctime i) (i_generation i) (i_flags i) (ni_state i) (ni_flags i) (ni_file_acl
    i) (ni_dir_acl i) (ni_dtime i) (ni_pg_addr i) (ni_virt_addr i) (ni_counter i) x.

(** ~x on a 32-bit field *)
Definition clear_bits (x mask : Z) : Z := Z.land x (u32 (Z.lnot mask)).
