(* ===== verification/Dir.v ===== *)
(** * Directories (dir.c)

    A directory is a byte range mapped at [ni_virt_addr]: variable-length
    records, chained by their [rec_len], that tile the range.  The operations of
    dir.c are modelled on that byte memory and shown to implement a finite map
    from names to inode numbers.  [rdfs_add_link] and [rdfs_make_empty], which
    allocate blocks, are put together from the parts here in [DirMap] and
    [Namei]. *)

From S2P Require Import Prelude Mem Layout Vfs.

(** struct rdfs_dir_entry *)
Module de_off.
Definition inode : Z := 0.
Definition rec_len : Z := 8.
Definition name_len : Z := 10.
Definition file_type : Z := 11.
Definition name : Z := 12.
End de_off.

Definition RDFS_NAME_LEN : Z := 255.
Definition RDFS_DIR_ROUND : Z := 3.
Definition RDFS_DIR_REC_LEN (name_len : Z) : Z :=
  Z.land (name_len + 12 + RDFS_DIR_ROUND) (Z.lnot RDFS_DIR_ROUND).

Definition RDFS_FT_UNKNOWN : Z := 0.
Definition RDFS_FT_REG_FILE : Z := 1.
Definition RDFS_FT_DIR : Z := 2.
Definition RDFS_FT_CHRDEV : Z := 3.
Definition RDFS_FT_BLKDEV : Z := 4.
Definition RDFS_FT_FIFO : Z := 5.
Definition RDFS_FT_SOCK : Z := 6.
Definition RDFS_FT_SYMLINK : Z := 7.
Definition RDFS_FT_MAX : Z := 8.

(** DT_* by file type and file type by mode; entries not listed are 0. *)
Definition rdfs_filetype_table (ft : Z) : Z :=
  nth (Z.to_nat ft) [0; 8; 4; 2; 6; 1; 12; 10] 0.

Definition S_SHIFT : Z := 12.
Definition rdfs_type_by_mode (k : Z) : Z :=
  if k =? Z.shiftr S_IFREG S_SHIFT then RDFS_FT_REG_FILE
  else if k =? Z.shiftr S_IFDIR S_SHIFT then RDFS_FT_DIR
  else if k =? Z.shiftr S_IFCHR S_SHIFT then RDFS_FT_CHRDEV
  else if k =? Z.shiftr S_IFBLK S_SHIFT then RDFS_FT_BLKDEV
  else if k =? Z.shiftr S_IFIFO S_SHIFT then RDFS_FT_FIFO
  else if k =? Z.shiftr S_IFSOCK S_SHIFT then RDFS_FT_SOCK
  else if k =? Z.shiftr S_IFLNK S_SHIFT then RDFS_FT_SYMLINK
  else 0.

(** Field accessors. *)
Definition de_inode (m : mem) (de : Z) : Z := ld 8 m (de + de_off.inode).
Definition de_rec_len (m : mem) (de : Z) : Z := ld 2 m (de + de_off.rec_len).
Definition de_name_len (m : mem) (de : Z) : Z := ld 1 m (de + de_off.name_len).
Definition de_file_type (m : mem) (de : Z) : Z := ld 1 m (de + de_off.file_type).

(** memcmp on [len] bytes; the caller passes a name of that length. *)
Definition rdfs_match (m : mem) (len : Z) (name : list Z) (de : Z) : bool :=
  if negb (len =? de_name_len m de) then false
  else if de_inode m de =? 0 then false
  else bool_decide (ld_bytes m (de + de_off.name) (Z.to_nat len) = take (Z.to_nat len) name).

Definition rdfs_next_entry (m : mem) (p : Z) : Z := p + de_rec_len m p.

(** The search loop: the entry and its predecessor, or nothing (NULL).  Every
    step advances by at least one byte, so [end - start] steps are enough. *)
Fixpoint find_loop (fuel : nat) (m : mem) (namelen : Z) (name : list Z) (nde prev end_ : Z)
  : option (Z * Z) :=
  match fuel with
  | O => None
  | S fuel' =>
      if nde <? end_ then
        if de_rec_len m nde =? 0 then None
        else if rdfs_match m namelen name nde then Some (nde, prev)
        else find_loop fuel' m namelen name (rdfs_next_entry m nde) nde end_
      else None
  end.

Definition rdfs_find_entry2 (m : mem) (dir : inode) (name : list Z) : option (Z * Z) :=
  let namelen := Z.of_nat (length name) in
  let n := u64 (i_size dir) in
  let start := ni_virt_addr dir in
  if n <=? 0 then None
  else find_loop (Z.to_nat n + 1) m namelen name start start (start + n).

(** The mapping calls around it are those of pgtable.c; the inode number is read
    through le32_to_cpu. *)
Definition rdfs_inode_by_name (m : mem) (dir : inode) (name : list Z) : Z :=
  match rdfs_find_entry2 m dir name with
  | Some (de, _) => u32 (de_inode m de)
  | None => 0
  end.

Definition rdfs_set_de_type (m : mem) (de mode : Z) : mem :=
  st 1 m (de + de_off.file_type) (rdfs_type_by_mode (Z.shiftr (Z.land mode S_IFMT) S_SHIFT)).

Definition rdfs_set_link (m : mem) (dir : inode) (de : Z) (inode_ : inode) (update_times : bool)
  (now : Z) : mem * inode :=
  let m := st 8 m (de + de_off.inode) (i_ino inode_) in
  let m := rdfs_set_de_type m de (i_mode inode_) in
  let dir := if update_times then set_i_mtime now (set_i_ctime now dir) else dir in
  (m, set_ni_flags (clear_bits (ni_flags dir) RDFS_BTREE_FL) dir).

(** ** Insertion *)

(** Where the scan of [rdfs_add_link] stops. *)
Inductive scan_result :=
| NeedNewBlock (de : Z)
| GotIt (de name_len rec_len : Z)
| Fail (err : Z)
| NextPage (de : Z).

(** while ((char * )de <= dir_end); from [de] to [dir_end] there are less than
    PAGE_SIZE steps. *)
Fixpoint add_scan (fuel : nat) (m : mem) (namelen : Z) (name : list Z) (reclen eaddr dir_end de : Z)
  : scan_result :=
  match fuel with
  | O => NextPage de
  | S fuel' =>
      if de <=? dir_end then
        if de =? eaddr then NeedNewBlock de
        else if de_rec_len m de =? 0 then Fail (- EIO)
        else if rdfs_match m namelen name de then Fail (- EEXIST)
        else
          let name_len := u16 (RDFS_DIR_REC_LEN (de_name_len m de)) in
          let rec_len := de_rec_len m de in
          if (de_inode m de =? 0) && (reclen <=? rec_len) then GotIt de name_len rec_len
          else if name_len + reclen <=? rec_len then GotIt de name_len rec_len
          else add_scan fuel' m namelen name reclen eaddr dir_end (de + rec_len)
      else NextPage de
  end.

(** for (i = 0; i <= nrpages; i++); falling off the end is -EINVAL. *)
Fixpoint add_pages (n : nat) (m : mem) (namelen : Z) (name : list Z) (reclen eaddr de : Z)
  : scan_result :=
  match n with
  | O => Fail (- EINVAL)
  | S n' =>
      match add_scan (Z.to_nat PAGE_SIZE + 1) m namelen name reclen eaddr (de + PAGE_SIZE - reclen) de with
      | NextPage de => add_pages n' m namelen name reclen eaddr de
      | r => r
      end
  end.

(** The new entry's name, inode number and type. *)
Definition de_fill (m : mem) (de namelen : Z) (name : list Z) (ino mode : Z) : mem :=
  let m := st 1 m (de + de_off.name_len) (u8 namelen) in
  let m := st_bytes m (de + de_off.name) (take (Z.to_nat namelen) name) in
  let m := st 8 m (de + de_off.inode) ino in
  rdfs_set_de_type m de mode.

(** got_it: split a live entry, then fill in the new one. *)
Definition add_fill (m : mem) (de name_len rec_len namelen : Z) (name : list Z) (ino mode : Z) : mem :=
  let '(m, de) :=
    if de_inode m de =? 0 then (m, de)
    else
      let de1 := de + name_len in
      let temp_rec_len := rec_len - name_len in
      let m := st 2 m (de1 + de_off.rec_len) (u16 temp_rec_len) in
      let m := st 2 m (de + de_off.rec_len) name_len in
      (m, de1) in
  de_fill m de namelen name ino mode.

Definition dir_touch (dir : inode) (now : Z) : inode :=
  let dir := set_i_mtime now (set_i_ctime now dir) in
  set_ni_flags (clear_bits (ni_flags dir) RDFS_BTREE_FL) dir.

(** ** Removal *)

Definition rdfs_delete_entry (m : mem) (dir prev : Z) (parent : inode) (now : Z) : Z * mem * inode :=
  if de_rec_len m dir =? 0 then (- EIO, m, parent)
  else
    let rec_len := de_rec_len m dir in
    let m := st 8 m (dir + de_off.inode) 0 in
    let temp := de_rec_len m prev in
    let temp := u16 (temp + rec_len) in
    let m := st 2 m (prev + de_off.rec_len) temp in
    (0, m, dir_touch parent now).

(** ** New and empty directories *)

(** The two records of a new directory. *)
Definition empty_fill (m : mem) (dir parent : inode) : mem :=
  let vaddr := ni_virt_addr dir in
  let de := vaddr in
  let m := st 1 m (de + de_off.name_len) 1 in
  let m := st 2 m (de + de_off.rec_len) (RDFS_DIR_REC_LEN 1) in
  let m := st_bytes m (de + de_off.name) [46; 0; 0; 0] in
  let m := st 8 m (de + de_off.inode) (u32 (i_ino dir)) in
  let m := rdfs_set_de_type m de (i_mode dir) in
  let de := vaddr + RDFS_DIR_REC_LEN 1 in
  let m := st 1 m (de + de_off.name_len) 2 in
  let m := st 2 m (de + de_off.rec_len) (PAGE_SIZE - RDFS_DIR_REC_LEN 1) in
  let m := st 8 m (de + de_off.inode) (u32 (i_ino parent)) in
  let m := st_bytes m (de + de_off.name) [46; 46; 0; 0] in
  rdfs_set_de_type m de (i_mode dir).

Definition rdfs_dotdot (m : mem) (dir : inode) : Z := rdfs_next_entry m (ni_virt_addr dir).

(** 1 for empty, 0 for not empty. *)
Fixpoint empty_loop (fuel : nat) (m : mem) (ino last_ de : Z) : Z :=
  match fuel with
  | O => 0
  | S fuel' =>
      if de <=? last_ then
        if de_rec_len m de =? 0 then 0
        else if negb (de_inode m de =? 0) &&
                (negb (ldb m (de + de_off.name) =? 46)
                 || (2 <? de_name_len m de)
                 || (if de_name_len m de <? 2 then negb (de_inode m de =? u32 ino)
                     else negb (ldb m (de + de_off.name + 1) =? 46)))
        then 0
        else empty_loop fuel' m ino last_ (rdfs_next_entry m de)
      else 1
  end.

Definition rdfs_empty_dir (m : mem) (dir : inode) : Z :=
  let size := i_size dir in
  let last_ := ni_virt_addr dir + size - RDFS_DIR_REC_LEN 1 in
  empty_loop (Z.to_nat size + 1) m (i_ino dir) last_ (ni_virt_addr dir).

(** ** Listing

    The loop of [rdfs_readdir]: the entries passed to dir_emit (name, inode
    number, type), the position, and -EIO on a zero-length record.  [emit] is
    the caller's actor: false when its buffer is full. *)
Fixpoint readdir_loop (fuel : nat) (m : mem) (emit : nat -> bool) (end_ nde pos : Z)
  (acc : list (list Z * Z * Z)) : list (list Z * Z * Z) * Z * Z :=
  match fuel with
  | O => (acc, pos, 0)
  | S fuel' =>
      if nde <? end_ then
        if de_rec_len m nde =? 0 then (acc, pos, - EIO)
        else if negb (de_inode m nde =? 0) then
          let d_type := if de_file_type m nde <? RDFS_FT_MAX
                        then rdfs_filetype_table (de_file_type m nde) else 0 in
          if emit (length acc) then
            readdir_loop fuel' m emit end_ (rdfs_next_entry m nde) (pos + de_rec_len m nde)
              (acc ++ [(ld_bytes m (nde + de_off.name) (Z.to_nat (de_name_len m nde)),
                        de_inode m nde, d_type)])
          else (acc, pos, 0)
        else readdir_loop fuel' m emit end_ (rdfs_next_entry m nde) (pos + de_rec_len m nde) acc
      else (acc, pos, 0)
  end.

(** Whatever happened before, the result is that of rdfs_destroy_mapping.  The
    position decides only whether anything is listed: the walk starts at the
    first record.  [changed]: file->f_version != inode->i_version. *)
Definition rdfs_readdir (m : mem) (dir : inode) (emit : nat -> bool) (changed : bool) (pos destroy : Z)
  : list (list Z * Z * Z) * Z * Z :=
  if i_size dir <=? pos then ([], pos, destroy)
  else
    let pos := if changed && negb (pos =? 0) then s64 (ni_virt_addr dir) else pos in
    let start_addr := ni_virt_addr dir in
    let end_addr := start_addr + i_size dir in
    if end_addr <=? start_addr then ([], pos, destroy)
    else
      let '(out, pos, _) :=
        readdir_loop (Z.to_nat (i_size dir) + 1) m emit end_addr start_addr pos [] in
      (out, pos, destroy).

(** ** Representation *)

(** A record: its length and, when in use, the inode number, type and name. *)
Record dentry := mk_dentry { d_ino : Z; d_type : Z; d_name : list Z }.
Record drec := mk_drec { r_len : Z; r_ent : option dentry }.

#[export] Instance dentry_eq_dec : EqDecision dentry.
Proof. solve_decision. Defined.

Definition dentry_ok (len : Z) (d : dentry) : Prop :=
  0 < d_ino d < 2 ^ 64 /\ 0 <= d_type d < 256 /\ Forall is_byte (d_name d) /\
  (1 <= length (d_name d) <= 255)%nat /\ RDFS_DIR_REC_LEN (Z.of_nat (length (d_name d))) <= len.

Definition rec_ok (r : drec) : Prop :=
  16 <= r_len r < 2 ^ 16 /\ match r_ent r with Some d => dentry_ok (r_len r) d | None => True end.

Definition rec_at (m : mem) (a : Z) (r : drec) : Prop :=
  de_rec_len m a = r_len r /\
  match r_ent r with
  | None => de_inode m a = 0
  | Some d => de_inode m a = d_ino d /\ de_name_len m a = Z.of_nat (length (d_name d)) /\
      de_file_type m a = d_type d /\ ld_bytes m (a + de_off.name) (length (d_name d)) = d_name d
  end.

(** The records [l] tile the bytes from [a] on. *)
Fixpoint recs_at (m : mem) (a : Z) (l : list drec) : Prop :=
  match l with
  | [] => True
  | r :: l' => rec_ok r /\ rec_at m a r /\ recs_at m (a + r_len r) l'
  end.

Definition total (l : list drec) : Z := foldr (fun r n => r_len r + n) 0 l.

Arguments total : simpl never.
Lemma total_nil : total [] = 0. Proof. reflexivity. Qed.
Lemma total_cons r l : total (r :: l) = r_len r + total l. Proof. reflexivity. Qed.

Definition live_ents (l : list drec) : list dentry := omap r_ent l.

(** The abstract directory: names to inode numbers. *)
Definition names (l : list drec) : gmap (list Z) Z :=
  list_to_map ((fun d => (d_name d, d_ino d)) <$> live_ents l).

Record dir_rep (m : mem) (dir : inode) (l : list drec) : Prop := {
  dir_recs : recs_at m (ni_virt_addr dir) l;
  dir_total : i_size dir = total l;
  dir_names : NoDup (d_name <$> live_ents l);
  dir_addr : 0 < ni_virt_addr dir /\ total l < 2 ^ 63
}.

(** ** Records *)

Lemma rec_len_eq n : 0 <= n -> RDFS_DIR_REC_LEN n = (n + 15) / 4 * 4.
Proof.
  intros Hn. unfold RDFS_DIR_REC_LEN, RDFS_DIR_ROUND. replace (n + 12 + 3) with (n + 15) by lia.
  replace (Z.lnot 3) with (Z.lnot (Z.ones 2)) by reflexivity. rewrite <- Z.ldiff_land.
  rewrite Z.ldiff_ones_r, Z.shiftr_div_pow2, Z.shiftl_mul_pow2 by lia. done.
Qed.

Lemma rec_len_bounds n : 1 <= n <= 255 ->
  n + 12 <= RDFS_DIR_REC_LEN n <= n + 15 /\ 16 <= RDFS_DIR_REC_LEN n <= 268.
Proof. intros Hn. rewrite rec_len_eq by lia. zdm. Qed.

Lemma total_app l1 l2 : total (l1 ++ l2) = total l1 + total l2.
Proof. induction l1 as [|r l1 IH]; [done|]. cbn [app]. rewrite !total_cons, IH. lia. Qed.

Lemma total_nonneg m a l : recs_at m a l -> 16 * Z.of_nat (length l) <= total l.
Proof.
  revert a. induction l as [|r l IH]; intros a H; [done|].
  destruct H as ((Hr & _) & _ & H). specialize (IH _ H). rewrite total_cons. cbn [length]. lia.
Qed.

Lemma recs_app m a l1 l2 :
  recs_at m a (l1 ++ l2) <-> recs_at m a l1 /\ recs_at m (a + total l1) l2.
Proof.
  revert a. induction l1 as [|r l1 IH]; intros a; cbn.
  - rewrite total_nil, Z.add_0_r. tauto.
  - rewrite IH, total_cons. replace (a + r_len r + total l1) with (a + (r_len r + total l1)) by lia.
    tauto.
Qed.

(** A record is determined by the bytes of its range. *)
Lemma rec_frame m m' a r :
  rec_ok r -> (forall b, a <= b < a + r_len r -> ldb m' b = ldb m b) -> rec_at m a r -> rec_at m' a r.
Proof.
  intros [Hl Hd] Hb [H1 H2]. unfold rec_at, de_rec_len, de_inode, de_name_len, de_file_type in *.
  unfold de_off.rec_len, de_off.inode, de_off.name_len, de_off.file_type, de_off.name in *.
  assert (Hld : forall k o, 0 <= o -> o + Z.of_nat k <= 12 -> ld k m' (a + o) = ld k m (a + o)).
  { intros k o Ho Hk. apply ld_ext. intros i Hi. apply Hb. lia. }
  rewrite (Hld 2%nat) by lia. split; [done|]. destruct (r_ent r) as [d|].
  - destruct H2 as (E1 & E2 & E3 & E4). rewrite !Hld by lia. do 3 (split; [done|]).
    rewrite <- E4 at 2. apply ld_bytes_ext. intros i Hi. apply Hb.
    destruct Hd as (_ & _ & _ & Hn & Hr). pose proof (rec_len_bounds (Z.of_nat (length (d_name d)))). lia.
  - by rewrite Hld by lia.
Qed.

Lemma recs_frame m m' a l :
  (forall b, a <= b < a + total l -> ldb m' b = ldb m b) -> recs_at m a l -> recs_at m' a l.
Proof.
  revert a. induction l as [|r l IH]; intros a Hb H; [done|].
  destruct H as (Hok & Hr & H). pose proof (total_nonneg _ _ _ H). rewrite total_cons in Hb.
  split; [done|]. split.
  - eapply rec_frame; [done| |done]. intros b ?. apply Hb. lia.
  - apply IH; [|done]. destruct Hok as [Hok _]. intros b ?. apply Hb. lia.
Qed.

(** ** Search *)

Definition is_named (name : list Z) (r : drec) : bool :=
  match r_ent r with Some d => bool_decide (d_name d = name) | None => false end.

Lemma match_eq m a r name :
  rec_ok r -> rec_at m a r -> rdfs_match m (Z.of_nat (length name)) name a = is_named name r.
Proof.
  intros [_ Hok] [_ Hr]. unfold rdfs_match, is_named. rewrite Nat2Z.id, firstn_all.
  destruct (r_ent r) as [d|].
  - destruct Hr as (E1 & E2 & E3 & E4). destruct Hok as (Hi & _). rewrite E1, E2.
    destruct (Z.eqb_spec (Z.of_nat (length name)) (Z.of_nat (length (d_name d)))) as [El|El]; cbn.
    + rewrite (proj2 (Z.eqb_neq _ 0)) by lia. apply Nat2Z.inj in El. by rewrite El, E4.
    + symmetry. apply bool_decide_eq_false. congruence.
  - rewrite Hr. cbn. by destruct (negb _).
Qed.

Lemma rec_nonzero m a r : rec_ok r -> rec_at m a r -> (de_rec_len m a =? 0) = false.
Proof. intros [? _] [-> _]. lia. Qed.

Lemma rec_next m a r : rec_at m a r -> rdfs_next_entry m a = a + r_len r.
Proof. intros [E _]. unfold rdfs_next_entry. by rewrite E. Qed.

(** The address of the last record of [l], or [prev]. *)
Definition prev_of (prev a : Z) (l : list drec) : Z :=
  match last l with Some r => a + total l - r_len r | None => prev end.

Lemma find_loop_none fuel m a l name prev :
  recs_at m a l -> Forall (fun r => is_named name r = false) l -> (length l < fuel)%nat ->
  find_loop fuel m (Z.of_nat (length name)) name a prev (a + total l) = None.
Proof.
  revert fuel a prev. induction l as [|r l IH]; intros [|fuel] a prev H Hn Hf; cbn [length find_loop] in *; try lia.
  - by rewrite total_nil, Z.add_0_r, Z.ltb_irrefl.
  - destruct H as (Hok & Hr & H). inversion Hn as [|? ? Hn1 Hn2]; subst.
    pose proof (total_nonneg _ _ _ H). rewrite total_cons.
    rewrite (proj2 (Z.ltb_lt _ _)) by (destruct Hok; lia).
    rewrite (rec_nonzero _ _ _ Hok Hr), (match_eq _ _ _ _ Hok Hr), Hn1, (rec_next _ _ _ Hr).
    rewrite Z.add_assoc. apply IH; [done..|lia].
Qed.

Lemma find_loop_some fuel m a l1 r l2 name prev :
  recs_at m a (l1 ++ r :: l2) -> Forall (fun r => is_named name r = false) l1 ->
  is_named name r = true -> (length l1 < fuel)%nat ->
  find_loop fuel m (Z.of_nat (length name)) name a prev (a + total (l1 ++ r :: l2))
  = Some (a + total l1, prev_of prev a l1).
Proof.
  revert fuel a prev. induction l1 as [|r' l1 IH]; intros [|fuel] a prev H Hn Hm Hf;
    cbn [length find_loop app] in *; try lia.
  - destruct H as (Hok & Hr & H). pose proof (total_nonneg _ _ _ H).
    rewrite total_cons. rewrite (proj2 (Z.ltb_lt _ _)) by (destruct Hok; lia).
    rewrite (rec_nonzero _ _ _ Hok Hr), (match_eq _ _ _ _ Hok Hr), Hm. by rewrite total_nil, Z.add_0_r.
  - destruct H as (Hok & Hr & H). inversion Hn as [|? ? Hn1 Hn2]; subst.
    pose proof (total_nonneg _ _ _ H). rewrite total_cons.
    rewrite (proj2 (Z.ltb_lt _ _)) by (destruct Hok; lia).
    rewrite (rec_nonzero _ _ _ Hok Hr), (match_eq _ _ _ _ Hok Hr), Hn1, (rec_next _ _ _ Hr).
    rewrite Z.add_assoc, IH; [|done..|lia]. f_equal. rewrite total_cons. f_equal; [lia|].
    unfold prev_of. rewrite last_cons, total_cons.
    destruct (last l1) as [x|] eqn:El; [lia|]. apply last_None in El as ->. rewrite total_nil. lia.
Qed.

(** ** Names *)

Lemma live_app l1 l2 : live_ents (l1 ++ l2) = live_ents l1 ++ live_ents l2.
Proof. unfold live_ents. apply omap_app. Qed.

Lemma is_named_live name r : is_named name r = true <-> exists d, r_ent r = Some d /\ d_name d = name.
Proof.
  unfold is_named. destruct (r_ent r) as [d|]; [rewrite bool_decide_eq_true|]; naive_solver.
Qed.

Lemma names_split name l : NoDup (d_name <$> live_ents l) ->
  match names l !! name with
  | None => Forall (fun r => is_named name r = false) l
  | Some ino => exists l1 r d l2, l = l1 ++ r :: l2 /\ r_ent r = Some d /\ d_name d = name /\
      d_ino d = ino /\ Forall (fun r => is_named name r = false) l1
  end.
Proof.
  induction l as [|r l IH]; intros Hn; [by constructor|].
  unfold names, live_ents in *. cbn in *. destruct (r_ent r) as [d|] eqn:E; cbn in *.
  - apply NoDup_cons in Hn as [Hd Hn]. destruct (decide (d_name d = name)) as [<-|Hne].
    + rewrite lookup_insert_eq. exists [], r, d, l. done.
    + rewrite lookup_insert_ne by done. specialize (IH Hn).
      destruct (list_to_map _ !! name) as [ino|].
      * destruct IH as (l1 & r' & d' & l2 & -> & E1 & E2 & E3 & Hf). exists (r :: l1), r', d', l2.
        repeat (split; [done|]). constructor; [|done]. unfold is_named. rewrite E. by apply bool_decide_eq_false.
      * constructor; [|done]. unfold is_named. rewrite E. by apply bool_decide_eq_false.
  - specialize (IH Hn). destruct (list_to_map _ !! name) as [ino|].
    + destruct IH as (l1 & r' & d' & l2 & -> & E1 & E2 & E3 & Hf). exists (r :: l1), r', d', l2.
      repeat (split; [done|]). constructor; [|done]. unfold is_named. by rewrite E.
    + constructor; [|done]. unfold is_named. by rewrite E.
Qed.

(** Adding an entry to the live ones, wherever it is placed. *)
Lemma names_insert l l' d :
  live_ents l' ≡ₚ d :: live_ents l -> NoDup (d_name <$> live_ents l) -> names l !! d_name d = None ->
  NoDup (d_name <$> live_ents l') /\ names l' = <[d_name d := d_ino d]> (names l).
Proof.
  intros Hp Hn Hd.
  assert (Hn' : NoDup (d_name <$> live_ents l')).
  { rewrite Hp. cbn. constructor; [|done]. intros (d' & Ed & Hin)%list_elem_of_fmap.
    unfold names in Hd. apply not_elem_of_list_to_map_2 in Hd. apply Hd.
    rewrite <- list_fmap_compose. rewrite Ed.
    by apply (list_elem_of_fmap_2 (fst ∘ (fun d => (d_name d, d_ino d)))). }
  split; [done|]. unfold names.
  rewrite (list_to_map_proper ((fun d => (d_name d, d_ino d)) <$> live_ents l')
    ((fun d => (d_name d, d_ino d)) <$> (d :: live_ents l))); [done| |by rewrite Hp].
  rewrite <- list_fmap_compose. done.
Qed.

Lemma names_delete l l' d :
  live_ents l ≡ₚ d :: live_ents l' -> NoDup (d_name <$> live_ents l) ->
  NoDup (d_name <$> live_ents l') /\ names l' = delete (d_name d) (names l).
Proof.
  intros Hp Hn. rewrite Hp in Hn. cbn in Hn. apply NoDup_cons in Hn as [Hd Hn].
  assert (Hnone : names l' !! d_name d = None).
  { apply not_elem_of_list_to_map_1. by rewrite <- list_fmap_compose. }
  split; [done|]. destruct (names_insert l' l d Hp Hn Hnone) as [_ ->]. by rewrite delete_insert_id.
Qed.

(** [rdfs_find_entry2] finds the record of a name exactly when the map has it. *)
Lemma find_entry_spec m dir l name : dir_rep m dir l ->
  match names l !! name with
  | None => rdfs_find_entry2 m dir name = None
  | Some ino => exists l1 r d l2, l = l1 ++ r :: l2 /\ r_ent r = Some d /\ d_name d = name /\
      d_ino d = ino /\
      rdfs_find_entry2 m dir name =
        Some (ni_virt_addr dir + total l1, prev_of (ni_virt_addr dir) (ni_virt_addr dir) l1)
  end.
Proof.
  intros [Hr Ht Hn Ha]. pose proof (names_split name l Hn) as Hs.
  pose proof (total_nonneg _ _ _ Hr) as Hlen.
  unfold rdfs_find_entry2. rewrite Ht, u64_small by lia.
  destruct (names l !! name) as [ino|].
  - destruct Hs as (l1 & r & d & l2 & -> & E1 & E2 & E3 & Hf). exists l1, r, d, l2.
    repeat (split; [done|]). rewrite length_app in Hlen. cbn [length] in Hlen.
    rewrite (proj2 (Z.leb_gt _ _)) by lia. apply find_loop_some; [done|done| |lia].
    apply is_named_live. by exists d.
  - destruct (Z.leb_spec (total l) 0); [done|]. apply find_loop_none; [done..|lia].
Qed.

(** ** Placement *)

(** A record that can take a new entry of size [reclen]. *)
Definition suits (reclen : Z) (r : drec) : Prop :=
  match r_ent r with
  | None => reclen <= r_len r
  | Some d => RDFS_DIR_REC_LEN (Z.of_nat (length (d_name d))) + reclen <= r_len r
  end.

Definition scan_ok (a : Z) (l : list drec) (reclen dir_end : Z) (res : scan_result) : Prop :=
  match res with
  | NeedNewBlock b => b = a + total l
  | GotIt b nl rl => exists l1 r l2, l = l1 ++ r :: l2 /\ b = a + total l1 /\ rl = r_len r /\
      suits reclen r /\
      match r_ent r with Some d => nl = RDFS_DIR_REC_LEN (Z.of_nat (length (d_name d))) | None => True end
  | NextPage b => exists l1 l2, l = l1 ++ l2 /\ b = a + total l1 /\ dir_end < b
  | Fail _ => False
  end.

Lemma scan_ok_cons a r l reclen dir_end res :
  scan_ok (a + r_len r) l reclen dir_end res -> scan_ok a (r :: l) reclen dir_end res.
Proof.
  destruct res as [b|b nl rl| |b]; cbn; try done.
  - intros ->. rewrite total_cons. lia.
  - intros (l1 & r' & l2 & -> & -> & H). exists (r :: l1), r', l2. rewrite total_cons.
    split; [done|]. split; [lia|done].
  - intros (l1 & l2 & -> & -> & H). exists (r :: l1), l2. rewrite total_cons.
    split; [done|]. split; [lia|done].
Qed.

Lemma add_scan_spec fuel m name reclen dir_end a l :
  recs_at m a l -> Forall (fun r => is_named name r = false) l -> 16 <= reclen ->
  dir_end - a < Z.of_nat fuel ->
  scan_ok a l reclen dir_end
    (add_scan fuel m (Z.of_nat (length name)) name reclen (a + total l) dir_end a).
Proof.
  revert a l. induction fuel as [|fuel IH]; intros a l H Hn Hc Hf; cbn [add_scan].
  { exists [], l. rewrite total_nil. split; [done|]. lia. }
  destruct (Z.leb_spec a dir_end) as [Hle|Hgt].
  2:{ exists [], l. rewrite total_nil. split; [done|]. lia. }
  destruct l as [|r l].
  { rewrite total_nil, Z.add_0_r, Z.eqb_refl. cbn. rewrite total_nil. lia. }
  destruct H as (Hok & Hr & H). inversion Hn as [|? ? Hn1 Hn2]; subst.
  pose proof (total_nonneg _ _ _ H). rewrite total_cons.
  rewrite (proj2 (Z.eqb_neq _ _)) by (destruct Hok; lia).
  rewrite (rec_nonzero _ _ _ Hok Hr), (match_eq _ _ _ _ Hok Hr), Hn1.
  pose proof Hr as [El Hent]. rewrite El.
  assert (Hnext : scan_ok a (r :: l) reclen dir_end
    (add_scan fuel m (Z.of_nat (length name)) name reclen (a + (r_len r + total l)) dir_end (a + r_len r))).
  { apply scan_ok_cons. rewrite Z.add_assoc. apply IH; [done..|]. destruct Hok. lia. }
  destruct Hok as [Hlen Hok]. destruct (r_ent r) as [d|] eqn:Ed.
  - destruct Hent as (E1 & E2 & _ & _). destruct Hok as (Hi & _ & _ & Hnl & Hrl).
    rewrite E1, (proj2 (Z.eqb_neq _ 0)) by lia. cbn [andb]. rewrite E2, u16_small.
    2:{ pose proof (rec_len_bounds (Z.of_nat (length (d_name d)))). lia. }
    destruct (Z.leb_spec (RDFS_DIR_REC_LEN (Z.of_nat (length (d_name d))) + reclen) (r_len r)); [|done].
    exists [], r, l. rewrite total_nil, Ed. unfold suits. rewrite Ed.
    repeat split; try done; lia.
  - rewrite Hent. cbn [Z.eqb andb]. destruct (Z.leb_spec reclen (r_len r)).
    + exists [], r, l. rewrite total_nil, Ed. unfold suits. rewrite Ed. repeat split; try done; lia.
    + rewrite (proj2 (Z.leb_gt _ _)); [done|]. pose proof (u16_range (RDFS_DIR_REC_LEN (de_name_len m a))). lia.
Qed.

(** The page loop ends in a place for the entry, or with -EINVAL after all its
    passes advanced by more than [PAGE_SIZE - reclen] bytes each. *)
Lemma add_pages_spec n m name reclen a l :
  recs_at m a l -> Forall (fun r => is_named name r = false) l -> 16 <= reclen ->
  let res := add_pages n m (Z.of_nat (length name)) name reclen (a + total l) a in
  (res = Fail (- EINVAL) /\ Z.of_nat n * (PAGE_SIZE - reclen + 1) <= total l) \/
  (scan_ok a l reclen 0 res /\ forall b, res <> NextPage b).
Proof.
  revert a l. induction n as [|n IH]; intros a l H Hn Hc; cbn [add_pages].
  { left. pose proof (total_nonneg _ _ _ H). split; [done|]. lia. }
  pose proof (add_scan_spec (Z.to_nat PAGE_SIZE + 1) m name reclen (a + PAGE_SIZE - reclen) a l H Hn Hc
    ltac:(unfold PAGE_SIZE; lia)) as Hs.
  destruct (add_scan _ _ _ _ _ _ _ _) as [b|b nl rl|e|b]; cbn in Hs |- *; [right; done..|done|].
  destruct Hs as (l1 & l2 & -> & -> & Hlt). apply recs_app in H as [H1 H2].
  apply Forall_app in Hn as [Hn1 Hn2]. rewrite total_app, Z.add_assoc.
  destruct (IH (a + total l1) l2 H2 Hn2 Hc) as [[-> Hle]|[Hs Hb]].
  - left. split; [done|]. lia.
  - right. split; [|done]. destruct (add_pages _ _ _ _ _ _ _) as [b|b nl rl|e|b]; cbn in Hs |- *; try done.
    + rewrite total_app. lia.
    + destruct Hs as (k1 & r & k2 & -> & -> & Hs). exists (l1 ++ k1), r, k2.
      rewrite total_app, <- app_assoc. split; [done|]. split; [lia|done].
    + by destruct (Hb b).
Qed.

(** ** Writing an entry *)

Definition mode_type (mode : Z) : Z := rdfs_type_by_mode (Z.shiftr (Z.land mode S_IFMT) S_SHIFT).

Lemma type_range k : 0 <= rdfs_type_by_mode k < 256.
Proof. unfold rdfs_type_by_mode. repeat (destruct (_ =? _); [cbv; split; congruence|]). lia. Qed.

Definition name_ok (name : list Z) : Prop := Forall is_byte name /\ (1 <= length name <= 255)%nat.

Definition new_rec (rl ino mode : Z) (name : list Z) : drec :=
  mk_drec rl (Some (mk_dentry ino (mode_type mode) name)).

Lemma new_rec_ok rl ino mode name :
  name_ok name -> 0 < ino < 2 ^ 64 -> RDFS_DIR_REC_LEN (Z.of_nat (length name)) <= rl < 2 ^ 16 ->
  rec_ok (new_rec rl ino mode name).
Proof.
  intros [Hb Hl] Hi Hr. pose proof (rec_len_bounds (Z.of_nat (length name)) ltac:(lia)).
  split; cbn; [lia|]. split; [done|]. split; [apply type_range|].
  split; [done|]. split; [done|]. cbn. lia.
Qed.

Lemma de_fill_frame m de name ino mode b :
  b < de \/ de + 12 + Z.of_nat (length name) <= b ->
  ldb (de_fill m de (Z.of_nat (length name)) name ino mode) b = ldb m b.
Proof.
  intros Hb. unfold de_fill, rdfs_set_de_type, de_off.name_len, de_off.name, de_off.inode,
    de_off.file_type. rewrite Nat2Z.id, firstn_all.
  rewrite !ldb_st, ldb_st_bytes, ldb_st, !decide_False by lia. done.
Qed.

Lemma de_fill_rec m de name ino mode rl :
  name_ok name -> 0 < ino < 2 ^ 64 -> de_rec_len m de = rl ->
  rec_at (de_fill m de (Z.of_nat (length name)) name ino mode) de (new_rec rl ino mode name).
Proof.
  intros [Hb Hl] Hi Hr. pose proof (type_range (Z.shiftr (Z.land mode S_IFMT) S_SHIFT)).
  unfold rec_at, new_rec, de_fill, rdfs_set_de_type, mode_type, de_rec_len, de_inode, de_name_len,
    de_file_type, de_off.name_len, de_off.name, de_off.inode, de_off.file_type, de_off.rec_len in *.
  cbn [r_len r_ent d_ino d_name d_type]. rewrite Nat2Z.id, firstn_all.
  set (ty := rdfs_type_by_mode _) in *.
  assert (u8 (Z.of_nat (length name)) = Z.of_nat (length name)) as -> by conv.
  mem_simpl. split; [done|]. split; [done|]. split; [done|]. split; [done|].
  rewrite !ld_bytes_st_ne by lia. by apply ld_st_bytes_same.
Qed.

(** Splitting a live record: its own length shrinks, the rest becomes a record. *)
Definition split_mem (m : mem) (de nl rl : Z) : mem :=
  st 2 (st 2 m (de + nl + de_off.rec_len) (u16 (rl - nl))) (de + de_off.rec_len) nl.

Lemma split_mem_rec m de r d :
  rec_ok r -> rec_at m de r -> r_ent r = Some d ->
  let nl := RDFS_DIR_REC_LEN (Z.of_nat (length (d_name d))) in
  nl + 16 <= r_len r ->
  rec_ok (mk_drec nl (Some d)) /\ rec_at (split_mem m de nl (r_len r)) de (mk_drec nl (Some d)) /\
  de_rec_len (split_mem m de nl (r_len r)) (de + nl) = r_len r - nl /\
  (forall b, b < de \/ de + r_len r <= b -> ldb (split_mem m de nl (r_len r)) b = ldb m b).
Proof.
  intros [Hl Hok] [Er Hr] Ed nl Hnl. rewrite Ed in Hok, Hr.
  pose proof Hok as (Hi & Ht & Hb & Hlen & Hrl).
  pose proof (rec_len_bounds (Z.of_nat (length (d_name d))) ltac:(lia)) as Hbd. fold nl in Hrl, Hbd.
  split; [|split; [|split]].
  - split; cbn; [lia|]. repeat split; try done; try lia.
  - destruct Hr as (E1 & E2 & E3 & E4).
    unfold rec_at, split_mem, de_rec_len, de_inode, de_name_len, de_file_type, de_off.name_len,
      de_off.name, de_off.inode, de_off.file_type, de_off.rec_len in *.
    cbn [r_len r_ent]. mem_simpl. rewrite !ld_bytes_st_ne by lia. done.
  - unfold split_mem, de_rec_len, de_off.rec_len. rewrite u16_small by lia. mem_simpl. done.
  - intros b Hbb. unfold split_mem, de_off.rec_len. by rewrite !ldb_st, !decide_False by lia.
Qed.

(** Replacing records in the middle: the records around them are framed. *)
Lemma recs_replace m m' a l1 old l2 k :
  recs_at m a (l1 ++ old ++ l2) -> total k = total old ->
  (forall b, b < a + total l1 \/ a + total l1 + total old <= b -> ldb m' b = ldb m b) ->
  recs_at m' (a + total l1) k -> recs_at m' a (l1 ++ k ++ l2).
Proof.
  intros H Hk Hf Hm. apply recs_app in H as [H1 [_ H2]%recs_app].
  apply recs_app. split; [|apply recs_app; split; [done|]].
  - eapply recs_frame; [|done]. intros b Hb. apply Hf. lia.
  - rewrite Hk. eapply recs_frame; [|done]. intros b Hb. apply Hf. lia.
Qed.

Lemma recs_replace1 m m' a l1 r l2 k :
  recs_at m a (l1 ++ r :: l2) -> total k = r_len r ->
  (forall b, b < a + total l1 \/ a + total l1 + r_len r <= b -> ldb m' b = ldb m b) ->
  recs_at m' (a + total l1) k -> recs_at m' a (l1 ++ k ++ l2).
Proof.
  intros H Hk Hf. assert (E : total [r] = r_len r) by (rewrite total_cons, total_nil; lia).
  apply (recs_replace m m' a l1 [r]); [done|by rewrite E|by rewrite E].
Qed.

(** The list after placing the new record into [r]. *)
Definition placed (r : drec) (reclen ino mode : Z) (name : list Z) : list drec :=
  match r_ent r with
  | None => [new_rec (r_len r) ino mode name]
  | Some d =>
      let nl := RDFS_DIR_REC_LEN (Z.of_nat (length (d_name d))) in
      [mk_drec nl (Some d); new_rec (r_len r - nl) ino mode name]
  end.

Lemma add_fill_spec m a l1 r l2 name nl ino mode :
  let reclen := RDFS_DIR_REC_LEN (Z.of_nat (length name)) in
  recs_at m a (l1 ++ r :: l2) -> name_ok name -> 0 < ino < 2 ^ 64 -> suits reclen r ->
  match r_ent r with Some d => nl = RDFS_DIR_REC_LEN (Z.of_nat (length (d_name d))) | None => True end ->
  recs_at (add_fill m (a + total l1) nl (r_len r) (Z.of_nat (length name)) name ino mode) a
    (l1 ++ placed r reclen ino mode name ++ l2) /\
  total (placed r reclen ino mode name) = r_len r.
Proof.
  intros reclen H Hname Hino Hs Hnl. pose proof H as [H1 [Hok [Hr H2]]]%recs_app.
  pose proof (rec_len_bounds (Z.of_nat (length name)) ltac:(destruct Hname; lia)) as Hbd.
  fold reclen in Hbd. unfold suits, placed, add_fill in *. pose proof Hr as [Er Hent].
  destruct (r_ent r) as [d|] eqn:Ed.
  - subst nl. cbn zeta. set (nl := RDFS_DIR_REC_LEN (Z.of_nat (length (d_name d)))) in *.
    destruct (split_mem_rec m (a + total l1) r d Hok Hr Ed) as (Hok1 & Hr1 & Hl2 & Hf);
      [fold nl; lia|]. fold nl in Hok1, Hr1, Hl2, Hf.
    assert (Htot : total [mk_drec nl (Some d); new_rec (r_len r - nl) ino mode name] = r_len r).
    { rewrite !total_cons, total_nil. cbn. lia. }
    split; [|done]. destruct Hent as (E1 & _). pose proof Hok as [Hlen Hd]. rewrite Ed in Hd.
    rewrite E1, (proj2 (Z.eqb_neq _ 0)) by (destruct Hd; lia).
    fold (split_mem m (a + total l1) nl (r_len r)).
    pose proof (proj1 Hok1) as Hnl16. cbn in Hnl16.
    eapply recs_replace1; [exact H|exact Htot| |].
    + intros b Hb. rewrite de_fill_frame by lia. apply Hf. lia.
    + split; [done|]. split; [|split; [|split; [|done]]].
      * eapply rec_frame; [done| |exact Hr1]. cbn. intros b Hb. apply de_fill_frame. lia.
      * apply new_rec_ok; [done|done|]. fold reclen. lia.
      * by apply de_fill_rec.
  - assert (Htot : total [new_rec (r_len r) ino mode name] = r_len r).
    { rewrite total_cons, total_nil. cbn. lia. }
    split; [|done]. rewrite Hent. cbn [Z.eqb]. destruct Hok as [Hlen _].
    eapply recs_replace1; [exact H|exact Htot| |].
    + intros b Hb. apply de_fill_frame. lia.
    + split; [apply new_rec_ok; [done|done|lia]|]. split; [|done]. by apply de_fill_rec.
Qed.

Lemma placed_live r reclen ino mode name :
  live_ents (placed r reclen ino mode name) ≡ₚ
  mk_dentry ino (mode_type mode) name :: live_ents [r].
Proof.
  unfold placed, live_ents. destruct (r_ent r) as [d|] eqn:E; cbn; rewrite E; [|done].
  apply Permutation_swap.
Qed.

(** ** A name is added *)

(** Inserting [d] keeps the representation and adds its name to the map. *)
Lemma dir_rep_insert m' dir l l' d :
  recs_at m' (ni_virt_addr dir) l' -> i_size dir = total l' -> total l' < 2 ^ 63 ->
  0 < ni_virt_addr dir -> live_ents l' ≡ₚ d :: live_ents l -> NoDup (d_name <$> live_ents l) ->
  names l !! d_name d = None ->
  dir_rep m' dir l' /\ names l' = <[d_name d := d_ino d]> (names l).
Proof.
  intros H1 H2 H3 H4 Hp Hn Hd. destruct (names_insert l l' d Hp Hn Hd) as [Hn' ->]. by repeat split.
Qed.

Lemma dir_touch_fields d now :
  i_size (dir_touch d now) = i_size d /\ ni_virt_addr (dir_touch d now) = ni_virt_addr d /\
  i_ino (dir_touch d now) = i_ino d.
Proof. done. Qed.

Lemma dir_rep_fields m d d' l :
  i_size d' = i_size d -> ni_virt_addr d' = ni_virt_addr d -> dir_rep m d l -> dir_rep m d' l.
Proof. intros E1 E2 []. split; rewrite ?E1, ?E2; done. Qed.

Lemma perm_live l1 k d r l2 :
  live_ents k ≡ₚ d :: live_ents [r] -> live_ents (l1 ++ k ++ l2) ≡ₚ d :: live_ents (l1 ++ r :: l2).
Proof.
  intros Hk. change (r :: l2) with ([r] ++ l2). rewrite !live_app, Hk. cbn [app].
  by rewrite <- Permutation_middle.
Qed.

(** ** [rdfs_delete_entry] *)

Definition merged (p r : drec) : drec := mk_drec (r_len p + r_len r) (r_ent p).

Lemma merged_ok p r : rec_ok p -> rec_ok r -> r_len p + r_len r < 2 ^ 16 -> rec_ok (merged p r).
Proof.
  intros [Hp Hd] [Hr _] Hs. split; cbn; [lia|]. destruct (r_ent p) as [d|]; [|done].
  destruct Hd as (? & ? & ? & ? & ?). repeat split; try done; lia.
Qed.

Lemma delete_spec m dir l1 p r d l2 now :
  let l := l1 ++ p :: r :: l2 in
  dir_rep m dir l -> r_ent r = Some d -> r_len p + r_len r < 2 ^ 16 ->
  exists m', rdfs_delete_entry m (ni_virt_addr dir + total (l1 ++ [p])) (ni_virt_addr dir + total l1) dir now
      = (0, m', dir_touch dir now) /\
    dir_rep m' (dir_touch dir now) (l1 ++ merged p r :: l2) /\
    names (l1 ++ merged p r :: l2) = delete (d_name d) (names l).
Proof.
  intros l [Hr Ht Hn [Ha Hmax]] Ed Hsum. pose proof Hr as [H1 (Hokp & Hrp & Hokr & Hrr & H2)]%recs_app.
  pose proof (proj1 Hokp) as Hlp. pose proof (proj1 Hokr) as Hlr.
  pose proof (proj1 Hrp) as Erp. pose proof (proj1 Hrr) as Err.
  set (va := ni_virt_addr dir) in *.
  assert (Ea : va + total (l1 ++ [p]) = va + total l1 + r_len p)
    by (rewrite total_app, total_cons, total_nil; lia).
  unfold rdfs_delete_entry. rewrite Ea, Err, (proj2 (Z.eqb_neq _ 0)) by lia.
  set (de := va + total l1) in *.
  assert (Erp' : de_rec_len (st 8 m (de + r_len p + de_off.inode) 0) de = r_len p).
  { unfold de_rec_len, de_off.rec_len, de_off.inode in *. by rewrite ld_st_ne by lia. }
  rewrite Erp', u16_small by lia. eexists. split; [reflexivity|].
  set (m' := st 2 _ _ _).
  assert (Htot : total (l1 ++ merged p r :: l2) = total l)
    by (unfold l; rewrite !total_app, !total_cons; cbn; lia).
  destruct (names_delete l (l1 ++ merged p r :: l2) d) as [Hn' Enm]; [|done|].
  { unfold l. change (p :: r :: l2) with ([p] ++ [r] ++ l2). change (merged p r :: l2) with ([merged p r] ++ l2).
    rewrite !live_app. unfold live_ents at 3 6. cbn. rewrite Ed. cbn.
    rewrite <- !Permutation_middle. done. }
  split; [|exact Enm]. split; [|by rewrite Htot|done|by rewrite Htot].
  change (ni_virt_addr (dir_touch dir now)) with va.
  apply (recs_replace m m' va l1 [p; r] l2 [merged p r]); [exact Hr| | |].
  - rewrite !total_cons, total_nil. cbn. lia.
  - intros b Hb. rewrite !total_cons, total_nil in Hb. unfold m', de_off.inode, de_off.rec_len.
    rewrite !ldb_st, !decide_False by lia. done.
  - split; [by apply merged_ok|]. split; [|done]. fold de.
    destruct Hrp as [_ Hent]. pose proof (proj2 Hokp) as Hd.
    unfold rec_at, merged, m', de_rec_len, de_inode, de_name_len, de_file_type, de_off.rec_len,
      de_off.inode, de_off.name_len, de_off.file_type, de_off.name in *. cbn [r_len r_ent].
    mem_simpl. split; [done|]. destruct (r_ent p) as [dp|]; [|done].
    destruct Hd as (_ & _ & _ & Hln & Hrl).
    pose proof (rec_len_bounds (Z.of_nat (length (d_name dp))) ltac:(lia)).
    rewrite !ld_bytes_st_ne by lia. done.
Qed.

(** ** New, empty and listed directories *)

Definition dot : list Z := [46].
Definition dotdot : list Z := [46; 46].

Definition empty_recs (ino parent mode : Z) : list drec :=
  [new_rec 16 ino mode dot; new_rec (PAGE_SIZE - 16) parent mode dotdot].

Lemma empty_fill_rep m dir parent : i_size dir = PAGE_SIZE -> 0 < ni_virt_addr dir ->
  0 < i_ino dir < 2 ^ 32 -> 0 < i_ino parent < 2 ^ 32 ->
  dir_rep (empty_fill m dir parent) dir (empty_recs (i_ino dir) (i_ino parent) (i_mode dir)).
Proof.
  intros Hs Hv Hi Hp. unfold empty_fill. rewrite !u32_small by lia. change (RDFS_DIR_REC_LEN 1) with 16.
  split; [|by rewrite Hs| |].
  - pose proof (type_range (Z.shiftr (Z.land (i_mode dir) S_IFMT) S_SHIFT)) as Hty.
    assert (Hb : Forall is_byte dot /\ Forall is_byte dotdot) by (unfold is_byte; repeat constructor; lia).
    unfold empty_recs. split; [apply new_rec_ok; [by split; [apply Hb|cbn; lia]|lia|done]|].
    split; [|split; [apply new_rec_ok; [by split; [apply Hb|cbn; lia]|lia|done]|split; [|done]]];
      unfold rec_at, new_rec, rdfs_set_de_type, mode_type, de_rec_len, de_inode, de_name_len,
      de_file_type, de_off.name_len, de_off.name, de_off.inode, de_off.file_type, de_off.rec_len, PAGE_SIZE;
      cbn [r_len r_ent d_ino d_name d_type length dot dotdot];
      set (ty := rdfs_type_by_mode _) in *;
      rewrite ?ld_bytes_st_ne, ?ld_bytes_st_bytes_ne, ?ld_bytes_st_ne by (cbn; lia).
    all: repeat match goal with
      | |- context [ld ?k (st_bytes ?m ?a ?bs) ?b] => rewrite (ld_st_bytes_ne k m a bs b) by (cbn; lia)
      | _ => progress mem_step
      end.
    all: repeat (split; [done|]).
    + apply (ld_st_bytes_take _ _ [46; 0; 0; 0] 1); [unfold is_byte; repeat constructor; lia|cbn; lia].
    + apply (ld_st_bytes_take _ _ [46; 46; 0; 0] 2); [unfold is_byte; repeat constructor; lia|cbn; lia].
  - unfold live_ents. cbn. repeat constructor; set_solver.
  - split; [lia|]. unfold empty_recs. rewrite !total_cons, total_nil. cbn [new_rec r_len]. unfold PAGE_SIZE. lia.
Qed.

(** The entries an empty directory may have. *)
Definition dot_entry (ino : Z) (d : dentry) : bool :=
  bool_decide (d_name d = dot) && (d_ino d =? u32 ino) || bool_decide (d_name d = dotdot).

(** The byte tests of [rdfs_empty_dir] on a live record decide [dot_entry]. *)
Lemma dot_entry_eq m a r d ino :
  rec_ok r -> rec_at m a r -> r_ent r = Some d ->
  (negb (ldb m (a + de_off.name) =? 46)
   || (2 <? de_name_len m a)
   || (if de_name_len m a <? 2 then negb (de_inode m a =? u32 ino)
       else negb (ldb m (a + de_off.name + 1) =? 46))) = negb (dot_entry ino d).
Proof.
  intros [_ Hok] [_ Hr] Ed. rewrite Ed in *. destruct Hok as (_ & _ & _ & Hl & _).
  destruct Hr as (E1 & E2 & _ & E4). rewrite E1, E2.
  assert (Hb : forall i, (i < length (d_name d))%nat ->
    d_name d !! i = Some (ldb m (a + de_off.name + Z.of_nat i))).
  { intros i Hi. pose proof (ld_bytes_lookup m (a + de_off.name) _ i Hi) as Hx. by rewrite E4 in Hx. }
  unfold dot_entry, dot, dotdot. destruct (d_name d) as [|x [|y [|z nm]]]; cbn [length] in *; [lia|..].
  - specialize (Hb 0%nat ltac:(lia)). cbn in Hb. injection Hb as Hx. rewrite Z.add_0_r in Hx. rewrite <- Hx.
    cbn. rewrite (bool_decide_eq_false_2 ([x] = [46; 46])) by done.
    destruct (Z.eqb_spec x 46) as [->|Hne]; cbn.
    { rewrite (bool_decide_eq_true_2 ([46] = [46])) by done. cbn. by rewrite orb_false_r. }
    by rewrite bool_decide_eq_false_2 by congruence.
  - pose proof (Hb 0%nat ltac:(lia)) as H0. pose proof (Hb 1%nat ltac:(lia)) as H1. cbn in H0, H1.
    injection H0 as Hx. injection H1 as Hy. rewrite Z.add_0_r in Hx.
    change (Z.of_nat 1) with 1 in Hy. rewrite <- Hx, <- Hy. cbn.
    rewrite (bool_decide_eq_false_2 ([x; y] = [46])) by done. cbn.
    destruct (Z.eqb_spec x 46) as [->|Hne], (Z.eqb_spec y 46) as [->|Hne']; cbn; try done;
      by rewrite bool_decide_eq_false_2 by congruence.
  - rewrite (proj2 (Z.ltb_lt 2 _)) by lia. rewrite orb_true_r, !bool_decide_eq_false_2 by done. done.
Qed.

Lemma empty_loop_spec fuel m ino a l :
  recs_at m a l -> (length l < fuel)%nat ->
  empty_loop fuel m ino (a + total l - 16) a = if forallb (dot_entry ino) (live_ents l) then 1 else 0.
Proof.
  revert fuel a. induction l as [|r l IH]; intros [|fuel] a H Hf; cbn [length] in Hf; try lia; cbn [empty_loop].
  { rewrite total_nil. by rewrite (proj2 (Z.leb_gt _ _)) by lia. }
  destruct H as (Hok & Hr & H). pose proof (total_nonneg _ _ _ H). rewrite total_cons.
  rewrite (proj2 (Z.leb_le _ _)) by (destruct Hok; lia).
  rewrite (rec_nonzero _ _ _ Hok Hr), (rec_next _ _ _ Hr).
  replace (a + (r_len r + total l) - 16) with (a + r_len r + total l - 16) by lia.
  rewrite (IH fuel _ H) by lia. destruct (r_ent r) as [d|] eqn:Ed.
  - rewrite (dot_entry_eq _ _ _ _ ino Hok Hr Ed). destruct Hr as [_ Hr]. destruct Hok as [_ Hok].
    rewrite Ed in *. destruct Hr as (E1 & _). rewrite E1, (proj2 (Z.eqb_neq _ 0)) by (destruct Hok; lia).
    unfold live_ents. cbn. rewrite Ed. cbn. destruct (dot_entry ino d); done.
  - destruct Hr as [_ Hr]. rewrite Ed in Hr. rewrite Hr. cbn. unfold live_ents. cbn. by rewrite Ed.
Qed.

(** What a listing shows of an entry. *)
Definition listed (d : dentry) : list Z * Z * Z :=
  (d_name d, d_ino d, if d_type d <? RDFS_FT_MAX then rdfs_filetype_table (d_type d) else 0).

Lemma readdir_loop_spec fuel m k a l pos acc :
  recs_at m a l -> (length l < fuel)%nat -> (length acc <= k)%nat ->
  (readdir_loop fuel m (fun n => n <? k)%nat (a + total l) a pos acc).1.1 =
  take k (acc ++ (listed <$> live_ents l)).
Proof.
  revert fuel a pos acc. induction l as [|r l IH]; intros [|fuel] a pos acc H Hf Hk;
    cbn [length] in Hf; try lia; cbn [readdir_loop].
  { rewrite total_nil, Z.add_0_r, Z.ltb_irrefl. cbn. by rewrite app_nil_r, take_ge. }
  destruct H as (Hok & Hr & H). pose proof (total_nonneg _ _ _ H). rewrite total_cons, Z.add_assoc.
  rewrite (proj2 (Z.ltb_lt _ _)) by (destruct Hok; lia).
  rewrite (rec_nonzero _ _ _ Hok Hr), (rec_next _ _ _ Hr). pose proof Hr as [_ Hent].
  unfold live_ents. cbn [omap list_omap]. destruct (r_ent r) as [d|] eqn:Ed.
  - pose proof Hok as [_ Hd]. rewrite Ed in Hd. destruct Hent as (E1 & E2 & E3 & E4).
    rewrite E1, (proj2 (Z.eqb_neq _ 0)) by (destruct Hd; lia). cbn [negb fmap list_fmap].
    rewrite E2, E3, Nat2Z.id, E4. fold (listed d). destruct (Nat.ltb_spec (length acc) k) as [Hlt|Hge].
    + rewrite IH; [|done|lia|rewrite length_app; cbn; lia]. by rewrite <- app_assoc.
    + cbn. rewrite take_app_length'; [done|lia].
  - rewrite Hent. cbn. apply IH; [done|lia|done].
Qed.

(** ** Properties *)

(** [rdfs_inode_by_name] returns the low 32 bits of the inode number of the map of
    names, and 0 when the name is not in the directory. *)
Lemma by_name_spec m dir l name :
  dir_rep m dir l ->
  rdfs_inode_by_name m dir name = default 0 (u32 <$> names l !! name).
Proof.
  intros HD. pose proof (find_entry_spec m dir l name HD) as Hf. unfold rdfs_inode_by_name.
  destruct (names l !! name) as [ino|]; [|by rewrite Hf].
  destruct Hf as (l1 & r & d & l2 & -> & Er & _ & <- & ->). destruct HD as [Hr _ _ _].
  apply recs_app in Hr as [_ (_ & [_ Hent] & _)]. rewrite Er in Hent. destruct Hent as (-> & _). done.
Qed.

(** C27: removal. For a name that is in a directory of less than 64 KiB and is not
    its first record (which is "."), the entry [rdfs_find_entry2] finds and
    [rdfs_delete_entry] removes it: the result is 0, the directory stays well
    formed and its map loses exactly that name. *)
Theorem delete_entry_removes m dir r0 l0 name ino now :
  dir_rep m dir (r0 :: l0) -> is_named name r0 = false -> total (r0 :: l0) < 2 ^ 16 ->
  names (r0 :: l0) !! name = Some ino ->
  exists de prev m' dir' l', rdfs_find_entry2 m dir name = Some (de, prev) /\
    rdfs_delete_entry m de prev dir now = (0, m', dir') /\ dir_rep m' dir' l' /\
    names l' = delete name (names (r0 :: l0)).
Proof.
  intros HD H0 Hsz Hin. pose proof (find_entry_spec m dir _ name HD) as Hf. rewrite Hin in Hf.
  destruct Hf as (l1 & r & d & l2 & El & Er & <- & _ & Hfind).
  destruct (exists_last (l := l1)) as (l1' & p & ->).
  { intros ->. cbn in El. injection El as <- <-. unfold is_named in H0. rewrite Er in H0.
    by rewrite bool_decide_eq_true_2 in H0. }
  rewrite <- app_assoc in El. cbn in El.
  assert (Hpv : prev_of (ni_virt_addr dir) (ni_virt_addr dir) (l1' ++ [p]) = ni_virt_addr dir + total l1').
  { unfold prev_of. rewrite last_snoc, total_app, total_cons, total_nil. lia. }
  rewrite El in HD, Hsz, Hin |- *. pose proof (dir_recs _ _ _ HD) as Hr.
  apply recs_app in Hr as [H1 (_ & _ & _ & _ & H2)].
  pose proof (total_nonneg _ _ _ H1). pose proof (total_nonneg _ _ _ H2).
  rewrite total_app, !total_cons in Hsz.
  destruct (delete_spec m dir l1' p r d l2 now HD Er ltac:(lia)) as (m' & Ed & HD' & Hnm).
  rewrite Hpv in Hfind. eexists _, _, m', _, _. split; [exact Hfind|]. split; [exact Ed|].
  split; [exact HD'|exact Hnm].
Qed.

(** [rdfs_empty_dir] answers 1 exactly when every name of the directory is ".." or
    is "." with the directory's own number. *)
Lemma empty_dir_iff m dir l :
  dir_rep m dir l ->
  rdfs_empty_dir m dir = 1 <->
  (forall name ino, names l !! name = Some ino -> name = dotdot \/ name = dot /\ ino = u32 (i_ino dir)).
Proof.
  intros [Hr Ht Hn Ha]. unfold rdfs_empty_dir. change (RDFS_DIR_REC_LEN 1) with 16. rewrite Ht.
  pose proof (total_nonneg _ _ _ Hr). rewrite empty_loop_spec; [|done|lia].
  assert (Hnd : NoDup ((fun d => (d_name d, d_ino d)) <$> live_ents l).*1) by (by rewrite <- list_fmap_compose).
  destruct (forallb (dot_entry (i_ino dir)) (live_ents l)) eqn:E.
  - split; [|done]. intros _ name ino Hin. apply elem_of_list_to_map_2 in Hin.
    apply list_elem_of_fmap in Hin as (d & [= -> ->] & Hd). rewrite forallb_forall in E.
    specialize (E d (proj1 (list_elem_of_In _ _) Hd)). unfold dot_entry in E.
    apply orb_true_iff in E as [[E1 E2]%andb_true_iff|E]; [right|left; by apply bool_decide_eq_true in E].
    apply bool_decide_eq_true in E1. split; [done|]. by apply Z.eqb_eq.
  - split; [done|]. intros Hall. exfalso. apply not_true_iff_false in E. apply E. apply forallb_forall.
    intros d Hd%list_elem_of_In. destruct (Hall (d_name d) (d_ino d)) as [Hdd|[Hdd Hino]].
    + apply elem_of_list_to_map_1; [done|]. by apply (list_elem_of_fmap_2 (fun d => (d_name d, d_ino d))).
    + unfold dot_entry. rewrite (bool_decide_eq_true_2 _ Hdd). apply orb_true_r.
    + unfold dot_entry. rewrite (bool_decide_eq_true_2 _ Hdd), Hino, Z.eqb_refl. done.
Qed.

Lemma empty_loop_bool fuel m ino last_ de : empty_loop fuel m ino last_ de = 0 \/ empty_loop fuel m ino last_ de = 1.
Proof.
  revert de. induction fuel as [|fuel IH]; intros de; cbn [empty_loop]; [by left|].
  destruct (_ <=? _); [|by right]. destruct (_ =? 0); [by left|]. destruct (_ && _); [by left|]. apply IH.
Qed.

(** Listing. A call of [rdfs_readdir] whose buffer takes [k] entries shows the
    first [k] entries of the directory, each live entry once, in record order,
    with name, inode number and type, and this at every position below the
    directory's size: a second call at the position the first one left repeats
    the same entries instead of continuing. *)
Theorem readdir_lists m dir l k changed pos destroy :
  dir_rep m dir l -> pos < i_size dir ->
  (rdfs_readdir m dir (fun n => n <? k)%nat changed pos destroy).1.1 = take k (listed <$> live_ents l).
Proof.
  intros [Hr Ht Hn Ha] Hp. unfold rdfs_readdir. rewrite (proj2 (Z.leb_gt _ _)) by lia. rewrite Ht.
  pose proof (total_nonneg _ _ _ Hr). destruct (Z.leb_spec (ni_virt_addr dir + total l) (ni_virt_addr dir)).
  - assert (l = []) as ->; [destruct l; [done|cbn [length] in *; lia]|]. by destruct k.
  - match goal with |- context [readdir_loop _ _ _ _ _ ?q _] =>
      pose proof (readdir_loop_spec (Z.to_nat (total l) + 1) m k (ni_virt_addr dir) l q [] Hr
        ltac:(lia) ltac:(cbn; lia)) as Hs end.
    destruct (readdir_loop _ _ _ _ _ _ _) as [[out p] e]. exact Hs.
Qed.

(** A zero-length record stops the search. *)
Lemma find_loop_stuck fuel m a l name prev end_ :
  recs_at m a l -> Forall (fun r => is_named name r = false) l -> de_rec_len m (a + total l) = 0 ->
  a + total l < end_ -> (length l < fuel)%nat ->
  find_loop fuel m (Z.of_nat (length name)) name a prev end_ = None.
Proof.
  revert a prev fuel. induction l as [|x l IH]; intros a prev [|fuel] H1 Hf H0 Hend Hfu;
    cbn [length] in *; try lia; cbn [find_loop].
  - rewrite total_nil, Z.add_0_r in *. rewrite (proj2 (Z.ltb_lt _ _)) by lia. by rewrite H0.
  - destruct H1 as (Hok & Hr & H1). inversion Hf as [|? ? Hf1 Hf2]; subst.
    pose proof (total_nonneg _ _ _ H1). rewrite total_cons, Z.add_assoc in *.
    rewrite (proj2 (Z.ltb_lt _ _)) by (destruct Hok; lia).
    rewrite (rec_nonzero _ _ _ Hok Hr), (match_eq _ _ _ _ Hok Hr), Hf1, (rec_next _ _ _ Hr).
    apply IH; [done|done|done|lia..].
Qed.

(** Merged record lengths wrap. Records grow when their successors are
    removed, and the sum is kept in 16 bits: when it reaches exactly 64 KiB the
    preceding record's length becomes 0, and from then on no name behind it is
    found any more. *)
Theorem delete_entry_wraps m dir l1 p r l2 now name :
  dir_rep m dir (l1 ++ p :: r :: l2) -> r_len p + r_len r = 2 ^ 16 ->
  Forall (fun r => is_named name r = false) l1 ->
  exists m', rdfs_delete_entry m (ni_virt_addr dir + total (l1 ++ [p])) (ni_virt_addr dir + total l1) dir now
      = (0, m', dir_touch dir now) /\
    rdfs_find_entry2 m' (dir_touch dir now) name = None.
Proof.
  intros [Hr Ht Hn [Ha Hmax]] Hsum Hf. pose proof Hr as [H1 (Hokp & Hrp & Hokr & Hrr & H2)]%recs_app.
  pose proof (proj1 Hokp) as Hlp. pose proof (proj1 Hokr) as Hlr.
  pose proof (total_nonneg _ _ _ H1) as T1. pose proof (total_nonneg _ _ _ H2) as T2.
  rewrite total_app, !total_cons in Ht, Hmax.
  unfold rdfs_delete_entry. rewrite (total_app l1 [p]), total_cons, total_nil.
  set (va := ni_virt_addr dir) in *.
  replace (va + (total l1 + (r_len p + 0))) with (va + total l1 + r_len p) by lia.
  rewrite (proj1 Hrr), (proj2 (Z.eqb_neq _ 0)) by lia. set (de := va + total l1) in *.
  assert (Erp : de_rec_len (st 8 m (de + r_len p + de_off.inode) 0) de = r_len p).
  { destruct Hrp as [Erp _]. unfold de_rec_len, de_off.rec_len, de_off.inode in *. by rewrite ld_st_ne by lia. }
  rewrite Erp, Hsum. change (u16 (2 ^ 16)) with 0. eexists. split; [reflexivity|].
  set (m' := st 2 _ _ 0).
  assert (H1' : recs_at m' va l1).
  { eapply recs_frame; [|exact H1]. intros b Hb. unfold m', de_off.rec_len, de_off.inode.
    by rewrite !ldb_st, !decide_False by lia. }
  assert (H0 : de_rec_len m' de = 0).
  { unfold de_rec_len, m', de_off.rec_len. by rewrite ld2_st2 by lia. }
  unfold rdfs_find_entry2. change (i_size (dir_touch dir now)) with (i_size dir).
  change (ni_virt_addr (dir_touch dir now)) with va. rewrite Ht, u64_small by lia.
  rewrite (proj2 (Z.leb_gt _ _)) by lia.
  eapply (find_loop_stuck _ m' va l1 name); [done|done|exact H0|lia|lia].
Qed.

(** ** Instances *)

Definition demo_dir : inode := mk_inode 5 S_IFDIR 0 0 2 0 0 0 0 0 0 0 0 0 0 0 0 0 0x1000 0 0.
Definition demo_root : inode := mk_inode 1 S_IFDIR 0 0 3 0 0 0 0 0 0 0 0 0 0 0 0 0 0x9000 0 0.
(** The records of a new directory. *)
Lemma demo_empty :
  exists m, dir_rep m (set_i_size PAGE_SIZE demo_dir) (empty_recs 5 1 S_IFDIR).
Proof. eexists. apply (empty_fill_rep ∅ (set_i_size PAGE_SIZE demo_dir) demo_root); cbn; lia. Qed.

Lemma delete_entry_removes_witness :
  exists m de prev m' dir' l', rdfs_find_entry2 m (set_i_size PAGE_SIZE demo_dir) dotdot = Some (de, prev) /\
    rdfs_delete_entry m de prev (set_i_size PAGE_SIZE demo_dir) 7 = (0, m', dir') /\
    dir_rep m' dir' l' /\ names l' = {[dot := 5]}.
Proof.
  destruct demo_empty as (m & HD). exists m.
  destruct (delete_entry_removes m _ _ _ dotdot 1 7 HD) as (de & prev & m' & dir' & l' & H1 & H2 & H3 & H4).
  - reflexivity.
  - vm_compute. reflexivity.
  - vm_compute. reflexivity.
  - exists de, prev, m', dir', l'. split; [exact H1|]. split; [exact H2|].
    split; [exact H3|]. rewrite H4. vm_compute. reflexivity.
Defined.

Lemma readdir_lists_witness :
  exists m, (rdfs_readdir m (set_i_size PAGE_SIZE demo_dir) (fun n => n <? 1)%nat false 16 0).1.1
    = [(dot, 5, 4)].
Proof.
  destruct demo_empty as (m & HD). exists m.
  rewrite (readdir_lists m _ _ 1 false 16 0 HD) by (cbn; unfold PAGE_SIZE; lia). vm_compute. reflexivity.
Defined.

Lemma delete_entry_wraps_witness :
  exists m m', rdfs_delete_entry m (0x1000 + 32768) 0x1000 (set_i_size 65536 demo_dir) 7
      = (0, m', dir_touch (set_i_size 65536 demo_dir) 7) /\
    rdfs_find_entry2 m' (dir_touch (set_i_size 65536 demo_dir) 7) [97] = None.
Proof.
  set (m := st 2 (st 2 ∅ (0x1000 + 8) 32768) (0x1000 + 32768 + 8) 32768). exists m.
  apply (delete_entry_wraps m (set_i_size 65536 demo_dir) [] (mk_drec 32768 None) (mk_drec 32768 None) [] 7 [97]).
  - split; [|reflexivity|constructor|split; reflexivity].
    split; [split; [cbn; lia|exact I]|]. split; [split; vm_compute; reflexivity|].
    split; [split; [cbn; lia|exact I]|]. split; [split; vm_compute; reflexivity|exact I].
  - reflexivity.
  - constructor.
Defined.
