(* ===== verification/Bdev.v ===== *)
(** * SSD block pools (balloc.c)

    Sectors of a block device are handed out through one pool per CPU plus a
    reserved one; an empty pool is refilled from the reserved pool or from the
    device's never used range.  A pool's array lives in its own virtual range,
    of which the first [capacity] words are mapped. *)

From S2P Require Import Prelude Mem Layout.

(** struct block_pool_per_cpu; the array's contents by index. *)
Record block_pool := mk_bpool { post : Z; capacity : Z; slots : gmap Z Z }.

(** struct bdev_des *)
Record bdev_des := mk_bdev { b_start : Z; b_end : Z; pools : gmap Z block_pool }.

Definition empty_pool : block_pool := mk_bpool 0 DEFAYLT_CAPACITY ∅.
Definition get_bpool (b : bdev_des) (i : Z) : block_pool := default empty_pool (pools b !! i).
Definition set_bpool (b : bdev_des) (i : Z) (p : block_pool) : bdev_des :=
  mk_bdev (b_start b) (b_end b) (<[i := p]> (pools b)).

(** virt_addr[i]: outside the mapped words the access faults; a mapped word that
    was never written holds 0. *)
Definition pool_read (p : block_pool) (i : Z) : outcome Z :=
  if (0 <=? i) && (i <? capacity p) then Ret (default 0 (slots p !! i)) else Oops.

Definition pool_write (p : block_pool) (i v : Z) : outcome block_pool :=
  if (0 <=? i) && (i <? capacity p) then Ret (mk_bpool (post p) (capacity p) (<[i := v]> (slots p)))
  else Oops.

Definition set_post (p : block_pool) (x : Z) : block_pool := mk_bpool x (capacity p) (slots p).

(** for (i=0;i<CPU_NR+1;++i): the pools of one device at mount. *)
Definition __rdfs_init_bdev_pool (b : bdev_des) (cap : Z) : bdev_des :=
  mk_bdev (b_start b) (b_end b)
    (list_to_map ((fun i => (i, mk_bpool 0 (s32 cap) ∅)) <$> seqZ 0 (CPU_NR + 1))).

(** A device of [nr_sects] 512-byte sectors. *)
Definition rdfs_get_bdev_size (nr_sects : Z) : Z := Z.shiftr nr_sects 3.
Definition open_bdev (nr_sects : Z) : bdev_des := mk_bdev 1 (rdfs_get_bdev_size nr_sects) ∅.

Definition set_bdev_count (n : Z) (sbi : rdfs_sb_info) : rdfs_sb_info :=
  mk_sbi (virt_addr sbi) (phy_addr sbi) (num_inodes sbi) (sb_blocksize sbi) (s_inode_size sbi)
    (bpi sbi) (initsize sbi) (s_mount_opt sbi) (sb_uid sbi) (sb_gid sbi) (sb_mode sbi)
    (next_generation sbi) n (atomic_bdev_post sbi).

(** [nr_sects]: the size of the device blkdev_get_by_path finds, [None] for an error.
    The result: 1 or 0, the super-block info, the descriptor written at
    [bdev_address], and the address of the next one. *)
Definition rdfs_init_bdev (sbi : rdfs_sb_info) (nr_sects : option Z) (bdev_address : Z)
  : Z * rdfs_sb_info * option bdev_des * Z :=
  match nr_sects with
  | None => (0, sbi, None, bdev_address)
  | Some n =>
      (1, set_bdev_count (s32 (bdev_count sbi + 1)) sbi, Some (open_bdev n), u64 (bdev_address + sizeof_bdev_des))
  end.

(** Round robin over the devices: the incremented counter and the device. *)
Definition rdfs_alloc_bdev (sbi : rdfs_sb_info) : rdfs_sb_info * Z * Z :=
  let post := s32 (atomic_bdev_post sbi + 1) in
  let bdev_id := u64 (Z.rem post (bdev_count sbi)) in
  (mk_sbi (virt_addr sbi) (phy_addr sbi) (num_inodes sbi) (sb_blocksize sbi) (s_inode_size sbi)
     (bpi sbi) (initsize sbi) (s_mount_opt sbi) (sb_uid sbi) (sb_gid sbi) (sb_mode sbi)
     (next_generation sbi) (bdev_count sbi) post,
   bdev_id, u64 (virt_addr sbi + BDEV_DES_OFFSET + bdev_id * sizeof_bdev_des)).

(** for (i=0;i<count;++i,++start) virt_addr[i] = start *)
Fixpoint fill_pool (n : nat) (p : block_pool) (i start : Z) : outcome block_pool :=
  match n with
  | O => Ret p
  | S n' => p ← pool_write p i (u64 start); fill_pool n' p (i + 1) (s32 (start + 1))
  end.

(** memcpy of [n] words from [r] at word [j] to [p] at word [i] *)
Fixpoint copy_pool (n : nat) (p r : block_pool) (i j : Z) : outcome block_pool :=
  match n with
  | O => Ret p
  | S n' => v ← pool_read r j; p ← pool_write p i v; copy_pool n' p r (i + 1) (j + 1)
  end.

(** [None]: the sector -1 of a full device. *)
Definition __rdfs_alloc_a_disk_block (b : bdev_des) (cpu_id : Z) : outcome (option Z * bdev_des) :=
  let block_pool := get_bpool b cpu_id in
  let reserved_pool := get_bpool b CPU_NR in
  r ←
    (if post block_pool =? 0 then
       if post reserved_pool =? 0 then
         if b_start b =? b_end b then Ret None
         else
           let start := s32 (b_start b) in
           let '(count, start') :=
             if u64 (b_start b + COUNT_PER_ALLOC - 1) <=? b_end b
             then (COUNT_PER_ALLOC, u64 (b_start b + COUNT_PER_ALLOC))
             else (s32 (b_end b - b_start b + 1), b_end b) in
           p ← fill_pool (Z.to_nat count) block_pool 0 start;
           Ret (Some (mk_bdev start' (b_end b) (<[cpu_id := set_post p count]> (pools b))))
       else
         let count := if COUNT_PER_ALLOC <? post reserved_pool then COUNT_PER_ALLOC
                      else post reserved_pool in
         let reserved_pool := set_post reserved_pool (post reserved_pool - count) in
         p ← copy_pool (Z.to_nat count) block_pool reserved_pool 0 (8 * count);
         Ret (Some (set_bpool (set_bpool b CPU_NR reserved_pool) cpu_id
                      (set_post p (post block_pool + count))))
     else Ret (Some b));
  match r with
  | None => Ret (None, b)
  | Some b =>
      let block_pool := get_bpool b cpu_id in
      let block_pool := set_post block_pool (s32 (post block_pool - 1)) in
      sn ← pool_read block_pool (post block_pool);
      Ret (Some sn, set_bpool b cpu_id block_pool)
  end.

(** A full pool is extended by one page of words. *)
Definition free_into_pool (p : block_pool) (sn : Z) : outcome block_pool :=
  let p := if capacity p <=? post p
           then mk_bpool (post p) (s32 (capacity p + PAGE_SIZE / 8)) (slots p) else p in
  q ← pool_write p (post p) sn;
  Ret (set_post q (s32 (post p + 1))).

Definition __rdfs_free_a_disk_block (b : bdev_des) (cpu_id sn : Z) : outcome bdev_des :=
  let block_pool := get_bpool b cpu_id in
  if post block_pool =? capacity block_pool then
    p ← free_into_pool (get_bpool b CPU_NR) sn; Ret (set_bpool b CPU_NR p)
  else p ← free_into_pool block_pool sn; Ret (set_bpool b cpu_id p).

(** ** Invariant *)

(** The first [post] words of a pool, bottom first. *)
Definition stack (p : block_pool) : list Z :=
  (fun i => default 0 (slots p !! i)) <$> seqZ 0 (post p).

Definition pool_ok (p : block_pool) : Prop :=
  0 <= post p <= capacity p /\ DEFAYLT_CAPACITY <= capacity p < 2 ^ 30.

(** All sectors waiting in the per-CPU pools. *)
Definition pooled (b : bdev_des) : list Z := seqZ 0 CPU_NR ≫= fun i => stack (get_bpool b i).

(** The first sector never handed to a pool; start = end marks an exhausted device. *)
Definition limit (b : bdev_des) : Z := if b_start b =? b_end b then b_end b + 1 else b_start b.

(** The unused range is not a whole number of batches. *)
Definition batches (b : bdev_des) : Prop := (b_end b - b_start b + 1) mod COUNT_PER_ALLOC <> 0.

(** Pooled sectors are distinct and below the unused range, which lies on the device. *)
Record bdev_ok (b : bdev_des) : Prop := {
  ok_pool : forall cpu, 0 <= cpu < CPU_NR -> pool_ok (get_bpool b cpu);
  ok_range : 1 <= b_start b /\ b_start b <= b_end b < 2 ^ 31 - 1024;
  ok_nodup : NoDup (pooled b);
  ok_below : Forall (fun s => 1 <= s < limit b) (pooled b)
}.

Lemma seqZ_snoc n : 0 <= n -> seqZ 0 (n + 1) = seqZ 0 n ++ [n].
Proof. intros Hn. rewrite seqZ_app by lia. done. Qed.

Lemma stack_push p v :
  pool_ok p -> post p < capacity p ->
  stack (mk_bpool (post p + 1) (capacity p) (<[post p := v]> (slots p))) = stack p ++ [v].
Proof.
  intros [Hp _] Hlt. unfold stack. cbn. rewrite seqZ_snoc by lia. rewrite fmap_app. cbn. f_equal.
  - apply list_fmap_ext. intros i x Hx. apply lookup_seqZ in Hx as [-> Hx].
    rewrite lookup_insert_ne by lia. done.
  - by rewrite lookup_insert_eq.
Qed.

Lemma stack_pop p n : pool_ok p -> post p = n + 1 -> 0 <= n ->
  stack p = stack (set_post p n) ++ [default 0 (slots p !! n)].
Proof.
  intros [Hp _] E Hn. unfold stack. cbn. rewrite E, seqZ_snoc by lia. by rewrite fmap_app.
Qed.

Lemma fill_pool_ok n p i start :
  0 <= i -> i + Z.of_nat n <= capacity p -> 0 <= start -> start + Z.of_nat n < 2 ^ 31 ->
  exists p', fill_pool n p i start = Ret p' /\ capacity p' = capacity p /\ post p' = post p /\
    (forall j, slots p' !! j = if decide (i <= j < i + Z.of_nat n) then Some (start + (j - i))
                               else slots p !! j).
Proof.
  revert p i start. induction n as [|n IH]; intros p i start Hi Hc Hs Hw; cbn [fill_pool].
  { exists p. repeat (split; [done|]). intros j. by rewrite decide_False by lia. }
  unfold pool_write. rewrite (proj2 (andb_true_iff _ _)) by lia. cbn [mbind outcome_bind].
  rewrite u64_small, s32_small by lia.
  destruct (IH (mk_bpool (post p) (capacity p) (<[i := start]> (slots p))) (i + 1) (start + 1))
    as (p' & E & Ec & Ep & Hsl); cbn [capacity] in *; [lia..|].
  exists p'. split; [done|]. split; [done|]. split; [done|]. intros j. rewrite Hsl. cbn [slots].
  repeat case_decide; try lia.
  - f_equal. lia.
  - assert (j = i) as -> by lia. rewrite lookup_insert_eq. f_equal. lia.
  - rewrite lookup_insert_ne by lia. done.
Qed.

(** Changing one pool changes its part of the pooled sectors. *)
Lemma pooled_split b cpu : 0 <= cpu < CPU_NR ->
  exists A B, pooled b = A ++ stack (get_bpool b cpu) ++ B /\
    forall b', (forall i, i <> cpu -> get_bpool b' i = get_bpool b i) ->
      pooled b' = A ++ stack (get_bpool b' cpu) ++ B.
Proof.
  intros Hc. unfold pooled.
  exists (seqZ 0 cpu ≫= fun i => stack (get_bpool b i)),
    (seqZ (cpu + 1) (CPU_NR - cpu - 1) ≫= fun i => stack (get_bpool b i)).
  assert (E : seqZ 0 CPU_NR = seqZ 0 cpu ++ [cpu] ++ seqZ (cpu + 1) (CPU_NR - cpu - 1)).
  { replace CPU_NR with (cpu + (1 + (CPU_NR - cpu - 1))) at 1 by lia.
    rewrite seqZ_app, seqZ_app by lia. by rewrite Z.add_0_l. }
  rewrite E. split; [by rewrite !bind_app, bind_singleton|].
  intros b' Hb. rewrite !bind_app, bind_singleton. f_equal; [|f_equal];
    apply Forall_bind_ext, Forall_forall; intros i Hi%elem_of_seqZ; rewrite Hb; by try lia.
Qed.

Lemma get_mk_bpool st_ en i p ps : get_bpool (mk_bdev st_ en (<[i := p]> ps)) i = p.
Proof. unfold get_bpool. cbn. by rewrite lookup_insert_eq. Qed.

Lemma get_set_bpool b i p : get_bpool (set_bpool b i p) i = p.
Proof. unfold get_bpool, set_bpool. cbn. by rewrite lookup_insert_eq. Qed.

Lemma get_set_bpool_ne b i j p : i <> j -> get_bpool (set_bpool b i p) j = get_bpool b j.
Proof. intros. unfold get_bpool, set_bpool. cbn. by rewrite lookup_insert_ne. Qed.

(** Taking the top sector of a non-empty pool. *)
Lemma pop_ok b cpu sn :
  bdev_ok b -> 0 <= cpu < CPU_NR -> 0 < post (get_bpool b cpu) ->
  let p := get_bpool b cpu in
  let b' := set_bpool b cpu (set_post p (post p - 1)) in
  pool_read (set_post p (post p - 1)) (post p - 1) = Ret sn ->
  bdev_ok b' /\ pooled b ≡ₚ (sn :: pooled b') /\ b_start b' = b_start b /\ b_end b' = b_end b.
Proof.
  intros [Hp Hr Hn Hb] Hc Hpost p b' Hread. pose proof (Hp cpu Hc) as Hpc. fold p in Hpc, Hpost.
  unfold pool_read in Hread. cbn in Hread.
  destruct ((0 <=? post p - 1) && (post p - 1 <? capacity p)) eqn:Ec in Hread; [|done]. injection Hread as <-.
  destruct (pooled_split b cpu Hc) as (A & B & E1 & E2).
  assert (Eb' : pooled b' = A ++ stack (set_post p (post p - 1)) ++ B).
  { rewrite (E2 b'); [unfold b'; by rewrite get_set_bpool|].
    intros i Hi. unfold b'. by rewrite get_set_bpool_ne. }
  assert (Hperm : pooled b ≡ₚ (default 0 (slots p !! (post p - 1)) :: pooled b')).
  { rewrite E1, Eb'. fold p. rewrite (stack_pop p (post p - 1) Hpc) by lia.
    rewrite <- !app_assoc. cbn [app]. by rewrite <- !Permutation_middle. }
  rewrite Hperm in Hn, Hb. apply NoDup_cons in Hn as [Hn1 Hn2]. inversion Hb; subst.
  split; [|by repeat split]. split; [|done|done|done].
  intros i Hi. unfold b'. destruct (decide (i = cpu)) as [->|].
  - rewrite get_set_bpool. destruct Hpc. split; cbn; lia.
  - rewrite get_set_bpool_ne by done. by apply Hp.
Qed.

(** Refilling an empty pool with [n] unused sectors. *)
Lemma refill_ok b cpu n start' p' :
  bdev_ok b -> 0 <= cpu < CPU_NR -> post (get_bpool b cpu) = 0 -> 0 <= n <= COUNT_PER_ALLOC ->
  b_start b < b_end b ->
  (start' = b_start b + n /\ start' <= b_end b \/ start' = b_end b /\ n = b_end b - b_start b + 1) ->
  fill_pool (Z.to_nat n) (get_bpool b cpu) 0 (b_start b) = Ret p' ->
  let b' := mk_bdev start' (b_end b) (<[cpu := set_post p' n]> (pools b)) in
  bdev_ok b' /\ get_bpool b' cpu = set_post p' n /\ pool_ok (set_post p' n) /\
  pooled b' ≡ₚ (seqZ (b_start b) n ++ pooled b).
Proof.
  intros [Hp Hr Hn Hb] Hc Hpost Hcnt Hlt Hst Hfill b'. pose proof (Hp cpu Hc) as Hpc.
  unfold COUNT_PER_ALLOC in *.
  destruct (fill_pool_ok (Z.to_nat n) (get_bpool b cpu) 0 (b_start b)) as (p2 & E & Ecap & _ & Hsl);
    [lia|destruct Hpc; unfold DEFAYLT_CAPACITY in *; lia|lia|lia|].
  rewrite Hfill in E. injection E as <-.
  assert (Hstack : stack (set_post p' n) = seqZ (b_start b) n).
  { unfold stack. cbn. apply list_eq. intros i. rewrite list_lookup_fmap.
    destruct (decide (Z.of_nat i < n)).
    - rewrite !lookup_seqZ_lt by lia. cbn. rewrite Hsl, decide_True by lia. cbn. f_equal. lia.
    - by rewrite !lookup_seqZ_ge by lia. }
  assert (Eg : get_bpool b' cpu = set_post p' n) by (unfold get_bpool, b'; cbn; by rewrite lookup_insert_eq).
  assert (Eo : forall i, i <> cpu -> get_bpool b' i = get_bpool b i)
    by (intros i Hi; unfold get_bpool, b'; cbn; by rewrite lookup_insert_ne).
  assert (Hpok : pool_ok (set_post p' n)).
  { destruct Hpc. unfold pool_ok, DEFAYLT_CAPACITY in *. cbn. rewrite Ecap. lia. }
  destruct (pooled_split b cpu Hc) as (A & B & E1 & E2).
  assert (Hempty : stack (get_bpool b cpu) = []) by (unfold stack; by rewrite Hpost).
  assert (Hperm : pooled b' ≡ₚ (seqZ (b_start b) n ++ pooled b)).
  { rewrite (E2 b' Eo), E1, Eg, Hstack, Hempty. cbn. rewrite !app_assoc. f_equiv.
    apply Permutation_app_comm. }
  assert (Hlim : limit b = b_start b) by (unfold limit; rewrite (proj2 (Z.eqb_neq _ _)); lia).
  assert (Hlim' : b_start b + n <= limit b' /\ limit b <= limit b').
  { rewrite Hlim. unfold limit, b'. cbn. destruct (Z.eqb_spec start' (b_end b)); lia. }
  split; [|done]. split.
  - intros i Hi. destruct (decide (i = cpu)) as [->|]; [by rewrite Eg|]. rewrite Eo by done. by apply Hp.
  - cbn. lia.
  - rewrite Hperm. apply NoDup_app. split; [apply NoDup_seqZ|]. split; [|done].
    intros x Hx%elem_of_seqZ Hx2. rewrite Forall_forall in Hb. specialize (Hb x Hx2). lia.
  - rewrite Hperm. apply Forall_app. split.
    + apply Forall_forall. intros x Hx%elem_of_seqZ. lia.
    + eapply Forall_impl; [exact Hb|]. cbn. lia.
Qed.

(** A pool that is not empty has a sector to read. *)
Lemma pop_reads p : pool_ok p -> 0 < post p -> exists sn, pool_read (set_post p (post p - 1)) (post p - 1) = Ret sn.
Proof.
  intros [[? ?] ?] Hp. unfold pool_read. cbn. rewrite (proj2 (andb_true_iff _ _)) by lia. eauto.
Qed.

(** The batch a refill takes: a whole one, or what is left of the device. *)
Lemma refill_batch b cpu : bdev_ok b -> 0 <= cpu < CPU_NR -> post (get_bpool b cpu) = 0 -> b_start b <> b_end b ->
  batches b ->
  exists n start' p', (if b_start b + COUNT_PER_ALLOC - 1 <=? b_end b then (COUNT_PER_ALLOC, u64 (b_start b + COUNT_PER_ALLOC))
      else (s32 (b_end b - b_start b + 1), b_end b)) = (n, start') /\ 1 <= n <= COUNT_PER_ALLOC /\
    fill_pool (Z.to_nat n) (get_bpool b cpu) 0 (b_start b) = Ret p' /\
    let b1 := mk_bdev start' (b_end b) (<[cpu := set_post p' n]> (pools b)) in
    bdev_ok b1 /\ get_bpool b1 cpu = set_post p' n /\ pool_ok (set_post p' n) /\
    pooled b1 ≡ₚ (seqZ (b_start b) n ++ pooled b) /\ b_start b + n <= limit b1 /\ batches b1.
Proof.
  intros Hok Hc E0 Ese Hba. pose proof Hok as [Hp Hr _ _]. pose proof (Hp cpu Hc) as Hpc. unfold batches, COUNT_PER_ALLOC in *.
  assert (Hne : b_start b + 512 - 1 <> b_end b) by (intros E; apply Hba; by replace (b_end b - b_start b + 1) with 512 by lia).
  set (n := if b_start b + 512 - 1 <=? b_end b then 512 else b_end b - b_start b + 1).
  set (start' := if b_start b + 512 - 1 <=? b_end b then b_start b + 512 else b_end b).
  assert (Hn1 : 1 <= n <= 512) by (unfold n; destruct (Z.leb_spec (b_start b + 512 - 1) (b_end b)); lia).
  destruct (fill_pool_ok (Z.to_nat n) (get_bpool b cpu) 0 (b_start b)) as (p' & Efill & _);
    [lia|destruct Hpc; unfold DEFAYLT_CAPACITY in *; lia|lia|lia|].
  destruct (refill_ok b cpu n start' p' Hok Hc E0) as (Hok' & Eg & Hpok & Hperm);
    [unfold COUNT_PER_ALLOC; lia|lia| |done|].
  { unfold n, start'. destruct (Z.leb_spec (b_start b + 512 - 1) (b_end b)); lia. }
  exists n, start', p'. split; [|split; [done|split; [done|split; [done|split; [done|split; [done|split; [done|split]]]]]]].
  - unfold n, start'. destruct (Z.leb_spec (b_start b + 512 - 1) (b_end b)); rewrite ?u64_small, ?s32_small by lia; done.
  - unfold limit. cbn. unfold n, start'.
    destruct (Z.leb_spec (b_start b + 512 - 1) (b_end b)), (Z.eqb_spec (b_start b + 512) (b_end b)),
      (Z.eqb_spec (b_end b) (b_end b)); lia.
  - cbn. unfold start'. destruct (Z.leb_spec (b_start b + 512 - 1) (b_end b)).
    + replace (b_end b - (b_start b + 512) + 1) with (b_end b - b_start b + 1 + (-1) * 512) by lia. by rewrite Z.mod_add.
    + by replace (b_end b - b_end b + 1) with 1 by lia.
Qed.

(** The allocator's step from a state whose reserved pool is empty. *)
Lemma alloc_step b cpu :
  bdev_ok b -> 0 <= cpu < CPU_NR -> post (get_bpool b CPU_NR) = 0 -> batches b ->
  exists r b', __rdfs_alloc_a_disk_block b cpu = Ret (r, b') /\ bdev_ok b' /\ batches b' /\
    get_bpool b' CPU_NR = get_bpool b CPU_NR /\ b_end b' = b_end b /\
    match r with
    | None => b' = b /\ pooled b = pooled b' /\ b_start b = b_end b /\ post (get_bpool b cpu) = 0
    | Some sn => exists new, (sn :: pooled b') ≡ₚ (new ++ pooled b) /\ limit b <= limit b' /\
        NoDup new /\ Forall (fun s => limit b <= s < limit b') new
    end.
Proof.
  intros Hok Hc Hres Hne. pose proof Hok as [Hp Hr Hn Hb]. pose proof (Hp cpu Hc) as Hpc.
  unfold __rdfs_alloc_a_disk_block. rewrite Hres.
  destruct (Z.eqb_spec (post (get_bpool b cpu)) 0) as [E0|E0].
  - cbn [Z.eqb]. destruct (Z.eqb_spec (b_start b) (b_end b)) as [Ese|Ese].
    { cbn. exists None, b. done. }
    rewrite (u64_small (b_start b + COUNT_PER_ALLOC - 1)), (s32_small (b_start b)) by (unfold COUNT_PER_ALLOC; lia).
    destruct (refill_batch b cpu Hok Hc E0 Ese Hne) as (n & start' & p' & -> & Hn1 & -> & Hok' & Eg & Hpok & Hperm & Hl1 & Hb1).
    cbn [mbind outcome_bind]. set (b1 := mk_bdev start' _ _) in *. rewrite Eg. cbn [post set_post].
    rewrite s32_small by (unfold COUNT_PER_ALLOC in *; lia).
    assert (Epost : post (get_bpool b1 cpu) = n) by (by rewrite Eg).
    destruct (pop_reads _ Hpok) as [sn Eread]; [cbn; lia|]. cbn [post set_post] in Eread.
    change (set_post (set_post p' n) (n - 1)) with (set_post p' (n - 1)) in Eread.
    destruct (pop_ok b1 cpu sn Hok' Hc) as (Hok2 & Hperm2 & Es & Ee); [lia|rewrite Eg; exact Eread|].
    rewrite Eg in Hok2, Hperm2, Es, Ee. cbn [post set_post capacity slots] in Hok2, Hperm2, Es, Ee.
    change (set_post (set_post p' n) (n - 1)) with (set_post p' (n - 1)) in *.
    assert (Hlim : limit (set_bpool b1 cpu (set_post p' (n - 1))) = limit b1)
      by (unfold limit; by rewrite Es, Ee).
    assert (Hl0 : limit b = b_start b) by (unfold limit; rewrite (proj2 (Z.eqb_neq _ _)); lia).
    eexists _, _. split; [rewrite Eread; reflexivity|]. split; [exact Hok2|]. split; [unfold batches; by rewrite Es, Ee|].
    split.
    { rewrite get_set_bpool_ne by lia. unfold get_bpool, b1. cbn. by rewrite lookup_insert_ne by lia. }
    split; [exact Ee|]. exists (seqZ (b_start b) n). rewrite Hlim. split; [by rewrite <- Hperm2|]. split; [lia|].
    split; [apply NoDup_seqZ|]. apply Forall_forall. intros x Hx%elem_of_seqZ. lia.
  - cbn [mbind outcome_bind]. rewrite s32_small by (destruct Hpc; unfold DEFAYLT_CAPACITY in *; lia).
    assert (Hpos : 0 < post (get_bpool b cpu)) by (destruct Hpc; lia).
    destruct (pop_reads _ Hpc Hpos) as [sn Eread]. destruct (pop_ok b cpu sn Hok Hc Hpos Eread) as (Hok2 & Hperm2 & Es & Ee).
    eexists _, _. cbn [post set_post]. split; [rewrite Eread; reflexivity|]. split; [exact Hok2|]. split; [unfold batches; by rewrite Es, Ee|].
    split; [by rewrite get_set_bpool_ne by lia|]. split; [exact Ee|].
    exists []. split; [by rewrite Hperm2|]. split; [unfold limit; rewrite Es, Ee; lia|].
    split; [constructor|constructor].
Qed.

(** Sectors in use outside the pools: [out] lists them. *)
Record disk_inv (b : bdev_des) (out : list Z) : Prop := {
  inv_bdev : bdev_ok b;
  inv_reserved : post (get_bpool b CPU_NR) = 0;
  inv_batches : batches b;
  inv_unique : NoDup (out ++ pooled b);
  inv_out : Forall (fun s => 1 <= s < limit b) out
}.

#[export] Instance disk_inv_proper b : Proper ((≡ₚ) ==> iff) (disk_inv b).
Proof. intros out out' Hp. split; intros [H1 H2 H3 H4 H5]; split; try done; first [by rewrite <- Hp|by rewrite Hp]. Qed.

Lemma inv_alloc b cpu out : disk_inv b out -> 0 <= cpu < CPU_NR ->
  exists r b', __rdfs_alloc_a_disk_block b cpu = Ret (r, b') /\ b_end b' = b_end b /\
    match r with
    | None => b' = b /\ b_start b = b_end b /\ post (get_bpool b cpu) = 0
    | Some sn => (sn ∉ out) /\ 1 <= sn <= b_end b /\ disk_inv b' (sn :: out)
    end.
Proof.
  intros [Hok Hres Hba Hu Ho] Hc.
  destruct (alloc_step b cpu Hok Hc Hres Hba) as (r & b' & E & Hok' & Hba' & Hres' & Eend & Hr).
  exists r, b'. split; [done|]. split; [done|]. destruct r as [sn|].
  2:{ destruct Hr as (-> & _ & Hse & Hp). done. }
  destruct Hr as (new & Hperm & Hlim & Hnn & Hnew).
  assert (Hall : NoDup (out ++ (sn :: pooled b'))).
  { rewrite Hperm. apply NoDup_app in Hu as (Hu1 & Hu2 & Hu3).
    apply NoDup_app. split; [done|]. rewrite Forall_forall in Ho, Hnew. split.
    - intros x Hx [Hy|Hy]%elem_of_app; [specialize (Ho x Hx); specialize (Hnew x Hy); lia|by apply (Hu2 x)].
    - apply NoDup_app. split; [done|]. split; [|done]. intros x Hx Hy.
      destruct Hok as [_ _ _ Hb]. rewrite Forall_forall in Hb. specialize (Hb x Hy).
      specialize (Hnew x Hx). lia. }
  assert (Hsn : 1 <= sn < limit b').
  { assert (Hin : sn ∈ (new ++ pooled b)) by (rewrite <- Hperm; constructor).
    destruct Hok as [_ Hrg _ Hb]. rewrite Forall_forall in Hb, Hnew.
    apply elem_of_app in Hin as [Hin|Hin].
    - specialize (Hnew sn Hin). unfold limit in Hnew at 1. destruct (Z.eqb_spec (b_start b) (b_end b)); lia.
    - specialize (Hb sn Hin). lia. }
  assert (Hl : limit b' <= b_end b + 1).
  { destruct Hok' as [_ Hrg _ _]. unfold limit. rewrite <- Eend. destruct (b_start b' =? b_end b'); lia. }
  split; [|split; [lia|split]].
  - intros Hx. apply NoDup_app in Hall as (_ & Hd & _). apply (Hd sn Hx). constructor.
  - done.
  - by rewrite Hres'.
  - done.
  - cbn. by rewrite Permutation_middle.
  - constructor; [done|]. eapply Forall_impl; [exact Ho|]. cbn. lia.
Qed.

Lemma disk_free_step b cpu sn out :
  disk_inv b (sn :: out) -> 0 <= cpu < CPU_NR -> post (get_bpool b cpu) < capacity (get_bpool b cpu) ->
  exists b', __rdfs_free_a_disk_block b cpu sn = Ret b' /\ disk_inv b' out /\
    exists b'', __rdfs_alloc_a_disk_block b' cpu = Ret (Some sn, b'').
Proof.
  intros [Hok Hres Hba Hu Ho] Hc Hlt. pose proof Hok as [Hp Hrg Hn Hb]. pose proof (Hp cpu Hc) as Hpc.
  pose proof Hpc as [Hpc1 Hpc2].
  unfold __rdfs_free_a_disk_block. rewrite (proj2 (Z.eqb_neq _ _)) by lia.
  unfold free_into_pool. rewrite (proj2 (Z.leb_gt _ _)) by lia. unfold pool_write.
  rewrite (proj2 (andb_true_iff _ _)) by lia. cbn [mbind outcome_bind].
  rewrite s32_small by (unfold DEFAYLT_CAPACITY in *; lia).
  set (p := get_bpool b cpu) in *.
  change (set_post (mk_bpool (post p) (capacity p) (<[post p := sn]> (slots p))) (post p + 1))
    with (mk_bpool (post p + 1) (capacity p) (<[post p := sn]> (slots p))).
  set (p' := mk_bpool (post p + 1) _ _). set (b' := set_bpool b cpu p').
  assert (Eg : get_bpool b' cpu = p') by (unfold b'; by rewrite get_set_bpool).
  destruct (pooled_split b cpu Hc) as (A & B & E1 & E2).
  assert (Hperm : pooled b' ≡ₚ (sn :: pooled b)).
  { rewrite (E2 b'); [|intros i Hi; unfold b'; by rewrite get_set_bpool_ne].
    rewrite Eg, E1. unfold p'. rewrite (stack_push p sn Hpc Hlt). fold p.
    rewrite <- app_assoc. cbn [app]. by rewrite <- !Permutation_middle. }
  assert (Hpok : pool_ok p') by (unfold pool_ok, p'; cbn; lia).
  inversion Ho as [|? ? Hsn Ho']; subst. cbn in Hu. rewrite Permutation_middle in Hu.
  exists b'. split; [done|]. split; [split|].
  - split; [|done| |].
    + intros i Hi. unfold b'. destruct (decide (i = cpu)) as [->|].
      * by rewrite get_set_bpool.
      * rewrite get_set_bpool_ne by done. by apply Hp.
    + rewrite Hperm. by apply NoDup_app in Hu as (_ & _ & Hu).
    + rewrite Hperm. by constructor.
  - unfold b'. by rewrite get_set_bpool_ne by lia.
  - exact Hba.
  - by rewrite Hperm.
  - exact Ho'.
  - unfold __rdfs_alloc_a_disk_block. rewrite Eg. change (post p') with (post p + 1).
    rewrite (proj2 (Z.eqb_neq _ 0)) by lia. cbn [mbind outcome_bind]. rewrite Eg.
    change (post p') with (post p + 1). rewrite s32_small by (unfold DEFAYLT_CAPACITY in *; lia).
    unfold pool_read. cbn [post set_post capacity slots p']. replace (post p + 1 - 1) with (post p) by lia.
    rewrite (proj2 (andb_true_iff _ _)) by lia. rewrite lookup_insert_eq. cbn. by eexists.
Qed.

(** Any sequence of allocations and of releases of sectors in use, on any CPU: the
    state and the sectors in use.  A sector is released while the CPU's pool has
    room. *)
Inductive disk_reach (b0 : bdev_des) : bdev_des -> list Z -> Prop :=
| reach_fresh : disk_reach b0 b0 []
| reach_take b out cpu r b' : disk_reach b0 b out -> 0 <= cpu < CPU_NR -> __rdfs_alloc_a_disk_block b cpu = Ret (r, b') ->
    disk_reach b0 b' (match r with Some sn => sn :: out | None => out end)
| reach_give b out1 sn out2 cpu b' : disk_reach b0 b (out1 ++ sn :: out2) -> 0 <= cpu < CPU_NR ->
    post (get_bpool b cpu) < capacity (get_bpool b cpu) -> __rdfs_free_a_disk_block b cpu sn = Ret b' ->
    disk_reach b0 b' (out1 ++ out2).

(** A device of [nr_sects] sectors as [rdfs_get_bdev] and [rdfs_init_bdev_pool]
    leave it. *)
Definition fresh_bdev (nr_sects : Z) : bdev_des := __rdfs_init_bdev_pool (open_bdev nr_sects) DEFAYLT_CAPACITY.

Lemma fresh_pool nr_sects i : get_bpool (fresh_bdev nr_sects) i = empty_pool.
Proof.
  unfold get_bpool, fresh_bdev, __rdfs_init_bdev_pool. cbn [pools].
  destruct (_ !! i) as [p|] eqn:E; [|done]. apply elem_of_list_to_map_2 in E.
  apply list_elem_of_fmap in E as (j & [= -> ->] & _). done.
Qed.

Lemma fresh_inv nr_sects : let n := rdfs_get_bdev_size nr_sects in
  1 <= n < 2 ^ 31 - 1024 -> n mod COUNT_PER_ALLOC <> 0 -> disk_inv (fresh_bdev nr_sects) [].
Proof.
  intros n Hn Hm. assert (Hp : pooled (fresh_bdev nr_sects) = []).
  { unfold pooled. induction (seqZ 0 CPU_NR) as [|i l IH]; [done|]. cbn. by rewrite fresh_pool, IH. }
  split; [|by rewrite fresh_pool| |rewrite Hp; constructor|constructor].
  - split; [|cbn; fold n; lia|rewrite Hp; constructor|rewrite Hp; constructor].
    intros cpu _. rewrite fresh_pool. split; cbn; unfold DEFAYLT_CAPACITY; lia.
  - unfold batches. cbn. fold n. by replace (n - 1 + 1) with n by lia.
Qed.

Lemma disk_reach_inv b0 b out : disk_inv b0 [] -> disk_reach b0 b out -> disk_inv b out /\ b_end b = b_end b0.
Proof.
  intros H0. induction 1 as [|b out cpu r b' _ [IH Ee] Hc E|b out1 sn out2 cpu b' _ [IH Ee] Hc Hlt E]; [done| |].
  - destruct (inv_alloc b cpu out IH Hc) as (r' & b2 & E2 & Ee2 & Hr). rewrite E in E2. injection E2 as <- <-.
    split; [|by rewrite Ee2]. destruct r as [sn|]; [apply Hr|]. by destruct Hr as [-> _].
  - rewrite <- Permutation_middle in IH.
    destruct (disk_free_step b cpu sn (out1 ++ out2) IH Hc Hlt) as (b2 & E2 & HI & _). pose proof E as E3. rewrite E in E2. injection E2 as <-.
    split; [done|]. rewrite <- Ee. revert E3. unfold __rdfs_free_a_disk_block. rewrite (proj2 (Z.eqb_neq _ _)) by lia.
    destruct (free_into_pool _ _); [|done]. cbn. by intros [= <-].
Qed.

(** C28: disk sectors are never handed out twice. On a device of [n] blocks, [n]
    not a multiple of the batch of 512 and below 2^31 - 1024, after any sequence
    of allocations and releases on any CPU, each release into a pool with room,
    the sectors in use are distinct sectors of the device, and the next
    allocation on any CPU returns another one, or reports a full device without
    a change when the unused range is at its end and the CPU's pool is empty. *)
Theorem disk_alloc_unique nr_sects b out :
  let n := rdfs_get_bdev_size nr_sects in
  1 <= n < 2 ^ 31 - 1024 -> n mod COUNT_PER_ALLOC <> 0 -> disk_reach (fresh_bdev nr_sects) b out ->
  NoDup out /\ Forall (fun s => 1 <= s <= n) out /\
  forall cpu, 0 <= cpu < CPU_NR ->
    exists r b', __rdfs_alloc_a_disk_block b cpu = Ret (r, b') /\
      match r with
      | None => b' = b /\ b_start b = b_end b /\ post (get_bpool b cpu) = 0
      | Some sn => (sn ∉ out) /\ 1 <= sn <= n
      end.
Proof.
  intros n Hn Hm Hr. destruct (disk_reach_inv _ b out (fresh_inv nr_sects Hn Hm) Hr) as [HI Ee]. cbn in Ee. fold n in Ee.
  pose proof HI as [[_ Hrg _ _] _ _ Hu Ho]. split; [by apply NoDup_app in Hu as (? & _)|]. split.
  - eapply Forall_impl; [exact Ho|]. cbn. intros s Hs. unfold limit in Hs. destruct (Z.eqb_spec (b_start b) (b_end b)); lia.
  - intros cpu Hc. destruct (inv_alloc b cpu out HI Hc) as (r & b' & E & _ & Hx). exists r, b'. split; [done|].
    destruct r as [sn|]; [|done]. destruct Hx as (H1 & H2 & _). split; [done|lia].
Qed.

(** Releasing a sector. While the CPU's pool has room, [__rdfs_free_a_disk_block]
    of a sector in use succeeds, keeps the invariant with one sector less in
    use, and the CPU's next allocation returns that same sector. *)
Theorem disk_free_lifo b cpu sn out :
  disk_inv b (sn :: out) -> 0 <= cpu < CPU_NR -> post (get_bpool b cpu) < capacity (get_bpool b cpu) ->
  exists b', __rdfs_free_a_disk_block b cpu sn = Ret b' /\ disk_inv b' out /\
    exists b'', __rdfs_alloc_a_disk_block b' cpu = Ret (Some sn, b'').
Proof. apply disk_free_step. Qed.

Lemma alloc_past_end b cpu :
  0 <= b_end b < 2 ^ 31 - 1024 -> b_start b = b_end b + 1 ->
  post (get_bpool b cpu) = 0 -> post (get_bpool b CPU_NR) = 0 ->
  __rdfs_alloc_a_disk_block b cpu = Oops.
Proof.
  intros He Hs Hp Hr. unfold __rdfs_alloc_a_disk_block. rewrite Hp, Hr. cbn [Z.eqb].
  rewrite (proj2 (Z.eqb_neq _ _)) by lia. unfold COUNT_PER_ALLOC.
  rewrite (u64_small (b_start b + 512 - 1)) by lia. rewrite (proj2 (Z.leb_gt _ _)) by lia.
  replace (b_end b - b_start b + 1) with 0 by lia. change (s32 0) with 0.
  change (Z.to_nat 0) with 0%nat. cbn [fill_pool mbind outcome_bind]. rewrite !get_mk_bpool. done.
Qed.

(** The last batch. When the unused range ends exactly one batch ahead, a
    refill takes all of it and leaves the start one behind the end, a state the
    exhaustion test does not recognise: the next refill, on any CPU, takes
    nothing and reads below the pool's array. *)
Theorem disk_alloc_last_batch b cpu :
  1 <= b_start b -> b_end b < 2 ^ 31 - 1024 -> b_start b + COUNT_PER_ALLOC - 1 = b_end b ->
  pool_ok (get_bpool b cpu) -> post (get_bpool b cpu) = 0 -> post (get_bpool b CPU_NR) = 0 ->
  exists b', __rdfs_alloc_a_disk_block b cpu = Ret (Some (b_end b), b') /\
    forall b2 cpu2, b_start b2 = b_start b' -> b_end b2 = b_end b' ->
      post (get_bpool b2 cpu2) = 0 -> post (get_bpool b2 CPU_NR) = 0 ->
      __rdfs_alloc_a_disk_block b2 cpu2 = Oops.
Proof.
  intros Hs He Hse [Hc1 Hc2] Hp Hr. unfold __rdfs_alloc_a_disk_block at 1. rewrite Hp, Hr. cbn [Z.eqb].
  unfold COUNT_PER_ALLOC, DEFAYLT_CAPACITY in *. rewrite (proj2 (Z.eqb_neq _ _)) by lia.
  rewrite (u64_small (b_start b + 512 - 1)), (s32_small (b_start b)) by lia.
  rewrite (proj2 (Z.leb_le _ _)), (u64_small (b_start b + 512)) by lia.
  destruct (fill_pool_ok (Z.to_nat 512) (get_bpool b cpu) 0 (b_start b)) as (p' & -> & Ec & _ & Hsl); [lia..|].
  cbn [mbind outcome_bind]. rewrite !get_mk_bpool.
  cbn [post set_post]. rewrite s32_small by lia. unfold pool_read. cbn [post set_post capacity slots].
  rewrite Ec, (proj2 (andb_true_iff _ _)) by lia. rewrite Hsl, decide_True by lia. cbn [mbind outcome_bind default].
  replace (b_start b + (512 - 1 - 0)) with (b_end b) by lia. eexists. split; [reflexivity|]. cbn. intros b2 cpu2 E1 E2 H1 H2. apply alloc_past_end; try done; lia.
Qed.

(** Sectors freed into the reserved pool are lost. A refill from it copies the
    words at eight times its count instead of the ones it holds: a pool that
    holds only sector [sn] yields a word that was never a sector. *)
Theorem reserved_refill_loses b cpu sn :
  0 <= cpu < CPU_NR -> pool_ok (get_bpool b cpu) -> post (get_bpool b cpu) = 0 ->
  get_bpool b CPU_NR = mk_bpool 1 DEFAYLT_CAPACITY {[0 := sn]} ->
  exists b', __rdfs_alloc_a_disk_block b cpu = Ret (Some 0, b') /\ post (get_bpool b' CPU_NR) = 0.
Proof.
  intros Hc [Hc1 Hc2] Hp Hr. unfold __rdfs_alloc_a_disk_block. rewrite Hp, Hr.
  unfold DEFAYLT_CAPACITY in *. cbn [post Z.eqb set_post capacity slots].
  change (COUNT_PER_ALLOC <? 1) with false. cbv iota. change (Z.to_nat 1) with 1%nat. cbn [copy_pool].
  change (pool_read _ (8 * 1)) with (Ret (default 0 (({[0 := sn]} : gmap Z Z) !! 8))).
  rewrite lookup_singleton_ne by lia. cbn [default mbind outcome_bind]. unfold pool_write.
  rewrite (proj2 (andb_true_iff _ _)) by lia. cbn [mbind outcome_bind]. rewrite get_set_bpool.
  cbn [post set_post]. change (s32 (0 + 1 - 1)) with 0. unfold pool_read. cbn [capacity slots set_post post].
  rewrite (proj2 (andb_true_iff _ _)) by lia. rewrite lookup_insert_eq. cbn. eexists. split; [reflexivity|].
  rewrite !get_set_bpool_ne by lia. by rewrite get_set_bpool.
Qed.

(** ** Instances *)

(** A device of 8200 sectors of 512 bytes, with one sector in use. *)
Lemma disk_alloc_unique_witness :
  exists sn b r b', __rdfs_alloc_a_disk_block (fresh_bdev 8200) 3 = Ret (Some sn, b) /\
    __rdfs_alloc_a_disk_block b 5 = Ret (r, b') /\ r <> Some sn.
Proof.
  assert (Hn : 1 <= rdfs_get_bdev_size 8200 < 2 ^ 31 - 1024) by (vm_compute; split; congruence).
  assert (Hm : rdfs_get_bdev_size 8200 mod COUNT_PER_ALLOC <> 0) by (vm_compute; congruence).
  destruct (disk_alloc_unique 8200 (fresh_bdev 8200) [] Hn Hm (reach_fresh _)) as (_ & _ & Hx).
  destruct (Hx 3 ltac:(unfold CPU_NR; lia)) as ([sn|] & b & E & Hr); [|destruct Hr as (_ & Hr & _); vm_compute in Hr; discriminate Hr].
  destruct (disk_alloc_unique 8200 b [sn] Hn Hm) as (_ & _ & Hy); [exact (reach_take _ _ [] 3 (Some sn) b (reach_fresh _) ltac:(unfold CPU_NR; lia) E)|].
  destruct (Hy 5 ltac:(unfold CPU_NR; lia)) as (r & b' & E' & Hr'). exists sn, b, r, b'. split; [exact E|]. split; [exact E'|].
  intros ->. destruct Hr' as [Hr' _]. apply Hr'. constructor.
Defined.

Lemma disk_free_lifo_witness :
  exists b', __rdfs_free_a_disk_block (mk_bdev 513 1025 ∅) 3 5 = Ret b' /\ disk_inv b' [].
Proof.
  destruct (disk_free_lifo (mk_bdev 513 1025 ∅) 3 5 []) as (b' & E1 & Hi' & _).
  - assert (Hp : pooled (mk_bdev 513 1025 ∅) = []) by (vm_compute; reflexivity).
    split; [|reflexivity|vm_compute; congruence|rewrite Hp; repeat constructor; set_solver|repeat constructor; vm_compute; congruence].
    split; [|split; cbn; lia|rewrite Hp; constructor|rewrite Hp; constructor].
    intros cpu _. vm_compute. repeat split; congruence.
  - unfold CPU_NR. lia.
  - vm_compute. reflexivity.
  - exists b'. split; [exact E1|exact Hi'].
Defined.

Lemma disk_alloc_last_batch_witness :
  exists b', __rdfs_alloc_a_disk_block (mk_bdev 513 1024 ∅) 0 = Ret (Some 1024, b').
Proof.
  destruct (disk_alloc_last_batch (mk_bdev 513 1024 ∅) 0) as (b' & E & _);
    [cbn; lia|cbn; lia|reflexivity|vm_compute; repeat split; congruence|reflexivity|reflexivity|].
  exists b'. exact E.
Defined.

Lemma reserved_refill_loses_witness :
  exists b', __rdfs_alloc_a_disk_block
    (mk_bdev 513 1024 {[CPU_NR := mk_bpool 1 DEFAYLT_CAPACITY {[0 := 77]}]}) 0 = Ret (Some 0, b').
Proof.
  destruct (reserved_refill_loses (mk_bdev 513 1024 {[CPU_NR := mk_bpool 1 DEFAYLT_CAPACITY {[0 := 77]}]})
    0 77) as (b' & E & _);
    [unfold CPU_NR; lia|vm_compute; repeat split; congruence|reflexivity|reflexivity|].
  exists b'. exact E.
Defined.
