(* ===== verification/Pgtable.v ===== *)
(** * File page tables (pgtable.c, inode.c, nvmalloc.c)

    A file's blocks are found through a three-level table of pages hanging off
    its inode.  The file models building it ([rdfs_init_pg_table]), adding a
    block ([rdfs_insert_page]), finding one ([rdfs_find_data_block]), freeing the
    whole table ([rdfs_rm_pg_table]), and entering it into the kernel's own
    table ([nvmap], [unnvmap]), and relates the table to a map from block
    numbers to entries. *)

From S2P Require Import Prelude Mem Layout FreeList Balloc Pages Demo Vfs Bdev.

Section pgtable.
Context `{!KernelPg} (sbi : rdfs_sb_info) (cpu : Z).

Definition rdfs_pud_alloc_one (m : mem) : Z * mem := rdfs_get_zeroed_page sbi m cpu.
Definition rdfs_pmd_alloc_one (m : mem) : Z * mem := rdfs_get_zeroed_page sbi m cpu.
Definition rdfs_pte_alloc_one (m : mem) : Z * mem := rdfs_get_zeroed_page sbi m cpu.

Definition rdfs_pud_free (m : mem) (pud : Z) : mem := rdfs_free_block sbi m (rdfs_pa sbi pud).
Definition rdfs_pmd_free (m : mem) (pmd : Z) : mem := rdfs_free_block sbi m (rdfs_pa sbi pmd).
Definition rdfs_pte_free (m : mem) (pte : Z) : mem := rdfs_free_block sbi m (rdfs_pa sbi pte).

Definition __rdfs_pmd_alloc (m : mem) (pud : Z) : Z * mem :=
  let '(new, m) := rdfs_pmd_alloc_one m in
  if new =? 0 then (- ENOMEM, m)
  else if entry_present (ld 8 m pud) then (0, rdfs_pmd_free m new)
  else (0, rdfs_set_pud sbi m pud new).

Definition __rdfs_pte_alloc (m : mem) (pmd : Z) : Z * mem :=
  let '(new, m) := rdfs_pte_alloc_one m in
  if new =? 0 then (- ENOMEM, m)
  else if entry_present (ld 8 m pmd) then (0, rdfs_pte_free m new)
  else (0, rdfs_set_pmd sbi m pmd new).

(** while (i++ < nr) pud++ *)
Definition rdfs_pud_alloc (m : mem) (ino offset : Z) : Z :=
  let nr := s32 (Z.shiftr offset PUD_SHIFT) in
  rdfs_get_pud sbi m ino + 8 * Z.max 0 nr.

(** An address of the directory area. *)
Definition in_dir_area (addr : Z) : bool :=
  (RDFS_START <=? addr) && (u64 (addr + MAX_DIR_SIZE - 1) <? RDFS_START + DIR_AREA_SIZE).

(** An address of the file area. *)
Definition in_file_area (addr : Z) : bool :=
  (RDFS_START + DIR_AREA_SIZE <=? addr) && (addr <? RDFS_END).

Definition rdfs_pmd_alloc (m : mem) (pud addr : Z) : Z * mem :=
  if in_dir_area addr then (rdfs_get_pmd sbi m pud, m)
  else if entry_none (ld 8 m pud) then
    let '(err, m) := __rdfs_pmd_alloc m pud in
    if negb (err =? 0) then (0, m) else (rdfs_pmd_offset sbi m pud addr, m)
  else (rdfs_pmd_offset sbi m pud addr, m).

Definition rdfs_pte_alloc (m : mem) (pmd addr : Z) : Z * mem :=
  if entry_none (ld 8 m pmd) then
    let '(err, m) := __rdfs_pte_alloc m pmd in
    if negb (err =? 0) then (0, m) else (rdfs_pte_offset sbi m pmd addr, m)
  else (rdfs_pte_offset sbi m pmd addr, m).

Definition rdfs_init_pg_table (m : mem) (ino : Z) : Z * mem :=
  let ni := get_rdfs_inode m sbi ino in
  let '(pud, m) := rdfs_pud_alloc_one m in
  let '(pmd, m) := rdfs_pmd_alloc_one m in
  let '(pte, m) := rdfs_pte_alloc_one m in
  if (pud =? 0) || (pmd =? 0) || (pte =? 0) then (- PGFAILD, m)
  else
    let m := rdfs_set_pmd sbi m pmd pte in
    let m := rdfs_set_pud sbi m pud pmd in
    (0, st 8 m (ni + inode_off.i_pg_addr) (rdfs_pa sbi pud)).

(** ** The kernel's page table

    The entries of init_mm (or of the caller's mm) at the two levels the code
    writes, by address range: one pud entry per GiB, one pmd entry per 2 MiB.
    The code passes current->mm in some calls and init_mm in others; the addresses
    lie in the kernel's part of the address space, whose upper tables all mms
    share, so one table stands for both.
    [pud_alloc_ok]: pud_alloc finds or makes the entry of an address. *)
Record kmm := mk_kmm { kpud : gmap Z Z; kpmd : gmap Z Z }.

Context (pud_alloc_ok : Z -> bool).

Definition PUD_SIZE : Z := 2 ^ 30.

(** pud_addr_end of the kernel headers *)
Definition pud_addr_end (addr end_ : Z) : Z :=
  let boundary := Z.land (u64 (addr + PUD_SIZE)) (2 ^ 64 - 2 ^ 30) in
  if u64 (boundary - 1) <? u64 (end_ - 1) then boundary else end_.

Definition nvmap_pmd (km : kmm) (addr ppmd : Z) : Z * kmm :=
  if addr =? 0 then (-1, km)
  else if negb (pud_alloc_ok addr) then (- ENOMEM, km)
  else (0, mk_kmm (<[addr / PUD_SIZE := Z.lor (rdfs_pa sbi ppmd) PAGE_TABLE]> (kpud km)) (kpmd km)).

(** Without a pud entry, pmd_alloc dereferences NULL. *)
Definition nvmap_dir (m : mem) (km : kmm) (addr ppud : Z) : outcome (Z * kmm) :=
  if negb (pud_alloc_ok addr) then Oops
  else
    let pte := rdfs_get_pte sbi m (rdfs_get_pmd sbi m ppud) in
    Ret (0, mk_kmm (kpud km)
              (<[addr / MAX_DIR_SIZE := Z.lor (rdfs_pa sbi pte) PAGE_TABLE]> (kpmd km))).

(** do { ... } while (!pud_none( *ppud)), without a bound.  A file's area has 32
    entries and a table page 512: the fuel of 512 turns is only used up by a table
    page that is full, where the code would read on behind it. *)
Fixpoint nvmap_file_loop (fuel : nat) (m : mem) (km : kmm) (addr end_ ppud : Z) : Z * kmm :=
  match fuel with
  | O => (0, km)
  | S fuel' =>
      if negb (pud_alloc_ok addr) then (- ENOMEM, km)
      else
        let pmd := rdfs_get_pmd sbi m ppud in
        let km := mk_kmm (<[addr / PUD_SIZE := Z.lor (rdfs_pa sbi pmd) PAGE_TABLE]> (kpud km)) (kpmd km) in
        if entry_none (ld 8 m (ppud + 8)) then (0, km)
        else nvmap_file_loop fuel' m km (pud_addr_end addr end_) end_ (ppud + 8)
  end.

Definition nvmap_file (m : mem) (km : kmm) (addr ppud : Z) : Z * kmm :=
  let end_ := u64 (addr + MAX_FILE_SIZE - 1) in
  if (addr =? 0) || (ppud =? 0) then (- EINVAL, km)
  else nvmap_file_loop 512 m km addr end_ ppud.

Definition nvmap (m : mem) (km : kmm) (addr ppud : Z) : outcome (Z * kmm) :=
  if (addr =? 0) || (ppud =? 0) then Ret (-1, km)
  else if in_dir_area addr then nvmap_dir m km addr ppud
  else if in_file_area addr then Ret (nvmap_file m km addr ppud)
  else Ret (-1, km).

Fixpoint unnvmap_file_loop (fuel : nat) (m : mem) (km : kmm) (addr end_ ppud : Z) : Z * kmm :=
  match fuel with
  | O => (0, km)
  | S fuel' =>
      if entry_none (ld 8 m ppud) then (0, km)
      else
        let km := mk_kmm (delete (addr / PUD_SIZE) (kpud km)) (kpmd km) in
        unnvmap_file_loop fuel' m km (pud_addr_end addr end_) end_ (ppud + 8)
  end.

Definition unnvmap_file (m : mem) (km : kmm) (addr ppud : Z) : Z * kmm :=
  let end_ := u64 (addr + MAX_FILE_SIZE - 1) in
  if ppud =? 0 then (0, km)
  else if addr =? 0 then (-1, km)
  else unnvmap_file_loop 512 m km addr end_ ppud.

Definition unnvmap_dir (km : kmm) (addr : Z) : Z * kmm :=
  (0, mk_kmm (kpud km) (delete (addr / MAX_DIR_SIZE) (kpmd km))).

Definition unnvmap (m : mem) (km : kmm) (addr ppud : Z) : Z * kmm :=
  if ppud =? 0 then (0, km)
  else if addr =? 0 then (-1, km)
  else if in_dir_area addr then unnvmap_dir km addr
  else if in_file_area addr then unnvmap_file m km addr ppud
  else (-1, km).

(** ** Adding and finding blocks *)

(** The new block's number is i_blocks - 1. *)
Definition rdfs_insert_page (m : mem) (km : kmm) (inode_ : inode) (phys : Z) : Z * mem * kmm :=
  let ino := i_ino inode_ in
  let addr := ni_virt_addr inode_ in
  let offset := u64 (Z.shiftl (i_blocks inode_ - 1) PAGE_SHIFT) in
  let new_addr := u64 (addr + offset) in
  let pud := rdfs_pud_alloc m ino offset in
  if pud =? 0 then (-1, m, km)
  else
    let '(pmd, m, km) :=
      if entry_none (ld 8 m pud) then
        let '(pmd, m) := rdfs_pmd_alloc m pud new_addr in
        let '(_, km) := nvmap_pmd km new_addr (rdfs_get_pmd sbi m pud) in
        (pmd, m, km)
      else
        let '(pmd, m) := rdfs_pmd_alloc m pud new_addr in (pmd, m, km) in
    if pmd =? 0 then (-1, m, km)
    else
      let '(pte, m) := rdfs_pte_alloc m pmd new_addr in
      if pte =? 0 then (-1, m, km) else (0, rdfs_set_pte m pte phys, km).

(** The NULL tests are on rdfs_va of the entry. *)
Definition rdfs_find_data_block (m : mem) (ino file_blocknr : Z) : Z :=
  let first_num := Z.land (Z.shiftr (Z.shiftr file_blocknr 9) 9) 511 in
  let second_num := Z.land (Z.shiftr file_blocknr 9) 511 in
  let third_num := Z.land file_blocknr 511 in
  let ni := get_rdfs_inode m sbi ino in
  let first_phys := ld 8 m (ni + inode_off.i_pg_addr) in
  let first_lev := rdfs_va sbi first_phys in
  if first_lev =? 0 then 0
  else
    let second_phys := Z.land (ld 8 m (first_lev + 8 * first_num)) PAGE_MASK in
    let second_lev := rdfs_va sbi second_phys in
    if second_lev =? 0 then 0
    else
      let third_phys := Z.land (ld 8 m (second_lev + 8 * second_num)) PAGE_MASK in
      let third_lev := rdfs_va sbi third_phys in
      if third_lev =? 0 then 0 else ld 8 m (third_lev + 8 * third_num).

(** ** Removal

    Entries without flag bits are disk sectors and go back to their device;
    [disks] are the devices' descriptors. *)
Definition free_entry (m : mem) (disks : gmap Z bdev_des) (pte : Z) : outcome (mem * gmap Z bdev_des) :=
  if pte_is_sn m pte then
    let sn := get_sn_from_pte m pte in
    let bdev_id := get_bdev_id_from_pte m pte in
    match disks !! bdev_id with
    | Some b => b ← __rdfs_free_a_disk_block b cpu sn; Ret (m, <[bdev_id := b]> disks)
    | None => Oops
    end
  else Ret (rdfs_free_block sbi m (rdfs_get_phy_from_pte m pte), disks).

(** while (!pte_none( *pte) && cnt < PTRS_PER_PTE), over [512 - cnt] entries; the
    entry behind the last one is read before the count is tested. *)
Fixpoint rm_pte_loop (n : nat) (m : mem) (disks : gmap Z bdev_des) (pte : Z)
  : outcome (mem * gmap Z bdev_des) :=
  match n with
  | O => Ret (m, disks)
  | S n' =>
      if entry_none (ld 8 m pte) then Ret (m, disks)
      else '(m, disks) ← free_entry m disks pte; rm_pte_loop n' m disks (pte + 8)
  end.

Definition rdfs_rm_pte_range (m : mem) (disks : gmap Z bdev_des) (pmd : Z)
  : outcome (mem * gmap Z bdev_des) :=
  let p := rdfs_get_pte sbi m pmd in
  '(m, disks) ← rm_pte_loop (Z.to_nat PTRS_PER_TABLE) m disks p;
  Ret (rdfs_pte_free m p, disks).

Fixpoint rm_pmd_loop (n : nat) (m : mem) (disks : gmap Z bdev_des) (pmd : Z)
  : outcome (mem * gmap Z bdev_des) :=
  match n with
  | O => Ret (m, disks)
  | S n' =>
      if entry_none (ld 8 m pmd) then Ret (m, disks)
      else '(m, disks) ← rdfs_rm_pte_range m disks pmd; rm_pmd_loop n' m disks (pmd + 8)
  end.

Definition rdfs_rm_pmd_range (m : mem) (disks : gmap Z bdev_des) (pud : Z)
  : outcome (mem * gmap Z bdev_des) :=
  let p := rdfs_get_pmd sbi m pud in
  '(m, disks) ← rm_pmd_loop (Z.to_nat PTRS_PER_TABLE) m disks p;
  Ret (rdfs_pmd_free m p, disks).

Fixpoint rm_pud_loop (n : nat) (m : mem) (disks : gmap Z bdev_des) (pud : Z)
  : outcome (mem * gmap Z bdev_des) :=
  match n with
  | O => Ret (m, disks)
  | S n' =>
      if entry_none (ld 8 m pud) then Ret (m, disks)
      else '(m, disks) ← rdfs_rm_pmd_range m disks pud; rm_pud_loop n' m disks (pud + 8)
  end.

Definition rdfs_rm_pg_table (m : mem) (disks : gmap Z bdev_des) (ino : Z)
  : outcome (mem * gmap Z bdev_des) :=
  let ni := get_rdfs_inode m sbi ino in
  let p := rdfs_get_pud sbi m ino in
  if p =? 0 then Oops else
  '(m, disks) ← rm_pud_loop (Z.to_nat PTRS_PER_TABLE) m disks p;
  let m := rdfs_pud_free m p in
  Ret (st 8 m (ni + inode_off.i_pg_addr) 0, disks).
End pgtable.

(** ** Representation *)

(** The table pages: the top page, one page per used pud entry, one per used pmd
    entry (by pud and pmd index). *)
Record ptree := mk_ptree { pt_top : Z; pt_pmd : gmap Z Z; pt_pte : gmap (Z * Z) Z }.

Definition tables (t : ptree) : list Z :=
  pt_top t :: (map_to_list (pt_pmd t)).*2 ++ (map_to_list (pt_pte t)).*2.

(** Indices of a block number. *)
Definition idx1 (b : Z) : Z := b / 2 ^ 18.
Definition idx2 (b : Z) : Z := b / 2 ^ 9 mod 2 ^ 9.
Definition idx3 (b : Z) : Z := b mod 2 ^ 9.
Definition blocknr (i j k : Z) : Z := i * 2 ^ 18 + j * 2 ^ 9 + k.

Section rep.
Context `{!KernelPg} (sbi : rdfs_sb_info).

Definition dir_entry (o : option Z) : Z := match o with Some q => Z.lor q PAGE_TABLE | None => 0 end.

(** The memory holds table [t] of inode [ino], with entries [f] by block number. *)
Record pt_rep (m : mem) (ino : Z) (t : ptree) (f : gmap Z Z) : Prop := {
  pt_root : ld 8 m (get_rdfs_inode m sbi ino + inode_off.i_pg_addr) = pt_top t;
  pt_l1 i : 0 <= i < 512 -> ld 8 m (rdfs_va sbi (pt_top t) + 8 * i) = dir_entry (pt_pmd t !! i);
  pt_l2 i q j : pt_pmd t !! i = Some q -> 0 <= j < 512 ->
    ld 8 m (rdfs_va sbi q + 8 * j) = dir_entry (pt_pte t !! (i, j));
  pt_l3 i j r k : pt_pte t !! (i, j) = Some r -> 0 <= k < 512 ->
    ld 8 m (rdfs_va sbi r + 8 * k) = default 0 (f !! blocknr i j k)
}.

(** Every used entry hangs off a used one. *)
Record pt_wf (t : ptree) (f : gmap Z Z) : Prop := {
  wf_pmd i : is_Some (pt_pmd t !! i) -> 0 <= i < 512;
  wf_pte i j : is_Some (pt_pte t !! (i, j)) -> 0 <= j < 512 /\ is_Some (pt_pmd t !! i);
  wf_ent b : is_Some (f !! b) -> is_Some (pt_pte t !! (idx1 b, idx2 b))
}.

Context {free : mem -> list Z -> Prop} {foot : list Z -> Z -> Prop} {page_ok meta : Z -> Prop}.
Context `{!PageAlloc sbi free foot page_ok meta}.

(** A file's table in a filesystem with free pages [l]. *)
Record pt_state (m : mem) (l : list Z) (ino : Z) (t : ptree) (f : gmap Z Z) : Prop := {
  st_free : free m l;
  st_slot a : get_rdfs_inode m sbi ino <= a < get_rdfs_inode m sbi ino + RDFS_INODE_SIZE -> meta a;
  st_rep : pt_rep m ino t f;
  st_wf : pt_wf t f;
  st_pages : Forall page_ok (tables t);
  st_nodup : NoDup (tables t ++ l)
}.

(** ** Entries *)

Lemma lor_flags q w : q mod PAGE_SIZE = 0 -> 0 <= w < 2 ^ 12 -> Z.lor q w = q + w.
Proof.
  intros Hq Hw. replace q with (q / 2 ^ 12 * 2 ^ 12) by (unfold PAGE_SIZE in Hq; zdm).
  apply lor_disjoint_add; lia.
Qed.

Lemma mask_entry q w n : q mod PAGE_SIZE = 0 -> 0 <= w < 2 ^ 12 -> 52 <= n -> 0 <= q < 2 ^ 52 ->
  Z.land (q + w) (2 ^ n - 2 ^ 12) = q.
Proof.
  intros Hq Hw Hn Hr. rewrite land_mask_field by lia.
  assert (2 ^ 52 <= 2 ^ n) by (apply Z.pow_le_mono_r; lia).
  rewrite Z.mod_small by (unfold PAGE_SIZE in Hq; zdm). unfold PAGE_SIZE in Hq. zdm.
Qed.

Lemma table_entry q : page_ok q ->
  dir_entry (Some q) = q + PAGE_TABLE /\ 0 < q + PAGE_TABLE < 2 ^ 64 /\
  Z.land (q + PAGE_TABLE) PAGE_MASK = q /\ Z.land (q + PAGE_TABLE) 0x7ffffffffffff000 = q.
Proof.
  intros Hq. destruct (page_phys sbi q Hq) as [Hr Hm]. pose proof PAGE_TABLE_low as Hp.
  cbn [dir_entry]. rewrite lor_flags by (done || lia). split; [done|]. split; [lia|].
  split; [apply (mask_entry q PAGE_TABLE 64); done || lia|apply (mask_entry q PAGE_TABLE 63); done || lia].
Qed.

Lemma blocknr_idx b : 0 <= b -> blocknr (idx1 b) (idx2 b) (idx3 b) = b.
Proof. intros. unfold blocknr, idx1, idx2, idx3. zdm. Qed.

Lemma idx_blocknr i j k : 0 <= j < 512 -> 0 <= k < 512 ->
  idx1 (blocknr i j k) = i /\ idx2 (blocknr i j k) = j /\ idx3 (blocknr i j k) = k.
Proof. intros. unfold blocknr, idx1, idx2, idx3. repeat split; zdm. Qed.

Lemma blocknr_inj i j k i' j' k' : 0 <= j < 512 -> 0 <= k < 512 -> 0 <= j' < 512 -> 0 <= k' < 512 ->
  blocknr i j k = blocknr i' j' k' -> i = i' /\ j = j' /\ k = k'.
Proof. intros. unfold blocknr in *. lia. Qed.

(** ** Framing *)

Lemma table_in t q : q ∈ tables t <->
  q = pt_top t \/ (exists i, pt_pmd t !! i = Some q) \/ (exists ij, pt_pte t !! ij = Some q).
Proof.
  unfold tables. rewrite elem_of_cons, elem_of_app, !list_elem_of_fmap.
  setoid_rewrite elem_of_map_to_list'. split.
  - intros [?|[([i x] & -> & ?)|([i x] & -> & ?)]]; eauto.
  - intros [?|[[i ?]|[ij ?]]]; [by left|right; left; by exists (i, q)|right; right; by exists (ij, q)].
Qed.

(** The table is unchanged when its pages and the root word are. *)
Lemma pt_frame m m' ino t f :
  get_rdfs_inode m' sbi ino = get_rdfs_inode m sbi ino ->
  ld 8 m' (get_rdfs_inode m sbi ino + inode_off.i_pg_addr)
    = ld 8 m (get_rdfs_inode m sbi ino + inode_off.i_pg_addr) ->
  (forall q a, q ∈ tables t -> in_page sbi q a -> ldb m' a = ldb m a) ->
  pt_rep m ino t f -> pt_rep m' ino t f.
Proof.
  intros Hi Hr Hp [H1 H2 H3 H4].
  assert (Hw : forall q i, q ∈ tables t -> 0 <= i < 512 ->
    ld 8 m' (rdfs_va sbi q + 8 * i) = ld 8 m (rdfs_va sbi q + 8 * i)).
  { intros q i Hq Hi'. apply ld_ext. intros k Hk. apply (Hp q); [done|]. unfold in_page, PAGE_SIZE. lia. }
  split.
  - by rewrite Hi, Hr.
  - intros i Hb. rewrite Hw; [by apply H2|apply table_in; by left|done].
  - intros i q j Hq Hb. rewrite Hw; [by apply H3|apply table_in; eauto|done].
  - intros i j r k Hq Hb. rewrite Hw; [by apply H4|apply table_in; eauto|done].
Qed.

(** The bytes that building a table does not touch: outside the table's pages,
    the free pages and the allocator's own words. *)
Definition untouched (t : ptree) (l : list Z) (a : Z) : Prop :=
  ~ foot l a /\ (forall q, q ∈ tables t \/ q ∈ l -> ~ in_page sbi q a).

Lemma untouched_mono t l t' l' a :
  (forall b, foot l' b -> foot l b) -> (forall q, q ∈ tables t' \/ q ∈ l' -> q ∈ tables t \/ q ∈ l) ->
  untouched t l a -> untouched t' l' a.
Proof using Type. intros H1 H2 [H3 H4]. split; [auto|]. intros q Hq. by apply H4, H2. Qed.

(** A page outside the table and the free list is untouched. *)
Lemma untouched_page m t l p a : free m l -> Forall page_ok (tables t) -> page_ok p -> p ∉ tables t -> p ∉ l ->
  in_page sbi p a -> untouched t l a.
Proof.
  intros Hf Ht Hp H1 H2 Ha. destruct (free_pages sbi m l Hf) as [Hl _]. split; [by apply (foot_page sbi p)|].
  intros q Hq Hqa. rewrite Forall_forall in Ht, Hl.
  assert (page_ok q) by (destruct Hq; auto). assert (p = q) as -> by (by eapply (page_disjoint sbi)). by destruct Hq.
Qed.

(** Allocating a page keeps the table. *)
Lemma pt_get_page m p l ino t f cpu :
  pt_state m (p :: l) ino t f ->
  exists m', rdfs_get_zeroed_page sbi m cpu = (rdfs_va sbi p, m') /\ pt_state m' l ino t f /\
    page_ok p /\ (p ∉ tables t) /\ (p ∉ l) /\
    (forall i, 0 <= i < 512 -> ld 8 m' (rdfs_va sbi p + 8 * i) = 0) /\
    (forall a, untouched t (p :: l) a -> ldb m' a = ldb m a).
Proof.
  intros [Hf Hs Hr Hw Hp Hn]. destruct (get_page_ok sbi m cpu p l Hf) as (m' & E & Hf' & Hz & Hk).
  destruct (free_pages sbi m _ Hf) as [Hl _]. inversion Hl as [|? ? Hpp Hl']; subst.
  pose proof Hn as (Hn1 & Hn2 & Hn3)%NoDup_app.
  assert (Hpt : p ∉ tables t) by (intros Hx; apply (Hn2 p Hx); constructor).
  assert (Ei : get_rdfs_inode m' sbi ino = get_rdfs_inode m sbi ino) by (by eapply free_inode).
  exists m'. split; [done|]. split; [split; [done|by rewrite Ei| |done|done|]|].
  - apply (pt_frame m); [done| | |done].
    + apply ld_ext. intros k Hk'. assert (meta (get_rdfs_inode m sbi ino + inode_off.i_pg_addr + k)).
      { apply Hs. unfold inode_off.i_pg_addr, RDFS_INODE_SIZE. lia. }
      apply Hk; [by eapply meta_foot|by eapply meta_page].
    + intros q a Hq Ha. rewrite Forall_forall in Hp. apply Hk.
      * apply (foot_page sbi q); [done|by apply Hp|by apply Hn2|done].
      * intros Ha'. apply Hpt. by rewrite (page_disjoint sbi p q a Hpp (Hp q Hq) Ha' Ha).
  - apply NoDup_app. split; [done|]. inversion Hn3; subst. split; [|done]. intros x Hx Hx'.
    apply (Hn2 x Hx). by constructor.
  - inversion Hn3; subst. split; [done|]. split; [done|]. split; [done|]. split.
    + intros i Hi. apply ld_zero. intros b Hb. apply Hz. unfold in_page, PAGE_SIZE. lia.
    + intros a [Ha1 Ha2]. apply Hk; [done|]. apply Ha2. right. constructor.
Qed.

(** A store into a page that is not free keeps the free list. *)
Lemma free_st_page m l q a v : free m l -> page_ok q -> q ∉ l ->
  rdfs_va sbi q <= a -> a + 8 <= rdfs_va sbi q + PAGE_SIZE -> free (st 8 m a v) l.
Proof.
  intros Hf Hq Hn H1 H2. destruct (free_pages sbi m l Hf) as [Hl _].
  apply (free_ext sbi m); [|done]. intros b Hb. rewrite ldb_st, decide_False; [done|].
  intros Hr. apply (foot_page sbi q l b); try done. unfold in_page. lia.
Qed.

(** Loads of one table word after a store to another. *)
Lemma ld_table_ne m q q' i i' v : page_ok q -> page_ok q' -> 0 <= i < 512 -> 0 <= i' < 512 ->
  q <> q' \/ i <> i' ->
  ld 8 (st 8 m (rdfs_va sbi q + 8 * i) v) (rdfs_va sbi q' + 8 * i') = ld 8 m (rdfs_va sbi q' + 8 * i').
Proof.
  intros Hq Hq' Hi Hi' Hne. apply ld_ext. intros k Hk. rewrite ldb_st, decide_False; [done|].
  intros Hr. assert (q = q') as ->.
  { apply (page_disjoint sbi q q' (rdfs_va sbi q' + 8 * i' + k)); try done; unfold in_page, PAGE_SIZE; lia. }
  destruct Hne as [Hne|Hne]; [done|lia].
Qed.

Lemma ld_root_ne m q i v a : page_ok q -> 0 <= i < 512 ->
  (forall b, a <= b < a + 8 -> meta b) ->
  ld 8 (st 8 m (rdfs_va sbi q + 8 * i) v) a = ld 8 m a.
Proof.
  intros Hq Hi Hm. apply ld_ext. intros k Hk. rewrite ldb_st, decide_False; [done|].
  intros Hr. apply (meta_page sbi q (a + k) Hq); [apply Hm; lia|]. unfold in_page, PAGE_SIZE. lia.
Qed.

(** What every store into a table page keeps. *)
Lemma st_table_common m l ino t f q i v :
  pt_state m l ino t f -> page_ok q -> q ∉ l -> 0 <= i < 512 ->
  let m' := st 8 m (rdfs_va sbi q + 8 * i) v in
  free m' l /\ get_rdfs_inode m' sbi ino = get_rdfs_inode m sbi ino /\
  ld 8 m' (get_rdfs_inode m sbi ino + inode_off.i_pg_addr) = pt_top t.
Proof.
  intros [Hf Hs Hr Hw Hp Hn] Hq Hql Hi m'.
  assert (Hf' : free m' l) by (apply (free_st_page m l q); try done; unfold PAGE_SIZE; lia).
  split; [done|]. split; [by eapply free_inode|].
  unfold m'. rewrite ld_root_ne; [apply Hr|done|done|]. intros b Hb. apply Hs.
  unfold inode_off.i_pg_addr, RDFS_INODE_SIZE in *. lia.
Qed.

Lemma page_of t q : Forall page_ok (tables t) -> q ∈ tables t -> page_ok q.
Proof using Type. intros Hp. rewrite Forall_forall in Hp. apply Hp. Qed.

(** Distinct table pages of a well-formed tree. *)
Lemma tables_distinct t : NoDup (tables t) ->
  (forall i q, pt_pmd t !! i = Some q -> q <> pt_top t) /\
  (forall ij r, pt_pte t !! ij = Some r -> r <> pt_top t) /\
  (forall i i' q, pt_pmd t !! i = Some q -> pt_pmd t !! i' = Some q -> i = i') /\
  (forall ij ij' r, pt_pte t !! ij = Some r -> pt_pte t !! ij' = Some r -> ij = ij') /\
  (forall i ij q, pt_pmd t !! i = Some q -> pt_pte t !! ij = Some q -> False).
Proof using Type.
  unfold tables. intros [Ht (H1 & H2 & H3)%NoDup_app]%NoDup_cons.
  assert (Hin1 : forall i q, pt_pmd t !! i = Some q -> q ∈ (map_to_list (pt_pmd t)).*2)
    by (intros i q Hq; apply (list_elem_of_fmap_2 snd _ (i, q)); by apply elem_of_map_to_list).
  assert (Hin2 : forall ij q, pt_pte t !! ij = Some q -> q ∈ (map_to_list (pt_pte t)).*2)
    by (intros ij q Hq; apply (list_elem_of_fmap_2 snd _ (ij, q)); by apply elem_of_map_to_list).
  assert (Hinj : forall {K} `{Countable K} (mp : gmap K Z) k k' q,
    NoDup (map_to_list mp).*2 -> mp !! k = Some q -> mp !! k' = Some q -> k = k').
  { clear. intros K ? ? mp k k' q Hn H1 H2. destruct (decide (k = k')) as [|Hne]; [done|exfalso].
    rewrite <- (insert_id mp k q H1), <- (insert_delete_eq mp k q) in Hn.
    rewrite (map_to_list_insert _ k q) in Hn by apply lookup_delete_eq.
    cbn in Hn. apply NoDup_cons in Hn as [Hn _]. apply Hn.
    apply (list_elem_of_fmap_2 snd _ (k', q)). apply elem_of_map_to_list. by rewrite lookup_delete_ne. }
  split; [|split; [|split; [|split]]].
  - intros i q Hq ->. apply Ht. apply elem_of_app. left. eauto.
  - intros i q Hq ->. apply Ht. apply elem_of_app. right. eauto.
  - intros i i' q. by apply Hinj.
  - intros i i' q. by apply Hinj.
  - intros i ij q Hq Hq'. apply (H2 q); eauto.
Qed.

(** Storing an entry. *)
Lemma pt_store_entry m l ino t f i j r k v :
  pt_state m l ino t f -> pt_pte t !! (i, j) = Some r -> 0 <= k < 512 -> 0 <= v < 2 ^ 64 ->
  pt_state (st 8 m (rdfs_va sbi r + 8 * k) v) l ino t (<[blocknr i j k := v]> f).
Proof.
  intros HS Hr Hk Hv. pose proof HS as [Hf Hs [R0 R1 R2 R3] Hw Hp Hn].
  assert (Hrt : r ∈ tables t) by (apply table_in; eauto). pose proof (page_of t r Hp Hrt) as Hrp.
  apply NoDup_app in Hn as HN. destruct HN as (Hn1 & Hn2 & Hn3).
  destruct (st_table_common m l ino t f r k v HS Hrp (Hn2 r Hrt) Hk) as (Hf' & Ei & Er).
  destruct (tables_distinct t Hn1) as (D1 & D2 & D3 & D4 & D5).
  destruct (wf_pte _ _ Hw i j (mk_is_Some _ _ Hr)) as [Hj _].
  split; [done|by rewrite Ei| | |done|done].
  - split.
    + by rewrite Ei.
    + intros i' Hi'. rewrite ld_table_ne; [by apply R1|done|apply (page_of t); [done|apply table_in; eauto]|done|done|].
      left. by apply (D2 (i, j)).
    + intros i' q j' Hq Hj'. rewrite ld_table_ne; [by apply R2|done|apply (page_of t); [done|apply table_in; eauto]|done|done|].
      left. intros ->. by eapply D5.
    + intros i' j' r' k' Hr' Hk'. destruct (wf_pte _ _ Hw i' j' (mk_is_Some _ _ Hr')) as [Hj' _].
      destruct (decide (blocknr i' j' k' = blocknr i j k)) as [E|E].
      * apply blocknr_inj in E as (-> & -> & ->); try done. rewrite Hr in Hr'. injection Hr' as <-.
        rewrite lookup_insert_eq. by rewrite ld8_st8 by lia.
      * rewrite lookup_insert_ne by congruence.
        rewrite ld_table_ne; [by apply R3|done|apply (page_of t); [done|apply table_in; eauto]|done|done|].
        destruct (decide (r = r')) as [->|]; [right|by left]. intros ->. apply E.
        by injection (D4 _ _ _ Hr Hr') as -> ->.
  - destruct Hw as [W1 W2 W3]. split; [done|done|]. intros b [x Hb].
    apply lookup_insert_Some in Hb as [[<- _]|[_ Hb]]; [|by apply W3].
    destruct (idx_blocknr i j k Hj Hk) as (-> & -> & _). by rewrite Hr.
Qed.

Lemma NoDup_tables_perm t t' p l : tables t' ≡ₚ (p :: tables t) -> (p ∉ tables t) -> (p ∉ l) ->
  Forall page_ok (tables t) -> page_ok p -> NoDup (tables t ++ l) ->
  Forall page_ok (tables t') /\ NoDup (tables t' ++ l).
Proof using Type.
  intros E H1 H2 Hp Hpp Hn. rewrite E. split; [by constructor|].
  apply (NoDup_cons_2 p (tables t ++ l)); [|done]. by apply not_elem_of_app.
Qed.

(** Hanging a zeroed page below the top page. *)
Lemma pt_link_pmd m l ino t f i p :
  pt_state m l ino t f -> page_ok p -> p ∉ tables t -> p ∉ l -> pt_pmd t !! i = None -> 0 <= i < 512 ->
  (forall j, 0 <= j < 512 -> ld 8 m (rdfs_va sbi p + 8 * j) = 0) ->
  pt_state (st 8 m (rdfs_va sbi (pt_top t) + 8 * i) (dir_entry (Some p))) l ino
    (mk_ptree (pt_top t) (<[i := p]> (pt_pmd t)) (pt_pte t)) f.
Proof.
  intros HS Hp Hpt Hpl Hno Hi Hz. pose proof HS as [Hf Hs [R0 R1 R2 R3] Hw Hpg Hn].
  assert (Htt : pt_top t ∈ tables t) by (apply table_in; by left).
  pose proof (page_of t _ Hpg Htt) as Htp. apply NoDup_app in Hn as HN. destruct HN as (Hn1 & Hn2 & _).
  destruct (tables_distinct t Hn1) as (D1 & D2 & D3 & D4 & D5).
  destruct (st_table_common m l ino t f (pt_top t) i (dir_entry (Some p)) HS Htp (Hn2 _ Htt) Hi) as (Hf' & Ei & Er).
  destruct (table_entry p Hp) as (Ee & Hrange & _). set (v := dir_entry (Some p)) in *.
  set (t' := mk_ptree _ _ _).
  destruct (NoDup_tables_perm t t' p l) as [Hpg' Hn']; try done.
  { unfold tables, t'. cbn. rewrite (map_to_list_insert _ i p Hno). cbn. apply Permutation_swap. }
  destruct Hw as [W1 W2 W3].
  split; [done|by rewrite Ei| | |done|done].
  - unfold t'. split; cbn [pt_top pt_pmd pt_pte].
    + by rewrite Ei.
    + intros i' Hi'. destruct (decide (i = i')) as [<-|Hne].
      * rewrite lookup_insert_eq. rewrite ld8_st8 by lia. done.
      * rewrite lookup_insert_ne by done. rewrite ld_table_ne; try done; [by apply R1|by right].
    + intros i' q j Hq Hj. apply lookup_insert_Some in Hq as [[<- <-]|[Hne Hq]].
      * rewrite ld_table_ne; try done; [|left; congruence]. rewrite Hz by done.
        destruct (pt_pte t !! (i, j)) eqn:E; [|done].
        destruct (W2 i j (mk_is_Some _ _ E)) as [_ [x Hx]]. by rewrite Hno in Hx.
      * rewrite ld_table_ne; try done; [by apply R2|by apply (page_of t); [done|apply table_in; eauto]|].
        left. intros E. by apply (D1 i' q).
    + intros i' j r k Hr Hk.
      rewrite ld_table_ne; try done; [by apply R3|by apply (page_of t); [done|apply table_in; eauto]|].
      left. intros E. by apply (D2 (i', j) r).
  - split; cbn; [|intros i' j Hx; destruct (W2 i' j Hx) as [? Hs2]; split; [done|]|done].
    + intros i' [x Hx]. apply lookup_insert_Some in Hx as [[<- _]|[_ Hx]]; [done|]. apply W1. by exists x.
    + rewrite lookup_insert_ne; [done|]. intros <-. destruct Hs2 as [x Hx']. by rewrite Hno in Hx'.
Qed.

(** Hanging a zeroed page below a pmd page. *)
Lemma pt_link_pte m l ino t f i j q p :
  pt_state m l ino t f -> page_ok p -> p ∉ tables t -> p ∉ l ->
  pt_pmd t !! i = Some q -> pt_pte t !! (i, j) = None -> 0 <= j < 512 ->
  (forall k, 0 <= k < 512 -> ld 8 m (rdfs_va sbi p + 8 * k) = 0) ->
  pt_state (st 8 m (rdfs_va sbi q + 8 * j) (dir_entry (Some p))) l ino
    (mk_ptree (pt_top t) (pt_pmd t) (<[(i, j) := p]> (pt_pte t))) f.
Proof.
  intros HS Hp Hpt Hpl Hq Hno Hj Hz. pose proof HS as [Hf Hs [R0 R1 R2 R3] Hw Hpg Hn].
  assert (Hqt : q ∈ tables t) by (apply table_in; eauto).
  pose proof (page_of t _ Hpg Hqt) as Hqp. apply NoDup_app in Hn as HN. destruct HN as (Hn1 & Hn2 & _).
  destruct (tables_distinct t Hn1) as (D1 & D2 & D3 & D4 & D5).
  destruct (st_table_common m l ino t f q j (dir_entry (Some p)) HS Hqp (Hn2 _ Hqt) Hj) as (Hf' & Ei & Er).
  destruct (table_entry p Hp) as (Ee & Hrange & _). set (v := dir_entry (Some p)) in *.
  set (t' := mk_ptree _ _ _).
  destruct (NoDup_tables_perm t t' p l) as [Hpg' Hn']; try done.
  { unfold tables, t'. cbn. rewrite (map_to_list_insert _ (i, j) p Hno). cbn.
    rewrite <- Permutation_middle. apply Permutation_swap. }
  destruct Hw as [W1 W2 W3].
  split; [done|by rewrite Ei| | |done|done].
  - unfold t'. split; cbn [pt_top pt_pmd pt_pte].
    + by rewrite Ei.
    + intros i' Hi'. rewrite ld_table_ne; try done; [by apply R1| |left; by apply (D1 i q)].
      apply (page_of t); [done|apply table_in; by left].
    + intros i' q' j' Hq' Hj'. destruct (decide ((i, j) = (i', j'))) as [[= <- <-]|Hne].
      * rewrite Hq in Hq'. injection Hq' as <-. rewrite lookup_insert_eq. by rewrite ld8_st8 by lia.
      * rewrite lookup_insert_ne by done.
        rewrite ld_table_ne; try done; [by apply R2|by apply (page_of t); [done|apply table_in; eauto]|].
        destruct (decide (q = q')) as [<-|]; [right|by left]. intros ->. apply Hne.
        by rewrite (D3 _ _ _ Hq Hq').
    + intros i' j' r k Hr Hk. apply lookup_insert_Some in Hr as [[[= <- <-] <-]|[Hne Hr]].
      * rewrite ld_table_ne; try done; [|left; intros ->; done]. rewrite Hz by done.
        destruct (f !! blocknr i j k) eqn:E; [|done].
        pose proof (W3 _ (mk_is_Some _ _ E)) as [x Hx].
        destruct (idx_blocknr i j k Hj Hk) as (E1 & E2 & _). rewrite E1, E2, Hno in Hx. done.
      * rewrite ld_table_ne; try done; [by apply R3|by apply (page_of t); [done|apply table_in; eauto]|].
        left. intros ->. by eapply D5.
  - split; cbn; [done| |].
    + intros i' j' [x Hx]. apply lookup_insert_Some in Hx as [[[= <- <-] _]|[_ Hx]]; [by rewrite Hq|].
      apply W2. by exists x.
    + intros b Hb. specialize (W3 b Hb). destruct (decide ((i, j) = (idx1 b, idx2 b))) as [<-|].
      * by rewrite lookup_insert_eq.
      * by rewrite lookup_insert_ne.
Qed.

(** ** Finding a block *)

Lemma land511 x : Z.land x 511 = x mod 2 ^ 9.
Proof using Type. apply (land_ones_mod x 9). lia. Qed.

Lemma va_nz p : page_ok p -> (rdfs_va sbi p =? 0) = false.
Proof. intros Hp. pose proof (page_virt sbi p Hp). lia. Qed.

Lemma find_entry m l ino t f i j r k b :
  pt_state m l ino t f -> pt_pte t !! (i, j) = Some r -> 0 <= k < 512 -> b = blocknr i j k ->
  rdfs_find_data_block sbi m ino b = default 0 (f !! b).
Proof.
  intros HS Hr Hk ->. pose proof HS as [Hf Hs [R0 R1 R2 R3] [W1 W2 W3] Hp Hn].
  destruct (W2 i j (mk_is_Some _ _ Hr)) as [Hj [q Hq]]. pose proof (W1 i (mk_is_Some _ _ Hq)) as Hi.
  destruct (idx_blocknr i j k Hj Hk) as (E1 & E2 & E3).
  assert (Hqp : page_ok q) by (apply (page_of t); [done|apply table_in; eauto]).
  assert (Hrp : page_ok r) by (apply (page_of t); [done|apply table_in; eauto]).
  unfold rdfs_find_data_block. rewrite R0. rewrite va_nz by (apply (page_of t); [done|apply table_in; by left]).
  rewrite !land511, !shiftr_div by lia. rewrite Z.div_div by lia. change (2 ^ 9 * 2 ^ 9) with (2 ^ 18).
  fold (idx1 (blocknr i j k)) (idx2 (blocknr i j k)) (idx3 (blocknr i j k)). rewrite E1, E2, E3.
  rewrite (Z.mod_small i) by lia. rewrite R1, Hq by done.
  destruct (table_entry q Hqp) as (-> & _ & -> & _). rewrite va_nz by done.
  rewrite (R2 i q j Hq Hj), Hr. destruct (table_entry r Hrp) as (-> & _ & -> & _).
  rewrite va_nz by done. by rewrite (R3 i j r k Hr Hk).
Qed.

Lemma find_block m l ino t f b v :
  pt_state m l ino t f -> 0 <= b -> f !! b = Some v -> rdfs_find_data_block sbi m ino b = v.
Proof.
  intros HS Hb Hv. destruct (wf_ent _ _ (st_wf _ _ _ _ _ HS) b (mk_is_Some _ _ Hv)) as [r Hr].
  rewrite (find_entry m l ino t f (idx1 b) (idx2 b) r (idx3 b) b HS Hr).
  - by rewrite Hv.
  - unfold idx3. zdm.
  - by rewrite blocknr_idx.
Qed.

(** ** Adding a block *)

(** A file's address area and a block number in it. *)
Record file_addr (va b : Z) : Prop := {
  fa_area : RDFS_START + DIR_AREA_SIZE <= va /\ va + MAX_FILE_SIZE <= RDFS_END;
  fa_align : va mod MAX_FILE_SIZE = 0;
  fa_block : 0 <= b < MAX_FILE_SIZE / PAGE_SIZE
}.

Lemma file_index va b : file_addr va b ->
  u64 (Z.shiftl b PAGE_SHIFT) = b * PAGE_SIZE /\ s32 (Z.shiftr (b * PAGE_SIZE) PUD_SHIFT) = idx1 b /\
  0 <= idx1 b < 32 /\ u64 (va + b * PAGE_SIZE) = va + b * PAGE_SIZE /\
  in_dir_area (va + b * PAGE_SIZE) = false /\
  pmd_index (va + b * PAGE_SIZE) = idx2 b /\ pte_index (va + b * PAGE_SIZE) = idx3 b.
Proof using Type.
  intros [[H1 H2] H3 H4]. rewrite pmd_index_spec, pte_index_spec.
  unfold PAGE_SHIFT, PUD_SHIFT, PAGE_SIZE, MAX_FILE_SIZE, in_dir_area, RDFS_START, RDFS_END, DIR_AREA_SIZE,
    MAX_DIR_SIZE, idx1, idx2, idx3 in *. change (2 ^ 35 / 4096) with (2 ^ 23) in H4.
  rewrite shiftl_mul, shiftr_div by lia. change (2 ^ 12) with 4096. change (2 ^ 30) with (4096 * 2 ^ 18).
  rewrite <- Z.div_div, Z.div_mul by lia.
  split; [rewrite u64_small; lia|]. split; [rewrite s32_small; [done|zdm]|]. split; [zdm|].
  split; [rewrite u64_small; lia|]. split; [rewrite u64_small by lia; apply andb_false_iff; right; lia|].
  assert (Ha : exists a, va = a * 2 ^ 35) by (exists (va / 2 ^ 35); zdm). destruct Ha as [a ->].
  split; zdm.
Qed.

Lemma get_pud_eq m l ino t f : pt_state m l ino t f -> rdfs_get_pud sbi m ino = rdfs_va sbi (pt_top t).
Proof.
  intros [Hf Hs [R0 _ _ _] _ Hp _]. unfold rdfs_get_pud. rewrite R0.
  destruct (page_phys sbi (pt_top t)) as [Hrg _]; [apply (page_of t); [done|apply table_in; by left]|].
  by rewrite (proj2 (Z.eqb_neq _ 0)) by lia.
Qed.

Lemma pmd_offset_eq m pud q j addr : page_ok q -> ld 8 m pud = dir_entry (Some q) -> pmd_index addr = j ->
  0 <= j < 512 -> rdfs_pmd_offset sbi m pud addr = rdfs_va sbi q + 8 * j.
Proof.
  intros Hq E Ej Hj. unfold rdfs_pmd_offset, rdfs_get_phy_from_pud. rewrite E, Ej.
  destruct (table_entry q Hq) as (-> & _ & _ & ->). pose proof (page_virt sbi q Hq).
  apply u64_small. unfold PAGE_SIZE in *. lia.
Qed.

Lemma pte_offset_eq m pmd r k addr : page_ok r -> ld 8 m pmd = dir_entry (Some r) -> pte_index addr = k ->
  0 <= k < 512 -> rdfs_pte_offset sbi m pmd addr = rdfs_va sbi r + 8 * k.
Proof.
  intros Hr E Ek Hk. unfold rdfs_pte_offset, rdfs_get_phy_from_pmd. rewrite E, Ek.
  destruct (table_entry r Hr) as (-> & _ & _ & ->). pose proof (page_virt sbi r Hr).
  apply u64_small. unfold PAGE_SIZE in *. lia.
Qed.

Lemma entry_none_pos v : 0 < v -> entry_none v = false.
Proof using Type. intros. rewrite entry_none_spec. lia. Qed.

Lemma pa_va p : page_ok p -> rdfs_pa sbi (rdfs_va sbi p) = p.
Proof. intros Hp. apply rdfs_pa_va. pose proof (page_phys sbi p Hp). lia. Qed.

(** From one table to a larger one: the rest of the memory is as before. *)
Definition keeps_rest (m : mem) (l : list Z) (t : ptree) (m' : mem) (l' : list Z) (t' : ptree) : Prop :=
  forall a, untouched t l a -> ldb m' a = ldb m a /\ untouched t' l' a.

Lemma keeps_rest_refl m l t : keeps_rest m l t m l t.
Proof using Type. by intros a Ha. Qed.

Lemma keeps_rest_trans m l t m' l' t' m'' l'' t'' :
  keeps_rest m l t m' l' t' -> keeps_rest m' l' t' m'' l'' t'' -> keeps_rest m l t m'' l'' t''.
Proof using Type.
  intros H1 H2 a Ha. destruct (H1 a Ha) as [E1 Ha1]. destruct (H2 a Ha1) as [E2 Ha2].
  split; [by rewrite E2|done].
Qed.

(** A new page [p] off the free list hung below [q] by a store. *)
Lemma keeps_rest_link m m1 p l t t' q i v :
  (forall a, untouched t (p :: l) a -> ldb m1 a = ldb m a) -> q ∈ tables t -> 0 <= i < 512 ->
  (forall x, x ∈ tables t' -> x = p \/ x ∈ tables t) ->
  keeps_rest m (p :: l) t (st 8 m1 (rdfs_va sbi q + 8 * i) v) l t'.
Proof.
  intros H1 Hq Hi Ht a Ha. pose proof Ha as [Ha1 Ha2]. split.
  - rewrite ldb_st, decide_False; [by apply H1|]. intros Hr. apply (Ha2 q); [by left|].
    unfold in_page, PAGE_SIZE. lia.
  - revert Ha. apply untouched_mono; [intros b; apply (foot_cons sbi)|]. intros x [Hx|Hx].
    + destruct (Ht x Hx) as [->|]; [right; constructor|by left].
    + right. by constructor.
Qed.

Lemma keeps_rest_st m l t q i v : q ∈ tables t -> 0 <= i < 512 ->
  keeps_rest m l t (st 8 m (rdfs_va sbi q + 8 * i) v) l t.
Proof using Type.
  intros Hq Hi a Ha. pose proof Ha as [Ha1 Ha2]. split; [|done]. rewrite ldb_st, decide_False; [done|].
  intros Hr. apply (Ha2 q); [by left|]. unfold in_page, PAGE_SIZE. lia.
Qed.

(** [rdfs_pmd_alloc] below the top page: the pmd page is there, is added, or no
    page is left. *)
Lemma pmd_alloc_ok m l ino t f cpu i j addr :
  pt_state m l ino t f -> 0 <= i < 512 -> 0 <= j < 512 -> in_dir_area addr = false -> pmd_index addr = j ->
  let pud := rdfs_va sbi (pt_top t) + 8 * i in
  exists m' l' t', pt_state m' l' ino t' f /\ (length l <= length l' + 1)%nat /\ keeps_rest m l t m' l' t' /\
    ((exists q, pt_pmd t' = <[i := q]> (pt_pmd t) /\ default q (pt_pmd t !! i) = q /\ pt_top t' = pt_top t /\
        rdfs_pmd_alloc sbi cpu m pud addr = (rdfs_va sbi q + 8 * j, m') /\ page_ok q) \/
     (l = [] /\ rdfs_pmd_alloc sbi cpu m pud addr = (0, m') /\ t' = t)).
Proof.
  intros HS Hi Hj Hd Ej pud. pose proof HS as [Hf Hs [R0 R1 R2 R3] Hw Hp Hn].
  unfold rdfs_pmd_alloc. rewrite Hd. unfold pud. rewrite (R1 i Hi).
  destruct (pt_pmd t !! i) as [q|] eqn:Eq.
  - assert (Hqp : page_ok q) by (apply (page_of t); [done|apply table_in; eauto]).
    destruct (table_entry q Hqp) as (Ee & Hr & _). rewrite entry_none_pos by lia.
    exists m, l, t. split; [done|]. split; [lia|]. split; [apply keeps_rest_refl|]. left. exists q.
    split; [by rewrite insert_id|]. split; [done|]. split; [done|]. split; [|done]. f_equal.
    apply pmd_offset_eq; try done. by rewrite (R1 i Hi), Eq.
  - cbn [dir_entry]. rewrite entry_none_spec. cbn [Z.eqb]. unfold __rdfs_pmd_alloc, rdfs_pmd_alloc_one.
    destruct l as [|p l].
    { rewrite (get_page_none sbi m cpu Hf). cbn. exists m, [], t. split; [done|]. split; [cbn; lia|].
      split; [apply keeps_rest_refl|]. by right. }
    destruct (pt_get_page m p l ino t f cpu HS) as (m1 & -> & HS1 & Hpp & Hpt & Hpl & Hz & Hkp).
    rewrite va_nz by done. pose proof HS1 as [_ _ [_ R1' _ _] _ _ _]. rewrite (R1' i Hi), Eq. cbn [dir_entry].
    rewrite entry_present_0. cbn [Z.eqb negb]. unfold rdfs_set_pud. rewrite pa_va by done.
    fold (dir_entry (Some p)).
    pose proof (pt_link_pmd m1 l ino t f i p HS1 Hpp Hpt Hpl Eq Hi Hz) as HS2.
    eexists _, l, _. split; [exact HS2|]. split; [cbn; lia|]. split.
    { apply keeps_rest_link; try done; [apply table_in; by left|]. intros x [->|[[i' Hx]|[ij Hx]]]%table_in; cbn in *.
      - right. apply table_in. by left.
      - apply lookup_insert_Some in Hx as [[_ <-]|[_ Hx]]; [by left|right; apply table_in; eauto].
      - right. apply table_in. eauto. }
    left. exists p. split; [done|]. split; [done|]. split; [done|]. split; [|done]. f_equal. apply pmd_offset_eq; try done.
    rewrite ld8_st8; [done|]. destruct (table_entry p Hpp) as (-> & ? & _). lia.
Qed.

Lemma pte_alloc_ok m l ino t f cpu i j q k addr :
  pt_state m l ino t f -> pt_pmd t !! i = Some q -> 0 <= j < 512 -> 0 <= k < 512 -> pte_index addr = k ->
  let pmd := rdfs_va sbi q + 8 * j in
  exists m' l' t', pt_state m' l' ino t' f /\ (length l <= length l' + 1)%nat /\ keeps_rest m l t m' l' t' /\ pt_pmd t' = pt_pmd t /\
    ((exists r, pt_pte t' !! (i, j) = Some r /\ page_ok r /\
        rdfs_pte_alloc sbi cpu m pmd addr = (rdfs_va sbi r + 8 * k, m')) \/
     (l = [] /\ rdfs_pte_alloc sbi cpu m pmd addr = (0, m'))).
Proof.
  intros HS Hq Hj Hk Ek pmd. pose proof HS as [Hf Hs [R0 R1 R2 R3] Hw Hp Hn].
  unfold rdfs_pte_alloc. unfold pmd. rewrite (R2 i q j Hq Hj).
  destruct (pt_pte t !! (i, j)) as [r|] eqn:Er.
  - assert (Hrp : page_ok r) by (apply (page_of t); [done|apply table_in; eauto]).
    destruct (table_entry r Hrp) as (Ee & Hr & _). rewrite entry_none_pos by lia.
    exists m, l, t. split; [done|]. split; [lia|]. split; [apply keeps_rest_refl|]. split; [done|].
    left. exists r. split; [done|]. split; [done|]. f_equal.
    apply pte_offset_eq; try done. by rewrite (R2 i q j Hq Hj), Er.
  - cbn [dir_entry]. rewrite entry_none_spec. cbn [Z.eqb]. unfold __rdfs_pte_alloc, rdfs_pte_alloc_one.
    destruct l as [|p l].
    { rewrite (get_page_none sbi m cpu Hf). cbn. exists m, [], t. split; [done|]. split; [cbn; lia|].
      split; [apply keeps_rest_refl|]. split; [done|]. by right. }
    destruct (pt_get_page m p l ino t f cpu HS) as (m1 & -> & HS1 & Hpp & Hpt & Hpl & Hz & Hkp).
    rewrite va_nz by done. pose proof HS1 as [_ _ [_ _ R2' _] _ _ _]. rewrite (R2' i q j Hq Hj), Er. cbn [dir_entry].
    rewrite entry_present_0. cbn [Z.eqb negb]. unfold rdfs_set_pmd. rewrite pa_va by done.
    fold (dir_entry (Some p)).
    pose proof (pt_link_pte m1 l ino t f i j q p HS1 Hpp Hpt Hpl Hq Er Hj Hz) as HS2.
    eexists _, l, _. split; [exact HS2|]. split; [cbn; lia|]. split.
    { apply keeps_rest_link; try done; [apply table_in; eauto|]. intros x [->|[[i' Hx]|[ij Hx]]]%table_in; cbn in *.
      - right. apply table_in. by left.
      - right. apply table_in. eauto.
      - apply lookup_insert_Some in Hx as [[_ <-]|[_ Hx]]; [by left|right; apply table_in; eauto]. }
    split; [done|]. left. exists p.
    split; [apply lookup_insert_eq|]. split; [done|]. f_equal. apply pte_offset_eq; try done.
    rewrite ld8_st8; [done|]. destruct (table_entry p Hpp) as (-> & ? & _). lia.
Qed.

(** The entry [rdfs_set_pte] writes for a page. *)
Definition page_entry (phys : Z) : Z := Z.lor phys PAGE_KERNEL.

Lemma page_entry_range phys : 0 <= phys < 2 ^ 64 -> 0 <= page_entry phys < 2 ^ 64.
Proof using Type.
  intros Hp. unfold page_entry. pose proof PAGE_KERNEL_low as Hl. pose proof PAGE_KERNEL_nx as Hn.
  apply lor_range; [lia|done|zdm].
Qed.

Lemma get_pte_eq m pmd r : page_ok r -> ld 8 m pmd = dir_entry (Some r) -> rdfs_get_pte sbi m pmd = rdfs_va sbi r.
Proof.
  intros Hr E. unfold rdfs_get_pte. rewrite E. by destruct (table_entry r Hr) as (-> & _ & -> & _).
Qed.

Lemma get_pmd_eq m pud q : page_ok q -> ld 8 m pud = dir_entry (Some q) -> rdfs_get_pmd sbi m pud = rdfs_va sbi q.
Proof.
  intros Hr E. unfold rdfs_get_pmd. rewrite E. by destruct (table_entry q Hr) as (-> & _ & -> & _).
Qed.

(** The kernel's table leads from the file's area to the file's own pmd pages. *)
Definition km_maps (va : Z) (t : ptree) (km : kmm) : Prop :=
  forall i q, pt_pmd t !! i = Some q -> kpud km !! (va / PUD_SIZE + i) = Some (dir_entry (Some q)).

Lemma km_maps_other va t km i v : pt_pmd t !! i = None -> km_maps va t km ->
  km_maps va t (mk_kmm (<[va / PUD_SIZE + i := v]> (kpud km)) (kpmd km)).
Proof using Type.
  intros Hno Hk i' q Hq. cbn. rewrite lookup_insert_ne; [by apply Hk|]. intros E.
  assert (i = i') as -> by lia. by rewrite Hno in Hq.
Qed.

Lemma km_maps_insert va t t' km i q : pt_pmd t !! i = None -> pt_pmd t' = <[i := q]> (pt_pmd t) -> km_maps va t km ->
  km_maps va t' (mk_kmm (<[va / PUD_SIZE + i := dir_entry (Some q)]> (kpud km)) (kpmd km)).
Proof using Type.
  intros Hno Ht Hk i' q' Hq. rewrite Ht in Hq. cbn. apply lookup_insert_Some in Hq as [[<- <-]|[Hne Hq]].
  - apply lookup_insert_eq.
  - rewrite lookup_insert_ne by lia. by apply Hk.
Qed.

Lemma block_slot va b : file_addr va b -> (va + b * PAGE_SIZE) / PUD_SIZE = va / PUD_SIZE + idx1 b.
Proof using Type.
  intros [_ Hal _]. unfold MAX_FILE_SIZE, PUD_SIZE, PAGE_SIZE, idx1 in *.
  assert (Ha : exists a, va = a * 2 ^ 35) by (exists (va / 2 ^ 35); zdm). destruct Ha as [a ->]. zdm.
Qed.

(** The top level of [rdfs_insert_page]: the pmd page is there or added, and the
    kernel's table follows. *)
Definition insert_pmd (cpu : Z) (kok : Z -> bool) (m : mem) (km : kmm) (pud addr : Z) : Z * mem * kmm :=
  if entry_none (ld 8 m pud) then
    let '(pmd, m) := rdfs_pmd_alloc sbi cpu m pud addr in
    let '(_, km) := nvmap_pmd sbi kok km addr (rdfs_get_pmd sbi m pud) in (pmd, m, km)
  else let '(pmd, m) := rdfs_pmd_alloc sbi cpu m pud addr in (pmd, m, km).

Lemma insert_pmd_ok m l km ino t f cpu kok va b :
  pt_state m l ino t f -> file_addr va b ->
  let addr := va + b * PAGE_SIZE in
  let pud := rdfs_va sbi (pt_top t) + 8 * idx1 b in
  exists m' km' l' t', pt_state m' l' ino t' f /\ (length l <= length l' + 1)%nat /\ keeps_rest m l t m' l' t' /\
    (kok addr = true -> km_maps va t km -> km_maps va t' km') /\
    ((exists q, pt_pmd t' !! idx1 b = Some q /\ page_ok q /\
        insert_pmd cpu kok m km pud addr = (rdfs_va sbi q + 8 * idx2 b, m', km')) \/
     (l = [] /\ insert_pmd cpu kok m km pud addr = (0, m', km'))).
Proof.
  intros HS Ha addr pud. destruct (file_index _ _ Ha) as (_ & _ & F3 & _ & F5 & F6 & _).
  assert (Hj : 0 <= idx2 b < 512) by (unfold idx2; zdm).
  destruct (pmd_alloc_ok m l _ t f cpu (idx1 b) (idx2 b) addr HS ltac:(lia) Hj F5 F6)
    as (m1 & l1 & t1 & HS1 & Hlen & Hkp & Hres). fold pud in Hres.
  pose proof HS as [_ _ [_ R1 _ _] _ Hp _]. specialize (R1 (idx1 b) ltac:(lia)). fold pud in R1.
  unfold insert_pmd. rewrite R1. assert (Hnz : (addr =? 0) = false).
  { destruct Ha as [[? _] _ [? _]]. unfold addr, RDFS_START, DIR_AREA_SIZE, PAGE_SIZE in *. lia. }
  destruct (pt_pmd t !! idx1 b) as [q0|] eqn:Eq0.
  - assert (Hq0 : page_ok q0) by (apply (page_of t); [done|apply table_in; eauto]).
    destruct (table_entry q0 Hq0) as (-> & Hrg & _). rewrite entry_none_pos by lia.
    exists m1, km, l1, t1. do 3 (split; [done|]).
    destruct Hres as [(q & Hq & Hdef & _ & -> & Hqp)|(-> & -> & ->)].
    + cbn in Hdef. subst q0. rewrite insert_id in Hq by done.
      split; [by intros _ Hk i' q' Hq'; rewrite Hq in Hq'; apply Hk|]. left. exists q. by rewrite Hq.
    + split; [done|by right].
  - cbn [dir_entry]. rewrite entry_none_spec. cbn [Z.eqb]. unfold nvmap_pmd. rewrite Hnz.
    unfold addr. rewrite (block_slot va b Ha). fold addr.
    destruct Hres as [(q & Hq & _ & Htop & -> & Hqp)|(-> & -> & ->)].
    + pose proof HS1 as [_ _ [_ R1' _ _] _ _ _]. specialize (R1' (idx1 b) ltac:(lia)).
      rewrite Hq, lookup_insert_eq in R1'.
      rewrite Htop in R1'. fold pud in R1'. rewrite (get_pmd_eq m1 pud q Hqp R1'), pa_va by done.
      destruct (kok addr) eqn:Ek; cbn [negb].
      * eexists m1, _, l1, t1. do 3 (split; [done|]). split; [by intros _; apply km_maps_insert|].
        left. exists q. rewrite Hq. by rewrite lookup_insert_eq.
      * exists m1, km, l1, t1. do 4 (split; [done|]). left. exists q. rewrite Hq. by rewrite lookup_insert_eq.
    + destruct (kok addr) eqn:Ek; cbn [negb].
      * eexists m1, _, l1, t. do 3 (split; [done|]). split; [by intros _; apply km_maps_other|]. by right.
      * exists m1, km, l1, t. do 4 (split; [done|]). by right.
Qed.

(** Outcome of adding block [b]: the entry is in the table, or no page was left
    for a new table page and all entries are as before; the kernel's table
    follows and the rest of the memory stays. *)
Lemma insert_page_ok m l km ino_ t f cpu kok phys b :
  pt_state m l (i_ino ino_) t f -> b = i_blocks ino_ - 1 -> file_addr (ni_virt_addr ino_) b ->
  0 <= phys < 2 ^ 64 ->
  exists err m' km' l' t' f', rdfs_insert_page sbi cpu kok m km ino_ phys = (err, m', km') /\
    pt_state m' l' (i_ino ino_) t' f' /\ (length l <= length l' + 2)%nat /\ keeps_rest m l t m' l' t' /\
    (kok (ni_virt_addr ino_ + b * PAGE_SIZE) = true -> km_maps (ni_virt_addr ino_) t km ->
     km_maps (ni_virt_addr ino_) t' km') /\
    ((err = 0 /\ f' = <[b := page_entry phys]> f) \/ (err = -1 /\ f' = f /\ (length l < 2)%nat)).
Proof.
  intros HS Eb Ha Hph. destruct (file_index _ _ Ha) as (F1 & F2 & F3 & F4 & F5 & F6 & F7).
  assert (Hb : 0 <= b) by (destruct Ha; lia).
  assert (Hj : 0 <= idx2 b < 512) by (unfold idx2; zdm).
  assert (Hk : 0 <= idx3 b < 512) by (unfold idx3; zdm).
  unfold rdfs_insert_page. rewrite <- Eb, F1, F4. unfold rdfs_pud_alloc. rewrite F2, (get_pud_eq m l _ t f HS).
  rewrite Z.max_r by lia.
  assert (Htp : page_ok (pt_top t)) by (apply (page_of t); [apply HS|apply table_in; by left]).
  pose proof (page_virt sbi _ Htp) as Hv. rewrite (proj2 (Z.eqb_neq _ 0)) by lia.
  set (pud := rdfs_va sbi (pt_top t) + 8 * idx1 b). set (addr := ni_virt_addr ino_ + b * PAGE_SIZE).
  fold (insert_pmd cpu kok m km pud addr).
  pose proof (insert_pmd_ok m l km _ t f cpu kok _ b HS Ha) as Hi. cbn zeta in Hi. fold addr pud in Hi.
  destruct Hi as (m1 & km1 & l1 & t1 & HS1 & Hlen & Hkp & Hkm & [(q & Hq & Hqp & ->)|[-> ->]]).
  2:{ cbn. eexists _, m1, km1, l1, t1, f. split; [done|]. split; [done|]. split; [cbn; lia|]. do 2 (split; [done|]). right. split; [done|]. split; [done|]. cbn; lia. }
  pose proof (page_virt sbi q Hqp) as Hvq. rewrite (proj2 (Z.eqb_neq (rdfs_va sbi q + 8 * idx2 b) 0)) by lia.
  destruct (pte_alloc_ok m1 l1 _ t1 f cpu (idx1 b) (idx2 b) q (idx3 b) addr HS1 Hq Hj Hk F7)
    as (m2 & l2 & t2 & HS2 & Hlen2 & Hkp2 & Hpm & [(r & Hr & Hrp & ->)|[-> ->]]).
  - pose proof (page_virt sbi r Hrp) as Hvr. rewrite (proj2 (Z.eqb_neq (rdfs_va sbi r + 8 * idx3 b) 0)) by lia.
    eexists _, _, km1, l2, t2, _. split; [reflexivity|].
    pose proof (pt_store_entry m2 l2 _ t2 f (idx1 b) (idx2 b) r (idx3 b) (page_entry phys) HS2 Hr Hk
      (page_entry_range phys Hph)) as HS3. rewrite blocknr_idx in HS3 by done. split; [exact HS3|]. split; [lia|]. split.
    { eapply keeps_rest_trans; [exact Hkp|]. eapply keeps_rest_trans; [exact Hkp2|].
      apply keeps_rest_st; [apply table_in; eauto|done]. }
    split; [|by left]. intros Hok Hm i' q' Hq'. rewrite Hpm in Hq'. by apply (Hkm Hok Hm).
  - cbn. eexists _, m2, km1, l2, t2, f. split; [done|]. split; [done|]. split; [cbn in *; lia|].
    split; [by eapply keeps_rest_trans|]. split; [|right; cbn in Hlen; split; [done|]; split; [done|lia]].
    intros Hok Hm i' q' Hq'. rewrite Hpm in Hq'. by apply (Hkm Hok Hm).
Qed.

(** Stores into an inode slot touch neither the tables nor the free list. *)
Lemma ld_page_st_meta m q i a v : page_ok q -> 0 <= i < 512 -> (forall b, a <= b < a + 8 -> meta b) ->
  ld 8 (st 8 m a v) (rdfs_va sbi q + 8 * i) = ld 8 m (rdfs_va sbi q + 8 * i).
Proof.
  intros Hq Hi Hm. apply ld_ext. intros k Hk. rewrite ldb_st, decide_False; [done|].
  intros Hr. apply (meta_page sbi q (rdfs_va sbi q + 8 * i + k) Hq); [apply Hm; lia|].
  unfold in_page, PAGE_SIZE. lia.
Qed.

Lemma free_st_meta m l a v : free m l -> (forall b, a <= b < a + 8 -> meta b) -> free (st 8 m a v) l.
Proof.
  intros Hf Hm. destruct (free_pages sbi m l Hf) as [Hl _]. apply (free_ext sbi m); [|done].
  intros b Hb. rewrite ldb_st, decide_False; [done|]. intros Hr. apply (meta_foot sbi l b); try done. apply Hm. lia.
Qed.

(** ** A new table *)

Definition zeroed (m : mem) (p : Z) : Prop := forall a, in_page sbi p a -> ldb m a = 0.

Lemma zeroed_ld m p i : zeroed m p -> 0 <= i < 512 -> ld 8 m (rdfs_va sbi p + 8 * i) = 0.
Proof using Type.
  intros Hz Hi. apply (ld_val 8 m _ 0). intros k Hk. rewrite Z.div_0_l by lia. apply Hz.
  unfold in_page, PAGE_SIZE. lia.
Qed.

(** One allocation: the page is zeroed, and other pages and slots keep their bytes. *)
Lemma get_page_step m cpu p l : free m (p :: l) ->
  exists m', rdfs_get_zeroed_page sbi m cpu = (rdfs_va sbi p, m') /\ free m' l /\ zeroed m' p /\
    (forall q a, page_ok q -> q ∉ p :: l -> in_page sbi q a -> ldb m' a = ldb m a) /\
    (forall a, meta a -> ldb m' a = ldb m a).
Proof.
  intros Hf. destruct (get_page_ok sbi m cpu p l Hf) as (m' & E & Hf' & Hz & Hk).
  destruct (free_pages sbi m _ Hf) as [Hl _]. inversion Hl as [|? ? Hpp Hl']; subst.
  exists m'. split; [done|]. split; [done|]. split; [done|]. split.
  - intros q a Hq Hn Ha. apply Hk; [by apply (foot_page sbi q)|]. intros Ha'. apply Hn.
    rewrite (page_disjoint sbi q p a Hq Hpp Ha Ha'). constructor.
  - intros a Ha. apply Hk; [by eapply meta_foot|by eapply meta_page].
Qed.

Lemma zeroed_keep m m' q : (forall a, in_page sbi q a -> ldb m' a = ldb m a) -> zeroed m q -> zeroed m' q.
Proof using Type. intros Hk Hz a Ha. rewrite Hk by done. by apply Hz. Qed.

(** Three pages taken one after the other: each keeps its zeros. *)
Lemma get_three m cpu p1 p2 p3 l : free m (p1 :: p2 :: p3 :: l) ->
  exists m1 m2 m3, rdfs_get_zeroed_page sbi m cpu = (rdfs_va sbi p1, m1) /\
    rdfs_get_zeroed_page sbi m1 cpu = (rdfs_va sbi p2, m2) /\ rdfs_get_zeroed_page sbi m2 cpu = (rdfs_va sbi p3, m3) /\
    free m3 l /\ zeroed m3 p1 /\ zeroed m3 p2 /\ zeroed m3 p3 /\
    (forall q a, page_ok q -> q ∉ p1 :: p2 :: p3 :: l -> in_page sbi q a -> ldb m3 a = ldb m a) /\
    (forall a, meta a -> ldb m3 a = ldb m a).
Proof.
  intros Hf. destruct (free_pages sbi m _ Hf) as [Hl Hn]. rewrite !Forall_cons in Hl. rewrite !NoDup_cons in Hn.
  destruct Hl as (Hp1 & Hp2 & _), Hn as (N1 & N2 & _).
  destruct (get_page_step m cpu _ _ Hf) as (m1 & E1 & Hf1 & Z1 & K1 & M1).
  destruct (get_page_step m1 cpu _ _ Hf1) as (m2 & E2 & Hf2 & Z2 & K2 & M2).
  destruct (get_page_step m2 cpu _ _ Hf2) as (m3 & E3 & Hf3 & Z3 & K3 & M3).
  exists m1, m2, m3. do 4 (split; [done|]). split; [|split; [|split; [done|split]]].
  - apply (zeroed_keep m2); [intros a Ha; apply (K3 p1); try done; set_solver|].
    apply (zeroed_keep m1); [intros a Ha; by apply (K2 p1)|done].
  - apply (zeroed_keep m2); [intros a Ha; by apply (K3 p2)|done].
  - intros q a Hq Hqn Ha. assert (q ∉ p2 :: p3 :: l /\ q ∉ p3 :: l) as [Q1 Q2] by set_solver. by rewrite (K3 q), (K2 q), (K1 q).
  - intros a Ha. by rewrite M3, M2, M1.
Qed.

(** Three zeroed pages chained as a new file's table. *)
Definition chain_table (m : mem) (r p1 p2 p3 : Z) : mem :=
  st 8 (st 8 (st 8 m (rdfs_va sbi p2) (dir_entry (Some p3))) (rdfs_va sbi p1) (dir_entry (Some p2))) r p1.

Lemma chain_free m l r p1 p2 p3 : free m l -> Forall page_ok [p1; p2] -> p1 ∉ l -> p2 ∉ l ->
  (forall b, r <= b < r + 8 -> meta b) -> free (chain_table m r p1 p2 p3) l.
Proof.
  intros Hf Hp N1 N2 Hr. rewrite !Forall_cons in Hp. destruct Hp as (Hp1 & Hp2 & _). apply free_st_meta; [|done].
  apply (free_st_page _ l p1); [|done|done|lia|unfold PAGE_SIZE; lia].
  apply (free_st_page _ l p2); [done|done|done|lia|unfold PAGE_SIZE; lia].
Qed.

(** It writes nothing but the first two pages and the root. *)
Lemma chain_ldb m r p1 p2 p3 a : ~ (r <= a < r + 8) -> ~ in_page sbi p1 a -> ~ in_page sbi p2 a ->
  ldb (chain_table m r p1 p2 p3) a = ldb m a.
Proof using Type.
  unfold in_page, PAGE_SIZE, chain_table. intros Hr H1 H2. by rewrite !ldb_st, !decide_False by lia.
Qed.

Lemma chain_rep m ino r p1 p2 p3 : let m' := chain_table m r p1 p2 p3 in
  r = get_rdfs_inode m' sbi ino + inode_off.i_pg_addr -> (forall b, r <= b < r + 8 -> meta b) ->
  Forall page_ok [p1; p2; p3] -> NoDup [p1; p2; p3] -> zeroed m p1 -> zeroed m p2 -> zeroed m p3 ->
  pt_rep m' ino (mk_ptree p1 {[0 := p2]} {[(0, 0) := p3]}) ∅.
Proof.
  intros m' Er Hr Hp Hn Z1 Z2 Z3. rewrite !Forall_cons in Hp. destruct Hp as (Hp1 & Hp2 & Hp3 & _).
  assert (p1 <> p2 /\ p1 <> p3 /\ p2 <> p3) as (D12 & D13 & D23).
  { rewrite !NoDup_cons in Hn. destruct Hn as (? & ? & _). set_solver. }
  destruct (table_entry p2 Hp2) as (E2 & R2 & _). destruct (table_entry p3 Hp3) as (E3 & R3 & _).
  pose proof (page_phys sbi p1 Hp1) as [Rp1 _].
  assert (L : forall q i, page_ok q -> 0 <= i < 512 -> ld 8 m' (rdfs_va sbi q + 8 * i) = ld 8
    (st 8 (st 8 m (rdfs_va sbi p2 + 8 * 0) (dir_entry (Some p3))) (rdfs_va sbi p1 + 8 * 0) (dir_entry (Some p2))) (rdfs_va sbi q + 8 * i)).
  { intros q i Hq Hi. unfold m', chain_table. rewrite ld_page_st_meta by done. by rewrite Z.mul_0_r, !Z.add_0_r. }
  split; cbn [pt_top pt_pmd pt_pte].
  - rewrite <- Er. unfold m', chain_table. rewrite ld8_st8; [done|lia].
  - intros i Hi. rewrite L by done. destruct (decide (i = 0)) as [->|Hne].
    + rewrite lookup_singleton_eq. by rewrite ld8_st8 by (rewrite E2; lia).
    + rewrite lookup_singleton_ne by done. rewrite !ld_table_ne; try done; [|by left|by right]. by apply zeroed_ld.
  - intros i q j [<- <-]%lookup_singleton_Some Hj. rewrite L by done.
    rewrite ld_table_ne; try done; [|by left]. destruct (decide (j = 0)) as [->|Hne].
    + rewrite lookup_singleton_eq. by rewrite ld8_st8 by (rewrite E3; lia).
    + rewrite lookup_singleton_ne by congruence. rewrite ld_table_ne; try done; [|by right]. by apply zeroed_ld.
  - intros i j q k [_ <-]%lookup_singleton_Some Hk. rewrite L by done. rewrite lookup_empty. cbn.
    rewrite !ld_table_ne; try done; [|by left|by left]. by apply zeroed_ld.
Qed.

Lemma init_pg_table_ok m cpu ino p1 p2 p3 l :
  free m (p1 :: p2 :: p3 :: l) ->
  (forall a, get_rdfs_inode m sbi ino <= a < get_rdfs_inode m sbi ino + RDFS_INODE_SIZE -> meta a) ->
  exists m', rdfs_init_pg_table sbi cpu m ino = (0, m') /\
    pt_state m' l ino (mk_ptree p1 {[0 := p2]} {[(0, 0) := p3]}) ∅ /\
    (forall q a, page_ok q -> q ∉ p1 :: p2 :: p3 :: l -> in_page sbi q a -> ldb m' a = ldb m a) /\
    (forall a, meta a -> ~ (get_rdfs_inode m sbi ino + inode_off.i_pg_addr <= a < get_rdfs_inode m sbi ino + inode_off.i_pg_addr + 8) ->
       ldb m' a = ldb m a).
Proof.
  intros Hf Hs. destruct (free_pages sbi m _ Hf) as [Hl Hn].
  assert (Hl3 : Forall page_ok [p1; p2; p3]) by (rewrite !Forall_cons in Hl |- *; naive_solver).
  assert (Hn3 : NoDup [p1; p2; p3]) by (exact (NoDup_take (p1 :: p2 :: p3 :: l) 3 Hn)).
  assert (p1 ∉ l /\ p2 ∉ l) as [N1 N2] by (rewrite !NoDup_cons in Hn; set_solver).
  assert (page_ok p1 /\ page_ok p2 /\ page_ok p3) as (Hp1 & Hp2 & Hp3) by (rewrite !Forall_cons in Hl3; naive_solver).
  unfold rdfs_init_pg_table, rdfs_pud_alloc_one, rdfs_pmd_alloc_one, rdfs_pte_alloc_one.
  set (r := get_rdfs_inode m sbi ino + inode_off.i_pg_addr).
  destruct (get_three m cpu p1 p2 p3 l Hf) as (m1 & m2 & m3 & -> & -> & -> & Hf3 & Z1 & Z2 & Z3 & K & M).
  rewrite !va_nz by done. cbn [orb]. unfold rdfs_set_pmd, rdfs_set_pud. rewrite !pa_va by done.
  change (Z.lor p3 PAGE_TABLE) with (dir_entry (Some p3)). change (Z.lor p2 PAGE_TABLE) with (dir_entry (Some p2)).
  fold (chain_table m3 r p1 p2 p3). set (m6 := chain_table m3 r p1 p2 p3).
  assert (Hroot : forall b, r <= b < r + 8 -> meta b).
  { intros b Hb. apply Hs. unfold r, inode_off.i_pg_addr, RDFS_INODE_SIZE in *. lia. }
  assert (Hf6 : free m6 l) by (apply chain_free; try done; by repeat constructor).
  assert (Ei : get_rdfs_inode m6 sbi ino = get_rdfs_inode m sbi ino) by (by eapply free_inode).
  exists m6. split; [done|]. split; [|split].
  - split; [done|by rewrite Ei|apply chain_rep; try done; by fold m6; rewrite Ei| | |].
    + split; cbn.
      * intros i [q [<- _]%lookup_singleton_Some]. lia.
      * intros i j [q [[= <- <-] _]%lookup_singleton_Some]. rewrite lookup_singleton_eq. split; [lia|done].
      * intros b [x Hx]. by rewrite lookup_empty in Hx.
    + unfold tables. cbn. by rewrite !map_to_list_singleton.
    + unfold tables. cbn. by rewrite !map_to_list_singleton.
  - intros q a Hq Hqn Ha. assert (q <> p1 /\ q <> p2) as [Q1 Q2] by set_solver.
    unfold m6. rewrite chain_ldb; [by apply (K q)| | |]; intros Hb.
    + by apply (meta_page sbi q a Hq), Ha; apply Hroot.
    + by apply Q1, (page_disjoint sbi q p1 a).
    + by apply Q2, (page_disjoint sbi q p2 a).
  - intros a Hm Ha. unfold m6. rewrite chain_ldb; [by apply M|done| |]; intros Hb; [by apply (meta_page sbi p1 a)|by apply (meta_page sbi p2 a)].
Qed.

(** With fewer than three pages left, the table is not built. *)
Lemma init_pg_table_fail m cpu ino l : free m l -> (length l < 3)%nat ->
  (rdfs_init_pg_table sbi cpu m ino).1 = - PGFAILD.
Proof.
  intros Hf Hl. unfold rdfs_init_pg_table, rdfs_pud_alloc_one, rdfs_pmd_alloc_one, rdfs_pte_alloc_one.
  destruct l as [|p1 l].
  { rewrite !(get_page_none sbi m cpu Hf). done. }
  destruct (get_page_ok sbi m cpu _ _ Hf) as (m1 & -> & Hf1 & _). destruct l as [|p2 l].
  { rewrite !(get_page_none sbi m1 cpu Hf1). cbn. by rewrite orb_true_r. }
  destruct (get_page_ok sbi m1 cpu _ _ Hf1) as (m2 & -> & Hf2 & _). destruct l as [|p3 l]; [|cbn in Hl; lia].
  rewrite !(get_page_none sbi m2 cpu Hf2). cbn. by rewrite orb_true_r.
Qed.

(** ** Removing a table *)

Lemma page_entry_phys p : page_ok p -> Z.land (page_entry p) 0x7ffffffffffff000 = p.
Proof.
  intros Hp. destruct (page_phys sbi p Hp) as [Hr Hm]. pose proof PAGE_KERNEL_nx as Hn.
  unfold page_entry. rewrite Z.land_lor_distr_l. change 0x7ffffffffffff000 with (2 ^ 63 - 2 ^ 12).
  assert (E1 : Z.land p (2 ^ 63 - 2 ^ 12) = p)
    by (rewrite <- (Z.add_0_r p) at 1; apply mask_entry; done || lia).
  assert (E2 : Z.land PAGE_KERNEL (2 ^ 63 - 2 ^ 12) = 0) by (rewrite land_mask_field by lia; zdm).
  rewrite E1, E2. apply Z.lor_0_r.
Qed.

Lemma page_entry_flags p : page_ok p -> (Z.land (page_entry p) (PAGE_SIZE - 1) =? 0) = false.
Proof.
  intros Hp. destruct (page_phys sbi p Hp) as [Hr Hm]. pose proof PAGE_KERNEL_low as Hl.
  unfold page_entry. rewrite Z.land_lor_distr_l. change (PAGE_SIZE - 1) with (2 ^ 12 - 1).
  rewrite !land_ones_mod by lia. change (2 ^ 12) with PAGE_SIZE at 1. rewrite Hm. rewrite Z.lor_0_l. lia.
Qed.

Lemma page_entry_nz p : page_ok p -> entry_none (page_entry p) = false.
Proof.
  intros Hp. pose proof (page_entry_phys p Hp) as E. pose proof (page_phys sbi p Hp).
  rewrite entry_none_spec. apply Z.eqb_neq. intros E0. rewrite E0, Z.land_0_l in E. lia.
Qed.

(** Memory changes that leave all pages outside [ps] and all inode slots alone. *)
Definition keeps (ps : list Z) (m m' : mem) : Prop :=
  (forall q a, page_ok q -> q ∉ ps -> in_page sbi q a -> ldb m' a = ldb m a) /\
  (forall a, meta a -> ldb m' a = ldb m a).

Lemma keeps_refl ps m : keeps ps m m.
Proof using Type. by split. Qed.

Lemma keeps_trans ps ps' m1 m2 m3 : keeps ps m1 m2 -> keeps ps' m2 m3 -> keeps (ps ++ ps') m1 m3.
Proof using Type.
  intros [K1 M1] [K2 M2]. split.
  - intros q a Hq Hn Ha. apply not_elem_of_app in Hn as [? ?]. by rewrite (K2 q), (K1 q).
  - intros a Ha. by rewrite M2, M1.
Qed.

Lemma keeps_mono ps ps' m m' : (forall q, q ∈ ps -> q ∈ ps') -> keeps ps m m' -> keeps ps' m m'.
Proof using Type. intros Hs [K M]. split; [|done]. intros q a Hq Hn. apply K; [done|]. auto. Qed.

Lemma keeps_ld ps m m' q i : keeps ps m m' -> page_ok q -> q ∉ ps -> 0 <= i < 512 ->
  ld 8 m' (rdfs_va sbi q + 8 * i) = ld 8 m (rdfs_va sbi q + 8 * i).
Proof using Type.
  intros [K _] Hq Hn Hi. apply ld_ext. intros k Hk. apply (K q); [done|done|]. unfold in_page, PAGE_SIZE. lia.
Qed.

(** Freeing one page. *)
Lemma free_step m p l : free m l -> page_ok p -> p ∉ l ->
  free (rdfs_free_block sbi m p) (p :: l) /\ keeps (p :: l) m (rdfs_free_block sbi m p).
Proof.
  intros Hf Hp Hn. destruct (free_block_page sbi m p l Hf Hp Hn) as [Hf' Hk].
  destruct (free_pages sbi m l Hf) as [Hl _]. split; [done|]. split.
  - intros q a Hq Hqn Ha. apply not_elem_of_cons in Hqn as [Hne Hql]. apply Hk.
    + by apply (foot_page sbi q).
    + intros Ha'. apply Hne. by apply (page_disjoint sbi q p a).
  - intros a Ha. apply Hk; [by apply (meta_foot sbi)|by apply (meta_page sbi)].
Qed.

(** The entries of a table page from index [k] on: those of [vs], then none. *)
Definition row (m : mem) (r : Z) (k : Z) (vs : list Z) : Prop :=
  (forall i v, vs !! i = Some v -> ld 8 m (rdfs_va sbi r + 8 * (k + Z.of_nat i)) = v) /\
  (k + Z.of_nat (length vs) < 512 -> ld 8 m (rdfs_va sbi r + 8 * (k + Z.of_nat (length vs))) = 0) /\
  0 <= k /\ k + Z.of_nat (length vs) <= 512.

Lemma row_tail m r k v vs : row m r k (v :: vs) ->
  ld 8 m (rdfs_va sbi r + 8 * k) = v /\ row m r (k + 1) vs /\ k < 512.
Proof using Type.
  intros (H1 & H2 & H3 & H4). cbn [length] in *. split; [|split; [|lia]].
  - rewrite <- (H1 0%nat v eq_refl). by rewrite Z.add_0_r.
  - split; [|split; [|lia]].
    + intros i x Hx. rewrite <- (H1 (S i) x Hx). do 2 f_equal. lia.
    + intros Hl. replace (k + 1 + Z.of_nat (length vs)) with (k + Z.of_nat (S (length vs))) by lia.
      apply H2. lia.
Qed.

Lemma row_keeps ps m m' r k vs : keeps ps m m' -> page_ok r -> r ∉ ps -> row m r k vs -> row m' r k vs.
Proof using Type.
  intros Hk Hr Hn (H1 & H2 & H3 & H4). split; [|split; [|done]].
  - intros i v Hv. rewrite (keeps_ld ps m); [by apply H1|done..|]. apply lookup_lt_Some in Hv. lia.
  - intros Hl. rewrite (keeps_ld ps m); [by apply H2|done..|lia].
Qed.

Lemma rm_pte_loop_ok cpu m l disks r k ps :
  free m l -> page_ok r -> Forall page_ok ps -> NoDup (r :: ps ++ l) ->
  row m r k (page_entry <$> ps) ->
  exists m', rm_pte_loop sbi cpu (Z.to_nat (512 - k)) m disks (rdfs_va sbi r + 8 * k) = Ret (m', disks) /\
    free m' (rev ps ++ l) /\ keeps (ps ++ l) m m'.
Proof.
  revert m l k. induction ps as [|p ps IH]; intros m l k Hf Hr Hps Hn Hrow.
  - exists m. split; [|split; [done|apply keeps_refl]]. destruct Hrow as (_ & H2 & H3 & H4). cbn in *.
    destruct (Z.to_nat (512 - k)) as [|n] eqn:En; [done|]. cbn [rm_pte_loop].
    rewrite Z.add_0_r in H2. rewrite H2 by lia. rewrite entry_none_spec. done.
  - inversion Hps as [|? ? Hp Hps']; subst. cbn [fmap list_fmap] in Hrow.
    destruct (row_tail _ _ _ _ _ Hrow) as (Ev & Hrow' & Hk). cbn [app] in Hn.
    apply NoDup_cons in Hn as HN. destruct HN as [Hr1 HN]. apply NoDup_cons in HN as [Hp1 HN].
    apply not_elem_of_app in Hp1 as [Hpp Hpl]. apply not_elem_of_cons in Hr1 as [Hrp Hr1].
    apply not_elem_of_app in Hr1 as [Hrps Hrl]. destruct Hrow as (_ & _ & Hk0 & _).
    replace (Z.to_nat (512 - k)) with (S (Z.to_nat (512 - (k + 1)))) by lia. cbn [rm_pte_loop].
    rewrite Ev, page_entry_nz by done. unfold free_entry, pte_is_sn, rdfs_get_phy_from_pte.
    rewrite Ev, page_entry_flags, page_entry_phys by done. cbn [mbind outcome_bind].
    destruct (free_step m p l Hf Hp Hpl) as [Hf1 Hk1].
    destruct (IH (rdfs_free_block sbi m p) (p :: l) (k + 1)) as (m' & E & Hf' & Hk'); try done.
    + constructor; [|by rewrite <- Permutation_middle; constructor; [apply not_elem_of_app|]].
      apply not_elem_of_app. split; [done|]. by apply not_elem_of_cons.
    + apply (row_keeps (p :: l) m); try done. by apply not_elem_of_cons.
    + exists m'. replace (rdfs_va sbi r + 8 * k + 8) with (rdfs_va sbi r + 8 * (k + 1)) by lia.
      split; [done|]. split; [cbn; by rewrite <- app_assoc|].
      eapply keeps_mono; [|eapply keeps_trans; [exact Hk1|exact Hk']]. set_solver.
Qed.
(** One level of the removal: a loop over the entries of directory page [q],
    each leading to a subtree [x] with root page [root x] and pages [sub x]. *)
Section level.
Context {X : Type} (root : X -> Z) (sub : X -> list Z) (holds : mem -> X -> Prop)
  (disks : gmap Z bdev_des)
  (body : mem -> gmap Z bdev_des -> Z -> outcome (mem * gmap Z bdev_des))
  (loop : nat -> mem -> gmap Z bdev_des -> Z -> outcome (mem * gmap Z bdev_des)).
Hypothesis root_sub : forall x, root x ∈ sub x.
Hypothesis loop_0 : forall m d p, loop 0 m d p = Ret (m, d).
Hypothesis loop_S : forall n m d p, loop (S n) m d p =
  if entry_none (ld 8 m p) then Ret (m, d) else '(m, d) ← body m d p; loop n m d (p + 8).
Hypothesis holds_keeps : forall ps m m' x, keeps ps m m' -> Forall page_ok (sub x) ->
  (forall q, q ∈ sub x -> q ∉ ps) -> holds m x -> holds m' x.
Hypothesis body_ok : forall m l x p, free m l -> Forall page_ok (sub x) -> NoDup (sub x ++ l) ->
  ld 8 m p = dir_entry (Some (root x)) -> holds m x ->
  exists m' l', body m disks p = Ret (m', disks) /\ free m' l' /\ l' ≡ₚ sub x ++ l /\
    keeps (sub x ++ l) m m'.

Definition subs (xs : list X) : list Z := xs ≫= sub.

Lemma rm_level_loop m l q k xs :
  free m l -> page_ok q -> Forall page_ok (subs xs) -> NoDup (q :: subs xs ++ l) ->
  row m q k ((fun x => dir_entry (Some (root x))) <$> xs) -> Forall (holds m) xs ->
  exists m' l', loop (Z.to_nat (512 - k)) m disks (rdfs_va sbi q + 8 * k) = Ret (m', disks) /\
    free m' l' /\ l' ≡ₚ subs xs ++ l /\ keeps (subs xs ++ l) m m'.
Proof.
  revert m l k. induction xs as [|x xs IH]; intros m l k Hf Hq Hps Hn Hrow Hh.
  - exists m, l. split; [|split; [done|split; [done|apply keeps_refl]]].
    destruct Hrow as (_ & H2 & H3 & H4). cbn in *.
    destruct (Z.to_nat (512 - k)) as [|n] eqn:En; [apply loop_0|]. rewrite loop_S.
    rewrite Z.add_0_r in H2. rewrite H2 by lia. by rewrite entry_none_spec.
  - cbn [fmap list_fmap] in Hrow. destruct (row_tail _ _ _ _ _ Hrow) as (Ev & Hrow' & Hk).
    cbn [subs mbind list_bind] in *. fold (subs xs) in *.
    apply Forall_app in Hps as [Hpx Hps]. inversion Hh as [|? ? Hhx Hhs]; subst.
    rewrite <- app_assoc in Hn. apply NoDup_cons in Hn as HN. destruct HN as [Hq1 HN].
    apply NoDup_app in HN as (Hx1 & Hx2 & HN). apply NoDup_app in HN as HN'. destruct HN' as (_ & Hs2 & Hl1).
    assert (Hql : q ∉ sub x ++ l) by set_solver.
    destruct (body_ok m l x (rdfs_va sbi q + 8 * k) Hf Hpx) as (m1 & l1 & Eb & Hf1 & Hl1' & Hk1); try done.
    { apply NoDup_app. split; [done|]. split; [set_solver|done]. }
    assert (Hpr : page_ok (root x)) by (rewrite Forall_forall in Hpx; apply Hpx, root_sub).
    destruct (table_entry _ Hpr) as (Ee & Hee & _). destruct Hrow as (_ & _ & Hk0 & _).
    replace (Z.to_nat (512 - k)) with (S (Z.to_nat (512 - (k + 1)))) by lia. rewrite loop_S, Ev.
    rewrite Ee, entry_none_pos by lia. rewrite Eb. cbn [mbind outcome_bind].
    replace (rdfs_va sbi q + 8 * k + 8) with (rdfs_va sbi q + 8 * (k + 1)) by lia.
    destruct (IH m1 l1 (k + 1)) as (m2 & l2 & E2 & Hf2 & Hl2 & Hk2); try done.
    + rewrite Hl1'. constructor; [set_solver|]. rewrite (Permutation_app_comm (sub x) l), app_assoc.
      apply NoDup_app. split; [done|]. split; [|done]. set_solver.
    + by apply (row_keeps (sub x ++ l) m).
    + rewrite Forall_forall in Hhs |- *. intros y Hy. apply (holds_keeps (sub x ++ l) m); try done.
      * rewrite Forall_forall in Hps. apply Forall_forall. intros p Hp. apply Hps. unfold subs. apply list_elem_of_bind. by exists y.
      * intros p Hp. assert (p ∈ subs xs) by (unfold subs; apply list_elem_of_bind; by exists y).
        intros [Hp1|Hp1]%elem_of_app; [apply (Hx2 p Hp1); set_solver|by apply (Hs2 p)].
      * by apply Hhs.
    + exists m2, l2. split; [done|]. split; [done|]. split.
      * rewrite Hl2, Hl1', app_assoc. rewrite (Permutation_app_comm (subs xs)). done.
      * eapply keeps_mono; [|eapply keeps_trans; [exact Hk1|exact Hk2]]. intros p.
        rewrite !elem_of_app, Hl1', elem_of_app. tauto.
Qed.

(** The loop over a whole directory page, then the page itself is freed. *)
Lemma rm_level_range m l q xs :
  free m l -> page_ok q -> Forall page_ok (subs xs) -> NoDup ((q :: subs xs) ++ l) ->
  row m q 0 ((fun x => dir_entry (Some (root x))) <$> xs) -> Forall (holds m) xs ->
  exists m1 l', loop 512 m disks (rdfs_va sbi q) = Ret (m1, disks) /\
    free (rdfs_free_block sbi m1 q) l' /\ l' ≡ₚ (q :: subs xs) ++ l /\
    keeps ((q :: subs xs) ++ l) m (rdfs_free_block sbi m1 q).
Proof.
  intros Hf Hq Hps Hn Hrow Hh.
  destruct (rm_level_loop m l q 0 xs Hf Hq Hps Hn Hrow Hh) as (m1 & l1 & E & Hf1 & Hl1 & Hk1).
  rewrite Z.mul_0_r, Z.add_0_r in E. change (Z.to_nat (512 - 0)) with 512%nat in E.
  apply NoDup_cons in Hn as [Hq1 _].
  destruct (free_step m1 q l1 Hf1 Hq) as [Hf2 Hk2]; [by rewrite Hl1|].
  exists m1, (q :: l1). split; [done|]. split; [done|]. split; [by rewrite Hl1|].
  eapply keeps_mono; [|eapply keeps_trans; [exact Hk1|exact Hk2]]. intros p.
  cbn. rewrite !elem_of_app, !elem_of_cons, Hl1, !elem_of_app. tauto.
Qed.
End level.

(** ** The table as a tree

    A file's table whose used entries lead in every page (blocks are only added
    at the end of a file): pte pages with their data pages, grouped under pmd
    pages. *)
Definition leaf : Type := Z * list Z.
Definition branch : Type := Z * list leaf.

Definition leaf_pages (x : leaf) : list Z := x.1 :: x.2.
Definition branch_pages (x : branch) : list Z := x.1 :: subs leaf_pages x.2.
Definition tree_pages (top : Z) (xs : list branch) : list Z := top :: subs branch_pages xs.

Definition leaf_holds (m : mem) (x : leaf) : Prop := row m x.1 0 (page_entry <$> x.2).
Definition branch_holds (m : mem) (x : branch) : Prop :=
  row m x.1 0 ((fun y => dir_entry (Some y.1)) <$> x.2) /\ Forall (leaf_holds m) x.2.
Definition tree_holds (m : mem) (top : Z) (xs : list branch) : Prop :=
  row m top 0 ((fun y => dir_entry (Some y.1)) <$> xs) /\ Forall (branch_holds m) xs.

Lemma leaf_keeps ps m m' x : keeps ps m m' -> Forall page_ok (leaf_pages x) ->
  (forall q, q ∈ leaf_pages x -> q ∉ ps) -> leaf_holds m x -> leaf_holds m' x.
Proof using Type.
  intros Hk Hp Hn Hh. inversion Hp; subst. apply (row_keeps ps m); try done. apply Hn. constructor.
Qed.

Lemma subs_elem {X} (sub : X -> list Z) xs x q : x ∈ xs -> q ∈ sub x -> q ∈ subs sub xs.
Proof using Type. intros Hx Hq. unfold subs. apply list_elem_of_bind. by exists x. Qed.

Lemma branch_keeps ps m m' x : keeps ps m m' -> Forall page_ok (branch_pages x) ->
  (forall q, q ∈ branch_pages x -> q ∉ ps) -> branch_holds m x -> branch_holds m' x.
Proof using Type.
  intros Hk Hp Hn [H1 H2]. inversion Hp as [|? ? Hp1 Hp2]; subst. split.
  - apply (row_keeps ps m); try done. apply Hn. constructor.
  - rewrite Forall_forall in H2 |- *. intros y Hy. apply (leaf_keeps ps m); [done| | |by apply H2].
    + rewrite Forall_forall in Hp2. apply Forall_forall. intros q Hq. apply Hp2. by apply (subs_elem leaf_pages _ y).
    + intros q Hq. apply Hn. apply elem_of_cons. right. by apply (subs_elem leaf_pages _ y).
Qed.

Lemma rm_pte_range_ok cpu disks m l x pmd :
  free m l -> Forall page_ok (leaf_pages x) -> NoDup (leaf_pages x ++ l) ->
  ld 8 m pmd = dir_entry (Some x.1) -> leaf_holds m x ->
  exists m' l', rdfs_rm_pte_range sbi cpu m disks pmd = Ret (m', disks) /\ free m' l' /\
    l' ≡ₚ leaf_pages x ++ l /\ keeps (leaf_pages x ++ l) m m'.
Proof.
  intros Hf Hp Hn E Hh. inversion Hp as [|? ? Hr Hps]; subst. destruct x as [r ps]. cbn in *.
  destruct (rm_pte_loop_ok cpu m l disks r 0 ps Hf Hr Hps Hn Hh) as (m1 & E1 & Hf1 & Hk1).
  unfold rdfs_rm_pte_range. rewrite (get_pte_eq m pmd r Hr E).
  rewrite Z.mul_0_r, Z.add_0_r in E1. change (Z.to_nat (512 - 0)) with (Z.to_nat PTRS_PER_TABLE) in E1.
  rewrite E1. cbn [mbind outcome_bind]. unfold rdfs_pte_free. rewrite pa_va by done.
  apply NoDup_cons in Hn as [Hr1 _]. destruct (free_step m1 r _ Hf1 Hr) as [Hf2 Hk2].
  { rewrite <- (Permutation_rev ps). done. }
  eexists _, _. split; [done|]. split; [exact Hf2|]. split; [by rewrite <- (Permutation_rev ps)|].
  eapply keeps_mono; [|eapply keeps_trans; [exact Hk1|exact Hk2]]. intros p.
  cbn. rewrite !elem_of_app, !elem_of_cons, !elem_of_app, <- (Permutation_rev ps). tauto.
Qed.

Lemma rm_pmd_range_ok cpu disks m l x pud :
  free m l -> Forall page_ok (branch_pages x) -> NoDup (branch_pages x ++ l) ->
  ld 8 m pud = dir_entry (Some x.1) -> branch_holds m x ->
  exists m' l', rdfs_rm_pmd_range sbi cpu m disks pud = Ret (m', disks) /\ free m' l' /\
    l' ≡ₚ branch_pages x ++ l /\ keeps (branch_pages x ++ l) m m'.
Proof.
  intros Hf Hp Hn E [H1 H2]. inversion Hp as [|? ? Hq Hps]; subst.
  destruct (rm_level_range fst leaf_pages leaf_holds disks (rdfs_rm_pte_range sbi cpu) (rm_pmd_loop sbi cpu)
    ltac:(intros; constructor) ltac:(done) ltac:(done) leaf_keeps (rm_pte_range_ok cpu disks)
    m l x.1 x.2 Hf Hq Hps Hn H1 H2) as (m1 & l' & E1 & Hf1 & Hl1 & Hk1).
  exists (rdfs_free_block sbi m1 x.1), l'. split; [|done].
  unfold rdfs_rm_pmd_range. rewrite (get_pmd_eq m pud _ Hq E).
  change (Z.to_nat PTRS_PER_TABLE) with 512%nat. rewrite E1. cbn [mbind outcome_bind].
  unfold rdfs_pmd_free. by rewrite pa_va.
Qed.

Lemma rm_pg_table_ok cpu disks m l ino top xs :
  free m l -> (forall a, get_rdfs_inode m sbi ino <= a < get_rdfs_inode m sbi ino + RDFS_INODE_SIZE -> meta a) ->
  ld 8 m (get_rdfs_inode m sbi ino + inode_off.i_pg_addr) = top ->
  tree_holds m top xs -> Forall page_ok (tree_pages top xs) -> NoDup (tree_pages top xs ++ l) ->
  exists m' l', rdfs_rm_pg_table sbi cpu m disks ino = Ret (m', disks) /\ free m' l' /\
    l' ≡ₚ tree_pages top xs ++ l /\
    ld 8 m' (get_rdfs_inode m' sbi ino + inode_off.i_pg_addr) = 0.
Proof.
  intros Hf Hs Hroot [H1 H2] Hp Hn. inversion Hp as [|? ? Ht Hps]; subst.
  set (ni := get_rdfs_inode m sbi ino) in *. set (top := ld 8 m (ni + inode_off.i_pg_addr)) in *.
  destruct (rm_level_range fst branch_pages branch_holds disks (rdfs_rm_pmd_range sbi cpu) (rm_pud_loop sbi cpu)
    ltac:(intros; constructor) ltac:(done) ltac:(done) branch_keeps (rm_pmd_range_ok cpu disks)
    m l top xs Hf Ht Hps Hn H1 H2) as (m1 & l' & E1 & Hf1 & Hl1 & Hk1).
  unfold rdfs_rm_pg_table. fold ni.
  assert (E : rdfs_get_pud sbi m ino = rdfs_va sbi top).
  { unfold rdfs_get_pud. fold ni. fold top. pose proof (page_phys sbi top Ht) as [? _].
    by rewrite (proj2 (Z.eqb_neq _ 0)) by lia. }
  rewrite E, va_nz by done. change (Z.to_nat PTRS_PER_TABLE) with 512%nat. rewrite E1.
  cbn [mbind outcome_bind]. unfold rdfs_pud_free. rewrite pa_va by done.
  assert (Hm : forall b, ni + inode_off.i_pg_addr <= b < ni + inode_off.i_pg_addr + 8 -> meta b).
  { intros b Hb. apply Hs. unfold inode_off.i_pg_addr, RDFS_INODE_SIZE in *. lia. }
  pose proof (free_st_meta _ _ (ni + inode_off.i_pg_addr) 0 Hf1 Hm) as Hf2.
  eexists _, l'. split; [done|]. split; [done|]. split; [done|].
  rewrite (free_inode sbi m _ l l' ino Hf Hf2). fold ni. by rewrite ld8_st8 by lia.
Qed.

(** ** Mapping a file into the kernel's table *)

(** A file's address area. *)
Definition file_area (va : Z) : Prop := file_addr va 0.

Lemma pud_step va k : file_area va -> 0 <= k < 31 ->
  pud_addr_end (va + k * PUD_SIZE) (u64 (va + MAX_FILE_SIZE - 1)) = va + (k + 1) * PUD_SIZE.
Proof using Type.
  intros [[H1 H2] H3 _] Hk. unfold pud_addr_end.
  unfold RDFS_START, RDFS_END, DIR_AREA_SIZE, MAX_FILE_SIZE, PUD_SIZE in *.
  assert (Ha : exists a, va = a * 2 ^ 35) by (exists (va / 2 ^ 35); zdm). destruct Ha as [a ->].
  rewrite (u64_small (_ + 2 ^ 30)), (u64_small (a * 2 ^ 35 + 2 ^ 35 - 1)) by lia. rewrite land_mask_field by lia.
  rewrite (Z.mod_small _ (2 ^ 64)) by lia.
  replace ((a * 2 ^ 35 + k * 2 ^ 30 + 2 ^ 30) / 2 ^ 30 * 2 ^ 30) with (a * 2 ^ 35 + (k + 1) * 2 ^ 30) by zdm.
  rewrite !u64_small by lia. by rewrite (proj2 (Z.ltb_lt _ _)) by lia.
Qed.

Lemma pud_slot va k : va mod MAX_FILE_SIZE = 0 -> (va + k * PUD_SIZE) / PUD_SIZE = va / PUD_SIZE + k.
Proof using Type. intros _. unfold PUD_SIZE. rewrite Z.div_add by lia. done. Qed.

(** The kernel's pud entries of [va] from index [k] on, for the directory pages [qs]. *)
Fixpoint map_puds (va k : Z) (qs : list Z) (km : gmap Z Z) : gmap Z Z :=
  match qs with
  | [] => km
  | q :: qs => map_puds va (k + 1) qs (<[va / PUD_SIZE + k := Z.lor q PAGE_TABLE]> km)
  end.

Fixpoint unmap_puds (va k : Z) (n : nat) (km : gmap Z Z) : gmap Z Z :=
  match n with O => km | S n => unmap_puds va (k + 1) n (delete (va / PUD_SIZE + k) km) end.

Lemma nvmap_loop_ok kok va m top n qs q k km :
  file_area va -> (forall i, 0 <= i < 32 -> kok (va + i * PUD_SIZE) = true) ->
  page_ok top -> Forall page_ok (q :: qs) -> row m top k ((fun q => dir_entry (Some q)) <$> q :: qs) ->
  k + Z.of_nat (length (q :: qs)) <= 32 -> (length (q :: qs) <= n)%nat ->
  nvmap_file_loop sbi kok n m km (va + k * PUD_SIZE) (u64 (va + MAX_FILE_SIZE - 1)) (rdfs_va sbi top + 8 * k)
  = (0, mk_kmm (map_puds va k (q :: qs) (kpud km)) (kpmd km)).
Proof.
  intros Ha Hok Ht. revert n q k km. induction qs as [|q' qs IH]; intros n q k km Hq Hrow Hk Hn.
  all: destruct n as [|n]; [cbn in Hn; lia|]; cbn [nvmap_file_loop]; cbn [fmap list_fmap length] in Hrow, Hk, Hn.
  all: destruct (row_tail _ _ _ _ _ Hrow) as (Ev & Hrow' & _); inversion Hq as [|? ? Hqp Hqs]; subst.
  all: pose proof Hrow as (_ & _ & Hk0 & _).
  all: rewrite Hok by lia; cbn [negb]; rewrite (get_pmd_eq m _ q Hqp Ev), pa_va by done.
  all: rewrite pud_slot by apply Ha.
  all: replace (rdfs_va sbi top + 8 * k + 8) with (rdfs_va sbi top + 8 * (k + 1)) by lia.
  - destruct Hrow' as (_ & H2 & _). cbn in H2. rewrite Z.add_0_r in H2. rewrite H2 by lia.
    by rewrite entry_none_spec.
  - destruct (row_tail _ _ _ _ _ Hrow') as (Ev' & _ & _). rewrite Ev'. inversion Hqs as [|? ? Hq' _]; subst.
    destruct (table_entry q' Hq') as (-> & Hr & _). rewrite entry_none_pos by lia.
    rewrite pud_step by (done || lia). rewrite (IH _ q'); try done; [cbn [length]; lia|cbn [length]; lia].
Qed.

Lemma unnvmap_loop_ok va m top n qs k km :
  file_area va -> page_ok top -> Forall page_ok qs -> row m top k ((fun q => dir_entry (Some q)) <$> qs) ->
  k + Z.of_nat (length qs) <= 31 -> (length qs < n)%nat ->
  unnvmap_file_loop n m km (va + k * PUD_SIZE) (u64 (va + MAX_FILE_SIZE - 1)) (rdfs_va sbi top + 8 * k)
  = (0, mk_kmm (unmap_puds va k (length qs) (kpud km)) (kpmd km)).
Proof.
  intros Ha Ht. revert n k km. induction qs as [|q qs IH]; intros n k km Hq Hrow Hk Hn.
  all: destruct n as [|n]; [cbn in Hn; lia|]; cbn [unnvmap_file_loop]; cbn [fmap list_fmap length] in Hrow, Hk, Hn.
  - destruct Hrow as (_ & H2 & _). cbn in H2. rewrite Z.add_0_r in H2. rewrite H2 by lia.
    rewrite entry_none_spec. by destruct km.
  - destruct (row_tail _ _ _ _ _ Hrow) as (Ev & Hrow' & _). inversion Hq as [|? ? Hqp Hqs]; subst.
    destruct (table_entry q Hqp) as (Ee & Hr & _). rewrite Ev, Ee, entry_none_pos by lia.
    pose proof Hrow as (_ & _ & Hk0 & _).
    rewrite pud_slot by apply Ha. rewrite pud_step by (done || lia).
    replace (rdfs_va sbi top + 8 * k + 8) with (rdfs_va sbi top + 8 * (k + 1)) by lia.
    rewrite IH; try done; [cbn; lia|lia].
Qed.

Lemma map_puds_lookup va qs k km s :
  map_puds va k qs km !! s =
    match qs !! Z.to_nat (s - va / PUD_SIZE - k) with
    | Some q => if va / PUD_SIZE + k <=? s then Some (Z.lor q PAGE_TABLE) else km !! s
    | None => km !! s
    end.
Proof using Type.
  revert k km. induction qs as [|q qs IH]; intros k km; [done|]. cbn [map_puds]. rewrite IH.
  destruct (decide (s = va / PUD_SIZE + k)) as [->|Hne].
  - rewrite lookup_insert_eq. replace (va / PUD_SIZE + k - va / PUD_SIZE - k) with 0 by lia. cbn.
    repeat case_match; simplify_eq/=; try done; exfalso; lia.
  - rewrite lookup_insert_ne by done. destruct (decide (va / PUD_SIZE + k < s)) as [Hlt|Hlt].
    + replace (Z.to_nat (s - va / PUD_SIZE - k)) with (S (Z.to_nat (s - va / PUD_SIZE - (k + 1)))) by lia.
      rewrite <- lookup_tail. cbn [tail]. destruct (qs !! _); [|done].
      repeat case_match; try done; exfalso; lia.
    + replace (Z.to_nat (s - va / PUD_SIZE - k)) with 0%nat by lia. cbn. repeat case_match; simplify_eq/=; try done; exfalso; lia.
Qed.

Lemma unmap_puds_lookup va n k km s :
  unmap_puds va k n km !! s =
    if decide (va / PUD_SIZE + k <= s < va / PUD_SIZE + k + Z.of_nat n) then None else km !! s.
Proof using Type.
  revert k km. induction n as [|n IH]; intros k km; cbn [unmap_puds].
  - case_decide; [exfalso; lia|done].
  - rewrite IH. destruct (decide (s = va / PUD_SIZE + k)) as [->|Hne].
    + rewrite lookup_delete_eq. repeat case_decide; try done; exfalso; lia.
    + rewrite lookup_delete_ne by done. repeat case_decide; try done; exfalso; lia.
Qed.

(** Mapping a free area and unmapping it again. *)
Lemma map_unmap va qs km :
  (forall s, va / PUD_SIZE <= s < va / PUD_SIZE + Z.of_nat (length qs) -> km !! s = None) ->
  unmap_puds va 0 (length qs) (map_puds va 0 qs km) = km.
Proof using Type.
  intros Hno. apply map_eq. intros s. rewrite unmap_puds_lookup, map_puds_lookup, !Z.sub_0_r, !Z.add_0_r.
  case_decide as Hd; [symmetry; by apply Hno|]. destruct (qs !! _) eqn:E; [|done].
  apply lookup_lt_Some in E. case_match; [exfalso; lia|done].
Qed.

Lemma file_area_tests va : file_area va ->
  (va =? 0) = false /\ in_dir_area va = false /\ in_file_area va = true.
Proof using Type.
  intros [[H1 H2] H3 _]. unfold in_dir_area, in_file_area.
  unfold RDFS_START, RDFS_END, DIR_AREA_SIZE, MAX_FILE_SIZE, MAX_DIR_SIZE in *.
  split; [lia|]. rewrite u64_small by lia. lia.
Qed.

(** [nvmap] and [unnvmap] of a file whose top page leads to the pmd pages [qs]. *)
Definition pmds (xs : list branch) : list Z := (fun y : branch => y.1) <$> xs.

Lemma length_pmds xs : length (pmds xs) = length xs.
Proof using Type. apply length_fmap. Qed.

Lemma nvmap_ok kok m km va top xs :
  file_area va -> (forall i, 0 <= i < 32 -> kok (va + i * PUD_SIZE) = true) ->
  page_ok top -> Forall page_ok (pmds xs) -> tree_holds m top xs -> (1 <= length xs <= 31)%nat ->
  nvmap sbi kok m km va (rdfs_va sbi top) = Ret (0, mk_kmm (map_puds va 0 (pmds xs) (kpud km)) (kpmd km)).
Proof.
  intros Ha Hok Ht Hq [Hrow _] Hlen. destruct (file_area_tests va Ha) as (E1 & E2 & E3).
  pose proof (length_pmds xs) as El.
  assert (Hrow' : row m top 0 ((fun q => dir_entry (Some q)) <$> pmds xs)) by (unfold pmds; by rewrite <- list_fmap_compose).
  unfold nvmap, nvmap_file. rewrite E1, (va_nz top Ht), E2, E3. cbn [orb].
  destruct (pmds xs) as [|q qs] eqn:Eq; [cbn in El; lia|].
  assert (L : _) by (refine (nvmap_loop_ok kok va m top 512 qs q 0 km Ha Hok Ht Hq Hrow' _ _); rewrite El; lia).
  rewrite Z.mul_0_l, Z.mul_0_r, !Z.add_0_r in L. by rewrite L.
Qed.

Lemma unnvmap_ok m km va top xs :
  file_area va -> page_ok top -> Forall page_ok (pmds xs) -> tree_holds m top xs -> (length xs <= 31)%nat ->
  unnvmap m km va (rdfs_va sbi top) = (0, mk_kmm (unmap_puds va 0 (length xs) (kpud km)) (kpmd km)).
Proof.
  intros Ha Ht Hq [Hrow _] Hlen. destruct (file_area_tests va Ha) as (E1 & E2 & E3).
  pose proof (length_pmds xs) as El.
  assert (Hrow' : row m top 0 ((fun q => dir_entry (Some q)) <$> pmds xs)) by (unfold pmds; by rewrite <- list_fmap_compose).
  unfold unnvmap, unnvmap_file. rewrite E1, (va_nz top Ht), E2, E3.
  pose proof (unnvmap_loop_ok va m top 512 (pmds xs) 0 km Ha Ht Hq Hrow' ltac:(lia) ltac:(lia)) as L.
  rewrite Z.mul_0_l, Z.mul_0_r, !Z.add_0_r in L. by rewrite L, El.
Qed.

Lemma map_puds_entry va xs km i (x : branch) : xs !! i = Some x ->
  map_puds va 0 (pmds xs) km !! (va / PUD_SIZE + Z.of_nat i) = Some (Z.lor x.1 PAGE_TABLE).
Proof using Type.
  intros Hx. rewrite map_puds_lookup, Z.sub_0_r, Z.add_0_r.
  replace (Z.to_nat (va / PUD_SIZE + Z.of_nat i - va / PUD_SIZE)) with i by lia.
  unfold pmds. rewrite (list_lookup_fmap (fun y : branch => y.1) xs i), Hx. cbn [fmap option_fmap option_map].
  by rewrite (proj2 (Z.leb_le _ _)) by lia.
Qed.

Lemma map_puds_idem va qs km : map_puds va 0 qs (map_puds va 0 qs km) = map_puds va 0 qs km.
Proof using Type.
  apply map_eq. intros s. rewrite map_puds_lookup. rewrite map_puds_lookup. destruct (qs !! _); [|done].
  by destruct (_ <=? s).
Qed.

(** ** What the operations promise *)

(** C6: Adding a block to a file's table: [rdfs_insert_page] either returns 0 and
    [rdfs_find_data_block] then finds the block's entry, or returns -1, which
    happens only with fewer than two free pages; in both cases every other
    block is found as before and the table stays well formed. *)
Theorem insert_page_finds m l km ino_ t f cpu kok phys :
  pt_state m l (i_ino ino_) t f -> file_addr (ni_virt_addr ino_) (i_blocks ino_ - 1) ->
  0 <= phys < 2 ^ 64 ->
  exists err m' km' l' t' f', rdfs_insert_page sbi cpu kok m km ino_ phys = (err, m', km') /\
    pt_state m' l' (i_ino ino_) t' f' /\
    (forall b v, 0 <= b -> b <> i_blocks ino_ - 1 -> f !! b = Some v ->
       rdfs_find_data_block sbi m' (i_ino ino_) b = v) /\
    ((err = 0 /\ f' = <[i_blocks ino_ - 1 := page_entry phys]> f /\
      rdfs_find_data_block sbi m' (i_ino ino_) (i_blocks ino_ - 1) = page_entry phys) \/
     (err = -1 /\ f' = f /\ (length l < 2)%nat)).
Proof.
  intros HS Ha Hp. pose proof (fa_block _ _ Ha) as Hb.
  destruct (insert_page_ok m l km ino_ t f cpu kok phys _ HS eq_refl Ha Hp)
    as (err & m' & km' & l' & t' & f' & E & HS' & _ & _ & _ & Hres).
  exists err, m', km', l', t', f'. split; [exact E|]. split; [exact HS'|]. split.
  - intros b v Hb' Hne Hv. apply (find_block m' l' _ t' f' b v HS' Hb').
    destruct Hres as [[_ ->]|(_ & -> & _)]; [by rewrite lookup_insert_ne|done].
  - destruct Hres as [[-> ->]|(-> & -> & Hl)]; [left|by right]. split; [done|]. split; [done|].
    apply (find_block m' l' _ t' _ _ _ HS'); [lia|]. apply lookup_insert_eq.
Qed.

(** A new table: with three free pages, [rdfs_init_pg_table] returns 0, the
    inode's table is well formed and every block below 512 is absent; with
    fewer it returns -PGFAILD. *)
Theorem init_pg_table_empty m cpu ino l :
  free m l ->
  (forall a, get_rdfs_inode m sbi ino <= a < get_rdfs_inode m sbi ino + RDFS_INODE_SIZE -> meta a) ->
  match l with
  | p1 :: p2 :: p3 :: l' =>
      exists m' t, rdfs_init_pg_table sbi cpu m ino = (0, m') /\ pt_state m' l' ino t ∅ /\
        tables t = [p1; p2; p3] /\
        forall b, 0 <= b < 512 -> rdfs_find_data_block sbi m' ino b = 0
  | _ => (rdfs_init_pg_table sbi cpu m ino).1 = - PGFAILD
  end.
Proof.
  intros Hf Hs. destruct l as [|p1 [|p2 [|p3 l']]];
    [apply (init_pg_table_fail m cpu ino _ Hf); cbn; lia..|].
  destruct (init_pg_table_ok m cpu ino p1 p2 p3 l' Hf Hs) as (m' & E & HS & _).
  exists m', (mk_ptree p1 {[0 := p2]} {[(0, 0) := p3]}). split; [exact E|]. split; [exact HS|].
  split; [unfold tables; cbn; by rewrite !map_to_list_singleton|]. intros b Hb.
  rewrite (find_entry m' l' ino _ ∅ 0 0 p3 b b HS); [by rewrite lookup_empty|apply lookup_singleton_eq|done|].
  unfold blocknr. lia.
Qed.

(** C7: Deleting a table whose pages are pairwise different, as those of a
    directory and of a file of one block are: [rdfs_rm_pg_table] puts every page
    of the table and every data page it leads to back on the free list, exactly
    once, and clears the inode's root pointer.  (The table of a regular file of
    two or more blocks has its page of entries once per block and is not of this
    form; see [grown_file_double_free].) *)
Theorem rm_pg_table_frees cpu disks m l ino top xs :
  free m l -> (forall a, get_rdfs_inode m sbi ino <= a < get_rdfs_inode m sbi ino + RDFS_INODE_SIZE -> meta a) ->
  ld 8 m (get_rdfs_inode m sbi ino + inode_off.i_pg_addr) = top ->
  tree_holds m top xs -> Forall page_ok (tree_pages top xs) -> NoDup (tree_pages top xs ++ l) ->
  exists m' l', rdfs_rm_pg_table sbi cpu m disks ino = Ret (m', disks) /\ free m' l' /\
    l' ≡ₚ tree_pages top xs ++ l /\ NoDup l' /\
    rdfs_get_pud sbi m' ino = 0.
Proof.
  intros Hf Hs Hr Ht Hp Hn.
  destruct (rm_pg_table_ok cpu disks m l ino top xs Hf Hs Hr Ht Hp Hn) as (m' & l' & E & Hf' & Hl & Hz).
  exists m', l'. split; [done|]. split; [done|]. split; [done|]. split; [by rewrite Hl|].
  unfold rdfs_get_pud. by rewrite Hz.
Qed.

(** C8: Mapping a file: [nvmap] makes the kernel's pud entries of the file's area
    the file's own pmd pages, and [unnvmap] with the same table removes exactly
    those entries, so that the kernel's table is as before. *)
Theorem nvmap_unnvmap kok m km va top (xs : list branch) :
  file_area va -> (forall i, 0 <= i < 32 -> kok (va + i * PUD_SIZE) = true) ->
  page_ok top -> Forall page_ok (fst <$> xs) -> tree_holds m top xs -> (1 <= length xs <= 31)%nat ->
  (forall s, va / PUD_SIZE <= s < va / PUD_SIZE + Z.of_nat (length xs) -> kpud km !! s = None) ->
  exists km', nvmap sbi kok m km va (rdfs_va sbi top) = Ret (0, km') /\
    (forall i x, xs !! i = Some x -> kpud km' !! (va / PUD_SIZE + Z.of_nat i) = Some (Z.lor x.1 PAGE_TABLE)) /\
    (forall s, kpud km' !! s <> kpud km !! s -> va / PUD_SIZE <= s < va / PUD_SIZE + Z.of_nat (length xs)) /\
    unnvmap m km' va (rdfs_va sbi top) = (0, km).
Proof.
  intros Ha Hok Ht Hq Hh Hlen Hno. eexists. split; [by apply nvmap_ok|]. cbn [kpud kpmd]. split; [|split].
  - intros i x. apply map_puds_entry.
  - intros s. rewrite map_puds_lookup, Z.sub_0_r, Z.add_0_r. destruct (pmds xs !! _) eqn:E; [|done].
    apply lookup_lt_Some in E. rewrite length_pmds in E. case_match eqn:Ec; [apply Z.leb_le in Ec; lia|done].
  - rewrite (unnvmap_ok m _ va top xs) by (done || lia). cbn [kpud kpmd].
    pose proof (map_unmap va (pmds xs) (kpud km)) as Hmu. rewrite length_pmds in Hmu.
    rewrite Hmu by done. by destruct km.
Qed.
End rep.

(** ** The theorems on a small filesystem

    Inode 1 of the formatted area gets a table, a page and one block. *)

#[local] Existing Instance x86_pg.

Definition tbl_file : inode :=
  set_i_ino 1 (set_i_blocks 1 (set_ni_virt_addr (RDFS_START + DIR_AREA_SIZE)
    (mk_inode 0 0 0 0 0 0 0 0 0 0 0 0 0 0 0 0 0 0 0 0 0))).
Definition demo_table : mem := (rdfs_init_pg_table demo_sbi 0 demo_mem 1).2.
Definition demo_block : mem := (rdfs_get_zeroed_page demo_sbi demo_table 0).2.
Definition demo_inserted : mem :=
  (rdfs_insert_page demo_sbi 0 (fun _ => true) demo_block (mk_kmm ∅ ∅) tbl_file 0x1000e000).1.2.
Definition demo_tree : list branch := [(0x1000c000, [(0x1000d000, [0x1000e000])])].

Lemma tbl_file_addr : file_addr (ni_virt_addr tbl_file) (i_blocks tbl_file - 1).
Proof. split; vm_compute; repeat split; congruence. Qed.

Lemma demo_pages_ok : Forall (node_page demo_node) demo_pages.
Proof. destruct demo_free as (_ & _ & [_ _ Hp _]). exact Hp. Qed.

Lemma demo_inserted_free : node_free demo_sbi demo_node demo_inserted (drop 4 demo_pages).
Proof.
  split; [vm_compute; reflexivity|]. split; [vm_compute; reflexivity|]. split.
  - vm_compute. reflexivity.
  - vm_compute. repeat split; reflexivity.
  - apply Forall_drop, demo_pages_ok.
  - apply (bool_decide_unpack _). vm_compute. exact I.
Qed.

Lemma demo_tree_holds : tree_holds demo_sbi demo_inserted 0x1000b000 demo_tree.
Proof.
  assert (R : forall m r v, ld 8 m (rdfs_va demo_sbi r + 8 * (0 + Z.of_nat 0)) = v ->
    ld 8 m (rdfs_va demo_sbi r + 8 * (0 + Z.of_nat 1)) = 0 -> row demo_sbi m r 0 [v]).
  { intros m r v H1 H2. split; [|split; [intros _; exact H2|cbn; lia]].
    intros [|i] x; [intros [= <-]; exact H1|done]. }
  split; [apply R; vm_compute; reflexivity|]. constructor; [|constructor].
  split; [apply R; vm_compute; reflexivity|]. constructor; [|constructor]. apply R; vm_compute; reflexivity.
Qed.

Lemma init_pg_table_empty_witness :
  exists m' t, rdfs_init_pg_table demo_sbi 0 demo_mem 1 = (0, m') /\
    pt_state demo_sbi (free := node_free demo_sbi demo_node) (page_ok := node_page demo_node)
      (meta := node_meta demo_sbi demo_node) m' (drop 3 demo_pages) 1 t ∅.
Proof.
  destruct (init_pg_table_empty demo_sbi demo_mem 0 1 demo_pages demo_free (demo_slot _ demo_slot_mem)) as (m' & t & E & HS & _).
  exists m', t. split; [exact E|exact HS].
Defined.

Lemma insert_page_finds_witness :
  exists m' km', rdfs_insert_page demo_sbi 0 (fun _ => true) demo_table (mk_kmm ∅ ∅) tbl_file 0x1000e000
    = (0, m', km') /\ rdfs_find_data_block demo_sbi m' 1 0 = page_entry 0x1000e000.
Proof.
  destruct (init_pg_table_ok demo_sbi demo_mem 0 1 0x1000b000 0x1000c000 0x1000d000 (drop 3 demo_pages)
    demo_free (demo_slot _ demo_slot_mem)) as (m & E & HS & _).
  assert (Em : m = demo_table) by (unfold demo_table; by rewrite E). subst m.
  destruct (insert_page_finds demo_sbi demo_table (drop 3 demo_pages) (mk_kmm ∅ ∅) tbl_file _ ∅ 0
    (fun _ => true) 0x1000e000 HS tbl_file_addr) as (err & m' & km' & l' & t' & f' & E' & _ & _ & [(-> & _ & Hx)|(_ & _ & Hl)]).
  - lia.
  - exists m', km'. split; [exact E'|exact Hx].
  - exfalso. vm_compute in Hl. lia.
Defined.

Lemma rm_pg_table_frees_witness :
  exists m' l', rdfs_rm_pg_table demo_sbi 0 demo_inserted ∅ 1 = Ret (m', ∅) /\
    node_free demo_sbi demo_node m' l' /\
    l' ≡ₚ [0x1000b000; 0x1000c000; 0x1000d000; 0x1000e000] ++ drop 4 demo_pages.
Proof.
  destruct (rm_pg_table_frees demo_sbi 0 ∅ demo_inserted (drop 4 demo_pages) 1 0x1000b000 demo_tree
    demo_inserted_free) as (m' & l' & E & Hf & Hl & _).
  - apply demo_slot. vm_compute. reflexivity.
  - vm_compute. reflexivity.
  - exact demo_tree_holds.
  - exact (Forall_take _ 4 demo_pages demo_pages_ok).
  - apply (bool_decide_unpack _). vm_compute. exact I.
  - exists m', l'. split; [exact E|]. split; [exact Hf|exact Hl].
Defined.

Lemma nvmap_unnvmap_witness :
  exists km', nvmap demo_sbi (fun _ => true) demo_inserted (mk_kmm ∅ ∅) (RDFS_START + DIR_AREA_SIZE)
      (rdfs_va demo_sbi 0x1000b000) = Ret (0, km') /\
    unnvmap demo_inserted km' (RDFS_START + DIR_AREA_SIZE) (rdfs_va demo_sbi 0x1000b000) = (0, mk_kmm ∅ ∅).
Proof.
  pose proof (Forall_take _ 1 demo_pages demo_pages_ok) as Hp1.
  pose proof (Forall_take _ 1 _ (Forall_drop _ 1 demo_pages demo_pages_ok)) as Hp2.
  destruct (nvmap_unnvmap demo_sbi (page_ok := node_page demo_node) (fun _ => true) demo_inserted
    (mk_kmm ∅ ∅) (RDFS_START + DIR_AREA_SIZE) 0x1000b000 demo_tree) as (km' & E & _ & _ & E').
  - split; vm_compute; repeat split; congruence.
  - done.
  - by inversion Hp1.
  - exact Hp2.
  - exact demo_tree_holds.
  - cbn. lia.
  - intros s _. apply lookup_empty.
  - exists km'. split; [exact E|exact E'].
Defined.
