(* ===== verification/SlaveMem.v ===== *)
(** * Slave memory on the master (memory.c, rdfs_search_metadata)

    The master hands out the 4 KiB blocks of a slave's memory: a slave's blocks
    are kept as a list of groups of 64, a file takes a group at a time and then
    single blocks of it.  A file's blocks are recorded as 64-bit entries holding
    the slave and the block number, in pages of the master's own memory. *)

From S2P Require Import Prelude Mem Layout FreeList Balloc Pages Demo.

(** ** Constants (rdfs_config.h) *)

Definition RDFS_BLOCK_SHIFT : Z := 12.
Definition RDFS_BLOCK_SIZE : Z := 2 ^ 12.
Definition RDFS_BLOCK_OFFSET_MASK : Z := 0xFFF.
Definition PAGE_PTE_NUMS : Z := RDFS_BLOCK_SIZE / 8.
Definition MAX_SLAVE_NUMS : Z := 10.
Definition SLAVE_ID_SHIFT : Z := 52.
Definition BLOCK_ID_SHIFT : Z := 12.
Definition SLAVE_ID_MASK : Z := 0xFFF0000000000000.
Definition BLOCK_ID_MASK : Z := 0x000FFFFFFFFFF000.

(** ** Data (memory.h) *)

(** struct mem_bitmap_block; the lists linked by [next] are lists here. *)
Record mem_bitmap_block := mk_mbb { mbb_slave : Z; mbb_start : Z }.

(** struct slave_info, as far as the block lists go *)
Record slave_info := mk_slave {
  slave_id : Z;
  free_block_nums : Z;
  total_block_nums : Z;
  bitmap_head : list mem_bitmap_block
}.

(** struct pre_alloc_bitmap; [bitmap_held]: bitmap_lock is taken *)
Record pre_alloc_bitmap := mk_pre {
  pre_bits : Z;
  pre_start_block_id : Z;
  pre_alloc_slave_id : Z;
  pre_index : Z;
  bitmap_held : bool
}.

(** The fields of struct rdfs_inode_info used here *)
Record ri_info := mk_ri {
  pre_bitmap : option pre_alloc_bitmap;
  used_bitmap_list : list mem_bitmap_block
}.

(** struct pte_mem *)
Record pte_mem := mk_pte_mem {
  pte_start_addr : Z;
  free_pte_nums : Z;
  total_page_nums : Z;
  start_addr : Z
}.

(** ** A slave's groups *)

Fixpoint init_bitmap_loop (n : nat) (i sid : Z) : list mem_bitmap_block :=
  match n with
  | O => []
  | S n' => mk_mbb (u64 sid) (u64 (s32 (i * 64))) :: init_bitmap_loop n' (i + 1) sid
  end.

Definition rdfs_init_slave_memory_bitmap_list (s : slave_info) (rem_block_nums : Z) : slave_info :=
  let bitmap_nums := Z.quot rem_block_nums 64 in
  mk_slave (slave_id s) rem_block_nums rem_block_nums
    (init_bitmap_loop (Z.to_nat bitmap_nums) 0 (slave_id s)).

(** The loop reads tmp->next and frees tmp, without moving tmp: [live] is whether
    the block is still allocated. *)
Fixpoint free_bitmap_loop (n : nat) (live : bool) : outcome unit :=
  match n with
  | O => Ret tt
  | S n' => if live then free_bitmap_loop n' false else Oops
  end.

Definition rdfs_free_slave_memory_bitmap_list (s : slave_info) : outcome slave_info :=
  let bitmap_nums := Z.quot (free_block_nums s) 64 in
  _ ← free_bitmap_loop (Z.to_nat bitmap_nums) (match bitmap_head s with [] => false | _ => true end);
  Ret (mk_slave (slave_id s) (free_block_nums s) (total_block_nums s) []).

(** The error return -1 is an unsigned long. *)
Definition rdfs_alloc_slave_memory_bitmap (s : slave_info) : Z * slave_info :=
  if free_block_nums s =? 0 then (u64 (-1), s)
  else
    match bitmap_head s with
    | [] => (u64 (-1), s)
    | use :: tmp =>
        (mbb_start use, mk_slave (slave_id s) (s32 (free_block_nums s - 64)) (total_block_nums s) tmp)
    end.

Definition rdfs_free_slave_memoryt_bitmap (s : slave_info) (tmp : mem_bitmap_block) : slave_info :=
  mk_slave (slave_id s) (free_block_nums s) (total_block_nums s) (tmp :: bitmap_head s).

Definition rdfs_select_slave : Z := 0.

(** ** A file's blocks *)

(** slave_infos[MAX_SLAVE_NUMS]; an index outside it is a fault. *)
Definition get_slave (ss : list slave_info) (i : Z) : outcome slave_info :=
  if (0 <=? i) && (i <? MAX_SLAVE_NUMS) then
    match ss !! Z.to_nat i with Some s => Ret s | None => Oops end
  else Oops.

(** pre_bitmap filled with a new group of the selected slave; the lock word of
    the structure is left alone. *)
Definition take_group (ss : list slave_info) (held : bool) : outcome (pre_alloc_bitmap * list slave_info) :=
  let s_id := rdfs_select_slave in
  s ← get_slave ss s_id;
  let '(start_block_id, s) := rdfs_alloc_slave_memory_bitmap s in
  Ret (mk_pre 0 start_block_id (s32 s_id) 0 held, <[Z.to_nat s_id := s]> ss).

(** A full group goes to the used list before the next one is taken. *)
Definition retire (ri : ri_info) (p : pre_alloc_bitmap) : list mem_bitmap_block :=
  if negb (pre_alloc_slave_id p =? -1) then
    mk_mbb (u64 (pre_alloc_slave_id p)) (pre_start_block_id p) :: used_bitmap_list ri
  else used_bitmap_list ri.

(** set_bit(nr, &word) *)
Definition set_bit (nr word : Z) : Z := Z.lor word (2 ^ nr).
(** clear_bit(nr, &word) *)
Definition clear_bit (nr word : Z) : Z := Z.ldiff word (2 ^ nr).

(** The result: *block_id, *s_id. *)
Definition rdfs_alloc_slave_bitmap_memory (ss : list slave_info) (ri : ri_info)
  : outcome (Z * Z * list slave_info * ri_info) :=
  '(p, ss) ← match pre_bitmap ri with
             | None => take_group ss false
             | Some p => Ret (p, ss)
             end;
  '(p, ss, used) ← (if pre_index p =? 64 then
                      '(p', ss) ← take_group ss (bitmap_held p); Ret (p', ss, retire ri p)
                    else Ret (p, ss, used_bitmap_list ri));
  let bits := set_bit (pre_index p) (pre_bits p) in
  let block_id := u64 (pre_index p + pre_start_block_id p) in
  let p := mk_pre bits (pre_start_block_id p) (pre_alloc_slave_id p) (pre_index p + 1) (bitmap_held p) in
  Ret (block_id, u64 (pre_alloc_slave_id p), ss, mk_ri (Some p) used).

(** The lock is taken and never released; taking it twice spins forever. *)
Definition rdfs_free_slave_bitmap_memory (ri : ri_info) : outcome ri_info :=
  match pre_bitmap ri with
  | None => Oops
  | Some p =>
      if bitmap_held p then Oops
      else
        let i := pre_index p - 1 in
        Ret (mk_ri (Some (mk_pre (clear_bit i (pre_bits p)) (pre_start_block_id p)
                            (pre_alloc_slave_id p) i true)) (used_bitmap_list ri))
  end.

(** ** Entries *)

Definition pte_encode (s_id block_id : Z) : Z :=
  Z.lor (u64 (Z.shiftl s_id SLAVE_ID_SHIFT)) (u64 (Z.shiftl block_id BLOCK_ID_SHIFT)).

(** *s_id and *block_id of the entry at [offset] in the file's mapped entries;
    [rd] loads a word through the mapping. *)
Definition rdfs_search_metadata (rd : Z -> outcome Z) (i_virt_addr offset : Z) : outcome (Z * Z) :=
  pte_value ← rd (i_virt_addr + offset / 4096 * 8);
  Ret (Z.shiftr (Z.land pte_value SLAVE_ID_MASK) SLAVE_ID_SHIFT,
       Z.shiftr (Z.land pte_value BLOCK_ID_MASK) BLOCK_ID_SHIFT).

Section entries.
Context (sbi : rdfs_sb_info) (cpu : Z).

(** The globals pte_cnt and pte_phy_addr. *)
Record pte_page := mk_pte_page { pte_cnt : Z; pte_phy_addr : Z }.
Definition pte_page_init : pte_page := mk_pte_page PAGE_PTE_NUMS 0.

(** The result: *phyaddr, the page the entry is in. *)
Definition rdfs_new_page_pte (m : mem) (g : pte_page) (ss : list slave_info) (ri : ri_info) (ni : Z)
  : outcome (Z * mem * pte_page * list slave_info * ri_info) :=
  let '(g, m) :=
    if pte_cnt g =? PAGE_PTE_NUMS then
      let '(_, phys, m) := rdfs_new_block sbi m cpu (pte_phy_addr g) 1 (Some ni) in (mk_pte_page 0 phys, m)
    else (g, m) in
  '(block_id, s_id, ss, ri) ← rdfs_alloc_slave_bitmap_memory ss ri;
  let pte_addr := u64 (pte_phy_addr g + pte_cnt g * 8) in
  let m := st 8 m (rdfs_va sbi pte_addr) (pte_encode s_id block_id) in
  Ret (pte_phy_addr g, m, mk_pte_page (pte_cnt g + 1) (pte_phy_addr g), ss, ri).

(** ** The list of single entries *)

(** *tmp = next; tmp = rdfs_va(next); next += 8 *)
Fixpoint init_pte_loop (n : nat) (m : mem) (tmp next : Z) : mem :=
  match n with
  | O => m
  | S n' => init_pte_loop n' (st 8 m tmp next) (rdfs_va sbi next) (u64 (next + 8))
  end.

(** [phyaddr0]: the uninitialised local that rdfs_new_block leaves alone when it
    fails.  start_addr is an int. *)
Definition rdfs_init_pte_free_list (m : mem) (phyaddr0 page_nums : Z) : pte_mem * mem :=
  let '(_, phyaddr, m) := rdfs_new_block sbi m cpu phyaddr0 page_nums None in
  let pte_nums := Z.quot (s32 (page_nums * 4096)) 8 in
  (mk_pte_mem phyaddr pte_nums page_nums (s32 phyaddr),
   init_pte_loop (Z.to_nat pte_nums) m (rdfs_va sbi phyaddr) (u64 (phyaddr + 8))).

Fixpoint free_pte_pages (n : nat) (m : mem) (phyaddr : Z) : mem :=
  match n with
  | O => m
  | S n' => free_pte_pages n' (rdfs_free_block sbi m phyaddr) (u64 (phyaddr + PAGE_SIZE))
  end.

Definition rdfs_free_pte_free_list (m : mem) (p : pte_mem) : mem :=
  free_pte_pages (Z.to_nat (total_page_nums p)) m (u64 (start_addr p)).

(** The result: the return value and *phyaddr. *)
Definition rdfs_new_pte (m : mem) (p : pte_mem) (ss : list slave_info) (ri : ri_info)
  : outcome (option Z * mem * pte_mem * list slave_info * ri_info) :=
  if free_pte_nums p <? 1 then Ret (None, m, p, ss, ri)
  else
    let tmp := pte_start_addr p in
    let p := mk_pte_mem (ld 8 m (rdfs_va sbi tmp)) (free_pte_nums p) (total_page_nums p) (start_addr p) in
    '(block_id, s_id, ss, ri) ← rdfs_alloc_slave_bitmap_memory ss ri;
    Ret (Some tmp, st 8 m (rdfs_va sbi tmp) (pte_encode s_id block_id), p, ss, ri).

Definition rdfs_free_pte (m : mem) (p : pte_mem) (phyaddr : Z) : mem * pte_mem :=
  (st 8 m (rdfs_va sbi phyaddr) (pte_start_addr p),
   mk_pte_mem phyaddr (free_pte_nums p) (total_page_nums p) (start_addr p)).
End entries.

(** ** The master's block accounting

    The slaves' lists and the files' groups together; [files] by inode number. *)
Record sys := mk_sys { slaves : list slave_info; files : gmap Z ri_info }.

Definition new_ri : ri_info := mk_ri None [].
Definition file_of (y : sys) (f : Z) : ri_info := default new_ri (files y !! f).

(** One block for file [f]. *)
Definition sys_alloc (y : sys) (f : Z) : outcome (Z * sys) :=
  '(block_id, _, ss, ri) ← rdfs_alloc_slave_bitmap_memory (slaves y) (file_of y f);
  Ret (block_id, mk_sys ss (<[f := ri]> (files y))).

(** The groups a file holds, and the blocks it was given. *)
Definition groups (ri : ri_info) : list Z :=
  match pre_bitmap ri with Some p => [pre_start_block_id p] | None => [] end
    ++ (mbb_start <$> used_bitmap_list ri).

Definition given (ri : ri_info) (b : Z) : Prop :=
  (exists p, pre_bitmap ri = Some p /\ pre_start_block_id p <= b < pre_start_block_id p + pre_index p) \/
  (exists g, g ∈ used_bitmap_list ri /\ mbb_start g <= b < mbb_start g + 64).

(** The file has a block left in its group, or the slave has a group. *)
Definition room (y : sys) (f : Z) : Prop :=
  (exists p, pre_bitmap (file_of y f) = Some p /\ pre_index p < 64) \/
  (exists s g l, slaves y !! 0%nat = Some s /\ bitmap_head s = g :: l).

Definition group_ok (total g : Z) : Prop := 0 <= g /\ g + 64 <= total /\ g mod 64 = 0.

Record ri_ok (total : Z) (ri : ri_info) : Prop := {
  ri_pre p : pre_bitmap ri = Some p ->
    0 <= pre_index p <= 64 /\ pre_alloc_slave_id p = 0 /\ pre_bits p = Z.ones (pre_index p);
  ri_groups : Forall (group_ok total) (groups ri);
  ri_nodup : NoDup (groups ri)
}.

Record sys_inv (total : Z) (y : sys) : Prop := {
  inv_total : total < 2 ^ 31;
  inv_slave : exists s, slaves y !! 0%nat = Some s /\
    64 * Z.of_nat (length (bitmap_head s)) <= free_block_nums s <= total /\
    Forall (group_ok total) (mbb_start <$> bitmap_head s) /\ NoDup (mbb_start <$> bitmap_head s) /\
    (forall f g, g ∈ groups (file_of y f) -> g ∉ (mbb_start <$> bitmap_head s));
  inv_files f : ri_ok total (file_of y f);
  inv_disjoint f f' g : g ∈ groups (file_of y f) -> g ∈ groups (file_of y f') -> f = f'
}.

Lemma take_group_ok ss s g l held :
  ss !! 0%nat = Some s -> bitmap_head s = g :: l -> free_block_nums s <> 0 ->
  take_group ss held = Ret (mk_pre 0 (mbb_start g) 0 0 held,
    <[0%nat := mk_slave (slave_id s) (s32 (free_block_nums s - 64)) (total_block_nums s) l]> ss).
Proof.
  intros Hs Hh Hn. destruct ss as [|s0 ss]; [done|]. injection Hs as ->.
  unfold take_group. change (get_slave (s :: ss) rdfs_select_slave) with (Ret s).
  cbn [mbind outcome_bind]. unfold rdfs_alloc_slave_memory_bitmap.
  by rewrite (proj2 (Z.eqb_neq (free_block_nums s) 0)), Hh by done.
Qed.

Lemma set_bit_ones n : 0 <= n -> set_bit n (Z.ones n) = Z.ones (n + 1).
Proof.
  intros Hn. unfold set_bit. rewrite Z.lor_comm, !Z.ones_equiv, <- Z.sub_1_r.
  replace (2 ^ n) with (1 * 2 ^ n) at 1 by lia. rewrite lor_disjoint_add by (pose proof (Z.pow_pos_nonneg 2 n); lia).
  rewrite Z.pow_add_r by lia. lia.
Qed.

(** A block left in the group. *)
Lemma alloc_in_group ss ri p total :
  ri_ok total ri -> total < 2 ^ 31 -> pre_bitmap ri = Some p -> pre_index p < 64 ->
  rdfs_alloc_slave_bitmap_memory ss ri = Ret (pre_start_block_id p + pre_index p, 0, ss,
    mk_ri (Some (mk_pre (Z.ones (pre_index p + 1)) (pre_start_block_id p) 0 (pre_index p + 1) (bitmap_held p)))
      (used_bitmap_list ri)).
Proof.
  intros [H1 H2 H3] Ht Hp Hi. destruct (H1 p Hp) as (Hr & Hsl & Hb).
  unfold groups in H2. rewrite Hp in H2. inversion H2 as [|? ? (Hg1 & Hg2 & _) _]; subst.
  unfold rdfs_alloc_slave_bitmap_memory. rewrite Hp. cbn [mbind outcome_bind].
  rewrite (proj2 (Z.eqb_neq (pre_index p) 64)) by lia. cbn [mbind outcome_bind].
  rewrite Hb, set_bit_ones, Hsl, u64_small by lia. cbn. by rewrite (Z.add_comm (pre_index p)).
Qed.

(** A new group. *)
Definition retired (ri : ri_info) : list mem_bitmap_block :=
  match pre_bitmap ri with Some p => [mk_mbb 0 (pre_start_block_id p)] | None => [] end ++ used_bitmap_list ri.

Lemma alloc_new_group ss ri s g l total :
  ri_ok total ri -> total < 2 ^ 31 -> (forall p, pre_bitmap ri = Some p -> 64 <= pre_index p) ->
  ss !! 0%nat = Some s -> bitmap_head s = g :: l -> free_block_nums s <> 0 -> group_ok total (mbb_start g) ->
  exists held, rdfs_alloc_slave_bitmap_memory ss ri = Ret (mbb_start g, 0,
    <[0%nat := mk_slave (slave_id s) (s32 (free_block_nums s - 64)) (total_block_nums s) l]> ss,
    mk_ri (Some (mk_pre (Z.ones 1) (mbb_start g) 0 1 held)) (retired ri)).
Proof.
  intros [H1 H2 H3] Ht Hfull Hs Hh Hn (Hg1 & Hg2 & _). unfold rdfs_alloc_slave_bitmap_memory, retired.
  destruct (pre_bitmap ri) as [p|] eqn:Ep.
  - destruct (H1 p eq_refl) as (Hr & Hsl & Hb). specialize (Hfull p eq_refl).
    cbn [mbind outcome_bind]. rewrite (proj2 (Z.eqb_eq (pre_index p) 64)) by lia.
    rewrite (take_group_ok ss s g l _ Hs Hh Hn). cbn [mbind outcome_bind pre_index pre_start_block_id].
    exists (bitmap_held p). cbn. rewrite u64_small by lia. unfold retire. by rewrite Hsl.
  - rewrite (take_group_ok ss s g l _ Hs Hh Hn). cbn [mbind outcome_bind pre_index].
    exists false. cbn. by rewrite u64_small by lia.
Qed.

Lemma retired_groups ri : mbb_start <$> retired ri = groups ri.
Proof. unfold retired, groups. rewrite fmap_app. by destruct (pre_bitmap ri). Qed.

Lemma file_of_insert ss y f f' ri :
  file_of (mk_sys ss (<[f := ri]> (files y))) f' = if decide (f = f') then ri else file_of y f'.
Proof. unfold file_of. cbn. rewrite lookup_insert. by case_decide. Qed.

(** A block of a file lies in one of its groups. *)
Lemma given_group total ri b : ri_ok total ri -> given ri b ->
  exists g, g ∈ groups ri /\ g <= b < g + 64.
Proof.
  intros [H1 H2 H3] [(p & Hp & Hb)|(g & Hg & Hb)].
  - exists (pre_start_block_id p). destruct (H1 p Hp) as (Hr & _). unfold groups. rewrite Hp.
    split; [constructor|lia].
  - exists (mbb_start g). split; [|done]. unfold groups. apply elem_of_app. right.
    by apply list_elem_of_fmap_2.
Qed.

Lemma group_unique total g g' b : group_ok total g -> group_ok total g' ->
  g <= b < g + 64 -> g' <= b < g' + 64 -> g = g'.
Proof. intros (_ & _ & H1) (_ & _ & H2) H3 H4. zdm. Qed.

(** The next block of a group was not given to any file. *)
Lemma fresh_in_group total y f p :
  sys_inv total y -> pre_bitmap (file_of y f) = Some p -> pre_index p < 64 ->
  forall f', ~ given (file_of y f') (pre_start_block_id p + pre_index p).
Proof.
  intros [_ _ Hf Hd] Hp Hi f' Hg. set (b := pre_start_block_id p + pre_index p) in *.
  pose proof (Hf f) as [H1 H2 H3]. destruct (H1 p Hp) as (Hr & _).
  assert (Hin : pre_start_block_id p ∈ groups (file_of y f)) by (unfold groups; rewrite Hp; constructor).
  destruct (given_group total _ b (Hf f') Hg) as (g & Hgin & Hgb).
  pose proof (ri_groups _ _ (Hf f')) as H2'. rewrite Forall_forall in H2, H2'.
  assert (pre_start_block_id p = g) as <-
    by (apply (group_unique total _ _ b); [by apply H2|by apply H2'|lia|done]).
  pose proof (Hd f f' _ Hin Hgin) as <-. destruct Hg as [(p' & Hp' & Hb)|(u & Hu & Hb)].
  - rewrite Hp in Hp'. injection Hp' as <-. lia.
  - assert (Hu' : mbb_start u ∈ groups (file_of y f))
      by (unfold groups; apply elem_of_app; right; by apply list_elem_of_fmap_2).
    assert (E : mbb_start u = pre_start_block_id p)
      by (apply (group_unique total _ _ b); [by apply H2|by apply H2|lia|lia]).
    unfold groups in H3. rewrite Hp in H3. cbn in H3. apply NoDup_cons in H3 as [H3 _]. apply H3.
    rewrite <- E. by apply list_elem_of_fmap_2.
Qed.

(** Blocks of a group that is still on the slave's list were not given. *)
Lemma fresh_group total y s g l :
  sys_inv total y -> slaves y !! 0%nat = Some s -> bitmap_head s = g :: l ->
  forall f', ~ given (file_of y f') (mbb_start g).
Proof.
  intros [_ (s' & Hs' & _ & Hok & _ & Hown) Hf _] Hs Hh f' Hg. rewrite Hs in Hs'. injection Hs' as <-.
  rewrite Hh in Hok, Hown. inversion Hok as [|? ? Hgok _]; subst.
  destruct (given_group total _ _ (Hf f') Hg) as (g' & Hin & Hb).
  pose proof (ri_groups _ _ (Hf f')) as H2. rewrite Forall_forall in H2.
  assert (g' = mbb_start g) as -> by (apply (group_unique total _ _ (mbb_start g)); [by apply H2|done|done|lia]).
  apply (Hown f' (mbb_start g) Hin). constructor.
Qed.

(** Replacing a file's record. *)
Lemma inv_update total y ss f ri :
  sys_inv total y -> ri_ok total ri ->
  (exists s, ss !! 0%nat = Some s /\
    64 * Z.of_nat (length (bitmap_head s)) <= free_block_nums s <= total /\
    Forall (group_ok total) (mbb_start <$> bitmap_head s) /\ NoDup (mbb_start <$> bitmap_head s) /\
    (forall f' g, g ∈ (if decide (f = f') then groups ri else groups (file_of y f')) ->
       g ∉ (mbb_start <$> bitmap_head s))) ->
  (forall f' g, f <> f' -> g ∈ groups ri -> g ∉ groups (file_of y f')) ->
  sys_inv total (mk_sys ss (<[f := ri]> (files y))).
Proof.
  intros [Ht Hs Hf Hd] Hri (s & Hs1 & Hs2 & Hs3 & Hs4 & Hs5) Hdis. split; [done| | |].
  - exists s. split; [done|]. split; [done|]. split; [done|]. split; [done|]. intros f' g Hg. apply (Hs5 f').
    rewrite file_of_insert in Hg. by case_decide.
  - intros f'. rewrite file_of_insert. by case_decide.
  - intros f1 f2 g. rewrite !file_of_insert. repeat case_decide; subst; try done; intros H1 H2.
    + exfalso. by apply (Hdis f2 g).
    + exfalso. by apply (Hdis f1 g).
    + by apply (Hd f1 f2 g).
Qed.

Definition grows (y y' : sys) : Prop := forall f b, given (file_of y f) b -> given (file_of y' f) b.

Lemma grows_insert y ss f ri : (forall b, given (file_of y f) b -> given ri b) ->
  grows y (mk_sys ss (<[f := ri]> (files y))).
Proof. intros Hri f' b Hb. rewrite file_of_insert. case_decide; [subst; auto|done]. Qed.

(** What one allocation does. *)
Definition alloc_post (total : Z) (y : sys) (f b : Z) (y' : sys) : Prop :=
  sys_inv total y' /\ 0 <= b < total /\ (forall f', ~ given (file_of y f') b) /\ grows y y' /\
  given (file_of y' f) b.

Lemma sys_alloc_in_group total y f p : sys_inv total y ->
  pre_bitmap (file_of y f) = Some p -> pre_index p < 64 ->
  exists b y', sys_alloc y f = Ret (b, y') /\ alloc_post total y f b y'.
Proof.
  intros HI Hp Hi. pose proof HI as [Ht (s & Hs & Hcnt & Hok & Hnd & Hown) Hf Hd]. pose proof (Hf f) as Hri.
  unfold sys_alloc.
  rewrite (alloc_in_group _ _ p total Hri Ht Hp Hi). cbn [mbind outcome_bind]. pose proof Hri as [H1 H2 H3].
  destruct (H1 p Hp) as (Hr & _). eexists _, _. split; [reflexivity|].
  assert (Eg : groups (mk_ri (Some (mk_pre (Z.ones (pre_index p + 1)) (pre_start_block_id p) 0 (pre_index p + 1)
    (bitmap_held p))) (used_bitmap_list (file_of y f))) = groups (file_of y f)) by (unfold groups; by rewrite Hp).
  split; [|split; [|split; [|split]]].
  + apply inv_update; [done| | |].
    * split; [|by rewrite Eg|by rewrite Eg]. cbn. intros p' [= <-]. cbn. split; [lia|done].
    * exists s. rewrite Eg. repeat (split; [done|]). intros f' g. case_decide; subst; apply Hown.
    * rewrite Eg. intros f' g Hne Hg Hg'. apply Hne. by apply (Hd f f' g).
  + unfold groups in H2. rewrite Hp in H2. inversion H2 as [|? ? (Hg1 & Hg2 & _) _]; subst. lia.
  + by apply (fresh_in_group total y f p).
  + apply grows_insert. intros b [(p' & Hp' & Hb)|Hb]; [left|by right].
    rewrite Hp in Hp'. injection Hp' as <-. eexists. split; [reflexivity|]. cbn. lia.
  + rewrite file_of_insert, decide_True by done. left. eexists. split; [reflexivity|]. cbn. lia.
Qed.

Lemma sys_alloc_new_group total y f s g l : sys_inv total y ->
  (forall p, pre_bitmap (file_of y f) = Some p -> 64 <= pre_index p) ->
  slaves y !! 0%nat = Some s -> bitmap_head s = g :: l ->
  exists b y', sys_alloc y f = Ret (b, y') /\ alloc_post total y f b y'.
Proof.
  intros HI Hfull Hs Hh. pose proof HI as [Ht (s' & Hs' & Hcnt & Hok & Hnd & Hown) Hf Hd]. pose proof (Hf f) as Hri.
  rewrite Hs in Hs'. injection Hs' as <-. unfold sys_alloc.
  rewrite Hh in Hcnt, Hok, Hnd, Hown. cbn [length fmap list_fmap] in *.
  inversion Hok as [|? ? Hgok Hlok]; subst. apply NoDup_cons in Hnd as [Hgl Hnl].
  destruct (alloc_new_group (slaves y) (file_of y f) s g l total Hri Ht) as (held & ->); try done; [lia|].
  cbn [mbind outcome_bind]. eexists _, _. split; [reflexivity|]. pose proof Hri as [H1 H2 H3].
  assert (Eg : groups (mk_ri (Some (mk_pre (Z.ones 1) (mbb_start g) 0 1 held)) (retired (file_of y f)))
    = mbb_start g :: groups (file_of y f)) by (unfold groups at 1; cbn; by rewrite retired_groups).
  assert (Hgn : forall f', mbb_start g ∉ groups (file_of y f'))
    by (intros f' Hx; apply (Hown f' _ Hx); constructor).
  split; [|split; [|split; [|split]]].
  + apply inv_update; [done| | |].
    * split; [|rewrite Eg; by constructor|rewrite Eg; by constructor]. cbn. intros p' [= <-]. done.
    * eexists. rewrite Eg. split; [apply list_lookup_insert_eq; by eapply lookup_lt_Some|]. cbn.
      split; [rewrite s32_small by lia; lia|]. split; [done|]. split; [done|].
      intros f' g' Hg' Hin. case_decide.
      -- apply elem_of_cons in Hg' as [->|Hg']; [done|]. by apply (Hown f g' Hg'); constructor.
      -- by apply (Hown f' g' Hg'); constructor.
    * rewrite Eg. intros f' g' Hne [->|Hg']%elem_of_cons Hx; [by apply (Hgn f')|]. apply Hne.
      by apply (Hd f f' g').
  + destruct Hgok as (? & ? & _). lia.
  + by apply (fresh_group total y s g l).
  + apply grows_insert. intros b [(p & Hp & Hb)|(u & Hu & Hb)]; right.
    * destruct (H1 p Hp) as (Hr & _). exists (mk_mbb 0 (pre_start_block_id p)). cbn. split; [|lia].
      unfold retired. rewrite Hp. constructor.
    * exists u. split; [|done]. unfold retired. cbn. apply elem_of_app. by right.
  + rewrite file_of_insert, decide_True by done. left. eexists. split; [reflexivity|]. cbn. lia.
Qed.

Lemma sys_alloc_ok total y f : sys_inv total y -> room y f ->
  exists b y', sys_alloc y f = Ret (b, y') /\ alloc_post total y f b y'.
Proof.
  intros HI Hroom. destruct (pre_bitmap (file_of y f)) as [p|] eqn:Hp.
  - destruct (decide (pre_index p < 64)) as [Hi|Hi]; [by apply (sys_alloc_in_group total y f p)|].
    destruct Hroom as [(p' & Hp' & Hi')|(s & g & l & Hs & Hh)].
    + rewrite Hp in Hp'. injection Hp' as <-. lia.
    + apply (sys_alloc_new_group total y f s g l); try done. rewrite Hp. intros ? [= <-]. lia.
  - destruct Hroom as [(p' & Hp' & _)|(s & g & l & Hs & Hh)]; [by rewrite Hp in Hp'|].
    apply (sys_alloc_new_group total y f s g l); try done. by rewrite Hp.
Qed.

(** ** A slave's groups at registration *)

Lemma init_bitmap_loop_starts n i sid : 0 <= i -> (i + Z.of_nat n) * 64 < 2 ^ 31 ->
  mbb_start <$> init_bitmap_loop n i sid = elems (i * 64) 64 n.
Proof.
  revert i. induction n as [|n IH]; intros i Hi Hn; [done|]. cbn [init_bitmap_loop fmap list_fmap mbb_start elems].
  rewrite s32_small, u64_small by lia. f_equal. fold (fmap (M := list) mbb_start (init_bitmap_loop n (i + 1) sid)).
  rewrite IH by lia. f_equal. lia.
Qed.

Lemma init_sys_inv s n rest : 0 <= n < 2 ^ 31 ->
  sys_inv n (mk_sys (rdfs_init_slave_memory_bitmap_list s n :: rest) ∅).
Proof.
  intros Hn. unfold rdfs_init_slave_memory_bitmap_list. rewrite Z.quot_div_nonneg by lia.
  assert (Hl : forall k i sid, length (init_bitmap_loop k i sid) = k)
    by (intros k; induction k as [|k IH]; intros i sid; cbn; [done|by rewrite IH]).
  split; [lia| | |].
  - eexists. split; [reflexivity|]. cbn [bitmap_head free_block_nums]. rewrite Hl, init_bitmap_loop_starts by zdm.
    split; [zdm|]. split; [|split; [apply elems_nodup; lia|]].
    + apply Forall_forall. intros g Hg. apply elem_of_elems in Hg as (k & Hk & ->). unfold group_ok. zdm.
    + intros f g Hg. unfold file_of in Hg. cbn in Hg. by apply not_elem_of_nil in Hg.
  - intros f. split; cbn; [done|constructor|constructor].
  - intros f f' g Hg. unfold file_of in Hg. cbn in Hg. by apply not_elem_of_nil in Hg.
Qed.

(** Allocations one after another, by any files, while there is room. *)
Inductive reach (y0 : sys) : sys -> list Z -> Prop :=
| reach_init : reach y0 y0 []
| reach_alloc y bs f b y' :
    reach y0 y bs -> room y f -> sys_alloc y f = Ret (b, y') -> reach y0 y' (b :: bs).

Lemma reach_inv total y0 y bs : sys_inv total y0 -> reach y0 y bs ->
  sys_inv total y /\ NoDup bs /\ Forall (fun b => 0 <= b < total) bs /\
  (forall b, b ∈ bs -> exists f, given (file_of y f) b).
Proof.
  intros H0. induction 1 as [|y bs f b y' Hr (IH & Hn & Hrange & Hg) Hroom E].
  - split; [done|]. split; [constructor|]. split; [constructor|]. by intros b ?%not_elem_of_nil.
  - destruct (sys_alloc_ok total y f IH Hroom) as (b' & y1 & E' & HI & Hb & Hfresh & Hgrow & Hgiven).
    rewrite E in E'. injection E' as <- <-. split; [done|]. split; [|split; [by constructor|]].
    + constructor; [|done]. intros Hin. destruct (Hg b Hin) as (f' & Hf'). by apply (Hfresh f').
    + intros b' [->|Hin]%elem_of_cons; [by exists f|]. destruct (Hg b' Hin) as (f' & Hf'). exists f'. by apply Hgrow.
Qed.

(** ** What the accounting promises *)

(** Without room the error -1 of the group allocation is taken for a group. *)
Lemma sys_alloc_exhausted total y f : sys_inv total y -> ~ room y f ->
  exists y' y'', sys_alloc y f = Ret (2 ^ 64 - 1, y') /\ sys_alloc y' f = Ret (0, y'').
Proof.
  intros [_ (s & Hs & _) Hf _] Hno. assert (Hh : bitmap_head s = []).
  { destruct (bitmap_head s) as [|g l] eqn:E; [done|]. destruct Hno. right. by exists s, g, l. }
  destruct y as [[|s0 ss] fs]; [done|]. injection Hs as ->. cbn [slaves] in *.
  assert (Et : forall held, take_group (s :: ss) held = Ret (mk_pre 0 (u64 (-1)) 0 0 held, s :: ss)).
  { intros held. unfold take_group. change (get_slave (s :: ss) rdfs_select_slave) with (Ret s). cbn [mbind outcome_bind].
    unfold rdfs_alloc_slave_memory_bitmap. rewrite Hh. by destruct (free_block_nums s =? 0). }
  set (y := mk_sys (s :: ss) fs) in *.
  assert (E1 : exists p, rdfs_alloc_slave_bitmap_memory (slaves y) (file_of y f) =
    Ret (2 ^ 64 - 1, 0, slaves y, mk_ri (Some p) (match pre_bitmap (file_of y f) with Some q => retire (file_of y f) q | None => used_bitmap_list (file_of y f) end)) /\
    pre_index p = 1 /\ pre_start_block_id p = u64 (-1) /\ pre_alloc_slave_id p = 0).
  { unfold rdfs_alloc_slave_bitmap_memory. change (slaves y) with (s :: ss). destruct (pre_bitmap (file_of y f)) as [p|] eqn:Ep.
    - destruct (ri_pre _ _ (Hf f) p Ep) as (Hi & _). assert (pre_index p = 64) as Ei.
      { destruct (decide (pre_index p < 64)); [|lia]. destruct Hno. left. by exists p. }
      cbn [mbind outcome_bind]. rewrite Ei. cbn [Z.eqb Pos.eqb]. rewrite Et. cbn [mbind outcome_bind]. eexists. split; [reflexivity|done].
    - rewrite Et. cbn [mbind outcome_bind]. eexists. split; [reflexivity|done]. }
  destruct E1 as (p & E1 & Ei & Es & Ed). unfold sys_alloc at 1. rewrite E1. cbn [mbind outcome_bind]. eexists _, _. split; [reflexivity|].
  unfold sys_alloc, file_of. cbn [files slaves]. rewrite lookup_insert_eq. cbn [default id from_option].
  unfold rdfs_alloc_slave_bitmap_memory. destruct p. cbn in Ei, Es, Ed. subst. reflexivity.
Qed.

(** C29: Blocks of slave memory are handed out once, until the slave is full.
    Starting from a registered slave with [n] blocks, the block numbers given to
    all files by any sequence of allocations, each made while the file's group or
    the slave's list has a block, are distinct and below [n]; the next such
    allocation succeeds with a new one.  An allocation made when neither has a
    block returns 2^64 - 1, and the file's next one block 0, whoever owns it. *)
Theorem slave_blocks_unique s n rest y bs :
  0 <= n < 2 ^ 31 ->
  reach (mk_sys (rdfs_init_slave_memory_bitmap_list s n :: rest) ∅) y bs ->
  NoDup bs /\ Forall (fun b => 0 <= b < n) bs /\
  (forall f, room y f -> exists b y', sys_alloc y f = Ret (b, y') /\ 0 <= b < n /\ b ∉ bs) /\
  (forall f, ~ room y f -> exists y' y'', sys_alloc y f = Ret (2 ^ 64 - 1, y') /\ sys_alloc y' f = Ret (0, y'')).
Proof.
  intros Hn Hr. destruct (reach_inv n _ y bs (init_sys_inv s n rest Hn) Hr) as (HI & Hnd & Hrange & Hg).
  split; [done|]. split; [done|]. split.
  - intros f Hroom. destruct (sys_alloc_ok n y f HI Hroom) as (b & y' & E & _ & Hb & Hfresh & _).
    exists b, y'. split; [done|]. split; [done|]. intros Hin. destruct (Hg b Hin) as (f' & Hf'). by apply (Hfresh f').
  - intros f Hno. by apply (sys_alloc_exhausted n).
Qed.

(** Once the slave's list is empty, the error -1 of the group allocation is
    taken for a group number: a new file's first block is 2^64 - 1 and its
    second is block 0, which belongs to the file that took the first group. *)
Theorem exhausted_slave_reuses s rest ri :
  bitmap_head s = [] -> pre_bitmap ri = None ->
  exists ss1 ri1 ss2 ri2,
    rdfs_alloc_slave_bitmap_memory (s :: rest) ri = Ret (2 ^ 64 - 1, 0, ss1, ri1) /\
    rdfs_alloc_slave_bitmap_memory ss1 ri1 = Ret (0, 0, ss2, ri2).
Proof.
  intros Hh Hp. unfold rdfs_alloc_slave_bitmap_memory at 1. rewrite Hp. unfold take_group.
  change (get_slave (s :: rest) rdfs_select_slave) with (Ret s). cbn [mbind outcome_bind].
  unfold rdfs_alloc_slave_memory_bitmap. rewrite Hh.
  destruct (free_block_nums s =? 0); cbn [mbind outcome_bind]; do 4 eexists; split; reflexivity.
Qed.

(** Unregistering a slave with two free groups or more faults: the loop frees
    the head of the list and then reads and frees it again. *)
Theorem free_bitmap_list_double_free s :
  128 <= free_block_nums s -> rdfs_free_slave_memory_bitmap_list s = Oops.
Proof.
  intros H. unfold rdfs_free_slave_memory_bitmap_list. rewrite Z.quot_div_nonneg by lia.
  assert (E : exists n, Z.to_nat (free_block_nums s / 64) = S (S n)).
  { exists (Z.to_nat (free_block_nums s / 64 - 2)). zdm. }
  destruct E as (n & ->). by destruct (bitmap_head s).
Qed.

(** ** Entries *)

Lemma pte_encode_decode s_id block_id : 0 <= s_id < 2 ^ 12 -> 0 <= block_id < 2 ^ 40 ->
  pte_encode s_id block_id = s_id * 2 ^ 52 + block_id * 2 ^ 12.
Proof.
  intros Hs Hb. unfold pte_encode, SLAVE_ID_SHIFT, BLOCK_ID_SHIFT. rewrite !shiftl_mul by lia.
  rewrite !u64_small by lia. rewrite lor_disjoint_add; lia.
Qed.

Lemma decode_fields v s_id block_id : 0 <= s_id < 2 ^ 12 -> 0 <= block_id < 2 ^ 40 ->
  v = s_id * 2 ^ 52 + block_id * 2 ^ 12 ->
  Z.shiftr (Z.land v SLAVE_ID_MASK) SLAVE_ID_SHIFT = s_id /\
  Z.shiftr (Z.land v BLOCK_ID_MASK) BLOCK_ID_SHIFT = block_id.
Proof.
  intros Hs Hb ->. unfold SLAVE_ID_SHIFT, BLOCK_ID_SHIFT, SLAVE_ID_MASK, BLOCK_ID_MASK.
  change 0xFFF0000000000000 with (2 ^ 64 - 2 ^ 52). change 0x000FFFFFFFFFF000 with (2 ^ 52 - 2 ^ 12).
  rewrite !land_mask_field, !shiftr_div by lia. split; zdm.
Qed.

(** An entry written by the block allocation is read back by
    [rdfs_search_metadata]: for every slave number of 12 bits and block number
    of 40 bits the pair survives the encoding and the memory. *)
Theorem metadata_roundtrip m va off s_id block_id :
  0 <= s_id < 2 ^ 12 -> 0 <= block_id < 2 ^ 40 ->
  rdfs_search_metadata (fun a => Ret (ld 8 (st 8 m (va + off / 4096 * 8) (pte_encode s_id block_id)) a)) va off
  = Ret (s_id, block_id).
Proof.
  intros Hs Hb. unfold rdfs_search_metadata. cbn [mbind outcome_bind]. rewrite (pte_encode_decode s_id block_id Hs Hb).
  rewrite ld8_st8 by lia. by destruct (decode_fields _ s_id block_id Hs Hb eq_refl) as [-> ->].
Qed.

(** ** The list of single entries *)

Section pte_list.
Context (sbi : rdfs_sb_info) (size : Z) `{A : !Area sbi size} (cpu : Z).

(** [N] entries from [base] on lie in the mapped area. *)
Definition pte_range (base N : Z) : Prop :=
  phy_addr sbi <= base /\ 0 <= N /\ base + 8 * N < phy_addr sbi + size.

Lemma pte_va base N j : pte_range base N -> 0 <= j <= N ->
  rdfs_va sbi (base + 8 * j) = base - phy_addr sbi + virt_addr sbi + 8 * j.
Proof. intros (? & ? & ?) Hj. rewrite (va_eq (size := size)) by lia. lia. Qed.

(** Entries [i] .. [N] - 1 each hold the address of the next. *)
Definition pte_links (m : mem) (base i N : Z) : Prop :=
  forall j, i <= j < N -> ld 8 m (rdfs_va sbi (base + 8 * j)) = base + 8 * (j + 1).

Lemma init_pte_loop_links n m base N i : pte_range base N -> 0 <= i -> i + Z.of_nat n = N ->
  let m' := init_pte_loop sbi n m (rdfs_va sbi (base + 8 * i)) (base + 8 * (i + 1)) in
  pte_links m' base i N /\
  (forall a, a < base - phy_addr sbi + virt_addr sbi + 8 * i -> ldb m' a = ldb m a).
Proof.
  intros HR. revert m i. induction n as [|n IH]; intros m i Hi En m'.
  { split; [|done]. intros j Hj. lia. }
  pose proof HR as (HR1 & HR2 & HR3). pose proof A as []. subst m'. cbn [init_pte_loop].
  replace (u64 (base + 8 * (i + 1) + 8)) with (base + 8 * (i + 1 + 1)) by (rewrite u64_small; lia).
  set (m1 := st 8 m _ _). destruct (IH m1 (i + 1) ltac:(lia) ltac:(lia)) as [L K]. split.
  - intros j Hj. destruct (decide (j = i)) as [->|]; [|apply L; lia].
    transitivity (ld 8 m1 (base - phy_addr sbi + virt_addr sbi + 8 * i)).
    + apply ld_ext. intros k Hk. rewrite (pte_va base N i) by (done || lia). apply K. lia.
    + unfold m1. rewrite (pte_va base N) by (done || lia). rewrite ld8_st8; lia.
  - intros a Ha. rewrite K by lia. unfold m1. rewrite (pte_va base N) by (done || lia).
    rewrite ldb_st, decide_False by lia. done.
Qed.

(** [k] calls of [rdfs_new_pte]: the addresses returned. *)
Fixpoint take_ptes (k : nat) (m : mem) (p : pte_mem) (ss : list slave_info) (ri : ri_info) : outcome (list Z) :=
  match k with
  | O => Ret []
  | S k' =>
      '(r, m, p, ss, ri) ← rdfs_new_pte sbi m p ss ri;
      match r with
      | None => Ret []
      | Some a => l ← take_ptes k' m p ss ri; Ret (a :: l)
      end
  end.

Lemma take_group_total s ss held :
  exists p s', take_group (s :: ss) held = Ret (p, s' :: ss).
Proof.
  unfold take_group. change (get_slave (s :: ss) rdfs_select_slave) with (Ret s). cbn [mbind outcome_bind].
  destruct (rdfs_alloc_slave_memory_bitmap s) as [b s']. eexists _, s'. reflexivity.
Qed.

Lemma alloc_total s ss ri :
  exists b i s' ri', rdfs_alloc_slave_bitmap_memory (s :: ss) ri = Ret (b, i, s' :: ss, ri').
Proof.
  unfold rdfs_alloc_slave_bitmap_memory.
  assert (H1 : exists p s1, match pre_bitmap ri with None => take_group (s :: ss) false
    | Some p => Ret (p, s :: ss) end = Ret (p, s1 :: ss)).
  { destruct (pre_bitmap ri) as [p|]; [by exists p, s|apply take_group_total]. }
  destruct H1 as (p & s1 & ->). cbn [mbind outcome_bind]. destruct (pre_index p =? 64).
  - destruct (take_group_total s1 ss (bitmap_held p)) as (p' & s2 & ->). cbn. by do 4 eexists.
  - cbn. by do 4 eexists.
Qed.

Lemma take_ptes_order k m p s ss ri base N i :
  pte_range base N -> 0 <= i -> i + Z.of_nat k <= N + 1 -> pte_links m base i N ->
  pte_start_addr p = base + 8 * i -> 1 <= free_pte_nums p ->
  take_ptes k m p (s :: ss) ri = Ret (elems (base + 8 * i) 8 k).
Proof.
  intros HR. revert m p s ri i. induction k as [|k IH]; intros m p s ri i Hi Hk HL Hp Hn; [done|].
  cbn [take_ptes elems]. unfold rdfs_new_pte. rewrite (proj2 (Z.ltb_ge _ 1)) by lia.
  destruct (alloc_total s ss ri) as (b & sid & s' & ri' & ->). cbn [mbind outcome_bind]. rewrite Hp.
  destruct k as [|k]; [done|].
  rewrite (IH _ _ s' ri' (i + 1)); [|lia|lia| |cbn [pte_start_addr]; apply HL; lia|done].
  - cbn [mbind outcome_bind]. do 2 f_equal. f_equal. lia.
  - intros j Hj. rewrite <- (HL j) by lia. rewrite !(pte_va base N) by (done || lia). apply ld_st_ne. lia.
Qed.
End pte_list.

(** The list of single entries hands out its words in order: after
    [rdfs_init_pte_free_list] has taken [n] contiguous pages at [base], the k-th
    call of [rdfs_new_pte] returns the k-th word.  The count of free entries is
    never lowered, so the statement also holds for the call after the last
    word: it returns the address behind the pages. *)
Theorem new_pte_order sbi size cpu m m1 phy0 base n k s ss ri :
  Area sbi size -> 1 <= n < 2 ^ 19 ->
  rdfs_new_block sbi m cpu phy0 n None = (0, base, m1) ->
  pte_range sbi size base (512 * n) -> Z.of_nat k <= 512 * n + 1 ->
  let '(p, m') := rdfs_init_pte_free_list sbi cpu m phy0 n in
  take_ptes sbi k m' p (s :: ss) ri = Ret (elems base 8 k).
Proof.
  intros HA Hn Enb HR Hk. unfold rdfs_init_pte_free_list. rewrite Enb.
  pose proof HR as (HR1 & HR2 & HR3). pose proof HA as [].
  rewrite s32_small, u64_small by lia. rewrite Z.quot_div_nonneg by lia.
  replace (n * 4096 / 8) with (512 * n) by zdm.
  pose proof (init_pte_loop_links sbi size (Z.to_nat (512 * n)) m1 base (512 * n) 0 HR
    ltac:(lia) ltac:(lia)) as [L _].
  replace (base + 8 * 0) with base in L by lia. replace (base + 8 * (0 + 1)) with (base + 8) in L by lia.
  pose proof (take_ptes_order sbi size k _ (mk_pte_mem base (512 * n) n (s32 base)) s ss ri base (512 * n) 0 HR
    ltac:(lia) ltac:(lia) L) as T. replace (base + 8 * 0) with base in T by lia.
  apply T; cbn; lia.
Qed.

(** ** The theorems on concrete states *)

Definition demo_slave : slave_info := mk_slave 0 0 0 [].

Lemma slave_blocks_unique_witness :
  exists y, reach (mk_sys [rdfs_init_slave_memory_bitmap_list demo_slave 128] ∅) y [64; 0] /\ NoDup [64; 0].
Proof.
  assert (Hr : exists y, reach (mk_sys [rdfs_init_slave_memory_bitmap_list demo_slave 128] ∅) y [64; 0]).
  { eexists. eapply reach_alloc with (f := 2).
    - eapply reach_alloc with (f := 1); [apply reach_init| |vm_compute; reflexivity].
      right. do 3 eexists. split; reflexivity.
    - right. do 3 eexists. split; reflexivity.
    - vm_compute. reflexivity. }
  destruct Hr as (y & Hr). exists y. split; [exact Hr|].
  apply (slave_blocks_unique demo_slave 128 [] y [64; 0] ltac:(lia) Hr).
Defined.

Lemma exhausted_slave_reuses_witness :
  exists ss1 ri1 ss2 ri2, rdfs_alloc_slave_bitmap_memory [demo_slave] new_ri = Ret (2 ^ 64 - 1, 0, ss1, ri1) /\
    rdfs_alloc_slave_bitmap_memory ss1 ri1 = Ret (0, 0, ss2, ri2).
Proof. exact (exhausted_slave_reuses demo_slave [] new_ri eq_refl eq_refl). Defined.

Lemma free_bitmap_list_double_free_witness :
  rdfs_free_slave_memory_bitmap_list (rdfs_init_slave_memory_bitmap_list demo_slave 128) = Oops.
Proof. apply free_bitmap_list_double_free. vm_compute. congruence. Defined.

Lemma metadata_roundtrip_witness :
  rdfs_search_metadata (fun a => Ret (ld 8 (st 8 ∅ (0x1000 + 8192 / 4096 * 8) (pte_encode 3 77)) a)) 0x1000 8192
  = Ret (3, 77).
Proof. apply metadata_roundtrip; lia. Defined.

Lemma new_pte_order_witness :
  let '(p, m') := rdfs_init_pte_free_list demo_sbi 0 demo_mem 0 1 in
  take_ptes demo_sbi 513 m' p [demo_slave] new_ri = Ret (elems 0x1000b000 8 513).
Proof.
  destruct (node_new_block demo_sbi demo_size demo_node demo_mem 0 0 1 None demo_pages demo_free)
    as (m1 & E & _); [vm_compute; split; congruence|].
  assert (Eh : ld 8 demo_mem (fl_head (page_list (node_des demo_node) (node_lo demo_node) (node_hi demo_node)))
    = 0x1000b000) by (vm_compute; reflexivity).
  rewrite Eh in E.
  refine (new_pte_order demo_sbi demo_size 0 demo_mem m1 0 0x1000b000 1 513 demo_slave [] new_ri demo_area
    _ E _ _).
  - lia.
  - split; [vm_compute; congruence|split; [lia|vm_compute; reflexivity]].
  - lia.
Defined.
