(* ===== verification/Mapping.v ===== *)
(** * Mapping files into the kernel's address space (pgtable.c)

    An inode in use is mapped at an address area of the kernel: its page table
    is entered into the kernel's own, and the code then reads and writes the
    file through plain pointers.  The file models that address translation
    ([mmu]), [rdfs_establish_mapping] and [rdfs_destroy_mapping], which count
    nested uses, and proves that a mapped address reaches the block of the file
    it stands for. *)

From S2P Require Import Prelude Mem Layout FreeList Balloc Pages Demo Nvmalloc Vfs Bdev Pgtable SlaveMem.

(** The state the file operations share: the area, the kernel's page table, the
    address areas, the disks, the page of entries being filled, the slaves. *)
Record world := mk_world {
  w_mem : mem;
  w_km : kmm;
  w_nvm : nvm_state;
  w_disks : gmap Z bdev_des;
  w_pte : pte_page;
  w_slaves : list slave_info
}.

Definition set_mem (m : mem) (w : world) : world :=
  mk_world m (w_km w) (w_nvm w) (w_disks w) (w_pte w) (w_slaves w).
Definition set_km (km : kmm) (w : world) : world :=
  mk_world (w_mem w) km (w_nvm w) (w_disks w) (w_pte w) (w_slaves w).
Definition set_nvm (nv : nvm_state) (w : world) : world :=
  mk_world (w_mem w) (w_km w) nv (w_disks w) (w_pte w) (w_slaves w).
Definition set_disks (d : gmap Z bdev_des) (w : world) : world :=
  mk_world (w_mem w) (w_km w) (w_nvm w) d (w_pte w) (w_slaves w).
Definition set_pte (g : pte_page) (w : world) : world :=
  mk_world (w_mem w) (w_km w) (w_nvm w) (w_disks w) g (w_slaves w).
Definition set_slaves (ss : list slave_info) (w : world) : world :=
  mk_world (w_mem w) (w_km w) (w_nvm w) (w_disks w) (w_pte w) ss.

Section mapping.
Context `{!KernelPg} (sbi : rdfs_sb_info) (pud_alloc_ok : Z -> bool).

(** ** Translation

    The processor's walk for an address of the file or directory areas: the
    address in the filesystem area of the byte it reaches.  Directories enter
    the kernel's table one level lower than files.  The entries the code
    writes are 0 or present. *)
Definition mmu_page (m : mem) (va e : Z) : option Z :=
  let pte := rdfs_va sbi (Z.land e PAGE_MASK) + 8 * pte_index va in
  if entry_none (ld 8 m pte) then None
  else Some (rdfs_va sbi (rdfs_get_phy_from_pte m pte) + va mod PAGE_SIZE).

Definition mmu (m : mem) (km : kmm) (va : Z) : option Z :=
  if va <? RDFS_START + DIR_AREA_SIZE then kpmd km !! (va / MAX_DIR_SIZE) ≫= mmu_page m va
  else
    e ← kpud km !! (va / PUD_SIZE);
    let pmd := rdfs_va sbi (Z.land e PAGE_MASK) + 8 * pmd_index va in
    if entry_none (ld 8 m pmd) then None else mmu_page m va (ld 8 m pmd).

(** Loads and stores through a mapped pointer; [n] bytes that do not cross a page. *)
Definition mld (n : nat) (w : world) (va : Z) : outcome Z :=
  match mmu (w_mem w) (w_km w) va with Some a => Ret (ld n (w_mem w) a) | None => Oops end.

Fixpoint mmemset (w : world) (va c : Z) (n : nat) : outcome world :=
  match n with
  | O => Ret w
  | S n' =>
      match mmu (w_mem w) (w_km w) va with
      | Some a => mmemset (set_mem (st 1 (w_mem w) a c) w) (va + 1) c n'
      | None => Oops
      end
  end.

Fixpoint mst_bytes (w : world) (va : Z) (bs : list Z) : outcome world :=
  match bs with
  | [] => Ret w
  | b :: bs =>
      match mmu (w_mem w) (w_km w) va with
      | Some a => mst_bytes (set_mem (st 1 (w_mem w) a b) w) (va + 1) bs
      | None => Oops
      end
  end.

(** ** Mapping an inode *)

(** The address area of an inode that has none yet; [ptr] is the in-core inode's
    address, entered into the address-to-inode table. *)
Definition take_area (w : world) (i : inode) (ptr : Z) : outcome (world * inode) :=
  if S_ISDIR (i_mode i) || S_ISLNK (i_mode i) then
    '(a, nv) ← nvmalloc (w_nvm w) 1; Ret (set_nvm nv w, set_ni_virt_addr a i)
  else if S_ISREG (i_mode i) then
    '(a, nv) ← nvmalloc (w_nvm w) 0;
    let p_address := rdfs_address_to_ino (w_mem w) sbi a in
    Ret (set_mem (st 8 (w_mem w) p_address ptr) (set_nvm nv w), set_ni_virt_addr a i)
  else Ret (w, i).

Definition rdfs_establish_mapping (w : world) (i : inode) (ptr : Z) : outcome (Z * world * inode) :=
  let pud := rdfs_get_pud sbi (w_mem w) (i_ino i) in
  let i := set_ni_mapping_count (s32 (ni_mapping_count i + 1)) i in
  '(w, i) ← (if ni_virt_addr i =? 0 then take_area w i ptr else Ret (w, i));
  let vaddr := ni_virt_addr i in
  if in_dir_area vaddr || in_file_area vaddr then
    '(errval, km) ← nvmap sbi pud_alloc_ok (w_mem w) (w_km w) vaddr pud; Ret (errval, set_km km w, i)
  else Ret (-1, w, i).

Definition rdfs_destroy_mapping (w : world) (i : inode) : outcome (Z * world * inode) :=
  let vaddr := ni_virt_addr i in
  let pud := rdfs_get_pud sbi (w_mem w) (i_ino i) in
  if vaddr =? 0 then Ret (0, w, i)
  else
    let i := set_ni_mapping_count (s32 (ni_mapping_count i - 1)) i in
    if 0 <? ni_mapping_count i then Ret (0, w, i)
    else
      let '(errval, km) := unnvmap (w_mem w) (w_km w) vaddr pud in
      nv ← nvfree (w_nvm w) (ni_virt_addr i);
      Ret (errval, set_nvm nv (set_km km w), set_ni_virt_addr 0 i).
End mapping.

(** ** What a mapped address reaches *)

Section mapped.
Context `{!KernelPg} (sbi : rdfs_sb_info).
Context {free : mem -> list Z -> Prop} {foot : list Z -> Z -> Prop} {page_ok meta : Z -> Prop}.
Context `{!PageAlloc sbi free foot page_ok meta}.
Local Abbreviation PT := (pt_state sbi (free := free) (page_ok := page_ok) (meta := meta)).

(** The indices of byte [o] of block [b]. *)
Lemma byte_index va b o : file_addr va b -> 0 <= o < PAGE_SIZE ->
  let a := va + b * PAGE_SIZE + o in
  (a <? RDFS_START + DIR_AREA_SIZE) = false /\ a / PUD_SIZE = va / PUD_SIZE + idx1 b /\
  pmd_index a = idx2 b /\ pte_index a = idx3 b /\ a mod PAGE_SIZE = o.
Proof using Type.
  intros [[H1 H2] H3 H4] Ho. cbn zeta. rewrite pmd_index_spec, pte_index_spec.
  unfold PAGE_SIZE, MAX_FILE_SIZE, PUD_SIZE, RDFS_START, RDFS_END, DIR_AREA_SIZE, idx1, idx2, idx3 in *.
  assert (Ha : exists a, va = a * 2 ^ 35) by (exists (va / 2 ^ 35); zdm). destruct Ha as [a ->].
  split; [lia|]. split; [zdm|]. split; [zdm|]. split; zdm.
Qed.

(** Through the kernel's table, byte [o] of block [b] is byte [o] of the page in
    the block's entry. *)
Lemma mmu_entry m l km ino t f va b v o :
  PT m l ino t f ->
  km_maps va t km -> file_addr va b -> f !! b = Some v -> v <> 0 -> 0 <= o < PAGE_SIZE ->
  mmu sbi m km (va + b * PAGE_SIZE + o) = Some (rdfs_va sbi (get_phys_from_pte_val v) + o).
Proof.
  intros HS Hk Ha Hv Hnz Ho. destruct (byte_index va b o Ha Ho) as (E1 & E2 & E3 & E4 & E5).
  pose proof HS as [_ _ [R0 R1 R2 R3] [W1 W2 W3] Hp _].
  assert (Hb : 0 <= b) by (destruct Ha; lia).
  assert (Hj : 0 <= idx2 b < 512) by (unfold idx2; zdm).
  assert (Hk3 : 0 <= idx3 b < 512) by (unfold idx3; zdm).
  destruct (W3 b (mk_is_Some _ _ Hv)) as [r Hr]. destruct (W2 _ _ (mk_is_Some _ _ Hr)) as [_ [q Hq]].
  assert (Hqp : page_ok q) by (apply (page_of t); [done|apply table_in; eauto]).
  assert (Hrp : page_ok r) by (apply (page_of t); [done|apply table_in; eauto]).
  unfold mmu. rewrite E1, E2, (Hk _ _ Hq), E3. cbn [mbind option_bind].
  destruct (table_entry sbi q Hqp) as (-> & _ & -> & _). rewrite (R2 _ q _ Hq Hj), Hr.
  destruct (table_entry sbi r Hrp) as (-> & Hrg & Hm & _). rewrite entry_none_pos by lia.
  unfold mmu_page, rdfs_get_phy_from_pte. rewrite Hm, E4, (R3 _ _ r _ Hr Hk3), blocknr_idx, Hv, E5 by done.
  change (default 0 (Some v)) with v. rewrite entry_none_spec. by rewrite (proj2 (Z.eqb_neq v 0)).
Qed.

(** A whole table is kept by a step that keeps every page. *)
Lemma tree_keeps m m' top xs : keeps sbi (page_ok := page_ok) (meta := meta) [] m m' ->
  Forall page_ok (tree_pages top xs) -> tree_holds sbi m top xs -> tree_holds sbi m' top xs.
Proof.
  intros Hk [Ht Hx]%Forall_cons [Hrow Hbr]. split; [apply (row_keeps sbi (page_ok := page_ok) (meta := meta) [] m); try done; apply not_elem_of_nil|].
  rewrite Forall_forall in *. intros x Hin. apply (branch_keeps sbi (page_ok := page_ok) (meta := meta) [] m); try done; [|intros; apply not_elem_of_nil|by apply Hbr].
  apply Forall_forall. intros q Hq. rewrite Forall_forall in Hx. apply Hx. by apply (subs_elem branch_pages _ x).
Qed.

(** A word of neither pages nor inode slots nor the allocator. *)
Definition spare_word (l : list Z) (p : Z) : Prop :=
  forall a, p <= a < p + 8 -> ~ foot l a /\ ~ meta a /\ forall q, page_ok q -> ~ in_page sbi q a.

Lemma spare_st m l p v : free m l -> spare_word l p ->
  free (st 8 m p v) l /\ keeps sbi (page_ok := page_ok) (meta := meta) [] m (st 8 m p v).
Proof.
  intros Hf Hp.
  assert (Hne : forall a, ~ (p <= a < p + 8) -> ldb (st 8 m p v) a = ldb m a).
  { intros a Ha. by rewrite ldb_st, decide_False. }
  split; [|split].
  - apply (free_ext sbi m); [|done]. intros a Ha. apply Hne. intros Hr. by destruct (Hp a Hr) as [? _].
  - intros q a Hq _ Ha. apply Hne. intros Hr. destruct (Hp a Hr) as (_ & _ & Hn). by apply (Hn q).
  - intros a Ha. apply Hne. intros Hr. by destruct (Hp a Hr) as (_ & ? & _).
Qed.

Lemma reg_area_file v : area_ok (RDFS_START + DIR_AREA_SIZE) MAX_FILE_SIZE REG_AREAS v -> file_area v.
Proof using Type.
  intros (i & Hi & ->). rewrite reg_areas_eq in Hi.
  split; unfold RDFS_START, RDFS_END, DIR_AREA_SIZE, MAX_FILE_SIZE, PAGE_SIZE in *; [lia|zdm|].
  change (2 ^ 35 / 4096) with (2 ^ 23). lia.
Qed.

(** A regular file whose table leads to the pmd pages of [xs], not mapped yet,
    and a first free file area [c]. *)
Record unmapped (w : world) (l : list Z) (i : inode) (R D : apool) (c : cell) (top : Z) (xs : list branch) : Prop := {
  um_free : free (w_mem w) l;
  um_slot a : get_rdfs_inode (w_mem w) sbi (i_ino i) <= a < get_rdfs_inode (w_mem w) sbi (i_ino i) + RDFS_INODE_SIZE -> meta a;
  um_root : ld 8 (w_mem w) (get_rdfs_inode (w_mem w) sbi (i_ino i) + inode_off.i_pg_addr) = top;
  um_tree : tree_holds sbi (w_mem w) top xs;
  um_pages : Forall page_ok (tree_pages top xs);
  um_len : (1 <= length xs <= 31)%nat;
  um_mode : S_ISREG (i_mode i) = true;
  um_virt : ni_virt_addr i = 0;
  um_count : ni_mapping_count i = 0;
  um_nvm : nvm_rep (w_nvm w) R D;
  um_area : exists F, R.1 = c :: F;
  um_none s : c.2 / PUD_SIZE <= s < c.2 / PUD_SIZE + Z.of_nat (length xs) -> kpud (w_km w) !! s = None;
  um_word : spare_word l (rdfs_address_to_ino (w_mem w) sbi c.2)
}.

Lemma reg_not_dir mode : S_ISREG mode = true -> S_ISDIR mode || S_ISLNK mode = false.
Proof using Type. unfold S_ISREG, S_ISDIR, S_ISLNK. intros E%Z.eqb_eq. by rewrite E. Qed.

Lemma tree_pmds top xs : Forall page_ok (tree_pages top xs) -> Forall page_ok (pmds xs).
Proof using Type.
  intros [_ Hx]%Forall_cons. rewrite Forall_forall in *. intros q (x & -> & Hin)%list_elem_of_fmap.
  apply Hx. apply (subs_elem branch_pages _ x); [done|]. constructor.
Qed.

Lemma root_pud m ino top : page_ok top ->
  ld 8 m (get_rdfs_inode m sbi ino + inode_off.i_pg_addr) = top -> rdfs_get_pud sbi m ino = rdfs_va sbi top.
Proof.
  intros Ht Hr. unfold rdfs_get_pud. rewrite Hr. destruct (page_phys sbi top Ht) as [? _].
  by rewrite (proj2 (Z.eqb_neq top 0)) by lia.
Qed.

(** A file that is mapped already: mapping it once more enters the same pmd
    pages and only counts. *)
Lemma remap_ok kok w i ptr v top xs K : file_area v -> ni_virt_addr i = v ->
  rdfs_get_pud sbi (w_mem w) (i_ino i) = rdfs_va sbi top -> tree_holds sbi (w_mem w) top xs ->
  Forall page_ok (tree_pages top xs) -> (1 <= length xs <= 31)%nat ->
  kpud (w_km w) = map_puds v 0 (pmds xs) K -> (forall k, 0 <= k < 32 -> kok (v + k * PUD_SIZE) = true) ->
  rdfs_establish_mapping sbi kok w i ptr = Ret (0, w, set_ni_mapping_count (s32 (ni_mapping_count i + 1)) i).
Proof.
  intros Ha Hv Hpud Ht Hp Hlen Hk Hok. destruct (file_area_tests _ Ha) as (T1 & T2 & T3).
  assert (Htop : page_ok top) by (by inversion Hp). pose proof (tree_pmds top xs Hp) as Hq.
  unfold rdfs_establish_mapping. rewrite Hpud. cbn [ni_virt_addr set_ni_mapping_count].
  rewrite Hv, T1. cbn [mbind outcome_bind ni_virt_addr set_ni_mapping_count]. rewrite Hv, T2, T3. cbn [orb].
  rewrite (nvmap_ok sbi kok (w_mem w) (w_km w) v top xs) by done. cbn [mbind outcome_bind].
  rewrite Hk, map_puds_idem, <- Hk. by destruct w as [? [] ?].
Qed.

(** The last unmapping: the pmd pages leave the kernel's table and the area
    goes back to the head of the free areas. *)
Lemma unmap_last_ok w i c F U D top xs K : area_ok (RDFS_START + DIR_AREA_SIZE) MAX_FILE_SIZE REG_AREAS c.2 ->
  ni_virt_addr i = c.2 -> ni_mapping_count i = 1 -> nvm_rep (w_nvm w) (F, c :: U) D ->
  rdfs_get_pud sbi (w_mem w) (i_ino i) = rdfs_va sbi top -> tree_holds sbi (w_mem w) top xs ->
  Forall page_ok (tree_pages top xs) -> (1 <= length xs <= 31)%nat ->
  kpud (w_km w) = map_puds c.2 0 (pmds xs) K ->
  (forall s, c.2 / PUD_SIZE <= s < c.2 / PUD_SIZE + Z.of_nat (length xs) -> K !! s = None) ->
  exists nv, rdfs_destroy_mapping sbi w i =
      Ret (0, set_nvm nv (set_km (mk_kmm K (kpmd (w_km w))) w), set_ni_virt_addr 0 (set_ni_mapping_count 0 i)) /\
    nvm_rep nv (c :: F, U) D.
Proof.
  intros Hca Hv Hc Hn Hpud Ht Hp Hlen Hk Hno. pose proof (reg_area_file _ Hca) as Ha.
  destruct (file_area_tests _ Ha) as (T1 & T2 & T3).
  assert (Htop : page_ok top) by (by inversion Hp). pose proof (tree_pmds top xs Hp) as Hq.
  destruct (nvfree_refines (w_nvm w) (F, c :: U) D c.2 0 Hn (reg_area_mode _ Hca)) as (nv & E & Hn'); [done|].
  cbn [Z.eqb] in Hn'. rewrite spec_free_head in Hn'. exists nv. split; [|exact Hn'].
  unfold rdfs_destroy_mapping. rewrite Hpud, Hv, T1, Hc. change (s32 (1 - 1)) with 0. cbn [Z.ltb Z.compare ni_virt_addr set_ni_mapping_count].
  rewrite Hv, (unnvmap_ok sbi (w_mem w) (w_km w) c.2 top xs) by (done || lia).
  rewrite E. cbn [mbind outcome_bind].
  by rewrite Hk, <- (length_pmds xs), map_unmap by (by rewrite length_pmds).
Qed.

(** C24: Mapping counts uses. [rdfs_establish_mapping] of a regular file takes the
    first free file area and enters the file's pmd pages at it; a second call
    finds it mapped and changes nothing but the count; [rdfs_destroy_mapping]
    undoes one call at a time, and the last one gives the area back and leaves
    the kernel's table and the in-core inode as they were. *)
Theorem mapping_counts kok w l i ptr R D c top xs :
  unmapped w l i R D c top xs -> (forall k, 0 <= k < 32 -> kok (c.2 + k * PUD_SIZE) = true) ->
  exists w1 i1, rdfs_establish_mapping sbi kok w i ptr = Ret (0, w1, i1) /\
    ni_virt_addr i1 = c.2 /\ free (w_mem w1) l /\ tree_holds sbi (w_mem w1) top xs /\
    (forall k x, xs !! k = Some x -> kpud (w_km w1) !! (c.2 / PUD_SIZE + Z.of_nat k) = Some (Z.lor x.1 PAGE_TABLE)) /\
    nvm_rep (w_nvm w1) (spec_alloc R).2 D /\
    (exists i2, rdfs_establish_mapping sbi kok w1 i1 ptr = Ret (0, w1, i2) /\ ni_virt_addr i2 = c.2 /\
       rdfs_destroy_mapping sbi w1 i2 = Ret (0, w1, i1)) /\
    (exists w3, rdfs_destroy_mapping sbi w1 i1 = Ret (0, w3, i) /\ w_km w3 = w_km w /\
       w_mem w3 = w_mem w1 /\ nvm_rep (w_nvm w3) R D).
Proof.
  intros [Hf Hs Hr Ht Hp Hlen Hmode Hv Hc Hn [F HF] Hno Hw] Hok.
  assert (Htop : page_ok top) by (by inversion Hp). pose proof (tree_pmds top xs Hp) as Hq.
  set (ino := i_ino i) in *. set (m1 := st 8 (w_mem w) (rdfs_address_to_ino (w_mem w) sbi c.2) ptr).
  destruct (spare_st (w_mem w) l _ ptr Hf Hw) as [Hf1 Hk1]. fold m1 in Hf1, Hk1.
  pose proof (tree_keeps _ _ top xs Hk1 Hp Ht) as Ht1.
  assert (Ei : get_rdfs_inode m1 sbi ino = get_rdfs_inode (w_mem w) sbi ino) by (by eapply (free_inode sbi)).
  assert (Hr1 : ld 8 m1 (get_rdfs_inode m1 sbi ino + inode_off.i_pg_addr) = top).
  { rewrite Ei, <- Hr. apply ld_ext. intros k Hk. apply Hk1, Hs. unfold inode_off.i_pg_addr, RDFS_INODE_SIZE. lia. }
  destruct (nvmalloc_refines (w_nvm w) R D 0 Hn) as (nv1 & En & Hn1). cbn [Z.eqb] in En, Hn1.
  unfold spec_alloc in En, Hn1 |- *. rewrite HF in En, Hn1 |- *. cbn [fst snd] in En, Hn1 |- *.
  assert (Hca : area_ok (RDFS_START + DIR_AREA_SIZE) MAX_FILE_SIZE REG_AREAS c.2).
  { pose proof (rep_reg_addr _ _ _ Hn) as Hra. rewrite HF in Hra. by inversion Hra. }
  pose proof (reg_area_file _ Hca) as Ha. destruct (file_area_tests _ Ha) as (T1 & T2 & T3).
  set (km1 := mk_kmm (map_puds c.2 0 (pmds xs) (kpud (w_km w))) (kpmd (w_km w))).
  set (i1 := set_ni_virt_addr c.2 (set_ni_mapping_count 1 i)).
  set (w1 := set_km km1 (set_mem m1 (set_nvm nv1 w))).
  assert (E1 : rdfs_establish_mapping sbi kok w i ptr = Ret (0, w1, i1)).
  { unfold rdfs_establish_mapping. rewrite Hc. change (s32 (0 + 1)) with 1. cbn [ni_virt_addr set_ni_mapping_count].
    rewrite Hv. cbn [Z.eqb]. unfold take_area. cbn [i_mode set_ni_mapping_count]. rewrite reg_not_dir, Hmode, En by done.
    cbn [mbind outcome_bind]. cbn [ni_virt_addr set_ni_virt_addr]. rewrite T2, T3. cbn [orb].
    fold ino. rewrite (root_pud _ ino top Htop Hr). unfold set_nvm at 1. cbn [w_mem w_km set_mem].
    change (st 8 (w_mem w) (rdfs_address_to_ino (w_mem w) sbi c.2) ptr) with m1.
    rewrite (nvmap_ok sbi kok m1 (w_km w) c.2 top xs) by done. reflexivity. }
  exists w1, i1. split; [done|]. split; [done|]. split; [done|]. split; [done|]. split.
  { intros k x Hx. by apply map_puds_entry. }
  split; [done|].
  assert (Hpud : rdfs_get_pud sbi (w_mem w1) (i_ino i1) = rdfs_va sbi top) by (by apply root_pud). split.
  - eexists. split; [by apply (remap_ok kok w1 i1 ptr c.2 top xs (kpud (w_km w)))|].
    split; [done|]. unfold rdfs_destroy_mapping. cbn [ni_virt_addr ni_mapping_count set_ni_mapping_count].
    change (ni_virt_addr i1) with c.2. by rewrite T1.
  - destruct (unmap_last_ok w1 i1 c F R.2 D top xs (kpud (w_km w))) as (nv3 & E3 & Hn3); try done.
    assert (Hi : set_ni_virt_addr 0 (set_ni_mapping_count 0 i1) = i) by (clear -Hv Hc; destruct i; cbn in *; by subst).
    rewrite Hi in E3. eexists. split; [exact E3|]. split; [|split; [reflexivity|]].
    + cbn. by destruct (w_km w).
    + rewrite <- HF in Hn3. by destruct R.
Qed.
End mapped.

(** The address-to-inode table. The slot computed for file area [k] is 64 [k]
    bytes into a table of 1024 words, so that mapping a regular file in area
    128 or higher stores the inode's address behind the table, where the block
    device descriptors start. *)
Theorem address_to_ino_overruns m sbi k :
  0 <= k < Z.of_nat REG_AREAS -> p_address_to_ino m sbi = virt_addr sbi + RDFS_SB_SPACE ->
  0 <= virt_addr sbi < 2 ^ 63 ->
  let p := rdfs_address_to_ino m sbi (RDFS_START + DIR_AREA_SIZE + k * MAX_FILE_SIZE) in
  p = virt_addr sbi + RDFS_SB_SPACE + 64 * k /\
  (p + 8 <= virt_addr sbi + BDEV_DES_OFFSET <-> k < 128).
Proof.
  intros Hk Hp Hv. rewrite reg_areas_eq in Hk. unfold rdfs_address_to_ino. rewrite Hp.
  replace (RDFS_START + DIR_AREA_SIZE + k * MAX_FILE_SIZE - RDFS_START - DIR_AREA_SIZE) with (k * MAX_FILE_SIZE) by lia.
  unfold MAX_FILE_SIZE, BDEV_DES_OFFSET, ADDRESS_TO_INO_SPACE, MAX_FILE_NUM, RDFS_SB_SPACE, PAGE_SIZE.
  rewrite (u64_small (k * _)) by lia. rewrite Z.div_mul, s32_small by lia.
  rewrite (u64_small (k * 8)) by lia. rewrite u64_small by lia. lia.
Qed.

(** ** On the demonstration filesystem *)

#[local] Existing Instance x86_pg.

(** One free file area. *)
Definition one_area : nvm_state :=
  mk_nvm_state {[8 := mk_nvm 0 (RDFS_START + DIR_AREA_SIZE) MAX_FILE_SIZE]} (mk_pool 8 0 1 0) (mk_pool 0 0 0 0).
Definition one_cell : cell := (8, RDFS_START + DIR_AREA_SIZE).

Lemma one_area_rep : nvm_rep one_area ([one_cell], []) ([], []).
Proof.
  split; cbn; try done; [| |set_solver|].
  - split; cbn; try done; [split; [done|]; split; [done|]; by exists 0| |]; apply NoDup_singleton.
  - split; cbn; done || constructor.
  - constructor; [|done]. exists 0. rewrite reg_areas_eq. unfold one_cell. cbn [snd]. lia.
Qed.

Definition demo_world : world :=
  mk_world demo_inserted (mk_kmm ∅ ∅) one_area ∅ pte_page_init [].
Definition demo_unmapped : inode := mk_inode 1 S_IFREG 0 0 1 4096 1 0 0 0 0 0 0 0 0 0 0 0 0 0 0.

Lemma demo_spare l : Forall (node_page demo_node) l ->
  spare_word demo_sbi (foot := node_foot demo_sbi demo_node) (page_ok := node_page demo_node)
    (meta := node_meta demo_sbi demo_node) l 0.
Proof.
  intros Hl a Ha. rewrite Forall_forall in Hl.
  assert (Hpg : forall q, node_page demo_node q -> 0x20000000 <= rdfs_va demo_sbi q).
  { intros q Hq. destruct (node_page_range demo_sbi demo_size demo_node q Hq) as (_ & Hd & _).
    change (node_des demo_node + sizeof_numa_des) with 0x20008080 in Hd. lia. }
  split; [|split].
  - destruct (node_words demo_node) as [H1 H2].
    assert (Hnd : node_des demo_node = 0x20008000) by reflexivity.
    unfold node_foot, word_at, super_block_off.s_numa_flag, super_block_off.s_numa_des.
    change (virt_addr demo_sbi) with 0x20000000. intros [?|[?|[?|[?|(q & Hq & ?)]]]]; [lia..|].
    specialize (Hpg q (Hl q Hq)). lia.
  - unfold node_meta. change (node_des demo_node + sizeof_numa_des) with 0x20008080. lia.
  - intros q Hq. unfold in_page. specialize (Hpg q Hq). lia.
Qed.

Lemma demo_world_unmapped :
  unmapped demo_sbi (free := node_free demo_sbi demo_node) (foot := node_foot demo_sbi demo_node)
    (page_ok := node_page demo_node) (meta := node_meta demo_sbi demo_node)
    demo_world (drop 4 demo_pages) demo_unmapped ([one_cell], []) ([], []) one_cell 0x1000b000 demo_tree.
Proof.
  split; cbn [w_mem w_nvm w_km demo_world].
  - exact demo_inserted_free.
  - apply demo_slot. vm_compute. reflexivity.
  - vm_compute. reflexivity.
  - exact demo_tree_holds.
  - exact (Forall_take _ 4 demo_pages demo_pages_ok).
  - cbn. lia.
  - reflexivity.
  - reflexivity.
  - reflexivity.
  - exact one_area_rep.
  - by exists [].
  - intros s _. apply lookup_empty.
  - replace (rdfs_address_to_ino _ _ _) with 0 by (vm_compute; reflexivity). apply demo_spare.
    apply Forall_drop. exact demo_pages_ok.
Qed.

Lemma mapping_counts_witness :
  exists w1 i1, rdfs_establish_mapping demo_sbi (fun _ => true) demo_world demo_unmapped 77 = Ret (0, w1, i1) /\
    ni_virt_addr i1 = RDFS_START + DIR_AREA_SIZE /\
    exists w3, rdfs_destroy_mapping demo_sbi w1 i1 = Ret (0, w3, demo_unmapped) /\ w_km w3 = mk_kmm ∅ ∅.
Proof.
  destruct (mapping_counts demo_sbi (fun _ => true) demo_world _ demo_unmapped 77 _ _ _ _ _ demo_world_unmapped)
    as (w1 & i1 & E & Hv & _ & _ & _ & _ & _ & w3 & E3 & Hk & _); [done|].
  exists w1, i1. split; [exact E|]. split; [exact Hv|]. exists w3. split; [exact E3|exact Hk].
Defined.

Lemma address_to_ino_overruns_witness :
  let m := st 8 ∅ (0x20000000 + super_block_off.p_address_to_ino) 0x20001000 in
  rdfs_address_to_ino m demo_sbi (RDFS_START + DIR_AREA_SIZE + 128 * MAX_FILE_SIZE)
    = 0x20000000 + BDEV_DES_OFFSET.
Proof.
  apply (address_to_ino_overruns (st 8 ∅ (0x20000000 + super_block_off.p_address_to_ino) 0x20001000) demo_sbi 128).
  - rewrite reg_areas_eq. lia.
  - vm_compute. reflexivity.
  - cbn. lia.
Defined.
