(* ===== verification/Rdma.v ===== *)
(** * Transfers to the slaves (server.c)

    [rdfs_rdma_block_rw] posts one transfer between a local page and a block of
    a slave's memory and waits for its completion.  The first part models the
    call with its effect on both memories; the second part models the request
    numbers, the lock word and the completion handler as a transition system of
    concurrent callers. *)

From S2P Require Import Prelude Mem Layout SlaveMem.

Definition REQ_ID_MASK : Z := 0x000FFFFFFFFFFFFF.

(** struct rdfs_context of a registered slave, with the slave's memory. *)
Record rdfs_context := mk_ctx {
  rem_addr : Z;
  current_req_id : Z;
  lock_word : Z;
  rem_mem : mem
}.

Inductive rdma_op := RDFS_READ | RDFS_WRITE.

(** ** One transfer *)

Section transfer.
Context (sbi : rdfs_sb_info).

(** The registered buffer: its bus address and its physical address.  The adapter
    reaches byte [x] of the bus at the physical address as far from the
    buffer's. *)
Record rw_buffer := mk_buf { local_rw_addr : Z; global_phy_addr : Z }.

Definition dma_va (b : rw_buffer) (x : Z) : Z :=
  rdfs_va sbi (global_phy_addr b) + (x - local_rw_addr b).

(** ib_post_send accepts the request, by its number. *)
Context (post_ok : Z -> bool).

(** slave_ctx[s_id]: outside the array, or NULL, is a fault. *)
Definition get_ctx (cs : list (option rdfs_context)) (s_id : Z) : outcome rdfs_context :=
  if s_id <? MAX_SLAVE_NUMS then
    match cs !! Z.to_nat s_id with Some (Some c) => Ret c | _ => Oops end
  else Oops.

(** The transfer is complete when the wait ends: the handler clears the request's
    bit and wait_on_bit_lock takes it again.  (A caller that a fatal signal wakes
    up returns the same value earlier, see below.)  A refused request leaves the
    bit set. *)
Definition rdfs_rdma_block_rw (m : mem) (cs : list (option rdfs_context)) (b : rw_buffer)
  (local_phy_addr s_id block_id block_offset size : Z) (rw_flag : rdma_op)
  : outcome (Z * mem * list (option rdfs_context)) :=
  c ← get_ctx cs s_id;
  let remote := u64 (rem_addr c + block_id * RDFS_BLOCK_SIZE + block_offset) in
  let req_id := current_req_id c in
  let word := set_bit req_id (lock_word c) in
  let wr_id := Z.lor (u64 (Z.shiftl s_id SLAVE_ID_SHIFT)) req_id in
  let next := (req_id + 1) mod 64 in
  let upd rm := <[Z.to_nat s_id := Some (mk_ctx (rem_addr c) next word rm)]> cs in
  if negb (post_ok wr_id) then Ret (u64 (-1), m, upd (rem_mem c))
  else
    let n := Z.to_nat (u32 size) in
    match rw_flag with
    | RDFS_READ =>
        Ret (size, st_bytes m (dma_va b local_phy_addr) (ld_bytes (rem_mem c) remote n), upd (rem_mem c))
    | RDFS_WRITE =>
        Ret (size, m, upd (st_bytes (rem_mem c) remote (ld_bytes m (dma_va b local_phy_addr) n)))
    end.
End transfer.

(** ** Concurrent requests

    The callers of [rdfs_rdma_block_rw] for one slave.  A caller posts its request
    and waits, in the state TASK_KILLABLE; its transfer runs and ends with or
    without success, also after the caller has left. *)

Inductive transfer := Running | Succeeded | Failed.
Inductive caller := Waiting | Killed | Returned.

#[export] Instance transfer_eq : EqDecision transfer.
Proof. solve_decision. Defined.
#[export] Instance caller_eq : EqDecision caller.
Proof. solve_decision. Defined.

Record request := mk_req { rq_id : Z; rq_transfer : transfer; rq_caller : caller }.

(** current_req_id, lock_word and the requests in the order they were made. *)
Record ctx_state := mk_cs { cs_next : Z; cs_word : Z; cs_reqs : list request }.

Definition ctx_init : ctx_state := mk_cs 0 0 [].

Definition set_req (s : ctx_state) (word : Z) (k : nat) (r : request) : ctx_state :=
  mk_cs (cs_next s) word (<[k := r]> (cs_reqs s)).

(** The first half of [rdfs_rdma_block_rw]: a number, its bit, the post.  When
    ib_post_send refuses the request the caller returns -1 at once. *)
Definition post_request (ok : bool) (s : ctx_state) : ctx_state :=
  mk_cs ((cs_next s + 1) mod 64) (set_bit (cs_next s) (cs_word s))
    (cs_reqs s ++ [if ok then mk_req (cs_next s) Running Waiting else mk_req (cs_next s) Failed Returned]).

(** comp_handler_send for one completion; the number comes back in the work
    request's id. *)
Definition comp_handler_send (s_id : Z) (s : ctx_state) (k : nat) (r : request) (ok : bool) : ctx_state :=
  let req_word := Z.lor (u64 (Z.shiftl s_id SLAVE_ID_SHIFT)) (rq_id r) in
  if ok then
    let req_id := Z.land req_word REQ_ID_MASK in
    set_req s (clear_bit req_id (cs_word s)) k (mk_req (rq_id r) Succeeded (rq_caller r))
  else set_req s (cs_word s) k (mk_req (rq_id r) Failed (rq_caller r)).

(** A fatal signal for a caller that waits. *)
Definition kill (s : ctx_state) (k : nat) (r : request) : ctx_state :=
  set_req s (cs_word s) k (mk_req (rq_id r) (rq_transfer r) Killed).

(** wait_on_bit_lock returns when it finds the bit clear, and sets it, or when a
    fatal signal is pending, with the bit as it is.  Its result is ignored. *)
Definition can_return (s : ctx_state) (r : request) : bool :=
  negb (Z.testbit (cs_word s) (rq_id r)) || bool_decide (rq_caller r = Killed).

Definition wake (s : ctx_state) (k : nat) (r : request) : ctx_state :=
  let word := if Z.testbit (cs_word s) (rq_id r) then cs_word s else set_bit (rq_id r) (cs_word s) in
  set_req s word k (mk_req (rq_id r) (rq_transfer r) Returned).

Definition waiting (r : request) : Prop := rq_caller r <> Returned.

(** The request can still change the lock word. *)
Definition active (r : request) : Prop := waiting r \/ rq_transfer r = Running.

(** The steps of the callers, of the adapter and its handler, and of signals, with
    posts restricted by [G]. *)
Inductive rdma_step (G : ctx_state -> Prop) (s_id : Z) : ctx_state -> ctx_state -> Prop :=
| step_post s ok : G s -> rdma_step G s_id s (post_request ok s)
| step_complete s k r ok : cs_reqs s !! k = Some r -> rq_transfer r = Running ->
    rdma_step G s_id s (comp_handler_send s_id s k r ok)
| step_kill s k r : cs_reqs s !! k = Some r -> waiting r -> rdma_step G s_id s (kill s k r)
| step_wake s k r : cs_reqs s !! k = Some r -> waiting r -> can_return s r = true ->
    rdma_step G s_id s (wake s k r).

(** The next number belongs to no request whose caller waits or whose transfer
    still runs. *)
Definition id_free (s : ctx_state) : Prop :=
  forall k r, cs_reqs s !! k = Some r -> active r -> rq_id r <> cs_next s.

(** ** Bits *)

Lemma testbit_set_bit n w k : 0 <= n -> Z.testbit (set_bit n w) k = (n =? k) || Z.testbit w k.
Proof. intros Hn. unfold set_bit. rewrite Z.lor_spec, Z.pow2_bits_eqb by lia. apply orb_comm. Qed.

Lemma testbit_clear_bit n w k : 0 <= n -> Z.testbit (clear_bit n w) k = negb (n =? k) && Z.testbit w k.
Proof. intros Hn. unfold clear_bit. rewrite Z.ldiff_spec, Z.pow2_bits_eqb by lia. apply andb_comm. Qed.

(** The request number comes back out of the work request's id. *)
Lemma req_id_back s_id i : 0 <= s_id < 2 ^ 12 -> 0 <= i < 64 ->
  Z.land (Z.lor (u64 (Z.shiftl s_id SLAVE_ID_SHIFT)) i) REQ_ID_MASK = i.
Proof.
  intros Hs Hi. unfold SLAVE_ID_SHIFT, REQ_ID_MASK. change 0x000FFFFFFFFFFFFF with (2 ^ 52 - 1).
  rewrite shiftl_mul, u64_small, lor_disjoint_add, land_ones_mod by lia. zdm.
Qed.

(** ** The invariant *)

Record rdma_inv (s : ctx_state) : Prop := {
  inv_next : 0 <= cs_next s < 64;
  inv_ids k r : cs_reqs s !! k = Some r -> 0 <= rq_id r < 64;
  inv_distinct k k' r r' : cs_reqs s !! k = Some r -> cs_reqs s !! k' = Some r' -> active r -> active r' ->
    rq_id r = rq_id r' -> k = k';
  inv_bit k r : cs_reqs s !! k = Some r -> waiting r ->
    Z.testbit (cs_word s) (rq_id r) = negb (bool_decide (rq_transfer r = Succeeded))
}.

(** Changing request [k] to [r'], with bit [b] for its number. *)
Lemma rdma_inv_update s k r r' word b : rdma_inv s -> cs_reqs s !! k = Some r -> active r -> rq_id r' = rq_id r ->
  (forall j, 0 <= j -> Z.testbit word j = if j =? rq_id r then b else Z.testbit (cs_word s) j) ->
  (waiting r' -> b = negb (bool_decide (rq_transfer r' = Succeeded))) ->
  rdma_inv (set_req s word k r').
Proof.
  intros [I1 I2 I3 I4] Hk Ha Eid Hb Hst.
  assert (Hl : forall j x, <[k := r']> (cs_reqs s) !! j = Some x ->
    (j = k /\ x = r') \/ (j <> k /\ cs_reqs s !! j = Some x)).
  { intros j x [(-> & <- & _)|[? ?]]%list_lookup_insert_Some; [by left|by right]. }
  split; cbn.
  - done.
  - intros j x [[-> ->]|[_ Hx]]%Hl; [rewrite Eid; by apply (I2 k r)|by apply (I2 j x)].
  - intros j j' x x' [[-> ->]|[Hj Hx]]%Hl [[-> ->]|[Hj' Hx']]%Hl W W' E; rewrite ?Eid in E.
    + done.
    + by rewrite (I3 k j' r x' Hk Hx' Ha W' E).
    + by rewrite (I3 j k x r Hx Hk W Ha E).
    + by apply (I3 j j' x x').
  - intros j x [[-> ->]|[Hj Hx]]%Hl W; cbn.
    + rewrite Eid, Hb by (by apply (I2 k r)). rewrite Z.eqb_refl. by apply Hst.
    + rewrite Hb by (by apply (I2 j x)). rewrite (proj2 (Z.eqb_neq _ _)); [by apply (I4 j)|].
      intros E. apply Hj. apply (I3 j k x r); try done. by left.
Qed.

Lemma post_inv s ok : rdma_inv s -> id_free s -> rdma_inv (post_request ok s).
Proof.
  intros [I1 I2 I3 I4] HG. set (n := if ok then mk_req (cs_next s) Running Waiting else mk_req (cs_next s) Failed Returned).
  assert (En : rq_id n = cs_next s) by (unfold n; by destruct ok).
  assert (Hl : forall j x, (cs_reqs s ++ [n]) !! j = Some x -> cs_reqs s !! j = Some x \/ (j = length (cs_reqs s) /\ x = n)).
  { intros j x [Hx|[Hj Hx]]%lookup_app_Some; [by left|right].
    apply list_lookup_singleton_Some in Hx as [Hx <-]. split; [lia|done]. }
  split; cbn; fold n.
  - apply Z.mod_pos_bound. lia.
  - intros j x [Hx|[_ ->]]%Hl; [by apply (I2 j)|by rewrite En].
  - intros j j' x x' [Hx|[-> ->]]%Hl [Hx'|[-> ->]]%Hl W W' E; rewrite ?En in E.
    + by apply (I3 j j' x x').
    + exfalso. by apply (HG j x).
    + exfalso. by apply (HG j' x').
    + done.
  - intros j x [Hx|[_ ->]]%Hl W; cbn; rewrite testbit_set_bit by lia.
    + rewrite (proj2 (Z.eqb_neq _ _)); [by apply (I4 j)|]. intros E. apply (HG j x); try done. by left.
    + rewrite En, Z.eqb_refl. unfold n in *. by destruct ok.
Qed.

Lemma rdma_step_inv s_id s s' : 0 <= s_id < 2 ^ 12 -> rdma_inv s -> rdma_step id_free s_id s s' -> rdma_inv s'.
Proof.
  intros Hs HI Hst. destruct Hst as [s ok HG|s k r ok Hk Hr|s k r Hk Hw|s k r Hk Hw Hb].
  - by apply post_inv.
  - pose proof (inv_ids _ HI k r Hk) as Hid. assert (Ha : active r) by (by right). unfold comp_handler_send. destruct ok.
    + rewrite req_id_back by lia. apply (rdma_inv_update s k r _ _ false); try done.
      intros j Hj. rewrite testbit_clear_bit, Z.eqb_sym by lia. by destruct (_ =? _).
    + apply (rdma_inv_update s k r _ _ (Z.testbit (cs_word s) (rq_id r))); try done.
      * intros j Hj. by destruct (Z.eqb_spec j (rq_id r)) as [->|].
      * intros Hw. by rewrite (inv_bit _ HI k r Hk Hw), Hr.
  - apply (rdma_inv_update s k r _ _ (Z.testbit (cs_word s) (rq_id r))); try done; [by left| |].
    + intros j Hj. by destruct (Z.eqb_spec j (rq_id r)) as [->|].
    + intros _. exact (inv_bit _ HI k r Hk Hw).
  - pose proof (inv_ids _ HI k r Hk) as Hid. apply (rdma_inv_update s k r _ _ true); try done; [by left|].
    intros j Hj. destruct (Z.testbit (cs_word s) (rq_id r)) eqn:Et.
    + by destruct (Z.eqb_spec j (rq_id r)) as [->|].
    + rewrite testbit_set_bit, Z.eqb_sym by lia. by destruct (_ =? _).
Qed.

Lemma rdma_reach_inv s_id s : 0 <= s_id < 2 ^ 12 -> rtc (rdma_step id_free s_id) ctx_init s -> rdma_inv s.
Proof.
  intros Hs Hr. remember ctx_init as s0 eqn:E0. assert (HI : rdma_inv s0).
  { subst. split; [cbn; lia|intros [|k]; done|intros [|k]; done|intros [|k]; done]. }
  clear E0. induction Hr as [|s0 s1 s2 Hst _ IH]; [done|]. by apply IH, (rdma_step_inv s_id s0).
Qed.

(** C25: Waiting for a transfer. As long as no request gets a number that a waiting
    caller or a running transfer still has, a waiting caller can return exactly
    when its own transfer has succeeded or a fatal signal is pending for it; in
    particular one whose transfer failed returns only by a signal. *)
Theorem rdma_wait_exact s_id s k r :
  0 <= s_id < 2 ^ 12 -> rtc (rdma_step id_free s_id) ctx_init s -> cs_reqs s !! k = Some r -> waiting r ->
  can_return s r = true <-> rq_transfer r = Succeeded \/ rq_caller r = Killed.
Proof.
  intros Hs Hr Hk Hw. unfold can_return. rewrite (inv_bit _ (rdma_reach_inv s_id s Hs Hr) k r Hk Hw).
  rewrite negb_involutive, orb_true_iff, !bool_decide_eq_true. done.
Qed.

(** ** Schedules *)

(** The moves of a schedule, and their effect where they are possible. *)
Inductive move := Post | Complete (k : nat) (ok : bool) | Kill (k : nat) | Wake (k : nat).

Definition do_move (s_id : Z) (s : ctx_state) (a : move) : option ctx_state :=
  match a with
  | Post => Some (post_request true s)
  | Complete k ok => r ← cs_reqs s !! k;
      if bool_decide (rq_transfer r = Running) then Some (comp_handler_send s_id s k r ok) else None
  | Kill k => r ← cs_reqs s !! k; if negb (bool_decide (rq_caller r = Returned)) then Some (kill s k r) else None
  | Wake k => r ← cs_reqs s !! k;
      if negb (bool_decide (rq_caller r = Returned)) && can_return s r then Some (wake s k r) else None
  end.

Fixpoint run (s_id : Z) (s : ctx_state) (l : list move) : option ctx_state :=
  match l with [] => Some s | a :: l => s ← do_move s_id s a; run s_id s l end.

Lemma run_steps G s_id l s s' : (forall s, G s) -> run s_id s l = Some s' -> rtc (rdma_step G s_id) s s'.
Proof.
  intros HG. revert s. induction l as [|a l IH]; intros s; cbn; [intros [= ->]; constructor|].
  intros (s1 & E & H)%bind_Some. econstructor; [|by apply IH]. destruct a as [|k ok|k|k]; unfold do_move in E.
  - apply (inj Some) in E as <-. by apply step_post.
  - apply bind_Some in E as (r & Hk & E). case_bool_decide; [|done]. apply (inj Some) in E as <-. by apply step_complete.
  - apply bind_Some in E as (r & Hk & E). case_bool_decide; [done|]. apply (inj Some) in E as <-. by apply step_kill.
  - apply bind_Some in E as (r & Hk & E). destruct (negb _ && _) eqn:Eb; [|done]. apply (inj Some) in E as <-.
    apply andb_true_iff in Eb as [E1 E2]. apply step_wake; try done. unfold waiting. by case_bool_decide.
Qed.

(** The first request is slow; 63 others come and go; the next one has its number. *)
Definition schedule : list move :=
  Post :: flat_map (fun k => [Post; Complete k true; Wake k]) (seq 1 63) ++ [Post; Complete 64 true].

(** Request numbers repeat after 64 requests without regard to callers that
    still wait: there is a run of the callers of one slave, with never more than
    two transfers under way and no signal, after which the first caller finds its
    bit clear and returns although its own transfer is still running. *)
Theorem rdma_wait_early :
  exists s r, rtc (rdma_step (fun _ => True) 0) ctx_init s /\ cs_reqs s !! 0%nat = Some r /\
    rq_transfer r = Running /\ rq_caller r = Waiting /\ can_return s r = true.
Proof.
  destruct (run 0 ctx_init schedule) as [s|] eqn:E; [|by vm_compute in E].
  exists s, (mk_req 0 Running Waiting). split; [by apply (run_steps _ 0 schedule)|].
  vm_compute in E. injection E as <-. vm_compute. done.
Qed.

(** A request that succeeds, one that fails and one whose caller is killed. *)
Definition three_requests : list move := [Post; Post; Post; Complete 0 true; Complete 1 false; Kill 2].
Definition after_three : ctx_state :=
  mk_cs 3 6 [mk_req 0 Succeeded Waiting; mk_req 1 Failed Waiting; mk_req 2 Running Killed].

Lemma three_steps : rtc (rdma_step id_free 0) ctx_init after_three.
Proof.
  assert (G : forall s, forallb (fun r => negb (rq_id r =? cs_next s)) (cs_reqs s) = true -> id_free s).
  { intros s H k r Hk _. rewrite forallb_forall in H. specialize (H r (proj1 (list_elem_of_In _ _) (list_elem_of_lookup_2 _ _ _ Hk))).
    by apply negb_true_iff, Z.eqb_neq in H. }
  eapply rtc_l; [apply (step_post _ _ _ true); by apply G|]. eapply rtc_l; [apply (step_post _ _ _ true); by apply G|].
  eapply rtc_l; [apply (step_post _ _ _ true); by apply G|]. eapply rtc_l; [by apply (step_complete _ _ _ 0 (mk_req 0 Running Waiting) true)|].
  eapply rtc_l; [by apply (step_complete _ _ _ 1 (mk_req 1 Running Waiting) false)|].
  eapply rtc_l; [by apply (step_kill _ _ _ 2 (mk_req 2 Running Waiting))|]. constructor.
Qed.

Lemma rdma_wait_exact_witness :
  can_return after_three (mk_req 0 Succeeded Waiting) = true /\ can_return after_three (mk_req 1 Failed Waiting) = false /\
  can_return after_three (mk_req 2 Running Killed) = true.
Proof.
  pose proof (rdma_wait_exact 0 after_three) as H. split; [|split].
  - apply (H 0%nat (mk_req 0 Succeeded Waiting) ltac:(lia) three_steps eq_refl ltac:(done)). by left.
  - apply not_true_iff_false. intros E.
    apply (H 1%nat (mk_req 1 Failed Waiting) ltac:(lia) three_steps eq_refl ltac:(done)) in E as [E|E]; discriminate E.
  - apply (H 2%nat (mk_req 2 Running Killed) ltac:(lia) three_steps eq_refl ltac:(done)). by right.
Defined.
