(* ===== verification/Acl.v ===== *)
(** * Access control lists (acl.c, acl.h, xattr.h)

    The on-media form of a POSIX ACL is a version word followed by entries of
    four or eight bytes.  The file models the parser [rdfs_acl_load], the
    printer [rdfs_acl_save] and the operations built on them; extended
    attributes are compiled out, so that the attribute calls return
    -EOPNOTSUPP. *)

From S2P Require Import Prelude Vfs.

Definition rdfs_ACL_VERSION : Z := 0x0001.
Definition sizeof_acl_header : Z := 4.
Definition sizeof_acl_entry : Z := 8.
Definition sizeof_acl_entry_short : Z := 4.

(** Kernel constants. *)
Definition ACL_USER_OBJ : Z := 0x01.
Definition ACL_USER : Z := 0x02.
Definition ACL_GROUP_OBJ : Z := 0x04.
Definition ACL_GROUP : Z := 0x08.
Definition ACL_MASK : Z := 0x10.
Definition ACL_OTHER : Z := 0x20.
Definition ACL_TYPE_ACCESS : Z := 0x8000.
Definition ACL_TYPE_DEFAULT : Z := 0x4000.
Definition EPERM : Z := 1.
Definition ENOSYS : Z := 38.

(** struct posix_acl_entry; e_uid and e_gid are the one field [ae_id] *)
Record acl_entry := mk_ae { ae_tag : Z; ae_perm : Z; ae_id : option Z }.

(** A pointer to an ACL, NULL, or ERR_PTR(-e). *)
Inductive acl_ptr :=
| AclErr (e : Z)
| AclNull
| AclPtr (l : list acl_entry).

(** ** Bytes *)

Definition is_byte (b : Z) : Prop := 0 <= b < 256.
Definition be16 (v : Z) : list Z := [v / 256 mod 256; v mod 256].
Definition le16 (v : Z) : list Z := [v mod 256; v / 256 mod 256].
Definition be32 (v : Z) : list Z := be16 (v / 2 ^ 16) ++ be16 (v mod 2 ^ 16).

(** be16_to_cpu and be32_to_cpu of the bytes at the head of a buffer *)
Definition get_be16 (bs : list Z) : Z := match bs with a :: b :: _ => a * 256 + b | _ => 0 end.
Definition get_be32 (bs : list Z) : Z := get_be16 bs * 2 ^ 16 + get_be16 (drop 2 bs).

Definition short_tag (t : Z) : bool :=
  (t =? ACL_USER_OBJ) || (t =? ACL_GROUP_OBJ) || (t =? ACL_MASK) || (t =? ACL_OTHER).
Definition long_tag (t : Z) : bool := (t =? ACL_USER) || (t =? ACL_GROUP).

(** ** Sizes *)

Definition rdfs_acl_count (size : Z) : Z :=
  let size := u64 (size - sizeof_acl_header) in
  let s := s64 (size - 4 * sizeof_acl_entry_short) in
  if s <? 0 then
    if negb (size mod sizeof_acl_entry_short =? 0) then -1 else s32 (size / sizeof_acl_entry_short)
  else if negb (s mod sizeof_acl_entry =? 0) then -1 else s32 (s / sizeof_acl_entry + 4).

Definition rdfs_acl_size (count : Z) : Z :=
  if count <=? 4 then sizeof_acl_header + count * sizeof_acl_entry_short
  else sizeof_acl_header + 4 * sizeof_acl_entry_short + (count - 4) * sizeof_acl_entry.

(** ** Parsing *)

(** The bytes from [value] to [end]; e_tag is a short. *)
Fixpoint acl_load_loop (n : nat) (value : list Z) : option (list acl_entry * list Z) :=
  match n with
  | O => Some ([], value)
  | S n' =>
      if (length value <? 4)%nat then None
      else
        let tag := get_be16 value in
        let perm := get_be16 (drop 2 value) in
        if short_tag tag then
          '(l, rest) ← acl_load_loop n' (drop 4 value); Some (mk_ae tag perm None :: l, rest)
        else if long_tag tag then
          if (length value <? 8)%nat then None
          else
            '(l, rest) ← acl_load_loop n' (drop 8 value);
            Some (mk_ae tag perm (Some (get_be32 (drop 4 value))) :: l, rest)
        else None
  end.

(** [alloc_ok]: posix_acl_alloc returns an ACL. *)
Definition rdfs_acl_load (alloc_ok : bool) (value : option (list Z)) : acl_ptr :=
  match value with
  | None => AclNull
  | Some bytes =>
      let size := Z.of_nat (length bytes) in
      if size <? sizeof_acl_header then AclErr EINVAL
      else if negb (get_be32 bytes =? rdfs_ACL_VERSION) then AclErr EINVAL
      else
        let count := rdfs_acl_count size in
        if count <? 0 then AclErr EINVAL
        else if count =? 0 then AclNull
        else if negb alloc_ok then AclErr ENOMEM
        else
          match acl_load_loop (Z.to_nat count) (drop 4 bytes) with
          | Some (l, []) => AclPtr l
          | _ => AclErr EINVAL
          end
  end.

(** ** Printing *)

(** cpu_to_le16 of tag and permissions, cpu_to_be32 of the id *)
Definition save_entry (e : acl_entry) : option (list Z) :=
  if long_tag (ae_tag e) then Some (le16 (ae_tag e) ++ le16 (ae_perm e) ++ be32 (default 0 (ae_id e)))
  else if short_tag (ae_tag e) then Some (le16 (ae_tag e) ++ le16 (ae_perm e))
  else None.

Fixpoint save_entries (l : list acl_entry) : option (list Z) :=
  match l with
  | [] => Some []
  | e :: l' => b ← save_entry e; bs ← save_entries l'; Some (b ++ bs)
  end.

(** The buffer's written bytes and *size; the buffer has 4 + 8 * count bytes. *)
Definition rdfs_acl_save (kmalloc_ok : bool) (l : list acl_entry) : Z + (list Z * Z) :=
  let size := rdfs_acl_size (Z.of_nat (length l)) in
  if negb kmalloc_ok then inl (- ENOMEM)
  else
    match save_entries l with
    | Some bs => inr (be32 rdfs_ACL_VERSION ++ bs, size)
    | None => inl (- EINVAL)
    end.

(** ** Getting and setting *)

(** xattr.h without CONFIG_RDFS_XATTR *)
Definition rdfs_xattr_get : Z := - EOPNOTSUPP.
Definition rdfs_xattr_set : Z := - EOPNOTSUPP.

(** The kernel's ACL functions; [equiv_mode acl mode] is the result and the new
    mode of posix_acl_equiv_mode. *)
Class PosixAcl := {
  equiv_mode : list acl_entry -> Z -> Z * Z;
  acl_to_xattr : list acl_entry -> Z;
  acl_from_xattr : list Z -> acl_ptr;
  acl_valid : list acl_entry -> Z
}.

Section acl.
Context `{!PosixAcl}.

(** [opt]: the POSIX_ACL mount option; [cache]: the cached ACL of that type,
    [None] for ACL_NOT_CACHED.  BUG() is a fault. *)
Definition rdfs_get_acl (opt : bool) (cache : option acl_ptr) (type : Z) : outcome (acl_ptr * option acl_ptr) :=
  if negb opt then Ret (AclNull, cache)
  else
    match cache with
    | Some acl => Ret (acl, cache)
    | None =>
        if (type =? ACL_TYPE_ACCESS) || (type =? ACL_TYPE_DEFAULT) then
          let retval := rdfs_xattr_get in
          (* the attribute is never there, so no value is loaded *)
          let acl := if (retval =? - ENODATA) || (retval =? - ENOSYS) then AclNull else AclErr (- retval) in
          Ret (acl, match acl with AclErr _ => cache | _ => Some acl end)
        else Oops
    end.

Definition rdfs_set_acl (opt kmalloc_ok : bool) (now : Z) (inode_ : inode) (type : Z) (acl : option (list acl_entry))
  : Z * inode :=
  if S_ISLNK (i_mode inode_) then (- EOPNOTSUPP, inode_)
  else if negb opt then (0, inode_)
  else
    let save (i : inode) (acl : option (list acl_entry)) : Z * inode :=
      match acl with
      | Some l => match rdfs_acl_save kmalloc_ok l with
                  | inl e => (e, i)
                  | inr _ => (rdfs_xattr_set, i)
                  end
      | None => (rdfs_xattr_set, i)
      end in
    if type =? ACL_TYPE_ACCESS then
      match acl with
      | Some l =>
          let '(error, mode) := equiv_mode l (i_mode inode_) in
          let i := set_i_mode mode inode_ in
          if error <? 0 then (error, i)
          else save (set_i_ctime now i) (if error =? 0 then None else Some l)
      | None => save inode_ None
      end
    else if type =? ACL_TYPE_DEFAULT then
      if negb (S_ISDIR (i_mode inode_)) then (match acl with Some _ => - EACCES | None => 0 end, inode_)
      else save inode_ acl
    else (- EINVAL, inode_).

(** With POSIX_ACL set; the call of posix_acl_create is commented out. *)
Definition rdfs_init_acl (opt kmalloc_ok : bool) (umask now : Z) (dcache : option acl_ptr) (inode_ : inode)
  : outcome (Z * inode * option acl_ptr) :=
  '(acl, dcache) ← (if negb (S_ISLNK (i_mode inode_)) && opt then rdfs_get_acl opt dcache ACL_TYPE_DEFAULT
                    else Ret (AclNull, dcache));
  match acl with
  | AclErr e => Ret (- e, inode_, dcache)
  | AclNull =>
      let inode_ := if negb (S_ISLNK (i_mode inode_))
                    then set_i_mode (Z.land (i_mode inode_) (u16 (Z.lnot umask))) inode_ else inode_ in
      Ret (0, inode_, dcache)
  | AclPtr l =>
      if opt then
        let mode := i_mode inode_ in
        if S_ISDIR (i_mode inode_) then
          let '(error, inode_) := rdfs_set_acl opt kmalloc_ok now inode_ ACL_TYPE_DEFAULT (Some l) in
          if negb (error =? 0) then Ret (error, inode_, dcache) else Ret (0, set_i_mode mode inode_, dcache)
        else Ret (0, set_i_mode mode inode_, dcache)
      else Ret (0, inode_, dcache)
  end.

(** The call of posix_acl_chmod is commented out. *)
Definition rdfs_acl_chmod (opt kmalloc_ok : bool) (now : Z) (cache : option acl_ptr) (inode_ : inode)
  : outcome (Z * inode * option acl_ptr) :=
  if negb opt then Ret (0, inode_, cache)
  else if S_ISLNK (i_mode inode_) then Ret (- EOPNOTSUPP, inode_, cache)
  else
    '(acl, cache) ← rdfs_get_acl opt cache ACL_TYPE_ACCESS;
    match acl with
    | AclErr e => Ret (- e, inode_, cache)
    | AclNull => Ret (0, inode_, cache)
    | AclPtr l =>
        let '(error, inode_) := rdfs_set_acl opt kmalloc_ok now inode_ ACL_TYPE_ACCESS (Some l) in
        Ret (error, inode_, cache)
    end.

(** POSIX_ACL_XATTR_ACCESS and POSIX_ACL_XATTR_DEFAULT with their final zeros;
    the result: the returned size and the bytes copied to [list], if any. *)
Definition rdfs_xattr_list_acl (opt : bool) (attr : list Z) (list_size : option Z) : Z * list Z :=
  let size := Z.of_nat (length attr) in
  if negb opt then (0, [])
  else match list_size with
       | Some n => if size <=? n then (size, attr) else (size, [])
       | None => (size, [])
       end.

Definition rdfs_xattr_get_acl (opt : bool) (name : list Z) (cache : option acl_ptr) (type : Z)
  : outcome (Z * option acl_ptr) :=
  match name with
  | _ :: _ => Ret (- EINVAL, cache)
  | [] =>
      if negb opt then Ret (- EOPNOTSUPP, cache)
      else
        '(acl, cache) ← rdfs_get_acl opt cache type;
        match acl with
        | AclErr e => Ret (- e, cache)
        | AclNull => Ret (- ENODATA, cache)
        | AclPtr l => Ret (acl_to_xattr l, cache)
        end
  end.

Definition rdfs_xattr_set_acl (opt kmalloc_ok owner : bool) (now : Z) (name : list Z) (value : option (list Z))
  (inode_ : inode) (type : Z) : Z * inode :=
  match name with
  | _ :: _ => (- EINVAL, inode_)
  | [] =>
      if negb opt then (- EOPNOTSUPP, inode_)
      else if negb owner then (- EPERM, inode_)
      else
        match value with
        | None => rdfs_set_acl opt kmalloc_ok now inode_ type None
        | Some v =>
            match acl_from_xattr v with
            | AclErr e => (- e, inode_)
            | AclNull => rdfs_set_acl opt kmalloc_ok now inode_ type None
            | AclPtr l =>
                let error := acl_valid l in
                if negb (error =? 0) then (error, inode_)
                else rdfs_set_acl opt kmalloc_ok now inode_ type (Some l)
            end
        end
  end.
End acl.

(** ** The format

    The bytes of an ACL with all fields big-endian, as [rdfs_acl_load] reads
    them, and the ACLs the size computation allows: all entries short up to
    four, exactly four short ones beyond. *)
Definition entry_bytes (e : acl_entry) : list Z :=
  be16 (ae_tag e) ++ be16 (ae_perm e) ++ match ae_id e with Some i => be32 i | None => [] end.
Definition entries_bytes (l : list acl_entry) : list Z := l ≫= entry_bytes.
Definition acl_bytes (l : list acl_entry) : list Z := be32 rdfs_ACL_VERSION ++ entries_bytes l.

Definition entry_ok (e : acl_entry) : Prop :=
  0 <= ae_perm e < 2 ^ 16 /\
  match ae_id e with
  | None => short_tag (ae_tag e) = true
  | Some i => long_tag (ae_tag e) = true /\ 0 <= i < 2 ^ 32
  end.

Definition shorts (l : list acl_entry) : nat := length (filter (fun e => ae_id e = None) l).
Definition shape_ok (l : list acl_entry) : Prop :=
  if (length l <=? 4)%nat then shorts l = length l else shorts l = 4%nat.

Lemma tag_range t : short_tag t = true \/ long_tag t = true -> 0 < t < 64.
Proof. unfold short_tag, long_tag, ACL_USER_OBJ, ACL_GROUP_OBJ, ACL_MASK, ACL_OTHER, ACL_USER, ACL_GROUP. lia. Qed.

Lemma tags_disjoint t : long_tag t = true -> short_tag t = false.
Proof. unfold short_tag, long_tag, ACL_USER_OBJ, ACL_GROUP_OBJ, ACL_MASK, ACL_OTHER, ACL_USER, ACL_GROUP. lia. Qed.

Lemma get_be16_app v r : 0 <= v < 2 ^ 16 -> get_be16 (be16 v ++ r) = v.
Proof. intros. unfold get_be16, be16. cbn. zdm. Qed.

Lemma get_be32_app v r : 0 <= v < 2 ^ 32 -> get_be32 (be32 v ++ r) = v.
Proof.
  intros. unfold get_be32, be32. rewrite <- app_assoc, get_be16_app by zdm.
  change (drop 2 (be16 (v / 2 ^ 16) ++ be16 (v mod 2 ^ 16) ++ r)) with (be16 (v mod 2 ^ 16) ++ r).
  rewrite get_be16_app by zdm. zdm.
Qed.

Lemma be16_get a b r : is_byte a -> is_byte b -> be16 (get_be16 (a :: b :: r)) = [a; b].
Proof. unfold is_byte, be16, get_be16. intros. f_equal; [zdm|f_equal; zdm]. Qed.

Lemma be32_get a b c d r : is_byte a -> is_byte b -> is_byte c -> is_byte d ->
  be32 (get_be32 (a :: b :: c :: d :: r)) = [a; b; c; d].
Proof.
  unfold is_byte, be32, get_be32, be16, get_be16. cbn. intros.
  f_equal; [zdm|f_equal; [zdm|f_equal; [zdm|f_equal; zdm]]].
Qed.

Lemma entries_cons e l : entries_bytes (e :: l) = entry_bytes e ++ entries_bytes l.
Proof. done. Qed.

(** The loop reads back printed entries. *)
Lemma load_loop_bytes l r : Forall entry_ok l -> acl_load_loop (length l) (entries_bytes l ++ r) = Some (l, r).
Proof.
  induction 1 as [|e l He Hl IH]; [done|]. destruct e as [t p i]. destruct He as [Hp Hi]. cbn in Hp, Hi.
  rewrite entries_cons. cbn [length acl_load_loop]. unfold entry_bytes. cbn [ae_tag ae_perm ae_id].
  rewrite <- !app_assoc. destruct i as [i|].
  - destruct Hi as [Ht Hi]. pose proof (tag_range t (or_intror Ht)) as Hr.
    replace (length _ <? 4)%nat with false by (symmetry; apply Nat.ltb_ge; rewrite !length_app; cbn; lia).
    rewrite get_be16_app by lia. rewrite (tags_disjoint t Ht), Ht.
    replace (length _ <? 8)%nat with false by (symmetry; apply Nat.ltb_ge; rewrite !length_app; cbn; lia).
    change (drop 2 (be16 t ++ be16 p ++ be32 i ++ entries_bytes l ++ r)) with (be16 p ++ be32 i ++ entries_bytes l ++ r).
    change (drop 4 (be16 t ++ be16 p ++ be32 i ++ entries_bytes l ++ r)) with (be32 i ++ entries_bytes l ++ r).
    change (drop 8 (be16 t ++ be16 p ++ be32 i ++ entries_bytes l ++ r)) with (entries_bytes l ++ r).
    rewrite IH, get_be16_app, get_be32_app by lia. done.
  - pose proof (tag_range t (or_introl Hi)) as Hr.
    replace (length _ <? 4)%nat with false by (symmetry; apply Nat.ltb_ge; rewrite !length_app; cbn; lia).
    rewrite get_be16_app by lia. rewrite Hi.
    change (drop 2 (be16 t ++ be16 p ++ [] ++ entries_bytes l ++ r)) with (be16 p ++ entries_bytes l ++ r).
    change (drop 4 (be16 t ++ be16 p ++ [] ++ entries_bytes l ++ r)) with (entries_bytes l ++ r).
    rewrite IH, get_be16_app by lia. done.
Qed.

(** What the loop accepts is what the printer of the format writes. *)
Lemma load_loop_sound n value l r : Forall is_byte value -> acl_load_loop n value = Some (l, r) ->
  value = entries_bytes l ++ r /\ Forall entry_ok l /\ length l = n.
Proof.
  revert value l. induction n as [|n IH]; intros value l Hb E; cbn in E.
  { injection E as <- <-. split; [done|]. by split; [constructor|]. }
  destruct value as [|a [|b [|c [|d v]]]]; try done. inversion Hb as [|? ? Ha Hb1]; subst.
  inversion Hb1 as [|? ? Hb' Hb2]; subst. inversion Hb2 as [|? ? Hc Hb3]; subst. inversion Hb3 as [|? ? Hd Hv]; subst.
  cbn [length Nat.ltb Nat.leb skipn] in E. rewrite ?drop_0 in E. set (t := get_be16 (a :: b :: c :: d :: v)) in *.
  set (p := get_be16 (c :: d :: v)) in *.
  assert (Hp : 0 <= p < 2 ^ 16) by (unfold p, get_be16, is_byte in *; lia).
  assert (Et : be16 t = [a; b]) by (by apply be16_get). assert (Ep : be16 p = [c; d]) by (by apply be16_get).
  clearbody t p. destruct (short_tag t) eqn:Es.
  - destruct (acl_load_loop n v) as [[l' r']|] eqn:El; cbn in E; [|done]. injection E as <- <-.
    destruct (IH v l' Hv El) as (-> & Hok & Hn). split; [|split; [by constructor|cbn; by rewrite Hn]].
    rewrite entries_cons. unfold entry_bytes. cbn [ae_tag ae_perm ae_id]. by rewrite Et, Ep.
  - destruct (long_tag t) eqn:Elt; [|done]. destruct v as [|e [|f [|g [|h v]]]]; try done. cbn [length Nat.ltb Nat.leb skipn] in E. rewrite ?drop_0 in E.
    inversion Hv as [|? ? He Hv1]; subst. inversion Hv1 as [|? ? Hf Hv2]; subst.
    inversion Hv2 as [|? ? Hg Hv3]; subst. inversion Hv3 as [|? ? Hh Hv4]; subst.
    destruct (acl_load_loop n v) as [[l' r']|] eqn:El; cbn [mbind option_bind] in E; [|done]. injection E as <- <-.
    destruct (IH v l' Hv4 El) as (-> & Hok & Hn). split; [|split; [|cbn; by rewrite Hn]].
    + rewrite entries_cons. unfold entry_bytes. cbn [ae_tag ae_perm ae_id]. rewrite Et, Ep.
      by rewrite (be32_get e f g h (entries_bytes l' ++ r')).
    + constructor; [|done]. split; [done|]. split; [done|]. unfold get_be32, get_be16, is_byte in *. cbn. lia.
Qed.

(** The length of the format and the count computed from it. *)
Lemma entries_length l : Forall entry_ok l ->
  length (entries_bytes l) = (8 * length l - 4 * shorts l)%nat /\ (shorts l <= length l)%nat.
Proof.
  induction 1 as [|e l [_ He] Hl [IH1 IH2]]; [done|]. rewrite entries_cons, length_app, IH1. unfold entry_bytes, shorts.
  rewrite filter_cons. destruct e as [t p [i|]]; cbn [ae_id ae_tag ae_perm]; case_decide; try done;
    unfold shorts in IH2; cbn; lia.
Qed.

Lemma acl_count_spec n : 0 <= n < 2 ^ 31 ->
  rdfs_acl_count (4 + n) = if n <? 16 then if n mod 4 =? 0 then n / 4 else -1
                           else if n mod 8 =? 0 then n / 8 + 2 else -1.
Proof.
  intros Hn. unfold rdfs_acl_count, sizeof_acl_header, sizeof_acl_entry_short, sizeof_acl_entry.
  replace (4 + n - 4) with n by lia. rewrite u64_small by lia. rewrite s64_small by lia.
  replace (n - 4 * 4 <? 0) with (n <? 16) by lia. destruct (n <? 16) eqn:E.
  - destruct (n mod 4 =? 0) eqn:Em; cbn [negb]; [|done]. rewrite s32_small; zdm.
  - replace ((n - 4 * 4) mod 8) with (n mod 8) by zdm. destruct (n mod 8 =? 0) eqn:Em; cbn [negb]; [|done].
    rewrite s32_small; zdm.
Qed.

(** The count derived from the size is the number of entries exactly for the
    allowed shapes. *)
Lemma acl_count_shape l : Forall entry_ok l -> Z.of_nat (length (entries_bytes l)) < 2 ^ 31 ->
  rdfs_acl_count (4 + Z.of_nat (length (entries_bytes l))) = Z.of_nat (length l) <-> shape_ok l.
Proof.
  intros Hok Hlt. destruct (entries_length l Hok) as [El Hs]. rewrite acl_count_spec by lia.
  unfold shape_ok. rewrite El. set (L := length l) in *. set (s := shorts l) in *.
  destruct (Nat.leb_spec L 4); destruct (Z.ltb_spec (Z.of_nat (8 * L - 4 * s)) 16).
  - destruct (Z.eqb_spec (Z.of_nat (8 * L - 4 * s) mod 4) 0); split; zdm.
  - destruct (Z.eqb_spec (Z.of_nat (8 * L - 4 * s) mod 8) 0); split; zdm.
  - destruct (Z.eqb_spec (Z.of_nat (8 * L - 4 * s) mod 4) 0); split; zdm.
  - destruct (Z.eqb_spec (Z.of_nat (8 * L - 4 * s) mod 8) 0); split; zdm.
Qed.

(** C30: [rdfs_acl_load] accepts exactly the format: it returns the list [l] on a
    buffer if and only if the buffer is the version word followed by the
    big-endian entries of [l], the entries are well formed, and there are only
    short entries up to four and exactly four short ones beyond. *)
Theorem acl_load_exact bytes l : Forall is_byte bytes -> Z.of_nat (length bytes) < 2 ^ 31 ->
  rdfs_acl_load true (Some bytes) = AclPtr l <->
  bytes = acl_bytes l /\ Forall entry_ok l /\ shape_ok l /\ l <> [].
Proof.
  intros Hb Hlen. unfold rdfs_acl_load. split.
  - unfold sizeof_acl_header. destruct bytes as [|a [|b [|c [|d v]]]]; try done.
    destruct (Z.ltb_spec (Z.of_nat (length (a :: b :: c :: d :: v))) 4) as [|_]; [done|].
    destruct (Z.eqb_spec (get_be32 (a :: b :: c :: d :: v)) rdfs_ACL_VERSION) as [Ev|]; cbn [negb]; [|done].
    destruct (rdfs_acl_count _ <? 0) eqn:E1; [done|]. destruct (rdfs_acl_count _ =? 0) eqn:E2; [done|].
    cbn [skipn]. rewrite drop_0. destruct (acl_load_loop _ v) as [[l' [|]]|] eqn:El; try done. intros [= <-].
    inversion Hb as [|? ? Ha Hb1]; subst. inversion Hb1 as [|? ? Hb' Hb2]; subst.
    inversion Hb2 as [|? ? Hc Hb3]; subst. inversion Hb3 as [|? ? Hd Hv]; subst.
    destruct (load_loop_sound _ v l' [] Hv El) as (-> & Hok & Hn). rewrite app_nil_r in *.
    assert (Ec : Z.of_nat (length (a :: b :: c :: d :: entries_bytes l')) = 4 + Z.of_nat (length (entries_bytes l')))
      by (cbn [length]; lia).
    rewrite Ec in Hn, E1, E2, Hlen. split; [|split; [done|split]].
    + unfold acl_bytes. by rewrite <- Ev, be32_get.
    + apply acl_count_shape; [done|lia|]. lia.
    + intros E. rewrite E in Hn at 1. change (length []) with 0%nat in Hn. lia.
  - intros (-> & Hok & Hsh & Hne). unfold acl_bytes in *.
    assert (Ec : Z.of_nat (length (be32 rdfs_ACL_VERSION ++ entries_bytes l)) = 4 + Z.of_nat (length (entries_bytes l)))
      by (rewrite length_app; cbn [length be32 be16 app]; lia).
    rewrite Ec in *. unfold sizeof_acl_header. rewrite (proj2 (Z.ltb_ge _ 4)) by lia.
    rewrite get_be32_app by (unfold rdfs_ACL_VERSION; lia). rewrite Z.eqb_refl. cbn [negb].
    rewrite (proj2 (acl_count_shape l Hok ltac:(lia)) Hsh).
    assert (length l <> 0%nat) by (by destruct l).
    rewrite (proj2 (Z.ltb_ge _ 0)), (proj2 (Z.eqb_neq _ 0)) by lia. cbn [negb].
    change (drop 4 (be32 rdfs_ACL_VERSION ++ entries_bytes l)) with (entries_bytes l).
    rewrite Nat2Z.id. pose proof (load_loop_bytes l [] Hok) as L. rewrite app_nil_r in L. by rewrite L.
Qed.

(** What [rdfs_acl_save] writes is never read back: it stores tag and
    permissions little-endian, so that [rdfs_acl_load] rejects the saved bytes
    of every non-empty ACL with -EINVAL. *)
Theorem acl_save_unreadable l bs size alloc_ok :
  l <> [] -> rdfs_acl_save true l = inr (bs, size) -> Z.of_nat (length bs) < 2 ^ 31 ->
  alloc_ok = true -> rdfs_acl_load alloc_ok (Some bs) = AclErr EINVAL.
Proof.
  intros Hne E Hlen ->. unfold rdfs_acl_save in E. cbn [negb] in E.
  destruct (save_entries l) as [es|] eqn:Es; [|done].
  assert (bs = be32 rdfs_ACL_VERSION ++ es) as -> by congruence. clear E.
  destruct l as [|e l]; [done|]. cbn in Es. destruct (save_entry e) as [b|] eqn:Eb; [|done]. cbn in Es.
  destruct (save_entries l) as [bs'|]; [|done]. assert (es = b ++ bs') as -> by (injection Es as <-; done). clear Es.
  assert (Hb : exists t r, 0 < t < 64 /\ b ++ bs' = [t; 0] ++ r /\ (2 <= length r)%nat).
  { unfold save_entry in Eb. pose proof (tag_range (ae_tag e)) as Ht.
    destruct (long_tag (ae_tag e)); [|destruct (short_tag (ae_tag e)); [|done]]; injection Eb as <-;
      specialize (Ht ltac:(tauto)); exists (ae_tag e); eexists; (split; [done|]);
      (split; [cbn; rewrite (Z.mod_small (ae_tag e)), (Z.div_small (ae_tag e)) by lia; reflexivity|cbn; lia]). }
  destruct Hb as (t & r & Ht & Ebr & Hr). rewrite Ebr in Hlen |- *. clear Ebr. unfold rdfs_acl_load. set (v := be32 rdfs_ACL_VERSION ++ _) in *.
  assert (El : Z.of_nat (length v) = 4 + Z.of_nat (2 + length r)) by (unfold v; rewrite !length_app; change (length (be32 rdfs_ACL_VERSION)) with 4%nat; cbn [length]; lia).
  rewrite El in Hlen |- *. unfold sizeof_acl_header. rewrite (proj2 (Z.ltb_ge _ 4)) by lia. cbn [negb].
  change (negb (get_be32 v =? rdfs_ACL_VERSION)) with false. cbn [negb].
  destruct (rdfs_acl_count _ <? 0) eqn:E1; [done|]. set (c := rdfs_acl_count _) in *.
  assert (Hc : 1 <= c) by (unfold c in *; rewrite acl_count_spec in E1 |- * by lia; repeat case_match; zdm).
  rewrite (proj2 (Z.eqb_neq c 0)) by lia. destruct (Z.to_nat c) as [|n] eqn:En; [lia|].
  change (drop 4 v) with ([t; 0] ++ r). cbn [acl_load_loop].
  destruct (Nat.ltb_spec (length ([t; 0] ++ r)) 4); [done|]. cbn [app get_be16].
  assert (Hs : short_tag (t * 256 + 0) = false /\ long_tag (t * 256 + 0) = false).
  { destruct (short_tag (t * 256 + 0)) eqn:E3; [pose proof (tag_range _ (or_introl E3)); lia|].
    destruct (long_tag (t * 256 + 0)) eqn:E4; [pose proof (tag_range _ (or_intror E4)); lia|done]. }
  by destruct Hs as [-> ->].
Qed.

(** ** The theorems on a concrete list *)

Definition demo_acl : list acl_entry :=
  [mk_ae ACL_USER_OBJ 6 None; mk_ae ACL_USER 7 (Some 1000); mk_ae ACL_GROUP_OBJ 4 None;
   mk_ae ACL_MASK 7 None; mk_ae ACL_OTHER 4 None].

Lemma acl_load_exact_witness : rdfs_acl_load true (Some (acl_bytes demo_acl)) = AclPtr demo_acl.
Proof.
  apply (acl_load_exact (acl_bytes demo_acl) demo_acl).
  - repeat (constructor; [vm_compute; split; congruence|]). constructor.
  - vm_compute. reflexivity.
  - split; [reflexivity|]. split; [|split; [reflexivity|done]].
    repeat (constructor; [vm_compute; repeat split; congruence|]). constructor.
Defined.

Lemma acl_save_unreadable_witness :
  exists bs size, rdfs_acl_save true demo_acl = inr (bs, size) /\ rdfs_acl_load true (Some bs) = AclErr EINVAL.
Proof.
  eexists _, _. split; [reflexivity|].
  refine (acl_save_unreadable demo_acl _ _ true _ eq_refl _ eq_refl); [done|vm_compute; reflexivity].
Defined.
