(* ===== verification/Inode.v ===== *)
(** * Inodes (inode.c, tool.c, rdfs.h)

    An inode lives in a 128-byte slot of the area and, while in use, in core.
    The file models the transfer between the two ([rdfs_read_inode],
    [rdfs_update_inode], [__rdfs_write_inode]), the flag words, and taking a slot
    off the node's list and giving it back ([rdfs_new_inode],
    [rdfs_free_inode]). *)

From S2P Require Import Prelude Mem Layout FreeList Balloc Pages Demo Vfs Acl Bdev Pgtable.

Definition RDFS_STATE_NEW : Z := 0x1.

(** ** Flags *)

Definition RDFS_FL_INHERITED : Z :=
  Z.lor RDFS_SECRM_FL (Z.lor RDFS_UNRM_FL (Z.lor RDFS_COMPR_FL (Z.lor RDFS_SYNC_FL
    (Z.lor RDFS_NODUMP_FL (Z.lor RDFS_NOATIME_FL (Z.lor FS_COMPRBLK_FL (Z.lor FS_NOCOMP_FL
      (Z.lor FS_JOURNAL_DATA_FL (Z.lor FS_NOTAIL_FL RDFS_DIRSYNC_FL))))))))).
Definition RDFS_REG_FLMASK : Z := u32 (Z.lnot (Z.lor RDFS_DIRSYNC_FL FS_TOPDIR_FL)).
Definition RDFS_OTHER_FLMASK : Z := Z.lor RDFS_NODUMP_FL RDFS_NOATIME_FL.

Definition rdfs_mask_flags (mode flags : Z) : Z :=
  let flags := Z.land flags RDFS_FL_INHERITED in
  if S_ISDIR mode then flags
  else if S_ISREG mode then Z.land flags RDFS_REG_FLMASK
  else Z.land flags RDFS_OTHER_FLMASK.

(** if (flags & from) word |= to *)
Definition copy_flag (flags from to word : Z) : Z :=
  if negb (Z.land flags from =? 0) then Z.lor word to else word.

Definition rdfs_set_inode_flags (i : inode) : inode :=
  let flags := ni_flags i in
  let w := clear_bits (i_flags i)
             (Z.lor S_SYNC (Z.lor S_APPEND (Z.lor S_IMMUTABLE (Z.lor S_NOATIME S_DIRSYNC)))) in
  let w := copy_flag flags RDFS_SYNC_FL S_SYNC w in
  let w := copy_flag flags RDFS_APPEND_FL S_APPEND w in
  let w := copy_flag flags RDFS_IMMUTABLE_FL S_IMMUTABLE w in
  let w := copy_flag flags RDFS_NOATIME_FL S_NOATIME w in
  let w := copy_flag flags RDFS_DIRSYNC_FL S_DIRSYNC w in
  set_i_flags w i.

Definition get_rdfs_inode_flags (i : inode) : inode :=
  let flags := i_flags i in
  let w := clear_bits (ni_flags i)
             (Z.lor RDFS_SYNC_FL (Z.lor RDFS_APPEND_FL
               (Z.lor RDFS_IMMUTABLE_FL (Z.lor RDFS_NOATIME_FL RDFS_DIRSYNC_FL)))) in
  let w := copy_flag flags S_SYNC RDFS_SYNC_FL w in
  let w := copy_flag flags S_APPEND RDFS_APPEND_FL w in
  let w := copy_flag flags S_IMMUTABLE RDFS_IMMUTABLE_FL w in
  let w := copy_flag flags S_NOATIME RDFS_NOATIME_FL w in
  let w := copy_flag flags S_DIRSYNC RDFS_DIRSYNC_FL w in
  set_ni_flags w i.

(** RDFS_I of a new inode; the slave-memory fields are [SlaveMem.new_ri]. *)
Definition rdfs_inode_info_init (i : inode) : inode :=
  set_ni_mapping_count 0 (set_ni_virt_addr 0 (set_ni_counter 0 (set_ni_pg_addr 0
    (set_ni_dir_acl 0 (set_ni_file_acl 0 (set_ni_state RDFS_STATE_NEW i)))))).

Section inode.
Context (sbi : rdfs_sb_info).

(** ** From core to slot *)

Definition rdfs_update_inode (m : mem) (i : inode) : Z * mem :=
  let ni := get_rdfs_inode m sbi (i_ino i) in
  if ni =? 0 then (- EACCES, m)
  else
    let m := st 4 m (ni + inode_off.i_mode) (i_mode i) in
    let m := st 4 m (ni + inode_off.i_uid) (i_uid i) in
    let m := st 4 m (ni + inode_off.i_gid) (i_gid i) in
    let m := st 4 m (ni + inode_off.i_link_counts) (i_nlink i) in
    let m := st 8 m (ni + inode_off.i_size) (i_size i) in
    let m := st 8 m (ni + inode_off.i_blocks) (i_blocks i) in
    let m := st 4 m (ni + inode_off.i_atime) (i_atime i) in
    let m := st 4 m (ni + inode_off.i_ctime) (i_ctime i) in
    let m := st 4 m (ni + inode_off.i_mtime) (i_mtime i) in
    let m := st 4 m (ni + inode_off.i_generation) (i_generation i) in
    (0, m).

(** super.c *)
Definition rdfs_write_inode (m : mem) (i : inode) : Z * mem := rdfs_update_inode m i.
Definition rdfs_dirty_inode (m : mem) (i : inode) : mem := (rdfs_update_inode m i).2.

(** The slot address is not an error pointer. *)
Definition __rdfs_write_inode (m : mem) (i : inode) : Z * mem * inode :=
  let ni := get_rdfs_inode m sbi (i_ino i) in
  let m := if negb (Z.land (ni_state i) RDFS_STATE_NEW =? 0)
           then memset m ni 0 (Z.to_nat (s_inode_size sbi)) else m in
  let i := get_rdfs_inode_flags i in
  let m := st 4 m (ni + inode_off.i_mode) (i_mode i) in
  let m := st 4 m (ni + inode_off.i_uid) (i_uid i) in
  let m := st 4 m (ni + inode_off.i_gid) (i_gid i) in
  let m := st 4 m (ni + inode_off.i_link_counts) (i_nlink i) in
  let m := st 8 m (ni + inode_off.i_size) (i_size i) in
  let m := st 4 m (ni + inode_off.i_atime) (i_atime i) in
  let m := st 4 m (ni + inode_off.i_ctime) (i_ctime i) in
  let m := st 4 m (ni + inode_off.i_mtime) (i_mtime i) in
  let m := st 8 m (ni + inode_off.i_blocks) (u32 (i_blocks i)) in
  let m := st 4 m (ni + inode_off.i_dtime) (ni_dtime i) in
  let m := st 4 m (ni + inode_off.i_flags) (ni_flags i) in
  let m := st 4 m (ni + inode_off.i_file_acl) (ni_file_acl i) in
  let m := if negb (S_ISREG (i_mode i)) then st 4 m (ni + inode_off.i_dir_acl) (ni_dir_acl i) else m in
  let m := st 4 m (ni + inode_off.i_generation) (i_generation i) in
  (0, m, set_ni_state (clear_bits (ni_state i) RDFS_STATE_NEW) i).

(** ** From slot to core *)

(** The kernel's crc32 with seed ~0. *)
Context (crc32 : list Z -> Z).

Definition rdfs_calc_checksum (m : mem) (data n : Z) : Z :=
  let crc := u32 (crc32 (ld_bytes m (data + 4) (Z.to_nat (n - 4)))) in
  if ld 4 m data =? crc then 0 else 1.

(** [lock]: read_inode_lock is held; taking it again never returns.  The result:
    the error, the inode ([None] after make_bad_inode) and the lock. *)
Definition rdfs_read_inode (m : mem) (lock : bool) (i : inode) (ni : Z) : outcome (Z * option inode * bool) :=
  if lock then Oops
  else if negb (rdfs_calc_checksum m ni RDFS_INODE_SIZE =? 0) then Ret (- EIO, None, true)
  else
    let i := set_i_mode (u16 (ld 4 m (ni + inode_off.i_mode))) i in
    let i := set_i_uid (ld 4 m (ni + inode_off.i_uid)) i in
    let i := set_i_gid (ld 4 m (ni + inode_off.i_gid)) i in
    let i := set_i_nlink (ld 4 m (ni + inode_off.i_link_counts)) i in
    let i := set_i_size (s64 (ld 8 m (ni + inode_off.i_size))) i in
    let i := set_i_atime (ld 4 m (ni + inode_off.i_atime)) i in
    let i := set_i_ctime (ld 4 m (ni + inode_off.i_ctime)) i in
    let i := set_i_mtime (ld 4 m (ni + inode_off.i_mtime)) i in
    let i := set_i_generation (ld 4 m (ni + inode_off.i_generation)) i in
    let i := rdfs_set_inode_flags i in
    if (i_nlink i =? 0) && ((i_mode i =? 0) || negb (ld 4 m (ni + inode_off.i_dtime) =? 0))
    then Ret (- EINVAL, None, true)
    else
      let i := set_i_blocks (ld 8 m (ni + inode_off.i_blocks)) i in
      let i := set_ni_file_acl (ld 4 m (ni + inode_off.i_file_acl)) i in
      let i := set_ni_state 0 (set_ni_dtime 0 (set_ni_dir_acl 0 i)) in
      let i := set_ni_flags (ld 4 m (ni + inode_off.i_flags)) i in
      let i := set_i_ino (get_rdfs_inodenr m sbi (rdfs_pa sbi ni)) i in
      let fmt := Z.land (i_mode i) S_IFMT in
      let i := if (fmt =? S_IFREG) || (fmt =? S_IFDIR) || (fmt =? S_IFLNK) then i else set_i_size 0 i in
      Ret (0, Some i, false).

(** iget_locked finds a cached inode ([Some (i, false)]), a new one to fill
    ([Some (i, true)]), or no memory; the pointer is used before it is tested. *)
Definition rdfs_iget (m : mem) (lock : bool) (got : option (inode * bool)) (ino : Z)
  : outcome ((Z + inode) * bool) :=
  match got with
  | None => Oops
  | Some (i, is_new) =>
      let i := set_i_ino ino i in
      if negb is_new then Ret (inr i, lock)
      else
        let ni := get_rdfs_inode m sbi ino in
        if ni =? 0 then Ret (inl (- EACCES), lock)
        else
          '(err, oi, lock) ← rdfs_read_inode m lock i ni;
          match oi with
          | Some i => Ret (if err =? 0 then inr i else inl err, lock)
          | None => Ret (inl err, lock)
          end
  end.

(** ** Slots *)

(** The slot goes to the front of its node's list. *)
Definition rdfs_free_inode (m : mem) (i : inode) (seconds : Z) : mem :=
  let ni := get_rdfs_inode m sbi (i_ino i) in
  let numa_des := get_rdfs_inode_numa sbi m ni in
  let inode_phy := get_rdfs_inode_phy_addr m sbi (i_ino i) in
  let m := st 4 m (ni + inode_off.i_dtime) seconds in
  let m := st 8 m (ni + inode_off.i_pg_addr) 0 in
  let m := st 8 m (ni + inode_off.i_pg_addr) (ld 8 m (numa_des + numa_off.free_inode_phy)) in
  let m := st 8 m (numa_des + numa_off.free_inode_phy) inode_phy in
  st 8 m (numa_des + numa_off.free_inode_count)
    (u64 (ld 8 m (numa_des + numa_off.free_inode_count) + 1)).

(** The first slot of the list: its number and address. *)
Definition take_slot (m : mem) (numa_des : Z) : option (Z * Z * mem) :=
  if negb (ld 8 m (numa_des + numa_off.free_inode_count) =? 0) then
    let inode_phy := ld 8 m (numa_des + numa_off.free_inode_phy) in
    let ino := get_rdfs_inodenr m sbi inode_phy in
    let ni := get_rdfs_inode m sbi ino in
    let m := st 8 m (numa_des + numa_off.free_inode_phy) (ld 8 m (ni + inode_off.i_pg_addr)) in
    let m := st 8 m (ni + inode_off.i_pg_addr) 0 in
    let m := st 8 m (ni + inode_off.list_pro) 0 in
    let m := st 8 m (ni + inode_off.list_next) 0 in
    let m := st 8 m (ni + inode_off.i_accessed_count) 0 in
    let m := st 4 m (ni + inode_off.i_cold_page_start) 0 in
    let m := st 4 m (ni + inode_off.i_cold_page_num) 0 in
    let m := st 8 m (numa_des + numa_off.free_inode_count)
               (u64 (ld 8 m (numa_des + numa_off.free_inode_count) - 1)) in
    Some (ino, ni, m)
  else None.

(** inode_init_owner of the kernel *)
Definition inode_init_owner (fsuid fsgid : Z) (i dir : inode) (mode : Z) : inode :=
  let i := set_i_uid fsuid i in
  if negb (Z.land (i_mode dir) S_ISGID =? 0) then
    set_i_mode (if S_ISDIR mode then Z.lor mode S_ISGID else mode) (set_i_gid (i_gid dir) i)
  else set_i_mode mode (set_i_gid fsgid i).

(** What the caller's task and the kernel contribute to [rdfs_new_inode]. *)
Record new_env := mk_env {
  e_inode : option inode;   (* new_inode(sb) *)
  e_insert_ok : bool;       (* insert_inode_locked *)
  e_now : Z;                (* CURRENT_TIME *)
  e_fsuid : Z;
  e_fsgid : Z;
  e_umask : Z;
  e_acl : bool;             (* POSIX_ACL mount option *)
  e_dir_acl : option acl_ptr;
  e_kmalloc : bool
}.

Context `{!KernelPg, !PosixAcl} (cpu : Z).

(** A failed creation drops its reference to the in-core inode (iput), which
    is a bad inode on the first error path; without other users the kernel then
    evicts it. *)
Inductive new_result : Type :=
| NewInode (i : inode)
| NewFail (err : Z) (dropped : option (inode * bool)).

(** The result, the memory, next_numa_id and the generation counter.
    rdfs_init_security returns 0. *)
Definition rdfs_new_inode (m : mem) (env : new_env) (next_numa_id gen : Z) (dir : inode) (mode : Z)
  : outcome (new_result * mem * Z * Z) :=
  match e_inode env with
  | None => Ret (NewFail (- ENOMEM) None, m, next_numa_id, gen)
  | Some i =>
      let '(numa_des, next_numa_id) := get_a_numa sbi m next_numa_id in
      match take_slot m numa_des with
      | None => Ret (NewFail (- ENOSPC) (Some (i, true)), m, next_numa_id, gen)
      | Some (ino, ni, m) =>
          if get_rdfs_inode m sbi (i_ino dir) =? 0
          then Ret (NewFail (- EACCES) (Some (i, true)), m, next_numa_id, gen)
          else
            let i := set_i_ino ino i in
            let i := inode_init_owner (e_fsuid env) (e_fsgid env) i dir mode in
            let i := set_i_size 0 (set_i_blocks 0 i) in
            let i := set_i_ctime (e_now env) (set_i_atime (e_now env) (set_i_mtime (e_now env) i)) in
            let i := rdfs_inode_info_init i in
            let i := set_ni_flags (rdfs_mask_flags mode (Z.land (ni_flags dir) RDFS_FL_INHERITED)) i in
            let gen := s32 (gen + 1) in
            let i := rdfs_set_inode_flags (set_i_generation (u32 gen) i) in
            if negb (e_insert_ok env)
            then Ret (NewFail (- EINVAL) (Some (i, true)), m, next_numa_id, gen)
            else
              let '(errval, m) := rdfs_write_inode m i in
              if negb (errval =? 0)
              then Ret (NewFail errval (Some (set_i_nlink 0 i, false)), m, next_numa_id, gen)
              else
                '(errval, i, _) ← rdfs_init_acl (e_acl env) (e_kmalloc env) (e_umask env) (e_now env)
                                    (e_dir_acl env) i;
                if negb (errval =? 0)
                then Ret (NewFail errval (Some (set_i_nlink 0 i, false)), m, next_numa_id, gen)
                else
                  let '(_, m) := rdfs_init_pg_table sbi cpu m ino in
                  Ret (NewInode i, m, next_numa_id, gen)
      end
  end.
End inode.

(** ** The slots of a one-node filesystem

    [n] slots from inode 2 on follow the descriptor [nd] and the root's slot. *)
Section slots.
Context (sbi : rdfs_sb_info) (size nd n : Z) `{A : !Area sbi size}.

Definition slots_lo : Z := nd - virt_addr sbi + phy_addr sbi + 256.
Definition slots : flist := inode_list nd slots_lo (slots_lo + n * RDFS_INODE_SIZE).
Definition slot_phys (ino : Z) : Z := slots_lo + (ino - 2) * RDFS_INODE_SIZE.

Record slots_ok : Prop := {
  slots_super : virt_addr sbi + RDFS_SB_SPACE <= nd;
  slots_num : 0 <= n;
  slots_end : nd + 256 + n * RDFS_INODE_SIZE + 8 <= virt_addr sbi + size
}.
Context (W : slots_ok).

(** The node's inode list holds the free slots [l]. *)
Record slots_at (m : mem) (l : list Z) : Prop := {
  at_flag : s_numa_flag m sbi = false;
  at_des : s_numa_des m sbi 0 = nd;
  at_list : free_rep sbi slots m l
}.

Ltac slot_lia :=
  unfold slot_phys, slots_lo, RDFS_INODE_SIZE, sizeof_numa_des, RDFS_SB_SPACE, PAGE_SIZE,
    numa_off.free_inode_count, numa_off.free_inode_phy, inode_off.i_pg_addr, inode_off.i_dtime,
    inode_off.list_pro, inode_off.list_next, inode_off.i_accessed_count, inode_off.i_cold_page_start,
    inode_off.i_cold_page_num in *; lia.

Lemma slots_wf : flist_wf sbi size slots.
Proof.
  pose proof A as []. destruct W. unfold slots. split; cbn -[Z.mul]; try slot_lia; intros Hlt;
    unfold outside; cbn -[Z.mul]; left; (rewrite (va_eq (size := size)); slot_lia).
Qed.

Lemma slot_elem ino : 2 <= ino < n + 2 -> elem_ok slots (slot_phys ino).
Proof.
  intros Hi. split; [|split]; cbn -[Z.mul].
  - slot_lia.
  - slot_lia.
  - exists (ino - 2). slot_lia.
Qed.

Lemma elem_slot p : elem_ok slots p -> exists ino, 2 <= ino < n + 2 /\ p = slot_phys ino.
Proof.
  intros (H1 & H2 & [k Hk]). cbn -[Z.mul] in *. exists (k + 2). slot_lia.
Qed.

Lemma slot_addr m ino : s_numa_flag m sbi = false -> s_numa_des m sbi 0 = nd -> 1 <= ino < n + 2 ->
  get_rdfs_inode m sbi ino = nd + 128 + (ino - 1) * 128.
Proof.
  intros Hf Hd Hi. pose proof A as []. destruct W. unfold get_rdfs_inode. rewrite Hf, Hd.
  unfold RDFS_INODE_BITS. rewrite shiftl_mul by lia. unfold sizeof_numa_des.
  rewrite (u64_small (ino - 1)), (u64_small (_ * _)) by slot_lia. rewrite u64_small; slot_lia.
Qed.

Lemma slot_number m ino : s_numa_flag m sbi = false -> s_numa_des m sbi 0 = nd -> 1 <= ino < n + 2 ->
  get_rdfs_inodenr m sbi (slot_phys ino) = ino /\ slot_phys ino = rdfs_pa sbi (get_rdfs_inode m sbi ino).
Proof.
  intros Hf Hd Hi. pose proof A as []. destruct W. rewrite (slot_addr m ino Hf Hd) by lia.
  unfold get_rdfs_inodenr. rewrite Hf, Hd, !(pa_eq (size := size)) by slot_lia. split; [|slot_lia].
  unfold RDFS_INODE_BITS. rewrite shiftr_div by lia.
  replace (slot_phys ino - (nd - virt_addr sbi + phy_addr sbi) - sizeof_numa_des) with ((ino - 1) * 2 ^ 7)
    by slot_lia.
  rewrite (u64_small (_ * _)) by slot_lia. rewrite Z.div_mul by lia. rewrite u64_small; slot_lia.
Qed.

(** Stores from the descriptor on leave the super block alone. *)
Lemma slots_super_st k m a v : nd <= a ->
  s_numa_flag (st k m a v) sbi = s_numa_flag m sbi /\ s_numa_des (st k m a v) sbi 0 = s_numa_des m sbi 0.
Proof.
  intros Ha. pose proof A as []. destruct W.
  unfold s_numa_flag, s_numa_des, rdfs_get_super, super_block_off.s_numa_flag, super_block_off.s_numa_des.
  by rewrite !ld_st_ne by slot_lia.
Qed.

Lemma slot_link ino : 2 <= ino < n + 2 -> link sbi slots (slot_phys ino) = nd + 128 + (ino - 1) * 128 + 72.
Proof.
  intros Hi. rewrite (link_eq sbi size slots slots_wf _ (slot_elem ino Hi)). cbn. slot_lia.
Qed.

Lemma slot_inj i j : slot_phys i = slot_phys j -> i = j.
Proof. slot_lia. Qed.

(** A store into a used slot, short of the link words of other slots. *)
Lemma slots_at_st k m l ino off v :
  slots_at m l -> 1 <= ino < n + 2 -> 0 <= off -> off + Z.of_nat k <= 128 + 72 ->
  (slot_phys ino ∈ l -> off + Z.of_nat k <= 72 \/ 80 <= off) ->
  slots_at (st k m (nd + 128 + (ino - 1) * 128 + off) v) l.
Proof.
  intros [H1 H2 H3] Hi Ho Hk Hno. destruct (slots_super_st k m (nd + 128 + (ino - 1) * 128 + off) v) as [E1 E2];
    [lia|]. split; [by rewrite E1|by rewrite E2|].
  apply (rep_st_outside sbi size slots slots_wf); [cbn; slot_lia|cbn; slot_lia| |done].
  intros q Hq. pose proof (rep_elems _ _ _ _ H3) as He. rewrite Forall_forall in He.
  destruct (elem_slot q (He q Hq)) as (j & Hj & ->). rewrite slot_link by done.
  destruct (decide (j = ino)) as [->|]; [specialize (Hno Hq); lia|lia].
Qed.

(** Giving a slot back. *)
Lemma free_inode_ok m l i seconds : slots_at m l -> 2 <= i_ino i < n + 2 ->
  slot_phys (i_ino i) ∉ l -> slots_at (rdfs_free_inode sbi m i seconds) (slot_phys (i_ino i) :: l).
Proof.
  intros HS Hi Hno. pose proof HS as [H1 H2 H3]. unfold rdfs_free_inode, get_rdfs_inode_phy_addr, get_rdfs_inode_numa.
  destruct (slot_number m (i_ino i) H1 H2 ltac:(lia)) as [_ Ep]. rewrite <- Ep.
  rewrite (slot_addr m _ H1 H2) by lia. rewrite H1. cbn [andb]. rewrite H2.
  set (ni := nd + 128 + (i_ino i - 1) * 128).
  pose proof (slots_at_st 4 m l (i_ino i) 40 seconds HS ltac:(lia) ltac:(lia) ltac:(lia) ltac:(done)) as HS1.
  pose proof (slots_at_st 8 _ l (i_ino i) 72 0 HS1 ltac:(lia) ltac:(lia) ltac:(lia) ltac:(done)) as HS2.
  fold ni in HS1, HS2. change inode_off.i_dtime with 40. change inode_off.i_pg_addr with 72.
  set (m2 := st 8 (st 4 m (ni + 40) seconds) (ni + 72) 0) in *. destruct HS2 as [G1 G2 G3].
  pose proof (elem_range sbi size slots slots_wf _ (slot_elem _ Hi)) as Hrng. pose proof A as [].
  pose proof (rep_push sbi size slots slots_wf m2 l (slot_phys (i_ino i)) G3 (slot_elem _ Hi) Hno) as Hpush.
  assert (Hlen : Z.of_nat (length l) + 1 < 2 ^ 64).
  { pose proof (NoDup_range_length l slots_lo (slots_lo + n * RDFS_INODE_SIZE) (rep_nodup _ _ _ _ H3)) as Hb.
    destruct W. assert (Z.of_nat (length l) <= slots_lo + n * RDFS_INODE_SIZE - slots_lo); [apply Hb|slot_lia].
    - eapply Forall_impl; [exact (rep_elems _ _ _ _ H3)|]. intros q (? & ? & _). cbn -[Z.mul] in *. slot_lia.
    - slot_lia. }
  specialize (Hpush Hlen). rewrite slot_link in Hpush by done. cbn [fl_head fl_count slots inode_list] in Hpush.
  fold ni in Hpush.
  set (m3 := st 8 m2 (ni + 72) (ld 8 m2 (nd + numa_off.free_inode_phy))) in *.
  set (m4 := st 8 m3 (nd + numa_off.free_inode_phy) (slot_phys (i_ino i))) in *.
  assert (Ec : ld 8 m4 (nd + numa_off.free_inode_count) = Z.of_nat (length l)).
  { unfold m4, m3. rewrite !ld_st_ne by (unfold ni; slot_lia). exact (rep_count _ _ _ _ G3). }
  rewrite Ec, u64_small by lia.
  destruct (slots_super_st 8 m2 (ni + 72) (ld 8 m2 (nd + numa_off.free_inode_phy))) as [E1 E2]; [unfold ni; lia|].
  destruct (slots_super_st 8 m3 (nd + numa_off.free_inode_phy) (slot_phys (i_ino i))) as [E3 E4]; [slot_lia|].
  destruct (slots_super_st 8 m4 (nd + numa_off.free_inode_count) (Z.of_nat (length l) + 1)) as [E5 E6]; [slot_lia|].
  split; [by rewrite E5; unfold m4; rewrite E3; unfold m3; rewrite E1|
          by rewrite E6; unfold m4; rewrite E4; unfold m3; rewrite E2|exact Hpush].
Qed.

Lemma take_slot_ok m ino l : slots_at m (slot_phys ino :: l) -> 2 <= ino < n + 2 ->
  exists m', take_slot sbi m nd = Some (ino, nd + 128 + (ino - 1) * 128, m') /\ slots_at m' l /\
    (forall a, nd + 128 + (ino - 1) * 128 + 128 <= a < nd + 128 + (ino - 1) * 128 + 136 -> ldb m' a = 0) /\
    (forall a, ~ (nd + 128 + (ino - 1) * 128 <= a < nd + 128 + (ino - 1) * 128 + 136) ->
       ~ (nd + numa_off.free_inode_phy <= a < nd + numa_off.free_inode_phy + 8) ->
       ~ (nd + numa_off.free_inode_count <= a < nd + numa_off.free_inode_count + 8) -> ldb m' a = ldb m a).
Proof.
  intros HS Hi. pose proof HS as [H1 H2 H3]. pose proof A as []. pose proof W as [].
  pose proof (rep_count _ _ _ _ H3) as Hc. pose proof (rep_head _ _ _ _ _ H3) as Hh.
  cbn [fl_head fl_count slots inode_list] in Hc, Hh.
  destruct (slot_number m ino H1 H2 ltac:(lia)) as [En _].
  unfold take_slot. rewrite Hc, length_cons. rewrite (proj2 (Z.eqb_neq _ 0)) by lia. cbn [negb].
  rewrite Hh, En, (slot_addr m ino H1 H2) by lia.
  set (ni := nd + 128 + (ino - 1) * 128).
  assert (Hno : forall q, q ∈ l -> exists j, 2 <= j < n + 2 /\ j <> ino /\ q = slot_phys j).
  { intros q Hq. pose proof (rep_elems _ _ _ _ H3) as He. pose proof (rep_nodup _ _ _ _ H3) as Hn.
    rewrite Forall_forall in He. apply NoDup_cons in Hn as [Hn _].
    destruct (elem_slot q (He q ltac:(by constructor))) as (j & Hj & ->). exists j. split; [done|].
    split; [|done]. by intros ->. }
  pose proof (rep_pop sbi size slots slots_wf m (slot_phys ino :: l) 1 H3 ltac:(cbn; lia)) as Hp.
  cbn [nth_ptr drop] in Hp. rewrite length_cons in Hp.
  cbn [fl_head fl_count slots inode_list] in Hp. rewrite Hh, slot_link in Hp by done. fold ni in Hp.
  eexists; split; [reflexivity|]. split; [split|].
  - unfold s_numa_flag, rdfs_get_super, super_block_off.s_numa_flag in *. by rewrite !ld_st_ne by (unfold ni; slot_lia).
  - unfold s_numa_des, rdfs_get_super, super_block_off.s_numa_des in *. by rewrite !ld_st_ne by (unfold ni; slot_lia).
  - revert Hp. apply rep_frame.
    + cbn [fl_count slots inode_list]. rewrite ld_st_same, !(ld_st_ne 8 8), !(ld_st_ne 8 4), !(ld_st_ne 8 8) by (unfold ni; slot_lia).
      rewrite ld_st_same. rewrite !pow256_8, Hc, length_cons. unfold u64. rewrite Z.mod_mod by lia. done.
    + cbn [fl_head slots inode_list]. rewrite !(ld_st_ne 8 8), !(ld_st_ne 8 4), !(ld_st_ne 8 8) by (unfold ni; slot_lia).
      by rewrite !ld_st_same.
    + intros q Hq. destruct (Hno q Hq) as (j & Hj & Hne & ->). rewrite slot_link by done.
      by rewrite !ld_st_ne by (unfold ni; slot_lia).
  - split; intros a Ha.
    + rewrite ldb_st, decide_False, !ldb_st_0 by (unfold ni in *; slot_lia).
      repeat case_decide; try done. unfold ni in *; slot_lia.
    + intros Hw1 Hw2. by rewrite !ldb_st, !decide_False by (unfold ni in *; slot_lia).
Qed.

(** C31: taking an inode slot and giving it back: with no free slot left the
    descriptor's list yields nothing; otherwise [rdfs_new_inode]'s slot is the
    first of the list, its number and address agree, the rest stays free in
    order, and [rdfs_free_inode] puts the slot back in front. *)
Theorem inode_slot_roundtrip m l i seconds :
  slots_at m l ->
  match l with
  | [] => take_slot sbi m nd = None
  | p :: l' =>
      exists ino ni m', take_slot sbi m nd = Some (ino, ni, m') /\ 2 <= ino < n + 2 /\
        ni = get_rdfs_inode m sbi ino /\ p = rdfs_pa sbi ni /\ slots_at m' l' /\
        slots_at (rdfs_free_inode sbi m' (set_i_ino ino i) seconds) l
  end.
Proof.
  intros HS. pose proof HS as [H1 H2 H3]. pose proof (rep_elems _ _ _ _ H3) as He.
  pose proof (rep_count _ _ _ _ H3) as Hc. destruct l as [|p l].
  { unfold take_slot. cbn in Hc. by rewrite Hc. }
  apply Forall_cons in He as [He _]. destruct (elem_slot p He) as (ino & Hi & ->).
  destruct (take_slot_ok m ino l HS Hi) as (m' & E & Hl & _).
  exists ino, (nd + 128 + (ino - 1) * 128), m'. split; [done|]. split; [done|].
  rewrite (slot_addr m ino H1 H2) by lia. split; [done|].
  destruct (slot_number m ino H1 H2 ltac:(lia)) as [_ Ep]. rewrite (slot_addr m ino H1 H2) in Ep by lia.
  split; [done|]. split; [done|]. pose proof (rep_nodup _ _ _ _ H3) as Hn. apply NoDup_cons in Hn as [Hn _].
  exact (free_inode_ok m' l (set_i_ino ino i) seconds Hl Hi Hn).
Qed.

(** [struct rdfs_inode] is longer than a slot: taking a slot clears the
    checksum and the mode of the inode in the next slot, whatever it holds. *)
Theorem take_slot_clobbers m ino l m' ni :
  slots_at m (slot_phys ino :: l) -> 2 <= ino < n + 1 ->
  take_slot sbi m nd = Some (ino, ni, m') ->
  ld 4 m' (get_rdfs_inode m sbi (ino + 1) + inode_off.i_sum) = 0 /\
  ld 4 m' (get_rdfs_inode m sbi (ino + 1) + inode_off.i_mode) = 0.
Proof.
  intros HS Hi E. destruct (take_slot_ok m ino l HS ltac:(lia)) as (m2 & E2 & _ & Hz & _).
  rewrite E in E2. injection E2 as -> ->. destruct HS as [H1 H2 _]. rewrite (slot_addr m _ H1 H2) by lia.
  unfold inode_off.i_sum, inode_off.i_mode. split; apply ld_zero; intros b Hb; apply Hz; lia.
Qed.

(** The in-core fields within their C types. *)
Record incore_ok (i : inode) : Prop := {
  incore_mode : 0 <= i_mode i < 2 ^ 16;
  incore_uid : 0 <= i_uid i < 2 ^ 32;
  incore_gid : 0 <= i_gid i < 2 ^ 32;
  incore_nlink : 0 <= i_nlink i < 2 ^ 32;
  incore_size : 0 <= i_size i < 2 ^ 63;
  incore_blocks : 0 <= i_blocks i < 2 ^ 64;
  incore_atime : 0 <= i_atime i < 2 ^ 32;
  incore_mtime : 0 <= i_mtime i < 2 ^ 32;
  incore_ctime : 0 <= i_ctime i < 2 ^ 32;
  incore_generation : 0 <= i_generation i < 2 ^ 32
}.

(** The fields of a slot that [rdfs_update_inode] fills. *)
Record slot_holds (m : mem) (ni : Z) (i : inode) : Prop := {
  holds_mode : ld 4 m (ni + inode_off.i_mode) = i_mode i;
  holds_uid : ld 4 m (ni + inode_off.i_uid) = i_uid i;
  holds_gid : ld 4 m (ni + inode_off.i_gid) = i_gid i;
  holds_nlink : ld 4 m (ni + inode_off.i_link_counts) = i_nlink i;
  holds_size : ld 8 m (ni + inode_off.i_size) = i_size i;
  holds_blocks : ld 8 m (ni + inode_off.i_blocks) = i_blocks i;
  holds_atime : ld 4 m (ni + inode_off.i_atime) = i_atime i;
  holds_mtime : ld 4 m (ni + inode_off.i_mtime) = i_mtime i;
  holds_ctime : ld 4 m (ni + inode_off.i_ctime) = i_ctime i;
  holds_generation : ld 4 m (ni + inode_off.i_generation) = i_generation i
}.

Ltac field_lia :=
  unfold inode_off.i_mode, inode_off.i_uid, inode_off.i_gid, inode_off.i_link_counts, inode_off.i_size,
    inode_off.i_blocks, inode_off.i_atime, inode_off.i_mtime, inode_off.i_ctime, inode_off.i_generation in *;
  lia.

Lemma update_holds m i : s_numa_flag m sbi = false -> s_numa_des m sbi 0 = nd -> 1 <= i_ino i < n + 2 ->
  incore_ok i ->
  exists m', rdfs_update_inode sbi m i = (0, m') /\ slot_holds m' (get_rdfs_inode m sbi (i_ino i)) i /\
    s_numa_flag m' sbi = false /\ s_numa_des m' sbi 0 = nd.
Proof.
  intros Hf Hd Hi []. pose proof A as []. pose proof W as []. unfold rdfs_update_inode.
  rewrite (slot_addr m _ Hf Hd) by lia. rewrite (proj2 (Z.eqb_neq _ 0)) by slot_lia.
  set (ni := nd + 128 + (i_ino i - 1) * 128). eexists; split; [reflexivity|]. split.
  - split; repeat (rewrite ld_st_ne by field_lia); rewrite ?ld4_st4, ?ld8_st8 by lia; done.
  - unfold s_numa_flag, s_numa_des, rdfs_get_super, super_block_off.s_numa_flag, super_block_off.s_numa_des in *.
    by rewrite !ld_st_ne by (unfold ni; unfold RDFS_SB_SPACE, PAGE_SIZE, RDFS_INODE_SIZE in *; field_lia).
Qed.

Definition kept_size (mode : Z) : bool := S_ISREG mode || S_ISDIR mode || S_ISLNK mode.

(** C32: reading an inode back after [rdfs_update_inode]: when the slot's
    checksum word matches, every attribute comes back (the size of other than
    files, directories and links as 0), with the VFS flags computed from the
    in-core flags before the slot's are loaded; no operation maintains that word,
    and when it does not match the read fails with the lock held, so that the
    next read never returns. *)
Theorem read_after_update crc32 m i j :
  s_numa_flag m sbi = false -> s_numa_des m sbi 0 = nd -> 1 <= i_ino i < n + 2 -> incore_ok i ->
  let ni := get_rdfs_inode m sbi (i_ino i) in
  exists m', rdfs_update_inode sbi m i = (0, m') /\
    (rdfs_calc_checksum crc32 m' ni RDFS_INODE_SIZE <> 0 ->
     rdfs_read_inode sbi crc32 m' false j ni = Ret (- EIO, None, true) /\
     forall j', rdfs_read_inode sbi crc32 m' true j' ni = Oops) /\
    (rdfs_calc_checksum crc32 m' ni RDFS_INODE_SIZE = 0 -> i_nlink i <> 0 ->
     exists i', rdfs_read_inode sbi crc32 m' false j ni = Ret (0, Some i', false) /\
       i_ino i' = i_ino i /\ i_mode i' = i_mode i /\ i_uid i' = i_uid i /\ i_gid i' = i_gid i /\
       i_nlink i' = i_nlink i /\ i_blocks i' = i_blocks i /\ i_atime i' = i_atime i /\
       i_mtime i' = i_mtime i /\ i_ctime i' = i_ctime i /\ i_generation i' = i_generation i /\
       i_size i' = (if kept_size (i_mode i) then i_size i else 0) /\
       i_flags i' = i_flags (rdfs_set_inode_flags j)).
Proof.
  intros Hf Hd Hi Hok ni. destruct (update_holds m i Hf Hd Hi Hok) as (m' & E & [] & Hf' & Hd').
  exists m'. split; [done|]. fold ni in holds_mode0. split.
  - intros Hs. unfold rdfs_read_inode. by rewrite (proj2 (Z.eqb_neq _ 0) Hs).
  - intros Hs Hn. destruct Hok. unfold rdfs_read_inode. rewrite Hs. cbn [negb Z.eqb].
    destruct (slot_number m _ Hf Hd Hi) as [En Ep]. fold ni in Ep.
    destruct (slot_number m' _ Hf' Hd' Hi) as [En' _]. rewrite Ep in En'.
    fold ni in holds_mode0, holds_uid0, holds_gid0, holds_nlink0, holds_size0, holds_blocks0, holds_atime0,
      holds_mtime0, holds_ctime0, holds_generation0.
    rewrite holds_mode0, holds_uid0, holds_gid0, holds_nlink0, holds_size0, holds_blocks0, holds_atime0,
      holds_mtime0, holds_ctime0, holds_generation0, En', u16_small, s64_small by lia.
    cbn [i_nlink i_mode set_i_mode set_i_uid set_i_gid set_i_nlink set_i_size set_i_atime set_i_mtime
      set_i_ctime set_i_generation set_i_flags rdfs_set_inode_flags].
    rewrite (proj2 (Z.eqb_neq _ 0) Hn). cbn [andb]. eexists; split; [reflexivity|].
    unfold kept_size, S_ISREG, S_ISDIR, S_ISLNK. cbn -[Z.land Z.eqb].
    by destruct ((_ =? S_IFREG) || _ || _).
Qed.
End slots.

(** ** Flags *)

Lemma copy_flag_bit flags from to word k b i :
  from = 2 ^ k -> to = 2 ^ b -> 0 <= k -> 0 <= b -> 0 <= i ->
  Z.testbit (copy_flag flags from to word) i = Z.testbit word i || (bool_decide (i = b) && Z.testbit flags k).
Proof.
  intros -> -> Hk Hb Hi. unfold copy_flag.
  assert (E : (Z.land flags (2 ^ k) =? 0) = negb (Z.testbit flags k)).
  { destruct (Z.testbit flags k) eqn:Hbit; cbn.
    - apply Z.eqb_neq. intros E. assert (Hc : Z.testbit (Z.land flags (2 ^ k)) k = true)
        by (rewrite Z.land_spec, Hbit, Z.pow2_bits_true; [done|lia]). rewrite E, Z.bits_0 in Hc. done.
    - apply Z.eqb_eq, Z.bits_inj'. intros j Hj. rewrite Z.land_spec, Z.bits_0, Z.pow2_bits_eqb by lia.
      destruct (Z.eqb_spec k j) as [->|]; [by rewrite Hbit|apply andb_false_r]. }
  rewrite E, negb_involutive. destruct (Z.testbit flags k); [|by rewrite andb_false_r, orb_false_r].
  rewrite Z.lor_spec, Z.pow2_bits_eqb by lia. rewrite andb_true_r. f_equal.
  rewrite Z.eqb_sym. destruct (Z.eqb_spec i b); case_bool_decide; done.
Qed.

Lemma clear_bits_bit x mask i : 0 <= i ->
  Z.testbit (clear_bits x mask) i = Z.testbit x i && (i <? 32) && negb (Z.testbit mask i).
Proof.
  intros Hi. unfold clear_bits, u32. rewrite Z.land_spec. destruct (Z.ltb_spec i 32).
  - rewrite Z.mod_pow2_bits_low, Z.lnot_spec by lia. by rewrite andb_true_r.
  - rewrite Z.mod_pow2_bits_high by lia. by rewrite !andb_false_r.
Qed.

Definition fl_mask : Z :=
  Z.lor RDFS_SYNC_FL (Z.lor RDFS_APPEND_FL (Z.lor RDFS_IMMUTABLE_FL (Z.lor RDFS_NOATIME_FL RDFS_DIRSYNC_FL))).
Definition s_mask : Z := Z.lor S_SYNC (Z.lor S_APPEND (Z.lor S_IMMUTABLE (Z.lor S_NOATIME S_DIRSYNC))).

Definition is_fl (i : Z) : bool :=
  bool_decide (i = 3) || bool_decide (i = 5) || bool_decide (i = 4) || bool_decide (i = 7) || bool_decide (i = 16).
Definition is_s (i : Z) : bool :=
  bool_decide (i = 0) || bool_decide (i = 2) || bool_decide (i = 3) || bool_decide (i = 1) || bool_decide (i = 6).

Lemma mask_bits i : 0 <= i -> Z.testbit fl_mask i = is_fl i /\ Z.testbit s_mask i = is_s i.
Proof.
  intros Hi. unfold fl_mask, s_mask. rewrite !Z.lor_spec.
  change RDFS_SYNC_FL with (2 ^ 3); change RDFS_APPEND_FL with (2 ^ 5); change RDFS_IMMUTABLE_FL with (2 ^ 4);
  change RDFS_NOATIME_FL with (2 ^ 7); change RDFS_DIRSYNC_FL with (2 ^ 16); change S_SYNC with (2 ^ 0);
  change S_APPEND with (2 ^ 2); change S_IMMUTABLE with (2 ^ 3); change S_NOATIME with (2 ^ 1);
  change S_DIRSYNC with (2 ^ 6). rewrite !Z.pow2_bits_eqb by lia. unfold is_fl, is_s.
  split; repeat (case_bool_decide; [subst; done|]); repeat rewrite (proj2 (Z.eqb_neq _ _)) by lia; done.
Qed.

Lemma set_flags_bit i k : 0 <= k ->
  Z.testbit (i_flags (rdfs_set_inode_flags i)) k =
    Z.testbit (i_flags i) k && (k <? 32) && negb (is_s k)
    || bool_decide (k = 0) && Z.testbit (ni_flags i) 3 || bool_decide (k = 2) && Z.testbit (ni_flags i) 5
    || bool_decide (k = 3) && Z.testbit (ni_flags i) 4 || bool_decide (k = 1) && Z.testbit (ni_flags i) 7
    || bool_decide (k = 6) && Z.testbit (ni_flags i) 16.
Proof.
  intros Hk. unfold rdfs_set_inode_flags. cbn [i_flags set_i_flags]. fold s_mask.
  rewrite (copy_flag_bit _ _ _ _ 16 6), (copy_flag_bit _ _ _ _ 7 1), (copy_flag_bit _ _ _ _ 4 3),
    (copy_flag_bit _ _ _ _ 5 2), (copy_flag_bit _ _ _ _ 3 0), clear_bits_bit by (done || lia).
  by rewrite (proj2 (mask_bits k Hk)).
Qed.

Lemma get_flags_bit i k : 0 <= k ->
  Z.testbit (ni_flags (get_rdfs_inode_flags i)) k =
    Z.testbit (ni_flags i) k && (k <? 32) && negb (is_fl k)
    || bool_decide (k = 3) && Z.testbit (i_flags i) 0 || bool_decide (k = 5) && Z.testbit (i_flags i) 2
    || bool_decide (k = 4) && Z.testbit (i_flags i) 3 || bool_decide (k = 7) && Z.testbit (i_flags i) 1
    || bool_decide (k = 16) && Z.testbit (i_flags i) 6.
Proof.
  intros Hk. unfold get_rdfs_inode_flags. cbn [ni_flags set_ni_flags]. fold fl_mask.
  rewrite (copy_flag_bit _ _ _ _ 6 16), (copy_flag_bit _ _ _ _ 1 7), (copy_flag_bit _ _ _ _ 3 4),
    (copy_flag_bit _ _ _ _ 2 5), (copy_flag_bit _ _ _ _ 0 3), clear_bits_bit by (done || lia).
  by rewrite (proj1 (mask_bits k Hk)).
Qed.

(** The two flag words of an inode: the VFS flags computed from the RDFS
    flags give the RDFS flags back, and the other way round, with every flag
    outside the five shared ones kept. *)
Theorem inode_flags_roundtrip i :
  0 <= ni_flags i < 2 ^ 32 -> 0 <= i_flags i < 2 ^ 32 ->
  ni_flags (get_rdfs_inode_flags (rdfs_set_inode_flags i)) = ni_flags i /\
  i_flags (rdfs_set_inode_flags (get_rdfs_inode_flags i)) = i_flags i.
Proof.
  intros Hn Hf. split; apply Z.bits_inj'; intros k Hk.
  - rewrite get_flags_bit, !set_flags_bit by lia. unfold is_s, is_fl.
    change (ni_flags (rdfs_set_inode_flags i)) with (ni_flags i).
    repeat (case_bool_decide; [subst; try lia; cbn; by rewrite ?andb_false_r, ?orb_false_r|]).
    cbn. rewrite !orb_false_r, andb_true_r. destruct (Z.ltb_spec k 32); [by rewrite andb_true_r|].
    by rewrite (testbit_small _ 32 k) by lia.
  - rewrite set_flags_bit, !get_flags_bit by lia. unfold is_s, is_fl.
    change (i_flags (get_rdfs_inode_flags i)) with (i_flags i).
    repeat (case_bool_decide; [subst; try lia; cbn; by rewrite ?andb_false_r, ?orb_false_r|]).
    cbn. rewrite !orb_false_r, andb_true_r. destruct (Z.ltb_spec k 32); [by rewrite andb_true_r|].
    by rewrite (testbit_small _ 32 k) by lia.
Qed.

(** ** On the demonstration filesystem *)

Definition demo_nd : Z := lin demo_sbi demo_start.
Definition demo_slots : list Z := elems (numa_slots demo_start) RDFS_INODE_SIZE 75.
Definition blank : inode := mk_inode 0 0 0 0 0 0 0 0 0 0 0 0 0 0 0 0 0 0 0 0 0.

Lemma demo_slots_ok : slots_ok demo_sbi demo_size demo_nd 75.
Proof. split; vm_compute; congruence. Qed.

Lemma demo_slots_at : slots_at demo_sbi demo_nd 75 demo_mem demo_slots.
Proof.
  destruct (init_numa_lists demo_sbi demo_size demo_super _ _ _ demo_format) as (m' & E & R & _ & Hb & _).
  unfold demo_mem. rewrite E. cbn [snd]. split; [| |exact R].
  - unfold s_numa_flag. rewrite Hb by (vm_compute; congruence). reflexivity.
  - unfold s_numa_des. rewrite Hb by (vm_compute; congruence). reflexivity.
Qed.

Lemma inode_slot_roundtrip_witness :
  exists m', take_slot demo_sbi demo_mem demo_nd = Some (2, 0x20008100, m') /\
    slots_at demo_sbi demo_nd 75 (rdfs_free_inode demo_sbi m' (set_i_ino 2 blank) 9) demo_slots.
Proof.
  destruct (inode_slot_roundtrip demo_sbi demo_size demo_nd 75 demo_slots_ok demo_mem demo_slots blank 9
    demo_slots_at) as (ino & ni & m' & E & Hi & Hni & Hp & _ & HS).
  assert (ino = 2) as ->.
  { rewrite <- (proj1 (slot_number demo_sbi demo_size demo_nd 75 demo_slots_ok demo_mem ino
      (at_flag _ _ _ _ _ demo_slots_at) (at_des _ _ _ _ _ demo_slots_at) ltac:(lia))).
    rewrite (proj2 (slot_number demo_sbi demo_size demo_nd 75 demo_slots_ok demo_mem ino
      (at_flag _ _ _ _ _ demo_slots_at) (at_des _ _ _ _ _ demo_slots_at) ltac:(lia))).
    rewrite <- Hni, <- Hp. vm_compute. reflexivity. }
  assert (ni = 0x20008100) as -> by (rewrite Hni; vm_compute; reflexivity).
  exists m'. split; [exact E|exact HS].
Defined.

Lemma take_slot_clobbers_witness :
  exists m', take_slot demo_sbi demo_mem demo_nd = Some (2, 0x20008100, m') /\
    ld 4 m' (get_rdfs_inode demo_mem demo_sbi 3 + inode_off.i_mode) = 0.
Proof.
  destruct (take_slot_ok demo_sbi demo_size demo_nd 75 demo_slots_ok demo_mem 2 (tl demo_slots))
    as (m' & E & _); [exact demo_slots_at|lia|]. exists m'. split; [exact E|].
  refine (proj2 (take_slot_clobbers demo_sbi demo_size demo_nd 75 demo_slots_ok demo_mem 2 (tl demo_slots) m' _
    demo_slots_at _ E)). lia.
Defined.

(** A file's inode in the root's slot; the sum word of the fresh area is 0. *)
Definition demo_file : inode := mk_inode 1 0x81a4 5 6 1 4096 1 10 11 12 13 0 0 0 0 0 0 0 0 0 0.

Lemma read_after_update_witness :
  exists m', rdfs_update_inode demo_sbi demo_mem demo_file = (0, m') /\
    (exists i', rdfs_read_inode demo_sbi (fun _ => 0) m' false blank 0x20008080 = Ret (0, Some i', false) /\
       i_mode i' = 0x81a4 /\ i_size i' = 4096) /\
    rdfs_read_inode demo_sbi (fun _ => 1) m' false blank 0x20008080 = Ret (- EIO, None, true).
Proof.
  assert (Hni : get_rdfs_inode demo_mem demo_sbi (i_ino demo_file) = 0x20008080)
    by (vm_compute; reflexivity).
  destruct (read_after_update demo_sbi demo_size demo_nd 75 demo_slots_ok (fun _ => 0) demo_mem demo_file blank
    (at_flag _ _ _ _ _ demo_slots_at) (at_des _ _ _ _ _ demo_slots_at)) as (m' & E & _ & H);
    [cbn; lia|split; cbn; lia|].
  destruct (read_after_update demo_sbi demo_size demo_nd 75 demo_slots_ok (fun _ => 1) demo_mem demo_file blank
    (at_flag _ _ _ _ _ demo_slots_at) (at_des _ _ _ _ _ demo_slots_at)) as (m2 & E2 & H2 & _);
    [cbn; lia|split; cbn; lia|].
  rewrite E in E2. injection E2 as <-. exists m'. split; [exact E|]. rewrite Hni in *.
  assert (Hm : m' = (rdfs_update_inode demo_sbi demo_mem demo_file).2) by (rewrite E; reflexivity).
  split.
  - destruct H as (i' & Hr & _ & Hmo & _ & _ & _ & _ & _ & _ & _ & _ & Hs & _).
    + rewrite Hm. vm_compute. reflexivity.
    + vm_compute. congruence.
    + exists i'. split; [exact Hr|]. split; [exact Hmo|]. rewrite Hs. vm_compute. reflexivity.
  - apply H2. rewrite Hm. vm_compute. congruence.
Defined.

Lemma inode_flags_roundtrip_witness :
  let i := mk_inode 1 0 0 0 0 0 0 0 0 0 0 0x41 0 0x10008 0 0 0 0 0 0 0 in
  ni_flags (get_rdfs_inode_flags (rdfs_set_inode_flags i)) = 0x10008.
Proof. apply (inode_flags_roundtrip (mk_inode 1 0 0 0 0 0 0 0 0 0 0 0x41 0 0x10008 0 0 0 0 0 0 0)); cbn; lia. Defined.
