(* ===== verification/Protocol.v ===== *)
(** * Messages between master, slaves and clients (network.c, rdfs_sock.c, network.cpp)

    A slave and the master tell each other how to reach their memory: address,
    key, queue pair, packet number, port and number of blocks, as text.  The
    file models both ends, the frames messages are sent in, and the client's
    reading of the master's list of slaves. *)

From S2P Require Import Prelude Mem Text SlaveMem.

(** struct rdfs_message, with the text up to its NUL *)
Record message := mk_msg { m_type : Z; m_data : list Z; nums : Z }.

Definition MASTER_CTX_INFO : Z := 100.
Definition SLAVE_CTX_TO_MASTER_INFO : Z := 200.
Definition SLAVE_CTX_TO_CLIENT_INFO : Z := 300.
Definition CLIENT_CTX_INFO : Z := 400.
Definition CLIENT_SERACH_SLAVE_INFO : Z := 3.

(** enum RDFS_CLIENT_REQUEST *)
Definition RDFS_CLIENT_OPEN : Z := 0.
Definition RDFS_CLIENT_CLOSE : Z := 1.
Definition RDFS_CLIENT_READ : Z := 5.
Definition RDFS_CLIENT_WRITE : Z := 6.

(** The fields of struct rdfs_context that are exchanged: the own ones, and those
    of the other side. *)
Record conn := mk_conn {
  dma_addr : Z;
  rkey : Z;
  qpn : Z;
  psn : Z;
  lid : Z;
  block_nums : Z;
  c_rem_addr : Z;
  rem_rkey : Z;
  rem_qpn : Z;
  rem_psn : Z;
  rem_lid : Z;
  rem_block_nums : Z
}.

Definition set_rem_addr (v : Z) (c : conn) : conn :=
  mk_conn (dma_addr c) (rkey c) (qpn c) (psn c) (lid c) (block_nums c) v (rem_rkey c) (rem_qpn c) (rem_psn c)
    (rem_lid c) (rem_block_nums c).
Definition set_rem_rkey (v : Z) (c : conn) : conn :=
  mk_conn (dma_addr c) (rkey c) (qpn c) (psn c) (lid c) (block_nums c) (c_rem_addr c) (u32 v) (rem_qpn c) (rem_psn c)
    (rem_lid c) (rem_block_nums c).
Definition set_rem_qpn (v : Z) (c : conn) : conn :=
  mk_conn (dma_addr c) (rkey c) (qpn c) (psn c) (lid c) (block_nums c) (c_rem_addr c) (rem_rkey c) (s32 v) (rem_psn c)
    (rem_lid c) (rem_block_nums c).
Definition set_rem_psn (v : Z) (c : conn) : conn :=
  mk_conn (dma_addr c) (rkey c) (qpn c) (psn c) (lid c) (block_nums c) (c_rem_addr c) (rem_rkey c) (rem_qpn c) (s32 v)
    (rem_lid c) (rem_block_nums c).
Definition set_rem_lid (v : Z) (c : conn) : conn :=
  mk_conn (dma_addr c) (rkey c) (qpn c) (psn c) (lid c) (block_nums c) (c_rem_addr c) (rem_rkey c) (rem_qpn c)
    (rem_psn c) (s32 v) (rem_block_nums c).
Definition set_rem_block_nums (v : Z) (c : conn) : conn :=
  mk_conn (dma_addr c) (rkey c) (qpn c) (psn c) (lid c) (block_nums c) (c_rem_addr c) (rem_rkey c) (rem_qpn c)
    (rem_psn c) (rem_lid c) v.

(** %lx into the int rem_lid writes its 8 bytes, the upper ones into the member
    that follows. *)
Definition set_rem_lid_long (v : Z) (c : conn) : conn :=
  set_rem_block_nums (rem_block_nums c / 2 ^ 32 * 2 ^ 32 + v / 2 ^ 32) (set_rem_lid (v mod 2 ^ 32) c).

(** The assignments of sscanf: one per value read. *)
Fixpoint assign (setters : list (Z -> conn -> conn)) (vs : list Z) (c : conn) : conn :=
  match setters, vs with f :: fs, v :: vs => assign fs vs (f v c) | _, _ => c end.

Definition fmt5 : list conv := [CU 16 16; CU 10 0; CU 16 0; CU 16 0; CU 16 0].
Definition fmt6 : list conv := [CU 16 16; CU 10 0; CU 16 0; CU 16 0; CU 16 0; CU 16 0].
Definition rem5 : list (Z -> conn -> conn) := [set_rem_addr; set_rem_rkey; set_rem_qpn; set_rem_psn; set_rem_lid].

(** "%016Lx:%u:%x:%x:%x"; %x of an int prints its 32 bits. *)
Definition text5 (c : conn) : list (list Z) :=
  [print_x16 (dma_addr c); print_u (rkey c); print_x (u32 (qpn c)); print_x (u32 (psn c)); print_x (u32 (lid c))].

(** ** The slave's end (rdfs_slave/rdfs_sock.c) *)

Module Slave.
Definition rdfs_sock_send_info (c : conn) : message :=
  mk_msg SLAVE_CTX_TO_MASTER_INFO (print_list (text5 c ++ [print_x (block_nums c)])) 0.

Definition rdfs_sock_get_info (m : message) (c : conn) : conn :=
  assign rem5 (scan_list fmt5 (m_data m)).1 c.

(** [sent], [received]: the results of send_data and recv_data.  The result: the
    error, the message sent and the context. *)
Definition rdfs_client_handshake (sent received : Z) (m : message) (c : conn) : Z * option message * conn :=
  if sent <=? 0 then (-1, None, c)
  else
    let c' := rdfs_sock_get_info m c in
    (if received <=? 0 then -1 else 0, Some (rdfs_sock_send_info c), c').

Definition rdfs_server_handshake (received sent : Z) (m : message) (c : conn) : Z * option message * conn :=
  let c := rdfs_sock_get_info m c in
  if received <=? 0 then (-1, None, c)
  else if sent <=? 0 then (-1, None, c)
  else (0, Some (rdfs_sock_send_info c), c).
End Slave.

(** ** The master's end (rdfs_master/network.c) *)

(** The case SLAVE_CTX_TO_MASTER_INFO goes on into the next one, which prints
    over its text. *)
Definition rdfs_send_message (c : conn) (type : Z) : message :=
  if (type =? MASTER_CTX_INFO) || (type =? SLAVE_CTX_TO_MASTER_INFO) || (type =? SLAVE_CTX_TO_CLIENT_INFO)
  then mk_msg type (print_list (text5 c)) 0
  else mk_msg type [] 0.

(** The case CLIENT_CTX_INFO has one pointer less than conversions. *)
Definition rdfs_recv_message (m : message) (c : conn) : outcome (Z * conn) :=
  if m_type m =? MASTER_CTX_INFO then
    Ret (m_type m, assign [set_rem_addr; set_rem_rkey; set_rem_qpn; set_rem_psn; set_rem_lid_long]
                     (scan_list fmt5 (m_data m)).1 c)
  else if m_type m =? SLAVE_CTX_TO_MASTER_INFO then
    Ret (m_type m, assign (rem5 ++ [set_rem_block_nums]) (scan_list fmt6 (m_data m)).1 c)
  else if m_type m =? CLIENT_CTX_INFO then
    let vs := (scan_list fmt6 (m_data m)).1 in
    if Nat.eqb (length vs) 6 then Oops else Ret (m_type m, assign rem5 vs c)
  else Ret (m_type m, c).

(** ** Frames *)

(** struct rdfs_message in memory: the type, [max] bytes of text, and on the
    master and the client the count.  sendmsg and recv move these bytes; the
    bytes behind the text's NUL are 0. *)
Fixpoint word_bytes (n : nat) (v : Z) : list Z :=
  match n with O => [] | S n' => v mod 256 :: word_bytes n' (v / 256) end.
Fixpoint bytes_word (bs : list Z) : Z :=
  match bs with [] => 0 | b :: bs' => b + 256 * bytes_word bs' end.

Definition frame (max : nat) (m : message) : list Z :=
  word_bytes 4 (m_type m) ++ m_data m ++ replicate (max - length (m_data m)) 0 ++ word_bytes 4 (nums m).

(** sizeof(struct rdfs_message) *)
Definition frame_size (max : nat) : nat := 8 + max.

Definition MASTER_MAX : nat := 4096.
Definition CLIENT_MAX : nat := 1024.

(** The text of an array ends at its first NUL. *)
Fixpoint c_string (bs : list Z) : list Z :=
  match bs with b :: bs' => if b =? 0 then [] else b :: c_string bs' | [] => [] end.

Definition unframe (max : nat) (bs : list Z) : message :=
  mk_msg (bytes_word (take 4 bs)) (c_string (take max (drop 4 bs))) (bytes_word (take 4 (drop (4 + max) bs))).

(** recv of one struct from a stream that holds at least that much. *)
Definition read_frame (max : nat) (stream : list Z) : message * list Z :=
  (unframe max (take (frame_size max) stream), drop (frame_size max) stream).

(** ** The list of slaves *)

Record slave_addr := mk_addr { sa_id : Z; sa_ip : Z; sa_port : Z }.

(** One message per slave, numbered downwards (rdfs_search_slave_info). *)
Fixpoint slave_messages (infos : list slave_addr) : list message :=
  match infos with
  | [] => []
  | a :: infos' =>
      mk_msg CLIENT_SERACH_SLAVE_INFO
        (print_list [print_d (Z.of_nat (length infos')); print_d (sa_id a); print_u (sa_ip a); print_d (sa_port a)]) 0
      :: slave_messages infos'
  end.

(** The client (rdfs_client/network.cpp) reads a struct of its own size from the
    bytes the master has sent, connects to the slave it names and reads on while
    the number is not 0; without a byte it waits ([None]), without four numbers it
    uses uninitialised variables.  Every call takes at least one byte, so that
    the number of bytes is enough [fuel]. *)
Fixpoint client_recv_slaves (fuel : nat) (stream : list Z) : option (outcome (list slave_addr * list Z)) :=
  match fuel with
  | O => None
  | S fuel =>
      if bool_decide (stream = []) then None
      else
        let '(m, stream') := read_frame CLIENT_MAX stream in
        if m_type m =? CLIENT_SERACH_SLAVE_INFO then
          match (scan_list [CD; CD; CU 10 0; CD] (m_data m)).1 with
          | [slave_num; slave_id; slave_ip; slave_port] =>
              let a := mk_addr (u32 slave_id) (u32 slave_ip) (u32 slave_port) in
              if 0 <? u32 slave_num then
                match client_recv_slaves fuel stream' with
                | Some (Ret (l, rest)) => Some (Ret (a :: l, rest))
                | r => r
                end
              else Some (Ret ([a], stream'))
          | _ => Some Oops
          end
        else Some (Ret ([], stream'))
  end.

(** ** Both ends agree *)

Record conn_ok (c : conn) : Prop := {
  ok_dma : 0 <= dma_addr c < 2 ^ 64;
  ok_rkey : 0 <= rkey c < 2 ^ 32;
  ok_qpn : - 2 ^ 31 <= qpn c < 2 ^ 31;
  ok_psn : - 2 ^ 31 <= psn c < 2 ^ 31;
  ok_lid : - 2 ^ 31 <= lid c < 2 ^ 31;
  ok_blocks : 0 <= block_nums c < 2 ^ 64
}.

Lemma s32_u32 x : - 2 ^ 31 <= x < 2 ^ 31 -> s32 (u32 x) = x.
Proof. intros Hx. unfold s32, u32. zdm. Qed.

Lemma text5_printed c : conn_ok c ->
  Forall3 printed fmt5 [dma_addr c; rkey c; u32 (qpn c); u32 (psn c); u32 (lid c)] (text5 c).
Proof.
  intros [H1 H2 H3 H4 H5 H6].
  pose proof (u32_range (qpn c)). pose proof (u32_range (psn c)). pose proof (u32_range (lid c)).
  repeat constructor; lia.
Qed.

Lemma scan_exact cs vs ps : cs <> [] -> Forall3 printed cs vs ps -> (scan_list cs (print_list ps)).1 = vs.
Proof.
  intros Hc Hp. destruct (scan_print_list cs vs ps [] Hp I) as [E|E]; [|done]. rewrite app_nil_r in E. by rewrite E.
Qed.

(** The remote half of [c] is the own half of [d]. *)
Definition knows (c d : conn) : Prop :=
  c_rem_addr c = dma_addr d /\ rem_rkey c = rkey d /\ rem_qpn c = qpn d /\ rem_psn c = psn d /\ rem_lid c = lid d.

Lemma get_info_knows m c text : conn_ok m -> text = text5 m ->
  knows (Slave.rdfs_sock_get_info (mk_msg MASTER_CTX_INFO (print_list text) 0) c) m.
Proof.
  intros Hm ->. pose proof Hm as [M1 M2 M3 M4 M5 M6]. unfold Slave.rdfs_sock_get_info. cbn [m_data].
  rewrite (scan_exact fmt5 [dma_addr m; rkey m; u32 (qpn m); u32 (psn m); u32 (lid m)]) by (done || by apply text5_printed).
  unfold knows. cbn. rewrite u32_small, !s32_u32 by lia. done.
Qed.

Lemma handshake_ends (s m : conn) : conn_ok s -> conn_ok m ->
  exists m', rdfs_recv_message (Slave.rdfs_sock_send_info s) m = Ret (SLAVE_CTX_TO_MASTER_INFO, m') /\
    knows m' s /\ rem_block_nums m' = block_nums s /\
    knows (Slave.rdfs_sock_get_info (rdfs_send_message m' MASTER_CTX_INFO) s) m.
Proof.
  intros Hs Hm. pose proof Hs as [S1 S2 S3 S4 S5 S6].
  unfold rdfs_recv_message, Slave.rdfs_sock_send_info. cbn [m_type m_data]. cbn [Z.eqb].
  rewrite (scan_exact fmt6 [dma_addr s; rkey s; u32 (qpn s); u32 (psn s); u32 (lid s); block_nums s]).
  2:{ done. }
  2:{ apply (Forall3_app _ fmt5 [CU 16 0] [dma_addr s; rkey s; u32 (qpn s); u32 (psn s); u32 (lid s)] [block_nums s]);
        [by apply text5_printed|]. repeat constructor; lia. }
  eexists. split; [reflexivity|]. split; [|split; [done|by apply get_info_knows]].
  unfold knows. cbn. rewrite u32_small, !s32_u32 by lia. done.
Qed.

(** C33: Handshake. After a slave's registration the master has the slave's address,
    key, queue pair, packet number, port and number of blocks, and the slave has
    the master's, for all values of these fields. *)
Theorem handshake_agrees (s m : conn) : conn_ok s -> conn_ok m ->
  exists m', rdfs_recv_message (Slave.rdfs_sock_send_info s) m = Ret (SLAVE_CTX_TO_MASTER_INFO, m') /\
    knows m' s /\ rem_block_nums m' = block_nums s /\
    knows (Slave.rdfs_sock_get_info (rdfs_send_message m' MASTER_CTX_INFO) s) m.
Proof. apply handshake_ends. Qed.

(** ** Frames of different size *)

Lemma length_word_bytes n v : length (word_bytes n v) = n.
Proof. revert v. induction n as [|n IH]; intros v; cbn; [done|]. by rewrite IH. Qed.

Lemma bytes_word_bytes n v : bytes_word (word_bytes n v) = v mod 256 ^ Z.of_nat n.
Proof.
  revert v. induction n as [|n IH]; intros v; cbn [word_bytes bytes_word]; [by rewrite Z.mod_1_r|].
  rewrite IH, Nat2Z.inj_succ, Z.pow_succ_r, Z.rem_mul_r by lia. lia.
Qed.

Lemma c_string_app t z : Forall (fun b => b <> 0) t -> c_string (t ++ replicate z 0) = t.
Proof.
  induction 1 as [|b t Hb Ht IH]; cbn; [by destruct z|]. by rewrite (proj2 (Z.eqb_neq b 0)), IH.
Qed.

Lemma c_string_zeros z : c_string (replicate z 0) = [].
Proof. by destruct z. Qed.

Lemma bytes_word_zeros z : bytes_word (replicate z 0) = 0.
Proof. induction z as [|z IH]; cbn; [done|]. by rewrite IH. Qed.

(** The client's struct holds the beginning of the master's; the rest of the
    master's stays in the stream. *)
Lemma read_master_frame m stream :
  0 <= m_type m < 2 ^ 31 -> Forall (fun b => b <> 0) (m_data m) -> (length (m_data m) <= 1024)%nat ->
  read_frame CLIENT_MAX (frame MASTER_MAX m ++ stream)
  = (mk_msg (m_type m) (m_data m) 0, replicate 3068 0 ++ word_bytes 4 (nums m) ++ stream).
Proof.
  intros Ht Hd Hl. unfold read_frame, frame_size, frame.
  set (z := (MASTER_MAX - length (m_data m))%nat). assert (Hz : z = (4096 - length (m_data m))%nat) by done.
  assert (Es : (word_bytes 4 (m_type m) ++ m_data m ++ replicate z 0 ++ word_bytes 4 (nums m)) ++ stream
    = (word_bytes 4 (m_type m) ++ (m_data m ++ replicate (1028 - length (m_data m)) 0)) ++ replicate 3068 0 ++ word_bytes 4 (nums m) ++ stream).
  { replace z with (1028 - length (m_data m) + 3068)%nat by lia. rewrite replicate_add, <- !app_assoc. done. }
  rewrite Es. clear Es. set (t := m_data m ++ _).
  assert (Et : length t = 1028%nat) by (unfold t; rewrite length_app, length_replicate; lia).
  rewrite take_app_length', drop_app_length' by (rewrite length_app, length_word_bytes; unfold CLIENT_MAX; lia).
  f_equal. unfold unframe. rewrite take_app_length', drop_app_length' by (symmetry; apply length_word_bytes).
  f_equal.
  - rewrite bytes_word_bytes. apply Z.mod_small. change (256 ^ Z.of_nat 4) with (2 ^ 32). lia.
  - unfold t. rewrite take_app_ge by (unfold CLIENT_MAX; lia). rewrite take_replicate. by apply c_string_app.
  - rewrite <- drop_drop, drop_app_length' by (symmetry; apply length_word_bytes). unfold t.
    rewrite drop_app_ge by (unfold CLIENT_MAX; lia). by rewrite drop_replicate, take_replicate, bytes_word_zeros.
Qed.

Lemma read_padding n rest : (1032 <= n)%nat ->
  read_frame CLIENT_MAX (replicate n 0 ++ rest) = (mk_msg 0 [] 0, replicate (n - 1032) 0 ++ rest).
Proof.
  intros Hn. unfold read_frame. change (frame_size CLIENT_MAX) with 1032%nat.
  rewrite take_app_le, drop_app_le, take_replicate, drop_replicate by (rewrite length_replicate; lia).
  f_equal. replace (1032 `min` n)%nat with 1032%nat by lia. done.
Qed.

(** Frames. The master sends structs with 4096 bytes of text, the client
    receives structs with 1024: the first struct the client reads of a short
    message has its type and text, but the next one is not the master's next
    message, whatever that is: it is a part of the first one's padding, of type
    0 and with no text. *)
Theorem frames_misread m stream :
  0 <= m_type m < 2 ^ 31 -> Forall (fun b => b <> 0) (m_data m) -> (length (m_data m) <= 1024)%nat ->
  let '(m1, s1) := read_frame CLIENT_MAX (frame MASTER_MAX m ++ stream) in
  let '(m2, _) := read_frame CLIENT_MAX s1 in
  m_type m1 = m_type m /\ m_data m1 = m_data m /\ m2 = mk_msg 0 [] 0.
Proof. intros Ht Hd Hl. rewrite read_master_frame, read_padding by (done || lia). done. Qed.

(** ** The list of slaves arrives *)

Definition addr_ok (a : slave_addr) : Prop :=
  0 <= sa_id a < 2 ^ 31 /\ 0 <= sa_ip a < 2 ^ 32 /\ 0 <= sa_port a < 2 ^ 31.

(** What the master sends for its slaves. *)
Definition slave_stream (infos : list slave_addr) : list Z := concat (frame MASTER_MAX <$> slave_messages infos).

(** Printed numbers have no NUL. *)
Definition no_nul (l : list Z) : Prop := Forall (fun b => b <> 0) l.

Lemma digits_no_nul base fuel n : 2 <= base -> 0 <= n -> no_nul (digits base fuel n).
Proof.
  intros Hb. assert (Hc : forall d, 0 <= d -> digit_char d <> 0) by (intros d Hd; unfold digit_char; destruct (d <? 10); lia).
  revert n. induction fuel as [|fuel IH]; intros n Hn; [constructor|]. unfold digits, no_nul. fold (digits base fuel (n / base)). destruct (n <? base); [constructor; [by apply Hc|constructor]|].
  apply Forall_app. split; [apply IH, Z.div_pos; lia|]. repeat constructor. apply Hc. apply Z.mod_pos_bound. lia.
Qed.

Lemma print_d_no_nul n : no_nul (print_d n).
Proof.
  unfold print_d. destruct (Z.ltb_spec n 0); [constructor; [done|]|]; apply digits_no_nul; lia.
Qed.

Lemma print_list_no_nul ps : Forall no_nul ps -> no_nul (print_list ps).
Proof.
  induction 1 as [|p ps Hp Hps IH]; [constructor|]. cbn [print_list]. destruct ps as [|q ps]; [done|].
  apply Forall_app. split; [done|]. constructor; [done|exact IH].
Qed.

Lemma slave_text_short n a : addr_ok a -> (n < 10)%nat ->
  let text := print_list [print_d (Z.of_nat n); print_d (sa_id a); print_u (sa_ip a); print_d (sa_port a)] in
  no_nul text /\ (length text <= 1024)%nat.
Proof.
  intros (H1 & H2 & H3) Hn. split.
  - apply print_list_no_nul. repeat constructor; try apply print_d_no_nul. apply digits_no_nul; lia.
  - cbn [print_list]. rewrite !length_app. cbn [length]. rewrite !length_app. cbn [length]. rewrite !length_app. cbn [length].
    pose proof (length_print_d (Z.of_nat n) 1 ltac:(lia) ltac:(lia)). pose proof (length_print_d (sa_id a) 10 ltac:(lia) ltac:(lia)).
    pose proof (length_print_d (sa_port a) 10 ltac:(lia) ltac:(lia)).
    pose proof (digits_length 10 20 (sa_ip a) ltac:(lia) ltac:(lia)). unfold print_u. lia.
Qed.

(** The padding the client has not read when it has its list of slaves. *)
Definition unread (infos : list slave_addr) : nat := if bool_decide (infos = []) then 3068 else 2036.

(** The list of slaves. The master sends one message per slave; the client
    connects to the first of them alone, because it takes the padding of the
    first message for the second, and it leaves at least 2036 bytes of padding in
    the stream.  When no slave is registered the master sends nothing and the
    client waits. *)
Theorem slave_list_first a infos fuel :
  Forall addr_ok (a :: infos) -> (length infos < 10)%nat -> (2 <= fuel)%nat ->
  client_recv_slaves fuel [] = None /\
  client_recv_slaves fuel (slave_stream (a :: infos))
  = Some (Ret ([a], replicate (unread infos) 0 ++ word_bytes 4 0 ++ slave_stream infos)).
Proof.
  intros Ha Hl Hf. destruct fuel as [|[|fuel]]; [lia..|]. split; [done|]. apply Forall_cons in Ha as [Ha _].
  unfold slave_stream. cbn [slave_messages fmap list_fmap concat]. set (m := mk_msg CLIENT_SERACH_SLAVE_INFO _ 0). set (rest := concat _).
  destruct (slave_text_short (length infos) a Ha Hl) as [Hn Hs].
  assert (Em : read_frame CLIENT_MAX (frame MASTER_MAX m ++ rest) = (m, replicate 3068 0 ++ word_bytes 4 0 ++ rest))
    by (apply read_master_frame; done || (cbn; lia)).
  assert (Et : (scan_list [CD; CD; CU 10 0; CD] (m_data m)).1 = [Z.of_nat (length infos); sa_id a; sa_ip a; sa_port a]).
  { destruct Ha as (H1 & H2 & H3). apply scan_exact; [done|]. repeat constructor; lia. }
  remember (frame MASTER_MAX m ++ rest) as st eqn:Es. cbn [client_recv_slaves].
  rewrite bool_decide_eq_false_2 by (subst st; done). rewrite Em. change (m_type m =? _) with true. cbv iota. rewrite Et.
  destruct Ha as (H1 & H2 & H3). rewrite !u32_small by lia. destruct a as [id ip port]. cbn [sa_id sa_ip sa_port] in *.
  unfold unread. destruct infos as [|b infos]; [done|]. rewrite (proj2 (Z.ltb_lt 0 _)) by (cbn [length]; lia).
  rewrite (bool_decide_eq_false_2 (_ ++ _ = [])) by done. rewrite read_padding by lia. done.
Qed.

(** ** Examples *)

Definition demo_slave_conn : conn := mk_conn 0x200000000 4096 17 (-1) 3 1048576 0 0 0 0 0 0.
Definition demo_master_conn : conn := mk_conn 0x10000000 77 18 0xffffff 2 0 0 0 0 0 0 0.

Lemma handshake_agrees_witness :
  exists m', rdfs_recv_message (Slave.rdfs_sock_send_info demo_slave_conn) demo_master_conn
      = Ret (SLAVE_CTX_TO_MASTER_INFO, m') /\
    c_rem_addr m' = 0x200000000 /\ rem_psn m' = -1 /\ rem_block_nums m' = 1048576.
Proof.
  destruct (handshake_agrees demo_slave_conn demo_master_conn) as (m' & E & (H1 & _ & _ & H2 & _) & H3 & _).
  - split; cbn; lia.
  - split; cbn; lia.
  - exists m'. split; [exact E|]. split; [exact H1|]. split; [exact H2|exact H3].
Defined.

Lemma slave_list_first_witness :
  exists rest, client_recv_slaves 2 (slave_stream [mk_addr 0 0x0300a8c0 18518; mk_addr 1 0x0300a8c0 18518])
    = Some (Ret ([mk_addr 0 0x0300a8c0 18518], rest)).
Proof.
  destruct (slave_list_first (mk_addr 0 0x0300a8c0 18518) [mk_addr 1 0x0300a8c0 18518] 2) as [_ E].
  - repeat constructor; cbn; lia.
  - cbn. lia.
  - lia.
  - eexists. exact E.
Defined.

Lemma frames_misread_witness :
  let '(m1, s1) := read_frame CLIENT_MAX (frame MASTER_MAX (mk_msg 3 [49; 58; 48] 0) ++ []) in
  let '(m2, _) := read_frame CLIENT_MAX s1 in
  m_type m1 = 3 /\ m_data m1 = [49; 58; 48] /\ m2 = mk_msg 0 [] 0.
Proof.
  apply (frames_misread (mk_msg 3 [49; 58; 48] 0) []).
  - cbn. lia.
  - repeat constructor; lia.
  - cbn. lia.
Defined.
