(* ===== verification/FileData.v ===== *)
(** * File contents (inode.c, file.c, pgtable.c, rdfs.h)

    A regular file's table holds, for each of its blocks, the page with the
    block's entry, which names the slave and the slave's block with the data.
    The file models growing a file ([rdfs_alloc_blocks]), cutting it
    ([rdfs_setsize] and what it calls), the page-cache read [rdfs_readpage], and
    the reads and writes of file.c, which move data between the caller, one
    buffer page and the slaves. *)

From S2P Require Import Prelude Mem Text Layout FreeList Balloc Pages Demo Nvmalloc Vfs Bdev Pgtable SlaveMem Mapping Rdma Acl Inode Protocol.

Definition EPERM : Z := 1.

Inductive alloc_type := ALLOC_PAGE | ALLOC_PTE.

Section file.
Context `{!KernelPg} (sbi : rdfs_sb_info) (cpu : Z) (pud_alloc_ok : Z -> bool).

(** The super block's s_blocksize_bits, which [rdfs_set_blocksize] sets with s_blocksize. *)
Context (s_blocksize_bits : Z).
Definition s_blocksize : Z := 2 ^ s_blocksize_bits.

(** ** Growing a file *)

(** One page for the table: the next of the chain that starts at [phys], or the
    page holding a new entry. *)
Definition next_page (w : world) (ri : ri_info) (ni phys zero : Z) (type : alloc_type)
  : outcome (Z * Z * world * ri_info) :=
  match type with
  | ALLOC_PAGE =>
      let temp := rdfs_va sbi phys in
      let phys := ld 8 (w_mem w) temp in
      let m := if zero =? 0 then memset (w_mem w) temp 0 (Z.to_nat PAGE_SIZE) else w_mem w in
      Ret (phys, rdfs_pa sbi temp, set_mem m w, ri)
  | ALLOC_PTE =>
      '(pte_addr, m, g, ss, ri) ← rdfs_new_page_pte sbi cpu (w_mem w) (w_pte w) (w_slaves w) ri ni;
      Ret (phys, pte_addr, set_slaves ss (set_pte g (set_mem m w)), ri)
  end.

Fixpoint alloc_loop (n : nat) (w : world) (i : inode) (ri : ri_info) (ni phys zero : Z) (type : alloc_type)
  : outcome (Z * world * inode * ri_info) :=
  match n with
  | O => Ret (0, w, i, ri)
  | S n' =>
      '(phys, page, w, ri) ← next_page w ri ni phys zero type;
      let i := set_i_blocks (u64 (i_blocks i + 1)) i in
      let w := set_mem (st 8 (w_mem w) (ni + inode_off.i_blocks) (u32 (i_blocks i))) w in
      let '(errval, m, km) := rdfs_insert_page sbi cpu pud_alloc_ok (w_mem w) (w_km w) i page in
      let w := set_km km (set_mem m w) in
      if negb (errval =? 0) then Ret (errval, w, i, ri) else alloc_loop n' w i ri ni phys zero type
  end.

(** [phys0]: the uninitialised local that rdfs_new_block leaves alone when it
    fails; its error is overwritten before it is tested. *)
Definition rdfs_alloc_blocks (w : world) (i : inode) (ri : ri_info) (num zero : Z) (type : alloc_type) (phys0 : Z)
  : outcome (Z * world * inode * ri_info) :=
  let ino := u64 (s32 (i_ino i)) in
  let ni := get_rdfs_inode (w_mem w) sbi ino in
  w ← (if ld 8 (w_mem w) (ni + inode_off.i_pg_addr) =? 0 then
         let '(_, m) := rdfs_init_pg_table sbi cpu (w_mem w) ino in
         let pud := rdfs_get_pud sbi m ino in
         '(_, km) ← nvmap sbi pud_alloc_ok m (w_km w) (ni_virt_addr i) pud;
         Ret (set_km km (set_mem m w))
       else Ret w);
  let '(phys, w) :=
    match type with
    | ALLOC_PAGE =>
        let '(_, phys, m) := rdfs_new_block sbi (w_mem w) cpu phys0 num (Some ni) in (phys, set_mem m w)
    | ALLOC_PTE => (phys0, w)
    end in
  alloc_loop (Z.to_nat num) w i ri ni phys zero type.

(** ** Cutting a file *)

(** unnvmap is given the caller's mm, which shares the kernel's entries. *)
Definition __rdfs_truncate_blocks (w : world) (i : inode) (start end_ : Z) : outcome (world * inode) :=
  let vaddr := ni_virt_addr i in
  let pud := rdfs_get_pud sbi (w_mem w) (i_ino i) in
  let ni := get_rdfs_inode (w_mem w) sbi (i_ino i) in
  if ld 8 (w_mem w) (ni + inode_off.i_pg_addr) =? 0 then Ret (w, i)
  else
    let first_blocknr := Z.shiftr (u64 (start + s_blocksize - 1)) s_blocksize_bits in
    let last_blocknr :=
      if negb (Z.land (ld 4 (w_mem w) (ni + inode_off.i_flags)) RDFS_EOFBLOCKS_FL =? 0)
      then u64 (Z.shiftl 1 (2 * s_blocksize_bits - 6) - 1)
      else u64 (Z.shiftr end_ s_blocksize_bits) in
    if last_blocknr <? first_blocknr then Ret (w, i)
    else
      let '(_, km) := unnvmap (w_mem w) (w_km w) vaddr pud in
      '(m, disks) ← rdfs_rm_pg_table sbi cpu (w_mem w) (w_disks w) (i_ino i);
      Ret (set_disks disks (set_mem m (set_km km w)), set_i_blocks 0 i).

Definition rdfs_truncate_blocks (w : world) (i : inode) (start end_ now : Z) : outcome (world * inode) :=
  if negb (S_ISREG (i_mode i) || S_ISDIR (i_mode i) || S_ISLNK (i_mode i)) then Ret (w, i)
  else
    '(w, i) ← __rdfs_truncate_blocks w i start end_;
    let i := set_i_mtime now (set_i_ctime now i) in
    Ret (set_mem (rdfs_update_inode sbi (w_mem w) i).2 w, i).

(** The bytes cleared are those of the file's first block. *)
Definition rdfs_block_truncate_page (w : world) (i : inode) (newsize : Z) : outcome (Z * world) :=
  let offset := Z.land newsize (s_blocksize - 1) in
  if (offset =? 0) || (i_size i <? newsize) then Ret (0, w)
  else
    let length := s_blocksize - offset in
    let bp := ni_virt_addr i in
    if bp =? 0 then Ret (- EACCES, w)
    else w ← mmemset sbi w (bp + offset) 0 (Z.to_nat length); Ret (0, w).

Definition check_eof_blocks (m : mem) (i : inode) (size : Z) : mem :=
  let ni := get_rdfs_inode m sbi (i_ino i) in
  if ni =? 0 then m
  else
    let flags := ld 4 m (ni + inode_off.i_flags) in
    if negb (Z.land flags RDFS_EOFBLOCKS_FL =? 0) &&
       (u64 (Z.shiftl (i_blocks i) s_blocksize_bits) <=? u64 (size + s_blocksize))
    then st 4 m (ni + inode_off.i_flags) (clear_bits flags RDFS_EOFBLOCKS_FL)
    else m.

(** mapping_is_xip is 0 in this configuration. *)
Definition rdfs_setsize (w : world) (i : inode) (newsize now : Z) : outcome (Z * world * inode) :=
  let oldsize := i_size i in
  if negb (S_ISREG (i_mode i) || S_ISDIR (i_mode i) || S_ISLNK (i_mode i)) then Ret (- EINVAL, w, i)
  else if negb (Z.land (i_flags i) S_APPEND =? 0) || negb (Z.land (i_flags i) S_IMMUTABLE =? 0)
  then Ret (- EPERM, w, i)
  else
    '(ret, w, i) ← (if negb (newsize =? oldsize) then
                      '(ret, w) ← rdfs_block_truncate_page w i newsize;
                      Ret (ret, w, if negb (ret =? 0) then i else set_i_size newsize i)
                    else Ret (0, w, i));
    if negb (ret =? 0) then Ret (ret, w, i)
    else
      '(w, i) ← __rdfs_truncate_blocks w i newsize oldsize;
      let w := set_mem (check_eof_blocks (w_mem w) i newsize) w in
      let i := set_i_mtime now (set_i_ctime now i) in
      Ret (ret, set_mem (rdfs_update_inode sbi (w_mem w) i).2 w, i).

(** struct iattr and the two functions of the kernel on it. *)
Record iattr := mk_iattr {
  ia_valid : Z;
  ia_mode : Z;
  ia_uid : Z;
  ia_gid : Z;
  ia_size : Z;
  ia_atime : Z;
  ia_mtime : Z;
  ia_ctime : Z
}.
Definition ATTR_MODE : Z := 1.
Definition ATTR_SIZE : Z := 8.

Context `{!PosixAcl} (inode_change_ok : inode -> iattr -> Z) (setattr_copy : inode -> iattr -> inode).

Definition rdfs_notify_change (w : world) (i : inode) (attr : iattr) (opt kmalloc_ok : bool)
  (cache : option acl_ptr) (now : Z) : outcome (Z * world * inode * option acl_ptr) :=
  let ni := get_rdfs_inode (w_mem w) sbi (i_ino i) in
  if ni =? 0 then Ret (- EACCES, w, i, cache)
  else
    let error := inode_change_ok i attr in
    if negb (error =? 0) then Ret (error, w, i, cache)
    else
      '(error, w, i) ←
        (if negb (Z.land (ia_valid attr) ATTR_SIZE =? 0) &&
            (negb (ia_size attr =? i_size i) ||
             negb (Z.land (ld 4 (w_mem w) (ni + inode_off.i_flags)) RDFS_EOFBLOCKS_FL =? 0))
         then rdfs_setsize w i (ia_size attr) now
         else Ret (0, w, i));
      if negb (error =? 0) then Ret (error, w, i, cache)
      else
        let i := setattr_copy i attr in
        '(i, cache) ← (if negb (Z.land (ia_valid attr) ATTR_MODE =? 0) then
                         '(_, i, cache) ← rdfs_acl_chmod opt kmalloc_ok now cache i; Ret (i, cache)
                       else Ret (i, cache));
        let '(error, m) := rdfs_update_inode sbi (w_mem w) i in
        Ret (error, set_mem m w, i, cache).
End file.

(** ** Page-cache reads (inode.c) *)

Section readpage.
Context (sbi : rdfs_sb_info) (s_blocksize_bits : Z).

(** while (fillsize): every round fills at least one byte. *)
Fixpoint readpage_loop (fuel : nat) (m : mem) (ino fillsize blocknr : Z) (buf : list Z) : Z * list Z :=
  match fuel with
  | O => (0, buf)
  | S fuel' =>
      if fillsize =? 0 then (0, buf)
      else
        let count := Z.min fillsize (s_blocksize s_blocksize_bits) in
        let block := rdfs_find_data_block sbi m ino blocknr in
        if negb (block =? 0) then
          let bp := rdfs_va sbi (Z.land block 0x7ffffffffffff000) in
          if bp =? 0 then (- EIO, [])
          else readpage_loop fuel' m ino (fillsize - count) (blocknr + 1) (buf ++ ld_bytes m bp (Z.to_nat count))
        else readpage_loop fuel' m ino (fillsize - count) (blocknr + 1) (buf ++ replicate (Z.to_nat count) 0)
  end.

(** The error and the contents of the page with number [index]. *)
Definition rdfs_readpage (m : mem) (i : inode) (index : Z) : Z * list Z :=
  let offset := Z.shiftl index PAGE_SHIFT in
  let size := i_size i in
  let blocknr := Z.shiftl index (PAGE_SHIFT - s_blocksize_bits) in
  let '(ret, buf) :=
    if offset <? size then
      let size := size - offset in
      let fillsize := if PAGE_SIZE <? size then PAGE_SIZE else size in
      readpage_loop (Z.to_nat PAGE_SIZE) m (i_ino i) fillsize blocknr []
    else (0, []) in
  (ret, buf ++ replicate (Z.to_nat PAGE_SIZE - length buf) 0).
End readpage.

(** ** Open, release, read and write (file.c) *)

(** The globals flag, global_phy_addr and local_rw_addr. *)
Record rw_state := mk_rw { rw_flag_set : bool; rw_buf : rw_buffer }.
Definition rw_init : rw_state := mk_rw false (mk_buf 0 0).

Section rw.
Context `{!KernelPg} (sbi : rdfs_sb_info) (cpu : Z) (pud_alloc_ok : Z -> bool) (s_blocksize_bits : Z).
(** ib_dma_map_single of the page at a physical address *)
Context (dma_map : Z -> Z) (post_ok : Z -> bool).

Definition rdfs_init_local_rw_buffer (w : world) (g : rw_state) : world * rw_state :=
  if rw_flag_set g then (w, g)
  else
    let '(_, phys, m) := rdfs_new_block sbi (w_mem w) cpu (global_phy_addr (rw_buf g)) 1 None in
    (set_mem m w, mk_rw true (mk_buf (dma_map phys) phys)).

Definition rdfs_destroy_local_rw_buffer (g : rw_state) : rw_state :=
  if rw_flag_set g then mk_rw false (rw_buf g) else g.

(** [open_ok]: the result of generic_file_open *)
Definition rdfs_open_file (w : world) (g : rw_state) (i : inode) (ptr open_ok : Z)
  : outcome (Z * world * rw_state * inode) :=
  '(_, w, i) ← rdfs_establish_mapping sbi pud_alloc_ok w i ptr;
  let '(w, g) := rdfs_init_local_rw_buffer w g in
  let i := if S_ISREG (i_mode i) then set_ni_counter (s32 (ni_counter i + 1)) i else i in
  Ret (open_ok, w, g, i).

Definition rdfs_release_file (w : world) (i : inode) : outcome (Z * world * inode) :=
  if negb (ni_virt_addr i =? 0) then
    let i := set_ni_counter (s32 (ni_counter i - 1)) i in
    if ni_counter i =? 0 then rdfs_destroy_mapping sbi w i else Ret (0, w, i)
  else Ret (0, w, i).

(** for (i = start; i < end; ), the loop of reads, writes and client requests:
    one step per block; each ends at the block's end or at [end]. *)
Definition block_size (i end_ : Z) : Z :=
  let block_offset := Z.land i RDFS_BLOCK_OFFSET_MASK in
  let size := RDFS_BLOCK_SIZE - block_offset in
  if end_ <? u64 (i + size) then u64 (end_ - i) else size.

Definition next_block (i : Z) : Z := u64 (i + (RDFS_BLOCK_SIZE - Z.land i RDFS_BLOCK_OFFSET_MASK)).
Definition block_start (i : Z) : Z := u64 (Z.shiftl (Z.shiftr i RDFS_BLOCK_SHIFT) RDFS_BLOCK_SHIFT).

(** The transfer's result is replaced by the size. *)
Fixpoint rw_loop (fuel : nat) (w : world) (cs : list (option rdfs_context)) (b : rw_buffer) (vaddr : Z)
  (i end_ rw_addr : Z) (op : rdma_op) : outcome (world * list (option rdfs_context)) :=
  match fuel with
  | O => Ret (w, cs)
  | S fuel' =>
      if i <? end_ then
        '(s_id, block_id) ← rdfs_search_metadata (mld sbi 8 w) vaddr (block_start i);
        let size := block_size i end_ in
        '(_, m, cs) ← rdfs_rdma_block_rw sbi post_ok (w_mem w) cs b rw_addr s_id block_id
                        (Z.land i RDFS_BLOCK_OFFSET_MASK) size op;
        rw_loop fuel' (set_mem m w) cs b vaddr (next_block i) end_ (u64 (rw_addr + size)) op
      else Ret (w, cs)
  end.

Definition rw_range (w : world) (cs : list (option rdfs_context)) (b : rw_buffer) (vaddr start length : Z)
  (op : rdma_op) : outcome (world * list (option rdfs_context)) :=
  rw_loop (Z.to_nat length + 1) w cs b vaddr start (u64 (start + length)) (local_rw_addr b) op.

(** The result: the return value, the bytes copied to the caller, *ppos. *)
Definition rdfs_local_file_read (w : world) (cs : list (option rdfs_context)) (g : rw_state) (i : inode)
  (length ppos : Z) : outcome (Z * list Z * Z * world * list (option rdfs_context)) :=
  if i_size i <=? 0 then Ret (length, [], ppos, w, cs)
  else
    let length := if u64 (i_size i) <? u64 (ppos + length) then u64 (i_size i - ppos) else length in
    if length <=? 0 then Ret (length, [], ppos, w, cs)
    else
      '(w, cs) ← rw_range w cs (rw_buf g) (ni_virt_addr i) ppos length RDFS_READ;
      let data := ld_bytes (w_mem w) (rdfs_va sbi (global_phy_addr (rw_buf g))) (Z.to_nat length) in
      Ret (length, data, ppos + length, w, cs).

(** The blocks a write needs beyond those of the file's size. *)
Definition pages_to_alloc (i : inode) (ppos length : Z) : Z :=
  Z.shiftr (u64 (ppos + length + s_blocksize s_blocksize_bits - 1)) s_blocksize_bits
  - Z.shiftr (u64 (i_size i + s_blocksize s_blocksize_bits - 1)) s_blocksize_bits.

(** The allocation's error is compared as an unsigned value and never seen; the
    size becomes the end of this write. *)
Definition rdfs_local_file_write (w : world) (cs : list (option rdfs_context)) (g : rw_state) (i : inode)
  (ri : ri_info) (data : list Z) (ppos : Z)
  : outcome (Z * Z * world * list (option rdfs_context) * inode * ri_info) :=
  let length := Z.of_nat (length data) in
  let n := pages_to_alloc i ppos length in
  '(w, i, ri) ← (if 0 <? n then
                   '(_, w, i, ri) ← rdfs_alloc_blocks sbi cpu pud_alloc_ok w i ri (s32 n) 1 ALLOC_PTE 0; Ret (w, i, ri)
                 else Ret (w, i, ri));
  let buf := rdfs_va sbi (global_phy_addr (rw_buf g)) in
  let m := st_bytes (w_mem w) buf data in
  let w := set_mem (st 1 m (buf + length) 0) w in
  '(w, cs) ← rw_range w cs (rw_buf g) (ni_virt_addr i) ppos length RDFS_WRITE;
  let i := if i_size i <? ppos + length then set_i_size (ppos + length) i else i in
  Ret (length, ppos + length, w, cs, set_i_size (ppos + length) i, ri).

(** ** Requests of clients (pgtable.c) *)

(** sprintf(m_data + cnt, "%ld:%ld:%ld:%ld", s_id, block_id, block_offset, size) *)
Definition print_seg (s_id block_id block_offset size : Z) : list Z :=
  print_list [print_d (s64 s_id); print_d (s64 block_id); print_d (s64 block_offset); print_d (s64 size)].

(** The segments are printed into m_data[MAX_MESSAGE_LENGTH] one behind the other; a
    text that does not fit, with its NUL, is written behind the array. *)
Fixpoint client_loop (fuel : nat) (w : world) (vaddr i end_ : Z) (text : list Z) (back_cnt : Z)
  : outcome (list Z * Z) :=
  match fuel with
  | O => Ret (text, back_cnt)
  | S fuel' =>
      if i <? end_ then
        '(s_id, block_id) ← rdfs_search_metadata (mld sbi 8 w) vaddr (block_start i);
        let seg := print_seg s_id block_id (Z.land i RDFS_BLOCK_OFFSET_MASK) (block_size i end_) in
        let text := text ++ seg in
        if (length text <? MASTER_MAX)%nat then client_loop fuel' w vaddr (next_block i) end_ text (back_cnt + 1) else Oops
      else Ret (text, back_cnt)
  end.

(** [i], [ri]: the in-core inode [rdfs_iget] returned.  The result: the return value
    and the text and number of segments of the reply. *)
Definition rdfs_client_search_metadata (w : world) (i : inode) (ri : ri_info) (offset length : Z)
  : outcome (Z * option (list Z * Z) * world * inode * ri_info) :=
  let n := pages_to_alloc i offset length in
  '(retval, w, i, ri) ← (if 0 <? n then rdfs_alloc_blocks sbi cpu pud_alloc_ok w i ri (s32 n) 1 ALLOC_PTE 0
                         else Ret (0, w, i, ri));
  if retval <? 0 then Ret (retval, None, w, i, ri)
  else
    '(text, back_cnt) ← client_loop (Z.to_nat length + 1) w (ni_virt_addr i) offset (u64 (offset + length)) [] 0;
    Ret (0, Some (text, back_cnt), w, set_i_size (offset + length) i, ri).
End rw.

(** ** What reads and writes do to the slaves' memories *)

Lemma block_offset_mod i : Z.land i RDFS_BLOCK_OFFSET_MASK = i mod 4096.
Proof. exact (land_ones_mod i 12 ltac:(lia)). Qed.

Lemma block_start_eq i : 0 <= i < 2 ^ 63 -> block_start i = i / 4096 * 4096.
Proof.
  intros Hi. unfold block_start, RDFS_BLOCK_SHIFT. rewrite shiftr_div, shiftl_mul by lia. apply u64_small. zdm.
Qed.

(** One step of the loop from byte [i]: to the end of the block or of the range. *)
Lemma block_step i end_ : 0 <= i < end_ -> end_ + 4096 < 2 ^ 64 ->
  block_size i end_ = Z.min (4096 - i mod 4096) (end_ - i) /\ next_block i = i - i mod 4096 + 4096 /\
  0 < block_size i end_ <= 4096.
Proof.
  intros Hi He. unfold block_size, next_block, RDFS_BLOCK_SIZE. rewrite block_offset_mod. change (2 ^ 12) with 4096.
  pose proof (Z.mod_pos_bound i 4096 ltac:(lia)). rewrite !u64_small by lia.
  destruct (Z.ltb_spec end_ (i + (4096 - i mod 4096))); lia.
Qed.

Section transfers.
Context `{!KernelPg} (sbi : rdfs_sb_info) (b : rw_buffer) (vaddr : Z).
(** Where each block of the file is: slave and block. *)
Context (loc : Z -> Z * Z).

Definition buf_va : Z := rdfs_va sbi (global_phy_addr b).

(** The entries of the blocks up to [hi] are found, whatever the buffer holds. *)
Definition located (w : world) (hi : Z) : Prop :=
  forall m k, (forall a, ~ (buf_va <= a < buf_va + PAGE_SIZE) -> ldb m a = ldb (w_mem w) a) -> 0 <= k < hi ->
    rdfs_search_metadata (mld sbi 8 (set_mem m w)) vaddr (k * 4096) = Ret (loc k).

(** The blocks' slaves are registered and the blocks distinct. *)
Record blocks_ok (cs : list (option rdfs_context)) (hi : Z) : Prop := {
  blk_ctx k : 0 <= k < hi -> exists c, get_ctx cs (loc k).1 = Ret c /\ 0 <= (loc k).1 /\
    0 <= rem_addr c /\ 0 <= (loc k).2 /\ rem_addr c + (loc k).2 * 4096 + 4096 <= 2 ^ 64;
  blk_inj k k' : 0 <= k < hi -> 0 <= k' < hi -> loc k = loc k' -> k = k'
}.

(** Byte [x] of the file, in its slave's memory. *)
Definition file_byte (cs : list (option rdfs_context)) (x : Z) : Z :=
  match get_ctx cs (loc (x / 4096)).1 with
  | Ret c => ldb (rem_mem c) (rem_addr c + (loc (x / 4096)).2 * 4096 + x mod 4096)
  | Oops => 0
  end.

(** A context that changed in its counters and memory only. *)
Lemma get_ctx_upd cs s c nx wd rm s' : 0 <= s -> 0 <= s' -> get_ctx cs s = Ret c ->
  get_ctx (<[Z.to_nat s := Some (mk_ctx (rem_addr c) nx wd rm)]> cs) s' =
  if decide (s' = s) then Ret (mk_ctx (rem_addr c) nx wd rm) else get_ctx cs s'.
Proof.
  intros Hs Hs' E. unfold get_ctx in *. destruct (s <? MAX_SLAVE_NUMS) eqn:El; [|done].
  destruct (cs !! Z.to_nat s) as [[c'|]|] eqn:Ec; try done. injection E as ->.
  pose proof (lookup_lt_Some _ _ _ Ec) as Hlt. case_decide as Hd.
  - subst s'. rewrite El. by rewrite list_lookup_insert_eq.
  - destruct (s' <? MAX_SLAVE_NUMS); [|done]. by rewrite list_lookup_insert_ne by lia.
Qed.

Lemma blocks_ok_upd cs hi s c nx wd rm : 0 <= s -> get_ctx cs s = Ret c -> blocks_ok cs hi ->
  blocks_ok (<[Z.to_nat s := Some (mk_ctx (rem_addr c) nx wd rm)]> cs) hi.
Proof.
  intros Hs E [B1 B2]. split; [|done]. intros k Hk. destruct (B1 k Hk) as (c' & E' & H1 & H2 & H3 & H4).
  rewrite (get_ctx_upd cs s c nx wd rm _ Hs H1 E). case_decide as Hd; [|eauto 10].
  rewrite Hd, E in E'. injection E' as <-. eexists. split; [done|]. cbn. lia.
Qed.

Context (post_ok : Z -> bool) (Hpost : forall id, post_ok id = true).

(** Replacing the memory of block [k]'s slave. *)
Lemma file_byte_upd cs hi k c nx wd rm x : blocks_ok cs hi -> 0 <= k < hi -> 0 <= x < hi * 4096 ->
  get_ctx cs (loc k).1 = Ret c ->
  file_byte (<[Z.to_nat (loc k).1 := Some (mk_ctx (rem_addr c) nx wd rm)]> cs) x =
  if decide ((loc (x / 4096)).1 = (loc k).1)
  then ldb rm (rem_addr c + (loc (x / 4096)).2 * 4096 + x mod 4096) else file_byte cs x.
Proof using Type.
  intros [B1 _] Hk Hx E. destruct (B1 k Hk) as (_ & _ & H1 & _).
  destruct (B1 (x / 4096) ltac:(zdm)) as (_ & _ & H2 & _).
  unfold file_byte. rewrite (get_ctx_upd cs _ c nx wd rm _ H1 H2 E). by case_decide.
Qed.

(** One block written: its bytes in the file are those of the buffer. *)
Lemma write_block m cs hi k o n local : blocks_ok cs hi -> 0 <= k < hi -> 0 <= o -> 0 < n -> o + n <= 4096 ->
  exists cs', rdfs_rdma_block_rw sbi post_ok m cs b local (loc k).1 (loc k).2 o n RDFS_WRITE = Ret (n, m, cs') /\
    blocks_ok cs' hi /\
    forall x, 0 <= x < hi * 4096 -> file_byte cs' x =
      if decide (k * 4096 + o <= x < k * 4096 + o + n) then ldb m (dma_va sbi b local + (x - (k * 4096 + o)))
      else file_byte cs x.
Proof using Hpost.
  intros HB Hk Ho Hn Hon. pose proof HB as [B1 B2]. destruct (B1 k Hk) as (c & E & H1 & H2 & H3 & H4).
  unfold rdfs_rdma_block_rw. rewrite E. cbn [mbind outcome_bind]. rewrite Hpost. cbn [negb].
  eexists. split; [reflexivity|]. split; [by apply blocks_ok_upd|]. intros x Hx.
  unfold RDFS_BLOCK_SIZE. change (2 ^ 12) with 4096. rewrite u64_small, u32_small by lia.
  rewrite (file_byte_upd cs hi k c) by done. case_decide as Hd.
  - destruct (decide (x / 4096 = k)) as [Hxk|Hxk].
    + rewrite Hxk, ldb_copy. assert (Ex : x = k * 4096 + x mod 4096) by zdm. repeat case_decide; try lia.
      * f_equal. lia.
      * unfold file_byte. by rewrite Hxk, E.
    + assert (Hb : (loc (x / 4096)).2 <> (loc k).2).
      { intros Hb. apply Hxk, B2; [zdm|done|]. destruct (loc (x / 4096)), (loc k). cbn in *. by subst. }
      destruct (B1 (x / 4096) ltac:(zdm)) as (c' & E' & _). rewrite Hd, E in E'. injection E' as <-.
      rewrite ldb_copy, decide_False by zdm. rewrite decide_False by zdm. unfold file_byte. by rewrite Hd, E.
  - rewrite decide_False; [done|]. intros Hr. apply Hd. do 2 f_equal. zdm.
Qed.

(** One block read: the buffer gets its bytes. *)
Lemma read_block m cs hi k o n local : blocks_ok cs hi -> 0 <= k < hi -> 0 <= o -> 0 < n -> o + n <= 4096 ->
  exists m' cs', rdfs_rdma_block_rw sbi post_ok m cs b local (loc k).1 (loc k).2 o n RDFS_READ = Ret (n, m', cs') /\
    blocks_ok cs' hi /\ (forall x, 0 <= x < hi * 4096 -> file_byte cs' x = file_byte cs x) /\
    forall a, ldb m' a = if decide (dma_va sbi b local <= a < dma_va sbi b local + n)
      then file_byte cs (k * 4096 + o + (a - dma_va sbi b local)) else ldb m a.
Proof using Hpost.
  intros HB Hk Ho Hn Hon. pose proof HB as [B1 B2]. destruct (B1 k Hk) as (c & E & H1 & H2 & H3 & H4).
  unfold rdfs_rdma_block_rw. rewrite E. cbn [mbind outcome_bind]. rewrite Hpost. cbn [negb].
  eexists _, _. split; [reflexivity|]. split; [by apply blocks_ok_upd|]. split.
  - intros x Hx. rewrite (file_byte_upd cs hi k c) by done. case_decide as Hd; [|done].
    unfold file_byte. by rewrite Hd, E.
  - intros a. unfold RDFS_BLOCK_SIZE. change (2 ^ 12) with 4096. rewrite u64_small, u32_small by lia.
    rewrite ldb_copy, Z2Nat.id by lia. case_decide as Hd; [|done].
    set (x := k * 4096 + o + (a - dma_va sbi b local)).
    assert (Hxk : x / 4096 = k) by (unfold x; zdm). assert (Hxo : x mod 4096 = o + (a - dma_va sbi b local)) by (unfold x; zdm).
    unfold file_byte. rewrite Hxk, E, Hxo. f_equal. lia.
Qed.

Lemma set_mem_id w : set_mem (w_mem w) w = w.
Proof using Type. by destruct w. Qed.

Lemma set_mem_twice m m' w : set_mem m (set_mem m' w) = set_mem m w.
Proof using Type. done. Qed.

(** The range of file bytes [start, end_) and the registered buffer. *)
Record range_ok (hi start end_ : Z) : Prop := {
  rng_start : 0 <= start;
  rng_hi : end_ <= hi * 4096;
  rng_small : end_ + 4096 < 2 ^ 63;
  rng_buf : 0 <= local_rw_addr b /\ local_rw_addr b + (end_ - start) < 2 ^ 64;
  rng_page : end_ - start <= PAGE_SIZE
}.

Lemma dma_buf x : dma_va sbi b (local_rw_addr b + x) = buf_va + x.
Proof using Type. unfold dma_va, buf_va. lia. Qed.

(** What the loop looks up at byte [i]. *)
Lemma locate w hi i m : located w hi -> 0 <= i < 2 ^ 63 -> i < hi * 4096 ->
  (forall a, ~ (buf_va <= a < buf_va + PAGE_SIZE) -> ldb m a = ldb (w_mem w) a) ->
  rdfs_search_metadata (mld sbi 8 (set_mem m w)) vaddr (block_start i) = Ret (loc (i / 4096)).
Proof using Type.
  intros HL Hi Hh Hm. rewrite block_start_eq by lia. apply HL; [done|zdm].
Qed.

Lemma write_loop_ok fuel w cs hi start i end_ rw_addr : blocks_ok cs hi -> located w hi -> range_ok hi start end_ ->
  start <= i -> (i < end_ -> rw_addr = local_rw_addr b + (i - start)) -> (Z.to_nat (end_ - i) < fuel)%nat ->
  exists cs', rw_loop sbi post_ok fuel w cs b vaddr i end_ rw_addr RDFS_WRITE = Ret (w, cs') /\ blocks_ok cs' hi /\
    forall x, 0 <= x < hi * 4096 ->
      file_byte cs' x = if decide (i <= x < end_) then ldb (w_mem w) (buf_va + (x - start)) else file_byte cs x.
Proof using Hpost.
  revert cs i rw_addr. induction fuel as [|fuel IH]; intros cs i rw_addr HB HL HR Hi Ha Hf; [lia|].
  pose proof HR as [R1 R2 R3 R4 R5]. cbn [rw_loop]. destruct (Z.ltb_spec i end_) as [Hlt|Hge].
  2:{ exists cs. split; [done|]. split; [done|]. intros x Hx. by rewrite decide_False by lia. }
  specialize (Ha Hlt). subst rw_addr. destruct (block_step i end_ ltac:(lia) ltac:(lia)) as (E1 & E2 & E3).
  pose proof (locate w hi i (w_mem w) HL ltac:(lia) ltac:(lia) ltac:(done)) as El. rewrite set_mem_id in El. rewrite El.
  cbn [mbind outcome_bind]. rewrite block_offset_mod, (surjective_pairing (loc (i / 4096))).
  set (n := block_size i end_) in *. set (k := i / 4096). assert (Hk : 0 <= k < hi) by (unfold k; zdm).
  assert (Ei : i = k * 4096 + i mod 4096) by (unfold k; zdm).
  destruct (write_block (w_mem w) cs hi k (i mod 4096) n (local_rw_addr b + (i - start)) HB Hk) as (cs1 & -> & HB1 & Hx1);
    [zdm|lia|lia|]. cbn [mbind outcome_bind]. rewrite set_mem_id.
  destruct (IH cs1 (next_block i) (u64 (local_rw_addr b + (i - start) + n)) HB1 HL HR) as (cs2 & -> & HB2 & Hx2).
  - rewrite E2. zdm.
  - rewrite E2. intros Hn. rewrite u64_small by lia. lia.
  - rewrite E2. pose proof (Z.mod_pos_bound i 4096 ltac:(lia)). lia.
  - exists cs2. split; [done|]. split; [done|]. intros x Hx. rewrite Hx2, Hx1 by done. rewrite E2, <- Ei, dma_buf.
    pose proof (Z.mod_pos_bound i 4096 ltac:(lia)).
    repeat case_decide; try lia; try done. f_equal. lia.
Qed.

Lemma read_loop_ok fuel w m cs hi start i end_ rw_addr : blocks_ok cs hi -> located w hi -> range_ok hi start end_ ->
  (forall a, ~ (buf_va <= a < buf_va + PAGE_SIZE) -> ldb m a = ldb (w_mem w) a) ->
  start <= i -> (i < end_ -> rw_addr = local_rw_addr b + (i - start)) -> (Z.to_nat (end_ - i) < fuel)%nat ->
  exists m' cs', rw_loop sbi post_ok fuel (set_mem m w) cs b vaddr i end_ rw_addr RDFS_READ = Ret (set_mem m' w, cs') /\
    blocks_ok cs' hi /\ (forall x, 0 <= x < hi * 4096 -> file_byte cs' x = file_byte cs x) /\
    (forall a, ~ (buf_va <= a < buf_va + PAGE_SIZE) -> ldb m' a = ldb (w_mem w) a) /\
    (forall x, start <= x < end_ -> ldb m' (buf_va + (x - start)) = if decide (i <= x) then file_byte cs x
                                                                else ldb m (buf_va + (x - start))).
Proof using Hpost.
  revert m cs i rw_addr. induction fuel as [|fuel IH]; intros m cs i rw_addr HB HL HR Hm Hi Ha Hf; [lia|].
  pose proof HR as [R1 R2 R3 R4 R5]. cbn [rw_loop]. destruct (Z.ltb_spec i end_) as [Hlt|Hge].
  2:{ exists m, cs. split; [done|]. split; [done|]. split; [done|]. split; [done|].
      intros x Hx. by rewrite decide_False by lia. }
  specialize (Ha Hlt). subst rw_addr. destruct (block_step i end_ ltac:(lia) ltac:(lia)) as (E1 & E2 & E3).
  rewrite (locate w hi i m HL) by (done || lia).
  cbn [mbind outcome_bind w_mem set_mem]. rewrite block_offset_mod, (surjective_pairing (loc (i / 4096))).
  set (n := block_size i end_) in *. set (k := i / 4096). assert (Hk : 0 <= k < hi) by (unfold k; zdm).
  assert (Ei : i = k * 4096 + i mod 4096) by (unfold k; zdm). pose proof (Z.mod_pos_bound i 4096 ltac:(lia)) as Hmod.
  destruct (read_block m cs hi k (i mod 4096) n (local_rw_addr b + (i - start)) HB Hk) as (m1 & cs1 & -> & HB1 & Hx1 & Hm1);
    [lia|lia|lia|]. cbn [mbind outcome_bind]. rewrite set_mem_twice. rewrite dma_buf in Hm1.
  destruct (IH m1 cs1 (next_block i) (u64 (local_rw_addr b + (i - start) + n)) HB1 HL HR) as (m2 & cs2 & -> & HB2 & Hx2 & Ho2 & Hr2).
  - intros a Hna. rewrite Hm1, decide_False; [by apply Hm|]. unfold PAGE_SIZE in *. lia.
  - lia.
  - rewrite E2. intros Hn. rewrite u64_small by lia. lia.
  - rewrite E2. lia.
  - exists m2, cs2. split; [done|]. split; [done|]. split; [intros x Hx; by rewrite Hx2, Hx1|]. split; [done|].
    intros x Hx. rewrite Hr2 by done. rewrite E2. destruct (decide (i - i mod 4096 + 4096 <= x)) as [Hd|Hd].
    + rewrite Hx1 by lia. by rewrite decide_True by lia.
    + rewrite Hm1. destruct (decide (i <= x)); [rewrite decide_True by lia|by rewrite decide_False by lia].
      f_equal. lia.
Qed.
End transfers.

(** C22: What is written is read back. A write of fewer than 4096 bytes, over one or
    two blocks on any slaves, into blocks the file has, stores the data in the
    slaves' memories and changes no other byte of the file's blocks; a read at
    the same place returns exactly the data.  Of the in-core inode only the size
    changes: it becomes the end of the write, also when the file was longer.
    (The requests are accepted and no fatal signal ends a wait.) *)
Theorem file_write_read `{!KernelPg} sbi cpu kok bits post_ok w cs g i ri data ppos loc hi :
  (forall id, post_ok id = true) -> blocks_ok loc cs hi -> located sbi (rw_buf g) (ni_virt_addr i) loc w hi ->
  let len := Z.of_nat (length data) in
  Forall is_byte data -> 0 < len < PAGE_SIZE -> 0 <= ppos -> ppos + len <= hi * 4096 -> ppos + len + 4096 < 2 ^ 63 ->
  0 <= local_rw_addr (rw_buf g) -> local_rw_addr (rw_buf g) + len < 2 ^ 64 ->
  pages_to_alloc bits i ppos len <= 0 ->
  exists w1 cs1 i1 w2 cs2,
    rdfs_local_file_write sbi cpu kok bits post_ok w cs g i ri data ppos
      = Ret (len, ppos + len, w1, cs1, i1, ri) /\ i1 = set_i_size (ppos + len) i /\
    (forall x, 0 <= x < hi * 4096 -> ~ (ppos <= x < ppos + len) -> file_byte loc cs1 x = file_byte loc cs x) /\
    rdfs_local_file_read sbi post_ok w1 cs1 g i1 len ppos = Ret (len, data, ppos + len, w2, cs2).
Proof.
  intros Hp HB HL len Hd Hlen Hpp Hhi Hsm Hl0 Hl1 Hn. unfold rdfs_local_file_write. fold len.
  rewrite (proj2 (Z.ltb_ge 0 _) Hn). cbn [mbind outcome_bind]. unfold rw_range.
  rewrite (u64_small (ppos + len)) by lia.
  set (va := rdfs_va sbi (global_phy_addr (rw_buf g))).
  set (m1 := st 1 (st_bytes (w_mem w) va data) (va + len) 0). set (w1 := set_mem m1 w).
  assert (Hm1 : forall a, ~ (va <= a < va + PAGE_SIZE) -> ldb m1 a = ldb (w_mem w) a).
  { intros a Ha. unfold m1. rewrite ldb_st_0, decide_False by lia. by rewrite ldb_st_bytes, decide_False by lia. }
  assert (HL1 : located sbi (rw_buf g) (ni_virt_addr i) loc w1 hi).
  { intros m k Hm Hk. unfold w1. rewrite set_mem_twice. apply HL; [|done]. intros a Ha. rewrite Hm by done. by apply Hm1. }
  assert (HR : range_ok (rw_buf g) hi ppos (ppos + len)) by (split; lia).
  destruct (write_loop_ok sbi (rw_buf g) (ni_virt_addr i) loc post_ok Hp (Z.to_nat len + 1) w1 cs hi ppos ppos
    (ppos + len) (local_rw_addr (rw_buf g)) HB HL1 HR) as (cs1 & -> & HB1 & Hx1); [lia..|].
  cbn [mbind outcome_bind].
  set (i1 := set_i_size (ppos + len) (if i_size i <? ppos + len then set_i_size (ppos + len) i else i)).
  destruct (read_loop_ok sbi (rw_buf g) (ni_virt_addr i) loc post_ok Hp (Z.to_nat len + 1) w1 m1 cs1 hi ppos ppos
    (ppos + len) (local_rw_addr (rw_buf g)) HB1 HL1 HR) as (m2 & cs2 & E2 & _ & _ & _ & Hr2); [done|lia..|].
  exists w1, cs1, i1, (set_mem m2 w1), cs2. split; [reflexivity|]. split; [unfold i1; by destruct (_ <? _)|].
  split; [intros x Hx Hno; by rewrite Hx1, decide_False|].
  unfold rdfs_local_file_read. change (i_size i1) with (ppos + len). rewrite (proj2 (Z.leb_gt _ 0)) by lia.
  rewrite u64_small by lia. rewrite Z.ltb_irrefl, (proj2 (Z.leb_gt _ 0)) by lia.
  unfold rw_range. replace (ni_virt_addr i1) with (ni_virt_addr i) by (unfold i1; by destruct (_ <? _)).
  rewrite (u64_small (ppos + len)) by lia. change w1 with (set_mem m1 w1) at 1. rewrite E2. cbn [mbind outcome_bind w_mem set_mem].
  do 5 f_equal. fold va.
  rewrite <- (ld_st_bytes_same (w_mem w) va data Hd). unfold len. rewrite Nat2Z.id. apply ld_bytes_ext. intros j Hj.
  replace (va + j) with (buf_va sbi (rw_buf g) + (ppos + j - ppos)) by (unfold buf_va, va; lia).
  fold len in Hj. rewrite Hr2 by lia. rewrite decide_True by lia. rewrite Hx1 by lia. rewrite decide_True by lia.
  change (w_mem w1) with m1. unfold m1. rewrite ldb_st_0, decide_False; [done|]. unfold buf_va, va. lia.
Qed.
