(* ===== verification/Growth.v ===== *)
(** * Where a file's blocks are found (inode.c, memory.c, pgtable.c)

    Growing a file with [rdfs_alloc_blocks] takes a slave's block per step, writes
    its entry into the next slot of the current page of entries and adds that
    page to the file's table; [rdfs_search_metadata] reads entry [b] at the
    file's address plus 8 [b], through the table.  The file proves that a file
    whose blocks fill a page from slot 0 finds every block, that blocks from
    512 on are looked up in the entries of the first 512, and that a file which
    starts in the middle of a page finds the entries of the file before it. *)

From S2P Require Import Prelude Mem Layout FreeList Balloc Pages Demo Nvmalloc Vfs Bdev Pgtable SlaveMem Mapping Rdma Acl Inode FileData.

(** [n] blocks of the slaves, as (slave, block). *)
Fixpoint take_blocks (n : nat) (ss : list slave_info) (ri : ri_info)
  : outcome (list (Z * Z) * list slave_info * ri_info) :=
  match n with
  | O => Ret ([], ss, ri)
  | S n' =>
      '(block_id, s_id, ss, ri) ← rdfs_alloc_slave_bitmap_memory ss ri;
      '(locs, ss, ri) ← take_blocks n' ss ri;
      Ret ((s_id, block_id) :: locs, ss, ri)
  end.


Section growth.
Context `{!KernelPg} (sbi : rdfs_sb_info).
Context {free : mem -> list Z -> Prop} {foot : list Z -> Z -> Prop} {page_ok meta : Z -> Prop}.
Context `{!PageAlloc sbi free foot page_ok meta}.
Local Abbreviation PT := (pt_state sbi (free := free) (page_ok := page_ok) (meta := meta)).

(** Entry [j] of the page of entries [p]. *)
Definition slot (m : mem) (p j : Z) : Z := ld 8 m (rdfs_va sbi p + 8 * j).

(** What [rdfs_search_metadata] makes of an entry. *)
Definition decode (v : Z) : Z * Z :=
  (Z.shiftr (Z.land v SLAVE_ID_MASK) SLAVE_ID_SHIFT, Z.shiftr (Z.land v BLOCK_ID_MASK) BLOCK_ID_SHIFT).

(** A step that keeps the pages of the table, the allocator's bytes and the root
    keeps the table. *)
Lemma pt_other m m' l ino t f : PT m l ino t f ->
  (forall a, foot l a -> ldb m' a = ldb m a) ->
  (forall q a, q ∈ tables t -> in_page sbi q a -> ldb m' a = ldb m a) ->
  (forall k, 0 <= k < 8 -> let a := get_rdfs_inode m sbi ino + inode_off.i_pg_addr + k in ldb m' a = ldb m a) ->
  PT m' l ino t f.
Proof.
  intros [Hf Hs Hr Hw Hp Hn] H1 H2 H3. assert (Hf' : free m' l) by (by apply (free_ext sbi m)).
  assert (Ei : get_rdfs_inode m' sbi ino = get_rdfs_inode m sbi ino) by (by eapply (free_inode sbi)).
  split; try done; [by rewrite Ei|]. apply (pt_frame sbi m); try done. apply ld_ext. intros k Hk. apply H3. lia.
Qed.

(** Stores that keep the table: into a page outside of it, into the inode's slot. *)
Lemma pt_st_page m l ino t f p a v : PT m l ino t f -> page_ok p -> p ∉ tables t -> p ∉ l ->
  rdfs_va sbi p <= a -> a + 8 <= rdfs_va sbi p + PAGE_SIZE -> PT (st 8 m a v) l ino t f.
Proof.
  intros HS Hp H1 H2 Ha Ha'. pose proof HS as [Hf Hs _ _ Ht _]. destruct (free_pages sbi m l Hf) as [Hl _].
  assert (Hne : forall x, ~ in_page sbi p x -> ldb (st 8 m a v) x = ldb m x).
  { intros x Hx. rewrite ldb_st, decide_False; [done|]. intros Hr. apply Hx. unfold in_page. lia. }
  apply (pt_other m); [done|..].
  - intros x Hx. apply Hne. intros Hq. by apply (foot_page sbi p l x).
  - intros q x Hq Hx. apply Hne. intros Hy. rewrite Forall_forall in Ht.
    by rewrite (page_disjoint sbi p q x Hp (Ht q Hq) Hy Hx) in H1.
  - intros k Hk. apply Hne. apply (meta_page sbi p); [done|]. apply Hs. unfold inode_off.i_pg_addr, RDFS_INODE_SIZE. lia.
Qed.

Lemma pt_st_slot m l ino t f a v : PT m l ino t f ->
  let ni := get_rdfs_inode m sbi ino in ni <= a -> a + 8 <= ni + inode_off.i_pg_addr \/
  (ni + inode_off.i_pg_addr + 8 <= a /\ a + 8 <= ni + RDFS_INODE_SIZE) -> PT (st 8 m a v) l ino t f.
Proof.
  intros HS ni Ha Ha'. pose proof HS as [Hf Hs _ _ Ht _]. destruct (free_pages sbi m l Hf) as [Hl _]. fold ni in Hs.
  assert (Hm : forall x, a <= x < a + 8 -> meta x).
  { intros x Hx. apply Hs. unfold inode_off.i_pg_addr, RDFS_INODE_SIZE in *. lia. }
  assert (Hne : forall x, ~ (a <= x < a + 8) -> ldb (st 8 m a v) x = ldb m x).
  { intros x Hx. by rewrite ldb_st, decide_False. }
  apply (pt_other m); [done|..].
  - intros x Hx. apply Hne. intros Hr. by apply (meta_foot sbi l x Hl (Hm x Hr)).
  - intros q x Hq Hx. apply Hne. intros Hr. rewrite Forall_forall in Ht. by apply (meta_page sbi q x (Ht q Hq) (Hm x Hr)).
  - intros k Hk. apply Hne. fold ni. lia.
Qed.
Lemma va_add p k : page_ok p -> 0 <= k < PAGE_SIZE -> rdfs_va sbi (p + k) = rdfs_va sbi p + k.
Proof.
  intros Hp Hk. destruct (page_virt sbi p Hp) as [H1 H2]. unfold rdfs_va in *.
  replace (p + k - phy_addr sbi + virt_addr sbi) with (p - phy_addr sbi + virt_addr sbi + k) by lia.
  unfold u64 in *. rewrite Z.add_mod by lia. rewrite (Z.mod_small k) by (unfold PAGE_SIZE in *; lia).
  apply Z.mod_small. unfold PAGE_SIZE in *. lia.
Qed.

(** The entry of block [b] is looked up in the page of table block [b] / 512. *)
Lemma search_entry w l i t f b p :
  PT (w_mem w) l (i_ino i) t f -> km_maps (ni_virt_addr i) t (w_km w) -> file_addr (ni_virt_addr i) (b / 512) ->
  f !! (b / 512) = Some (page_entry p) -> page_ok p ->
  rdfs_search_metadata (mld sbi 8 w) (ni_virt_addr i) (b * 4096) = Ret (decode (slot (w_mem w) p (b mod 512))).
Proof.
  intros HS Hk Ha Hf Hp. unfold rdfs_search_metadata. rewrite Z.div_mul by lia.
  replace (ni_virt_addr i + b * 8) with (ni_virt_addr i + b / 512 * PAGE_SIZE + 8 * (b mod 512)) by (unfold PAGE_SIZE; zdm).
  unfold mld. rewrite (mmu_entry sbi (w_mem w) l (w_km w) _ t f _ _ _ _ HS Hk Ha Hf).
  - unfold get_phys_from_pte_val. rewrite (page_entry_phys sbi) by done. reflexivity.
  - intros E. pose proof (page_entry_nz sbi p Hp) as Hn. rewrite E, entry_none_spec in Hn. done.
  - unfold PAGE_SIZE. zdm.
Qed.

(** ** One step of growing *)

Context (cpu : Z) (kok : Z -> bool).

(** A mapped file with its table, and [p] the current page of entries with its
    next slot [c]. *)
Record growing (w : world) (l : list Z) (i : inode) (t : ptree) (f : gmap Z Z) (p c : Z) : Prop := {
  gr_pt : PT (w_mem w) l (i_ino i) t f;
  gr_km : km_maps (ni_virt_addr i) t (w_km w);
  gr_page : page_ok p /\ (p ∉ tables t) /\ (p ∉ l);
  gr_pte : w_pte w = mk_pte_page c p;
  gr_slot : 0 <= c
}.

(** Slots [j] of [p] other than [c] stay. *)
Definition slots_kept (p c : Z) (m m' : mem) : Prop :=
  forall j, 0 <= j < 512 -> j <> c -> slot m' p j = slot m p j.

Lemma slot_keep m m' p j : (forall a, in_page sbi p a -> ldb m' a = ldb m a) -> 0 <= j < 512 ->
  slot m' p j = slot m p j.
Proof using Type. intros Hm Hj. apply ld_ext. intros k Hk. apply Hm. unfold in_page, PAGE_SIZE. lia. Qed.

Lemma page_untouched m l ino t f p t' l' : PT m l ino t f -> page_ok p -> p ∉ tables t -> p ∉ l ->
  (forall a, untouched sbi (foot := foot) t l a -> untouched sbi (foot := foot) t' l' a) -> (p ∉ tables t') /\ (p ∉ l').
Proof.
  intros [Hf _ _ _ Ht _] Hp H1 H2 Hmono.
  assert (Hu : untouched sbi (foot := foot) t' l' (rdfs_va sbi p)).
  { apply Hmono. apply (untouched_page sbi m t l p); try done. unfold in_page, PAGE_SIZE. lia. }
  destruct Hu as [_ Hu].
  split; intros Hx; (apply (Hu p); [tauto|unfold in_page, PAGE_SIZE; lia]).
Qed.

(** A page in other use. *)
Definition used_page (t : ptree) (l : list Z) (q : Z) : Prop := page_ok q /\ (q ∉ tables t) /\ (q ∉ l).

Lemma new_page_pte_ok w l i t f p c ri ni block_id s_id ss ri' :
  growing w l i t f p c -> c < 512 ->
  rdfs_alloc_slave_bitmap_memory (w_slaves w) ri = Ret (block_id, s_id, ss, ri') ->
  rdfs_new_page_pte sbi cpu (w_mem w) (w_pte w) (w_slaves w) ri ni
  = Ret (p, st 8 (w_mem w) (rdfs_va sbi p + 8 * c) (pte_encode s_id block_id), mk_pte_page (c + 1) p, ss, ri').
Proof.
  intros [_ _ (Hp & _) Eg Hc] Hlt E. unfold rdfs_new_page_pte. rewrite Eg. cbn [pte_cnt pte_phy_addr].
  rewrite (proj2 (Z.eqb_neq c PAGE_PTE_NUMS)) by (change PAGE_PTE_NUMS with 512; lia). rewrite E. cbn [mbind outcome_bind pte_cnt pte_phy_addr].
  destruct (page_phys sbi p Hp) as [Hr _]. rewrite (u64_small (p + c * 8)) by lia.
  rewrite va_add by (done || (unfold PAGE_SIZE; lia)).
  by rewrite (Z.mul_comm c).
Qed.
Lemma store_slot m p c v : page_ok p -> 0 <= c < 512 -> 0 <= v < 2 ^ 64 ->
  let m' := st 8 m (rdfs_va sbi p + 8 * c) v in slot m' p c = v /\ slots_kept p c m m'.
Proof using Type.
  intros Hp Hc Hv. split; [by apply ld8_st8|]. intros j Hj Hne. unfold slot. apply ld_st_ne. lia.
Qed.

Lemma pte_encode_range s b : 0 <= pte_encode s b < 2 ^ 64.
Proof using Type.
  unfold pte_encode. pose proof (u64_range (Z.shiftl s SLAVE_ID_SHIFT)). pose proof (u64_range (Z.shiftl b BLOCK_ID_SHIFT)).
  apply lor_range; lia.
Qed.

(** The state after one step, and what it kept. *)
Lemma grow_step w l i t f p c ri ni phys zero n block_id s_id ss ri' :
  growing w l i t f p c -> c < 512 -> ni = get_rdfs_inode (w_mem w) sbi (i_ino i) ->
  rdfs_alloc_slave_bitmap_memory (w_slaves w) ri = Ret (block_id, s_id, ss, ri') ->
  file_addr (ni_virt_addr i) (i_blocks i) -> (forall a, kok a = true) ->
  exists err w' l' t' f', let i' := set_i_blocks (i_blocks i + 1) i in
    alloc_loop sbi cpu kok (S n) w i ri ni phys zero ALLOC_PTE
    = (if negb (err =? 0) then Ret (err, w', i', ri') else alloc_loop sbi cpu kok n w' i' ri' ni phys zero ALLOC_PTE) /\
    growing w' l' i' t' f' p (c + 1) /\ w_slaves w' = ss /\ get_rdfs_inode (w_mem w') sbi (i_ino i) = ni /\
    slot (w_mem w') p c = pte_encode s_id block_id /\ slots_kept p c (w_mem w) (w_mem w') /\
    (length l <= length l' + 2)%nat /\ (forall q, used_page t l q -> used_page t' l' q) /\
    ((err = 0 /\ f' = <[i_blocks i := page_entry p]> f) \/ (err = -1 /\ f' = f /\ (length l < 2)%nat)).
Proof.
  intros HG Hc Eni E Ha Hok. pose proof HG as [HS Hk (Hp & Hpt & Hpl) Eg Hc0].
  assert (Hb : 0 <= i_blocks i < 2 ^ 23).
  { destruct Ha as [_ _ Hb]. change (MAX_FILE_SIZE / PAGE_SIZE) with (2 ^ 23) in Hb. lia. }
  cbn [alloc_loop]. unfold next_page. rewrite (new_page_pte_ok _ _ _ _ _ _ _ _ _ _ _ _ _ HG Hc E).
  cbn [mbind outcome_bind w_mem w_km set_mem set_km set_slaves set_pte i_blocks set_i_blocks]. rewrite u64_small by lia.
  set (m1 := st 8 (w_mem w) (rdfs_va sbi p + 8 * c) (pte_encode s_id block_id)).
  set (m2 := st 8 m1 (ni + inode_off.i_blocks) (u32 (i_blocks i + 1))).
  assert (HS1 : PT m1 l (i_ino i) t f) by (apply (pt_st_page _ _ _ _ _ p); done || (unfold PAGE_SIZE; lia)).
  assert (Ei1 : get_rdfs_inode m1 sbi (i_ino i) = ni) by (subst ni; eapply (free_inode sbi); [apply HS|apply HS1]).
  assert (HS2 : PT m2 l (i_ino i) t f).
  { apply pt_st_slot; [done|..]; rewrite Ei1; unfold inode_off.i_blocks, inode_off.i_pg_addr, RDFS_INODE_SIZE; lia. }
  assert (Hm2 : forall j, 0 <= j < 512 -> slot m2 p j = slot m1 p j).
  { intros j Hj. apply slot_keep; [|done]. intros a Hin. unfold m2. rewrite ldb_st, decide_False; [done|].
    intros Hr. apply (meta_page sbi p a Hp); [|done]. apply HS1. rewrite Ei1.
    unfold inode_off.i_blocks, RDFS_INODE_SIZE in *. lia. }
  set (i' := set_i_blocks (i_blocks i + 1) i). destruct (page_phys sbi p Hp) as [Hr _].
  destruct (insert_page_ok sbi m2 l (w_km w) i' t f cpu kok p (i_blocks i) HS2) as
    (err & m3 & km3 & l' & t' & f' & E3 & HS3 & Hlen & Hkeep & Hkm & Hres); [cbn; lia|exact Ha|lia|].
  cbn [w_km set_mem set_pte set_slaves]. fold i'. rewrite E3.
  destruct (page_untouched m2 l (i_ino i) t f p t' l' HS2 Hp Hpt Hpl) as [Hpt' Hpl']; [apply Hkeep|].
  assert (Hm3 : forall j, 0 <= j < 512 -> slot m3 p j = slot m2 p j).
  { intros j Hj. apply slot_keep; [|done]. intros a Hin. apply Hkeep. eapply (untouched_page sbi m2); try done; apply HS2. }
  destruct (store_slot (w_mem w) p c (pte_encode s_id block_id) Hp) as [Hs1 Hs2]; [lia|apply pte_encode_range|].
  eexists err, _, l', t', f'. cbn zeta. split; [reflexivity|].
  split; [split; cbn; try done; [apply Hkm; [apply Hok|done]|lia]|].
  split; [done|]. split; [cbn; rewrite <- Ei1; eapply (free_inode sbi); [apply HS1|apply HS3]|].
  cbn [w_mem set_km set_mem]. split; [by rewrite Hm3, Hm2 by lia|].
  split; [intros j Hj Hne; rewrite Hm3, Hm2 by lia; by apply Hs2|]. split; [done|].
  split; [intros q (H1 & H2 & H3); split; [done|]; apply (page_untouched m2 l (i_ino i) t f q t' l'); done || apply Hkeep|].
  destruct Hres as [[-> ->]|(-> & -> & ?)]; [by left|by right].
Qed.
(** ** Growing by [n] blocks *)

Lemma alloc_loop_ok n w l i t f p c ri ni phys zero locs ss ri' :
  growing w l i t f p c -> c + Z.of_nat n <= 512 -> ni = get_rdfs_inode (w_mem w) sbi (i_ino i) ->
  take_blocks n (w_slaves w) ri = Ret (locs, ss, ri') ->
  file_addr (ni_virt_addr i) (i_blocks i + Z.of_nat n) -> 0 <= i_blocks i -> (forall a, kok a = true) ->
  (2 * n <= length l)%nat ->
  exists w' l' t' f', let i' := set_i_blocks (i_blocks i + Z.of_nat n) i in
    alloc_loop sbi cpu kok n w i ri ni phys zero ALLOC_PTE = Ret (0, w', i', ri') /\
    growing w' l' i' t' f' p (c + Z.of_nat n) /\ w_slaves w' = ss /\
    (forall b, f' !! b = if decide (i_blocks i <= b < i_blocks i + Z.of_nat n) then Some (page_entry p) else f !! b) /\
    (forall k s_id block_id, locs !! k = Some (s_id, block_id) ->
       slot (w_mem w') p (c + Z.of_nat k) = pte_encode s_id block_id) /\
    (forall j, 0 <= j < c -> slot (w_mem w') p j = slot (w_mem w) p j) /\
    (forall q, used_page t l q -> used_page t' l' q).
Proof.
  revert w l i t f c ri locs. induction n as [|n IH]; intros w l i t f c ri locs HG Hc Eni Et Ha Hb Hok Hl.
  - cbn in Et. injection Et as <- <- <-. exists w, l, t, f. cbn zeta. cbn [alloc_loop].
    replace (set_i_blocks (i_blocks i + Z.of_nat 0) i) with i
      by (rewrite Z.add_0_r; by destruct i). rewrite Z.add_0_r.
    split; [done|]. split; [done|]. split; [done|]. split; [intros b; by rewrite decide_False by lia|]. by split; [|split].
  - cbn [take_blocks] in Et. destruct (rdfs_alloc_slave_bitmap_memory (w_slaves w) ri) as [[[[bl sid] ss1] ri1]|] eqn:Eb; [|done].
    cbn [mbind outcome_bind] in Et. destruct (take_blocks n ss1 ri1) as [[[locs1 ss2] ri2]|] eqn:Et1; [|done].
    cbn [mbind outcome_bind] in Et. injection Et as <- <- <-.
    assert (Ha0 : file_addr (ni_virt_addr i) (i_blocks i)) by (destruct Ha; split; [done|done|lia]).
    pose proof HG as [_ _ _ _ Hc0].
    destruct (grow_step w l i t f p c ri ni phys zero n bl sid ss1 ri1 HG ltac:(lia) Eni Eb Ha0 Hok)
      as (err & w1 & l1 & t1 & f1 & E1 & HG1 & Es1 & En1 & Hs1 & Hk1 & Hlen & Hu1 & [[-> ->]|(_ & _ & ?)]); [|lia].
    cbn zeta in *. cbn [Z.eqb negb] in E1. rewrite E1. set (i1 := set_i_blocks (i_blocks i + 1) i) in *.
    destruct (IH w1 l1 i1 t1 _ (c + 1) ri1 locs1 HG1) as (w2 & l2 & t2 & f2 & E2 & HG2 & Es2 & Hf2 & Hs2 & Hk2 & Hu2).
    + lia.
    + by rewrite <- En1.
    + by rewrite Es1.
    + replace (i_blocks i1 + Z.of_nat n) with (i_blocks i + Z.of_nat (S n)) by (cbn [i_blocks i1 set_i_blocks]; lia). exact Ha.
    + cbn; lia.
    + done.
    + lia.
    + cbn zeta in *. exists w2, l2, t2, f2. rewrite E2.
      assert (Ei : set_i_blocks (i_blocks i1 + Z.of_nat n) i1 = set_i_blocks (i_blocks i + Z.of_nat (S n)) i).
      { unfold i1. destruct i. unfold set_i_blocks. cbn. f_equal. lia. }
      rewrite Ei in *. split; [done|]. replace (c + Z.of_nat (S n)) with (c + 1 + Z.of_nat n) by lia.
      split; [done|]. split; [done|]. split; [|split; [|split]].
      * intros b. rewrite Hf2. cbn [i_blocks i1 set_i_blocks]. destruct (decide (b = i_blocks i)) as [->|Hne].
        -- rewrite decide_False by lia. rewrite decide_True by lia. apply lookup_insert_eq.
        -- rewrite lookup_insert_ne by done. repeat case_decide; try done; lia.
      * intros [|k] s' b' Hk.
        -- injection Hk as -> ->. rewrite Z.add_0_r, Hk2 by lia. exact Hs1.
        -- replace (c + Z.of_nat (S k)) with (c + 1 + Z.of_nat k) by lia. by apply Hs2.
      * intros j Hj. rewrite Hk2 by lia. apply Hk1; lia.
      * intros q Hq. by apply Hu2, Hu1.
Qed.
(** With a table present, the allocation is the loop. *)
Lemma alloc_blocks_loop w l i t f p c ri num zero phys0 :
  growing w l i t f p c -> 0 <= i_ino i < 2 ^ 31 ->
  rdfs_alloc_blocks sbi cpu kok w i ri num zero ALLOC_PTE phys0
  = alloc_loop sbi cpu kok (Z.to_nat num) w i ri (get_rdfs_inode (w_mem w) sbi (i_ino i)) phys0 zero ALLOC_PTE.
Proof.
  intros [HS _ _ _ _] Hi. unfold rdfs_alloc_blocks. rewrite s32_small, u64_small by lia.
  assert (Ht : page_ok (pt_top t)) by (apply (page_of t); [apply HS|apply table_in; by left]).
  destruct (page_phys sbi _ Ht) as [Hr _]. pose proof HS as [_ _ [R0 _ _ _] _ _ _]. rewrite R0.
  by rewrite (proj2 (Z.eqb_neq (pt_top t) 0)) by lia.
Qed.

Lemma growing_search w l i t f p c b :
  growing w l i t f p c -> file_addr (ni_virt_addr i) (b / 512) -> f !! (b / 512) = Some (page_entry p) ->
  rdfs_search_metadata (mld sbi 8 w) (ni_virt_addr i) (b * 4096) = Ret (decode (slot (w_mem w) p (b mod 512))).
Proof using PageAlloc0. intros [HS Hk (Hp & _) _ _] Ha Hf. by apply (search_entry w l i t f). Qed.

(** The entries of the first 512 blocks stay found while the buffer page changes. *)
Lemma growing_located w l i t f p c buf loc hi :
  growing w l i t f p c -> file_addr (ni_virt_addr i) 0 -> f !! 0 = Some (page_entry p) -> hi <= 512 ->
  used_page t l (global_phy_addr buf) -> global_phy_addr buf <> p ->
  (forall k, 0 <= k < hi -> decode (slot (w_mem w) p k) = loc k) ->
  located sbi buf (ni_virt_addr i) loc w hi.
Proof using PageAlloc0.
  clear kok cpu. intros HG Ha Hf Hhi (Hq & Hqt & Hql) Hne Hloc m k Hm Hk.
  pose proof HG as [HS Hkm (Hp & Hpt & Hpl) _ _]. unfold buf_va in Hm. set (q := global_phy_addr buf) in *.
  assert (HS' : PT m l (i_ino i) t f).
  { pose proof HS as [Hfr Hs _ _ Ht _]. destruct (free_pages sbi _ l Hfr) as [Hl _].
    apply (pt_other (w_mem w)); [done|..].
    - intros a Hfa. apply Hm. intros Hin. by apply (foot_page sbi q l a).
    - intros r a Hr Hin. apply Hm. intros Hin'. rewrite Forall_forall in Ht.
      by rewrite (page_disjoint sbi q r a Hq (Ht r Hr) Hin' Hin) in Hqt.
    - intros j Hj. apply Hm. apply (meta_page sbi q); [done|]. apply Hs. unfold inode_off.i_pg_addr, RDFS_INODE_SIZE. lia. }
  assert (D : k / 512 = 0) by zdm. assert (M : k mod 512 = k) by zdm.
  rewrite (search_entry (set_mem m w) l i t f k p); rewrite ?D, ?M; try done.
  rewrite <- Hloc by done. cbn [w_mem set_mem]. do 2 f_equal. apply slot_keep; [|lia].
  intros a Hin. apply Hm. intros Hin'. by apply Hne, (page_disjoint sbi q p a).
Qed.

Lemma decode_encode s b : 0 <= s < 2 ^ 12 -> 0 <= b < 2 ^ 40 -> decode (pte_encode s b) = (s, b).
Proof using Type.
  intros Hs Hb. unfold decode. by destruct (decode_fields _ s b Hs Hb (pte_encode_decode s b Hs Hb)) as [-> ->].
Qed.

Lemma file_addr_0 va b : file_addr va b -> file_addr va 0.
Proof using Type. intros [H1 H2 H3]. split; [done|done|lia]. Qed.

(** What the file and the slaves have to offer for growing by [n] blocks. *)
Record can_grow (w : world) (l : list Z) (i : inode) (ri : ri_info) (n : nat)
  (locs : list (Z * Z)) (ss : list slave_info) (ri' : ri_info) : Prop := {
  cg_ino : 0 <= i_ino i < 2 ^ 31;
  cg_blocks : 0 <= i_blocks i;
  cg_area : file_addr (ni_virt_addr i) (i_blocks i + Z.of_nat n);
  cg_take : take_blocks n (w_slaves w) ri = Ret (locs, ss, ri');
  cg_range : Forall (fun x => 0 <= x.1 < 2 ^ 12 /\ 0 <= x.2 < 2 ^ 40) locs;
  cg_pages : (2 * n <= length l)%nat;
  cg_kernel a : kok a = true
}.


(** C39: A shared page of entries. The next slot is counted for all files
    together: a new file that grows while slot [c] of the page is next stores
    its entries from [c] on, but its blocks below [c] are looked up in the
    page's first slots, where the entries of the files before it are. *)
Theorem new_file_finds_others w l i t p c ri n locs ss ri' phys0 :
  growing w l i t ∅ p c -> i_blocks i = 0 -> (0 < n)%nat ->
  can_grow w l i ri n locs ss ri' -> c + Z.of_nat n <= 512 ->
  exists w' i', rdfs_alloc_blocks sbi cpu kok w i ri (Z.of_nat n) 1 ALLOC_PTE phys0 = Ret (0, w', i', ri') /\
    i_blocks i' = Z.of_nat n /\
    (forall k x, locs !! k = Some x -> decode (slot (w_mem w') p (c + Z.of_nat k)) = x) /\
    (forall b, 0 <= b < c -> rdfs_search_metadata (mld sbi 8 w') (ni_virt_addr i') (b * 4096)
       = Ret (decode (slot (w_mem w) p b))).
Proof.
  intros HG Hb0 Hn0 [H1 H2 H3 H4 H5 H6 H7] Hn. rewrite (alloc_blocks_loop _ _ _ _ _ _ _ _ _ _ _ HG H1), Nat2Z.id.
  destruct (alloc_loop_ok n w l i t ∅ p c ri _ phys0 1 locs ss ri' HG Hn eq_refl H4 H3 H2 H7 H6)
    as (w' & l' & t' & f' & E & HG' & Es & Hf' & Hs & Hk & _).
  cbn zeta in *. eexists w', _. split; [exact E|]. split; [cbn; lia|]. split.
  - intros k [s b] Hk'. rewrite (Hs k s b Hk'). rewrite Forall_lookup in H5. destruct (H5 k _ Hk'). by apply decode_encode.
  - intros b Hb. cbn [ni_virt_addr set_i_blocks]. pose proof (file_addr_0 _ _ H3) as Ha.
    assert (D : b / 512 = 0) by zdm. assert (M : b mod 512 = b) by zdm.
    rewrite (growing_search w' l' (set_i_blocks (i_blocks i + Z.of_nat n) i) t' f' p _ _ HG'); [|by rewrite D|].
    + by rewrite M, (Hk b Hb).
    + rewrite D, Hf', decide_True by lia. done.
Qed.

(** Large files. Entry [b] is read through table block [b] / 512, and all
    table blocks of a page of entries are that page: in a file whose first
    table blocks share a page, block [b] is looked up in the entry of block
    [b] mod 512, so that blocks 512 apart have the same data. *)
Theorem large_file_aliases w l i t f p c b :
  growing w l i t f p c -> file_addr (ni_virt_addr i) (b / 512) ->
  f !! 0 = Some (page_entry p) -> f !! (b / 512) = Some (page_entry p) ->
  rdfs_search_metadata (mld sbi 8 w) (ni_virt_addr i) (b * 4096)
  = rdfs_search_metadata (mld sbi 8 w) (ni_virt_addr i) (b mod 512 * 4096).
Proof using PageAlloc0.
  clear kok cpu. intros HG Ha Hf0 Hf. rewrite (growing_search w l i t f p c b HG Ha Hf).
  assert (D : b mod 512 / 512 = 0) by zdm. assert (M : (b mod 512) mod 512 = b mod 512) by zdm.
  rewrite (growing_search w l i t f p c (b mod 512) HG); rewrite ?D, ?M; try done. by eapply file_addr_0.
Qed.
End growth.

(** ** On the demonstration filesystem *)

#[local] Existing Instance x86_pg.

Definition small_slave : slave_info := rdfs_init_slave_memory_bitmap_list demo_slave 128.

Definition grow_km : kmm := mk_kmm {[(RDFS_START + DIR_AREA_SIZE) / PUD_SIZE := dir_entry (Some 0x1000c000)]} ∅.

(** File 1 with an empty table, and the page 0x1000e000 with next slot [c]. *)
Definition grow_world (c : Z) : world :=
  mk_world demo_block grow_km one_area ∅ (mk_pte_page c 0x1000e000) [small_slave].
Definition grow_file : inode := set_i_blocks 0 tbl_file.
Definition grow_tree : ptree := mk_ptree 0x1000b000 {[0 := 0x1000c000]} {[(0, 0) := 0x1000d000]}.

Lemma demo_block_pt :
  pt_state demo_sbi (free := node_free demo_sbi demo_node) (page_ok := node_page demo_node)
    (meta := node_meta demo_sbi demo_node) demo_block (0x1000f000 :: drop 5 demo_pages) 1 grow_tree ∅ /\
  used_page (page_ok := node_page demo_node) grow_tree (0x1000f000 :: drop 5 demo_pages) 0x1000e000.
Proof.
  destruct (init_pg_table_ok demo_sbi demo_mem 0 1 0x1000b000 0x1000c000 0x1000d000 (drop 3 demo_pages)
    demo_free (demo_slot _ demo_slot_mem)) as (m & E & HS & _).
  assert (Em : m = demo_table) by exact (eq_sym (f_equal snd E)). subst m.
  destruct (pt_get_page demo_sbi demo_table 0x1000e000 (0x1000f000 :: drop 5 demo_pages) 1 _ ∅ 0 HS)
    as (m' & E' & HS' & Hp & Hpt & Hpl & _).
  assert (Em : m' = demo_block) by exact (eq_sym (f_equal snd E')). subst m'.
  split; [exact HS'|]. split; [exact Hp|]. split; [exact Hpt|exact Hpl].
Qed.

Lemma grow_maps : km_maps (ni_virt_addr grow_file) grow_tree grow_km.
Proof.
  intros k q Hq. cbn [grow_tree pt_pmd] in Hq. apply lookup_singleton_Some in Hq as [<- <-].
  change (ni_virt_addr grow_file) with (RDFS_START + DIR_AREA_SIZE). rewrite Z.add_0_r. apply lookup_singleton_eq.
Qed.

Lemma demo_growing c : 0 <= c ->
  growing demo_sbi (free := node_free demo_sbi demo_node) (page_ok := node_page demo_node)
    (meta := node_meta demo_sbi demo_node) (grow_world c) (0x1000f000 :: drop 5 demo_pages) grow_file grow_tree ∅ 0x1000e000 c.
Proof.
  intros Hc. destruct demo_block_pt as [HS Hp].
  split; cbn [w_mem w_km w_pte grow_world]; [exact HS|exact grow_maps|exact Hp|reflexivity|exact Hc].
Qed.

Lemma demo_can_grow c n locs ss ri' : (n <= 8)%nat -> take_blocks n [small_slave] new_ri = Ret (locs, ss, ri') ->
  Forall (fun x => 0 <= x.1 < 2 ^ 12 /\ 0 <= x.2 < 2 ^ 40) locs ->
  can_grow (fun _ => true) (grow_world c) (0x1000f000 :: drop 5 demo_pages) grow_file new_ri n locs ss ri'.
Proof.
  intros Hn E Hr. split; try done.
  - split; [vm_compute; split; congruence|vm_compute; reflexivity|].
    change (MAX_FILE_SIZE / PAGE_SIZE) with (2 ^ 23). cbn. lia.
  - change (length (0x1000f000 :: drop 5 demo_pages)) with 17%nat. lia.
Qed.


Lemma new_file_finds_others_witness :
  exists w' i' ri', rdfs_alloc_blocks demo_sbi 0 (fun _ => true) (grow_world 5) grow_file new_ri 1 1 ALLOC_PTE 0
      = Ret (0, w', i', ri') /\
    rdfs_search_metadata (mld demo_sbi 8 w') (ni_virt_addr i') (3 * 4096)
    = Ret (decode (slot demo_sbi (w_mem (grow_world 5)) 0x1000e000 3)).
Proof.
  destruct (take_blocks 1 [small_slave] new_ri) as [[[locs ss] ri']|] eqn:E; [|vm_compute in E; discriminate].
  assert (El : locs = [(0, 0)]) by (vm_compute in E; congruence). subst locs.
  destruct (new_file_finds_others demo_sbi 0 (fun _ => true) (grow_world 5) (0x1000f000 :: drop 5 demo_pages) grow_file grow_tree 0x1000e000
    5 new_ri 1 [(0, 0)] ss ri' 0 (demo_growing 5 ltac:(lia))) as (w' & i' & E' & _ & _ & Hs).
  - reflexivity.
  - lia.
  - apply demo_can_grow; [lia|done|]. repeat constructor; cbn; lia.
  - lia.
  - exists w', i', ri'. split; [exact E'|]. apply (Hs 3). lia.
Defined.

Lemma large_file_aliases_witness :
  exists w' i' ri', rdfs_alloc_blocks demo_sbi 0 (fun _ => true) (grow_world 0) grow_file new_ri 2 1 ALLOC_PTE 0
      = Ret (0, w', i', ri') /\
    rdfs_search_metadata (mld demo_sbi 8 w') (ni_virt_addr i') (512 * 4096)
    = rdfs_search_metadata (mld demo_sbi 8 w') (ni_virt_addr i') 0.
Proof.
  destruct (take_blocks 2 [small_slave] new_ri) as [[[locs ss] ri']|] eqn:E; [|vm_compute in E; discriminate].
  assert (El : locs = [(0, 0); (0, 1)]) by (vm_compute in E; congruence). subst locs.
  pose proof (demo_growing 0 ltac:(lia)) as HG.
  assert (HC : can_grow (fun _ => true) (grow_world 0) (0x1000f000 :: drop 5 demo_pages) grow_file new_ri 2 [(0, 0); (0, 1)] ss ri').
  { apply demo_can_grow; [lia|done|]. repeat constructor; cbn; lia. }
  destruct HC as [H1 H2 H3 H4 H5 H6 H7].
  destruct (alloc_loop_ok demo_sbi 0 (fun _ => true) 2 _ _ _ _ _ _ _ new_ri _ 0 1 _ ss ri' HG ltac:(lia) eq_refl H4 H3 H2 H7 H6)
    as (w' & l' & t' & f' & E' & HG' & _ & Hf & _).
  exists w', (set_i_blocks 2 grow_file), ri'. split.
  - rewrite (alloc_blocks_loop demo_sbi 0 (fun _ => true) _ _ _ _ _ _ _ _ 2 1 0 HG H1). exact E'.
  - apply (large_file_aliases demo_sbi w' l' (set_i_blocks 2 grow_file) t' f' 0x1000e000 _ 512 HG').
    + destruct H3 as [F1 F2 _]. split; [exact F1|exact F2|]. vm_compute. split; congruence.
    + rewrite Hf. reflexivity.
    + rewrite Hf. reflexivity.
Defined.

(** Pages allocated one after the other. *)
Fixpoint alloc_each (n : nat) (m : mem) : list Z :=
  match n with
  | O => []
  | S n' => let '(_, p, m) := rdfs_new_block demo_sbi m 0 0 1 None in p :: alloc_each n' m
  end.

(** File 1 grown by two blocks, and its table deleted. *)
Definition grown_removed : outcome mem :=
  '(_, w, _, _) ← rdfs_alloc_blocks demo_sbi 0 (fun _ => true) (grow_world 0) grow_file new_ri 2 1 ALLOC_PTE 0;
  '(m, _) ← rdfs_rm_pg_table demo_sbi 0 (w_mem w) ∅ 1;
  Ret m.

(** The page of entries is in the table once per block, so deleting the table frees
    it once per block: afterwards the three pages of the table are handed out, and
    then that page again and again. *)
Example grown_file_double_free :
  (m ← grown_removed; Ret (alloc_each 6 m)) = Ret [0x1000b000; 0x1000c000; 0x1000d000; 0x1000e000; 0x1000e000; 0x1000e000].
Proof. vm_compute. reflexivity. Qed.

(** File 1 with two blocks, a buffer page and slave 0. *)
Definition rw_world : world :=
  mk_world (rdfs_get_zeroed_page demo_sbi demo_block 0).2 grow_km one_area ∅ (mk_pte_page 0 0x1000e000) [small_slave].
Definition rw_demo : rw_state := mk_rw true (mk_buf 0x5000 0x1000f000).
Definition rw_slaves : list (option rdfs_context) := [Some (mk_ctx 0x7000 0 0 ∅)].

Lemma rw_growing :
  growing demo_sbi (free := node_free demo_sbi demo_node) (page_ok := node_page demo_node)
    (meta := node_meta demo_sbi demo_node) rw_world (drop 5 demo_pages) grow_file grow_tree ∅ 0x1000e000 0 /\
  used_page (page_ok := node_page demo_node) grow_tree (drop 5 demo_pages) 0x1000f000.
Proof.
  destruct demo_block_pt as [HS (Hp & Hpt & Hpl)].
  destruct (pt_get_page demo_sbi demo_block 0x1000f000 (drop 5 demo_pages) 1 grow_tree ∅ 0 HS)
    as (m' & E' & HS' & Hq & Hqt & Hql & _).
  assert (Em : m' = w_mem rw_world) by exact (eq_sym (f_equal snd E')). split.
  - split.
    { rewrite <- Em. exact HS'. }
    { cbn [w_km rw_world]. exact grow_maps. }
    2:{ cbn [w_pte rw_world]. reflexivity. }
    2:{ lia. }
    split; [exact Hp|]. split; [exact Hpt|].
    intros Hx. apply Hpl. by right.
  - split; [exact Hq|]. split; [exact Hqt|exact Hql].
Qed.

Lemma rw_blocks_ok : blocks_ok (fun k => (0, k)) rw_slaves 2.
Proof.
  split.
  - intros k Hk. exists (mk_ctx 0x7000 0 0 ∅). cbn. repeat split; lia.
  - intros k k' _ _ E. congruence.
Qed.

(** File 1 grown by two blocks. *)
Definition rw_file : inode := set_i_blocks 2 (set_i_size 8192 grow_file).

Lemma rw_located : exists w, located demo_sbi (rw_buf rw_demo) (ni_virt_addr rw_file) (fun k => (0, k)) w 2.
Proof.
  destruct (take_blocks 2 [small_slave] new_ri) as [[[locs ss] ri']|] eqn:E; [|vm_compute in E; discriminate].
  assert (El : locs = [(0, 0); (0, 1)]) by (vm_compute in E; congruence). subst locs.
  destruct rw_growing as [HG Hq].
  assert (H3 : file_addr (ni_virt_addr grow_file) (i_blocks grow_file + Z.of_nat 2)).
  { split; vm_compute; repeat split; congruence. }
  destruct (alloc_loop_ok demo_sbi 0 (fun _ => true) 2 _ _ _ _ _ _ _ new_ri _ 0 1 _ ss ri' HG ltac:(lia) eq_refl E H3
    ltac:(cbn; lia) ltac:(done) ltac:(change (length (drop 5 demo_pages)) with 16%nat; lia))
    as (w & l & t & f & _ & HG' & _ & Hf & Hs & _ & Hu).
  exists w. apply (growing_located demo_sbi w l _ t f 0x1000e000 2 (rw_buf rw_demo) (fun k => (0, k)) 2 HG').
  - exact (file_addr_0 _ _ H3).
  - rewrite Hf. reflexivity.
  - lia.
  - apply Hu, Hq.
  - done.
  - intros k Hk. assert (k = 0 \/ k = 1) as [-> | ->] by lia.
    + change 0 with (0 + Z.of_nat 0) at 1. rewrite (Hs 0%nat 0 0 eq_refl). reflexivity.
    + change 1 with (0 + Z.of_nat 1) at 1. rewrite (Hs 1%nat 0 1 eq_refl). reflexivity.
Qed.

(** Three bytes written over the border of the file's two blocks. *)
Lemma file_write_read_witness :
  exists w w1 cs1 i1 w2 cs2,
    rdfs_local_file_write demo_sbi 0 (fun _ => true) 12 (fun _ => true) w rw_slaves rw_demo rw_file new_ri [1; 2; 3] 4094
      = Ret (3, 4097, w1, cs1, i1, new_ri) /\
    rdfs_local_file_read demo_sbi (fun _ => true) w1 cs1 rw_demo i1 3 4094 = Ret (3, [1; 2; 3], 4097, w2, cs2).
Proof.
  destruct rw_located as [w HL].
  destruct (file_write_read demo_sbi 0 (fun _ => true) 12 (fun _ => true) w rw_slaves rw_demo rw_file new_ri [1; 2; 3] 4094
    (fun k => (0, k)) 2 ltac:(done) rw_blocks_ok HL) as (w1 & cs1 & i1 & w2 & cs2 & E1 & _ & _ & E2).
  - repeat constructor; unfold is_byte; lia.
  - unfold PAGE_SIZE. cbn. lia.
  - lia.
  - cbn. lia.
  - cbn. lia.
  - cbn. lia.
  - cbn. lia.
  - vm_compute. congruence.
  - exists w, w1, cs1, i1, w2, cs2. split; [exact E1|exact E2].
Defined.
