(* ===== verification/Service.v ===== *)
(** * The master's services (master_service.c)

    Slaves register with the master, which numbers them and takes over their
    blocks; the requests of clients are queued on a list of tasks and answered
    by a worker.  The worker's requests for blocks end in
    [rdfs_client_search_metadata]. *)

From S2P Require Import Prelude Mem Text Layout FreeList Balloc Pages Demo Nvmalloc Vfs Bdev Pgtable SlaveMem Mapping Rdma Acl Inode FileData Growth Protocol.

(** ** Registration *)

(** The globals slave_id, slave_ctx and slave_infos. *)
Record registry := mk_registry {
  next_slave : Z;
  slave_ctx : list (option conn);
  slave_infos : list slave_info
}.

Definition no_slave : slave_info := mk_slave 0 0 0 [].
Definition registry_init : registry := mk_registry 0 (replicate 10 None) (replicate 10 no_slave).

(** [ctx]: what rdfs_init_context returns; [m]: the message received.  The result:
    the error, the registry, the message sent.  The eleventh slave is stored
    behind the arrays. *)
Definition rdfs_process_register (r : registry) (ctx : option conn) (m : message)
  : outcome (Z * registry * option message) :=
  match ctx with
  | None => Ret (-1, r, None)
  | Some c =>
      let id := next_slave r in
      if id <? MAX_SLAVE_NUMS then
        '(_, c) ← rdfs_recv_message m c;
        let reply := rdfs_send_message c MASTER_CTX_INFO in
        let s := rdfs_init_slave_memory_bitmap_list (mk_slave id 0 0 []) (s32 (rem_block_nums c)) in
        Ret (0, mk_registry (id + 1) (<[Z.to_nat id := Some c]> (slave_ctx r))
                  (<[Z.to_nat id := s]> (slave_infos r)), Some reply)
      else Oops
  end.

(** All slaves have the same address and port. *)
Definition SLAVE_IP : Z := 0x0300a8c0.
Definition CLIENT_REGISTER_SLAVE_PORT : Z := 18518.

Definition rdfs_search_slave_info (r : registry) : list message :=
  slave_messages ((fun s => mk_addr (slave_id s) SLAVE_IP CLIENT_REGISTER_SLAVE_PORT)
                    <$> take (Z.to_nat (next_slave r)) (slave_infos r)).

(** ** The list of tasks *)

(** struct client_request_task; 0 is NULL. *)
Record task := mk_task { t_message : message; t_sock : Z; t_next : Z }.
Record tasks := mk_tasks { task_list : Z; task_mem : gmap Z task }.

Definition set_next (x : Z) (t : task) : task := mk_task (t_message t) (t_sock t) x.

(** The task at [p] is allocated. *)
Definition rdfs_add_task (ts : tasks) (p : Z) : outcome tasks :=
  match task_mem ts !! p with
  | Some t =>
      if task_list ts =? 0 then Ret (mk_tasks p (task_mem ts))
      else Ret (mk_tasks p (<[p := set_next (task_list ts) t]> (task_mem ts)))
  | None => Oops
  end.

Definition rdfs_remove_task (ts : tasks) : outcome (Z * tasks) :=
  if task_list ts =? 0 then Ret (0, ts)
  else
    match task_mem ts !! task_list ts with
    | Some t => Ret (task_list ts, mk_tasks (t_next t) (<[task_list ts := set_next 0 t]> (task_mem ts)))
    | None => Oops
    end.

(** rdfs_process_request: a request received on socket [sock] becomes a task at the
    fresh address [p]. *)
Definition rdfs_process_request (ts : tasks) (p sock : Z) (m : message) : outcome tasks :=
  rdfs_add_task (mk_tasks (task_list ts) (<[p := mk_task m sock 0]> (task_mem ts))) p.

(** kfree(task->message); kfree(task) *)
Definition free_task (ts : tasks) (p : Z) : tasks := mk_tasks (task_list ts) (delete p (task_mem ts)).

(** ** The worker *)

Section worker.
Context `{!KernelPg} (sbi : rdfs_sb_info) (cpu : Z) (pud_alloc_ok : Z -> bool) (s_blocksize_bits : Z).
Context (crc32 : list Z -> Z).
(** filp_open of path, flags and mode: the inode of the opened file *)
Context (filp_open : list Z -> Z -> Z -> option inode).

(** What the worker shares with the rest of the master; [ms_inodes] are the in-core inodes. *)
Record mstate := mk_mstate {
  ms_world : world;
  ms_inodes : gmap Z (inode * ri_info);
  ms_slaves : Z;
  ms_tasks : tasks
}.

(** [rdfs_iget] of an inode in core or to be loaded; an error pointer is used as an
    inode. *)
Definition iget (ms : mstate) (ino : Z) : outcome (inode * ri_info) :=
  let got := match ms_inodes ms !! ino with Some (i, _) => (i, false) | None => (blank, true) end in
  '(r, _) ← rdfs_iget sbi crc32 (w_mem (ms_world ms)) false (Some got) ino;
  match r with
  | inr i => Ret (i, default new_ri (snd <$> ms_inodes ms !! ino))
  | inl _ => Oops
  end.

Definition O_DIRECTORY : Z := 0x10000.
Definition O_RDONLY : Z := 0.

Definition path_to_inode (path : list Z) : option inode :=
  match filp_open path O_DIRECTORY 0 with
  | Some i => Some i
  | None => filp_open path O_RDONLY 292
  end.

(** sscanf "%s" of the path; a path that cannot be opened is dereferenced as NULL. *)
Definition rdfs_client_open (m : message) : outcome message :=
  match path_to_inode (take_word (skip_spaces (m_data m))).1 with
  | None => Oops
  | Some i => Ret (mk_msg (m_type m) (print_list [print_d (s32 (i_ino i)); print_d (s64 (i_size i))]) (nums m))
  end.

(** The answer is sent whatever [rdfs_client_search_metadata] returns; when it
    fails, or prints no segment, the request's text goes back. *)
Definition rdfs_client_read (ms : mstate) (m : message) : outcome (mstate * message) :=
  match (scan_list [CD; CD; CD] (m_data m)).1 with
  | [ino; offset; size] =>
      let ino := s32 ino in
      '(i, ri) ← iget ms ino;
      '(_, reply, w, i, ri) ← rdfs_client_search_metadata sbi cpu pud_alloc_ok s_blocksize_bits (ms_world ms) i ri
                                (s64 offset) (s64 size);
      let ms := mk_mstate w (<[ino := (i, ri)]> (ms_inodes ms)) (ms_slaves ms) (ms_tasks ms) in
      Ret (ms, match reply with Some (text, n) => mk_msg (m_type m) (if n =? 0 then m_data m else text) n | None => m end)
  | _ => Oops
  end.

(** One round of rdfs_process_task: the state and what is sent on which socket.
    A task of another type is dropped without being freed. *)
Definition rdfs_process_task (ms : mstate) : outcome (mstate * list (Z * message)) :=
  '(p, ts) ← rdfs_remove_task (ms_tasks ms);
  if p =? 0 then Ret (ms, [])
  else
    match task_mem ts !! p with
    | None => Oops
    | Some t =>
        let ms := mk_mstate (ms_world ms) (ms_inodes ms) (ms_slaves ms) ts in
        let m := t_message t in
        let free ms := mk_mstate (ms_world ms) (ms_inodes ms) (ms_slaves ms) (free_task (ms_tasks ms) p) in
        if m_type m =? CLIENT_SERACH_SLAVE_INFO then
          let r := mk_registry (ms_slaves ms) [] (w_slaves (ms_world ms)) in
          Ret (free ms, (fun x => (t_sock t, x)) <$> rdfs_search_slave_info r)
        else if (m_type m =? RDFS_CLIENT_READ) || (m_type m =? RDFS_CLIENT_WRITE) then
          '(ms, reply) ← rdfs_client_read ms m; Ret (free ms, [(t_sock t, reply)])
        else if m_type m =? RDFS_CLIENT_OPEN then
          reply ← rdfs_client_open m; Ret (free ms, [(t_sock t, reply)])
        else Ret (ms, [])
    end.
End worker.

(** ** Registration gives each slave its number and blocks *)

Fixpoint register_all (r : registry) (l : list (conn * conn)) : outcome registry :=
  match l with
  | [] => Ret r
  | (s, m) :: l' =>
      '(_, r, _) ← rdfs_process_register r (Some m) (Slave.rdfs_sock_send_info s); register_all r l'
  end.

(** Slave [j] of the list is known to the master. *)
Definition registered (r : registry) (j : nat) (s : conn) : Prop :=
  (exists c, slave_ctx r !! j = Some (Some c) /\ knows c s) /\
  slave_infos r !! j
  = Some (rdfs_init_slave_memory_bitmap_list (mk_slave (Z.of_nat j) 0 0 []) (s32 (block_nums s))).

Record registry_ok (r : registry) (l : list conn) : Prop := {
  reg_next : next_slave r = Z.of_nat (length l);
  reg_ctx : length (slave_ctx r) = 10%nat;
  reg_infos : length (slave_infos r) = 10%nat;
  reg_slaves j s : l !! j = Some s -> registered r j s
}.

Lemma register_one r l s m : registry_ok r l -> conn_ok s -> conn_ok m ->
  if (length l <? 10)%nat
  then exists r' reply, rdfs_process_register r (Some m) (Slave.rdfs_sock_send_info s) = Ret (0, r', Some reply) /\
    registry_ok r' (l ++ [s]) /\ knows (Slave.rdfs_sock_get_info reply s) m
  else rdfs_process_register r (Some m) (Slave.rdfs_sock_send_info s) = Oops.
Proof.
  intros [H1 H2 H3 H4] Hs Hm. unfold rdfs_process_register. rewrite H1. unfold MAX_SLAVE_NUMS.
  destruct (Nat.ltb_spec (length l) 10) as [Hl|Hl]; [|by rewrite (proj2 (Z.ltb_ge _ 10)) by lia].
  rewrite (proj2 (Z.ltb_lt _ 10)) by lia. destruct (handshake_ends s m Hs Hm) as (m' & -> & Hk & Hb & Hback).
  cbn [mbind outcome_bind]. rewrite Nat2Z.id. eexists _, _. split; [reflexivity|]. split; [|done].
  split; cbn [next_slave slave_ctx slave_infos].
  - rewrite length_app. cbn. lia.
  - by rewrite length_insert.
  - by rewrite length_insert.
  - intros j x Hj. destruct (decide (j = length l)) as [->|Hne].
    + rewrite lookup_app_r, Nat.sub_diag in Hj by lia. injection Hj as <-. split.
      * exists m'. split; [|done]. apply list_lookup_insert_eq. cbn. lia.
      * cbn [slave_infos]. rewrite list_lookup_insert_eq by lia. by rewrite Hb.
    + rewrite lookup_app_l in Hj by (apply lookup_lt_Some in Hj; rewrite length_app in Hj; cbn in Hj; lia).
      destruct (H4 j x Hj) as [Hc Hi]. split; cbn [slave_ctx slave_infos]; by rewrite list_lookup_insert_ne.
Qed.

Lemma register_all_ok r l0 l : registry_ok r l0 -> Forall (fun x => conn_ok x.1 /\ conn_ok x.2) l ->
  if (length l0 + length l <=? 10)%nat
  then exists r', register_all r l = Ret r' /\ registry_ok r' (l0 ++ (fst <$> l))
  else register_all r l = Oops.
Proof.
  intros Hr Hl. revert r l0 Hr. induction Hl as [|[s m] l [Hs Hm] Hl IH]; intros r l0 Hr.
  - cbn [length]. destruct (Nat.leb_spec (length l0 + 0) 10) as [H|H].
    + exists r. split; [done|]. by rewrite app_nil_r.
    + exfalso. destruct Hr as [_ _ H3 H4]. destruct (l0 !! 10%nat) as [x|] eqn:E; [|apply lookup_ge_None in E; lia].
      destruct (H4 _ _ E) as [_ Hi]. apply lookup_lt_Some in Hi. lia.
  - cbn [length register_all fst snd] in *. pose proof (register_one r l0 s m Hr Hs Hm) as H1.
    destruct (Nat.ltb_spec (length l0) 10) as [Hlt|Hge].
    + destruct H1 as (r1 & reply & -> & Hr1 & _). cbn [mbind outcome_bind]. specialize (IH r1 (l0 ++ [s]) Hr1).
      rewrite length_app in IH. cbn [length] in IH. replace (length l0 + 1 + length l)%nat with (length l0 + S (length l))%nat in IH by lia.
      rewrite <- app_assoc in IH. exact IH.
    + rewrite (proj2 (Nat.leb_gt _ 10)) by lia. by rewrite H1.
Qed.

Lemma registry_init_ok : registry_ok registry_init [].
Proof. split; done. Qed.

(** C34: Registration. Slaves that register one after the other get the numbers 0,
    1, 2, ...: entry [j] of the master's tables holds what slave [j] sent and all
    its blocks; an eleventh slave is stored behind the tables. *)
Theorem registration_numbers (l : list (conn * conn)) :
  Forall (fun x => conn_ok x.1 /\ conn_ok x.2) l ->
  if (length l <=? 10)%nat
  then exists r, register_all registry_init l = Ret r /\ next_slave r = Z.of_nat (length l) /\
    forall j x, l !! j = Some x -> registered r j x.1
  else register_all registry_init l = Oops.
Proof.
  intros Hl. pose proof (register_all_ok registry_init [] l registry_init_ok Hl) as H. cbn [length Nat.add app] in H.
  destruct (length l <=? 10)%nat; [|done]. destruct H as (r & E & [H1 _ _ H4]). exists r. split; [done|].
  rewrite length_fmap in H1. split; [done|]. intros j x Hj. apply H4. by rewrite list_lookup_fmap, Hj.
Qed.

(** ** The list of tasks is a stack *)

(** The tasks from [p] on. *)
Fixpoint task_chain (tm : gmap Z task) (p : Z) (l : list (Z * message * Z)) : Prop :=
  match l with
  | [] => p = 0
  | (q, m, sock) :: l' => p = q /\ q <> 0 /\ exists next, tm !! q = Some (mk_task m sock next) /\ task_chain tm next l'
  end.

Record tasks_rep (ts : tasks) (l : list (Z * message * Z)) : Prop := {
  tr_chain : task_chain (task_mem ts) (task_list ts) l;
  tr_nodup : NoDup (l.*1.*1)
}.

Lemma task_chain_ext tm tm' p l : (forall q, q ∈ l.*1.*1 -> tm' !! q = tm !! q) ->
  task_chain tm p l -> task_chain tm' p l.
Proof.
  revert p. induction l as [|[[q m] sock] l IH]; intros p He Hc; [done|]. destruct Hc as (-> & Hq & next & E & Hc).
  split; [done|]. split; [done|]. exists next. split; [rewrite He; [done|constructor]|].
  apply IH; [|done]. intros x Hx. apply He. by constructor.
Qed.

Lemma process_request_push ts l p sock m : tasks_rep ts l -> p <> 0 -> p ∉ l.*1.*1 ->
  exists ts', rdfs_process_request ts p sock m = Ret ts' /\ tasks_rep ts' ((p, m, sock) :: l).
Proof.
  intros [Hc Hn] Hp Hnp. unfold rdfs_process_request, rdfs_add_task. cbn [task_mem task_list].
  rewrite lookup_insert_eq.
  assert (Hext : forall t, task_chain (<[p := t]> (task_mem ts)) (task_list ts) l).
  { intros t. apply (task_chain_ext (task_mem ts)); [|done]. intros q Hq. apply lookup_insert_ne. intros <-. done. }
  destruct (Z.eqb_spec (task_list ts) 0) as [E|E].
  - eexists. split; [reflexivity|]. split; [|by constructor]. cbn [task_chain task_mem task_list].
    split; [done|]. split; [done|]. exists 0. split; [apply lookup_insert_eq|]. rewrite <- E. apply Hext.
  - eexists. split; [reflexivity|]. split; [|by constructor]. cbn [task_chain task_mem task_list].
    split; [done|]. split; [done|]. exists (task_list ts). rewrite insert_insert_eq.
    split; [apply lookup_insert_eq|]. apply Hext.
Qed.

Lemma remove_task_pop ts p m sock l : tasks_rep ts ((p, m, sock) :: l) ->
  exists ts', rdfs_remove_task ts = Ret (p, ts') /\ tasks_rep ts' l /\ task_mem ts' !! p = Some (mk_task m sock 0).
Proof.
  intros [Hc Hn]. cbn in Hn. apply NoDup_cons in Hn as [Hnp Hn]. destruct ts as [h tm]. cbn in Hc. destruct Hc as (-> & Hp & next & E & Hc).
  unfold rdfs_remove_task. cbn [task_list task_mem]. rewrite (proj2 (Z.eqb_neq p 0)) by done. rewrite E.
  eexists. split; [reflexivity|]. split; [|apply lookup_insert_eq]. split; [|done]. cbn [task_list task_mem t_next].
  apply (task_chain_ext tm); [|done]. intros q Hq. apply lookup_insert_ne. intros <-. done.
Qed.

(** C35: Tasks. The requests of clients are kept as a stack: the request that came
    last is answered first, the earlier ones stay in order behind it, and an
    empty list yields no task. *)
Theorem tasks_last_first ts l p sock m :
  tasks_rep ts l -> p <> 0 -> p ∉ l.*1.*1 ->
  (exists ts1 ts2, rdfs_process_request ts p sock m = Ret ts1 /\ rdfs_remove_task ts1 = Ret (p, ts2) /\
     task_mem ts2 !! p = Some (mk_task m sock 0) /\ tasks_rep ts2 l) /\
  (l = [] -> rdfs_remove_task ts = Ret (0, ts)).
Proof.
  intros Hr Hp Hnp. split.
  - destruct (process_request_push ts l p sock m Hr Hp Hnp) as (ts1 & E1 & H1).
    destruct (remove_task_pop ts1 p m sock l H1) as (ts2 & E2 & H2 & H3). eauto 10.
  - intros ->. destruct Hr as [Hc _]. cbn in Hc. unfold rdfs_remove_task. by rewrite Hc.
Qed.

(** ** What a client learns about its blocks *)

(** The part of block [k] in a range: slave, block, offset and size. *)
Definition seg (loc : Z -> Z * Z) (start end_ k : Z) : Z * Z * Z * Z :=
  let lo := Z.max start (k * 4096) in
  let hi := Z.min end_ (k * 4096 + 4096) in
  ((loc k).1, (loc k).2, lo - k * 4096, hi - lo).

Definition segs (loc : Z -> Z * Z) (start end_ : Z) : list (Z * Z * Z * Z) :=
  seg loc start end_ <$> seqZ (start / 4096) (if start <? end_ then (end_ - 1) / 4096 - start / 4096 + 1 else 0).

Definition print_segs (l : list (Z * Z * Z * Z)) : list Z :=
  l ≫= fun '(s_id, block_id, off, size) => print_seg s_id block_id off size.

Lemma segs_step loc i end_ : 0 <= i < end_ ->
  segs loc i end_ = seg loc i end_ (i / 4096) :: segs loc (i - i mod 4096 + 4096) end_.
Proof.
  intros Hi. unfold segs. rewrite (proj2 (Z.ltb_lt i end_)) by lia.
  rewrite seqZ_cons by zdm. cbn [fmap list_fmap]. f_equal.
  assert (Ek : (i - i mod 4096 + 4096) / 4096 = Z.succ (i / 4096)) by zdm. rewrite Ek.
  replace (Z.pred ((end_ - 1) / 4096 - i / 4096 + 1))
    with (if i - i mod 4096 + 4096 <? end_ then (end_ - 1) / 4096 - Z.succ (i / 4096) + 1 else 0).
  - apply list_fmap_ext. intros j k Hk. apply lookup_seqZ in Hk as [-> _]. unfold seg. do 2 f_equal; zdm.
  - destruct (Z.ltb_spec (i - i mod 4096 + 4096) end_); zdm.
Qed.

Lemma segs_total loc i end_ fuel n : n = end_ - i -> 0 <= i -> (Z.to_nat n < fuel)%nat -> 0 <= n ->
  foldr Z.add 0 ((fun x => x.2) <$> segs loc i end_) = n.
Proof.
  revert i n. induction fuel as [|fuel IH]; intros i n En Hi Hf Hn; [lia|]. destruct (decide (i < end_)) as [Hlt|Hge].
  - rewrite segs_step by lia. cbn [fmap list_fmap foldr]. unfold seg at 1. cbn [snd].
    pose proof (Z.mod_pos_bound i 4096 ltac:(lia)) as Hm. destruct (decide (i - i mod 4096 + 4096 < end_)) as [Hin|Hout].
    + rewrite (IH _ (end_ - (i - i mod 4096 + 4096))) by lia. zdm.
    + unfold segs. rewrite (proj2 (Z.ltb_ge _ end_)) by lia. change (seqZ _ 0) with (@nil Z). cbn [fmap list_fmap foldr]. zdm.
  - unfold segs. rewrite (proj2 (Z.ltb_ge i end_)) by lia. change (seqZ _ 0) with (@nil Z). cbn [fmap list_fmap foldr]. lia.
Qed.

Section replies.
Context `{!KernelPg} (sbi : rdfs_sb_info).

Lemma client_loop_segs fuel w vaddr loc hi i end_ text n :
  (forall k, 0 <= k < hi -> rdfs_search_metadata (mld sbi 8 w) vaddr (k * 4096) = Ret (loc k)) ->
  0 <= i -> end_ <= hi * 4096 -> end_ + 4096 < 2 ^ 63 -> (Z.to_nat (end_ - i) < fuel)%nat -> (length text < MASTER_MAX)%nat ->
  let text' := text ++ print_segs (segs loc i end_) in
  client_loop sbi fuel w vaddr i end_ text n
  = if (length text' <? MASTER_MAX)%nat then Ret (text', n + Z.of_nat (length (segs loc i end_))) else Oops.
Proof using Type.
  intros Hloc. revert i text n. induction fuel as [|fuel IH]; intros i text n Hi Hh He Hf Ht text'; [lia|]. unfold text'. clear text'.
  cbn [client_loop]. destruct (Z.ltb_spec i end_) as [Hlt|Hge].
  - destruct (block_step i end_ ltac:(lia) ltac:(lia)) as (E1 & E2 & E3).
    rewrite block_start_eq by lia. rewrite Hloc by zdm. cbn [mbind outcome_bind].
    rewrite (surjective_pairing (loc (i / 4096))), block_offset_mod, E1, E2.
    rewrite (segs_step loc i end_) by lia. unfold print_segs. cbn [mbind list_bind length]. rewrite app_assoc.
    unfold seg at 1 2. replace (Z.max i (i / 4096 * 4096) - i / 4096 * 4096) with (i mod 4096) by zdm.
    replace (Z.min end_ (i / 4096 * 4096 + 4096) - Z.max i (i / 4096 * 4096)) with (Z.min (4096 - i mod 4096) (end_ - i)) by zdm.
    set (text1 := text ++ _). destruct (Nat.ltb_spec (length text1) MASTER_MAX) as [Hfit|Hbig].
    + rewrite IH; [|pose proof (Z.mod_pos_bound i 4096 ltac:(lia)); lia..|done].
      fold (print_segs (segs loc (i - i mod 4096 + 4096) end_)). destruct (_ <? _)%nat; [|done]. do 2 f_equal. lia.
    + rewrite (proj2 (Nat.ltb_ge _ _)); [done|]. rewrite length_app. lia.
  - unfold segs. rewrite (proj2 (Z.ltb_ge i end_)) by lia. change (seqZ (i / 4096) 0) with (@nil Z). cbn [fmap list_fmap print_segs mbind list_bind length].
    rewrite app_nil_r, (proj2 (Nat.ltb_lt _ _)) by done. do 2 f_equal. lia.
Qed.

Context (cpu : Z) (pud_alloc_ok : Z -> bool) (s_blocksize_bits : Z).

(** C36: Replies. For a range of blocks the file has, a client is told for each block
    in the range, in order, the slave, the slave's block and the part of the
    block, and the parts tile the range, when the text of all parts fits the 4096
    bytes of a message; a longer text is written behind the message.  The file's
    size becomes the range's end. *)
Theorem client_reply_tiles w i ri loc hi offset length_ :
  (forall k, 0 <= k < hi -> rdfs_search_metadata (mld sbi 8 w) (ni_virt_addr i) (k * 4096) = Ret (loc k)) ->
  0 <= offset -> 0 < length_ -> offset + length_ <= hi * 4096 -> offset + length_ + 4096 < 2 ^ 63 ->
  pages_to_alloc s_blocksize_bits i offset length_ <= 0 ->
  let l := segs loc offset (offset + length_) in
  rdfs_client_search_metadata sbi cpu pud_alloc_ok s_blocksize_bits w i ri offset length_
  = (if (length (print_segs l) <? MASTER_MAX)%nat
     then Ret (0, Some (print_segs l, Z.of_nat (length l)), w, set_i_size (offset + length_) i, ri) else Oops) /\
  foldr Z.add 0 ((fun x => x.2) <$> l) = length_.
Proof using Type.
  intros Hloc H0 Hl Hh Hs Hp. cbn zeta. unfold rdfs_client_search_metadata. rewrite (proj2 (Z.ltb_ge 0 _) Hp).
  cbn [mbind outcome_bind Z.ltb Z.compare]. rewrite u64_small by lia.
  rewrite (client_loop_segs _ w _ loc hi) by (done || lia || (cbn; unfold MASTER_MAX; lia)). cbn [app]. split; [by destruct (_ <? _)%nat|].
  apply (segs_total loc offset (offset + length_) (Z.to_nat length_ + 1)%nat length_); lia.
Qed.
End replies.

(** Replies are not separated. A client that reads the first of two parts takes
    the second one's slave number for the last digits of the first one's size. *)
Theorem reply_runs_together s1 b1 o1 n1 s2 b2 o2 n2 rest :
  0 <= s1 < 2 ^ 12 -> 0 <= b1 < 2 ^ 40 -> 0 <= o1 < 4096 -> 0 <= n1 <= 4096 -> 0 <= s2 < 2 ^ 12 ->
  (scan_list [CD; CD; CD; CD] (print_seg s1 b1 o1 n1 ++ print_seg s2 b2 o2 n2 ++ rest)).1
  = [s1; b1; o1; n1 * 10 ^ Z.of_nat (length (print_d s2)) + s2].
Proof.
  intros H1 H2 H3 H4 H5. unfold print_seg. rewrite !s64_small by lia. cbn [print_list]. rewrite <- !app_assoc. cbn [app].
  do 3 (cbn [scan_list]; rewrite (scan_printed CD _ (print_d _)) by (constructor; lia || done);
        change (colon =? colon) with true; cbv iota; rewrite <- ?app_assoc; cbn [app]).
  pose proof (length_print_d s2 4 ltac:(lia) ltac:(lia)) as Hlen.
  assert (Hp : 10 ^ Z.of_nat (length (print_d s2)) <= 10 ^ 4) by (apply Z.pow_le_mono_r; lia).
  assert (Hp0 : 0 < 10 ^ Z.of_nat (length (print_d s2))) by (apply Z.pow_pos_nonneg; lia).
  cbn [scan_conv]. rewrite scan_d_two; [done|lia|lia|done|nia].
Qed.

(** ** Examples *)

Lemma registration_numbers_witness :
  exists r, register_all registry_init [(demo_slave_conn, demo_master_conn); (demo_slave_conn, demo_master_conn)] = Ret r /\
    next_slave r = 2 /\ registered r 1 demo_slave_conn.
Proof.
  destruct (registration_numbers [(demo_slave_conn, demo_master_conn); (demo_slave_conn, demo_master_conn)])
    as (r & E & En & Hr).
  - repeat constructor; cbn; lia.
  - exists r. split; [exact E|]. split; [exact En|]. exact (Hr 1%nat _ eq_refl).
Defined.

Lemma tasks_last_first_witness :
  exists ts1 ts2, rdfs_process_request (mk_tasks 0 ∅) 16 5 (mk_msg 0 [] 0) = Ret ts1 /\
    rdfs_remove_task ts1 = Ret (16, ts2) /\ tasks_rep ts2 [].
Proof.
  destruct (tasks_last_first (mk_tasks 0 ∅) [] 16 5 (mk_msg 0 [] 0)) as [(ts1 & ts2 & E1 & E2 & _ & Hr) _].
  - split; [done|constructor].
  - lia.
  - apply not_elem_of_nil.
  - exists ts1, ts2. split; [exact E1|]. split; [exact E2|exact Hr].
Defined.

Lemma reply_runs_together_witness :
  (scan_list [CD; CD; CD; CD] (print_seg 0 7 0 4096 ++ print_seg 1 8 0 100 ++ [])).1 = [0; 7; 0; 40961].
Proof. apply (reply_runs_together 0 7 0 4096 1 8 0 100 []); lia. Defined.

#[local] Existing Instance x86_pg.

Lemma client_reply_tiles_witness :
  exists w, rdfs_client_search_metadata demo_sbi 0 (fun _ => true) 12 w rw_file new_ri 4000 200
    = Ret (0, Some (print_seg 0 0 4000 96 ++ print_seg 0 1 0 104, 2), w, set_i_size 4200 rw_file, new_ri).
Proof.
  destruct rw_located as [w HL]. exists w.
  refine (proj1 (client_reply_tiles demo_sbi 0 (fun _ => true) 12 w rw_file new_ri (fun k => (0, k)) 2 4000 200 _ _ _ _ _ _)).
  - intros k Hk. rewrite <- (set_mem_id w) at 1. by apply HL.
  - lia.
  - lia.
  - lia.
  - lia.
  - vm_compute. congruence.
Defined.
