(* ===== verification/Server.v ===== *)
(** * The user-space server (rdfs_server/event.c, rdfs_server/rdfs_server.c)

    A single-threaded server opens and closes files for clients.  It keeps a
    table of ten events, one for the listening socket and one per connection,
    each registered with epoll for reading or for writing.  The file models the
    table, the callbacks and the event loop's steps, and proves that table,
    registrations and open sockets agree. *)

From S2P Require Import Prelude Text Protocol.

Definition MAX_EPOLL_EVENTS : Z := 10.
Definition EPOLLIN : Z := 1.
Definition EPOLLOUT : Z := 4.
Definition MESSAGE_SIZE : Z := 1028.

(** The functions stored in call_back. *)
Inductive callback := rdfs_accept_connection_cb | rdfs_recv_data_cb | rdfs_send_data_cb.

(** struct rdfs_event; [arg] is always the event itself. *)
Record rdfs_event := mk_event {
  ev_fd : Z;
  call_back : callback;
  ev_events : Z;
  ev_status : Z;
  ev_message : message
}.

Definition no_message : message := mk_msg (-1) [] 0.
Definition zero_event : rdfs_event := mk_event 0 rdfs_accept_connection_cb 0 0 (mk_msg 0 [] 0).

(** The table, the epoll instance's descriptor ([None] once it is closed), what it
    watches (by descriptor: the events and the event's place in the table), the
    open sockets and the other open descriptors. *)
Record server := mk_server {
  g_events : list rdfs_event;
  global_epoll_fd : option Z;
  epoll : gmap Z (Z * nat);
  socks : gset Z;
  opened : gset Z
}.

Definition set_event (k : nat) (ev : rdfs_event) (s : server) : server :=
  mk_server (<[k := ev]> (g_events s)) (global_epoll_fd s) (epoll s) (socks s) (opened s).
Definition set_epoll (e : gmap Z (Z * nat)) (s : server) : server := 
  mk_server (g_events s) (global_epoll_fd s) e (socks s) (opened s).

(** close: epoll forgets a closed descriptor; closing the epoll instance itself loses
    all its registrations. *)
Definition close_fd (fd : Z) (s : server) : server :=
  if decide (global_epoll_fd s = Some fd) then mk_server (g_events s) None ∅ (socks s) (opened s)
  else mk_server (g_events s) (global_epoll_fd s) (delete fd (epoll s)) (socks s ∖ {[fd]}) (opened s ∖ {[fd]}).

(** ** Events (event.c) *)

(** [fresh]: arg == NULL *)
Definition rdfs_event_set (ev : rdfs_event) (fd : Z) (cb : callback) (fresh : bool) : rdfs_event :=
  mk_event fd cb 0 0 (if fresh then no_message else ev_message ev).

(** epoll_ctl needs the epoll instance and an open socket; EPOLL_CTL_MOD needs, EPOLL_CTL_ADD refuses a
    descriptor that is watched.  Its result is ignored. *)
Definition epoll_ctl_set (s : server) (mod_ : bool) (fd events : Z) (k : nat) : gmap Z (Z * nat) :=
  let e := epoll s in
  if decide (is_Some (global_epoll_fd s) /\ fd ∈ socks s) then
    match e !! fd with
    | Some _ => if mod_ then <[fd := (events, k)]> e else e
    | None => if mod_ then e else <[fd := (events, k)]> e
    end
  else e.

Definition rdfs_event_add (s : server) (events : Z) (k : nat) (ev : rdfs_event) : server :=
  let mod_ := ev_status ev =? 1 in
  set_epoll (epoll_ctl_set s mod_ (ev_fd ev) events k)
    (set_event k (mk_event (ev_fd ev) (call_back ev) events 1 (ev_message ev)) s).

Definition rdfs_event_del (s : server) (k : nat) (ev : rdfs_event) : server * rdfs_event :=
  if negb (ev_status ev =? 1) then (s, ev)
  else
    let ev' := mk_event (ev_fd ev) (call_back ev) (ev_events ev) 0 (ev_message ev) in
    (set_epoll (delete (ev_fd ev) (epoll s)) (set_event k ev' s), ev').

(** ** Callbacks (rdfs_server.c) *)

(** The first event with status 0; the table's length when there is none. *)
Fixpoint first_free (l : list rdfs_event) : nat :=
  match l with [] => 0 | ev :: l' => if ev_status ev =? 0 then 0 else S (first_free l') end.

(** [nfd]: what accept returns.  With a full table the event behind its end is
    written. *)
Definition rdfs_accept_connection (s : server) (nfd : Z) : outcome server :=
  if nfd =? -1 then Ret s
  else
    let s := mk_server (g_events s) (global_epoll_fd s) (epoll s) (socks s ∪ {[nfd]}) (opened s) in
    let i := first_free (g_events s) in
    match g_events s !! i with
    | None => Oops
    | Some ev =>
        let ev := rdfs_event_set ev nfd rdfs_recv_data_cb true in
        Ret (rdfs_event_add s EPOLLIN i ev)
    end.

(** "%d:%d:%s"; [res]: what open returns.  Without three fields the path is not
    initialised. *)
Definition rdfs_client_open (s : server) (ev : rdfs_event) (res : Z) : outcome (server * rdfs_event) :=
  match scan_list [CD; CD] (m_data (ev_message ev)) with
  | ([flag; mode], x :: rest) =>
      match (take_word (skip_spaces rest)).1 with
      | [] => Oops
      | _ =>
          if x =? colon then
            let s := if res <? 0 then s else mk_server (g_events s) (global_epoll_fd s) (epoll s) (socks s) (opened s ∪ {[res]}) in
            let m := mk_msg (m_type (ev_message ev)) (print_d res) 0 in
            Ret (s, mk_event (ev_fd ev) (call_back ev) (ev_events ev) (ev_status ev) m)
          else Oops
      end
  | _ => Oops
  end.

(** The descriptor is the one the client names, 0 when it names none. *)
Definition close_target (m : message) : Z :=
  match (scan_list [CD] (m_data m)).1 with [fd] => s32 fd | _ => 0 end.

Definition rdfs_client_close (s : server) (ev : rdfs_event) : server * rdfs_event :=
  let open_fd := close_target (ev_message ev) in
  let ret := if decide (open_fd ∈ socks s ∪ opened s \/ global_epoll_fd s = Some open_fd) then 0 else -1 in
  let m := mk_msg (m_type (ev_message ev)) (print_d ret) 0 in
  (close_fd open_fd s, mk_event (ev_fd ev) (call_back ev) (ev_events ev) (ev_status ev) m).

Definition rdfs_process_request (s : server) (ev : rdfs_event) (res : Z) : outcome (server * rdfs_event) :=
  let m_type := m_type (ev_message ev) in
  if m_type =? RDFS_CLIENT_OPEN then rdfs_client_open s ev res
  else if m_type =? RDFS_CLIENT_CLOSE then Ret (rdfs_client_close s ev)
  else Ret (s, ev).

(** The text ends in its array. *)
Definition terminated (m : message) : bool := (length (m_data m) <? 1024)%nat.

(** recv's result [len] and the message it wrote; [res] as above.  A whole message is
    printed before it is looked at, and a text without its NUL is read past the
    array. *)
Definition rdfs_recv_data (s : server) (k : nat) (ev : rdfs_event) (len : Z) (m : message) (res : Z) : outcome server :=
  let fd := ev_fd ev in
  let ev := mk_event fd (call_back ev) (ev_events ev) (ev_status ev) (if 0 <? len then m else ev_message ev) in
  let '(s, ev) := rdfs_event_del s k ev in
  if len =? MESSAGE_SIZE then
    if negb (terminated (ev_message ev)) then Oops else
    '(s, ev) ← rdfs_process_request s ev res;
    let ev := rdfs_event_set ev fd rdfs_send_data_cb false in
    Ret (rdfs_event_add s EPOLLOUT k ev)
  else if 0 <? len then
    let ev := rdfs_event_set ev fd rdfs_recv_data_cb true in
    Ret (rdfs_event_add s EPOLLIN k ev)
  else Ret (close_fd fd s).

(** send's result [len]; the result: the state and the message sent. *)
Definition rdfs_send_data (s : server) (k : nat) (ev : rdfs_event) (len : Z) : server * message :=
  let fd := ev_fd ev in
  let sent := mk_msg 0 (m_data (ev_message ev)) 0 in
  let ev := mk_event fd (call_back ev) (ev_events ev) (ev_status ev) no_message in
  if 0 <? len then
    let '(s, ev) := rdfs_event_del s k ev in
    let ev := rdfs_event_set ev fd rdfs_recv_data_cb true in
    (rdfs_event_add s EPOLLIN k ev, sent)
  else
    let s := close_fd fd s in
    ((rdfs_event_del s k ev).1, sent).

(** The listening socket takes the last place; besides it and the epoll instance
    [e_fd] the standard streams are open. *)
Definition rdfs_init_listen_socket (e_fd listenFd : Z) : server :=
  let s := mk_server (replicate 10 zero_event) (Some e_fd) ∅ {[listenFd]} {[0; 1; 2]} in
  let k := Z.to_nat (MAX_EPOLL_EVENTS - 1) in
  rdfs_event_add s EPOLLIN k (rdfs_event_set zero_event listenFd rdfs_accept_connection_cb true).

(** ** The event loop *)

(** A descriptor accept or open returns. *)
Definition fresh_fd (s : server) (fd : Z) : Prop :=
  0 <= fd /\ fd ∉ socks s /\ fd ∉ opened s /\ global_epoll_fd s <> Some fd.

(** A watched descriptor is ready; its event's call_back runs when the event waits
    for that direction.  [G] restricts the
    requests of full length; [Oops]: the callback leaves
    its arrays. *)
Inductive server_step (G : server -> message -> Prop) : server -> outcome server -> Prop :=
| step_accept s fd k ev nfd :
    epoll s !! fd = Some (EPOLLIN, k) -> g_events s !! k = Some ev -> Z.land (ev_events ev) EPOLLIN <> 0 ->
    call_back ev = rdfs_accept_connection_cb -> nfd = -1 \/ fresh_fd s nfd ->
    server_step G s (rdfs_accept_connection s nfd)
| step_recv s fd k ev len m res :
    epoll s !! fd = Some (EPOLLIN, k) -> g_events s !! k = Some ev -> Z.land (ev_events ev) EPOLLIN <> 0 ->
    call_back ev = rdfs_recv_data_cb -> res = -1 \/ fresh_fd s res -> (len = MESSAGE_SIZE -> G s m) ->
    server_step G s (rdfs_recv_data s k ev len m res)
| step_send s fd k ev len :
    epoll s !! fd = Some (EPOLLOUT, k) -> g_events s !! k = Some ev -> Z.land (ev_events ev) EPOLLOUT <> 0 ->
    call_back ev = rdfs_send_data_cb ->
    server_step G s (Ret (rdfs_send_data s k ev len).1).


(** A client that closes a descriptor names neither one of the server's sockets nor
    the epoll instance. *)
Definition closes_files (s : server) (m : message) : Prop :=
  m_type m = RDFS_CLIENT_CLOSE -> close_target m ∉ socks s /\ global_epoll_fd s <> Some (close_target m).

(** The three fields of an open request are there. *)
Definition open_fields (m : message) : bool :=
  match scan_list [CD; CD] (m_data m) with
  | ([_; _], x :: rest) => (x =? colon) && negb (bool_decide ((take_word (skip_spaces rest)).1 = []))
  | _ => false
  end.

(** ** Table, registrations and sockets agree *)

Definition direction (cb : callback) : Z :=
  match cb with rdfs_send_data_cb => EPOLLOUT | _ => EPOLLIN end.

Record server_ok (s : server) : Prop := {
  so_epoll : exists e, global_epoll_fd s = Some e /\ e ∉ socks s;
  so_len : length (g_events s) = 10%nat;
  so_watch fd e k : epoll s !! fd = Some (e, k) <->
    exists ev, g_events s !! k = Some ev /\ ev_status ev = 1 /\ ev_fd ev = fd /\ ev_events ev = e;
  so_dir k ev : g_events s !! k = Some ev -> ev_status ev = 1 -> ev_events ev = direction (call_back ev);
  so_socks fd : fd ∈ socks s <-> is_Some (epoll s !! fd);
  so_listen : exists ev, g_events s !! 9%nat = Some ev /\ ev_status ev = 1 /\ call_back ev = rdfs_accept_connection_cb
}.

(** Changes of the open files alone. *)
Lemma server_ok_opened s o : server_ok s -> server_ok (mk_server (g_events s) (global_epoll_fd s) (epoll s) (socks s) o).
Proof. intros [H0 H1 H2 H3 H4 H5]. by split. Qed.

(** Event [k] becomes [ev'], and epoll's entries follow. *)
Lemma server_ok_change s k ev ev' e' ss' o' : server_ok s -> g_events s !! k = Some ev ->
  ev_status ev <> 1 \/ call_back ev <> rdfs_accept_connection_cb ->
  (ev_status ev' = 1 -> ev_events ev' = direction (call_back ev')) ->
  (forall fd e j, e' !! fd = Some (e, j) <->
     (j <> k /\ epoll s !! fd = Some (e, j)) \/ (j = k /\ ev_status ev' = 1 /\ ev_fd ev' = fd /\ ev_events ev' = e)) ->
  (forall fd, fd ∈ ss' <-> is_Some (e' !! fd)) ->
  (forall fd, fd ∈ ss' -> fd ∉ socks s -> global_epoll_fd s <> Some fd) ->
  server_ok (mk_server (<[k := ev']> (g_events s)) (global_epoll_fd s) e' ss' o').
Proof.
  intros [H0 H1 H2 H3 H4 H5] Hk Hcb Hdir He' Hss Hep. pose proof (lookup_lt_Some _ _ _ Hk) as Hlen.
  split; cbn [g_events epoll socks opened global_epoll_fd].
  - destruct H0 as (e0 & E & He). exists e0. split; [done|]. intros Hx. by apply (Hep e0).
  - by rewrite length_insert.
  - intros fd e j. rewrite He'. destruct (decide (j = k)) as [->|Hjk].
    + rewrite list_lookup_insert_eq by done. naive_solver.
    + rewrite list_lookup_insert_ne by done. rewrite H2. naive_solver.
  - intros j x Hx Hx1. destruct (decide (j = k)) as [->|Hjk].
    + rewrite list_lookup_insert_eq in Hx by done. injection Hx as <-. by apply Hdir.
    + rewrite list_lookup_insert_ne in Hx by done. by apply (H3 j).
  - done.
  - destruct H5 as (x & Hx & Hx1 & Hx2). exists x. rewrite list_lookup_insert_ne; [done|]. intros E. rewrite E, Hx in Hk.
    naive_solver.
Qed.

(** The entry of a watched event. *)
Lemma watched_entry s k ev : server_ok s -> g_events s !! k = Some ev -> ev_status ev = 1 ->
  epoll s !! ev_fd ev = Some (ev_events ev, k) /\
  forall fd e, epoll s !! fd = Some (e, k) -> fd = ev_fd ev /\ e = ev_events ev.
Proof.
  intros [_ _ H2 _ _ _] Hk Hs. split; [apply H2; eauto|]. intros fd e (x & Hx & _ & Hf & Hev)%H2. naive_solver.
Qed.

(** An event that is rewritten for the same or another direction. *)
Lemma server_ok_turn s k ev ev' o' : server_ok s -> g_events s !! k = Some ev -> ev_status ev = 1 ->
  call_back ev <> rdfs_accept_connection_cb -> ev_fd ev' = ev_fd ev -> ev_status ev' = 1 ->
  ev_events ev' = direction (call_back ev') ->
  server_ok (mk_server (<[k := ev']> (g_events s)) (global_epoll_fd s) (<[ev_fd ev := (ev_events ev', k)]> (delete (ev_fd ev) (epoll s))) (socks s) o').
Proof.
  intros Hok Hk Hs Hcb Hfd Hs' He. destruct (watched_entry s k ev Hok Hk Hs) as [Hw Hu].
  rewrite insert_delete_eq. apply (server_ok_change s k ev); try done; [by right|..].
  - intros fd e j. rewrite lookup_insert_Some. naive_solver.
  - intros fd. rewrite (so_socks s Hok), lookup_insert_is_Some'. naive_solver.
Qed.

(** A connection that is closed. *)
Lemma server_ok_drop s k ev ev' o' : server_ok s -> g_events s !! k = Some ev -> ev_status ev = 1 ->
  call_back ev <> rdfs_accept_connection_cb -> ev_status ev' = 0 ->
  server_ok (mk_server (<[k := ev']> (g_events s)) (global_epoll_fd s) (delete (ev_fd ev) (epoll s)) (socks s ∖ {[ev_fd ev]}) o').
Proof.
  intros Hok Hk Hs Hcb Hs'. destruct (watched_entry s k ev Hok Hk Hs) as [Hw Hu].
  apply (server_ok_change s k ev); try done; [by right|congruence|..].
  - intros fd e j. rewrite lookup_delete_Some, Hs'. naive_solver.
  - intros fd. rewrite elem_of_difference, elem_of_singleton, (so_socks s Hok), lookup_delete_is_Some. naive_solver.
  - set_solver.
Qed.

(** A new connection in a free place. *)
Lemma server_ok_new s k ev ev' o' : server_ok s -> g_events s !! k = Some ev -> ev_status ev = 0 ->
  ev_fd ev' ∉ socks s -> global_epoll_fd s <> Some (ev_fd ev') -> ev_status ev' = 1 -> ev_events ev' = direction (call_back ev') ->
  server_ok (mk_server (<[k := ev']> (g_events s)) (global_epoll_fd s) (<[ev_fd ev' := (ev_events ev', k)]> (epoll s))
    (socks s ∪ {[ev_fd ev']}) o').
Proof.
  intros Hok Hk Hs Hfd Hge Hs' He. pose proof Hfd as Hfd0.
  assert (Hno : forall fd e, epoll s !! fd = Some (e, k) -> False).
  { intros fd e (x & Hx & Hx1 & _)%(so_watch s Hok). congruence. }
  rewrite (so_socks s Hok) in Hfd. apply (server_ok_change s k ev); try done; [left; by rewrite Hs|..].
  - intros fd e j. rewrite lookup_insert_Some. split; [naive_solver|].
    intros [[Hj E]|(-> & _ & <- & <-)]; [|by left]. right. split; [|done]. intros <-. apply Hfd. by rewrite E.
  - intros fd. rewrite elem_of_union, elem_of_singleton, (so_socks s Hok), lookup_insert_is_Some'. naive_solver.
  - intros fd Hx Hn. assert (fd = ev_fd ev') as -> by set_solver. done.
Qed.

(** ** Every step keeps them in agreement *)

Lemma first_free_status l ev : l !! first_free l = Some ev -> ev_status ev = 0.
Proof.
  induction l as [|x l IH]; [done|]. cbn [first_free]. destruct (Z.eqb_spec (ev_status x) 0) as [E|E]; [|exact IH].
  cbn. by intros [= <-].
Qed.


(** Adding an event for a socket that is not watched. *)
Lemma event_add_new s events k ev : is_Some (global_epoll_fd s) -> ev_fd ev ∈ socks s -> epoll s !! ev_fd ev = None -> ev_status ev = 0 ->
  rdfs_event_add s events k ev
  = mk_server (<[k := mk_event (ev_fd ev) (call_back ev) events 1 (ev_message ev)]> (g_events s)) (global_epoll_fd s)
      (<[ev_fd ev := (events, k)]> (epoll s)) (socks s) (opened s).
Proof.
  intros Hg Hs He H0. unfold rdfs_event_add, epoll_ctl_set. rewrite H0. cbn [Z.eqb]. by rewrite decide_True, He by done.
Qed.

(** Requests change the open files alone. *)
Lemma process_request_files s ev res s' ev' :
  (forall fd, is_Some (epoll s !! fd) -> fd ∈ socks s) -> closes_files s (ev_message ev) ->
  rdfs_process_request s ev res = Ret (s', ev') ->
  exists o, s' = mk_server (g_events s) (global_epoll_fd s) (epoll s) (socks s) o.
Proof.
  intros Hd Hc. unfold rdfs_process_request. destruct (_ =? RDFS_CLIENT_OPEN).
  { unfold rdfs_client_open. destruct (scan_list _ _) as [[|? [|? [|? ?]]] [|x rest]]; try done.
    destruct (take_word _).1; [done|]. destruct (x =? colon); [|done]. intros [= <- _].
    destruct (res <? 0); [exists (opened s); by destruct s|by eexists]. }
  destruct (Z.eqb_spec (m_type (ev_message ev)) RDFS_CLIENT_CLOSE) as [E|E].
  - intros [= <- _]. destruct (Hc E) as [Hc1 Hc2]. unfold close_fd. rewrite decide_False by done. eexists. f_equal.
    + apply delete_id. apply eq_None_not_Some. intros Hx. by apply Hc1, Hd.
    + set_solver.
  - intros [= <- <-]. exists (opened s). by destruct s.
Qed.

Lemma epoll_is_open s : server_ok s -> is_Some (global_epoll_fd s).
Proof. intros Hok. destruct (so_epoll s Hok) as (e & E & _). by exists e. Qed.

(** A socket is not the epoll instance. *)
Lemma sock_not_epoll s fd : server_ok s -> fd ∈ socks s -> global_epoll_fd s <> Some fd.
Proof. intros Hok Hfd E. destruct (so_epoll s Hok) as (e & E1 & He). congruence. Qed.

Lemma accept_ok s nfd s' : server_ok s -> nfd = -1 \/ fresh_fd s nfd -> rdfs_accept_connection s nfd = Ret s' -> server_ok s'.
Proof.
  intros Hok [->|(H0 & Hn & _ & Hne)]; [by intros [= <-]|]. unfold rdfs_accept_connection. rewrite (proj2 (Z.eqb_neq nfd (-1))) by lia. cbn [g_events].
  destruct (g_events s !! first_free (g_events s)) as [ev|] eqn:E; [|done]. intros [= <-].
  rewrite event_add_new; cbn [rdfs_event_set ev_fd ev_status socks epoll g_events opened call_back global_epoll_fd].
  - apply (server_ok_new s _ ev (mk_event nfd rdfs_recv_data_cb EPOLLIN 1 no_message)); try done. by eapply first_free_status.
  - by apply epoll_is_open.
  - set_solver.
  - apply eq_None_not_Some. intros Hx. by apply Hn, (so_socks s Hok).
  - done.
Qed.

Lemma recv_ok s k ev len m res s' : server_ok s -> g_events s !! k = Some ev -> ev_status ev = 1 ->
  call_back ev = rdfs_recv_data_cb -> (len = MESSAGE_SIZE -> closes_files s m) -> rdfs_recv_data s k ev len m res = Ret s' -> server_ok s'.
Proof.
  intros Hok Hk Hs Hcb Hc. destruct (watched_entry s k ev Hok Hk Hs) as [Hw _].
  assert (Hfd : ev_fd ev ∈ socks s) by (apply (so_socks s Hok); by eexists).
  assert (Hna : call_back ev <> rdfs_accept_connection_cb) by (by rewrite Hcb).
  pose proof (epoll_is_open s Hok) as Hep. pose proof (sock_not_epoll s _ Hok Hfd) as Hne.
  unfold rdfs_recv_data, rdfs_event_del. cbn [ev_status ev_fd call_back ev_events ev_message]. rewrite Hs. change (negb (1 =? 1)) with false. cbv iota.
  set (ev1 := mk_event (ev_fd ev) (call_back ev) (ev_events ev) 0 _).
  set (s1 := set_epoll (delete (ev_fd ev) (epoll s)) (set_event k ev1 s)).
  destruct (Z.eqb_spec len MESSAGE_SIZE) as [->|Hlen].
  - destruct (negb (terminated _)); [done|]. destruct (rdfs_process_request s1 ev1 res) as [[s2 ev2]|] eqn:E; cbn [mbind outcome_bind]; [|intros; discriminate]. intros [= <-].
    destruct (process_request_files s1 ev1 res s2 ev2) as [o ->]; [|by apply Hc|done|].
    { intros fd Hx. apply (so_socks s Hok). cbn in Hx. apply lookup_delete_is_Some in Hx as [_ Hx]. exact Hx. }
    rewrite event_add_new by (done || apply lookup_delete_eq). cbn. rewrite list_insert_insert_eq.
    by apply (server_ok_turn s k ev (mk_event (ev_fd ev) rdfs_send_data_cb EPOLLOUT 1 _)).
  - destruct (0 <? len); intros [= <-].
    + rewrite event_add_new by (done || apply lookup_delete_eq). cbn. rewrite list_insert_insert_eq.
      by apply (server_ok_turn s k ev (mk_event (ev_fd ev) rdfs_recv_data_cb EPOLLIN 1 _)).
    + unfold close_fd. rewrite decide_False by done. cbn. rewrite delete_delete_eq. by apply (server_ok_drop s k ev ev1).
Qed.

Lemma send_ok s k ev len : server_ok s -> g_events s !! k = Some ev -> ev_status ev = 1 ->
  call_back ev = rdfs_send_data_cb -> server_ok (rdfs_send_data s k ev len).1.
Proof.
  intros Hok Hk Hs Hcb. destruct (watched_entry s k ev Hok Hk Hs) as [Hw _].
  assert (Hfd : ev_fd ev ∈ socks s) by (apply (so_socks s Hok); by eexists).
  assert (Hna : call_back ev <> rdfs_accept_connection_cb) by (by rewrite Hcb).
  pose proof (epoll_is_open s Hok) as Hep. pose proof (sock_not_epoll s _ Hok Hfd) as Hne.
  unfold rdfs_send_data, rdfs_event_del. cbn [ev_status ev_fd call_back ev_events ev_message]. rewrite Hs. change (negb (1 =? 1)) with false. cbv iota.
  destruct (0 <? len); cbn [fst].
  - rewrite event_add_new by (done || apply lookup_delete_eq). cbn. rewrite list_insert_insert_eq.
    by apply (server_ok_turn s k ev (mk_event (ev_fd ev) rdfs_recv_data_cb EPOLLIN 1 _)).
  - unfold close_fd. rewrite decide_False by done. cbn. rewrite delete_delete_eq. by apply (server_ok_drop s k ev).
Qed.

Lemma init_ok e fd : e <> fd -> server_ok (rdfs_init_listen_socket e fd).
Proof.
  intros Hne. unfold rdfs_init_listen_socket. rewrite event_add_new; cbn; [|done|set_solver|done|done].
  split; cbn; [exists e; set_solver|done|..].
  - intros fd' e' k. rewrite lookup_insert_Some, lookup_empty. split.
    + intros [[<- [= <- <-]]|[_ ?]]; [|done]. by eexists.
    + intros (ev & Hk & Hs & <- & <-). do 9 (destruct k as [|k]; [injection Hk as <-; done|]).
      destruct k as [|k]; [|done]. injection Hk as <-. by left.
  - intros k ev Hk Hs. do 9 (destruct k as [|k]; [injection Hk as <-; done|]). destruct k as [|k]; [|done]. by injection Hk as <-.
  - intros fd'. rewrite elem_of_singleton, lookup_insert_is_Some'. split; [by left|]. intros [->|[? ?]]; [done|].
    by rewrite lookup_empty in *.
  - by eexists.
Qed.



(** ** The callbacks that leave their arrays *)




Lemma client_open_oops s ev res : rdfs_client_open s ev res = Oops <-> open_fields (ev_message ev) = false.
Proof.
  unfold rdfs_client_open, open_fields. destruct (scan_list _ _) as [[|? [|? [|? ?]]] [|x rest]]; try done.
  destruct (take_word _).1 as [|c w]; cbn; destruct (x =? colon); done.
Qed.

Definition bad_request (m : message) : Prop :=
  terminated m = false \/ (m_type m = RDFS_CLIENT_OPEN /\ open_fields m = false).

Lemma process_request_oops s ev res :
  rdfs_process_request s ev res = Oops <-> m_type (ev_message ev) = RDFS_CLIENT_OPEN /\ open_fields (ev_message ev) = false.
Proof.
  unfold rdfs_process_request. destruct (Z.eqb_spec (m_type (ev_message ev)) RDFS_CLIENT_OPEN) as [E|E].
  - rewrite client_open_oops. naive_solver.
  - destruct (_ =? RDFS_CLIENT_CLOSE); naive_solver.
Qed.

Lemma recv_oops s k ev len m res : ev_status ev = 1 ->
  rdfs_recv_data s k ev len m res = Oops <-> len = MESSAGE_SIZE /\ bad_request m.
Proof.
  intros Hs. unfold rdfs_recv_data, rdfs_event_del. cbn [ev_status ev_message ev_fd call_back ev_events]. rewrite Hs. change (negb (1 =? 1)) with false. cbv iota.
  destruct (Z.eqb_spec len MESSAGE_SIZE) as [->|Hl]; [|destruct (0 <? len); naive_solver].
  change (0 <? MESSAGE_SIZE) with true. cbv iota. cbn [ev_message]. unfold bad_request. destruct (terminated m); cbn [negb]; [|naive_solver].
  match goal with |- context [rdfs_process_request ?s1 ?e1 res] => pose proof (process_request_oops s1 e1 res) as Hp;
    destruct (rdfs_process_request s1 e1 res) as [[s2 ev2]|] end; cbn in *; naive_solver.
Qed.




(** ** Clients close any descriptor *)

Lemma close_target_print fd : 0 <= fd < 2 ^ 31 -> close_target (mk_msg RDFS_CLIENT_CLOSE (print_d fd) 0) = fd.
Proof.
  intros Hr. unfold close_target. cbn [m_data]. change (print_d fd) with (print_list [print_d fd]).
  rewrite (scan_exact [CD] [fd] [print_d fd]); [apply s32_small; lia|done|repeat constructor; lia].
Qed.

(** What the callback does with a close request. *)
Lemma recv_close s k ev fd res : ev_status ev = 1 -> 0 <= fd < 2 ^ 31 ->
  let m := mk_msg RDFS_CLIENT_CLOSE (print_d fd) 0 in
  let s1 := set_epoll (delete (ev_fd ev) (epoll s)) (set_event k (mk_event (ev_fd ev) (call_back ev) (ev_events ev) 0 m) s) in
  let ret := if decide (fd ∈ socks s ∪ opened s \/ global_epoll_fd s = Some fd) then 0 else -1 in
  rdfs_recv_data s k ev MESSAGE_SIZE m res
  = Ret (rdfs_event_add (close_fd fd s1) EPOLLOUT k (mk_event (ev_fd ev) rdfs_send_data_cb 0 0 (mk_msg RDFS_CLIENT_CLOSE (print_d ret) 0))).
Proof.
  intros Hs Hr m s1 ret. unfold rdfs_recv_data, rdfs_event_del. cbn [ev_status ev_fd call_back ev_events ev_message]. rewrite Hs.
  change (negb (1 =? 1)) with false. cbv iota. change (MESSAGE_SIZE =? MESSAGE_SIZE) with true. change (0 <? MESSAGE_SIZE) with true. cbv iota.
  assert (Ht : terminated m = true).
  { apply Nat.ltb_lt. cbn [m m_data]. pose proof (length_print_d fd 10 ltac:(lia) ltac:(lia)). lia. }
  cbn [ev_message]. rewrite Ht. cbn [negb]. unfold rdfs_process_request. cbn [ev_message m m_type]. change (RDFS_CLIENT_CLOSE =? RDFS_CLIENT_OPEN) with false.
  change (RDFS_CLIENT_CLOSE =? RDFS_CLIENT_CLOSE) with true. cbv iota. cbn [mbind outcome_bind].
  unfold rdfs_client_close. cbn [ev_message]. rewrite (close_target_print fd Hr : close_target m = fd). done.
Qed.

(** ** One turn of a connection *)

(** Event [k] of [s] is the connection [fd], waiting for a request. *)
Definition receiving (s : server) (k : nat) (fd : Z) : Prop :=
  exists ev, g_events s !! k = Some ev /\ ev_status ev = 1 /\ call_back ev = rdfs_recv_data_cb /\ ev_fd ev = fd.

(** Event [k] of [s] is the connection [fd], waiting to send [m]. *)
Definition answering (s : server) (k : nat) (fd : Z) (m : message) : Prop :=
  exists ev, g_events s !! k = Some ev /\ ev_status ev = 1 /\ call_back ev = rdfs_send_data_cb /\ ev_fd ev = fd /\
    ev_message ev = m.

Lemma events_add s events k ev : g_events (rdfs_event_add s events k ev) = <[k := mk_event (ev_fd ev) (call_back ev) events 1 (ev_message ev)]> (g_events s).
Proof. done. Qed.

Lemma open_turn s k ev m res : server_ok s -> g_events s !! k = Some ev -> ev_status ev = 1 ->
  call_back ev = rdfs_recv_data_cb -> terminated m = true -> m_type m = RDFS_CLIENT_OPEN -> open_fields m = true -> 0 <= res ->
  exists s', rdfs_recv_data s k ev MESSAGE_SIZE m res = Ret s' /\ server_ok s' /\
    answering s' k (ev_fd ev) (mk_msg RDFS_CLIENT_OPEN (print_d res) 0) /\ opened s' = opened s ∪ {[res]} /\
    socks s' = socks s /\ global_epoll_fd s' = global_epoll_fd s.
Proof.
  intros Hok Hk Hs Hcb Ht Hm Ho Hr. pose proof (lookup_lt_Some _ _ _ Hk) as Hlen. destruct (rdfs_recv_data s k ev MESSAGE_SIZE m res) as [s'|] eqn:E.
  2:{ apply recv_oops in E; [|done]. destruct E as [_ [E|[_ E]]]; congruence. }
  exists s'. split; [done|]. split; [apply (recv_ok s k ev MESSAGE_SIZE m res); try done; intros _ Hx; by rewrite Hm in Hx|]. revert E.
  unfold rdfs_recv_data, rdfs_event_del. cbn [ev_status ev_fd call_back ev_events ev_message]. rewrite Hs. change (negb (1 =? 1)) with false. cbv iota.
  change (MESSAGE_SIZE =? MESSAGE_SIZE) with true. change (0 <? MESSAGE_SIZE) with true. cbv iota. cbn [ev_message]. rewrite Ht. cbn [negb].
  unfold rdfs_process_request. cbn [ev_message]. rewrite Hm. change (RDFS_CLIENT_OPEN =? RDFS_CLIENT_OPEN) with true. cbv iota.
  revert Ho. unfold rdfs_client_open, open_fields. cbn [ev_message]. destruct (scan_list _ _) as [[|? [|? [|? ?]]] [|x rest]]; try done.
  destruct (take_word _).1; [by rewrite andb_false_r|]. destruct (x =? colon); [|done]. intros _. rewrite (proj2 (Z.ltb_ge res 0)) by lia.
  cbn [mbind outcome_bind]. intros [= <-]. split; [|done]. eexists. rewrite events_add.
  rewrite list_lookup_insert_eq by (cbn; by rewrite length_insert). split; [reflexivity|]. cbn. by rewrite Hm.
Qed.

Lemma close_turn s k ev fd res : server_ok s -> g_events s !! k = Some ev -> ev_status ev = 1 ->
  call_back ev = rdfs_recv_data_cb -> 0 <= fd < 2 ^ 31 -> fd ∈ opened s -> fd ∉ socks s -> global_epoll_fd s <> Some fd ->
  exists s', rdfs_recv_data s k ev MESSAGE_SIZE (mk_msg RDFS_CLIENT_CLOSE (print_d fd) 0) res = Ret s' /\ server_ok s' /\
    answering s' k (ev_fd ev) (mk_msg RDFS_CLIENT_CLOSE (print_d 0) 0) /\ opened s' = opened s ∖ {[fd]}.
Proof.
  intros Hok Hk Hs Hcb Hr Ho Hn Hg. pose proof (lookup_lt_Some _ _ _ Hk) as Hlen. pose proof (recv_close s k ev fd res Hs Hr) as E. cbv zeta in E.
  rewrite decide_True in E by set_solver.
  eexists. split; [exact E|]. split; [|split].
  - apply (recv_ok s k ev _ _ _ _ Hok Hk Hs Hcb) in E; [done|]. intros _ _. rewrite close_target_print by done. by split.
  - eexists. rewrite events_add. unfold close_fd. rewrite decide_False by done. cbn. rewrite list_lookup_insert_eq by (by rewrite length_insert).
    split; [reflexivity|done].
  - unfold close_fd. rewrite decide_False by done. done.
Qed.

Lemma short_turn s k ev len m res : server_ok s -> g_events s !! k = Some ev -> ev_status ev = 1 ->
  call_back ev = rdfs_recv_data_cb -> 0 < len < MESSAGE_SIZE ->
  exists s', rdfs_recv_data s k ev len m res = Ret s' /\ server_ok s' /\ receiving s' k (ev_fd ev) /\ opened s' = opened s /\
    socks s' = socks s /\ global_epoll_fd s' = global_epoll_fd s.
Proof.
  intros Hok Hk Hs Hcb Hl. pose proof (lookup_lt_Some _ _ _ Hk) as Hlen. destruct (rdfs_recv_data s k ev len m res) as [s'|] eqn:E.
  2:{ apply recv_oops in E; [|done]. lia. }
  exists s'. split; [done|]. split; [apply (recv_ok s k ev len m res); try done; intros ->; lia|]. revert E.
  unfold rdfs_recv_data, rdfs_event_del. cbn [ev_status ev_fd call_back ev_events ev_message]. rewrite Hs. change (negb (1 =? 1)) with false. cbv iota.
  rewrite (proj2 (Z.eqb_neq len _)), (proj2 (Z.ltb_lt 0 len)) by lia. intros [= <-]. split; [|done]. eexists. rewrite events_add.
  rewrite list_lookup_insert_eq by (cbn; by rewrite length_insert). split; [reflexivity|done].
Qed.

Lemma send_turn s k ev : server_ok s -> g_events s !! k = Some ev -> ev_status ev = 1 -> call_back ev = rdfs_send_data_cb ->
  exists s', rdfs_send_data s k ev MESSAGE_SIZE = (s', mk_msg 0 (m_data (ev_message ev)) 0) /\ server_ok s' /\ receiving s' k (ev_fd ev) /\
    opened s' = opened s /\ socks s' = socks s /\ global_epoll_fd s' = global_epoll_fd s.
Proof.
  intros Hok Hk Hs Hcb. pose proof (lookup_lt_Some _ _ _ Hk) as Hlen. pose proof (send_ok s k ev MESSAGE_SIZE Hok Hk Hs Hcb) as Ho. revert Ho.
  unfold rdfs_send_data, rdfs_event_del. cbn [ev_status ev_fd call_back ev_events ev_message]. rewrite Hs. change (negb (1 =? 1)) with false.
  change (0 <? MESSAGE_SIZE) with true. cbv iota. intros Ho. eexists. split; [reflexivity|]. split; [exact Ho|]. split; [|done].
  eexists. rewrite events_add. rewrite list_lookup_insert_eq by (cbn; by rewrite length_insert). split; [reflexivity|done].
Qed.

(** A connected client that asks to close the listening socket's descriptor is
    obeyed: the request is answered with 0, and the server no longer accepts
    connections. *)
Theorem client_closes_listener s k ev fd res m :
  server_ok s -> g_events s !! k = Some ev -> ev_status ev = 1 -> call_back ev = rdfs_recv_data_cb ->
  fd ∈ socks s -> fd <> ev_fd ev -> 0 <= fd < 2 ^ 31 -> m = mk_msg RDFS_CLIENT_CLOSE (print_d fd) 0 ->
  exists s', rdfs_recv_data s k ev MESSAGE_SIZE m res = Ret s' /\ epoll s' !! fd = None /\
    exists ev', g_events s' !! k = Some ev' /\ m_data (ev_message ev') = print_d 0.
Proof.
  intros Hok Hk Hs Hcb Hfd Hne Hr ->. pose proof (lookup_lt_Some _ _ _ Hk) as Hlen. pose proof (sock_not_epoll s fd Hok Hfd) as Hn.
  rewrite recv_close, decide_True by (done || set_solver). eexists. split; [reflexivity|].
  unfold close_fd. rewrite decide_False by done. unfold rdfs_event_add, epoll_ctl_set. cbn. split.
  - case_decide; [|by rewrite lookup_delete_eq]. destruct (delete fd _ !! ev_fd ev); cbn; [by rewrite lookup_delete_eq|].
    rewrite lookup_insert_ne by done. apply lookup_delete_eq.
  - eexists. rewrite list_lookup_insert_eq by (by rewrite length_insert). split; [reflexivity|done].
Qed.

(** A connected client that asks to close the epoll instance's descriptor is obeyed:
    every registration is lost, and no callback runs again, so that not even the
    answer is sent. *)
Theorem client_closes_epoll s k ev fd res m :
  ev_status ev = 1 -> global_epoll_fd s = Some fd -> 0 <= fd < 2 ^ 31 -> m = mk_msg RDFS_CLIENT_CLOSE (print_d fd) 0 ->
  exists s', rdfs_recv_data s k ev MESSAGE_SIZE m res = Ret s' /\ epoll s' = ∅ /\ forall G o, ~ server_step G s' o.
Proof.
  intros Hs Hg Hr ->. rewrite recv_close by done. eexists. split; [reflexivity|].
  unfold close_fd. rewrite decide_True by done. unfold rdfs_event_add, epoll_ctl_set. cbn.
  rewrite decide_False by (by intros [[? ?] _]). cbn. split; [done|]. intros G o Hst. inversion Hst; cbn in *; by rewrite lookup_empty in *.
Qed.

(** ** Examples *)

(** A server with the listening socket 3 and a client on socket 5. *)
Definition one_client : server :=
  mk_server (mk_event 5 rdfs_recv_data_cb EPOLLIN 1 no_message :: replicate 8 zero_event
               ++ [mk_event 3 rdfs_accept_connection_cb EPOLLIN 1 no_message])
    (Some 4) {[5 := (EPOLLIN, 0%nat); 3 := (EPOLLIN, 9%nat)]} {[3; 5]} {[0; 1; 2]}.

Lemma one_client_accepted : rdfs_accept_connection (rdfs_init_listen_socket 4 3) 5 = Ret one_client.
Proof. vm_compute. reflexivity. Qed.

Lemma one_client_ok : server_ok one_client.
Proof.
  apply (accept_ok (rdfs_init_listen_socket 4 3) 5); [by apply init_ok| |exact one_client_accepted].
  right. repeat split; vm_compute; discriminate.
Qed.


Lemma client_closes_listener_witness :
  exists s', rdfs_recv_data one_client 0 (mk_event 5 rdfs_recv_data_cb EPOLLIN 1 no_message) MESSAGE_SIZE
      (mk_msg RDFS_CLIENT_CLOSE (print_d 3) 0) (-1) = Ret s' /\ epoll s' !! 3 = None.
Proof.
  destruct (client_closes_listener one_client 0 (mk_event 5 rdfs_recv_data_cb EPOLLIN 1 no_message) 3 (-1)
    (mk_msg RDFS_CLIENT_CLOSE (print_d 3) 0) one_client_ok) as (s' & E & Hn & _).
  - reflexivity.
  - reflexivity.
  - reflexivity.
  - vm_compute. reflexivity.
  - cbn. lia.
  - lia.
  - reflexivity.
  - exists s'. split; [exact E|exact Hn].
Defined.

Lemma client_closes_epoll_witness :
  exists s', rdfs_recv_data one_client 0 (mk_event 5 rdfs_recv_data_cb EPOLLIN 1 no_message) MESSAGE_SIZE
      (mk_msg RDFS_CLIENT_CLOSE (print_d 4) 0) (-1) = Ret s' /\ epoll s' = ∅.
Proof.
  destruct (client_closes_epoll one_client 0 (mk_event 5 rdfs_recv_data_cb EPOLLIN 1 no_message) 4 (-1)
    (mk_msg RDFS_CLIENT_CLOSE (print_d 4) 0)) as (s' & E & He & _).
  - reflexivity.
  - reflexivity.
  - lia.
  - reflexivity.
  - exists s'. split; [exact E|exact He].
Defined.
