(* ===== verification/DirMap.v ===== *)
(** * Directories in the mounted filesystem (dir.c, fs/inode.c helpers of namei.c)

    [Dir] models the directory code on the bytes of a mapped directory.  Here the
    same code runs in the whole filesystem: a directory's bytes are reached
    through the kernel's page table, its in-core inode is one of the inode cache,
    and its slot in the area is written whenever the inode is marked dirty.  The
    file proves that a cache of directories represents a map from directories to
    names, whatever pages and address areas they occupy. *)

From S2P Require Import Prelude Mem Layout FreeList Balloc Pages Demo Nvmalloc Vfs Dir Bdev Pgtable SlaveMem Mapping Inode FileData.

(** The state of the name operations: the world and the inode cache, in which an
    [struct inode *] is the inode's number. *)
Record fs := mk_fs { f_world : world; f_inodes : gmap Z inode }.

Definition f_mem (s : fs) : mem := w_mem (f_world s).
Definition set_world (w : world) (s : fs) : fs := mk_fs w (f_inodes s).
Definition put_inode (i : inode) (s : fs) : fs := mk_fs (f_world s) (<[i_ino i := i]> (f_inodes s)).
Definition get_inode (s : fs) (ino : Z) : outcome inode :=
  match f_inodes s !! ino with Some i => Ret i | None => Oops end.

Section dirmap.
Context `{!KernelPg} (sbi : rdfs_sb_info) (cpu : Z) (pud_alloc_ok : Z -> bool) (s_blocksize_bits : Z).
(** The address of the in-core inode of a number. *)
Context (inode_ptr : Z -> Z).

(** mark_inode_dirty: the kernel calls the filesystem's dirty_inode. *)
Definition mark_inode_dirty (s : fs) (ino : Z) : outcome fs :=
  i ← get_inode s ino;
  Ret (set_world (set_mem (rdfs_dirty_inode sbi (f_mem s) i) (f_world s)) s).

(** inode_inc_link_count and inode_dec_link_count of the kernel. *)
Definition inode_inc_link_count (s : fs) (ino : Z) : outcome fs :=
  i ← get_inode s ino;
  mark_inode_dirty (put_inode (set_i_nlink (u32 (i_nlink i + 1)) i) s) ino.
Definition drop_nlink (s : fs) (ino : Z) : outcome fs :=
  i ← get_inode s ino; Ret (put_inode (set_i_nlink (u32 (i_nlink i - 1)) i) s).
Definition inode_dec_link_count (s : fs) (ino : Z) : outcome fs :=
  s ← drop_nlink s ino; mark_inode_dirty s ino.

(** The mapping calls on an inode of the cache. *)
Definition establish (s : fs) (ino : Z) : outcome (Z * fs) :=
  i ← get_inode s ino;
  '(err, w, i) ← rdfs_establish_mapping sbi pud_alloc_ok (f_world s) i (inode_ptr ino);
  Ret (err, mk_fs w (<[ino := i]> (f_inodes s))).
Definition destroy (s : fs) (ino : Z) : outcome (Z * fs) :=
  i ← get_inode s ino;
  '(err, w, i) ← rdfs_destroy_mapping sbi (f_world s) i;
  Ret (err, mk_fs w (<[ino := i]> (f_inodes s))).

(** ** The bytes of a mapped directory

    The pages from [va] on, read into a memory of their own, and written back.
    An access to a page that is not mapped faults. *)
Fixpoint load_pages (w : world) (va : Z) (n : nat) (v : mem) : outcome mem :=
  match n with
  | O => Ret v
  | S n' =>
      match mmu sbi (w_mem w) (w_km w) va with
      | Some a => load_pages w (va + PAGE_SIZE) n' (st_bytes v va (ld_bytes (w_mem w) a (Z.to_nat PAGE_SIZE)))
      | None => Oops
      end
  end.

Fixpoint store_pages (w : world) (va : Z) (n : nat) (v : mem) : outcome world :=
  match n with
  | O => Ret w
  | S n' =>
      match mmu sbi (w_mem w) (w_km w) va with
      | Some a =>
          store_pages (set_mem (st_bytes (w_mem w) a (ld_bytes v va (Z.to_nat PAGE_SIZE))) w) (va + PAGE_SIZE) n' v
      | None => Oops
      end
  end.

Definition dir_pages (i : inode) : nat := Z.to_nat (i_size i / PAGE_SIZE).
Definition dir_view (s : fs) (i : inode) : outcome mem := load_pages (f_world s) (ni_virt_addr i) (dir_pages i) ∅.
Definition dir_flush (s : fs) (i : inode) (v : mem) : outcome fs :=
  w ← store_pages (f_world s) (ni_virt_addr i) (dir_pages i) v; Ret (put_inode i (set_world w s)).

(** ** The directory operations *)

Definition find_entry (s : fs) (dir : Z) (name : list Z) : outcome (option (Z * Z)) :=
  i ← get_inode s dir; v ← dir_view s i; Ret (rdfs_find_entry2 v i name).

(** rdfs_inode_by_name with its mapping calls. *)
Definition inode_by_name (s : fs) (dir : Z) (name : list Z) : outcome (Z * fs) :=
  '(_, s) ← establish s dir;
  i ← get_inode s dir; v ← dir_view s i;
  let res := rdfs_inode_by_name v i name in
  '(_, s) ← destroy s dir;
  Ret (res, s).

Definition delete_entry (s : fs) (de prev dir now : Z) : outcome (Z * fs) :=
  i ← get_inode s dir; v ← dir_view s i;
  let '(err, v, i) := rdfs_delete_entry v de prev i now in
  if negb (err =? 0) then Ret (err, s)
  else s ← dir_flush s i v; s ← mark_inode_dirty s dir; Ret (0, s).

Definition set_link (s : fs) (dir de ino : Z) (update_times : bool) (now : Z) : outcome fs :=
  i ← get_inode s dir; x ← get_inode s ino; v ← dir_view s i;
  let '(v, i) := rdfs_set_link v i de x update_times now in
  s ← dir_flush s i v; mark_inode_dirty s dir.

(** got_it of rdfs_add_link *)
Definition add_entry (s : fs) (i x : inode) (v : mem) (de name_len rec_len : Z) (name : list Z) (now : Z)
  : outcome (Z * fs) :=
  let v := add_fill v de name_len rec_len (Z.of_nat (length name)) name (i_ino x) (i_mode x) in
  s ← dir_flush s (dir_touch i now) v;
  s ← mark_inode_dirty s (i_ino i); Ret (0, s).

(** [phys0] is the uninitialised local of rdfs_alloc_blocks. *)
Definition add_link (s : fs) (dir : Z) (name : list Z) (ino now phys0 : Z) : outcome (Z * fs) :=
  i ← get_inode s dir; x ← get_inode s ino;
  let namelen := Z.of_nat (length name) in
  let reclen := RDFS_DIR_REC_LEN namelen in
  let vaddr := ni_virt_addr i in
  if vaddr =? 0 then Ret (- ENOMEM, s)
  else
    v ← dir_view s i;
    let size := i_size i in
    match add_pages (Z.to_nat (Z.shiftr size PAGE_SHIFT) + 1) v namelen name reclen (vaddr + size) vaddr with
    | NeedNewBlock de =>
        if size + PAGE_SIZE <=? MAX_DIR_SIZE then
          '(err, w, i, _) ← rdfs_alloc_blocks sbi cpu pud_alloc_ok (f_world s) i new_ri 1 0 ALLOC_PAGE phys0;
          let i := set_i_size (i_size i + PAGE_SIZE) i in
          let s := put_inode i (set_world w s) in
          if negb (err =? 0) then Ret (err, s)
          else
            v ← dir_view s i;
            let v := st 2 v (de + de_off.rec_len) PAGE_SIZE in
            let v := st 8 v (de + de_off.inode) 0 in
            add_entry s i x v de 0 PAGE_SIZE name now
        else Ret (- EIO, s)
    | GotIt de name_len rec_len => add_entry s i x v de name_len rec_len name now
    | Fail err => Ret (err, s)
    | NextPage _ => Ret (- EINVAL, s)
    end.

Definition empty_dir (s : fs) (dir : Z) : outcome Z :=
  i ← get_inode s dir; v ← dir_view s i; Ret (rdfs_empty_dir v i).

Definition dotdot_entry (s : fs) (dir : Z) : outcome Z :=
  i ← get_inode s dir; v ← dir_view s i; Ret (rdfs_dotdot v i).
End dirmap.

(** ** What the cache represents *)

(** Names to inode numbers, by directory, and the link counts and sizes of all
    cached inodes. *)
Record afs := mk_afs { a_names : gmap Z (gmap (list Z) Z); a_links : gmap Z Z; a_sizes : gmap Z Z }.

Definition set_names (dir : Z) (N : gmap (list Z) Z) (a : afs) : afs :=
  mk_afs (<[dir := N]> (a_names a)) (a_links a) (a_sizes a).
Definition set_links (ino n : Z) (a : afs) : afs := mk_afs (a_names a) (<[ino := n]> (a_links a)) (a_sizes a).
Definition set_size (ino z : Z) (a : afs) : afs := mk_afs (a_names a) (a_links a) (<[ino := z]> (a_sizes a)).

(** [dir] is a directory in use with names [N]; a removed directory has size 0. *)
Record live_dir (a : afs) (dir : Z) (N : gmap (list Z) Z) : Prop := {
  live_names : a_names a !! dir = Some N;
  live_size : a_sizes a !! dir <> Some 0
}.

(** The pages of a directory: its three table pages and its blocks. *)
Record lay := mk_lay { l_top : Z; l_pmd : Z; l_pte : Z; l_data : list Z }.
Definition lay_pages (g : lay) : list Z := l_top g :: l_pmd g :: l_pte g :: l_data g.

Section rep.
Context `{!KernelPg} {sbi : rdfs_sb_info}.

(** The blocks [ps] laid out from [va] on. *)
Fixpoint page_view (m : mem) (ps : list Z) (va : Z) (v : mem) : mem :=
  match ps with
  | [] => v
  | p :: ps' => page_view m ps' (va + PAGE_SIZE) (st_bytes v va (ld_bytes m (rdfs_va sbi p) (Z.to_nat PAGE_SIZE)))
  end.

Record dir_table (m : mem) (ino : Z) (g : lay) : Prop := {
  dt_root : ld 8 m (get_rdfs_inode m sbi ino + inode_off.i_pg_addr) = l_top g;
  dt_top : ld 8 m (rdfs_va sbi (l_top g)) = dir_entry (Some (l_pmd g));
  dt_pmd : ld 8 m (rdfs_va sbi (l_pmd g)) = dir_entry (Some (l_pte g));
  dt_pte k : 0 <= k < 512 ->
    ld 8 m (rdfs_va sbi (l_pte g) + 8 * k) = default 0 ((page_entry <$> l_data g) !! Z.to_nat k)
}.

(** A directory starts with its entries "." and "..". *)
Definition dot_head (rs : list drec) : Prop :=
  exists r0 r1 rs', rs = r0 :: r1 :: rs' /\ is_named dot r0 = true /\ is_named dotdot r1 = true /\ r_len r0 = 16.

Context {free : mem -> list Z -> Prop} {foot : list Z -> Z -> Prop} {page_ok meta : Z -> Prop}.
Context `{!PageAlloc sbi free foot page_ok meta}.

(** The directory with in-core inode [i] and pages [g] holds the records [rs];
    removing it sets its size to 0 and leaves the records. *)
Record dir_ok (m : mem) (i : inode) (g : lay) (rs : list drec) : Prop := {
  do_mode : S_ISDIR (i_mode i) = true;
  do_pages : Forall page_ok (lay_pages g);
  do_nodup : NoDup (lay_pages g);
  do_table : dir_table m (i_ino i) g;
  do_blocks : i_blocks i = Z.of_nat (length (l_data g));
  do_size : i_size i = 0 \/ i_size i = PAGE_SIZE * Z.of_nat (length (l_data g));
  do_len : (1 <= length (l_data g) <= 15)%nat;
  do_recs va : recs_at (page_view m (l_data g) va ∅) va rs;
  do_total : total rs = PAGE_SIZE * Z.of_nat (length (l_data g));
  do_names : NoDup (d_name <$> live_ents rs);
  do_dots : dot_head rs
}.

(** The mapping of a directory: unmapped, or mapped [n] times at [va]. *)
Definition map_ok (km : kmm) (D : apool) (k : option (Z * Z)) (i : inode) (g : lay) : Prop :=
  match k with
  | None => ni_mapping_count i = 0 /\ ni_virt_addr i = 0
  | Some (n, va) => ni_mapping_count i = n /\ ni_virt_addr i = va /\ 1 <= n < 2 ^ 30 /\
      va ∈ D.2.*2 /\ kpmd km !! (va / MAX_DIR_SIZE) = Some (dir_entry (Some (l_pte g)))
  end.

Definition slot (s : fs) (ino : Z) : Z := get_rdfs_inode (f_mem s) sbi ino.

(** The address areas: [D] are the directory areas but for some at the end of the
    free list. *)
Definition areas (nv : nvm_state) (R D : apool) : Prop := exists Z0, nvm_rep nv R (D.1 ++ Z0, D.2).

(** [G]: the pages of the directories; [K]: where they are mapped; [l]: the free
    pages; [R], [D]: the address areas.  No directory uses the last area, where
    rdfs_insert_page takes its second block for a file's; after mounting it ends
    the free list. *)
Record fs_inv (s : fs) (a : afs) (G : gmap Z lay) (K : gmap Z (Z * Z)) (l : list Z) (R D : apool) : Prop := {
  fi_free : free (f_mem s) l;
  fi_nvm : areas (w_nvm (f_world s)) R D;
  fi_last : Forall (fun c : cell => c.2 + 2 * MAX_DIR_SIZE <= RDFS_START + DIR_AREA_SIZE) (D.1 ++ D.2);
  fi_ino ino i : f_inodes s !! ino = Some i -> i_ino i = ino /\ 0 < ino < 2 ^ 31;
  fi_slot ino x : is_Some (f_inodes s !! ino) -> slot s ino <= x < slot s ino + 72 -> meta x;
  fi_slots ino ino' : is_Some (f_inodes s !! ino) -> is_Some (f_inodes s !! ino') -> ino <> ino' ->
    slot s ino + RDFS_INODE_SIZE <= slot s ino' \/ slot s ino' + RDFS_INODE_SIZE <= slot s ino;
  fi_links : a_links a = i_nlink <$> f_inodes s;
  fi_sizes : a_sizes a = i_size <$> f_inodes s;
  fi_dirs dir N : a_names a !! dir = Some N ->
    exists i g rs, f_inodes s !! dir = Some i /\ G !! dir = Some g /\ dir_ok (f_mem s) i g rs /\ names rs = N /\
      map_ok (w_km (f_world s)) D (K !! dir) i g;
  fi_dom dir : is_Some (G !! dir) -> is_Some (a_names a !! dir);
  fi_kdom dir : is_Some (K !! dir) -> is_Some (a_names a !! dir);
  fi_apart d d' g g' p : d <> d' -> G !! d = Some g -> G !! d' = Some g' -> p ∈ lay_pages g -> p ∉ lay_pages g';
  fi_used d g p : G !! d = Some g -> p ∈ lay_pages g -> p ∉ l;
  fi_inj d d' n n' va : K !! d = Some (n, va) -> K !! d' = Some (n', va) -> d = d';
  fi_root dir x : is_Some (a_names a !! dir) -> slot s dir + 72 <= x < slot s dir + 80 -> meta x
}.

(** The filesystem [s] represents [a], with the directories of [K] mapped, the
    pages [l] free, and [T] directory areas mapped or free. *)
Definition fs_rep (s : fs) (a : afs) (K : gmap Z (Z * Z)) (l : list Z) (T : nat) : Prop :=
  exists G R D, fs_inv s a G K l R D /\ (length D.1 + size K)%nat = T.

(** ** Views *)

Lemma recs_shift m m' a a' l :
  (forall o, 0 <= o < total l -> ldb m' (a' + o) = ldb m (a + o)) -> recs_at m a l -> recs_at m' a' l.
Proof using Type.
  revert a a'. induction l as [|r l IH]; intros a a' Hb HR; [done|].
  destruct HR as (Hok & Hr & HR). pose proof (total_nonneg _ _ _ HR). rewrite total_cons in Hb. pose proof Hok as [Hl Hd].
  split; [done|]. split.
  - destruct Hr as [H1 H2]. unfold rec_at, de_rec_len, de_inode, de_name_len, de_file_type in *.
    unfold de_off.rec_len, de_off.inode, de_off.name_len, de_off.file_type, de_off.name in *.
    assert (Hld : forall k o, 0 <= o -> o + Z.of_nat k <= 12 -> ld k m' (a' + o) = ld k m (a + o)).
    { intros k o Ho Hk. apply ld_ext. intros i Hi. rewrite <- !Z.add_assoc. apply Hb. lia. }
    rewrite (Hld 2%nat) by lia. split; [done|]. destruct (r_ent r) as [d|].
    + destruct H2 as (E1 & E2 & E3 & E4). rewrite !Hld by lia. do 3 (split; [done|]).
      rewrite <- E4 at 2. apply ld_bytes_ext. intros i Hi. rewrite <- !Z.add_assoc. apply Hb.
      destruct Hd as (_ & _ & _ & Hn & Hrl). pose proof (rec_len_bounds (Z.of_nat (length (d_name d)))). lia.
    + by rewrite Hld by lia.
  - apply (IH (a + r_len r)); [|done]. intros o Ho. rewrite <- !Z.add_assoc. apply Hb. lia.
Qed.

(** The byte at offset [o] of the blocks [ps]. *)
Definition byte_addr (ps : list Z) (o : Z) : Z :=
  rdfs_va sbi (default 0 (ps !! Z.to_nat (o / PAGE_SIZE))) + o mod PAGE_SIZE.

Lemma ldb_page_view m ps va v x :
  ldb (page_view m ps va v) x =
  if decide (va <= x < va + PAGE_SIZE * Z.of_nat (length ps)) then ldb m (byte_addr ps (x - va)) else ldb v x.
Proof using Type.
  revert va v. induction ps as [|p ps IH]; intros va v; cbn [page_view length].
  { rewrite decide_False by (unfold PAGE_SIZE; lia). done. }
  rewrite IH, ldb_copy. unfold PAGE_SIZE in *. change (Z.of_nat (Z.to_nat 4096)) with 4096.
  unfold byte_addr, PAGE_SIZE. repeat case_decide; try lia; try done.
  - f_equal. replace (x - va) with (x - (va + 4096) + 1 * 4096) by lia. rewrite Z.mod_add, Z.div_add by lia.
    replace (Z.to_nat ((x - (va + 4096)) / 4096 + 1)) with (S (Z.to_nat ((x - (va + 4096)) / 4096)))
      by (pose proof (Z.div_pos (x - (va + 4096)) 4096); lia). done.
  - rewrite Z.div_small, Z.mod_small by lia. done.
Qed.

(** ** Reaching the blocks *)

Definition dir_area (va : Z) : Prop := area_ok RDFS_START MAX_DIR_SIZE DIR_AREAS va.

Lemma dir_page_index va k : dir_area va -> 0 <= k < 512 ->
  (va + PAGE_SIZE * k <? RDFS_START + DIR_AREA_SIZE) = true /\ (va + PAGE_SIZE * k) / MAX_DIR_SIZE = va / MAX_DIR_SIZE /\
  pte_index (va + PAGE_SIZE * k) = k /\ (va + PAGE_SIZE * k) mod PAGE_SIZE = 0.
Proof using Type.
  intros (j & Hj & ->) Hk. rewrite dir_areas_eq in Hj. rewrite pte_index_spec.
  unfold RDFS_START, DIR_AREA_SIZE, MAX_DIR_SIZE, PAGE_SIZE in *.
  split; [apply Z.ltb_lt; lia|]. split; [zdm|]. split; zdm.
Qed.

(** The kernel's table leads from the area to the directory's blocks. *)
Definition mapped_at (km : kmm) (va : Z) (g : lay) : Prop :=
  dir_area va /\ kpmd km !! (va / MAX_DIR_SIZE) = Some (dir_entry (Some (l_pte g))).

Lemma mmu_dir m km ino g va k p :
  dir_table m ino g -> Forall page_ok (lay_pages g) -> (length (l_data g) <= 15)%nat -> mapped_at km va g ->
  l_data g !! k = Some p ->
  mmu sbi m km (va + PAGE_SIZE * Z.of_nat k) = Some (rdfs_va sbi p).
Proof.
  intros [_ _ _ Ht] Hp Hlen [Ha Hk] Hl. pose proof (lookup_lt_Some _ _ _ Hl) as Hlt.
  destruct (dir_page_index va (Z.of_nat k) Ha ltac:(lia)) as (E1 & E2 & E3 & E4).
  unfold lay_pages in Hp. rewrite !Forall_cons in Hp. destruct Hp as (_ & _ & Hr & Hd).
  assert (Hpp : page_ok p) by (eapply Forall_lookup_1; eauto).
  unfold mmu. rewrite E1, E2, Hk. cbn [mbind option_bind]. unfold mmu_page. rewrite E3, E4.
  destruct (table_entry sbi (l_pte g) Hr) as (-> & _ & -> & _).
  unfold rdfs_get_phy_from_pte. rewrite Ht by lia. rewrite Nat2Z.id, list_lookup_fmap, Hl.
  change (default 0 (page_entry <$> Some p)) with (page_entry p).
  rewrite (page_entry_nz sbi p Hpp), Z.add_0_r. do 2 f_equal. unfold get_phys_from_pte_val. by apply (page_entry_phys sbi).
Qed.

Lemma load_view w g ino va n k v :
  dir_table (w_mem w) ino g -> Forall page_ok (lay_pages g) -> (length (l_data g) <= 15)%nat ->
  mapped_at (w_km w) va g -> (n + k)%nat = length (l_data g) ->
  load_pages sbi w (va + PAGE_SIZE * Z.of_nat k) n v
  = Ret (page_view (w_mem w) (drop k (l_data g)) (va + PAGE_SIZE * Z.of_nat k) v).
Proof.
  intros Ht Hp Hlen Hm. revert k v. induction n as [|n IH]; intros k v Hn; cbn [load_pages].
  { rewrite drop_ge by lia. done. }
  destruct (lookup_lt_is_Some_2 (l_data g) k ltac:(lia)) as [p Hk].
  rewrite (mmu_dir _ _ ino g va k p Ht Hp Hlen Hm Hk). rewrite (drop_S _ _ _ Hk). cbn [page_view].
  replace (va + PAGE_SIZE * Z.of_nat k + PAGE_SIZE) with (va + PAGE_SIZE * Z.of_nat (S k)) by lia. apply IH. lia.
Qed.

Lemma length_page_bytes m a : length (ld_bytes m a (Z.to_nat PAGE_SIZE)) = Z.to_nat PAGE_SIZE.
Proof using Type. apply length_ld_bytes. Qed.

(** [m'] is [m] with the blocks [ps] set to the bytes of [v] from [va] on. *)
Definition stored (m m' : mem) (ps : list Z) (va : Z) (v : mem) : Prop :=
  (forall k p o, ps !! k = Some p -> 0 <= o < PAGE_SIZE ->
     ldb m' (rdfs_va sbi p + o) = ldb v (va + PAGE_SIZE * Z.of_nat k + o)) /\
  (forall x, (forall p, p ∈ ps -> ~ in_page sbi p x) -> ldb m' x = ldb m x).

(** A change inside pages outside [tables] keeps the table. *)
Lemma dir_table_frame m m' ino g :
  get_rdfs_inode m' sbi ino = get_rdfs_inode m sbi ino ->
  (forall x, get_rdfs_inode m sbi ino + inode_off.i_pg_addr <= x < get_rdfs_inode m sbi ino + inode_off.i_pg_addr + 8 ->
     ldb m' x = ldb m x) ->
  (forall p x, p ∈ [l_top g; l_pmd g; l_pte g] -> in_page sbi p x -> ldb m' x = ldb m x) ->
  dir_table m ino g -> dir_table m' ino g.
Proof.
  intros Ei Hs Hp [H1 H2 H3 H4].
  assert (Hw : forall p o, p ∈ [l_top g; l_pmd g; l_pte g] -> 0 <= o <= PAGE_SIZE - 8 ->
    ld 8 m' (rdfs_va sbi p + o) = ld 8 m (rdfs_va sbi p + o)).
  { intros p o Hin Ho. apply ld_ext. intros i Hi. apply (Hp p); [done|]. unfold in_page, PAGE_SIZE in *. lia. }
  split.
  - rewrite Ei, <- H1. apply ld_ext. intros i Hi. apply Hs. lia.
  - rewrite <- H2. pose proof (Hw (l_top g) 0) as E. rewrite Z.add_0_r in E. apply E; [set_solver|unfold PAGE_SIZE; lia].
  - rewrite <- H3. pose proof (Hw (l_pmd g) 0) as E. rewrite Z.add_0_r in E. apply E; [set_solver|unfold PAGE_SIZE; lia].
  - intros k Hk. rewrite <- H4 by done. apply Hw; [set_solver|unfold PAGE_SIZE; lia].
Qed.

Lemma free_pages_frame m m' l ps :
  free m l -> Forall page_ok ps -> (forall p, p ∈ ps -> p ∉ l) ->
  (forall x, (forall p, p ∈ ps -> ~ in_page sbi p x) -> ldb m' x = ldb m x) -> free m' l.
Proof.
  intros Hf Hp Hn Hx. destruct (free_pages sbi m l Hf) as [Hl _]. rewrite Forall_forall in Hp.
  apply (free_ext sbi m); [|done]. intros a Ha. apply Hx. intros p Hin Hpa.
  by apply (foot_page sbi p l a Hl (Hp p Hin) (Hn p Hin) Hpa).
Qed.

Lemma st_page_bytes m p v b x : page_ok p -> ~ in_page sbi p x ->
  ldb (st_bytes m (rdfs_va sbi p) (ld_bytes v b (Z.to_nat PAGE_SIZE))) x = ldb m x.
Proof using Type.
  intros Hp Hx. rewrite ldb_copy, decide_False; [done|]. unfold in_page, PAGE_SIZE in *. lia.
Qed.

(** What a directory's table and blocks rely on. *)
Record dir_mem (m : mem) (l : list Z) (ino : Z) (g : lay) : Prop := {
  dm_free : free m l;
  dm_slot x : get_rdfs_inode m sbi ino <= x < get_rdfs_inode m sbi ino + 80 -> meta x;
  dm_table : dir_table m ino g;
  dm_pages : Forall page_ok (lay_pages g);
  dm_nodup : NoDup (lay_pages g);
  dm_used p : p ∈ lay_pages g -> p ∉ l;
  dm_len : (length (l_data g) <= 15)%nat
}.

Lemma data_page g p : Forall page_ok (lay_pages g) -> p ∈ l_data g -> page_ok p.
Proof using Type. unfold lay_pages. rewrite !Forall_cons, Forall_forall. intros (_ & _ & _ & Hf). apply Hf. Qed.

Lemma page_apart g p q x : Forall page_ok (lay_pages g) -> p ∈ lay_pages g -> q ∈ lay_pages g -> p <> q ->
  in_page sbi p x -> ~ in_page sbi q x.
Proof.
  rewrite Forall_forall. intros Hf Hp Hq Hne Hx Hy. apply Hne. eapply (page_disjoint sbi); eauto.
Qed.

(** A change of blocks only keeps the rest of the directory. *)
Lemma dir_mem_blocks m m' l ino g : dir_mem m l ino g ->
  (forall x, (forall p, p ∈ l_data g -> ~ in_page sbi p x) -> ldb m' x = ldb m x) -> dir_mem m' l ino g.
Proof.
  intros [Hf Hs Ht Hp Hn Hu Hl] Hx.
  assert (Hf' : free m' l).
  { apply (free_pages_frame m m' l (l_data g)); try done.
    - apply Forall_forall. intros p Hin. by apply (data_page g).
    - intros p Hin. apply Hu. unfold lay_pages. set_solver. }
  pose proof (free_inode sbi m m' l l ino Hf Hf') as Ei.
  split; try done; [by rewrite Ei|]. apply (dir_table_frame m); try done.
  - intros x Hr. apply Hx. intros p Hin. apply (meta_page sbi p x (data_page g p Hp Hin)). apply Hs.
    unfold inode_off.i_pg_addr, RDFS_INODE_SIZE in *. lia.
  - intros p x Hin Hpx. apply Hx. intros q Hq Hqx. unfold lay_pages in *.
    apply (page_apart g p q x Hp); [unfold lay_pages; set_solver|unfold lay_pages; set_solver| |done|done].
    intros <-. apply NoDup_cons in Hn as [N1 Hn]. apply NoDup_cons in Hn as [N2 Hn]. apply NoDup_cons in Hn as [N3 Hn].
    set_solver.
Qed.

Lemma store_view w g l ino va n k v :
  dir_mem (w_mem w) l ino g -> mapped_at (w_km w) va g -> (n + k)%nat = length (l_data g) ->
  exists m', store_pages sbi w (va + PAGE_SIZE * Z.of_nat k) n v = Ret (set_mem m' w) /\
    (forall j p o, (k <= j)%nat -> l_data g !! j = Some p -> 0 <= o < PAGE_SIZE ->
       ldb m' (rdfs_va sbi p + o) = ldb v (va + PAGE_SIZE * Z.of_nat j + o)) /\
    (forall x, (forall p, p ∈ drop k (l_data g) -> ~ in_page sbi p x) -> ldb m' x = ldb (w_mem w) x).
Proof.
  intros HD Hm. revert w k HD Hm. induction n as [|n IH]; intros w k HD Hm Hn; cbn [store_pages].
  { exists (w_mem w). split; [by destruct w|]. split; [|done]. intros j p o Hj Hp. apply lookup_lt_Some in Hp. lia. }
  destruct (lookup_lt_is_Some_2 (l_data g) k ltac:(lia)) as [p Hk]. pose proof HD as [Hf Hs Ht Hp Hnd Hu Hl].
  rewrite (mmu_dir _ _ ino g va k p Ht Hp ltac:(lia) Hm Hk).
  set (m1 := st_bytes _ _ _). pose proof (data_page g p Hp (list_elem_of_lookup_2 _ _ _ Hk)) as Hpp.
  assert (H1 : forall x, ~ in_page sbi p x -> ldb m1 x = ldb (w_mem w) x) by (intros x; by apply st_page_bytes).
  destruct (IH (set_mem m1 w) (S k)) as (m' & E & Hw & Hx); [|done|lia|].
  { apply (dir_mem_blocks (w_mem w)); [done|]. intros x Hxx. apply H1, Hxx. by eapply list_elem_of_lookup_2. }
  exists m'. replace (va + PAGE_SIZE * Z.of_nat k + PAGE_SIZE) with (va + PAGE_SIZE * Z.of_nat (S k)) by lia.
  split; [exact E|]. rewrite (drop_S _ _ _ Hk). split.
  - intros j q o Hj Hq Ho. destruct (decide (j = k)) as [->|Hne]; [|apply Hw; [lia|done|done]].
    rewrite Hk in Hq. injection Hq as <-. rewrite Hx.
    + cbn [w_mem set_mem]. unfold m1. rewrite ldb_copy, decide_True by (unfold PAGE_SIZE in *; lia). f_equal. lia.
    + intros q Hq Hqo. unfold lay_pages in Hnd. do 3 apply NoDup_cons in Hnd as [_ Hnd].
      rewrite <- (take_drop_middle _ _ _ Hk) in Hnd. apply NoDup_app in Hnd as (_ & _ & [Hni _]%NoDup_cons).
      apply Hni. assert (p = q) as -> by (apply (page_disjoint sbi p q (rdfs_va sbi p + o)); [done| |unfold in_page; lia|done];
        apply (data_page g); [done|by eapply subseteq_drop]). done.
  - intros x Hxx. rewrite Hx; [|intros q Hq; apply Hxx; by constructor]. cbn [w_mem set_mem]. apply H1, Hxx. constructor.
Qed.

(** ** Framing the invariant *)

Lemma byte_addr_page ps o : 0 <= o < PAGE_SIZE * Z.of_nat (length ps) ->
  exists k p, ps !! k = Some p /\ in_page sbi p (byte_addr ps o) /\
    byte_addr ps o = rdfs_va sbi p + o mod PAGE_SIZE /\ o = PAGE_SIZE * Z.of_nat k + o mod PAGE_SIZE.
Proof using Type.
  intros Ho. unfold PAGE_SIZE in *.
  assert (Hk : (Z.to_nat (o / 4096) < length ps)%nat) by (apply Nat2Z.inj_lt; rewrite Z2Nat.id; zdm).
  destruct (lookup_lt_is_Some_2 ps _ Hk) as [p Hp]. exists (Z.to_nat (o / 4096)), p. split; [done|].
  unfold byte_addr, in_page, PAGE_SIZE. rewrite Hp. cbn. pose proof (Z.mod_pos_bound o 4096). split; [lia|]. split; [done|].
  rewrite Z2Nat.id by zdm. zdm.
Qed.

(** Directories whose pages and root word stay as they are. *)
Lemma dir_ok_frame m m' i g rs :
  get_rdfs_inode m' sbi (i_ino i) = get_rdfs_inode m sbi (i_ino i) ->
  (forall x, get_rdfs_inode m sbi (i_ino i) + inode_off.i_pg_addr <= x
     < get_rdfs_inode m sbi (i_ino i) + inode_off.i_pg_addr + 8 -> ldb m' x = ldb m x) ->
  (forall p x, p ∈ lay_pages g -> in_page sbi p x -> ldb m' x = ldb m x) ->
  dir_ok m i g rs -> dir_ok m' i g rs.
Proof.
  intros Ei Hs Hx [H1 H2 H3 H4 H5 H6 H7 H8 H9 H10 H11]. split; try done.
  - apply (dir_table_frame m); try done. intros p x Hp. apply Hx. unfold lay_pages. set_solver.
  - intros va. apply (recs_shift (page_view m (l_data g) va ∅) _ va); [|done].
    intros o Ho. rewrite !ldb_page_view. case_decide; [|done]. replace (va + o - va) with o by lia.
    destruct (byte_addr_page (l_data g) o) as (k & p & Hk & Hin & _); [lia|]. apply (Hx p); [|done].
    unfold lay_pages. apply list_elem_of_lookup_2 in Hk. set_solver.
Qed.

(** The in-core fields a directory's representation depends on. *)
Definition same_dir (i i' : inode) : Prop :=
  i_ino i' = i_ino i /\ i_mode i' = i_mode i /\ i_size i' = i_size i /\ i_blocks i' = i_blocks i /\
  ni_virt_addr i' = ni_virt_addr i /\ ni_mapping_count i' = ni_mapping_count i.

Lemma dir_ok_inode m i i' g rs : same_dir i i' ->
  dir_ok m i g rs -> dir_ok m i' g rs.
Proof using Type.
  intros (E1 & E2 & E3 & E4 & E5 & E6) [H1 H2 H3 H4 H5 H6 H7 H8 H9 H10 H11]. split; rewrite ?E1, ?E2, ?E3, ?E4; done.
Qed.

Lemma map_ok_inode km D k i i' g : same_dir i i' -> map_ok km D k i g -> map_ok km D k i' g.
Proof using Type. intros (_ & _ & _ & _ & E5 & E6). unfold map_ok. by rewrite E5, E6. Qed.


Lemma inv_dir_mem s a G K l R D dir i g rs : fs_inv s a G K l R D ->
  f_inodes s !! dir = Some i -> G !! dir = Some g -> dir_ok (f_mem s) i g rs -> dir_mem (f_mem s) l dir g.
Proof using Type.
  intros HI Hi Hg [_ H2 H3 H4 _ _ H7 _ _ _ _]. destruct (fi_ino _ _ _ _ _ _ _ HI dir i Hi) as [Ei _]. rewrite Ei in H4.
  split; try done.
  - apply HI.
  - intros x Hx. destruct (decide (x < get_rdfs_inode (f_mem s) sbi dir + 72)).
    + apply (fi_slot _ _ _ _ _ _ _ HI dir); [done|]. unfold slot. lia.
    + apply (fi_root _ _ _ _ _ _ _ HI dir); [by apply (fi_dom _ _ _ _ _ _ _ HI)|]. unfold slot. lia.
  - intros p Hp. by apply (fi_used _ _ _ _ _ _ _ HI dir g).
  - lia.
Qed.

(** A change of the memory that keeps the free list and every directory. *)
Lemma inv_mem s a G K l R D m' : fs_inv s a G K l R D -> free m' l ->
  (forall dir i g rs, f_inodes s !! dir = Some i -> G !! dir = Some g ->
     dir_ok (f_mem s) i g rs -> dir_ok m' i g rs) ->
  fs_inv (set_world (set_mem m' (f_world s)) s) a G K l R D.
Proof.
  intros [H1 H2 H3 H4 H5 H6 H7 H7s H8 H9 H10 H11 H12 H13 H14] Hf Hd.
  assert (Es : forall ino, slot (set_world (set_mem m' (f_world s)) s) ino = slot s ino)
    by (intros ino; by eapply (free_inode sbi)).
  split; try done.
  - intros ino x. rewrite Es. apply H5.
  - intros ino ino'. rewrite !Es. apply H6.
  - intros dir N HN. destruct (H8 dir N HN) as (i & g & rs & Hi & Hg & Hok & En & Hm). exists i, g, rs.
    do 2 (split; [done|]). split; [by apply (Hd dir i g rs)|]. by split.
  - intros dir x. rewrite Es. apply H14.
Qed.

(** Writing an inode's slot short of its page-table word. *)
Lemma inv_slot s a G K l R D ino m' : fs_inv s a G K l R D -> is_Some (f_inodes s !! ino) ->
  (forall x, ~ (slot s ino <= x < slot s ino + 72) -> ldb m' x = ldb (f_mem s) x) ->
  fs_inv (set_world (set_mem m' (f_world s)) s) a G K l R D.
Proof.
  intros HI Hino Hx. pose proof (fi_free _ _ _ _ _ _ _ HI) as Hf. destruct (free_pages sbi _ _ Hf) as [Hl _].
  assert (Hmeta : forall x, slot s ino <= x < slot s ino + 72 -> meta x).
  { intros x Hr. apply (fi_slot _ _ _ _ _ _ _ HI ino); [done|]. unfold RDFS_INODE_SIZE. lia. }
  assert (Hf' : free m' l).
  { apply (free_ext sbi (f_mem s)); [|done]. intros x Hfx. apply Hx. intros Hr.
    by apply (meta_foot sbi l x Hl (Hmeta x Hr)). }
  apply inv_mem; [done|done|]. intros dir i g rs Hi Hg Hok.
  destruct (fi_ino _ _ _ _ _ _ _ HI dir i Hi) as [Ei _]. pose proof Hok as [_ Hp _ _ _ _ _ _ _ _ _].
  apply (dir_ok_frame (f_mem s)); [by eapply (free_inode sbi)| | |done].
  - intros x Hr. apply Hx. rewrite Ei in Hr. change (get_rdfs_inode (f_mem s) sbi dir) with (slot s dir) in Hr.
    unfold inode_off.i_pg_addr in Hr. destruct (decide (dir = ino)) as [->|Hne]; [lia|].
    destruct (fi_slots _ _ _ _ _ _ _ HI dir ino (mk_is_Some _ _ Hi) Hino Hne); unfold RDFS_INODE_SIZE in *; lia.
  - intros p x Hin Hpx. apply Hx. intros Hr. rewrite Forall_forall in Hp.
    by apply (meta_page sbi p x (Hp p Hin) (Hmeta x Hr)).
Qed.

Lemma update_inode_frame m i x :
  ~ (get_rdfs_inode m sbi (i_ino i) <= x < get_rdfs_inode m sbi (i_ino i) + 72) ->
  ldb (rdfs_update_inode sbi m i).2 x = ldb m x.
Proof using Type.
  intros Hx. unfold rdfs_update_inode. destruct (_ =? 0); [done|]. cbn [snd].
  unfold inode_off.i_mode, inode_off.i_uid, inode_off.i_gid, inode_off.i_link_counts, inode_off.i_size, inode_off.i_blocks,
    inode_off.i_atime, inode_off.i_ctime, inode_off.i_mtime, inode_off.i_generation.
  rewrite !ldb_st, !decide_False by lia. done.
Qed.

Lemma dirty_ok s a G K l R D ino : fs_inv s a G K l R D -> is_Some (f_inodes s !! ino) ->
  exists s', mark_inode_dirty sbi s ino = Ret s' /\ fs_inv s' a G K l R D /\ f_inodes s' = f_inodes s /\
    w_km (f_world s') = w_km (f_world s).
Proof.
  intros HI [i Hi]. destruct (fi_ino _ _ _ _ _ _ _ HI ino i Hi) as [Ei _].
  eexists. unfold mark_inode_dirty, get_inode. rewrite Hi. cbn [mbind outcome_bind]. split; [reflexivity|].
  split; [|done]. apply (inv_slot s a G K l R D ino); [done|by exists i|]. intros x Hx. unfold rdfs_dirty_inode.
  apply update_inode_frame. by rewrite Ei.
Qed.

(** ** In-core inodes *)

Lemma set_links_id a ino n : a_links a !! ino = Some n -> set_links ino n a = a.
Proof using Type. intros Hn. unfold set_links. rewrite insert_id by done. by destruct a. Qed.

Lemma inv_link s a G K l R D ino i : fs_inv s a G K l R D -> f_inodes s !! ino = Some i -> a_links a !! ino = Some (i_nlink i).
Proof using Type. intros HI Hi. rewrite (fi_links _ _ _ _ _ _ _ HI), lookup_fmap, Hi. done. Qed.

Lemma inv_cached s a G K l R D ino n : fs_inv s a G K l R D -> a_links a !! ino = Some n ->
  exists i, f_inodes s !! ino = Some i /\ i_nlink i = n /\ i_ino i = ino.
Proof using Type.
  intros HI Hn. rewrite (fi_links _ _ _ _ _ _ _ HI), lookup_fmap in Hn. destruct (f_inodes s !! ino) as [i|] eqn:Ei; [|done].
  injection Hn as Hn. exists i. split; [done|]. split; [done|]. by apply (fi_ino _ _ _ _ _ _ _ HI).
Qed.

(** Another in-core inode in the cache. *)
Lemma inv_put_gen s a G K l R D ino i i' : fs_inv s a G K l R D -> f_inodes s !! ino = Some i -> i_ino i' = i_ino i ->
  (forall g rs, dir_ok (f_mem s) i g rs -> dir_ok (f_mem s) i' g rs) ->
  (forall k g, map_ok (w_km (f_world s)) D k i g -> map_ok (w_km (f_world s)) D k i' g) ->
  fs_inv (put_inode i' s) (set_size ino (i_size i') (set_links ino (i_nlink i') a)) G K l R D.
Proof using Type.
  intros [H1 H2 H3 H4 H5 H6 H7 H7s H8 H9 H10 H11 H12 H13 H14] Hi Eii Hd Hmap. destruct (H4 ino i Hi) as [Ei Hr].
  assert (Ei' : i_ino i' = ino) by congruence.
  assert (Hdom : forall x, is_Some (f_inodes (put_inode i' s) !! x) -> is_Some (f_inodes s !! x)).
  { intros x. cbn. rewrite Ei'. destruct (decide (x = ino)) as [->|]; [by rewrite Hi|by rewrite lookup_insert_ne]. }
  split; try done.
  - intros x j Hx. cbn in Hx. rewrite Ei' in Hx. apply lookup_insert_Some in Hx as [[<- <-]|[_ Hx]]; [done|by apply H4].
  - intros x y Hx. apply H5, Hdom, Hx.
  - intros x y Hx Hy. apply H6; by apply Hdom.
  - cbn. by rewrite Ei', fmap_insert, H7.
  - cbn. by rewrite Ei', fmap_insert, H7s.
  - intros dir N HN. destruct (H8 dir N HN) as (j & g & rs & Hj & Hg & Hok & En & Hm). cbn. rewrite Ei'.
    destruct (decide (dir = ino)) as [->|Hne].
    + rewrite Hi in Hj. injection Hj as <-. exists i', g, rs. rewrite lookup_insert_eq. do 2 (split; [done|]).
      split; [by apply Hd|]. split; [done|]. by apply Hmap.
    + exists j, g, rs. by rewrite lookup_insert_ne.
Qed.

Lemma inv_put s a G K l R D ino i i' : fs_inv s a G K l R D -> f_inodes s !! ino = Some i -> same_dir i i' ->
  fs_inv (put_inode i' s) (set_links ino (i_nlink i') a) G K l R D.
Proof using Type.
  intros HI Hi Hs. pose proof Hs as (E1 & _ & E3 & _).
  pose proof (inv_put_gen s a G K l R D ino i i' HI Hi E1 ltac:(intros g rs; by apply dir_ok_inode) ltac:(intros k g; by apply map_ok_inode)) as HI'.
  unfold set_size in HI'. rewrite insert_id in HI'; [exact HI'|]. cbn. by rewrite (fi_sizes _ _ _ _ _ _ _ HI), lookup_fmap, Hi, E3.
Qed.

Lemma nlink_ok s a G K l R D ino n f : fs_inv s a G K l R D -> a_links a !! ino = Some n ->
  exists i, get_inode s ino = Ret i /\ i_nlink i = n /\
    fs_inv (put_inode (set_i_nlink (f n) i) s) (set_links ino (f n) a) G K l R D /\
    is_Some (f_inodes (put_inode (set_i_nlink (f n) i) s) !! ino).
Proof using Type.
  intros HI Hn. destruct (inv_cached _ _ _ _ _ _ _ _ _ HI Hn) as (i & Hi & En & Ei). exists i.
  unfold get_inode. rewrite Hi. split; [done|]. split; [done|]. split.
  - by apply (inv_put s a G K l R D ino i (set_i_nlink (f n) i)).
  - cbn. rewrite Ei. by rewrite lookup_insert_eq.
Qed.

Lemma inc_link_ok s a G K l R D ino n : fs_inv s a G K l R D -> a_links a !! ino = Some n ->
  exists s', inode_inc_link_count sbi s ino = Ret s' /\ fs_inv s' (set_links ino (u32 (n + 1)) a) G K l R D.
Proof.
  intros HI Hn. destruct (nlink_ok _ _ _ _ _ _ _ _ _ (fun n => u32 (n + 1)) HI Hn) as (i & Eg & En & HI' & Hs).
  destruct (dirty_ok _ _ _ _ _ _ _ _ HI' Hs) as (s' & E & HI2 & _). exists s'. split; [|done].
  unfold inode_inc_link_count. rewrite Eg. cbn [mbind outcome_bind]. by rewrite En.
Qed.

Lemma drop_link_ok s a G K l R D ino n : fs_inv s a G K l R D -> a_links a !! ino = Some n ->
  exists s', drop_nlink s ino = Ret s' /\ fs_inv s' (set_links ino (u32 (n - 1)) a) G K l R D /\
    is_Some (f_inodes s' !! ino).
Proof.
  intros HI Hn. destruct (nlink_ok _ _ _ _ _ _ _ _ _ (fun n => u32 (n - 1)) HI Hn) as (i & Eg & En & HI' & Hs).
  eexists. split; [|split; [exact HI'|exact Hs]]. unfold drop_nlink. rewrite Eg. cbn [mbind outcome_bind]. by rewrite En.
Qed.

Lemma dec_link_ok s a G K l R D ino n : fs_inv s a G K l R D -> a_links a !! ino = Some n ->
  exists s', inode_dec_link_count sbi s ino = Ret s' /\ fs_inv s' (set_links ino (u32 (n - 1)) a) G K l R D.
Proof.
  intros HI Hn. destruct (drop_link_ok _ _ _ _ _ _ _ _ _ HI Hn) as (s1 & E1 & HI1 & Hs).
  destruct (dirty_ok _ _ _ _ _ _ _ _ HI1 Hs) as (s' & E & HI2 & _). exists s'. split; [|done].
  unfold inode_dec_link_count. rewrite E1. done.
Qed.

(** ** A mapped directory *)

Lemma area_of_used R D nv va : areas nv R D -> va ∈ D.2.*2 -> dir_area va.
Proof using Type.
  intros [Z0 Hn] (c & -> & Hc)%list_elem_of_fmap. pose proof (rep_dir_addr _ _ _ Hn) as Hf. rewrite Forall_forall in Hf.
  apply Hf, elem_of_app. by right.
Qed.

(** Directory [dir] is mapped: its bytes are the view [v]. *)
Record viewed (s : fs) (a : afs) (G : gmap Z lay) (K : gmap Z (Z * Z)) (dir : Z) (N : gmap (list Z) Z)
  (i : inode) (g : lay) (rs : list drec) (v : mem) : Prop := {
  vw_inode : f_inodes s !! dir = Some i;
  vw_ino : i_ino i = dir;
  vw_lay : G !! dir = Some g;
  vw_ok : dir_ok (f_mem s) i g rs;
  vw_size : i_size i <> 0;
  vw_names : names rs = N;
  vw_map : mapped_at (w_km (f_world s)) (ni_virt_addr i) g;
  vw_load : dir_view sbi s i = Ret v;
  vw_rep : dir_rep v i rs
}.

Lemma dir_pages_eq i g m rs : dir_ok m i g rs -> i_size i <> 0 -> dir_pages i = length (l_data g).
Proof using Type.
  intros [_ _ _ _ _ [H6|H6] _ _ _ _ _] Hl; [done|]. unfold dir_pages. rewrite H6, Z.mul_comm, Z.div_mul by done. lia.
Qed.

Lemma dir_rep_view m i g rs va : dir_ok m i g rs -> i_size i <> 0 -> ni_virt_addr i = va -> 0 < va ->
  dir_rep (page_view m (l_data g) va ∅) i rs.
Proof using Type.
  intros [H1 H2 H3 H4 H5 [H6|H6] H7 H8 H9 H10 H11] Hl Ev Hva; [done|]. split; [by rewrite Ev|by rewrite H6|done|].
  rewrite Ev, H9. unfold PAGE_SIZE. lia.
Qed.

Lemma view_ok s a G K l R D dir N k : fs_inv s a G K l R D -> live_dir a dir N -> K !! dir = Some k ->
  exists i g rs v, viewed s a G K dir N i g rs v /\ ni_virt_addr i = k.2.
Proof.
  intros HI [HN Hsz] Hk. destruct (fi_dirs _ _ _ _ _ _ _ HI dir N HN) as (i & g & rs & Hi & Hg & Hok & En & Hm).
  assert (Hl : i_size i <> 0).
  { intros Ez. apply Hsz. by rewrite (fi_sizes _ _ _ _ _ _ _ HI), lookup_fmap, Hi, <- Ez. }
  destruct k as [n va]. rewrite Hk in Hm. destruct Hm as (_ & Ev & _ & Hu & Hkm).
  pose proof (area_of_used _ _ _ _ (fi_nvm _ _ _ _ _ _ _ HI) Hu) as Ha.
  assert (Hva : 0 < va) by (destruct Ha as (j & Hj & ->); unfold RDFS_START, MAX_DIR_SIZE; lia).
  assert (Hma : mapped_at (w_km (f_world s)) (ni_virt_addr i) g) by (rewrite Ev; by split).
  exists i, g, rs, (page_view (f_mem s) (l_data g) va ∅). split; [|done].
  destruct (fi_ino _ _ _ _ _ _ _ HI dir i Hi) as [Ei _]. split; try done; [|by apply dir_rep_view].
  unfold dir_view. rewrite (dir_pages_eq _ _ _ _ Hok Hl). pose proof Hok as [_ H2 _ H4 _ _ H7 _ _ _ _].
  pose proof (load_view (f_world s) g (i_ino i) (ni_virt_addr i) (length (l_data g)) 0 ∅ H4 H2 ltac:(lia) Hma ltac:(lia)) as E.
  rewrite Z.mul_0_r, Z.add_0_r, drop_0, Ev in E. by rewrite Ev.
Qed.

(** Changing blocks of one directory keeps the others. *)
Lemma other_dir_ok s a G K l R D dir g d j gd rsd m' : fs_inv s a G K l R D -> G !! dir = Some g ->
  Forall page_ok (lay_pages g) -> dir <> d ->
  f_inodes s !! d = Some j -> G !! d = Some gd -> dir_ok (f_mem s) j gd rsd -> free m' l ->
  (forall x, (forall p, p ∈ lay_pages g -> ~ in_page sbi p x) -> ldb m' x = ldb (f_mem s) x) ->
  dir_ok m' j gd rsd.
Proof.
  intros HI Hg Hp Hne Hj Hgd Hok Hf' Hx. destruct (fi_ino _ _ _ _ _ _ _ HI d j Hj) as [Ei _].
  pose proof (fi_free _ _ _ _ _ _ _ HI) as Hf. pose proof Hok as [_ Hpd _ _ _ _ _ _ _ _ _]. rewrite Forall_forall in Hp, Hpd.
  apply (dir_ok_frame (f_mem s)); [by eapply (free_inode sbi)| | |done].
  - intros x Hr. apply Hx. intros p Hin. apply (meta_page sbi p x (Hp p Hin)).
    apply (fi_root _ _ _ _ _ _ _ HI d); [by apply (fi_dom _ _ _ _ _ _ _ HI); exists gd|]. rewrite Ei in Hr. unfold slot, inode_off.i_pg_addr in *. lia.
  - intros q x Hq Hqx. apply Hx. intros p Hin Hpx. assert (p = q) as -> by (by eapply (page_disjoint sbi); eauto).
    by apply (fi_apart _ _ _ _ _ _ _ HI dir d g gd q).
Qed.

Lemma flush_ok s a G K l R D dir N i g rs v i' v' rs' : fs_inv s a G K l R D -> a_names a !! dir = Some N ->
  viewed s a G K dir N i g rs v -> same_dir i i' -> dir_rep v' i' rs' -> dot_head rs' ->
  exists s', dir_flush sbi s i' v' = Ret s' /\
    fs_inv s' (set_names dir (names rs') (set_links dir (i_nlink i') a)) G K l R D /\
    f_inodes s' = <[dir := i']> (f_inodes s) /\ w_km (f_world s') = w_km (f_world s).
Proof.
  intros HI HN [Hi Ei Hg Hok Hl En Hma _ _] Hsame HD Hdot.
  pose proof (inv_dir_mem s a G K l R D dir i g rs HI Hi Hg Hok) as HM.
  destruct Hsame as (S1 & S2 & S3 & S4 & S5 & S6).
  destruct (store_view (f_world s) g l dir (ni_virt_addr i) (length (l_data g)) 0 v' HM Hma ltac:(lia)) as (m' & E & Hw & Hx).
  rewrite Z.mul_0_r, Z.add_0_r in E. rewrite drop_0 in Hx.
  pose proof (dir_mem_blocks _ m' l dir g HM Hx) as HM'. pose proof (dm_free _ _ _ _ HM') as Hf'.
  assert (Ep : dir_pages i' = length (l_data g)) by (unfold dir_pages; rewrite S3; by apply (dir_pages_eq i g (f_mem s) rs)).
  destruct (do_size _ _ _ _ Hok) as [|Hsz]; [done|].
  exists (put_inode i' (set_world (set_mem m' (f_world s)) s)). unfold dir_flush. rewrite Ep, S5, E. split; [done|].
  cbn [put_inode set_world f_inodes f_world]. rewrite S1, Ei. split; [|done].
  pose proof HI as [H1 H2 H3 H4 H5 H6 H7 H7s H8 H9 H10 H11 H12 H13 H14].
  assert (Es : forall x, get_rdfs_inode m' sbi x = slot s x) by (intros x; by eapply (free_inode sbi)).
  set (s' := put_inode i' _).
  assert (Hin' : f_inodes s' = <[dir := i']> (f_inodes s)) by (cbn; by rewrite S1, Ei).
  assert (Hdom : forall x, is_Some (f_inodes s' !! x) -> is_Some (f_inodes s !! x)).
  { intros x. rewrite Hin'. destruct (decide (x = dir)) as [->|]; [by rewrite Hi|by rewrite lookup_insert_ne]. }
  split; try done.
  - intros x j. rewrite Hin'. intros [[<- <-]|[_ Hj]]%lookup_insert_Some; [rewrite S1; apply (H4 dir i Hi)|by apply H4].
  - intros x y Hs. unfold slot. change (f_mem s') with m'. rewrite Es. apply H5. by apply Hdom.
  - intros x y Hs1 Hs2. unfold slot. change (f_mem s') with m'. rewrite !Es. apply H6; by apply Hdom.
  - cbn [a_links set_names set_links]. by rewrite Hin', fmap_insert, H7.
  - cbn [a_sizes set_names set_links]. rewrite Hin', fmap_insert, S3, H7s, insert_id; [done|]. by rewrite lookup_fmap, Hi.
  - intros d Nd. cbn [a_names set_names set_links]. rewrite Hin'. intros [[<- <-]|[Hne HNd]]%lookup_insert_Some.
    + exists i', g, rs'. rewrite lookup_insert_eq. do 2 (split; [done|]). split; [|split; [done|]].
      * pose proof Hok as [G1 G2 G3 G4 G5 G6 G7 G8 G9 G10 G11]. destruct HD as [D1 D2 D3 D4].
        assert (Et : total rs' = PAGE_SIZE * Z.of_nat (length (l_data g))) by lia.
        split; rewrite ?S1, ?S2, ?S3, ?S4; try done; [by rewrite Ei; apply HM'|].
        intros va. apply (recs_shift v' _ (ni_virt_addr i')); [|done]. intros o Ho. rewrite ldb_page_view, decide_True by lia.
        replace (va + o - va) with o by lia. rewrite Et in Ho.
        destruct (byte_addr_page (l_data g) o Ho) as (k & p & Hk & _ & -> & Eo).
        change (f_mem s') with m'. rewrite (Hw k p) by (done || lia || (unfold PAGE_SIZE; zdm)). rewrite S5. f_equal. lia.
      * destruct (H8 dir N HN) as (i0 & g0 & rs0 & Hi0 & Hg0 & _ & _ & Hm0).
        assert (i0 = i) as -> by congruence. assert (g0 = g) as -> by congruence.
        by apply (map_ok_inode _ _ _ i).
    + destruct (H8 d Nd HNd) as (j & gd & rsd & Hj & Hgd & Hokd & End & Hmd). exists j, gd, rsd.
      rewrite lookup_insert_ne by done. do 2 (split; [done|]). split; [|done].
      apply (other_dir_ok s a G K l R D dir g d); try done; [apply Hok|].
      intros x Hxx. apply Hx. intros p Hp. apply Hxx. unfold lay_pages. set_solver.
  - intros d Hs. cbn. specialize (H9 d Hs). destruct (decide (d = dir)) as [->|]; [by rewrite lookup_insert_eq|by rewrite lookup_insert_ne].
  - intros d Hs. cbn. specialize (H10 d Hs). destruct (decide (d = dir)) as [->|]; [by rewrite lookup_insert_eq|by rewrite lookup_insert_ne].
  - intros d x Hs Hxr. apply (H14 d); [|by rewrite <- Es]. destruct (decide (d = dir)) as [->|Hne]; [by rewrite HN|]. cbn in Hs. by rewrite lookup_insert_ne in Hs.
Qed.
End rep.
