(* ===== verification/DirFs.v ===== *)
(** * Operations on the represented directories (dir.c, mapping.c)

    The mapping calls and the directory operations of [DirMap] keep the
    representation: each is proved to return, and to do to the map of names what
    its name says. *)

From S2P Require Import Prelude Mem Layout FreeList Balloc Pages Demo Nvmalloc Vfs Dir Bdev Pgtable SlaveMem Mapping Inode FileData DirMap.

(** The mapped directories after another mapping of [dir], and after one less. *)

Definition openK (dir va : Z) (K : gmap Z (Z * Z)) : gmap Z (Z * Z) :=
  <[dir := (default 0 (fst <$> K !! dir) + 1, va)]> K.
Definition closeK (dir : Z) (K : gmap Z (Z * Z)) : gmap Z (Z * Z) :=
  match K !! dir with
  | Some (n, va) => if n =? 1 then delete dir K else <[dir := (n - 1, va)]> K
  | None => K
  end.

Section ops.
Context `{!KernelPg} {sbi : rdfs_sb_info}.
Context {free : mem -> list Z -> Prop} {foot : list Z -> Z -> Prop} {page_ok meta : Z -> Prop}.
Context `{!PageAlloc sbi free foot page_ok meta}.

Local Abbreviation fs_inv := (DirMap.fs_inv (sbi := sbi) (free := free) (page_ok := page_ok) (meta := meta)).
Local Abbreviation fs_rep := (DirMap.fs_rep (sbi := sbi) (free := free) (page_ok := page_ok) (meta := meta)).
Local Abbreviation dir_ok := (DirMap.dir_ok (sbi := sbi) (page_ok := page_ok)).
Local Abbreviation dir_mem := (DirMap.dir_mem (sbi := sbi) (free := free) (page_ok := page_ok) (meta := meta)).
Local Abbreviation viewed := (DirMap.viewed (sbi := sbi) (page_ok := page_ok)).

(** ** Mapping and unmapping *)

Lemma dir_area_tests va : dir_area va -> (va =? 0) = false /\ in_dir_area va = true /\ addr_mode va = Some 1.
Proof using Type.
  intros Ha. split; [|split; [|by apply dir_area_mode]].
  - destruct Ha as (j & Hj & ->). unfold RDFS_START, MAX_DIR_SIZE. lia.
  - destruct Ha as (j & Hj & ->). rewrite dir_areas_eq in Hj. unfold in_dir_area, RDFS_START, MAX_DIR_SIZE, DIR_AREA_SIZE in *.
    rewrite u64_small by lia. apply andb_true_iff. split; [apply Z.leb_le|apply Z.ltb_lt]; lia.
Qed.

Lemma area_index va va' : dir_area va -> dir_area va' -> va / MAX_DIR_SIZE = va' / MAX_DIR_SIZE -> va = va'.
Proof using Type.
  intros (j & Hj & ->) (j' & Hj' & ->). unfold RDFS_START, MAX_DIR_SIZE. intros E. zdm.
Qed.

Lemma dir_nvmap kok m km ino g l va : dir_mem m l ino g -> dir_area va -> kok va = true ->
  nvmap sbi kok m km va (rdfs_get_pud sbi m ino)
  = Ret (0, mk_kmm (kpud km) (<[va / MAX_DIR_SIZE := dir_entry (Some (l_pte g))]> (kpmd km))).
Proof.
  intros [Hf Hs [T1 T2 T3 T4] Hp Hn Hu Hl] Ha Hok. destruct (dir_area_tests va Ha) as (E1 & E2 & _).
  unfold lay_pages in Hp. rewrite !Forall_cons in Hp. destruct Hp as (P1 & P2 & P3 & _).
  rewrite (root_pud sbi m ino (l_top g) P1 T1). unfold nvmap. rewrite E1, E2.
  rewrite (va_nz sbi (l_top g) P1). cbn [orb]. unfold nvmap_dir. rewrite Hok. cbn [negb].
  rewrite (get_pmd_eq sbi m _ (l_pmd g) P2 T2), (get_pte_eq sbi m _ (l_pte g) P3 T3), (pa_va sbi) by done. done.
Qed.

(** Changing the mapping of one directory. *)
Lemma inv_remap s a G K l R D dir N i g rs i' km' nv' K' D' :
  fs_inv s a G K l R D -> a_names a !! dir = Some N -> f_inodes s !! dir = Some i -> G !! dir = Some g ->
  dir_ok (f_mem s) i g rs -> names rs = N ->
  i_ino i' = i_ino i /\ i_mode i' = i_mode i /\ i_size i' = i_size i /\ i_blocks i' = i_blocks i /\ i_nlink i' = i_nlink i ->
  areas nv' R D' -> D'.1 ++ D'.2 ≡ₚ D.1 ++ D.2 -> map_ok km' D' (K' !! dir) i' g ->
  (forall d, d <> dir -> K' !! d = K !! d) ->
  (forall d n va, d <> dir -> K !! d = Some (n, va) ->
     va ∈ D'.2.*2 /\ kpmd km' !! (va / MAX_DIR_SIZE) = kpmd (w_km (f_world s)) !! (va / MAX_DIR_SIZE)) ->
  (forall d n n' va, d <> dir -> K' !! dir = Some (n, va) -> K !! d = Some (n', va) -> False) ->
  fs_inv (mk_fs (set_nvm nv' (set_km km' (f_world s))) (<[dir := i']> (f_inodes s))) a G K' l R D'.
Proof using Type.
  intros HI HN Hi Hg Hok En (S1 & S2 & S3 & S4 & S5) Hnv Hperm Hm HK Hoth Hinj.
  pose proof HI as [H1 H2 H3 H4 H5 H6 H7 H7s H8 H9 H10 H11 H12 H13 H14]. destruct (H4 dir i Hi) as [Ei Hr].
  set (s' := mk_fs _ _).
  assert (Hdom : forall x, is_Some (f_inodes s' !! x) -> is_Some (f_inodes s !! x)).
  { intros x. cbn. destruct (decide (x = dir)) as [->|]; [by rewrite Hi|by rewrite lookup_insert_ne]. }
  split; try done.
  - by rewrite Hperm.
  - intros x j. cbn. intros [[<- <-]|[_ Hj]]%lookup_insert_Some; [by rewrite S1|by apply H4].
  - intros x y Hs. by apply H5, Hdom.
  - intros x y Hs1 Hs2. apply H6; by apply Hdom.
  - cbn. rewrite fmap_insert, S5, H7, insert_id; [done|]. by rewrite lookup_fmap, Hi.
  - cbn. rewrite fmap_insert, S3, H7s, insert_id; [done|]. by rewrite lookup_fmap, Hi.
  - intros d Nd HNd. destruct (decide (d = dir)) as [->|Hne].
    + exists i', g, rs. cbn. rewrite lookup_insert_eq. do 2 (split; [done|]).
      assert (N = Nd) as -> by congruence. split; [|by split].
      destruct Hok as [G1 G2 G3 G4 G5 G6 G7 G8 G9 G10 G11]. split; rewrite ?S1, ?S2, ?S3, ?S4; done.
    + destruct (H8 d Nd HNd) as (j & gd & rsd & Hj & Hgd & Hokd & End & Hmd). exists j, gd, rsd. cbn.
      rewrite lookup_insert_ne by done. do 4 (split; [done|]). rewrite HK by done.
      destruct (K !! d) as [[n va]|] eqn:Ek; [|done]. destruct Hmd as (M1 & M2 & M3 & M4 & M5).
      destruct (Hoth d n va Hne Ek) as [O1 O2]. unfold map_ok. by rewrite O2.
  - intros d Hs. destruct (decide (d = dir)) as [->|Hne]; [by rewrite HN|]. rewrite HK in Hs by done. by apply H10.
  - intros d d' n n' va Hd Hd'. destruct (decide (d = dir)) as [->|N1], (decide (d' = dir)) as [->|N2]; [done|..].
    + rewrite (HK d') in Hd' by done. by destruct (Hinj d' n n' va).
    + rewrite (HK d) in Hd by done. by destruct (Hinj d n' n va).
    + rewrite HK in Hd by done. rewrite HK in Hd' by done. by apply (H13 d d' n n' va).
Qed.

Lemma used_dirs s a G K l R D dir n va : fs_inv s a G K l R D -> K !! dir = Some (n, va) ->
  va ∈ D.2.*2 /\ dir_area va.
Proof using Type.
  intros HI Hk. destruct (fi_kdom _ _ _ _ _ _ _ HI dir (mk_is_Some _ _ Hk)) as [N HN].
  destruct (fi_dirs _ _ _ _ _ _ _ HI dir N HN) as (i & g & rs & _ & _ & _ & _ & Hm). rewrite Hk in Hm.
  destruct Hm as (_ & _ & _ & Hu & _). split; [done|]. by apply (area_of_used R D (w_nvm (f_world s))); [apply HI|].
Qed.

Lemma establish_ok kok ptr s a K l T dir N :
  fs_rep s a K l T -> a_names a !! dir = Some N -> (forall va, dir_area va -> kok va = true) ->
  (K !! dir = None -> (size K < T)%nat) -> (forall n va, K !! dir = Some (n, va) -> n + 1 < 2 ^ 30) ->
  exists s' va, establish sbi kok ptr s dir = Ret (0, s') /\ fs_rep s' a (openK dir va K) l T /\
    (forall n va', K !! dir = Some (n, va') -> va' = va /\ 1 <= n).
Proof.
  intros (G & R & D & HI & HT) HN Hok Hfree Hcnt.
  destruct (fi_dirs _ _ _ _ _ _ _ HI dir N HN) as (i & g & rs & Hi & Hg & Hdk & En & Hm).
  pose proof (inv_dir_mem s a G K l R D dir i g rs HI Hi Hg Hdk) as HM. pose proof Hdk as [Hmode _ _ _ _ _ _ _ _ _ _].
  destruct (fi_ino _ _ _ _ _ _ _ HI dir i Hi) as [Ei _].
  unfold establish, get_inode, rdfs_establish_mapping. rewrite Hi. cbn [mbind outcome_bind]. rewrite Ei.
  unfold openK. destruct (K !! dir) as [[n va]|] eqn:Ek.
  - destruct Hm as (M1 & M2 & M3 & M4 & M5). destruct (used_dirs _ _ _ _ _ _ _ _ _ _ HI Ek) as [_ Ha].
    destruct (dir_area_tests va Ha) as (T1 & T2 & _). cbn [ni_virt_addr ni_mapping_count set_ni_mapping_count].
    rewrite M2, T1. cbn [mbind outcome_bind ni_virt_addr set_ni_mapping_count]. rewrite M2, T2. cbn [orb].
    change (w_mem (f_world s)) with (f_mem s). rewrite (dir_nvmap kok _ _ dir g l va HM Ha (Hok va Ha)). cbn [mbind outcome_bind].
    rewrite insert_id by done. eexists _, va. split; [reflexivity|]. rewrite M1, s32_small by lia. cbn [fmap option_fmap option_map default fst].
    split; [|intros n' va' [= <- <-]; by split; [|lia]]. exists G, R, D. split; [|rewrite map_size_insert, Ek; done].
    apply (inv_remap s a G K l R D dir N i g rs _ _ (w_nvm (f_world s)) _ D HI HN Hi Hg Hdk En); [done|apply HI|done| | | |].
    + rewrite lookup_insert_eq. cbn. split; [done|]. split; [done|]. specialize (Hcnt n va eq_refl). by split; [lia|].
    + intros d Hd. by rewrite lookup_insert_ne.
    + intros d n' va' Hd Hk'. split; [by apply (used_dirs _ _ _ _ _ _ _ _ _ _ HI Hk')|done].
    + intros d n1 n2 va' Hd Hk1 Hk2. rewrite lookup_insert_eq in Hk1. injection Hk1 as <- <-.
      apply Hd. by apply (fi_inj _ _ _ _ _ _ _ HI d dir n2 n va).
  - destruct Hm as [M1 M2]. specialize (Hfree eq_refl). cbn [ni_virt_addr set_ni_mapping_count]. rewrite M2. cbn [Z.eqb].
    unfold take_area. cbn [i_mode set_ni_mapping_count]. rewrite Hmode. cbn [orb].
    destruct (fi_nvm _ _ _ _ _ _ _ HI) as [Z0 Hrep].
    destruct (nvmalloc_refines (w_nvm (f_world s)) R _ 1 Hrep) as (nv & Ea & Hnv).
    destruct D as [[|c F] U]; cbn [fst length] in HT; [lia|]. cbn [Z.eqb Pos.eqb spec_alloc fst snd app] in Ea, Hnv. rewrite Ea.
    assert (Ha : dir_area c.2) by (pose proof (rep_dir_addr _ _ _ Hrep) as Hf; by inversion Hf).
    destruct (dir_area_tests c.2 Ha) as (T1 & T2 & _). cbn [mbind outcome_bind ni_virt_addr set_ni_virt_addr].
    rewrite T2. cbn [orb]. change (w_mem (set_nvm nv (f_world s))) with (f_mem s).
    rewrite (dir_nvmap kok _ _ dir g l c.2 HM Ha (Hok _ Ha)). cbn [mbind outcome_bind]. eexists _, c.2. split; [reflexivity|].
    rewrite M1. change (s32 (0 + 1)) with 1. cbn [default fmap option_fmap option_map]. split; [|done].
    exists G, R, (F, c :: U). split; [|rewrite map_size_insert, Ek; cbn; lia].
    assert (Hnew : forall d n va, K !! d = Some (n, va) -> va <> c.2).
    { intros d n va Hd ->. destruct (used_dirs _ _ _ _ _ _ _ _ _ _ HI Hd) as [Hu _].
      pose proof (pool_addrs _ _ _ _ _ (rep_dir _ _ _ Hrep)) as Hnd. cbn in Hnd, Hu.
      apply NoDup_cons in Hnd as [Hnd _]. apply Hnd, elem_of_app. by right. }
    apply (inv_remap s a G K l R (c :: F, U) dir N i g rs _ _ nv _ (F, c :: U) HI HN Hi Hg Hdk En); [done|by exists Z0| | | | |].
    + cbn [fst snd]. by rewrite <- Permutation_middle.
    + rewrite lookup_insert_eq. cbn. split; [done|]. split; [done|]. split; [lia|]. split; [constructor|by rewrite lookup_insert_eq].
    + intros d Hd. by rewrite lookup_insert_ne.
    + intros d n' va' Hd Hk'. destruct (used_dirs _ _ _ _ _ _ _ _ _ _ HI Hk') as [Hu Ha']. split; [by constructor|].
      cbn. rewrite lookup_insert_ne; [done|]. intros E. by apply (Hnew d n' va' Hk'), area_index.
    + intros d n1 n2 va' Hd Hk1 Hk2. rewrite lookup_insert_eq in Hk1. injection Hk1 as <- <-. by apply (Hnew d n2 c.2 Hk2).
Qed.
(** Releasing a used area. *)
Lemma free_used nv R D va : areas nv R D -> va ∈ D.2.*2 -> exists nv' D', nvfree nv va = Ret nv' /\ areas nv' R D' /\
  D'.1 ++ D'.2 ≡ₚ D.1 ++ D.2 /\ length D'.1 = S (length D.1) /\ (forall v, v ∈ D.2.*2 -> v <> va -> v ∈ D'.2.*2).
Proof.
  intros Hn Hu. pose proof (area_of_used _ _ _ _ Hn Hu) as Ha. destruct (dir_area_tests va Ha) as (_ & _ & Hm). destruct Hn as [Z0 Hn].
  destruct (nvfree_refines nv R _ va 1 Hn Hm) as (nv' & E & Hn'); [by intros En; cbn in En; rewrite En in Hu; apply not_elem_of_nil in Hu|].
  cbn [Z.eqb Pos.eqb] in Hn'. unfold spec_free in Hn'. cbn [fst snd] in Hn'. destruct (list_find _ D.2) as [[j c]|] eqn:Ef.
  - destruct (used_cut _ _ _ _ Ef) as (p & U1 & U2 & -> & EU & E1 & E2 & _). rewrite E1, E2 in Hn'.
    exists nv', ((p, va) :: D.1, U1 ++ U2). split; [done|]. split; [by exists Z0|]. rewrite EU. cbn [fst snd]. split; [|split].
    + by rewrite <- !Permutation_middle.
    + done.
    + intros v Hv Hne. rewrite fmap_app in Hv |- *. cbn in Hv. set_solver.
  - apply list_find_None in Ef. apply list_elem_of_fmap in Hu as (c & -> & Hc). rewrite Forall_forall in Ef. by destruct (Ef c Hc).
Qed.

Lemma world_id (w : world) : set_nvm (w_nvm w) (set_km (w_km w) w) = w.
Proof using Type. by destruct w. Qed.

Lemma destroy_ok s a K l T dir n va : fs_rep s a K l T -> K !! dir = Some (n, va) ->
  exists s', destroy sbi s dir = Ret (0, s') /\ fs_rep s' a (closeK dir K) l T.
Proof.
  intros (G & R & D & HI & HT) Hk. destruct (fi_kdom _ _ _ _ _ _ _ HI dir (mk_is_Some _ _ Hk)) as [N HN].
  destruct (fi_dirs _ _ _ _ _ _ _ HI dir N HN) as (i & g & rs & Hi & Hg & Hdk & En & Hm).
  pose proof (inv_dir_mem s a G K l R D dir i g rs HI Hi Hg Hdk) as HM. rewrite Hk in Hm. destruct Hm as (M1 & M2 & M3 & M4 & M5).
  destruct (used_dirs _ _ _ _ _ _ _ _ _ _ HI Hk) as [_ Ha]. destruct (dir_area_tests va Ha) as (T1 & T2 & _).
  destruct (fi_ino _ _ _ _ _ _ _ HI dir i Hi) as [Ei _].
  unfold destroy, get_inode, rdfs_destroy_mapping. rewrite Hi. cbn [mbind outcome_bind]. rewrite Ei, M2, T1.
  cbn [ni_mapping_count set_ni_mapping_count]. rewrite M1, s32_small by lia. unfold closeK. rewrite Hk.
  destruct (Z.ltb_spec 0 (n - 1)) as [Hn|Hn]; cbn [mbind outcome_bind].
  - rewrite (proj2 (Z.eqb_neq n 1)) by lia. eexists. split; [reflexivity|]. exists G, R, D. split; [|rewrite map_size_insert, Hk; done].
    rewrite <- (world_id (f_world s)).
    apply (inv_remap s a G K l R D dir N i g rs _ _ (w_nvm (f_world s)) _ D HI HN Hi Hg Hdk En); [done|apply HI|done| | | |].
    + rewrite lookup_insert_eq. cbn. do 2 (split; [done|]). by split; [lia|].
    + intros d Hd. by rewrite lookup_insert_ne.
    + intros d n' va' Hd Hk'. split; [by apply (used_dirs _ _ _ _ _ _ _ _ _ _ HI Hk')|done].
    + intros d n1 n2 va' Hd Hk1 Hk2. rewrite lookup_insert_eq in Hk1. injection Hk1 as <- <-.
      apply Hd. by apply (fi_inj _ _ _ _ _ _ _ HI d dir n2 n va).
  - assert (n = 1) as -> by lia. cbn [Z.eqb Pos.eqb]. change (w_mem (f_world s)) with (f_mem s).
    destruct HM as [Hf Hs [T1' T2' T3' T4'] Hp Hnd Hu Hl]. unfold lay_pages in Hp. rewrite !Forall_cons in Hp. destruct Hp as (P1 & P2 & P3 & _).
    rewrite (root_pud sbi (f_mem s) dir (l_top g) P1 T1'). unfold unnvmap. rewrite (va_nz sbi (l_top g) P1), T1, T2.
    unfold unnvmap_dir. cbn [ni_virt_addr set_ni_mapping_count]. rewrite M2.
    destruct (free_used _ _ _ _ (fi_nvm _ _ _ _ _ _ _ HI) M4) as (nv' & D' & -> & Hnv & Hperm & Hlen & Hkeep). cbn [mbind outcome_bind].
    eexists. split; [reflexivity|]. exists G, R, D'. split; [|rewrite Hlen, map_size_delete, Hk; pose proof (map_size_ne_0_lookup_2 K dir (mk_is_Some _ _ Hk)); lia].
    assert (Hne : forall d n' va', d <> dir -> K !! d = Some (n', va') -> va' <> va)
      by (intros d n' va' Hd Hk' ->; apply Hd; by apply (fi_inj _ _ _ _ _ _ _ HI d dir n' 1 va)).
    apply (inv_remap s a G K l R D dir N i g rs _ _ nv' _ D' HI HN Hi Hg Hdk En); [done|done|done| | | |].
    + rewrite lookup_delete_eq. done.
    + intros d Hd. by rewrite lookup_delete_ne.
    + intros d n' va' Hd Hk'. destruct (used_dirs _ _ _ _ _ _ _ _ _ _ HI Hk') as [Hu' Ha'].
      pose proof (Hne d n' va' Hd Hk') as Hv. split; [by apply Hkeep|].
      cbn. rewrite lookup_delete_ne; [done|]. intros E. by apply Hv, area_index.
    + intros d n1 n2 va' Hd Hk1. by rewrite lookup_delete_eq in Hk1.
Qed.
End ops.
