(* ===== verification/DirOps.v ===== *)
(** * Directory operations on the represented filesystem (dir.c)

    Lookup, removal, relinking, insertion and the emptiness test, on a directory
    of the cache that is mapped, each as a change of the map of names; insertion
    includes the growth of the directory by a page. *)

From S2P Require Import Prelude Mem Layout FreeList Balloc Pages Demo Nvmalloc Vfs Dir Bdev Pgtable SlaveMem Mapping Inode FileData DirMap DirFs.

(** ** Records *)

(** Pointing the entry of a record to another inode. *)
Definition relinked (r : drec) (d : dentry) (x : inode) : drec := new_rec (r_len r) (i_ino x) (i_mode x) (d_name d).

Lemma relinked_rec m a r d x : rec_ok r -> rec_at m a r -> r_ent r = Some d -> 0 < i_ino x < 2 ^ 64 ->
  rec_ok (relinked r d x) /\
  rec_at (rdfs_set_de_type (st 8 m (a + de_off.inode) (i_ino x)) a (i_mode x)) a (relinked r d x).
Proof.
  intros [Hl Hok] [Er Hr] Ed Hi. rewrite Ed in Hok, Hr. destruct Hok as (_ & _ & Hb & Hlen & Hrl). split.
  - apply new_rec_ok; [by split|done|lia].
  - destruct Hr as (E1 & E2 & E3 & E4). pose proof (type_range (Z.shiftr (Z.land (i_mode x) S_IFMT) S_SHIFT)).
    unfold rec_at, relinked, new_rec, rdfs_set_de_type, mode_type, de_rec_len, de_inode, de_name_len, de_file_type,
      de_off.name_len, de_off.name, de_off.inode, de_off.file_type, de_off.rec_len in *.
    cbn [r_len r_ent d_ino d_name d_type]. set (ty := rdfs_type_by_mode _) in *. mem_simpl.
    do 4 (split; [done|]). by rewrite !ld_bytes_st_ne by lia.
Qed.

Lemma names_relinked l1 r d l2 x : r_ent r = Some d -> NoDup (d_name <$> live_ents (l1 ++ r :: l2)) ->
  NoDup (d_name <$> live_ents (l1 ++ relinked r d x :: l2)) /\
  names (l1 ++ relinked r d x :: l2) = <[d_name d := i_ino x]> (names (l1 ++ r :: l2)).
Proof.
  intros Ed Hn. set (d' := mk_dentry (i_ino x) (mode_type (i_mode x)) (d_name d)).
  assert (Hp : live_ents (l1 ++ r :: l2) ≡ₚ d :: live_ents (l1 ++ l2)).
  { change (r :: l2) with ([r] ++ l2). rewrite !live_app. unfold live_ents at 2. cbn. rewrite Ed. cbn.
    by rewrite <- Permutation_middle. }
  assert (Hp' : live_ents (l1 ++ relinked r d x :: l2) ≡ₚ d' :: live_ents (l1 ++ l2)).
  { change (relinked r d x :: l2) with ([relinked r d x] ++ l2). rewrite !live_app. unfold live_ents at 2. cbn.
    by rewrite <- Permutation_middle. }
  destruct (names_delete _ _ d Hp Hn) as [Hn0 E0].
  assert (Hnone : names (l1 ++ l2) !! d_name d = None) by (rewrite E0; apply lookup_delete_eq).
  destruct (names_insert _ _ d' Hp' Hn0 Hnone) as [Hn' ->]. split; [done|].
  cbn [d' d_name d_ino]. by rewrite E0, insert_delete_eq.
Qed.

Lemma set_link_spec m dir l1 r d l2 x update now :
  dir_rep m dir (l1 ++ r :: l2) -> r_ent r = Some d -> 0 < i_ino x < 2 ^ 64 ->
  exists m' dir', rdfs_set_link m dir (ni_virt_addr dir + total l1) x update now = (m', dir') /\
    dir_rep m' dir' (l1 ++ relinked r d x :: l2) /\ same_dir dir dir' /\ i_nlink dir' = i_nlink dir /\
    names (l1 ++ relinked r d x :: l2) = <[d_name d := i_ino x]> (names (l1 ++ r :: l2)).
Proof.
  intros [Hr Ht Hn Ha] Ed Hi. pose proof Hr as [_ (Hok & Hra & _)]%recs_app.
  destruct (relinked_rec _ _ _ _ x Hok Hra Ed Hi) as [Hok' Hra'].
  destruct (names_relinked l1 r d l2 x Ed Hn) as [Hn' En].
  eexists _, _. split; [reflexivity|]. split; [|destruct update; done].
  set (dir' := set_ni_flags _ _). assert (Es : i_size dir' = i_size dir) by (by destruct update).
  assert (Ev : ni_virt_addr dir' = ni_virt_addr dir) by (by destruct update).
  assert (Et : total (l1 ++ relinked r d x :: l2) = total (l1 ++ r :: l2)) by (by rewrite !total_app, !total_cons).
  split; rewrite ?Es, ?Ev, ?Et; try done.
  apply (recs_replace1 m _ _ l1 r l2 [relinked r d x]); [done|rewrite total_cons, total_nil; cbn; lia| |by split; [|split]].
  intros b Hb. destruct Hok as [Hl _]. unfold rdfs_set_de_type, de_off.inode, de_off.file_type.
  by rewrite !ldb_st, !decide_False by lia.
Qed.

(** The first two records survive. *)
Lemma dot_head_split rs l1 r l2 name : dot_head rs -> rs = l1 ++ r :: l2 -> is_named name r = true -> name <> dot -> name <> dotdot ->
  exists r0 r1 k, l1 = r0 :: r1 :: k /\ is_named dot r0 = true /\ is_named dotdot r1 = true /\ r_len r0 = 16.
Proof.
  intros (r0 & r1 & rs' & -> & D0 & D1 & Hl) E Hn N0 N1.
  assert (Hu : forall n n' q, is_named n q = true -> is_named n' q = true -> n = n').
  { intros n n' q (d & E1 & <-)%is_named_live (d' & E2 & <-)%is_named_live. congruence. }
  destruct l1 as [|q0 [|q1 k]]; cbn in E; simplify_eq.
  - exfalso. by apply N0, (Hu _ _ _ Hn).
  - exfalso. by apply N1, (Hu _ _ _ Hn).
  - by exists q0, q1, k.
Qed.

Lemma dot_head_delete l1 p r l2 name : dot_head (l1 ++ p :: r :: l2) -> is_named name r = true ->
  name <> dot -> name <> dotdot -> dot_head (l1 ++ merged p r :: l2).
Proof.
  intros HD Hn N0 N1. destruct (dot_head_split _ (l1 ++ [p]) r l2 name HD) as (r0 & r1 & k & E & D0 & D1 & Hl);
    [by rewrite <- app_assoc|done..|].
  destruct l1 as [|q0 [|q1 l1]]; cbn in E; [done|injection E as -> -> <-|injection E as -> -> <-].
  - by exists r0, (merged r1 r), l2.
  - by exists r0, r1, (l1 ++ merged p r :: l2).
Qed.

Lemma dot_head_relinked l1 r d l2 x : dot_head (l1 ++ r :: l2) -> r_ent r = Some d -> dot_head (l1 ++ relinked r d x :: l2).
Proof.
  intros (r0 & r1 & k & E & D0 & D1 & Hl) Ed. unfold is_named in D0, D1.
  destruct l1 as [|q0 [|q1 l1]]; cbn in E; [injection E as -> ->|injection E as -> -> ->|injection E as -> -> <-].
  - exists (relinked r0 d x), r1, k. split; [done|]. unfold is_named. cbn. by rewrite Ed in D0.
  - exists r0, (relinked r1 d x), k. split; [done|]. unfold is_named. cbn. by rewrite Ed in D1.
  - by exists r0, r1, (l1 ++ relinked r d x :: l2).
Qed.

Lemma dot_head_placed l1 r l2 reclen ino mode name : dot_head (l1 ++ r :: l2) -> 16 <= reclen -> suits reclen r ->
  dot_head (l1 ++ placed r reclen ino mode name ++ l2).
Proof.
  intros (r0 & r1 & k & E & D0 & D1 & Hl) Hr Hs. destruct l1 as [|q0 [|q1 l1]]; cbn in E; [injection E as -> ->|injection E as -> -> ->|injection E as -> -> <-].
  - exfalso. unfold suits in Hs. apply is_named_live in D0 as (d & Ed & En). rewrite Ed, En in Hs.
    change (RDFS_DIR_REC_LEN (Z.of_nat (length dot))) with 16 in Hs. lia.
  - unfold placed. pose proof D1 as (d & -> & En)%is_named_live. cbn. eexists r0, _, _. split; [done|].
    split; [done|]. split; [|done]. by apply is_named_live; exists d.
  - by exists r0, r1, (l1 ++ placed r reclen ino mode name ++ l2).
Qed.

Lemma dot_head_app rs rs' : dot_head rs -> dot_head (rs ++ rs').
Proof. intros (r0 & r1 & k & -> & H). by exists r0, r1, (k ++ rs'). Qed.

Section ops.
Context `{!KernelPg} {sbi : rdfs_sb_info}.
Context {free : mem -> list Z -> Prop} {foot : list Z -> Z -> Prop} {page_ok meta : Z -> Prop}.
Context `{!PageAlloc sbi free foot page_ok meta}.

Local Abbreviation fs_inv := (DirMap.fs_inv (sbi := sbi) (free := free) (page_ok := page_ok) (meta := meta)).
Local Abbreviation fs_rep := (DirMap.fs_rep (sbi := sbi) (free := free) (page_ok := page_ok) (meta := meta)).
Local Abbreviation dir_ok := (DirMap.dir_ok (sbi := sbi) (page_ok := page_ok)).
Local Abbreviation viewed := (DirMap.viewed (sbi := sbi) (page_ok := page_ok)).

(** ** One directory *)

Lemma same_touch i now : same_dir i (dir_touch i now).
Proof using Type. done. Qed.

(** Writing back a changed directory and marking its inode dirty. *)
Lemma flush_dirty s a G K l R D dir N i g rs v i' v' rs' : fs_inv s a G K l R D -> viewed s a G K dir N i g rs v ->
  a_names a !! dir = Some N -> same_dir i i' -> i_nlink i' = i_nlink i -> dir_rep v' i' rs' -> dot_head rs' ->
  exists s1 s2, dir_flush sbi s i' v' = Ret s1 /\ mark_inode_dirty sbi s1 dir = Ret s2 /\
    fs_inv s2 (set_names dir (names rs') a) G K l R D.
Proof.
  intros HI HV HN Hs Hl HD Hd. destruct (flush_ok s a G K l R D dir N i g rs v i' v' rs' HI HN HV Hs HD Hd) as (s1 & E1 & HI1 & Ei & _).
  rewrite Hl, set_links_id in HI1 by (by eapply inv_link; [|apply HV]).
  destruct (dirty_ok s1 _ G K l R D dir HI1) as (s2 & E2 & HI2 & _); [by rewrite Ei, lookup_insert_eq|]. by exists s1, s2.
Qed.

Lemma find_ok s a K l T dir N name : fs_rep s a K l T -> live_dir a dir N -> is_Some (K !! dir) ->
  match N !! name with
  | None => find_entry sbi s dir name = Ret None
  | Some _ => exists e, find_entry sbi s dir name = Ret (Some e)
  end.
Proof.
  intros (G & R & D & HI & _) HN [k Hk]. destruct (view_ok s a G K l R D dir N k HI HN Hk) as (i & g & rs & v & [Hi _ _ _ _ <- _ Hv HD] & _).
  pose proof (find_entry_spec v i rs name HD) as Hf. unfold find_entry, get_inode. rewrite Hi. cbn [mbind outcome_bind]. rewrite Hv. cbn [mbind outcome_bind].
  destruct (names rs !! name); [|by rewrite Hf]. destruct Hf as (l1 & r & d & l2 & _ & _ & _ & _ & Hf). eexists. by rewrite Hf.
Qed.

Lemma delete_ok s a K l T dir N name ino now : fs_rep s a K l T -> live_dir a dir N -> is_Some (K !! dir) ->
  N !! name = Some ino -> name <> dot -> name <> dotdot ->
  exists de prev s', find_entry sbi s dir name = Ret (Some (de, prev)) /\
    delete_entry sbi s de prev dir now = Ret (0, s') /\ fs_rep s' (set_names dir (delete name N) a) K l T.
Proof.
  intros (G & R & D & HI & HT) HN [k Hk] Hin N0 N1. pose proof (live_names _ _ _ HN) as HNN.
  destruct (view_ok s a G K l R D dir N k HI HN Hk) as (i & g & rs & v & HV & _).
  pose proof HV as [Hi _ _ Hok Hsz En _ Hv HD]. pose proof (find_entry_spec v i rs name HD) as Hf. rewrite En, Hin in Hf.
  destruct Hf as (l1 & r & d & l2 & El & Er & Ed & _ & Hf).
  destruct (dot_head_split rs l1 r l2 name (do_dots _ _ _ _ Hok) El) as (r0 & r1 & k0 & E1 & _);
    [by apply is_named_live; exists d|done|done|].
  destruct (exists_last (l := l1)) as (l1' & p & ->); [by rewrite E1|]. rewrite <- app_assoc in El. cbn in El.
  rewrite El in HD. pose proof (dir_total _ _ _ HD) as Ht. pose proof (dir_recs _ _ _ HD) as [H1 (_ & _ & _ & _ & H2)]%recs_app.
  pose proof (total_nonneg _ _ _ H1). pose proof (total_nonneg _ _ _ H2). pose proof Hok as [_ _ _ _ _ Hs Hlen _ _ _ Hdot].
  rewrite total_app, !total_cons in Ht. unfold PAGE_SIZE in Hs.
  destruct (delete_spec v i l1' p r d l2 now HD Er ltac:(lia)) as (v' & E & HD' & Enm).
  assert (Hpv : prev_of (ni_virt_addr i) (ni_virt_addr i) (l1' ++ [p]) = ni_virt_addr i + total l1').
  { unfold prev_of. rewrite last_snoc, total_app, total_cons, total_nil. lia. }
  rewrite Hpv in Hf. eexists _, _.
  destruct (flush_dirty s a G K l R D dir N i g rs v _ v' _ HI HV HNN (same_touch i now) eq_refl HD') as (s1 & s2 & F1 & F2 & HI2).
  { apply (dot_head_delete l1' p r l2 name); [by rewrite <- El|by apply is_named_live; exists d|done|done]. }
  exists s2. split; [|split].
  - unfold find_entry, get_inode. rewrite Hi. cbn [mbind outcome_bind]. rewrite Hv. cbn. by rewrite Hf.
  - unfold delete_entry, get_inode. rewrite Hi. cbn [mbind outcome_bind]. rewrite Hv. cbn [mbind outcome_bind]. rewrite E.
    cbn [Z.eqb negb]. rewrite F1. cbn [mbind outcome_bind]. by rewrite F2.
  - exists G, R, D. by rewrite Enm, <- El, En, Ed in HI2.
Qed.

Lemma set_link_ok s a K l T dir N name old ino n upd now : fs_rep s a K l T -> live_dir a dir N -> is_Some (K !! dir) ->
  N !! name = Some old -> a_links a !! ino = Some n ->
  exists de prev s', find_entry sbi s dir name = Ret (Some (de, prev)) /\
    set_link sbi s dir de ino upd now = Ret s' /\ fs_rep s' (set_names dir (<[name := ino]> N) a) K l T.
Proof.
  intros (G & R & D & HI & HT) HN [k Hk] Hin Hino. pose proof (live_names _ _ _ HN) as HNN.
  destruct (inv_cached _ _ _ _ _ _ _ _ _ HI Hino) as (x & Hx & _ & Ex). destruct (fi_ino _ _ _ _ _ _ _ HI ino x Hx) as [_ Hr].
  destruct (view_ok s a G K l R D dir N k HI HN Hk) as (i & g & rs & v & HV & _).
  pose proof HV as [Hi _ _ Hok Hsz En _ Hv HD]. pose proof (find_entry_spec v i rs name HD) as Hf. rewrite En, Hin in Hf.
  destruct Hf as (l1 & r & d & l2 & El & Er & Ed & _ & Hf). rewrite El in HD.
  destruct (set_link_spec v i l1 r d l2 x upd now HD Er ltac:(lia)) as (v' & i' & E & HD' & Hs & Hl & Enm).
  destruct (flush_dirty s a G K l R D dir N i g rs v i' v' _ HI HV HNN Hs Hl HD') as (s1 & s2 & F1 & F2 & HI2).
  { apply dot_head_relinked; [|done]. rewrite <- El. apply Hok. }
  eexists _, _, s2. split; [|split].
  - unfold find_entry, get_inode. rewrite Hi. cbn [mbind outcome_bind]. rewrite Hv. cbn. by rewrite Hf.
  - unfold set_link, get_inode. rewrite Hi, Hx. cbn [mbind outcome_bind]. rewrite Hv. cbn [mbind outcome_bind]. rewrite E.
    rewrite F1. exact F2.
  - exists G, R, D. by rewrite Enm, <- El, En, Ed, Ex in HI2.
Qed.

(** The record behind "." is the one of "..". *)
Lemma dotdot_ok s a K l T dir N n va : fs_rep s a K l T -> live_dir a dir N -> K !! dir = Some (n, va) ->
  dotdot_entry sbi s dir = Ret (va + 16) /\
  forall x nx upd now, a_links a !! x = Some nx ->
    exists s', set_link sbi s dir (va + 16) x upd now = Ret s' /\ fs_rep s' (set_names dir (<[dotdot := x]> N) a) K l T.
Proof.
  intros (G & R & D & HI & HT) HN Hk. pose proof (live_names _ _ _ HN) as HNN.
  destruct (view_ok s a G K l R D dir N (n, va) HI HN Hk) as (i & g & rs & v & HV & Ev). cbn in Ev.
  pose proof HV as [Hi _ _ Hok Hsz En _ Hv HD]. pose proof (do_dots _ _ _ _ Hok) as (r0 & r1 & k & El & D0 & D1 & Hl0).
  rewrite El in HD. split.
  - unfold dotdot_entry, get_inode. rewrite Hi. cbn [mbind outcome_bind]. rewrite Hv. cbn [mbind outcome_bind].
    destruct HD as [(_ & Hr & _) _ _ _]. unfold rdfs_dotdot. by rewrite (rec_next _ _ _ Hr), Ev, Hl0.
  - intros x nx upd now Hino. apply is_named_live in D1 as (d & Er & Ed).
    destruct (inv_cached _ _ _ _ _ _ _ _ _ HI Hino) as (j & Hx & _ & Ex). destruct (fi_ino _ _ _ _ _ _ _ HI x j Hx) as [_ Hr].
    destruct (set_link_spec v i [r0] r1 d k j upd now HD Er ltac:(lia)) as (v' & i' & E & HD' & Hs & Hl & Enm).
    rewrite total_cons, total_nil, Z.add_0_r, Hl0, Ev in E.
    destruct (flush_dirty s a G K l R D dir N i g rs v i' v' _ HI HV HNN Hs Hl HD') as (s1 & s2 & F1 & F2 & HI2).
    { apply (dot_head_relinked [r0] r1 d k j); [|done]. change ([r0] ++ r1 :: k) with (r0 :: r1 :: k). rewrite <- El. apply Hok. }
    exists s2. split.
    + unfold set_link, get_inode. rewrite Hi, Hx. cbn [mbind outcome_bind]. rewrite Hv. cbn [mbind outcome_bind]. rewrite E.
      rewrite F1. exact F2.
    + exists G, R, D. rewrite Enm, Ed, Ex in HI2. change ([r0] ++ r1 :: k) with (r0 :: r1 :: k) in HI2. by rewrite <- El, En in HI2.
Qed.

(** Only "." and "..". *)
Definition bare (dir : Z) (N : gmap (list Z) Z) : Prop :=
  forall name ino, N !! name = Some ino -> name = dotdot \/ name = dot /\ ino = u32 dir.

Lemma empty_dir_ok s a K l T dir N : fs_rep s a K l T -> live_dir a dir N -> is_Some (K !! dir) ->
  exists r, empty_dir sbi s dir = Ret r /\ (r = 1 <-> bare dir N) /\ (r = 0 \/ r = 1).
Proof.
  intros (G & R & D & HI & HT) HN [k Hk].
  destruct (view_ok s a G K l R D dir N k HI HN Hk) as (i & g & rs & v & [Hi Ei _ _ _ En _ Hv HD] & _).
  exists (rdfs_empty_dir v i). split; [|split].
  - unfold empty_dir, get_inode. rewrite Hi. cbn [mbind outcome_bind]. by rewrite Hv.
  - pose proof HD as [Hr Ht Hn Ha]. unfold bare. rewrite <- Ei, <- En.
    pose proof (total_nonneg _ _ _ Hr). by apply empty_dir_iff.
  - apply empty_loop_bool.
Qed.
End ops.
