(* ===== verification/DirGrow.v ===== *)
(** * Growing a directory (inode.c, dir.c)

    A directory whose records are full grows by one page: [rdfs_alloc_blocks]
    takes a page off the owner node's free list, clears it and enters it into
    the directory's page table, through which it is at once mapped; the page
    becomes one free record.  With that, [add_link] inserts every fresh name
    into a directory of less than 15 pages. *)

From S2P Require Import Prelude Mem Layout FreeList Balloc Pages Demo Nvmalloc Vfs Dir Bdev Pgtable SlaveMem Mapping Inode FileData DirMap DirFs DirOps.

Section grow.
Context `{!KernelPg} {sbi : rdfs_sb_info}.
Context {free : mem -> list Z -> Prop} {foot : list Z -> Z -> Prop} {page_ok meta : Z -> Prop}.
Context `{!PageAlloc sbi free foot page_ok meta}.

Local Abbreviation fs_inv := (DirMap.fs_inv (sbi := sbi) (free := free) (page_ok := page_ok) (meta := meta)).
Local Abbreviation fs_rep := (DirMap.fs_rep (sbi := sbi) (free := free) (page_ok := page_ok) (meta := meta)).
Local Abbreviation dir_ok := (DirMap.dir_ok (sbi := sbi) (page_ok := page_ok)).
Local Abbreviation dir_mem := (DirMap.dir_mem (sbi := sbi) (free := free) (page_ok := page_ok) (meta := meta)).
Local Abbreviation viewed := (DirMap.viewed (sbi := sbi) (page_ok := page_ok)).

(** ** The page table *)

Definition room (va : Z) : Prop := va + 2 * MAX_DIR_SIZE <= RDFS_START + DIR_AREA_SIZE.
Definition grown (g : lay) (p : Z) : lay := mk_lay (l_top g) (l_pmd g) (l_pte g) (l_data g ++ [p]).

Lemma insert_dir_page cpu kok m km i g p n :
  rdfs_get_pud sbi m (i_ino i) = rdfs_va sbi (l_top g) ->
  ld 8 m (rdfs_va sbi (l_top g)) = dir_entry (Some (l_pmd g)) -> ld 8 m (rdfs_va sbi (l_pmd g)) = dir_entry (Some (l_pte g)) ->
  Forall page_ok (lay_pages g) -> dir_area (ni_virt_addr i) -> room (ni_virt_addr i) ->
  i_blocks i = n + 1 -> 0 <= n < 512 ->
  rdfs_insert_page sbi cpu kok m km i p = (0, st 8 m (rdfs_va sbi (l_pte g) + 8 * n) (page_entry p), km).
Proof.
  intros T1 T2 T3 Hp Ha Hroom Eb Hn. unfold lay_pages in Hp. rewrite !Forall_cons in Hp. destruct Hp as (P1 & P2 & P3 & _).
  destruct (dir_page_index _ n Ha Hn) as (_ & _ & Ei & _).
  assert (Hva : RDFS_START <= ni_virt_addr i < RDFS_START + DIR_AREA_SIZE).
  { destruct Ha as (j & Hj & ->). rewrite dir_areas_eq in Hj. unfold RDFS_START, MAX_DIR_SIZE, DIR_AREA_SIZE. lia. }
  unfold rdfs_insert_page. rewrite Eb. replace (n + 1 - 1) with n by lia.
  rewrite shiftl_mul by (unfold PAGE_SHIFT; lia). change (2 ^ PAGE_SHIFT) with 4096.
  rewrite (u64_small (n * 4096)) by lia. unfold rdfs_pud_alloc.
  rewrite shiftr_div by (unfold PUD_SHIFT; lia). change (2 ^ PUD_SHIFT) with (2 ^ 30). rewrite Z.div_small by lia.
  change (Z.max 0 (s32 0)) with 0. rewrite Z.mul_0_r, Z.add_0_r, T1, (va_nz sbi _ P1), T2.
  destruct (table_entry sbi _ P2) as (E2 & R2 & _). rewrite E2, entry_none_pos by lia.
  assert (Ein : in_dir_area (u64 (ni_virt_addr i + n * 4096)) = true).
  { unfold in_dir_area, room, RDFS_START, MAX_DIR_SIZE, DIR_AREA_SIZE in *. rewrite (u64_small (_ + _)) by lia. rewrite u64_small by lia.
    apply andb_true_iff. split; [apply Z.leb_le|apply Z.ltb_lt]; lia. }
  unfold rdfs_pmd_alloc. rewrite Ein, (get_pmd_eq sbi m _ _ P2 T2), (va_nz sbi _ P2).
  unfold rdfs_pte_alloc. rewrite T3. destruct (table_entry sbi _ P3) as (E3 & R3 & _). rewrite E3, entry_none_pos by lia.
  rewrite (pte_offset_eq sbi m _ (l_pte g) n _ P3 T3); [| |done].
  2:{ rewrite u64_small; [by rewrite Z.mul_comm|]. unfold RDFS_START, DIR_AREA_SIZE in *. lia. }
  pose proof (page_virt sbi _ P3). rewrite (proj2 (Z.eqb_neq _ 0)) by lia. done.
Qed.

Lemma lay_in g : l_top g ∈ lay_pages g /\ l_pmd g ∈ lay_pages g.
Proof using Type. unfold lay_pages. split; repeat constructor. Qed.

Lemma pte_in g : l_pte g ∈ lay_pages g.
Proof using Type. unfold lay_pages. repeat constructor. Qed.

Lemma lay_grown g p : lay_pages (grown g p) = lay_pages g ++ [p].
Proof using Type. done. Qed.

(** ** The memory after taking page [p], clearing it, counting it and entering it *)

Section grow_mem.
Context (m m1 : mem) (l : list Z) (ino : Z) (g : lay) (p c : Z).
Hypothesis HM : dir_mem m (p :: l) ino g.
Hypothesis Hlen : (length (l_data g) <= 14)%nat.
Hypothesis Hf1 : free m1 l.
Hypothesis H1 : forall x, ~ foot (p :: l) x -> ldb m1 x = ldb m x.

Let n := Z.of_nat (length (l_data g)).
Let ni := get_rdfs_inode m sbi ino.
Definition grow_pre : mem := st 8 (memset m1 (rdfs_va sbi p) 0 (Z.to_nat PAGE_SIZE)) (ni + inode_off.i_blocks) c.
Definition grow_st : mem := st 8 grow_pre (rdfs_va sbi (l_pte g) + 8 * n) (page_entry p).

Lemma gm_pages : page_ok p /\ Forall page_ok l /\ (p ∉ l) /\ page_ok (l_pte g) /\ (p ∉ lay_pages g).
Proof.
  destruct HM as [Hf _ _ Hp _ Hu _]. destruct (free_pages sbi _ _ Hf) as [Hlp Hnd]. rewrite Forall_cons in Hlp. destruct Hlp as [Pp Pl].
  apply NoDup_cons in Hnd as [Hpl _]. rewrite Forall_forall in Hp. do 3 (split; [done|]). split; [apply Hp, pte_in|].
  intros Hq. apply (Hu p Hq). constructor.
Qed.

Lemma gm_slot x : ni <= x < ni + 72 -> meta x.
Proof using HM. clear Hlen. intros Hx. apply (dm_slot _ _ _ _ HM). fold ni. unfold RDFS_INODE_SIZE. lia. Qed.

(** What the three stores leave alone. *)
Lemma gm_st x : ~ in_page sbi p x -> ~ in_page sbi (l_pte g) x ->
  ~ (ni + inode_off.i_blocks <= x < ni + inode_off.i_blocks + 8) -> ldb grow_st x = ldb m1 x.
Proof.
  intros N1 N2 N3. unfold grow_st, grow_pre, in_page, PAGE_SIZE in *. rewrite !ldb_st, ldb_memset, !decide_False; [done|..]; unfold n in *; lia.
Qed.

(** The directory's own pages lie apart from the new one, the free list and the slot. *)
Lemma gm_apart q x : q ∈ lay_pages g -> in_page sbi q x -> ~ in_page sbi p x /\ ~ foot (p :: l) x /\ ~ (ni <= x < ni + 72).
Proof using HM PageAlloc0.
  clear H1 Hf1 Hlen. intros Hq Hx. destruct gm_pages as (Pp & Pl & Hpl & _ & Hpg). destruct HM as [_ _ _ Hp _ Hu _]. rewrite Forall_forall in Hp.
  split; [|split].
  - intros Hpx. assert (p = q) as -> by (by apply (page_disjoint sbi p q x); [|apply Hp|..]). done.
  - apply (foot_page sbi q); [by constructor|by apply Hp|by apply Hu|done].
  - intros Hr. by apply (meta_page sbi q x (Hp q Hq) (gm_slot x Hr)).
Qed.

Lemma gm_same q x : q ∈ lay_pages g -> q <> l_pte g -> in_page sbi q x -> ldb grow_st x = ldb m x.
Proof.
  intros Hq Hqp Hx. destruct (gm_apart q x Hq Hx) as (A1 & A2 & A3). rewrite gm_st, H1; try done.
  - intros Hx'. apply Hqp. destruct HM as [_ _ _ Hp _ _ _]. rewrite Forall_forall in Hp.
    apply (page_disjoint sbi q _ x); [by apply Hp|apply Hp, pte_in|done|done].
  - unfold inode_off.i_blocks in *. lia.
Qed.

Lemma gm_free : free grow_st l.
Proof.
  destruct gm_pages as (Pp & Pl & Hpl & Pt & _). apply (free_ext sbi m1); [|done]. intros x Hx. apply gm_st.
  - intros Hpx. by apply (foot_page sbi p l x Pl Pp Hpl Hpx).
  - intros Hpx. apply (foot_page sbi (l_pte g) l x Pl Pt); [|done|done]. intros Hq.
    apply (dm_used _ _ _ _ HM (l_pte g)); [apply pte_in|by constructor].
  - intros Hr. apply (meta_foot sbi l x Pl); [|done]. apply gm_slot. unfold inode_off.i_blocks in *. lia.
Qed.

(** The entries of the lowest table. *)
Lemma gm_pte k : 0 <= k < 512 ->
  ld 8 grow_st (rdfs_va sbi (l_pte g) + 8 * k) = default 0 ((page_entry <$> (l_data g ++ [p])) !! Z.to_nat k).
Proof.
  intros Hk. destruct gm_pages as (Pp & _). rewrite fmap_app. pose proof (pte_in g) as Hin.
  assert (Ha : forall o, 0 <= o < 8 -> in_page sbi (l_pte g) (rdfs_va sbi (l_pte g) + 8 * k + o)) by (unfold in_page, PAGE_SIZE; lia).
  unfold grow_st, grow_pre. destruct (decide (k = n)) as [->|Hkn].
  - rewrite ld8_st8 by (apply page_entry_range; pose proof (page_phys sbi p Pp); lia).
    rewrite lookup_app_r by (rewrite length_fmap; unfold n; lia). rewrite length_fmap.
    replace (Z.to_nat n - length (l_data g))%nat with 0%nat by (unfold n; lia). done.
  - destruct (gm_apart _ _ Hin (Ha 0 ltac:(lia))) as (_ & _ & A1). destruct (gm_apart _ _ Hin (Ha 7 ltac:(lia))) as (_ & _ & A2).
    rewrite ld_st_ne by lia. rewrite ld_st_ne by (unfold inode_off.i_blocks; lia).
    transitivity (ld 8 m (rdfs_va sbi (l_pte g) + 8 * k)).
    { apply ld_ext. intros j Hj. destruct (gm_apart _ _ Hin (Ha j ltac:(lia))) as (B1 & B2 & _).
      rewrite ldb_memset, decide_False by (unfold in_page, PAGE_SIZE in *; lia). by apply H1. }
    destruct HM as [_ _ [_ _ _ T4] _ _ _ _]. rewrite T4 by done. unfold n in *. destruct (decide (k < Z.of_nat (length (l_data g)))).
    + by rewrite lookup_app_l by (rewrite length_fmap; lia).
    + rewrite !lookup_ge_None_2; [done|..]; rewrite ?length_app, length_fmap; cbn; lia.
Qed.

Lemma gm_table : dir_table (sbi := sbi) grow_st ino (grown g p).
Proof.
  destruct gm_pages as (Pp & Pl & Hpl & Pt & _). pose proof HM as [Hf Hs [T1 T2 T3 _] _ Hn _ _]. destruct (lay_in g) as [L1 L2].
  pose proof (free_inode sbi _ _ _ _ ino Hf gm_free) as Ei. unfold lay_pages in Hn.
  apply NoDup_cons in Hn as [N1 Hn]. apply NoDup_cons in Hn as [N2 _].
  assert (Hw : forall q, q ∈ lay_pages g -> q <> l_pte g -> ld 8 grow_st (rdfs_va sbi q) = ld 8 m (rdfs_va sbi q)).
  { intros q Hq Hqp. apply ld_ext. intros j Hj. apply (gm_same q); [done..|]. unfold in_page, PAGE_SIZE in *. lia. }
  split; cbn [grown l_top l_pmd l_pte l_data]; [|rewrite <- T2; apply Hw; [done|]|rewrite <- T3; apply Hw; [done|]|apply gm_pte].
  - rewrite Ei, <- T1. apply ld_ext. intros j Hj. set (x := _ + _).
    assert (Mx : meta x) by (apply Hs; unfold x, inode_off.i_pg_addr, RDFS_INODE_SIZE; lia).
    rewrite gm_st; [apply H1; by apply (meta_foot sbi); [constructor|]|by apply (meta_page sbi)|by apply (meta_page sbi)|].
    unfold x, ni, inode_off.i_pg_addr, inode_off.i_blocks. lia.
  - intros E. apply N1. rewrite E. repeat constructor.
  - intros E. apply N2. rewrite E. constructor.
Qed.

(** Before the entry is stored. *)
Lemma gm_pre : rdfs_get_pud sbi grow_pre ino = rdfs_va sbi (l_top g) /\
  ld 8 grow_pre (rdfs_va sbi (l_top g)) = dir_entry (Some (l_pmd g)) /\
  ld 8 grow_pre (rdfs_va sbi (l_pmd g)) = dir_entry (Some (l_pte g)).
Proof.
  destruct gm_pages as (Pp & Pl & Hpl & Pt & _). pose proof HM as [Hf Hs _ Hp Hn Hu _]. destruct gm_table as [T1 T2 T3 _]. cbn in T1, T2, T3.
  assert (Hx : forall x, ~ in_page sbi (l_pte g) x -> ldb grow_pre x = ldb grow_st x).
  { intros x Hx. unfold grow_st, in_page, PAGE_SIZE in *. rewrite ldb_st, decide_False; [done|]. unfold n. lia. }
  assert (Hfp : free grow_pre l).
  { apply (free_ext sbi grow_st); [|apply gm_free]. intros x Hfx. apply Hx. intros Hpx.
    apply (foot_page sbi (l_pte g) l x Pl Pt); [|done|done]. intros Hq. apply (Hu (l_pte g)); [apply pte_in|by constructor]. }
  destruct (lay_in g) as [L1 L2]. unfold lay_pages in Hn. apply NoDup_cons in Hn as [N1 Hn]. apply NoDup_cons in Hn as [N2 _].
  assert (Hw : forall q, q ∈ lay_pages g -> q <> l_pte g -> ld 8 grow_pre (rdfs_va sbi q) = ld 8 grow_st (rdfs_va sbi q)).
  { intros q Hq Hne. apply ld_ext. intros j Hj. apply Hx, (page_apart g q); [done|done|apply pte_in|done|]. unfold in_page, PAGE_SIZE. lia. }
  split; [|split; [rewrite (Hw _ L1); [done|]|rewrite (Hw _ L2); [done|]]].
  - apply (root_pud sbi); [by rewrite Forall_forall in Hp; apply Hp|]. rewrite (free_inode sbi _ _ _ _ ino gm_free Hfp). rewrite <- T1.
    apply ld_ext. intros j Hj. apply Hx. apply (meta_page sbi); [done|]. rewrite (free_inode sbi _ _ _ _ ino Hf gm_free).
    apply Hs. unfold inode_off.i_pg_addr, RDFS_INODE_SIZE. lia.
  - intros E. apply N1. rewrite E. repeat constructor.
  - intros E. apply N2. rewrite E. constructor.
Qed.

Lemma grow_mem : dir_mem grow_st l ino (grown g p) /\ (forall x, in_page sbi p x -> ldb grow_st x = 0) /\
  (forall x, ~ foot (p :: l) x -> ~ in_page sbi p x -> ~ in_page sbi (l_pte g) x -> ~ (ni <= x < ni + 72) -> ldb grow_st x = ldb m x).
Proof.
  destruct gm_pages as (Pp & Pl & Hpl & Pt & Hpg). pose proof HM as [Hf Hs _ Hp Hn Hu Hl].
  split; [split|split].
  - apply gm_free.
  - by rewrite (free_inode sbi _ _ _ _ ino Hf gm_free).
  - apply gm_table.
  - rewrite lay_grown. apply Forall_app. split; [done|by constructor].
  - rewrite lay_grown. apply NoDup_app. split; [done|]. split; [|apply NoDup_singleton]. by intros q Hq ->%list_elem_of_singleton.
  - rewrite lay_grown. intros q [Hq| ->%list_elem_of_singleton]%elem_of_app; [|done]. intros Hql. apply (Hu q Hq). by constructor.
  - cbn [grown l_data]. rewrite length_app. cbn. lia.
  - intros x Hx. unfold grow_st, grow_pre. rewrite !ldb_st, ldb_memset. rewrite decide_False; [rewrite decide_False|].
    + rewrite decide_True; [done|]. unfold in_page, PAGE_SIZE in *. lia.
    + intros Hr. apply (meta_page sbi p x Pp); [|done]. apply gm_slot. unfold inode_off.i_blocks in *. lia.
    + intros Hr. destruct (gm_apart (l_pte g) x) as (A & _); [apply pte_in|unfold in_page, PAGE_SIZE, n in *; lia|done].
  - intros x A1 A2 A3 A4. rewrite gm_st; [by apply H1|done|done|]. unfold inode_off.i_blocks in *. lia.
Qed.
End grow_mem.

Lemma grow_blocks cpu kok w i g p l phys0 : dir_mem (w_mem w) (p :: l) (i_ino i) g -> (length (l_data g) <= 14)%nat ->
  dir_area (ni_virt_addr i) -> room (ni_virt_addr i) -> i_blocks i = Z.of_nat (length (l_data g)) -> 0 < i_ino i < 2 ^ 31 ->
  exists m', rdfs_alloc_blocks sbi cpu kok w i new_ri 1 0 ALLOC_PAGE phys0
      = Ret (0, set_mem m' w, set_i_blocks (i_blocks i + 1) i, new_ri) /\
    dir_mem m' l (i_ino i) (grown g p) /\ (forall x, in_page sbi p x -> ldb m' x = 0) /\
    (forall x, ~ foot (p :: l) x -> ~ in_page sbi p x -> ~ in_page sbi (l_pte g) x ->
       ~ (get_rdfs_inode (w_mem w) sbi (i_ino i) <= x < get_rdfs_inode (w_mem w) sbi (i_ino i) + 72) -> ldb m' x = ldb (w_mem w) x).
Proof.
  intros HM Hlen Ha Hroom Hb Hi. pose proof HM as [Hf _ HT Hp _ Hu _].
  set (ni := get_rdfs_inode (w_mem w) sbi (i_ino i)) in *. set (c := u32 (i_blocks i + 1)).
  destruct (new_page_ok sbi (w_mem w) cpu phys0 ni p l Hf) as (m1 & E1 & Hf1 & Hx1).
  exists (grow_st (w_mem w) m1 (i_ino i) g p c). split; [|by apply grow_mem].
  destruct (gm_pre (w_mem w) m1 l _ g p c HM Hlen Hf1 Hx1) as (G1 & G2 & G3).
  destruct (gm_pages (w_mem w) l _ g p HM) as (Pp & _). pose proof (page_phys sbi p Pp) as [Hpp _]. pose proof HT as [T1 _ _ _]. fold ni in T1.
  assert (Pt : page_ok (l_top g)) by (rewrite Forall_forall in Hp; apply Hp, lay_in). pose proof (page_phys sbi _ Pt) as [Htp _].
  unfold rdfs_alloc_blocks. rewrite s32_small, u64_small by lia. fold ni. rewrite T1, (proj2 (Z.eqb_neq _ 0)) by lia.
  cbn [mbind outcome_bind]. rewrite E1. change (Z.to_nat 1) with 1%nat. cbn [alloc_loop]. unfold next_page. cbn [mbind outcome_bind Z.eqb].
  rewrite (pa_va sbi p Pp). cbn [w_mem w_km set_mem i_blocks set_i_blocks]. rewrite (u64_small (i_blocks i + 1)) by lia. fold c.
  change (st 8 (memset m1 (rdfs_va sbi p) 0 (Z.to_nat PAGE_SIZE)) (ni + inode_off.i_blocks) c) with (grow_pre (w_mem w) m1 (i_ino i) p c).
  rewrite (insert_dir_page cpu kok _ _ (set_i_blocks (i_blocks i + 1) i) g p (Z.of_nat (length (l_data g))) G1 G2 G3 Hp Ha Hroom); [|cbn; lia|lia].
  cbn [Z.eqb negb]. by destruct w.
Qed.

(** ** Replacing one directory

    A new memory, in-core inode and pages for [dir], which may be new itself; then
    with pages that are its old ones or ones taken off the free list. *)
Definition dir_state (dir : Z) (i : inode) (N : gmap (list Z) Z) (a : afs) : afs :=
  set_names dir N (set_links dir (i_nlink i) (set_size dir (i_size i) a)).

Lemma inv_place_dir s a G K l R D dir i m' i' g' rs' l' :
  fs_inv s a G K l R D -> f_inodes s !! dir = Some i ->
  i_ino i' = dir -> dir_ok m' i' g' rs' -> free m' l' ->
  (forall d gd p, d <> dir -> G !! d = Some gd -> p ∈ lay_pages gd -> p ∉ lay_pages g') ->
  (forall x, slot (sbi := sbi) s dir + 72 <= x < slot (sbi := sbi) s dir + 80 -> meta x) -> (forall p, p ∈ lay_pages g' -> p ∉ l') -> (forall p, p ∈ l' -> p ∈ l) ->
  (forall x, (forall p, p ∈ lay_pages g' -> ~ in_page sbi p x) -> ~ foot l x -> ~ (slot (sbi := sbi) s dir <= x < slot (sbi := sbi) s dir + 72) ->
     ldb m' x = ldb (f_mem s) x) ->
  map_ok (w_km (f_world s)) D (K !! dir) i' g' ->
  fs_inv (mk_fs (set_mem m' (f_world s)) (<[dir := i']> (f_inodes s))) (dir_state dir i' (names rs') a) (<[dir := g']> G) K l' R D.
Proof.
  intros HI Hi Ei' Hok' Hf' Hap Hroot Hused Hsub Hx Hm'. pose proof HI as [H1 H2 H3 H4 H5 H6 H7 H7s H8 H9 H10 H11 H12 H13 H14].
  destruct (H4 dir i Hi) as [Ei Hr]. set (s' := mk_fs _ _).
  assert (Es : forall x, slot (sbi := sbi) s' x = slot (sbi := sbi) s x) by (intros x; by eapply (free_inode sbi)).
  assert (Hdom : forall x, is_Some (f_inodes s' !! x) -> is_Some (f_inodes s !! x)).
  { intros x. cbn. destruct (decide (x = dir)) as [->|]; [by rewrite Hi|by rewrite lookup_insert_ne]. }
  destruct (free_pages sbi _ _ H1) as [Hlp _]. pose proof Hok' as [_ Hp' _ _ _ _ _ _ _ _ _]. rewrite Forall_forall in Hp'.
  assert (Hslot : forall x, slot (sbi := sbi) s dir <= x < slot (sbi := sbi) s dir + 72 -> meta x).
  { intros x Hxx. apply (H5 dir); [by exists i|done]. }
  split; try done.
  - intros x j. cbn. intros [[<- <-]|[_ Hj]]%lookup_insert_Some; [done|by apply H4].
  - intros x y Hs. rewrite Es. by apply H5, Hdom.
  - intros x y Hs1 Hs2. rewrite !Es. apply H6; by apply Hdom.
  - cbn. by rewrite fmap_insert, H7.
  - cbn. by rewrite fmap_insert, H7s.
  - intros d Nd. cbn. intros [[<- <-]|[Hne HNd]]%lookup_insert_Some.
    { exists i', g', rs'. rewrite !lookup_insert_eq. by split; [|split; [|split; [|split]]]. }
    destruct (H8 d Nd HNd) as (j & gd & rsd & Hj & Hgd & Hokd & End & Hmd). exists j, gd, rsd.
    rewrite !lookup_insert_ne by done. do 2 (split; [done|]). split; [|done]. pose proof Hokd as [_ Hpd _ _ _ _ _ _ _ _ _]. rewrite Forall_forall in Hpd.
    destruct (H4 d j Hj) as [Ej _]. apply (dir_ok_frame (f_mem s)); [by eapply (free_inode sbi)| | |done].
    + intros x Hxr. rewrite Ej in Hxr. change (get_rdfs_inode (f_mem s) sbi d) with (slot (sbi := sbi) s d) in Hxr. unfold inode_off.i_pg_addr in Hxr.
      assert (Mx : meta x) by (apply (H14 d); [by rewrite HNd|lia]). apply Hx.
      * intros p Hp. apply (meta_page sbi); [by apply Hp'|done].
      * by apply (meta_foot sbi).
      * destruct (H6 d dir (mk_is_Some _ _ Hj) (mk_is_Some _ _ Hi) (not_eq_sym Hne)); unfold RDFS_INODE_SIZE in *; lia.
    + intros q x Hq Hqx. apply Hx.
      * intros p Hp Hpx. apply (Hap d gd q); [done|done|done|]. rewrite (page_disjoint sbi q p x); [done|by apply Hpd|by apply Hp'|done|done].
      * apply (foot_page sbi q); [done|by apply Hpd|by apply (H12 d gd)|done].
      * intros Hxr. by apply (meta_page sbi q x (Hpd q Hq) (Hslot x Hxr)).
  - intros d Hs. cbn. destruct (decide (d = dir)) as [->|]; [by rewrite lookup_insert_eq|]. rewrite lookup_insert_ne by done. apply H9. by rewrite lookup_insert_ne in Hs.
  - intros d Hs. cbn. destruct (decide (d = dir)) as [->|]; [by rewrite lookup_insert_eq|]. rewrite lookup_insert_ne by done. by apply H10.
  - intros d d' gd gd' p Hne. destruct (decide (d = dir)) as [->|N1], (decide (d' = dir)) as [->|N2]; rewrite ?lookup_insert_eq, ?lookup_insert_ne by done; [done|..].
    + intros [= <-] Hd' Hp Hp2. by apply (Hap d' gd' p).
    + intros Hd [= <-] Hp. by apply (Hap d gd).
    + by apply H11.
  - intros d gd p. destruct (decide (d = dir)) as [->|N1]; rewrite ?lookup_insert_eq, ?lookup_insert_ne by done.
    + intros [= <-]. by apply Hused.
    + intros Hd Hp Hl. by apply (H12 d gd p), Hsub.
  - intros d x Hs. rewrite Es. cbn in Hs. destruct (decide (d = dir)) as [->|]; [by apply Hroot|]. rewrite lookup_insert_ne in Hs by done. by apply H14.
Qed.

Lemma inv_set_dir s a G K l R D dir N i g m' i' g' rs' l' :
  fs_inv s a G K l R D -> a_names a !! dir = Some N -> f_inodes s !! dir = Some i -> G !! dir = Some g ->
  i_ino i' = dir -> dir_ok m' i' g' rs' -> free m' l' ->
  (forall p, p ∈ lay_pages g' -> p ∈ lay_pages g \/ p ∈ l) -> (forall p, p ∈ lay_pages g' -> p ∉ l') -> (forall p, p ∈ l' -> p ∈ l) ->
  (forall x, (forall p, p ∈ lay_pages g' -> ~ in_page sbi p x) -> ~ foot l x -> ~ (slot (sbi := sbi) s dir <= x < slot (sbi := sbi) s dir + 72) ->
     ldb m' x = ldb (f_mem s) x) ->
  map_ok (w_km (f_world s)) D (K !! dir) i' g' ->
  fs_inv (mk_fs (set_mem m' (f_world s)) (<[dir := i']> (f_inodes s))) (dir_state dir i' (names rs') a) (<[dir := g']> G) K l' R D.
Proof.
  intros HI HN Hi Hg Ei' Hok' Hf' Hold Hused Hsub Hx Hm'. apply (inv_place_dir s a G K l R D dir i m' i' g' rs' l'); try done.
  - intros d gd p Hd Hgd Hp Hq. destruct (Hold p Hq) as [Ho|Ho]; [by apply (fi_apart _ _ _ _ _ _ _ HI d dir gd g p)|by apply (fi_used _ _ _ _ _ _ _ HI d gd p)].
  - intros x. apply (fi_root _ _ _ _ _ _ _ HI dir). by exists N.
Qed.

(** ** Insertion *)

(** The scan finds a record or the end of the directory. *)
Lemma scan_place v i rs name : dir_rep v i rs -> name_ok name -> names rs !! name = None ->
  i_size i mod PAGE_SIZE = 0 -> i_size i <= 14 * PAGE_SIZE ->
  let reclen := RDFS_DIR_REC_LEN (Z.of_nat (length name)) in
  let res := add_pages (Z.to_nat (Z.shiftr (i_size i) PAGE_SHIFT) + 1) v (Z.of_nat (length name)) name reclen
    (ni_virt_addr i + i_size i) (ni_virt_addr i) in
  scan_ok (ni_virt_addr i) rs reclen 0 res /\ forall b, res <> NextPage b.
Proof using Type.
  intros [Hr Ht Hn _] Hname Hfresh Hmod Hsz reclen. pose proof (names_split name rs Hn) as Hs. rewrite Hfresh in Hs.
  pose proof (rec_len_bounds (Z.of_nat (length name)) ltac:(destruct Hname; lia)) as Hbd. fold reclen in Hbd.
  pose proof (total_nonneg _ _ _ Hr). rewrite shiftr_div by (unfold PAGE_SHIFT; lia). change (2 ^ PAGE_SHIFT) with PAGE_SIZE. cbn zeta.
  replace (ni_virt_addr i + i_size i) with (ni_virt_addr i + total rs) by lia.
  destruct (add_pages_spec (Z.to_nat (i_size i / PAGE_SIZE) + 1) v name reclen (ni_virt_addr i) rs Hr Hs ltac:(lia)) as [[_ Hle]|Hok]; [|done].
  exfalso. unfold PAGE_SIZE in *. set (q := i_size i / 4096) in *.
  assert (i_size i = 4096 * q) by (unfold q; zdm). assert (0 <= q) by (unfold q; zdm).
  rewrite Nat2Z.inj_add, Z2Nat.id in Hle by lia. nia.
Qed.

(** The records of pages that hold the bytes of a view. *)
Lemma stored_recs m g va v rs : (forall k p o, l_data g !! k = Some p -> 0 <= o < PAGE_SIZE ->
    ldb m (rdfs_va sbi p + o) = ldb v (va + PAGE_SIZE * Z.of_nat k + o)) ->
  recs_at v va rs -> total rs = PAGE_SIZE * Z.of_nat (length (l_data g)) ->
  forall va', recs_at (page_view (sbi := sbi) m (l_data g) va' ∅) va' rs.
Proof using Type.
  intros Hw Hr Et va'. apply (recs_shift v _ va); [|done]. intros o Ho. rewrite ldb_page_view, decide_True by lia.
  replace (va' + o - va') with o by lia. rewrite Et in Ho.
  destruct (byte_addr_page (sbi := sbi) (l_data g) o Ho) as (k & p & Hk & _ & -> & Eo).
  rewrite (Hw k p) by (done || (unfold PAGE_SIZE; zdm)). f_equal. lia.
Qed.

Lemma byte_addr_app ps qs o : 0 <= o < PAGE_SIZE * Z.of_nat (length ps) -> byte_addr (sbi := sbi) (ps ++ qs) o = byte_addr (sbi := sbi) ps o.
Proof using Type.
  intros Ho. unfold byte_addr. rewrite lookup_app_l; [done|]. unfold PAGE_SIZE in *. apply Nat2Z.inj_lt. rewrite Z2Nat.id; zdm.
Qed.

(** The added page, as one free record. *)
Definition free_page : drec := mk_drec PAGE_SIZE None.

Lemma grown_recs m m' g p va rs : recs_at (page_view (sbi := sbi) m (l_data g) va ∅) va rs ->
  total rs = PAGE_SIZE * Z.of_nat (length (l_data g)) ->
  (forall q x, q ∈ l_data g -> in_page sbi q x -> ldb m' x = ldb m x) ->
  let v := page_view (sbi := sbi) m' (l_data (grown g p)) va ∅ in let de := va + total rs in
  recs_at (st 8 (st 2 v (de + de_off.rec_len) PAGE_SIZE) (de + de_off.inode) 0) va (rs ++ [free_page]).
Proof using Type.
  intros Hr Ht Hx v de. pose proof (total_nonneg _ _ _ Hr). apply recs_app. split.
  - eapply recs_frame; [|exact Hr]. intros b Hb. unfold de_off.inode, de_off.rec_len. rewrite !ldb_st, !decide_False by (unfold de; lia).
    unfold v. rewrite !ldb_page_view. cbn [grown l_data]. rewrite length_app, !decide_True by (unfold PAGE_SIZE in *; cbn [length]; lia).
    rewrite byte_addr_app by lia. destruct (byte_addr_page (sbi := sbi) (l_data g) (b - va)) as (k & q & Hk & Hin & _); [lia|].
    apply (Hx q); [by eapply list_elem_of_lookup_2|done].
  - split; [split; cbn; unfold PAGE_SIZE; lia|]. split; [|done].
    unfold rec_at, free_page, de_rec_len, de_inode, de_off.inode, de_off.rec_len, PAGE_SIZE. fold de. cbn [r_len r_ent]. mem_simpl. done.
Qed.

Lemma set_size_id a dir z : a_sizes a !! dir = Some z -> set_size dir z a = a.
Proof using Type. intros Hz. unfold set_size. rewrite insert_id by done. by destruct a. Qed.

Lemma map_ok_grown km D k i i' g p : ni_virt_addr i' = ni_virt_addr i -> ni_mapping_count i' = ni_mapping_count i ->
  map_ok km D k i g -> map_ok km D k i' (grown g p).
Proof using Type. intros E1 E2. unfold map_ok. by rewrite E1, E2. Qed.

(** A record takes the entry. *)
Lemma add_in_place s a G K l R D dir N i g rs v x name now l1 r l2 nl : fs_inv s a G K l R D -> viewed s a G K dir N i g rs v ->
  a_names a !! dir = Some N -> name_ok name -> N !! name = None -> 0 < i_ino x < 2 ^ 64 ->
  rs = l1 ++ r :: l2 -> suits (RDFS_DIR_REC_LEN (Z.of_nat (length name))) r ->
  match r_ent r with Some d => nl = RDFS_DIR_REC_LEN (Z.of_nat (length (d_name d))) | None => True end ->
  exists s', add_entry sbi s i x v (ni_virt_addr i + total l1) nl (r_len r) name now = Ret (0, s') /\
    fs_inv s' (set_names dir (<[name := i_ino x]> N) a) G K l R D.
Proof.
  intros HI HV HN Hname Hfresh Hx El Hs Hnl. pose proof HV as [_ Ei _ Hok _ En _ _ [Hr Ht Hn [Hva Hmax]]]. rewrite El in Hr, Ht, Hmax.
  pose proof (rec_len_bounds (Z.of_nat (length name)) ltac:(destruct Hname; lia)) as Hbd.
  destruct (add_fill_spec v (ni_virt_addr i) l1 r l2 name nl (i_ino x) (i_mode x) Hr Hname Hx Hs Hnl) as [Hrecs Htot].
  rewrite total_app, total_cons in Ht, Hmax.
  destruct (dir_rep_insert _ (dir_touch i now) rs _ (mk_dentry (i_ino x) (mode_type (i_mode x)) name) Hrecs) as [HD' Hnm].
  { cbn. rewrite !total_app, Htot. lia. }
  { rewrite !total_app, Htot. lia. }
  { done. }
  { rewrite El. apply perm_live, placed_live. }
  { done. }
  { by rewrite En. }
  destruct (flush_dirty s a G K l R D dir N i g rs v _ _ _ HI HV HN (same_touch i now) eq_refl HD') as (s1 & s2 & F1 & F2 & HI2).
  { apply dot_head_placed; [rewrite <- El; apply Hok|lia|done]. }
  exists s2. unfold add_entry. rewrite F1. cbn [mbind outcome_bind]. rewrite Ei, F2. split; [done|]. by rewrite Hnm, En in HI2.
Qed.

(** What growth leaves of the memory. *)
Definition grow_frame (m m' : mem) (l : list Z) (ino : Z) (g : lay) (p : Z) : Prop :=
  forall x, ~ foot (p :: l) x -> ~ in_page sbi p x -> ~ in_page sbi (l_pte g) x ->
    ~ (get_rdfs_inode m sbi ino <= x < get_rdfs_inode m sbi ino + 72) -> ldb m' x = ldb m x.

Lemma grow_frame_data m m' l ino g p q x : dir_mem m (p :: l) ino g -> grow_frame m m' l ino g p ->
  q ∈ l_data g -> in_page sbi q x -> ldb m' x = ldb m x.
Proof.
  intros HM Hfr Hq Hx. assert (Hin : q ∈ lay_pages g) by (unfold lay_pages; by do 3 constructor).
  destruct (gm_apart m l ino g p HM q x Hin Hx) as (A1 & A2 & A3). apply Hfr; try done.
  apply (page_apart g q); [apply HM|done|apply pte_in| |done]. intros ->.
  pose proof (dm_nodup _ _ _ _ HM) as Hn. unfold lay_pages in Hn. do 2 apply NoDup_cons in Hn as [_ Hn]. by apply NoDup_cons in Hn as [Hn _].
Qed.

(** Filling in the new page, of the inode [i2] and the memory [m2] after growth. *)
Lemma grown_flush s a G K p l R D dir N i g rs v m2 v1 x name now k : fs_inv s a G K (p :: l) R D -> viewed s a G K dir N i g rs v ->
  a_names a !! dir = Some N -> K !! dir = Some k -> name_ok name -> N !! name = None -> 0 < i_ino x < 2 ^ 64 ->
  dir_mem m2 l (i_ino i) (grown g p) -> grow_frame (f_mem s) m2 l (i_ino i) g p -> recs_at v1 (ni_virt_addr i) (rs ++ [free_page]) ->
  let i2 := set_i_size (i_size i + PAGE_SIZE) (set_i_blocks (i_blocks i + 1) i) in
  let s2 := put_inode i2 (set_world (set_mem m2 (f_world s)) s) in
  exists s3, add_entry sbi s2 i2 x v1 (ni_virt_addr i + i_size i) 0 PAGE_SIZE name now = Ret (0, s3) /\
    fs_inv s3 (set_names dir (<[name := i_ino x]> N) (set_size dir (i_size i + PAGE_SIZE) a)) (<[dir := grown g p]> G) K l R D.
Proof.
  intros HI HV HN Hk Hname Hfresh Hx HM2 Hfr Hr1 i2 s2. pose proof HV as [Hi Ei Hg Hok Hsz En Hma _ [_ Ht Hn [Hva _]]].
  pose proof (rec_len_bounds (Z.of_nat (length name)) ltac:(destruct Hname; lia)) as Hbd.
  pose proof Hok as [O1 O2 O3 O4 O5 O6 O7 O8 O9 O10 O11]. destruct O6 as [|O6]; [done|].
  destruct (add_fill_spec v1 (ni_virt_addr i) rs free_page [] name 0 (i_ino x) (i_mode x) Hr1 Hname Hx) as [Hrecs Htot];
    [cbn; unfold PAGE_SIZE; lia|done|].
  rewrite app_nil_r in Hrecs. change (r_len free_page) with PAGE_SIZE in Hrecs, Htot. rewrite <- Ht in Hrecs.
  set (rs3 := rs ++ placed _ _ _ _ _) in *. set (v3 := add_fill _ _ _ _ _ _ _ _) in *. set (i3 := dir_touch i2 now).
  assert (Et3 : total rs3 = PAGE_SIZE * Z.of_nat (length (l_data (grown g p)))).
  { unfold rs3. rewrite total_app, Htot, O9. cbn [grown l_data]. rewrite length_app. cbn [length]. lia. }
  assert (Hp3 : live_ents rs3 ≡ₚ mk_dentry (i_ino x) (mode_type (i_mode x)) name :: live_ents rs).
  { unfold rs3. rewrite live_app, placed_live. cbn. by rewrite Permutation_app_comm. }
  destruct (names_insert _ _ _ Hp3 Hn) as [Hn3 En3]; [by rewrite En|]. cbn [d_name d_ino] in En3.
  assert (Hma2 : mapped_at (w_km (f_world s2)) (ni_virt_addr i3) (grown g p)) by exact Hma.
  destruct (store_view (f_world s2) (grown g p) l (i_ino i) (ni_virt_addr i3) (length (l_data (grown g p))) 0 v3 HM2 Hma2 ltac:(lia))
    as (m3 & E3 & Hw & Hx3). rewrite Z.mul_0_r, Z.add_0_r in E3. rewrite drop_0 in Hx3.
  pose proof (dir_mem_blocks _ m3 l _ _ HM2 Hx3) as [Hf3 _ HT3 HP3 HN3 HU3 HL3].
  assert (Hok3 : dir_ok m3 i3 (grown g p) rs3).
  { split; try done.
    - cbn. rewrite O5, length_app. cbn. lia.
    - right. cbn. rewrite O6, length_app. cbn [length]. unfold PAGE_SIZE. lia.
    - split; [|done]. cbn [grown l_data]. rewrite length_app. cbn. lia.
    - intros va. apply (stored_recs m3 (grown g p) (ni_virt_addr i) v3); [|done|done]. intros j q o. apply Hw. lia.
    - by apply dot_head_app. }
  destruct (fi_dirs _ _ _ _ _ _ _ HI dir N HN) as (i0 & g0 & rs0 & Hi0 & Hg0 & _ & _ & Hmap).
  assert (i0 = i) as -> by congruence. assert (g0 = g) as -> by congruence.
  assert (HI3 : fs_inv (mk_fs (set_mem m3 (f_world s)) (<[dir := i3]> (f_inodes s))) (dir_state dir i3 (names rs3) a) (<[dir := grown g p]> G) K l R D).
  { apply (inv_set_dir s a G K (p :: l) R D dir N i g m3 i3 (grown g p) rs3 l HI HN Hi Hg Ei Hok3 Hf3); try done.
    - rewrite lay_grown. intros q [Hq| ->%list_elem_of_singleton]%elem_of_app; [by left|right; constructor].
    - intros q Hq. by constructor.
    - intros y Hy Hyf Hys. rewrite Hx3; [|intros q Hq; apply Hy; unfold lay_pages; by do 3 constructor]. apply Hfr.
      + done.
      + apply Hy. rewrite lay_grown. apply elem_of_app. right. constructor.
      + apply Hy. apply (pte_in (grown g p)).
      + by rewrite Ei. }
  unfold dir_state in HI3. rewrite set_links_id in HI3 by exact (inv_link s a G K (p :: l) R D dir i HI Hi).
  assert (Ep : dir_pages i3 = length (l_data (grown g p))).
  { unfold dir_pages. destruct (do_size _ _ _ _ Hok3) as [E0| ->]; [cbn in E0; unfold PAGE_SIZE in *; lia|].
    rewrite Z.mul_comm, Z.div_mul by done. lia. }
  destruct (dirty_ok _ _ _ _ _ _ _ dir HI3) as (s3 & Es3 & HI4 & _); [cbn; by rewrite lookup_insert_eq|]. exists s3.
  rewrite En3, En in HI4. split; [|exact HI4]. unfold add_entry. fold v3. change (dir_touch i2 now) with i3.
  unfold dir_flush. rewrite Ep, E3. cbn [mbind outcome_bind]. change (i_ino i2) with (i_ino i). rewrite Ei.
  replace (put_inode i3 _) with (mk_fs (set_mem m3 (f_world s)) (<[dir := i3]> (f_inodes s))); [by rewrite Es3|].
  unfold put_inode, s2, set_world. cbn. by rewrite Ei, insert_insert_eq.
Qed.

(** The directory gets another page. *)
Lemma add_grown cpu kok s a G K p l R D dir N i g rs v x name now phys0 k : fs_inv s a G K (p :: l) R D -> viewed s a G K dir N i g rs v ->
  a_names a !! dir = Some N -> K !! dir = Some k -> (length (l_data g) <= 14)%nat -> name_ok name -> N !! name = None -> 0 < i_ino x < 2 ^ 64 ->
  exists w i', rdfs_alloc_blocks sbi cpu kok (f_world s) i new_ri 1 0 ALLOC_PAGE phys0 = Ret (0, w, i', new_ri) /\ i_size i' = i_size i /\
    let i2 := set_i_size (i_size i' + PAGE_SIZE) i' in let s2 := put_inode i2 (set_world w s) in
    let de := ni_virt_addr i + i_size i in
    exists v2 s3, dir_view sbi s2 i2 = Ret v2 /\
      add_entry sbi s2 i2 x (st 8 (st 2 v2 (de + de_off.rec_len) PAGE_SIZE) (de + de_off.inode) 0) de 0 PAGE_SIZE name now = Ret (0, s3) /\
      fs_inv s3 (set_names dir (<[name := i_ino x]> N) (set_size dir (i_size i + PAGE_SIZE) a)) (<[dir := grown g p]> G) K l R D.
Proof.
  intros HI HV HN Hk Hlen Hname Hfresh Hx. pose proof HV as [Hi Ei Hg Hok Hsz En Hma _ [_ Ht Hn [Hva _]]].
  pose proof (inv_dir_mem s a G K _ R D dir i g rs HI Hi Hg Hok) as HM. rewrite <- Ei in HM.
  destruct (fi_ino _ _ _ _ _ _ _ HI dir i Hi) as [_ Hir]. pose proof Hma as [Ha Hkm].
  destruct (fi_dirs _ _ _ _ _ _ _ HI dir N HN) as (i0 & g0 & rs0 & Hi0 & Hg0 & _ & _ & Hmap). assert (i0 = i) as -> by congruence. assert (g0 = g) as -> by congruence.
  assert (Hroom : room (ni_virt_addr i)).
  { rewrite Hk in Hmap. destruct k as [nk va]. destruct Hmap as (_ & -> & _ & (c & -> & Hc)%list_elem_of_fmap & _).
    pose proof (fi_last _ _ _ _ _ _ _ HI) as Hl. rewrite Forall_forall in Hl. apply Hl, elem_of_app. by right. }
  pose proof Hok as [O1 O2 O3 O4 O5 O6 O7 O8 O9 O10 O11]. destruct O6 as [|O6]; [done|].
  destruct (grow_blocks cpu kok (f_world s) i g p l phys0 HM Hlen Ha Hroom O5 ltac:(lia)) as (m2 & E & HM2 & Hz & Hfr).
  eexists _, _. split; [exact E|]. split; [done|]. set (i1 := set_i_blocks _ i). intros i2 s2 de.
  assert (Ei2 : i_size i2 = PAGE_SIZE * Z.of_nat (length (l_data (grown g p)))).
  { cbn. rewrite length_app, O6. cbn [length]. unfold PAGE_SIZE. lia. }
  assert (Ep : dir_pages i2 = length (l_data (grown g p))).
  { unfold dir_pages. rewrite Ei2, Z.mul_comm, Z.div_mul by done. lia. }
  assert (Hma2 : mapped_at (w_km (f_world s2)) (ni_virt_addr i2) (grown g p)) by (split; done).
  pose proof HM2 as [_ _ HT2 HP2 _ _ HL2].
  exists (page_view (sbi := sbi) m2 (l_data (grown g p)) (ni_virt_addr i) ∅).
  assert (Hview : dir_view sbi s2 i2 = Ret (page_view (sbi := sbi) m2 (l_data (grown g p)) (ni_virt_addr i) ∅)).
  { unfold dir_view. rewrite Ep. pose proof (load_view (f_world s2) (grown g p) (i_ino i) (ni_virt_addr i2) (length (l_data (grown g p))) 0 ∅
      HT2 HP2 ltac:(lia) Hma2 ltac:(lia)) as El. by rewrite Z.mul_0_r, Z.add_0_r, drop_0 in El. }
  destruct (grown_flush s a G K p l R D dir N i g rs v m2 (st 8 (st 2 (page_view (sbi := sbi) m2 (l_data (grown g p)) (ni_virt_addr i) ∅)
    (de + de_off.rec_len) PAGE_SIZE) (de + de_off.inode) 0) x name now k HI HV HN Hk Hname Hfresh Hx HM2 Hfr) as (s3 & E3 & HI3).
  { unfold de. rewrite Ht. apply (grown_recs (f_mem s)); [done|done|]. intros q y Hq. by apply (grow_frame_data _ _ l (i_ino i) g p). }
  exists s3. by split.
Qed.

(** [rdfs_add_link] inserts a fresh name into a mapped directory of less than 15
    pages; it grows by at most one page. *)
Lemma add_ok cpu kok s a K p l T dir N name ino n z now phys0 : fs_rep s a K (p :: l) T -> live_dir a dir N -> is_Some (K !! dir) ->
  a_sizes a !! dir = Some z -> z <= 14 * PAGE_SIZE -> name_ok name -> N !! name = None -> a_links a !! ino = Some n ->
  exists s' z' l', add_link sbi cpu kok s dir name ino now phys0 = Ret (0, s') /\
    fs_rep s' (set_names dir (<[name := ino]> N) (set_size dir z' a)) K l' T /\ z <= z' <= z + PAGE_SIZE /\
    ((z' = z /\ l' = p :: l) \/ (z' = z + PAGE_SIZE /\ l' = l)).
Proof.
  intros (G & R & D & HI & HT) HL [k Hk] Hz Hz14 Hname Hfresh Hino. pose proof (live_names _ _ _ HL) as HN.
  destruct (inv_cached _ _ _ _ _ _ _ _ _ HI Hino) as (x & Hx & _ & Ex). destruct (fi_ino _ _ _ _ _ _ _ HI ino x Hx) as [_ Hxr].
  destruct (view_ok s a G K _ R D dir N k HI HL Hk) as (i & g & rs & v & HV & _). pose proof HV as [Hi Ei Hg Hok Hsz En _ Hv HD].
  assert (Ez : i_size i = z). { rewrite (fi_sizes _ _ _ _ _ _ _ HI), lookup_fmap, Hi in Hz. by injection Hz. }
  destruct (do_size _ _ _ _ Hok) as [|Es]; [done|].
  assert (Hmod : i_size i mod PAGE_SIZE = 0) by (rewrite Es, Z.mul_comm; by apply Z.mod_mul).
  assert (Hlen : (length (l_data g) <= 14)%nat) by (unfold PAGE_SIZE in *; lia).
  destruct (scan_place v i rs name HD Hname ltac:(by rewrite En) Hmod ltac:(lia)) as [Hs Hnp].
  assert (Hva : (ni_virt_addr i =? 0) = false) by (destruct HD as [_ _ _ [? _]]; lia).
  unfold add_link, get_inode. rewrite Hi, Hx. cbn [mbind outcome_bind]. rewrite Hva, Hv. cbn [mbind outcome_bind].
  destruct (add_pages _ _ _ _ _ _ _) as [b|b nl rl|e|b]; cbn in Hs; [| |done|by destruct (Hnp b)].
  - rewrite (proj2 (Z.leb_le _ _)) by (unfold MAX_DIR_SIZE, PAGE_SIZE in *; lia).
    destruct (add_grown cpu kok s a G K p l R D dir N i g rs v x name now phys0 k HI HV HN Hk Hlen Hname Hfresh ltac:(lia))
      as (w & i' & -> & Esz & v2 & s3 & E2 & E3 & HI3). cbn [mbind outcome_bind Z.eqb negb]. rewrite E2. cbn [mbind outcome_bind].
    pose proof (dir_total _ _ _ HD) as Ht. rewrite <- Ht in Hs. subst b. rewrite E3. exists s3, (z + PAGE_SIZE), l. split; [done|].
    split; [|unfold PAGE_SIZE; split; [lia|right; split; lia || done]]. rewrite Ez, Ex in HI3. by exists (<[dir := grown g p]> G), R, D.
  - destruct Hs as (l1 & r & l2 & El & -> & -> & Hsuit & Hnl).
    destruct (add_in_place s a G K _ R D dir N i g rs v x name now l1 r l2 nl HI HV HN Hname Hfresh ltac:(lia) El Hsuit Hnl) as (s' & -> & HI').
    exists s', z, (p :: l). split; [done|]. split; [|unfold PAGE_SIZE; split; [lia|left; done]].
    rewrite set_size_id, <- Ex by done. by exists G, R, D.
Qed.

(** C26: insertion. [rdfs_add_link] of a fresh name into a mapped directory of at
    most 14 pages, with at least one free page, returns 0: the name is in the
    directory with the inode's number, all other names of all directories, all
    link counts and the sizes of all other inodes are as before, and the
    directory keeps its size and takes no page, or grows by the page that
    [rdfs_alloc_blocks] took off the free list.  The bytes are written through
    the kernel's page table, also the first ones of the new page. *)
Theorem add_link_inserts cpu kok s a K p l T dir N name ino n z now phys0 : fs_rep s a K (p :: l) T -> live_dir a dir N -> is_Some (K !! dir) ->
  a_sizes a !! dir = Some z -> z <= 14 * PAGE_SIZE -> name_ok name -> N !! name = None -> a_links a !! ino = Some n ->
  exists s' z' l', add_link sbi cpu kok s dir name ino now phys0 = Ret (0, s') /\
    fs_rep s' (mk_afs (<[dir := <[name := ino]> N]> (a_names a)) (a_links a) (<[dir := z']> (a_sizes a))) K l' T /\
    ((z' = z /\ l' = p :: l) \/ (z' = z + PAGE_SIZE /\ l' = l)).
Proof.
  intros HR HL HK Hz Hz14 Hname Hfresh Hino.
  destruct (add_ok cpu kok s a K p l T dir N name ino n z now phys0 HR HL HK Hz Hz14 Hname Hfresh Hino) as (s' & z' & l' & E & HR' & _ & Hl).
  by exists s', z', l'.
Qed.
End grow.
