(* ===== verification/Frame.v ===== *)
(** * Framing

    The lemmas of [DirMap] to [DirGrow] are proved for every allocator that meets
    [PageAlloc].  A part of the memory that they leave alone, for instance the
    list of free inode slots or the table of an inode that is no directory yet,
    is carried through them by an instance of the class: the bytes [own] become
    part of the allocator's footprint and the assertion [P] about them part of its
    state. *)

From S2P Require Import Prelude Mem Layout FreeList Balloc Pages Demo Nvmalloc Vfs Dir Bdev Pgtable SlaveMem Mapping Inode FileData DirMap DirFs DirOps DirGrow.

Section frame.
Context (sbi : rdfs_sb_info) {free : mem -> list Z -> Prop} {foot : list Z -> Z -> Prop} {page_ok meta : Z -> Prop}.
Context (own : Z -> Prop) (P : mem -> Prop).

Definition framed_page (p : Z) : Prop := page_ok p /\ forall x, in_page sbi p x -> ~ own x.
Definition framed_free (m : mem) (l : list Z) : Prop := free m l /\ Forall framed_page l /\ P m.
Definition framed_foot (l : list Z) (x : Z) : Prop := foot l x \/ own x.
Definition framed_meta (x : Z) : Prop := meta x /\ ~ own x.

(** [P] is about the bytes [own], which the allocator does not use. *)
Class Framed : Prop := {
  own_ext m m' : (forall x, own x -> ldb m' x = ldb m x) -> P m -> P m';
  own_foot l x : Forall framed_page l -> own x -> ~ foot l x
}.

Lemma framed_pages l : Forall framed_page l -> Forall page_ok l.
Proof. intros Hl. eapply Forall_impl; [exact Hl|]. by intros p [Hp _]. Qed.

#[export] Instance framed_alloc `{!PageAlloc sbi free foot page_ok meta, !Framed} :
  PageAlloc sbi framed_free framed_foot framed_page framed_meta.
Proof.
  split.
  - intros p [Hp _]. by apply (page_phys sbi).
  - intros p [Hp _]. by apply (page_virt sbi).
  - intros p q a [Hp _] [Hq _]. by apply (page_disjoint sbi).
  - intros m l (Hf & Hl & _). split; [done|]. by apply (free_pages sbi m).
  - intros m m' l Hx (Hf & Hl & HP). split; [|split; [done|]].
    + apply (free_ext sbi m); [|done]. intros a Ha. apply Hx. by left.
    + apply (own_ext m); [|done]. intros x Ho. apply Hx. by right.
  - intros p l a Hl [Hp Hno] Hn Ha [Hf|Ho]; [|by apply (Hno a)].
    by apply (foot_page sbi p l a (framed_pages l Hl) Hp Hn Ha).
  - intros p l a [Hf|Ho]; [left; by apply (foot_cons sbi)|by right].
  - intros p a [Hp _] [Hm _]. by apply (meta_page sbi).
  - intros l a Hl [Hm Hno] [Hf|Ho]; [|done]. by apply (meta_foot sbi l a (framed_pages l Hl)).
  - intros m m' l l' ino (Hf & _) (Hf' & _). by apply (free_inode sbi m m' l l').
  - intros m cpu p l (Hf & Hl & HP). pose proof Hl as [[_ Hp] Hl']%Forall_cons.
    destruct (get_page_ok sbi m cpu p l Hf) as (m' & E & Hf' & Hz & Hx). exists m'. split; [done|].
    split; [split; [done|split; [done|]]|split; [done|]].
    + apply (own_ext m); [|done]. intros x Ho. apply Hx; [by apply own_foot|]. intros Hpx. by apply (Hp x).
    + intros a Ha Hn. apply Hx; [|done]. intros Hfa. apply Ha. by left.
  - intros m cpu pa ni p l (Hf & Hl & HP). pose proof Hl as [_ Hl']%Forall_cons.
    destruct (new_page_ok sbi m cpu pa ni p l Hf) as (m' & E & Hf' & Hx). exists m'. split; [done|].
    split; [split; [done|split; [done|]]|].
    + apply (own_ext m); [|done]. intros x Ho. apply Hx. by apply own_foot.
    + intros a Ha. apply Hx. intros Hfa. apply Ha. by left.
  - intros m cpu (Hf & _). by apply (get_page_none sbi).
  - intros m p l (Hf & Hl & HP) [Hp Hno] Hn. destruct (free_block_page sbi m p l Hf Hp Hn) as [Hf' Hx].
    split; [split; [done|split; [by constructor|]]|].
    + apply (own_ext m); [|done]. intros x Ho. apply Hx; [by apply own_foot|]. intros Hpx. by apply (Hno x).
    + intros a Ha Hna. apply Hx; [|done]. intros Hfa. apply Ha. by left.
Qed.

(** ** Entering and leaving a frame *)

Context `{!KernelPg}.
Local Abbreviation base_inv := (DirMap.fs_inv (sbi := sbi) (free := free) (page_ok := page_ok) (meta := meta)).
Local Abbreviation framed_inv := (DirMap.fs_inv (sbi := sbi) (free := framed_free) (page_ok := framed_page) (meta := framed_meta)).
Local Abbreviation slot := (DirMap.slot (sbi := sbi)).

Lemma dir_ok_pages (ok ok' : Z -> Prop) m i g rs : (Forall ok (lay_pages g) -> Forall ok' (lay_pages g)) ->
  dir_ok (sbi := sbi) (page_ok := ok) m i g rs -> dir_ok (sbi := sbi) (page_ok := ok') m i g rs.
Proof. intros Hi [H1 H2 H3 H4 H5 H6 H7 H8 H9 H10 H11]. split; try done. by apply Hi. Qed.

Lemma inv_unframe s a G K l R D : framed_inv s a G K l R D -> base_inv s a G K l R D /\ P (f_mem s).
Proof.
  intros [[F1 [F2 F3]] H2 H3 H4 H5 H6 H7 H7s H8 H9 H10 H11 H12 H13 H14]. split; [|done]. split; try done.
  - intros ino x Hi Hx. by apply (H5 ino).
  - intros dir N HN. destruct (H8 dir N HN) as (i & g & rs & Hi & Hg & Hok & En & Hm). exists i, g, rs.
    do 2 (split; [done|]). split; [|done]. revert Hok. apply dir_ok_pages, framed_pages.
  - intros dir x HN Hx. by apply (H14 dir).
Qed.

Lemma inv_frame s a G K l R D : base_inv s a G K l R D -> P (f_mem s) -> Forall framed_page l ->
  (forall ino x, is_Some (f_inodes s !! ino) -> slot s ino <= x < slot s ino + 72 -> ~ own x) ->
  (forall dir x, is_Some (a_names a !! dir) -> slot s dir + 72 <= x < slot s dir + 80 -> ~ own x) ->
  (forall dir g p x, G !! dir = Some g -> p ∈ lay_pages g -> in_page sbi p x -> ~ own x) ->
  framed_inv s a G K l R D.
Proof.
  intros [H1 H2 H3 H4 H5 H6 H7 H7s H8 H9 H10 H11 H12 H13 H14] HP Hl Hs Hr Hg. split; try done.
  - intros ino x Hi Hx. split; [by apply (H5 ino)|by apply (Hs ino)].
  - intros dir N HN. destruct (H8 dir N HN) as (i & g & rs & Hi & Hgd & Hok & En & Hm). exists i, g, rs.
    do 2 (split; [done|]). split; [|done]. revert Hok. apply dir_ok_pages. rewrite !Forall_forall.
    intros Hp p Hin. split; [by apply Hp|]. intros x. by apply (Hg dir g).
  - intros dir x HN Hx. split; [by apply (H14 dir)|by apply (Hr dir)].
Qed.
End frame.

Arguments Framed _ {_ _} _ _.

(** ** The table of an inode without blocks *)

Section guest.
Context (sbi : rdfs_sb_info) {free : mem -> list Z -> Prop} {foot : list Z -> Z -> Prop} {page_ok meta : Z -> Prop}.
Context `{!PageAlloc sbi free foot page_ok meta, !KernelPg}.
Context (ni : Z) (g : lay).

(** The root word of the slot at [ni] and the pages of [g]. *)
Definition guest_own (x : Z) : Prop := ni + 72 <= x < ni + 80 \/ exists p, p ∈ lay_pages g /\ in_page sbi p x.

Definition guest (m : mem) : Prop :=
  ld 8 m (ni + 72) = l_top g /\ ld 8 m (rdfs_va sbi (l_top g)) = dir_entry (Some (l_pmd g)) /\
  ld 8 m (rdfs_va sbi (l_pmd g)) = dir_entry (Some (l_pte g)) /\
  forall k, 0 <= k < 512 -> ld 8 m (rdfs_va sbi (l_pte g) + 8 * k) = default 0 ((page_entry <$> l_data g) !! Z.to_nat k).

Lemma guest_table m ino : get_rdfs_inode m sbi ino = ni -> guest m <-> dir_table (sbi := sbi) m ino g.
Proof using Type.
  intros Ei. split; [intros (H1 & H2 & H3 & H4)|intros [H1 H2 H3 H4]; rewrite Ei in H1].
  - split; [rewrite Ei; exact H1|done..].
  - split; [exact H1|done].
Qed.

Context (Hp : Forall page_ok (lay_pages g)) (Hroot : forall x, ni + 72 <= x < ni + 80 -> meta x).

#[export] Instance guest_framed : Framed sbi (foot := foot) (page_ok := page_ok) guest_own guest.
Proof using All.
  split.
  - intros m m' Hx (H1 & H2 & H3 & H4).
    assert (Hw : forall p o, p ∈ lay_pages g -> 0 <= o <= PAGE_SIZE - 8 -> ld 8 m' (rdfs_va sbi p + o) = ld 8 m (rdfs_va sbi p + o)).
    { intros p o Hin Ho. apply ld_ext. intros i Hi. apply Hx. right. exists p. split; [done|]. unfold in_page, PAGE_SIZE in *. lia. }
    assert (Hw0 : forall p, p ∈ lay_pages g -> ld 8 m' (rdfs_va sbi p) = ld 8 m (rdfs_va sbi p)).
    { intros p Hin. pose proof (Hw p 0 Hin) as E. rewrite !Z.add_0_r in E. apply E. unfold PAGE_SIZE. lia. }
    destruct (lay_in g) as [L1 L2]. split; [|split; [by rewrite Hw0|split; [by rewrite Hw0|]]].
    + rewrite <- H1. apply ld_ext. intros i Hi. apply Hx. left. lia.
    + intros k Hk. rewrite Hw; [by apply H4|apply pte_in|unfold PAGE_SIZE; lia].
  - intros l x Hl [Hr|(p & Hin & Hx)] Hf.
    + apply (meta_foot sbi l x); [by eapply framed_pages|by apply Hroot|done].
    + rewrite Forall_forall in Hp. apply (foot_page sbi p l x); [by eapply framed_pages|by apply Hp| |done|done].
      intros Hpl. rewrite Forall_forall in Hl. destruct (Hl p Hpl) as [_ Hno]. apply (Hno x Hx). right. by exists p.
Qed.
End guest.

(** The table [rdfs_init_pg_table] builds. *)
Lemma new_guest_table `{!KernelPg} sbi m ino ni p1 p2 p3 : pt_rep sbi m ino (mk_ptree p1 {[0 := p2]} {[(0, 0) := p3]}) ∅ ->
  get_rdfs_inode m sbi ino = ni -> guest sbi ni (mk_lay p1 p2 p3 []) m.
Proof.
  intros [T2 T3 T4 T5] Ei. rewrite Ei in T2. cbn [pt_top pt_pmd pt_pte] in *. split; [exact T2|]. split; [|split].
  - specialize (T3 0). rewrite Z.mul_0_r, Z.add_0_r, lookup_singleton_eq in T3. apply T3. lia.
  - specialize (T4 0 p2 0). rewrite Z.mul_0_r, Z.add_0_r, !lookup_singleton_eq in T4. apply T4; [done|lia].
  - intros k Hk. specialize (T5 0 0 p3 k). rewrite lookup_singleton_eq, lookup_empty in T5. exact (T5 eq_refl Hk).
Qed.
