(* ===== verification/Namei.v ===== *)
(** * Name operations (namei.c, symlink.c, and eviction from super.c)

    The inode operations of directories: lookup, create, mknod, tmpfile, symlink,
    link, unlink, mkdir, rmdir and rename, each with its mapping calls, early
    returns and error paths.  A dentry is the pair of its directory and name and
    the number of its inode; the dentry cache itself, quota calls and inode locks
    are the kernel's and change nothing modelled here. *)

From S2P Require Import Prelude Mem Layout FreeList Balloc Pages Demo Nvmalloc Vfs Dir Bdev Pgtable SlaveMem Mapping Acl Inode FileData DirMap DirFs DirOps DirGrow.

Definition S_IRWXUGO : Z := 0x1ff.

(** The filesystem with the two counters of [rdfs_new_inode]. *)
Record nfs := mk_nfs { n_fs : fs; n_numa : Z; n_gen : Z }.
Definition set_fs (s : fs) (n : nfs) : nfs := mk_nfs s (n_numa n) (n_gen n).

Section namei.
Context `{!KernelPg, !PosixAcl} (sbi : rdfs_sb_info) (cpu : Z) (pud_alloc_ok : Z -> bool) (s_blocksize_bits : Z).
Context (inode_ptr : Z -> Z) (crc32 : list Z -> Z).

(** ** Eviction (super.c) *)

(** [bad]: is_bad_inode; the page cache holds nothing of the inode. *)
Definition rdfs_evict_inode (w : world) (i : inode) (ptr : Z) (bad : bool) (seconds now : Z) : outcome world :=
  '(_, w, i) ← rdfs_establish_mapping sbi pud_alloc_ok w i ptr;
  let want_delete := (i_nlink i =? 0) && negb bad in
  '(w, i) ← (if want_delete then
               let i := set_ni_dtime seconds i in
               let m := rdfs_dirty_inode sbi (w_mem w) i in
               let '(_, m, i) := __rdfs_write_inode sbi m i in
               '(w, i) ← rdfs_truncate_blocks sbi cpu s_blocksize_bits (set_mem m w) i 0 (i_size i) now;
               Ret (w, set_i_size 0 i)
             else Ret (w, i));
  '(_, w, i) ← rdfs_destroy_mapping sbi w i;
  Ret (if want_delete then set_mem (rdfs_free_inode sbi (w_mem w) i seconds) w else w).

(** iput of the only reference to an inode of the cache: without links it is
    evicted, otherwise it stays. *)
Definition iput_last (s : fs) (ino seconds now : Z) : outcome fs :=
  i ← get_inode s ino;
  if i_nlink i =? 0 then
    w ← rdfs_evict_inode (f_world s) i (inode_ptr ino) false seconds now;
    Ret (mk_fs w (delete ino (f_inodes s)))
  else Ret s.

(** ** Creation *)

(** The error or the number of the new inode, which enters the cache.  A failed
    creation evicts what it built; make_bad_inode makes it a regular file. *)
Definition new_inode (n : nfs) (env : new_env) (dir mode : Z) : outcome ((Z + Z) * nfs) :=
  let s := n_fs n in
  d ← get_inode s dir;
  '(r, m, numa, gen) ← rdfs_new_inode sbi cpu (f_mem s) env (n_numa n) (n_gen n) d mode;
  let s := set_world (set_mem m (f_world s)) s in
  match r with
  | NewInode i => Ret (inr (i_ino i), mk_nfs (put_inode i s) numa gen)
  | NewFail err None => Ret (inl err, mk_nfs s numa gen)
  | NewFail err (Some (i, bad)) =>
      let i := if bad then set_i_mode S_IFREG i else i in
      w ← rdfs_evict_inode (f_world s) i (inode_ptr (i_ino i)) bad (e_now env) (e_now env);
      Ret (inl err, mk_nfs (set_world w s) numa gen)
  end.

(** The new inode has no other reference when the link cannot be made. *)
Definition rdfs_add_nondir (s : fs) (dir : Z) (name : list Z) (ino now phys0 : Z) : outcome (Z * fs) :=
  '(err, s) ← add_link sbi cpu pud_alloc_ok s dir name ino now phys0;
  if err =? 0 then Ret (0, s)
  else
    s ← inode_dec_link_count sbi s ino;
    s ← iput_last s ino now now;
    Ret (err, s).

Definition rdfs_create (n : nfs) (dir : Z) (name : list Z) (mode : Z) (env : new_env) (phys0 : Z) : outcome (Z * nfs) :=
  '(r, n) ← new_inode n env dir mode;
  match r with
  | inl err => Ret (err, n)
  | inr ino =>
      s ← mark_inode_dirty sbi (n_fs n) ino;
      '(_, s) ← establish sbi pud_alloc_ok inode_ptr s dir;
      '(_, s) ← rdfs_add_nondir s dir name ino (e_now env) phys0;
      '(err, s) ← destroy sbi s dir;
      Ret (err, set_fs s n)
  end.

(** d_tmpfile drops the link. *)
Definition rdfs_tmpfile (n : nfs) (dir mode : Z) (env : new_env) : outcome (Z * nfs) :=
  '(r, n) ← new_inode n env dir mode;
  match r with
  | inl err => Ret (err, n)
  | inr ino => s ← inode_dec_link_count sbi (n_fs n) ino; Ret (0, set_fs s n)
  end.

(** new_valid_dev of the kernel accepts every device number.  The directory is
    not mapped. *)
Definition rdfs_mknod (n : nfs) (dir : Z) (name : list Z) (mode : Z) (env : new_env) (phys0 : Z) : outcome (Z * nfs) :=
  '(r, n) ← new_inode n env dir mode;
  match r with
  | inl err => Ret (err, n)
  | inr ino =>
      s ← mark_inode_dirty sbi (n_fs n) ino;
      '(err, s) ← rdfs_add_nondir s dir name ino (e_now env) phys0;
      Ret (err, set_fs s n)
  end.

(** ** Symbolic links (symlink.c) *)

Definition rdfs_page_symlink (s : fs) (ino : Z) (symname : list Z) (phys0 : Z) : outcome (Z * fs) :=
  i ← get_inode s ino;
  '(err, w, i, _) ← rdfs_alloc_blocks sbi cpu pud_alloc_ok (f_world s) i new_ri 1 0 ALLOC_PAGE phys0;
  let s := put_inode i (set_world w s) in
  if negb (err =? 0) then Ret (err, s)
  else
    '(_, s) ← establish sbi pud_alloc_ok inode_ptr s ino;
    i ← get_inode s ino;
    w ← mst_bytes sbi (f_world s) (ni_virt_addr i) (symname ++ [0]);
    '(_, s) ← destroy sbi (set_world w s) ino;
    Ret (0, s).

Definition rdfs_symlink (n : nfs) (dir : Z) (name symname : list Z) (env : new_env) (phys0 : Z) : outcome (Z * nfs) :=
  let l := Z.of_nat (length symname) in
  if s_blocksize s_blocksize_bits <? u32 (l + 1) then Ret (- ENAMETOOLONG, n)
  else
    '(r, n) ← new_inode n env dir (Z.lor S_IFLNK S_IRWXUGO);
    match r with
    | inl err => Ret (err, n)
    | inr ino =>
        '(err, s) ← rdfs_page_symlink (n_fs n) ino symname phys0;
        if negb (err =? 0) then
          s ← inode_dec_link_count sbi s ino;
          s ← iput_last s ino (e_now env) (e_now env);
          Ret (err, set_fs s n)
        else
          i ← get_inode s ino;
          let i := set_i_size l i in
          let '(_, m) := rdfs_write_inode sbi (f_mem s) i in
          let s := put_inode i (set_world (set_mem m (f_world s)) s) in
          '(_, s) ← establish sbi pud_alloc_ok inode_ptr s dir;
          '(err, s) ← rdfs_add_nondir s dir name ino (e_now env) phys0;
          '(_, s) ← destroy sbi s dir;
          Ret (err, set_fs s n)
    end.

(** strlen and copy of a mapped string, at most [fuel] bytes. *)
Fixpoint mstring (fuel : nat) (w : world) (va : Z) : outcome (list Z) :=
  match fuel with
  | O => Ret []
  | S fuel' =>
      b ← mld sbi 1 w va;
      if b =? 0 then Ret [] else rest ← mstring fuel' w (va + 1); Ret (b :: rest)
  end.

(** readlink_copy of the kernel: at most [buflen] bytes of the string. *)
Definition rdfs_readlink (s : fs) (ino buflen : Z) : outcome (Z * list Z * fs) :=
  '(_, s) ← establish sbi pud_alloc_ok inode_ptr s ino;
  i ← get_inode s ino;
  str ← mstring (Z.to_nat MAX_DIR_SIZE) (f_world s) (ni_virt_addr i);
  let out := take (Z.to_nat buflen) str in
  '(_, s) ← destroy sbi s ino;
  Ret (Z.of_nat (length out), out, s).

(** ** Lookup *)

(** The number of the inode found, which is in the cache, or nothing; [fresh] is
    the inode iget_locked makes when the number is not cached. *)
Definition rdfs_lookup (s : fs) (lock : bool) (fresh : option inode) (dir : Z) (name : list Z)
  : outcome ((Z + option Z) * fs * bool) :=
  if RDFS_NAME_LEN <? Z.of_nat (length name) then Ret (inl (- ENAMETOOLONG), s, lock)
  else
    '(ino, s) ← inode_by_name sbi pud_alloc_ok inode_ptr s dir name;
    if ino =? 0 then Ret (inr None, s, lock)
    else
      let got := match f_inodes s !! ino with
                 | Some i => Some (i, false)
                 | None => (fun i => (i, true)) <$> fresh
                 end in
      '(r, lock) ← rdfs_iget sbi crc32 (f_mem s) lock got ino;
      match r with
      | inl err => if err =? - ESTALE then Ret (inl (- EIO), s, lock) else Ret (inl err, s, lock)
      | inr i => Ret (inr (Some ino), mk_fs (f_world s) (<[ino := i]> (f_inodes s)), lock)
      end.

(** ** Links *)

(** The caller holds another reference to the inode. *)
Definition rdfs_link (s : fs) (ino dir : Z) (name : list Z) (now phys0 : Z) : outcome (Z * fs) :=
  i ← get_inode s ino;
  let s := put_inode (set_i_ctime now i) s in
  s ← inode_inc_link_count sbi s ino;
  '(_, s) ← establish sbi pud_alloc_ok inode_ptr s dir;
  '(err, s) ← add_link sbi cpu pud_alloc_ok s dir name ino now phys0;
  if err =? 0 then '(_, s) ← destroy sbi s dir; Ret (0, s)
  else
    s ← inode_dec_link_count sbi s ino;
    '(_, s) ← destroy sbi s dir;
    Ret (err, s).

(** The part of [rdfs_unlink] between the mapping calls. *)
Definition unlink_entry (s : fs) (dir : Z) (name : list Z) (ino now : Z) : outcome (Z * fs) :=
  e ← find_entry sbi s dir name;
  match e with
  | None => Ret (- ENOENT, s)
  | Some (de, pde) =>
      '(err, s) ← delete_entry sbi s de pde dir now;
      if negb (err =? 0) then Ret (err, s)
      else
        d ← get_inode s dir; i ← get_inode s ino;
        s ← inode_dec_link_count sbi (put_inode (set_i_ctime (i_ctime d) i) s) ino;
        Ret (0, s)
  end.

Definition rdfs_unlink (s : fs) (dir : Z) (name : list Z) (ino now : Z) : outcome (Z * fs) :=
  '(_, s) ← establish sbi pud_alloc_ok inode_ptr s dir;
  '(err, s) ← unlink_entry s dir name ino now;
  '(_, s) ← destroy sbi s dir;
  Ret (err, s).

(** ** Directories *)

(** rdfs_make_empty with its mapping calls. *)
Definition make_empty (s : fs) (ino parent phys0 : Z) : outcome (Z * fs) :=
  '(err, s) ← establish sbi pud_alloc_ok inode_ptr s ino;
  if negb (err =? 0) then Ret (err, s)
  else
    i ← get_inode s ino; p ← get_inode s parent;
    if negb (i_size i =? 0) then destroy sbi s ino
    else
      '(err, w, i, _) ← rdfs_alloc_blocks sbi cpu pud_alloc_ok (f_world s) i new_ri 1 0 ALLOC_PAGE phys0;
      let i := set_i_size PAGE_SIZE i in
      let s := put_inode i (set_world w s) in
      if negb (err =? 0) then Ret (err, s)
      else if ni_virt_addr i =? 0 then destroy sbi s ino
      else
        v ← dir_view sbi s i;
        s ← dir_flush sbi s i (empty_fill v i p);
        destroy sbi s ino.

Definition mkdir_fail (s : fs) (dir ino now : Z) : outcome fs :=
  s ← inode_dec_link_count sbi s ino;
  s ← inode_dec_link_count sbi s ino;
  s ← iput_last s ino now now;
  inode_dec_link_count sbi s dir.

Definition rdfs_mkdir (n : nfs) (dir : Z) (name : list Z) (mode : Z) (env : new_env) (phys0 : Z) : outcome (Z * nfs) :=
  let now := e_now env in
  s ← inode_inc_link_count sbi (n_fs n) dir;
  '(r, n) ← new_inode (set_fs s n) env dir (Z.lor S_IFDIR mode);
  '(err, s) ← match r with
              | inl err => s ← inode_dec_link_count sbi (n_fs n) dir; Ret (err, s)
              | inr ino =>
                  s ← inode_inc_link_count sbi (n_fs n) ino;
                  '(_, s) ← establish sbi pud_alloc_ok inode_ptr s dir;
                  '(err, s) ← make_empty s ino dir phys0;
                  if negb (err =? 0) then s ← mkdir_fail s dir ino now; Ret (err, s)
                  else
                    '(err, s) ← add_link sbi cpu pud_alloc_ok s dir name ino now phys0;
                    if negb (err =? 0) then s ← mkdir_fail s dir ino now; Ret (err, s)
                    else Ret (0, s)
              end;
  '(_, s) ← destroy sbi s dir;
  Ret (err, set_fs s n).

Definition rdfs_rmdir (s : fs) (dir : Z) (name : list Z) (ino now : Z) : outcome (Z * fs) :=
  '(_, s) ← establish sbi pud_alloc_ok inode_ptr s ino;
  empty ← empty_dir sbi s ino;
  '(err, s) ← (if negb (empty =? 0) then
                 '(err, s) ← rdfs_unlink s dir name ino now;
                 if err =? 0 then
                   i ← get_inode s ino;
                   s ← inode_dec_link_count sbi (put_inode (set_i_size 0 i) s) ino;
                   s ← inode_dec_link_count sbi s dir;
                   Ret (0, s)
                 else Ret (err, s)
               else Ret (- ENOTEMPTY, s));
  '(_, s) ← destroy sbi s ino;
  Ret (err, s).

(** ** Renaming *)

(** The unmapping calls behind the labels out_new_dir, out_new_inode,
    out_old_inode and out_old_dir, from the one jumped to on. *)
Fixpoint destroy_all (s : fs) (inos : list Z) : outcome fs :=
  match inos with
  | [] => Ret s
  | ino :: inos => '(_, s) ← destroy sbi s ino; destroy_all s inos
  end.

(** From "old_inode->i_ctime = CURRENT_TIME_SEC" on. *)
Definition rename_finish (s : fs) (old_dir : Z) (old_name : list Z) (old_inode new_dir : Z) (new_inode dir_de : option Z)
  (now : Z) : outcome (Z * fs) :=
  oi ← get_inode s old_inode;
  s ← mark_inode_dirty sbi (put_inode (set_i_ctime now oi) s) old_inode;
  e ← find_entry sbi s old_dir old_name;
  match e with
  | None => Oops
  | Some (de, pde) =>
      '(_, s) ← delete_entry sbi s de pde old_dir now;
      s ← match dir_de with
          | Some dd =>
              s ← (if negb (old_dir =? new_dir) then set_link sbi s old_inode dd new_dir false now else Ret s);
              inode_dec_link_count sbi s old_dir
          | None => Ret s
          end;
      s ← destroy_all s (match new_inode with Some x => [x] | None => [] end ++
                         match dir_de with Some _ => [old_inode] | None => [] end ++ [old_dir; new_dir]);
      Ret (0, s)
  end.

(** [new_inode] is that of the dentry the new name has. *)
Definition rdfs_rename (s : fs) (old_dir : Z) (old_name : list Z) (old_inode new_dir : Z) (new_name : list Z)
  (new_inode : option Z) (now phys0 : Z) : outcome (Z * fs) :=
  '(_, s) ← establish sbi pud_alloc_ok inode_ptr s old_dir;
  e ← find_entry sbi s old_dir old_name;
  match e with
  | None => s ← destroy_all s [old_dir]; Ret (- ENOENT, s)
  | Some _ =>
      oi ← get_inode s old_inode;
      '(dir_de, s) ← (if S_ISDIR (i_mode oi) then
                        '(_, s) ← establish sbi pud_alloc_ok inode_ptr s old_inode;
                        de ← dotdot_entry sbi s old_inode; Ret (Some de, s)
                      else Ret (None, s));
      let isdir := match dir_de with Some _ => [old_inode] | None => [] end in
      if bool_decide (dir_de = Some 0) then s ← destroy_all s (isdir ++ [old_dir]); Ret (- EIO, s)
      else
        match new_inode with
        | Some x =>
            '(_, s) ← establish sbi pud_alloc_ok inode_ptr s x;
            full ← match dir_de with
                   | Some _ => r ← empty_dir sbi s x; Ret (r =? 0)
                   | None => Ret false
                   end;
            if full : bool then s ← destroy_all s ([x] ++ isdir ++ [old_dir]); Ret (- ENOTEMPTY, s)
            else
              '(_, s) ← establish sbi pud_alloc_ok inode_ptr s new_dir;
              e ← find_entry sbi s new_dir new_name;
              match e with
              | None => s ← destroy_all s ([new_dir; x] ++ isdir ++ [old_dir]); Ret (- ENOENT, s)
              | Some (new_de, _) =>
                  s ← set_link sbi s new_dir new_de old_inode true now;
                  ni ← get_inode s x;
                  let s := put_inode (set_i_ctime now ni) s in
                  s ← match dir_de with Some _ => drop_nlink s x | None => Ret s end;
                  s ← inode_dec_link_count sbi s x;
                  rename_finish s old_dir old_name old_inode new_dir new_inode dir_de now
              end
        | None =>
            '(_, s) ← establish sbi pud_alloc_ok inode_ptr s new_dir;
            '(err, s) ← add_link sbi cpu pud_alloc_ok s new_dir new_name old_inode now phys0;
            if negb (err =? 0) then s ← destroy_all s ([new_dir] ++ isdir ++ [old_dir]); Ret (err, s)
            else
              s ← match dir_de with Some _ => inode_inc_link_count sbi s new_dir | None => Ret s end;
              rename_finish s old_dir old_name old_inode new_dir new_inode dir_de now
        end
  end.
End namei.
