(* ===== verification/DirNew.v ===== *)
(** * A new directory (dir.c)

    [rdfs_make_empty] maps an inode whose table has no block yet, gives it one,
    writes the records of "." and ".." and unmaps it: the inode becomes a
    directory with these two names. *)

From S2P Require Import Prelude Mem Layout FreeList Balloc Pages Demo Nvmalloc Vfs Dir Bdev Pgtable SlaveMem Mapping Acl Inode FileData DirMap DirFs DirOps DirGrow Frame Namei.

(** The names of a new directory. *)
Definition dots (ino parent : Z) : gmap (list Z) Z := <[dot := ino]> (<[dotdot := parent]> ∅).

Section new.
Context `{!KernelPg} {sbi : rdfs_sb_info}.
Context {free : mem -> list Z -> Prop} {foot : list Z -> Z -> Prop} {page_ok meta : Z -> Prop}.
Context `{!PageAlloc sbi free foot page_ok meta}.

Local Abbreviation fs_inv := (DirMap.fs_inv (sbi := sbi) (free := free) (page_ok := page_ok) (meta := meta)).
Local Abbreviation fs_rep := (DirMap.fs_rep (sbi := sbi) (free := free) (page_ok := page_ok) (meta := meta)).
Local Abbreviation dir_mem := (DirMap.dir_mem (sbi := sbi) (free := free) (page_ok := page_ok) (meta := meta)).
Local Abbreviation slot := (DirMap.slot (sbi := sbi)).

(** ** Mapping an inode for the first time, and unmapping it for the last *)

Definition km_enter (va e : Z) (km : kmm) : kmm := mk_kmm (kpud km) (<[va / MAX_DIR_SIZE := e]> (kpmd km)).
Definition km_leave (va : Z) (km : kmm) : kmm := mk_kmm (kpud km) (delete (va / MAX_DIR_SIZE) (kpmd km)).

Lemma map_first kok ptr w i g l R c F U : dir_mem (w_mem w) l (i_ino i) g -> S_ISDIR (i_mode i) = true ->
  ni_virt_addr i = 0 -> ni_mapping_count i = 0 -> nvm_rep (w_nvm w) R (c :: F, U) -> (forall va, dir_area va -> kok va = true) ->
  exists nv, rdfs_establish_mapping sbi kok w i ptr
      = Ret (0, set_km (km_enter c.2 (dir_entry (Some (l_pte g))) (w_km w)) (set_nvm nv w),
             set_ni_virt_addr c.2 (set_ni_mapping_count 1 i)) /\
    nvm_rep nv R (F, c :: U) /\ dir_area c.2.
Proof.
  intros HM Hmode Hv Hc Hrep Hok. destruct (nvmalloc_refines (w_nvm w) R _ 1 Hrep) as (nv & Ea & Hnv).
  cbn [Z.eqb Pos.eqb spec_alloc fst snd] in Ea, Hnv. exists nv.
  assert (Ha : dir_area c.2) by (pose proof (rep_dir_addr _ _ _ Hrep) as Hf; by inversion Hf).
  split; [|done]. destruct (dir_area_tests c.2 Ha) as (_ & T2 & _). unfold rdfs_establish_mapping.
  cbn [ni_virt_addr set_ni_mapping_count]. rewrite Hv. cbn [Z.eqb]. unfold take_area. cbn [i_mode set_ni_mapping_count].
  rewrite Hmode. cbn [orb]. rewrite Ea. cbn [mbind outcome_bind ni_virt_addr set_ni_virt_addr]. rewrite T2. cbn [orb].
  change (w_mem (set_nvm nv w)) with (w_mem w).
  rewrite (dir_nvmap kok _ _ (i_ino i) g l c.2 HM Ha (Hok _ Ha)), Hc. done.
Qed.

Lemma unmap_last w i g l R D : dir_mem (w_mem w) l (i_ino i) g -> ni_mapping_count i = 1 ->
  areas (w_nvm w) R D -> ni_virt_addr i ∈ D.2.*2 ->
  exists nv' D', rdfs_destroy_mapping sbi w i
      = Ret (0, set_nvm nv' (set_km (km_leave (ni_virt_addr i) (w_km w)) w), set_ni_virt_addr 0 (set_ni_mapping_count 0 i)) /\
    areas nv' R D' /\ D'.1 ++ D'.2 ≡ₚ D.1 ++ D.2 /\ length D'.1 = S (length D.1) /\
    (forall v, v ∈ D.2.*2 -> v <> ni_virt_addr i -> v ∈ D'.2.*2).
Proof.
  intros HM Hc Hn Hu. pose proof (area_of_used _ _ _ _ Hn Hu) as Ha. destruct (dir_area_tests _ Ha) as (T1 & T2 & _).
  destruct (free_used _ _ _ _ Hn Hu) as (nv' & D' & E & Hrest). exists nv', D'. split; [|done].
  unfold rdfs_destroy_mapping. rewrite T1. cbn [ni_mapping_count set_ni_mapping_count]. rewrite Hc. change (s32 (1 - 1)) with 0. cbn [Z.ltb Z.compare].
  destruct HM as [_ _ [T1' _ _ _] Hp _ _ _]. unfold lay_pages in Hp. rewrite !Forall_cons in Hp. destruct Hp as (P1 & _).
  rewrite (root_pud sbi (w_mem w) _ (l_top g) P1 T1'). unfold unnvmap. rewrite (va_nz sbi (l_top g) P1), T1, T2.
  unfold unnvmap_dir. cbn [ni_virt_addr set_ni_mapping_count]. by rewrite E.
Qed.

(** Other entries of the kernel's table and other areas. *)
Lemma inv_km s a G K l R D km' nv' D' : fs_inv s a G K l R D -> areas nv' R D' -> D'.1 ++ D'.2 ≡ₚ D.1 ++ D.2 ->
  (forall d n va, K !! d = Some (n, va) ->
     va ∈ D'.2.*2 /\ kpmd km' !! (va / MAX_DIR_SIZE) = kpmd (w_km (f_world s)) !! (va / MAX_DIR_SIZE)) ->
  fs_inv (mk_fs (set_nvm nv' (set_km km' (f_world s))) (f_inodes s)) a G K l R D'.
Proof using Type.
  intros [H1 H2 H3 H4 H5 H6 H7 H7s H8 H9 H10 H11 H12 H13 H14] Hnv Hperm HK. split; try done; [by rewrite Hperm|].
  intros dir N HN. destruct (H8 dir N HN) as (i & g & rs & Hi & Hg & Hok & En & Hm). exists i, g, rs.
  do 4 (split; [done|]). destruct (K !! dir) as [[n va]|] eqn:Ek; [|done]. destruct Hm as (M1 & M2 & M3 & M4 & M5).
  destruct (HK dir n va Ek) as [O1 O2]. unfold map_ok. cbn [w_km f_world set_nvm set_km]. by rewrite O2.
Qed.

(** ** [rdfs_make_empty] *)

Section make_empty.
Context (cpu : Z) (kok : Z -> bool) (inode_ptr : Z -> Z) (phys0 : Z).
Context (Hkok : forall va, dir_area va -> kok va = true).
Context (ni : Z) (g : lay) (Hdata : l_data g = []) (Hp : Forall page_ok (lay_pages g)) (Hnd : NoDup (lay_pages g)).
Context (Hroot : forall x, ni + 72 <= x < ni + 80 -> meta x).

Local Abbreviation guest_inv := (DirMap.fs_inv (sbi := sbi)
  (free := framed_free sbi (free := free) (page_ok := page_ok) (guest_own sbi ni g) (guest sbi ni g))
  (page_ok := framed_page sbi (page_ok := page_ok) (guest_own sbi ni g)) (meta := framed_meta (meta := meta) (guest_own sbi ni g))).

(** An in-core inode that is no directory yet and not mapped. *)
Record blank_dir (i : inode) : Prop := {
  bd_mode : S_ISDIR (i_mode i) = true; bd_size : i_size i = 0; bd_blocks : i_blocks i = 0;
  bd_virt : ni_virt_addr i = 0; bd_count : ni_mapping_count i = 0
}.

Lemma guest_mem s a G K l R D ino i : guest_inv s a G K l R D -> slot s ino = ni -> f_inodes s !! ino = Some i ->
  dir_mem (f_mem s) l ino g.
Proof using Hdata Hp Hnd Hroot.
  intros HI Es Hi. pose proof (fi_free _ _ _ _ _ _ _ HI) as (Hf & Hl & HP). split; try done.
  - intros x Hx. change (get_rdfs_inode (f_mem s) sbi ino) with (slot s ino) in Hx. rewrite Es in Hx.
    destruct (decide (x < ni + 72)); [|apply Hroot; lia]. apply (fi_slot _ _ _ _ _ _ _ HI ino); [by exists i|]. rewrite Es. lia.
  - by apply (guest_table sbi ni).
  - intros p Hin Hpl. rewrite Forall_forall in Hl. destruct (Hl p Hpl) as [_ Hno]. apply (Hno (rdfs_va sbi p)).
    + unfold in_page, PAGE_SIZE. lia.
    + right. exists p. split; [done|]. unfold in_page, PAGE_SIZE. lia.
  - rewrite Hdata. cbn. lia.
Qed.

(** The block of a new directory, filled in at [va]. *)
Lemma fill_new w i parent p l : dir_mem (w_mem w) (p :: l) (i_ino i) g -> i_blocks i = 0 -> dir_area (ni_virt_addr i) ->
  room (ni_virt_addr i) -> mapped_at (w_km w) (ni_virt_addr i) g -> 0 < i_ino i < 2 ^ 31 -> 0 < i_ino parent < 2 ^ 31 ->
  S_ISDIR (i_mode i) = true ->
  exists m2, rdfs_alloc_blocks sbi cpu kok w i new_ri 1 0 ALLOC_PAGE phys0 = Ret (0, set_mem m2 w, set_i_blocks 1 i, new_ri) /\
    let i3 := set_i_size PAGE_SIZE (set_i_blocks 1 i) in
    exists v m3, (forall s, f_world s = set_mem m2 w -> dir_view sbi s i3 = Ret v) /\
      (forall s, f_world s = set_mem m2 w -> dir_flush sbi s i3 (empty_fill v i3 parent) = Ret (put_inode i3 (set_world (set_mem m3 w) s))) /\
      dir_mem m3 l (i_ino i) (grown g p) /\
      (forall j, i_ino j = i_ino i -> i_mode j = i_mode i -> i_blocks j = 1 -> i_size j = PAGE_SIZE ->
         dir_ok (sbi := sbi) (page_ok := page_ok) m3 j (grown g p) (empty_recs (i_ino i) (i_ino parent) (i_mode i))) /\
      (forall x, (forall q, q ∈ lay_pages (grown g p) -> ~ in_page sbi q x) -> ~ foot (p :: l) x ->
         ~ (get_rdfs_inode (w_mem w) sbi (i_ino i) <= x < get_rdfs_inode (w_mem w) sbi (i_ino i) + 72) -> ldb m3 x = ldb (w_mem w) x).
Proof using All.
  intros HM Hb Ha Hrm Hma Hi Hpi Hmode.
  destruct (grow_blocks cpu kok w i g p l phys0 HM ltac:(rewrite Hdata; cbn; lia) Ha Hrm ltac:(by rewrite Hdata) Hi) as (m2 & E & HM2 & _ & Hfr).
  exists m2. rewrite Hb in E. split; [exact E|]. intros i3.
  assert (El : length (l_data (grown g p)) = 1%nat) by (cbn; by rewrite Hdata).
  assert (Hma2 : mapped_at (w_km (set_mem m2 w)) (ni_virt_addr i3) (grown g p)) by exact Hma.
  pose proof HM2 as [_ _ HT2 HP2 _ _ HL2].
  set (v := page_view (sbi := sbi) m2 (l_data (grown g p)) (ni_virt_addr i) ∅).
  assert (Hva : 0 < ni_virt_addr i3) by (destruct Ha as (j & Hj & Ev); cbn; rewrite Ev; unfold RDFS_START, MAX_DIR_SIZE; lia).
  pose proof (empty_fill_rep v i3 parent eq_refl Hva ltac:(cbn; lia) ltac:(lia)) as HD.
  destruct (store_view (set_mem m2 w) (grown g p) l (i_ino i) (ni_virt_addr i3) 1 0 (empty_fill v i3 parent) HM2 Hma2 ltac:(lia))
    as (m3 & E3 & Hw & Hx3). rewrite Z.mul_0_r, Z.add_0_r in E3. rewrite drop_0 in Hx3.
  pose proof (dir_mem_blocks _ m3 l _ _ HM2 Hx3) as HM3.
  exists v, m3. split; [|split; [|split; [done|split]]].
  - intros s Es. unfold dir_view. change (dir_pages i3) with 1%nat. rewrite Es.
    pose proof (load_view (set_mem m2 w) (grown g p) (i_ino i) (ni_virt_addr i3) 1 0 ∅ HT2 HP2 ltac:(lia) Hma2 ltac:(lia)) as Ev.
    by rewrite Z.mul_0_r, Z.add_0_r, drop_0 in Ev.
  - intros s Es. unfold dir_flush. change (dir_pages i3) with 1%nat. by rewrite Es, E3.
  - intros j J1 J2 J3 J4. destruct HM3 as [_ _ HT3 HP3 HN3 _ _]. destruct HD as [Hr _ Hn _].
    assert (Ht : total (empty_recs (i_ino i) (i_ino parent) (i_mode i)) = PAGE_SIZE * Z.of_nat (length (l_data (grown g p)))) by (by rewrite El).
    split; try done.
    + by rewrite J2.
    + by rewrite J1.
    + by rewrite J3, El.
    + right. by rewrite J4, El.
    + lia.
    + intros va. apply (stored_recs m3 (grown g p) (ni_virt_addr i3) (empty_fill v i3 parent)); [|exact Hr|exact Ht]. intros k q o. apply Hw. lia.
    + by exists (new_rec 16 (i_ino i) (i_mode i) dot), (new_rec (PAGE_SIZE - 16) (i_ino parent) (i_mode i) dotdot), [].
  - intros x Hq Hf Hs. rewrite Hx3; [apply Hfr; [done| |apply Hq, (pte_in (grown g p))|done]|].
    + apply Hq. rewrite lay_grown. apply elem_of_app. right. constructor.
    + intros q Hin. apply Hq. unfold lay_pages. by do 3 constructor.
Qed.

Lemma make_empty_ok s a G K p l R D ino parent i np : guest_inv s a G K (p :: l) R D -> slot s ino = ni ->
  f_inodes s !! ino = Some i -> blank_dir i -> a_names a !! ino = None -> a_links a !! parent = Some np -> (0 < length D.1)%nat ->
  exists s' D', make_empty sbi cpu kok inode_ptr s ino parent phys0 = Ret (0, s') /\
    fs_inv s' (set_names ino (dots ino parent) (set_size ino PAGE_SIZE a)) (<[ino := grown g p]> G) K l R D' /\
    length D'.1 = length D.1 /\ (forall d, d <> ino -> f_inodes s' !! d = f_inodes s !! d).
Proof using All.
  intros HG Eslot Hi [B1 B2 B3 B4 B5] Hnone Hpar Hlen. pose proof (guest_mem _ _ _ _ _ _ _ _ _ HG Eslot Hi) as HM.
  destruct (inv_unframe _ _ _ _ _ _ _ _ _ _ HG) as [HI _]. destruct (fi_ino _ _ _ _ _ _ _ HI ino i Hi) as [Ei Hri].
  destruct (fi_nvm _ _ _ _ _ _ _ HI) as [Z0 Hrep]. destruct D as [[|c F] U]; [cbn in Hlen; lia|]. cbn [fst snd app] in Hrep.
  rewrite <- Ei in HM.
  destruct (map_first kok (inode_ptr ino) (f_world s) i g _ R c (F ++ Z0) U HM B1 B4 B5 Hrep Hkok) as (nv & E1 & Hnv & Ha).
  set (i1 := set_ni_virt_addr c.2 (set_ni_mapping_count 1 i)) in *. set (w1 := set_km _ (set_nvm nv _)) in E1.
  set (s1 := mk_fs w1 (<[ino := i1]> (f_inodes s))).
  assert (Hpi : exists pi, f_inodes s1 !! parent = Some pi /\ i_ino pi = parent /\ 0 < parent < 2 ^ 31).
  { cbn. destruct (decide (parent = ino)) as [->|Hne]; [exists i1; by rewrite lookup_insert_eq|].
    destruct (inv_cached _ _ _ _ _ _ _ _ _ HI Hpar) as (pi & Hpi & _ & Ep). exists pi. rewrite lookup_insert_ne by done.
    split; [done|]. split; [done|]. by apply (fi_ino _ _ _ _ _ _ _ HI parent pi). }
  destruct Hpi as (pi & Hpi & Epi & Hrp). assert (Hi1 : f_inodes s1 !! ino = Some i1) by apply lookup_insert_eq.
  assert (Hroom : room c.2) by (pose proof (fi_last _ _ _ _ _ _ _ HI) as Hl; by apply Forall_cons in Hl as [Hl _]).
  destruct (fill_new w1 i1 pi p l HM B3 Ha Hroom) as (m2 & E2 & v & m3 & Hv & Hfl & HM3 & Hok3 & Hfr);
    [split; [done|apply lookup_insert_eq]|cbn; lia|lia|done|].
  set (i3 := set_i_size PAGE_SIZE (set_i_blocks 1 i1)) in *. set (w3 := set_mem m3 w1).
  destruct (unmap_last w3 i3 (grown g p) l R (F, c :: U) HM3 eq_refl) as (nv' & D' & E3 & Hnv' & Hperm & Hlen' & Hkeep);
    [by exists Z0|by constructor|].
  set (i4 := set_ni_virt_addr 0 _) in E3. change (ni_virt_addr i3) with c.2 in *.
  assert (HKn : K !! ino = None).
  { destruct (K !! ino) eqn:Ek; [|done]. destruct (fi_kdom _ _ _ _ _ _ _ HI ino) as [N HN]; [by rewrite Ek|congruence]. }
  pose proof (inv_place_dir s a G K (p :: l) R (c :: F, U) ino i m3 i4 (grown g p) (empty_recs ino parent (i_mode i)) l HI Hi) as HP.
  assert (HI3 : fs_inv (mk_fs (set_mem m3 (f_world s)) (<[ino := i4]> (f_inodes s)))
    (set_names ino (dots ino parent) (set_size ino PAGE_SIZE a)) (<[ino := grown g p]> G) K l R (c :: F, U)).
  { rewrite <- (set_links_id (set_size ino PAGE_SIZE a) ino (i_nlink i)) by exact (inv_link _ _ _ _ _ _ _ _ _ HI Hi).
    apply HP; clear HP.
    - done.
    - rewrite <- Ei, <- Epi. by apply Hok3.
    - apply HM3.
    - intros d gd q Hd Hgd Hq Hq'. rewrite lay_grown in Hq'. apply elem_of_app in Hq' as [Hq'| ->%list_elem_of_singleton].
      + pose proof (fi_dom _ _ _ _ _ _ _ HG d (mk_is_Some _ _ Hgd)) as [N HN].
        destruct (fi_dirs _ _ _ _ _ _ _ HG d N HN) as (j & g0 & rs & _ & Hg0 & [_ Hpg _ _ _ _ _ _ _ _ _] & _).
        assert (g0 = gd) as -> by congruence. rewrite Forall_forall in Hpg. destruct (Hpg q Hq) as [_ Hno].
        apply (Hno (rdfs_va sbi q)); [unfold in_page, PAGE_SIZE; lia|]. right. exists q. split; [done|]. unfold in_page, PAGE_SIZE. lia.
      + by apply (fi_used _ _ _ _ _ _ _ HI d gd p Hgd Hq); constructor.
    - by rewrite Eslot.
    - intros q. apply (dm_used _ _ _ _ HM3).
    - intros q. by constructor.
    - intros x Hx Hf Hs. apply Hfr; [done|done|]. cbn. by rewrite Ei.
    - by rewrite HKn. }
  eexists (mk_fs (set_nvm nv' (set_km (km_leave c.2 (w_km w3)) (set_mem m3 (f_world s)))) (<[ino := i4]> (f_inodes s))), D'.
  split; [|split; [|split; [by rewrite Hlen'|intros d Hd; cbn; by rewrite lookup_insert_ne]]].
  - unfold make_empty, establish, get_inode. rewrite Hi. cbn [mbind outcome_bind]. rewrite E1. cbn [mbind outcome_bind Z.eqb negb].
    fold s1. rewrite Hi1, Hpi. cbn [mbind outcome_bind].
    change (i_size i1) with (i_size i). rewrite B2. cbn [Z.eqb negb]. change (f_world s1) with w1. rewrite E2. cbn [mbind outcome_bind Z.eqb negb].
    fold i3. change (ni_virt_addr i3) with c.2. destruct (dir_area_tests c.2 Ha) as (-> & _).
    rewrite Hv by done. cbn [mbind outcome_bind]. rewrite Hfl by done. cbn [mbind outcome_bind].
    unfold destroy, get_inode. cbn [put_inode set_world f_inodes f_world s1]. change (i_ino i3) with (i_ino i). rewrite Ei, lookup_insert_eq.
    cbn [mbind outcome_bind]. fold w3. rewrite E3. cbn [mbind outcome_bind]. by rewrite !insert_insert_eq.
  - apply (inv_km _ _ _ _ _ _ _ (km_leave c.2 (w_km w3)) nv' D' HI3); [done|rewrite Hperm; cbn; by rewrite <- Permutation_middle|].
    intros d n va Hd. destruct (used_dirs _ _ _ _ _ _ _ _ _ _ HI Hd) as [Hu Hda]. cbn [snd] in Hu.
    assert (Hne : va <> c.2).
    { intros ->. pose proof (pool_addrs _ _ _ _ _ (rep_dir _ _ _ Hrep)) as Hn. cbn in Hn. apply NoDup_cons in Hn as [Hn _].
      apply Hn. rewrite !fmap_app. set_solver. }
    split; [apply Hkeep; [cbn; set_solver|done]|]. cbn.
    assert (va / MAX_DIR_SIZE <> c.2 / MAX_DIR_SIZE) by (intros E; by apply Hne, area_index).
    by rewrite lookup_delete_ne, lookup_insert_ne.
Qed.
End make_empty.
End new.
