(* ===== verification/NewInode.v ===== *)
(** * Inodes and their slots in the mounted filesystem (inode.c)

    The list of free inode slots is carried through the directory operations as a
    frame (see [Frame]); [rdfs_new_inode] takes its first slot, fills it in and
    builds a table of three pages, which then is a frame of its own until the
    inode becomes a directory. *)

From S2P Require Import Prelude Mem Layout FreeList Balloc Pages Demo Nvmalloc Vfs Dir Bdev Pgtable SlaveMem Mapping Acl Inode FileData DirMap DirFs DirOps DirGrow Frame Namei DirNew.

(** ** Another inode in the cache *)

Definition add_inode (ino : Z) (i : inode) (a : afs) : afs := set_size ino (i_size i) (set_links ino (i_nlink i) a).

(** What [rdfs_new_inode] does in the usual case: the kernel has an in-core inode
    to give and the number is not in use; ACLs are not enabled. *)
Record usual (env : new_env) (i0 : inode) : Prop := {
  us_inode : e_inode env = Some i0;
  us_nlink : i_nlink i0 = 1;
  us_insert : e_insert_ok env = true;
  us_acl : e_acl env = false;
  us_umask : 0 <= e_umask env < 512
}.

(** The in-core inode it returns. *)
Record new_core (ino mode : Z) (i : inode) : Prop := {
  nc_ino : i_ino i = ino;
  nc_type : Z.land (i_mode i) S_IFMT = Z.land mode S_IFMT;
  nc_nlink : i_nlink i = 1;
  nc_size : i_size i = 0;
  nc_blocks : i_blocks i = 0;
  nc_virt : ni_virt_addr i = 0;
  nc_count : ni_mapping_count i = 0
}.

Lemma fmt_bit i : 0 <= i -> Z.testbit S_IFMT i = true -> 12 <= i < 16.
Proof.
  intros Hi Hb. change S_IFMT with (15 * 2 ^ 12) in Hb. rewrite Z.mul_pow2_bits in Hb by lia.
  destruct (decide (i < 12)); [by rewrite Z.testbit_neg_r in Hb by lia|].
  destruct (decide (i < 16)); [lia|]. by rewrite (testbit_small 15 4) in Hb by lia.
Qed.

(** The umask and the set-group bit leave the type alone. *)
Lemma type_umask m u : 0 <= u < 512 -> Z.land (Z.land m (u16 (Z.lnot u))) S_IFMT = Z.land m S_IFMT.
Proof.
  intros Hu. apply Z.bits_inj'. intros i Hi. rewrite !Z.land_spec. destruct (Z.testbit S_IFMT i) eqn:Hb; [|by rewrite !andb_false_r].
  apply fmt_bit in Hb; [|done]. unfold u16. change 65536 with (2 ^ 16). rewrite Z.mod_pow2_bits_low, Z.lnot_spec, (testbit_small u 9) by lia.
  by rewrite !andb_true_r.
Qed.

Lemma type_setgid m : Z.land (Z.lor m S_ISGID) S_IFMT = Z.land m S_IFMT.
Proof.
  apply Z.bits_inj'. intros i Hi. rewrite !Z.land_spec, Z.lor_spec. destruct (Z.testbit S_IFMT i) eqn:Hb; [|by rewrite !andb_false_r].
  apply fmt_bit in Hb; [|done]. rewrite (testbit_small S_ISGID 11) by (unfold S_ISGID; lia). by rewrite orb_false_r.
Qed.

Lemma owner_type uid gid i d mode : Z.land (i_mode (inode_init_owner uid gid i d mode)) S_IFMT = Z.land mode S_IFMT.
Proof. unfold inode_init_owner. destruct (negb _); [|done]. cbn. destruct (S_ISDIR mode); [apply type_setgid|done]. Qed.

Lemma new_core_umask ino mode i u : new_core ino mode i -> 0 <= u < 512 ->
  new_core ino mode (set_i_mode (Z.land (i_mode i) (u16 (Z.lnot u))) i).
Proof. intros [] Hu. split; try done. cbn [i_mode set_i_mode]. by rewrite type_umask. Qed.

Section cache.
Context `{!KernelPg} {sbi : rdfs_sb_info}.
Context {free : mem -> list Z -> Prop} {foot : list Z -> Z -> Prop} {page_ok meta : Z -> Prop}.
Context `{!PageAlloc sbi free foot page_ok meta}.
Local Abbreviation fs_inv := (DirMap.fs_inv (sbi := sbi) (free := free) (page_ok := page_ok) (meta := meta)).
Local Abbreviation slot := (DirMap.slot (sbi := sbi)).

Lemma inv_uncached s a G K l R D ino : fs_inv s a G K l R D -> f_inodes s !! ino = None -> a_names a !! ino = None.
Proof using Type.
  intros HI Hn. destruct (a_names a !! ino) as [N|] eqn:E; [|done].
  destruct (fi_dirs _ _ _ _ _ _ _ HI ino N E) as (i & g & rs & Hi & _). congruence.
Qed.

Lemma inv_new s a G K l R D ino i m' l' : fs_inv s a G K l R D -> f_inodes s !! ino = None -> i_ino i = ino -> 0 < ino < 2 ^ 31 ->
  free m' l' -> (forall p, p ∈ l' -> p ∈ l) -> (forall x, slot s ino <= x < slot s ino + 72 -> meta x) ->
  (forall ino', is_Some (f_inodes s !! ino') -> slot s ino + RDFS_INODE_SIZE <= slot s ino' \/ slot s ino' + RDFS_INODE_SIZE <= slot s ino) ->
  (forall d g p x, G !! d = Some g -> p ∈ lay_pages g -> in_page sbi p x -> ldb m' x = ldb (f_mem s) x) ->
  (forall d x, is_Some (f_inodes s !! d) -> is_Some (a_names a !! d) -> slot s d + 72 <= x < slot s d + 80 -> ldb m' x = ldb (f_mem s) x) ->
  fs_inv (mk_fs (set_mem m' (f_world s)) (<[ino := i]> (f_inodes s))) (add_inode ino i a) G K l' R D.
Proof.
  intros HI Hn Ei Hr Hf Hsub Hsl Hap Hpg Hrt. pose proof HI as [H1 H2 H3 H4 H5 H6 H7 H7s H8 H9 H10 H11 H12 H13 H14].
  set (s' := mk_fs _ _).
  assert (Es : forall x, slot s' x = slot s x) by (intros x; by eapply (free_inode sbi)).
  split; try done.
  - intros x j. cbn. intros [[<- <-]|[_ Hj]]%lookup_insert_Some; [done|by apply H4].
  - intros x y Hs. rewrite Es. cbn in Hs. destruct (decide (x = ino)) as [->|]; [apply Hsl|]. rewrite lookup_insert_ne in Hs by done. by apply H5.
  - intros x y. rewrite !Es. cbn. destruct (decide (x = ino)) as [->|Nx], (decide (y = ino)) as [->|Ny]; [done|..];
      rewrite ?(lookup_insert_ne _ ino y), ?(lookup_insert_ne _ ino x) by done; intros Hx Hy Hne.
    + by apply Hap.
    + destruct (Hap x Hx); tauto.
    + by apply H6.
  - cbn. by rewrite fmap_insert, H7.
  - cbn. by rewrite fmap_insert, H7s.
  - intros d N HN. destruct (H8 d N HN) as (j & g & rs & Hj & Hg & Hok & En & Hm). exists j, g, rs.
    cbn. rewrite lookup_insert_ne by (intros <-; congruence). do 2 (split; [done|]). split; [|done].
    destruct (H4 d j Hj) as [Ej _]. apply (dir_ok_frame (f_mem s)); [by eapply (free_inode sbi)| | |done].
    + intros x Hx. rewrite Ej in Hx. apply (Hrt d); [by exists j|by exists N|]. unfold DirMap.slot, inode_off.i_pg_addr in *. lia.
    + intros p x Hp. by apply (Hpg d g).
  - intros d g p Hg Hp Hl. by apply (H12 d g p Hg Hp), Hsub.
  - intros d x HN. rewrite Es. by apply H14.
Qed.
End cache.

(** ** The free slots as a frame *)

Section slots.
Context (sbi : rdfs_sb_info) (size : Z) (N : node) (n : Z) `{!Node sbi size N}.
Local Abbreviation nd := (node_des N).
Context (W : slots_ok sbi size nd n).
(** Taking the last slot writes 8 bytes behind it. *)
Context (Hgap : nd + 256 + n * 128 + 8 <= node_lo N - phy_addr sbi + virt_addr sbi).

Definition slot_va (ino : Z) : Z := nd + 128 + (ino - 1) * 128.
Definition slots_own (li : list Z) (x : Z) : Prop :=
  word_at (nd + numa_off.free_inode_count) x \/ word_at (nd + numa_off.free_inode_phy) x \/
  exists ino, ino ∈ li /\ slot_va ino <= x < slot_va ino + 128.
Definition slots_free (li : list Z) (m : mem) : Prop := free_rep sbi (slots sbi nd n) m (slot_phys sbi nd <$> li).
Definition slot_range (ino : Z) : Prop := 2 <= ino < n + 2.

Ltac slots_lia :=
  pose proof (node_area (sbi := sbi) (size := size) (N := N)) as []; pose proof W as []; pose proof Node0 as [];
  unfold page_list, fl_count, fl_head in *; unfold slots_own, word_at, slot_va, slot_range, in_page, node_meta, numa_off.free_inode_count, numa_off.free_inode_phy,
    numa_off.free_page_count, numa_off.free_page_phy, RDFS_SB_SPACE, PAGE_SIZE, sizeof_numa_des, super_block_off.s_numa_flag,
    super_block_off.s_numa_des, RDFS_INODE_SIZE in *; cbn -[Z.mul Z.add] in *; lia.

(** The descriptor and the slots lie below the pages. *)
Lemma slots_own_below li x : Forall slot_range li -> slots_own li x -> nd <= x < node_lo N - phy_addr sbi + virt_addr sbi.
Proof using All.
  rewrite Forall_forall. intros Hl [H|[H|(ino & Hin & H)]]; [slots_lia..|]. specialize (Hl ino Hin). slots_lia.
Qed.

Lemma page_above p x : node_page N p -> in_page sbi p x -> node_lo N - phy_addr sbi + virt_addr sbi <= x.
Proof using Node0. intros Hp Hx. destruct (node_page_range sbi size N p Hp) as (E & _). destruct Hp as (Hlo & _). cbn in Hlo. unfold in_page in Hx. lia. Qed.

Lemma slot_words li q : Forall slot_range li -> q ∈ slot_phys sbi nd <$> li ->
  exists ino, ino ∈ li /\ link sbi (slots sbi nd n) q = slot_va ino + 72.
Proof using All.
  intros Hl (ino & -> & Hin)%list_elem_of_fmap. exists ino. split; [done|]. rewrite Forall_forall in Hl.
  rewrite (slot_link sbi size nd n W) by (by apply Hl). done.
Qed.

#[export] Instance slots_framed li : Forall slot_range li ->
  Framed sbi (foot := node_foot sbi N) (page_ok := node_page N) (slots_own li) (slots_free li).
Proof using All.
  intros Hl. split.
  - intros m m' Hx. apply rep_frame.
    + apply ld_foot. intros b Hb. apply Hx. left. unfold word_at. cbn in Hb. lia.
    + apply ld_foot. intros b Hb. apply Hx. right. left. unfold word_at. cbn in Hb. lia.
    + intros q Hq. destruct (slot_words li q Hl Hq) as (ino & Hin & ->). apply ld_foot. intros b Hb. apply Hx. right. right. exists ino. split; [done|]. lia.
  - intros l x Hf Hx Hfoot. pose proof (slots_own_below li x Hl Hx) as Hb.
    destruct Hfoot as [->|[H|[H|[H|(q & Hq & H)]]]].
    + slots_lia.
    + slots_lia.
    + destruct Hx as [Hx|[Hx|(ino & Hin & Hx)]]; [slots_lia..|]. rewrite Forall_forall in Hl. specialize (Hl ino Hin). slots_lia.
    + destruct Hx as [Hx|[Hx|(ino & Hin & Hx)]]; [slots_lia..|]. rewrite Forall_forall in Hl. specialize (Hl ino Hin). slots_lia.
    + rewrite Forall_forall in Hf. destruct (Hf q Hq) as [Hp _]. pose proof (page_above q x Hp) as Hpa. unfold in_page, word_at, PAGE_SIZE in *. lia.
Qed.

Lemma pages_framed li l : Forall slot_range li -> Forall (node_page N) l -> Forall (framed_page sbi (page_ok := node_page N) (slots_own li)) l.
Proof using All.
  intros Hl Hp. eapply Forall_impl; [exact Hp|]. intros p Hpp. split; [done|]. intros x Hx Ho. apply slots_own_below in Ho; [|done].
  pose proof (page_above p x Hpp Hx). lia.
Qed.

Lemma slots_own_tail ino li x : slots_own li x -> slots_own (ino :: li) x.
Proof using Type. unfold slots_own. intros [H|[H|(j & Hj & H)]]; [tauto..|]. right. right. exists j. by split; [constructor|]. Qed.

Lemma slot_eq m ino : s_numa_flag m sbi = false -> s_numa_des m sbi 0 = nd -> slot_range ino -> get_rdfs_inode m sbi ino = slot_va ino.
Proof using All. intros H1 H2 Hr. unfold slot_range in Hr. apply (slot_addr sbi size nd n W); [done|done|lia]. Qed.
(** ** Taking a slot *)

Context (Hn : n + 2 <= 2 ^ 31).

Lemma take_slotted m ino li l : node_free sbi N m l -> slots_free (ino :: li) m -> Forall slot_range (ino :: li) ->
  exists m', take_slot sbi m nd = Some (ino, slot_va ino, m') /\ node_free sbi N m' l /\ slots_free li m' /\
    (forall x, ~ (slot_va ino <= x < slot_va ino + 136) -> ~ word_at (nd + numa_off.free_inode_count) x ->
       ~ word_at (nd + numa_off.free_inode_phy) x -> ldb m' x = ldb m x).
Proof using All.
  intros (F1 & F2 & F3) HP [Hr Hl]%Forall_cons.
  destruct (take_slot_ok sbi size nd n W m ino (slot_phys sbi nd <$> li)) as (m' & E & [_ _ HP'] & _ & Hx); [by split|done|].
  exists m'. split; [done|]. split; [|split; [done|]].
  - apply (node_free_ext sbi N m); [|done]. intros x Hf. apply Hx.
    + intros Hb. assert (Hlo : nd + 128 <= x < node_lo N - phy_addr sbi + virt_addr sbi) by slots_lia.
      destruct Hf as [->|[H|[H|[H|(q & Hq & H)]]]]; [slots_lia..|].
      pose proof (rep_elems _ _ _ _ F3) as He. rewrite Forall_forall in He.
      pose proof (page_above q x (He q Hq)) as Hpa. unfold in_page, word_at, PAGE_SIZE in *. lia.
    + intros Hb. destruct (slots_framed [] ltac:(done)) as [_ Hno]. apply (Hno l x); [|right; left; done|done].
      apply pages_framed; [done|apply F3].
    + intros Hb. destruct (slots_framed [] ltac:(done)) as [_ Hno]. apply (Hno l x); [|left; done|done].
      apply pages_framed; [done|apply F3].
  - intros x H1 H2 H3. apply Hx; done.
Qed.
(** ** [rdfs_new_inode] on the memory *)

Context `{!KernelPg, !PosixAcl} (cpu : Z).
Local Abbreviation SF li := (framed_free sbi (free := node_free sbi N) (page_ok := node_page N) (slots_own li) (slots_free li)).
Local Abbreviation SP li := (framed_page sbi (page_ok := node_page N) (slots_own li)).
Local Abbreviation SM li := (framed_meta (meta := node_meta sbi N) (slots_own li)).

Lemma slot_meta ino li x : slot_range ino -> Forall slot_range li -> ino ∉ li -> slot_va ino <= x < slot_va ino + 128 -> SM li x.
Proof using All.
  intros Hr Hl Hni Hx. split; [slots_lia|]. intros [Hw|[Hw|(j & Hj & Hw)]]; [slots_lia..|]. unfold slot_va in *.
  assert (j = ino) by lia. by subst.
Qed.

(** The root's slot, in front of these. *)
Lemma root_meta li x : Forall slot_range li -> slot_va 1 <= x < slot_va 1 + 128 -> SM li x.
Proof using All.
  rewrite Forall_forall. intros Hl Hx. split; [slots_lia|]. intros [Hw|[Hw|(j & Hj & Hw)]]; [slots_lia..|]. specialize (Hl j Hj). slots_lia.
Qed.

(** Of the super block they depend on the node flag and the first descriptor. *)
Lemma super_framed li m m' l : Forall slot_range li -> SF li m l ->
  (forall x, nd <= x \/ x = virt_addr sbi + super_block_off.s_numa_flag \/ word_at (virt_addr sbi + super_block_off.s_numa_des) x -> ldb m' x = ldb m x) ->
  SF li m' l.
Proof using All.
  intros Hl HS Hx. pose proof (slots_framed li Hl) as HF. pose proof HS as ((_ & _ & F3) & _). apply (free_ext sbi (meta := SM li) m); [|done].
  intros x [Hf|Ho]; apply Hx; [|left; by apply slots_own_below in Ho as [? _]].
  destruct Hf as [->|[Hw|[Hw|[Hw|(q & Hq & Hw)]]]]; [tauto|tauto|left; slots_lia|left; slots_lia|]. left.
  pose proof (rep_elems _ _ _ _ F3) as He. rewrite Forall_forall in He. destruct (node_page_range sbi size N q (He q Hq)) as (_ & Hr & _).
  unfold word_at, sizeof_numa_des in *. lia.
Qed.

(** The slot filled in: the free pages and slots are as before. *)
Lemma update_slotted m i ino li l : SF li m l -> slot_range ino -> Forall slot_range li -> ino ∉ li -> i_ino i = ino ->
  exists m', rdfs_update_inode sbi m i = (0, m') /\ SF li m' l /\
    (forall x, ~ (slot_va ino <= x < slot_va ino + 72) -> ldb m' x = ldb m x).
Proof using All.
  intros Hf Hr Hl Hni Ei. pose proof (slots_framed li Hl) as HF. pose proof Hf as ((F1 & F2 & F3) & Hpl & HP).
  pose proof (slot_eq m ino F1 F2 Hr) as Es.
  assert (Hx : forall x, ~ (slot_va ino <= x < slot_va ino + 72) -> ldb (rdfs_update_inode sbi m i).2 x = ldb m x).
  { intros x Hx. apply update_inode_frame. by rewrite Ei, Es. }
  exists (rdfs_update_inode sbi m i).2. split; [|split; [|done]].
  - unfold rdfs_update_inode. rewrite Ei, Es, (proj2 (Z.eqb_neq _ 0)) by slots_lia. done.
  - apply (free_ext sbi (meta := SM li) m); [|done]. intros x Hfx. apply Hx. intros Hxr.
    apply (meta_foot sbi (meta := SM li) l x Hpl (slot_meta ino li x Hr Hl Hni ltac:(lia)) Hfx).
Qed.

Lemma new_inode_mem m env i0 numa gen d mode ino li p1 p2 p3 l : SF (ino :: li) m (p1 :: p2 :: p3 :: l) ->
  Forall slot_range (ino :: li) -> usual env i0 -> get_rdfs_inode m sbi (i_ino d) <> 0 ->
  let g := mk_lay p1 p2 p3 [] in
  exists m' i gen', rdfs_new_inode sbi cpu m env numa gen d mode = Ret (NewInode i, m', numa, gen') /\ new_core ino mode i /\
    SF li m' l /\ guest sbi (slot_va ino) g m' /\ (ino ∉ li) /\
    (forall q x, node_page N q -> q ∉ p1 :: p2 :: p3 :: l -> in_page sbi q x -> ldb m' x = ldb m x) /\
    (forall x, node_meta sbi N x -> ~ slots_own li x -> ~ (slot_va ino <= x < slot_va ino + 136) -> ldb m' x = ldb m x).
Proof using All.
  intros (Hf & Hpl & HP) Hr [U1 U2 U3 U4 U5] Hd g. pose proof Hr as [Hri Hrl]%Forall_cons. pose proof Hf as (F1 & F2 & F3).
  assert (Hni : ino ∉ li).
  { pose proof (rep_nodup _ _ _ _ HP) as Hnd. cbn in Hnd. apply NoDup_cons in Hnd as [Hnd _]. intros Hin. apply Hnd, list_elem_of_fmap. by exists ino. }
  assert (Hpl' : Forall (SP li) (p1 :: p2 :: p3 :: l)) by (apply pages_framed; [done|by eapply framed_pages]).
  destruct (take_slotted m ino li _ Hf HP Hr) as (m1 & E1 & Hf1 & HP1 & Hx1). pose proof Hf1 as (F1' & F2' & _).
  assert (HS1 : SF li m1 (p1 :: p2 :: p3 :: l)) by (split; [done|by split]).
  set (i1 := inode_init_owner (e_fsuid env) (e_fsgid env) (set_i_ino ino i0) d mode).
  set (i2 := set_i_ctime (e_now env) (set_i_atime (e_now env) (set_i_mtime (e_now env) (set_i_size 0 (set_i_blocks 0 i1))))).
  set (i3 := set_ni_flags (rdfs_mask_flags mode (Z.land (ni_flags d) RDFS_FL_INHERITED)) (rdfs_inode_info_init i2)).
  set (i4 := rdfs_set_inode_flags (set_i_generation (u32 (s32 (gen + 1))) i3)).
  assert (C4 : new_core ino mode i4).
  { assert (C1 : i_ino i1 = ino /\ i_nlink i1 = 1 /\ Z.land (i_mode i1) S_IFMT = Z.land mode S_IFMT).
    { split; [|split; [|apply owner_type]]; unfold i1, inode_init_owner; by destruct (negb _). }
    destruct C1 as (C1 & C2 & C3). by split. }
  destruct (update_slotted m1 i4 ino li _ HS1 Hri Hrl Hni (nc_ino _ _ _ C4)) as (m2 & E2 & HS2 & Hx2).
  pose proof HS2 as ((G1 & G2 & _) & _). pose proof (slot_eq m2 ino G1 G2 Hri) as Es2. pose proof (slots_framed li Hrl) as HF.
  assert (Hslot : forall x, get_rdfs_inode m2 sbi ino <= x < get_rdfs_inode m2 sbi ino + RDFS_INODE_SIZE -> SM li x).
  { intros x. rewrite Es2. by apply slot_meta. }
  destruct (init_pg_table_ok sbi (meta := SM li) m2 cpu ino p1 p2 p3 l HS2 Hslot) as (m3 & E3 & [T1 _ T2 _ _ _] & K3 & M3).
  set (i5 := if negb (S_ISLNK (i_mode i4)) then set_i_mode (Z.land (i_mode i4) (u16 (Z.lnot (e_umask env)))) i4 else i4).
  assert (C5 : new_core ino mode i5).
  { unfold i5. destruct (negb _); [|exact C4]. by apply new_core_umask. }
  exists m3, i5, (s32 (gen + 1)). split; [|split; [done|split; [done|split; [|split; [done|split]]]]].
  - unfold rdfs_new_inode. rewrite U1. unfold get_a_numa. rewrite F1, F2, E1.
    rewrite (free_inode sbi (meta := node_meta sbi N) m m1 _ _ (i_ino d) Hf Hf1), (proj2 (Z.eqb_neq _ 0) Hd).
    rewrite U3. fold i1 i2 i3 i4. cbn [negb]. unfold rdfs_write_inode. rewrite E2. cbn [Z.eqb negb].
    unfold rdfs_init_acl. rewrite U4, andb_false_r. cbn [mbind outcome_bind]. fold i5. cbn [Z.eqb negb]. by rewrite E3.
  - apply (new_guest_table sbi m3 ino); [exact T2|]. by rewrite (free_inode sbi (meta := SM li) m2 m3 _ _ ino HS2 T1), Es2.
  - intros q x Hq Hqn Hqx. pose proof (page_above q x Hq Hqx) as Hpa. rewrite (K3 q); [|by apply (Forall_singleton (SP li)), pages_framed; [|apply Forall_singleton]|done|done].
    rewrite Hx2, Hx1; [done|slots_lia..].
  - intros x Hm Hno Hns. rewrite M3, Hx2, Hx1; [done|done|intros Hw; apply Hno; by left|intros Hw; apply Hno; right; by left|lia|by split|].
    rewrite Es2. unfold inode_off.i_pg_addr. lia.
Qed.
(** ** A new inode in the cache *)

Lemma cached_slot m ino : s_numa_flag m sbi = false -> s_numa_des m sbi 0 = nd -> 0 < ino < 2 ^ 31 ->
  node_meta sbi N (get_rdfs_inode m sbi ino) -> get_rdfs_inode m sbi ino = slot_va ino.
Proof using All.
  intros H1 H2 Hi. unfold get_rdfs_inode. rewrite H1, H2. unfold RDFS_INODE_BITS. rewrite shiftl_mul by lia. unfold sizeof_numa_des.
  rewrite (u64_small (ino - 1)), (u64_small (_ * _)) by lia. unfold u64. intros Hm.
  destruct (decide (nd + 128 + (ino - 1) * 2 ^ 7 < 2 ^ 64)) as [Hlt|Hge].
  - rewrite Z.mod_small; [unfold slot_va; lia|]. slots_lia.
  - exfalso. assert (E : (nd + 128 + (ino - 1) * 2 ^ 7) mod 2 ^ 64 = nd + 128 + (ino - 1) * 2 ^ 7 - 2 ^ 64).
    { symmetry. apply (Z.mod_unique _ _ 1); [|lia]. left. slots_lia. }
    rewrite E in Hm. slots_lia.
Qed.

Local Abbreviation SINV li := (DirMap.fs_inv (sbi := sbi) (free := SF li) (page_ok := SP li) (meta := SM li)).
Local Abbreviation BINV := (DirMap.fs_inv (sbi := sbi) (free := node_free sbi N) (page_ok := node_page N) (meta := node_meta sbi N)).
Local Abbreviation slot := (DirMap.slot (sbi := sbi)).
(** ... with the table [g] of inode [ino] as a frame. *)
Local Abbreviation GINV li ino g := (DirMap.fs_inv (sbi := sbi)
  (free := framed_free sbi (free := SF li) (page_ok := SP li) (guest_own sbi (slot_va ino) g) (guest sbi (slot_va ino) g))
  (page_ok := framed_page sbi (page_ok := SP li) (guest_own sbi (slot_va ino) g))
  (meta := framed_meta (meta := SM li) (guest_own sbi (slot_va ino) g))).

Lemma slot_of s a G K l R D ino : BINV s a G K l R D -> is_Some (f_inodes s !! ino) -> slot s ino = slot_va ino.
Proof using All.
  intros HI [i Hi]. destruct (fi_free _ _ _ _ _ _ _ HI) as (F1 & F2 & _). destruct (fi_ino _ _ _ _ _ _ _ HI ino i Hi) as [_ Hr].
  apply cached_slot; try done. apply (fi_slot _ _ _ _ _ _ _ HI ino); [by exists i|]. unfold DirMap.slot. lia.
Qed.

Lemma slot_fresh s a G K l R D ino li : SINV (ino :: li) s a G K l R D -> f_inodes s !! ino = None.
Proof using All.
  intros HI. destruct (f_inodes s !! ino) as [i|] eqn:Ei; [|done]. exfalso. destruct (inv_unframe _ _ _ _ _ _ _ _ _ _ HI) as [HB _].
  pose proof (slot_of _ _ _ _ _ _ _ ino HB ltac:(by rewrite Ei)) as Es.
  destruct (fi_slot _ _ _ _ _ _ _ HI ino (slot s ino)) as [_ Hno]; [by rewrite Ei|lia|]. apply Hno. right. right.
  exists ino. split; [constructor|]. rewrite Es. lia.
Qed.

(** The pages of a directory are neither free nor part of the free slots. *)
Lemma dir_pages_of li s a G K l R D dir g p : SINV li s a G K l R D -> G !! dir = Some g -> p ∈ lay_pages g -> SP li p /\ (p ∉ l).
Proof using Type.
  intros HI Hg Hp. split; [|by apply (fi_used _ _ _ _ _ _ _ HI dir g)].
  destruct (fi_dom _ _ _ _ _ _ _ HI dir (mk_is_Some _ _ Hg)) as [M HM].
  destruct (fi_dirs _ _ _ _ _ _ _ HI dir M HM) as (i & g' & rs & _ & Hg' & [_ Hpg _ _ _ _ _ _ _ _ _] & _).
  assert (g' = g) as -> by congruence. rewrite Forall_forall in Hpg. by apply Hpg.
Qed.

Lemma new_cached s a G K l l' R D ino li i m' : SINV (ino :: li) s a G K l R D -> Forall slot_range (ino :: li) -> ino ∉ li ->
  i_ino i = ino -> SF li m' l' -> (forall p, p ∈ l' -> p ∈ l) ->
  (forall q x, node_page N q -> q ∉ l -> in_page sbi q x -> ldb m' x = ldb (f_mem s) x) ->
  (forall x, node_meta sbi N x -> ~ slots_own li x -> ~ (slot_va ino <= x < slot_va ino + 136) -> ldb m' x = ldb (f_mem s) x) ->
  SINV li (mk_fs (set_mem m' (f_world s)) (<[ino := i]> (f_inodes s))) (add_inode ino i a) G K l' R D.
Proof using All.
  intros HI [Hri Hrl]%Forall_cons Hni Ei HS Hsub Hpg Hmt. destruct (inv_unframe _ _ _ _ _ _ _ _ _ _ HI) as [HB HP].
  pose proof (slot_fresh _ _ _ _ _ _ _ _ _ HI) as Hfr. pose proof HS as (Hf' & Hpl & HP').
  pose proof (fi_free _ _ _ _ _ _ _ HB) as Hf. pose proof Hf as (F1 & F2 & _). pose proof (slot_eq _ _ F1 F2 Hri) as Es.
  change (get_rdfs_inode (f_mem s) sbi ino) with (slot s ino) in Es.
  assert (Hroots : forall d x, is_Some (f_inodes s !! d) -> is_Some (a_names a !! d) -> slot s d + 72 <= x < slot s d + 80 ->
    ~ slots_own li x /\ ~ (slot_va ino <= x < slot_va ino + 136)).
  { intros d x Hd HN Hx. destruct (fi_root _ _ _ _ _ _ _ HI d x HN Hx) as [_ Hno]. split.
    - intros Ho. by apply Hno, slots_own_tail.
    - rewrite (slot_of _ _ _ _ _ _ _ d HB Hd) in Hx. assert (d <> ino) by (intros ->; by rewrite Hfr in Hd; destruct Hd). unfold slot_va in *. lia. }
  assert (HB' : BINV (mk_fs (set_mem m' (f_world s)) (<[ino := i]> (f_inodes s))) (add_inode ino i a) G K l' R D).
  { apply (inv_new s a G K l R D ino i m' l' HB Hfr Ei); [unfold slot_range in Hri; lia|done|done|..].
    - intros x Hx. rewrite Es in Hx. apply (slot_meta ino li x Hri Hrl Hni). lia.
    - intros d Hd. rewrite Es, (slot_of _ _ _ _ _ _ _ d HB Hd). assert (d <> ino) by (intros ->; by rewrite Hfr in Hd; destruct Hd).
      unfold slot_va, RDFS_INODE_SIZE. lia.
    - intros d g q x Hg Hq. destruct (dir_pages_of _ _ _ _ _ _ _ _ d g q HI Hg Hq) as [[Hpq _] Hql]. by apply Hpg.
    - intros d x Hd HN Hx. destruct (Hroots d x Hd HN Hx). apply Hmt; [|done|done]. by apply (fi_root _ _ _ _ _ _ _ HB d). }
  assert (Ess : forall d, slot (mk_fs (set_mem m' (f_world s)) (<[ino := i]> (f_inodes s))) d = slot s d).
  { intros d. exact (free_inode sbi (meta := node_meta sbi N) _ _ _ _ d Hf Hf'). }
  apply inv_frame; try done.
  - intros d x Hd. rewrite Ess. cbn in Hd. destruct (decide (d = ino)) as [->|Hne].
    + rewrite Es. intros Hx. apply (slot_meta ino li x Hri Hrl Hni). lia.
    + rewrite lookup_insert_ne in Hd by done. intros Hx Ho. destruct (fi_slot _ _ _ _ _ _ _ HI d x Hd Hx) as [_ Hno]. by apply Hno, slots_own_tail.
  - intros d x HN. rewrite Ess. intros Hx. apply (Hroots d x); try done. destruct HN as [M HM].
    destruct (fi_dirs _ _ _ _ _ _ _ HI d M HM) as (j & _ & _ & Hj & _). by exists j.
  - intros d g q x Hg Hq Hx Ho. destruct (dir_pages_of _ _ _ _ _ _ _ _ d g q HI Hg Hq) as [[_ Hno] _]. by apply (Hno x Hx), slots_own_tail.
Qed.
(** The new inode's table as a frame. *)
Lemma new_guest s a G K l R D ino li i g : SINV li s a G K l R D -> f_inodes s !! ino = Some i -> a_names a !! ino = None ->
  guest sbi (slot_va ino) g (f_mem s) -> slot_range ino -> Forall slot_range li -> ino ∉ li ->
  Forall (node_page N) (lay_pages g) -> (forall p, p ∈ lay_pages g -> p ∉ l) ->
  (forall d gd p, G !! d = Some gd -> p ∈ lay_pages gd -> p ∉ lay_pages g) -> GINV li ino g s a G K l R D.
Proof using All.
  intros HI Hi Hna HG Hri Hrl Hni Hp Hpl Hpg. destruct (inv_unframe _ _ _ _ _ _ _ _ _ _ HI) as [HB _].
  pose proof (fi_free _ _ _ _ _ _ _ HI) as (Hf & Hlp & _). rewrite Forall_forall in Hp.
  assert (Hroot : forall x, slot_va ino + 72 <= x < slot_va ino + 80 -> node_meta sbi N x).
  { intros x Hx. apply (slot_meta ino li x Hri Hrl Hni). lia. }
  assert (Hpage : forall q x, node_page N q -> in_page sbi q x -> guest_own sbi (slot_va ino) g x -> q ∈ lay_pages g).
  { intros q x Hq Hx [Hr|(p & Hin & Hpx)]; [by destruct (meta_page sbi (page_ok := node_page N) (meta := node_meta sbi N) q x Hq (Hroot x Hr))|].
    by rewrite (page_disjoint sbi (page_ok := node_page N) q p x Hq (Hp p Hin) Hx Hpx). }
  assert (Hmeta : forall x, node_meta sbi N x -> guest_own sbi (slot_va ino) g x -> slot_va ino + 72 <= x < slot_va ino + 80).
  { intros x Hm [Hr|(p & Hin & Hpx)]; [done|]. by destruct (meta_page sbi (page_ok := node_page N) (meta := node_meta sbi N) p x (Hp p Hin) Hm). }
  apply inv_frame; try done.
  - apply Forall_forall. intros q Hq. rewrite Forall_forall in Hlp. pose proof (Hlp q Hq) as Hqq. split; [done|]. intros x Hx Ho.
    apply (Hpl q); [|done]. by apply (Hpage q x); [apply Hqq|..].
  - intros d x Hd Hx Ho. apply Hmeta in Ho; [|by apply (fi_slot _ _ _ _ _ _ _ HB d)]. rewrite (slot_of _ _ _ _ _ _ _ d HB Hd) in Hx. unfold slot_va in *. lia.
  - intros d x HN Hx Ho. apply Hmeta in Ho; [|by apply (fi_root _ _ _ _ _ _ _ HB d)]. pose proof HN as [M HM].
    destruct (fi_dirs _ _ _ _ _ _ _ HB d M HM) as (j & _ & _ & Hj & _).
    rewrite (slot_of _ _ _ _ _ _ _ d HB (mk_is_Some _ _ Hj)) in Hx. assert (d = ino) as -> by (unfold slot_va in *; lia). by rewrite Hna in HM.
  - intros d gd q x Hgd Hq Hx Ho. destruct (dir_pages_of _ _ _ _ _ _ _ _ d gd q HI Hgd Hq) as [[Hpq _] _].
    by apply (Hpg d gd q Hgd Hq), (Hpage q x).
Qed.

Context (kok : Z -> bool) (bits : Z) (inode_ptr : Z -> Z).

(** [rdfs_new_inode] with a free slot and three free pages: the first slot's inode
    enters the cache with one link and size 0, its table built. *)
Lemma new_inode_ok nf env i0 dir d mode a G K ino li p1 p2 p3 l R D :
  SINV (ino :: li) (n_fs nf) a G K (p1 :: p2 :: p3 :: l) R D -> Forall slot_range (ino :: li) ->
  f_inodes (n_fs nf) !! dir = Some d -> usual env i0 ->
  let g := mk_lay p1 p2 p3 [] in
  exists s' numa gen i, new_inode sbi cpu kok bits inode_ptr nf env dir mode = Ret (inr ino, mk_nfs s' numa gen) /\
    GINV li ino g s' (add_inode ino i a) G K l R D /\ f_inodes s' = <[ino := i]> (f_inodes (n_fs nf)) /\ new_core ino mode i /\
    Forall (SP li) (lay_pages g) /\ NoDup (lay_pages g) /\ (ino ∉ li) /\ f_inodes (n_fs nf) !! ino = None.
Proof using All.
  intros HI Hr Hd Hus g. set (s := n_fs nf) in *. destruct (inv_unframe _ _ _ _ _ _ _ _ _ _ HI) as [HB _].
  pose proof (slot_fresh _ _ _ _ _ _ _ _ _ HI) as Hfr. pose proof (fi_free _ _ _ _ _ _ _ HI) as HSF. pose proof Hr as [Hri Hrl]%Forall_cons.
  destruct (fi_ino _ _ _ _ _ _ _ HB dir d Hd) as [Ed Hdr].
  assert (Hdz : get_rdfs_inode (f_mem s) sbi (i_ino d) <> 0).
  { rewrite Ed. change (slot s dir <> 0). rewrite (slot_of _ _ _ _ _ _ _ dir HB (mk_is_Some _ _ Hd)). slots_lia. }
  destruct (new_inode_mem (f_mem s) env i0 (n_numa nf) (n_gen nf) d mode ino li p1 p2 p3 l HSF Hr Hus Hdz)
    as (m' & i & gen' & E & HC & HS' & HG & Hni & Hpg & Hmt).
  assert (Hlp : Forall (SP (ino :: li)) (p1 :: p2 :: p3 :: l)) by apply HSF.
  assert (Hnd : NoDup (p1 :: p2 :: p3 :: l)) by (destruct (fi_free _ _ _ _ _ _ _ HB) as (_ & _ & F3); apply F3).
  assert (Hpages : Forall (node_page N) (lay_pages g)).
  { apply framed_pages in Hlp. by repeat (apply Forall_cons in Hlp as [? Hlp]; constructor; [done|]). }
  assert (Hin : forall p, p ∈ lay_pages g -> p ∈ p1 :: p2 :: p3 :: l).
  { intros p. unfold lay_pages, g. cbn. rewrite !elem_of_cons. intros [->|[->|[->|[]%not_elem_of_nil]]]; tauto. }
  assert (Hnd3 : NoDup (lay_pages g) /\ forall p, p ∈ lay_pages g -> p ∉ l).
  { change (p1 :: p2 :: p3 :: l) with (lay_pages g ++ l) in Hnd. apply NoDup_app in Hnd as (N1 & N2 & _). by split. }
  pose proof (new_cached s a G K _ l R D ino li i m' HI Hr Hni (nc_ino _ _ _ HC) HS' ltac:(intros p Hp; by do 3 constructor) Hpg Hmt) as HI'.
  exists (mk_fs (set_mem m' (f_world s)) (<[ino := i]> (f_inodes s))), (n_numa nf), gen', i.
  split; [|split; [|split; [done|split; [done|split; [by apply pages_framed|split; [apply Hnd3|by split]]]]]].
  - unfold new_inode, get_inode. fold s. rewrite Hd. cbn [mbind outcome_bind]. rewrite E. cbn [mbind outcome_bind].
    unfold put_inode. by rewrite (nc_ino _ _ _ HC).
  - apply (new_guest _ _ _ _ _ _ _ ino li i g HI'); [apply lookup_insert_eq|by apply (inv_uncached s _ _ _ _ _ _ _ HB)|done|done|done|done|done|apply Hnd3|].
    intros dd gd p Hgd Hp Hq. destruct (dir_pages_of _ _ _ _ _ _ _ _ dd gd p HI Hgd Hp) as [_ Hno]. by apply Hno, Hin.
Qed.
End slots.
