(* ===== verification/NameSpec.v ===== *)
(** * The name operations refine an abstract filesystem

    The abstract filesystem [afs] is a map from directories to names and a map of
    link counts.  Each name operation that creates no inode is proved to return,
    with the result of an abstract operation, in a state that represents the
    abstract result, with every directory it mapped unmapped again. *)

From S2P Require Import Prelude Mem Layout FreeList Balloc Pages Demo Nvmalloc Vfs Dir Bdev Pgtable SlaveMem Mapping Acl Inode FileData DirMap DirFs DirOps DirGrow Namei.

(** ** Abstract operations *)

(** Two abstract states with the same names and links; sizes may differ, since a
    directory grows when it has to. *)
#[export] Instance afs_equiv : Equiv afs := fun a b => a_names a = a_names b /\ a_links a = a_links b.

#[export] Instance afs_equivalence : Equivalence (≡@{afs}).
Proof.
  split.
  - by intros a.
  - by intros a b [H1 H2].
  - intros a b c [H1 H2] [H3 H4]. split; congruence.
Qed.

(** Changing the names of a directory, and the links of an inode by [k]. *)
Definition upd_names (dir : Z) (f : gmap (list Z) Z -> gmap (list Z) Z) (a : afs) : afs :=
  match a_names a !! dir with Some N => set_names dir (f N) a | None => a end.
Definition bump (ino k : Z) (a : afs) : afs :=
  match a_links a !! ino with Some n => set_links ino (u32 (n + k)) a | None => a end.

Definition name_of (a : afs) (dir : Z) (name : list Z) : option Z := a_names a !! dir ≫= (.!! name).

Definition a_unlink (dir : Z) (name : list Z) (ino : Z) (a : afs) : Z * afs :=
  match name_of a dir name with
  | Some _ => (0, bump ino (-1) (upd_names dir (delete name) a))
  | None => (- ENOENT, a)
  end.

Definition a_link (ino dir : Z) (name : list Z) (a : afs) : afs :=
  upd_names dir <[name := ino]> (bump ino 1 a).

Definition a_rmdir (dir : Z) (name : list Z) (ino : Z) (a : afs) : afs :=
  bump dir (-1) (bump ino (-1) (a_unlink dir name ino a).2).

(** To a name that does not exist yet. *)
Definition a_rename (old_dir : Z) (old_name : list Z) (old_inode new_dir : Z) (new_name : list Z) (isdir : bool) (a : afs) : afs :=
  let a := upd_names new_dir <[new_name := old_inode]> a in
  let a := if isdir then bump new_dir 1 a else a in
  let a := upd_names old_dir (delete old_name) a in
  if isdir then
    let a := if old_dir =? new_dir then a else upd_names old_inode <[dotdot := new_dir]> a in
    bump old_dir (-1) a
  else a.

#[export] Instance upd_names_proper dir f : Proper ((≡) ==> (≡)) (upd_names dir f).
Proof. intros a b [E1 E2]. unfold upd_names. rewrite E1. destruct (a_names b !! dir); split; cbn; congruence. Qed.

#[export] Instance bump_proper ino k : Proper ((≡) ==> (≡)) (bump ino k).
Proof. intros a b [E1 E2]. unfold bump. rewrite E2. destruct (a_links b !! ino); split; cbn; congruence. Qed.

Lemma set_size_equiv dir z a : set_size dir z a ≡ a.
Proof. done. Qed.

Lemma upd_names_at a dir N f : a_names a !! dir = Some N -> upd_names dir f a = set_names dir (f N) a.
Proof. intros E. unfold upd_names. by rewrite E. Qed.

Lemma bump_at a ino n k : a_links a !! ino = Some n -> bump ino k a = set_links ino (u32 (n + k)) a.
Proof. intros E. unfold bump. by rewrite E. Qed.

(** ** Mapped directories *)

(** Another [n] directories can be mapped. *)
Definition ready (K : gmap Z (Z * Z)) (T n : nat) : Prop :=
  (size K + n <= T)%nat /\ (n <= 8)%nat /\ map_Forall (fun _ c => 1 <= c.1 /\ c.1 + Z.of_nat n < 2 ^ 30) K.

Definition opened (dir va : Z) (K : gmap Z (Z * Z)) : Prop := forall n va', K !! dir = Some (n, va') -> va' = va /\ 1 <= n.

Lemma openK_at dir va K : exists n, openK dir va K !! dir = Some (n, va).
Proof. unfold openK. rewrite lookup_insert_eq. by eexists. Qed.

Lemma openK_ne d dir va K : d <> dir -> openK dir va K !! d = K !! d.
Proof. intros Hd. unfold openK. by rewrite lookup_insert_ne. Qed.

Lemma closeK_open dir va K : opened dir va K -> closeK dir (openK dir va K) = K.
Proof.
  intros Ho. unfold closeK, openK. rewrite lookup_insert_eq. destruct (K !! dir) as [[n va']|] eqn:E; cbn.
  - destruct (Ho n va' E) as [-> Hn]. rewrite (proj2 (Z.eqb_neq _ 1)) by lia. rewrite insert_insert_eq.
    replace (n + 1 - 1) with n by lia. by apply insert_id.
  - change (0 + 1 =? 1) with true. cbn iota. by apply delete_insert_id.
Qed.

Lemma closeK_open_ne d dir va K : d <> dir -> closeK d (openK dir va K) = openK dir va (closeK d K).
Proof.
  intros Hd. unfold closeK. rewrite openK_ne by done. destruct (K !! d) as [[n v]|] eqn:E; [|done]. unfold openK.
  destruct (n =? 1).
  - by rewrite lookup_delete_ne, delete_insert_ne by done.
  - rewrite lookup_insert_ne by done. by rewrite insert_insert_ne.
Qed.

Lemma openK_swap d va d' va' K : d <> d' -> openK d va (openK d' va' K) = openK d' va' (openK d va K).
Proof. intros Hd. unfold openK. rewrite !lookup_insert_ne by done. by rewrite insert_insert_ne. Qed.

Lemma openK_keep d dir va K : is_Some (K !! d) -> is_Some (openK dir va K !! d).
Proof. intros Hd. destruct (decide (d = dir)) as [->|]; [destruct (openK_at dir va K); eauto|by rewrite openK_ne]. Qed.

Lemma opened_ne d va d' va' K : d <> d' -> opened d va (openK d' va' K) <-> opened d va K.
Proof. intros Hd. unfold opened. by rewrite openK_ne. Qed.

Lemma ready_open dir va K T n : ready K T (S n) -> ready (openK dir va K) T n.
Proof.
  intros (H1 & Hn & H2). unfold openK. split; [|split; [lia|]].
  - rewrite map_size_insert. destruct (K !! dir); cbn; lia.
  - apply map_Forall_insert_2; [|eapply map_Forall_impl; [exact H2|]; cbn; intros _ c Hc; lia]. cbn.
    destruct (K !! dir) as [[c v]|] eqn:E; cbn; [specialize (H2 _ _ E); cbn in H2|]; lia.
Qed.

Section refine.
Context `{!KernelPg, !PosixAcl} {sbi : rdfs_sb_info}.
Context {free : mem -> list Z -> Prop} {foot : list Z -> Z -> Prop} {page_ok meta : Z -> Prop}.
Context `{!PageAlloc sbi free foot page_ok meta}.
Context (cpu : Z) (kok : Z -> bool) (inode_ptr : Z -> Z).
(** pud_alloc finds an entry for every directory area. *)
Context (Hkok : forall va, dir_area va -> kok va = true).

Local Abbreviation fs_rep := (DirMap.fs_rep (sbi := sbi) (free := free) (page_ok := page_ok) (meta := meta)).

Lemma map_dir s a K l T dir N n : fs_rep s a K l T -> a_names a !! dir = Some N -> ready K T (S n) ->
  exists s' va, establish sbi kok inode_ptr s dir = Ret (0, s') /\ fs_rep s' a (openK dir va K) l T /\
    opened dir va K /\ ready (openK dir va K) T n.
Proof.
  intros HR HN Hrd. pose proof Hrd as (R1 & _ & R2).
  destruct (establish_ok kok inode_ptr s a K l T dir N HR HN Hkok) as (s' & va & E & HR' & Ho).
  - lia.
  - intros c v Hc. specialize (R2 _ _ Hc). cbn in R2. lia.
  - exists s', va. split; [done|]. split; [done|]. split; [done|]. by apply ready_open.
Qed.

Lemma unmap_dir s a K l T dir va : fs_rep s a (openK dir va K) l T -> opened dir va K ->
  exists s', destroy sbi s dir = Ret (0, s') /\ fs_rep s' a K l T.
Proof.
  intros HR Ho. destruct (openK_at dir va K) as [n Hn]. destruct (destroy_ok s a _ l T dir n va HR Hn) as (s' & E & HR').
  exists s'. split; [done|]. by rewrite closeK_open in HR'.
Qed.

(** ** Inodes of the cache *)

Lemma cached s a K l T ino n : fs_rep s a K l T -> a_links a !! ino = Some n -> exists i, f_inodes s !! ino = Some i /\ i_ino i = ino.
Proof using Type.
  intros (G & R & D & HI & _) Hn. destruct (inv_cached _ _ _ _ _ _ _ _ _ HI Hn) as (i & Hi & _ & Ei). by exists i.
Qed.

Lemma touch_ok s a K l T ino i i' : fs_rep s a K l T -> f_inodes s !! ino = Some i -> same_dir i i' -> i_nlink i' = i_nlink i ->
  fs_rep (put_inode i' s) a K l T.
Proof using Type.
  intros (G & R & D & HI & HT) Hi Hs Hl. exists G, R, D. split; [|done].
  pose proof (inv_put s a G K l R D ino i i' HI Hi Hs) as HI'. rewrite Hl, set_links_id in HI'; [done|].
  exact (inv_link s a G K l R D ino i HI Hi).
Qed.

Lemma inc_ok s a K l T ino n : fs_rep s a K l T -> a_links a !! ino = Some n ->
  exists s', inode_inc_link_count sbi s ino = Ret s' /\ fs_rep s' (bump ino 1 a) K l T.
Proof.
  intros (G & R & D & HI & HT) Hn. destruct (inc_link_ok s a G K l R D ino n HI Hn) as (s' & E & HI'). exists s'. split; [done|].
  rewrite (bump_at _ _ n) by done. by exists G, R, D.
Qed.

Lemma dec_ok s a K l T ino n : fs_rep s a K l T -> a_links a !! ino = Some n ->
  exists s', inode_dec_link_count sbi s ino = Ret s' /\ fs_rep s' (bump ino (-1) a) K l T.
Proof.
  intros (G & R & D & HI & HT) Hn. destruct (dec_link_ok s a G K l R D ino n HI Hn) as (s' & E & HI'). exists s'. split; [done|].
  rewrite (bump_at _ _ n) by done. by exists G, R, D.
Qed.

Lemma mark_ok s a K l T ino n : fs_rep s a K l T -> a_links a !! ino = Some n ->
  exists s', mark_inode_dirty sbi s ino = Ret s' /\ fs_rep s' a K l T.
Proof.
  intros HR Hn. destruct (cached s a K l T ino n HR Hn) as (i & Hi & _). destruct HR as (G & R & D & HI & HT).
  destruct (dirty_ok s a G K l R D ino HI (mk_is_Some _ _ Hi)) as (s' & E & HI' & _). exists s'. split; [done|]. by exists G, R, D.
Qed.

Lemma dir_links s a K l T dir N : fs_rep s a K l T -> a_names a !! dir = Some N -> is_Some (a_links a !! dir).
Proof using Type.
  intros (G & R & D & HI & _) HN. destruct (fi_dirs _ _ _ _ _ _ _ HI dir N HN) as (i & g & rs & Hi & _).
  exists (i_nlink i). exact (inv_link s a G K l R D dir i HI Hi).
Qed.

(** ** Unlinking *)

Lemma unlink_entry_ok s a K l T dir N name ino n now : fs_rep s a K l T -> live_dir a dir N -> is_Some (K !! dir) ->
  a_links a !! ino = Some n -> name <> dot -> name <> dotdot ->
  exists s', unlink_entry sbi s dir name ino now = Ret ((a_unlink dir name ino a).1, s') /\ fs_rep s' (a_unlink dir name ino a).2 K l T.
Proof.
  intros HR HL HK Hn N0 N1. pose proof (live_names _ _ _ HL) as HN. unfold unlink_entry, a_unlink, name_of. rewrite HN. cbn [mbind option_bind].
  pose proof (find_ok s a K l T dir N name HR HL HK) as Hf. destruct (N !! name) as [x|] eqn:Ex.
  2:{ rewrite Hf. cbn [mbind outcome_bind]. by exists s. }
  destruct (delete_ok s a K l T dir N name x now HR HL HK Ex N0 N1) as (de & prev & s1 & -> & Ed & HR1).
  cbn [mbind outcome_bind]. rewrite Ed. cbn [mbind outcome_bind Z.eqb negb].
  destruct (dir_links _ _ _ _ _ _ _ HR HN) as [nd Hnd].
  destruct (cached s1 _ K l T dir nd HR1 Hnd) as (d & Hd & _). destruct (cached s1 _ K l T ino n HR1 Hn) as (i & Hi & _).
  unfold get_inode. rewrite Hd, Hi. cbn [mbind outcome_bind].
  destruct (dec_ok _ _ K l T ino n (touch_ok s1 _ K l T ino i (set_i_ctime (i_ctime d) i) HR1 Hi ltac:(done) eq_refl) Hn) as (s2 & -> & HR2).
  exists s2. split; [done|]. rewrite (upd_names_at _ _ N) by done. exact HR2.
Qed.

Lemma unlink_ok s a K l T dir N name ino n now k : fs_rep s a K l T -> live_dir a dir N -> ready K T (S k) ->
  a_links a !! ino = Some n -> name <> dot -> name <> dotdot ->
  exists s', rdfs_unlink sbi kok inode_ptr s dir name ino now = Ret ((a_unlink dir name ino a).1, s') /\
    fs_rep s' (a_unlink dir name ino a).2 K l T.
Proof.
  intros HR HL Hrd Hn N0 N1. destruct (map_dir s a K l T dir N k HR (live_names _ _ _ HL) Hrd) as (s1 & va & E1 & HR1 & Ho & _).
  destruct (openK_at dir va K) as [c Hc].
  destruct (unlink_entry_ok s1 a _ l T dir N name ino n now HR1 HL (mk_is_Some _ _ Hc) Hn N0 N1) as (s2 & E2 & HR2).
  destruct (unmap_dir s2 _ K l T dir va HR2 Ho) as (s3 & E3 & HR3).
  exists s3. unfold rdfs_unlink. rewrite E1. cbn [mbind outcome_bind]. rewrite E2. cbn [mbind outcome_bind]. rewrite E3. by split.
Qed.

(** ** Linking *)

Lemma live_bump a dir N ino k : live_dir a dir N -> live_dir (bump ino k a) dir N.
Proof using Type. intros [H1 H2]. unfold bump. destruct (a_links a !! ino); by split. Qed.

Lemma link_ok s a K p l T dir N name ino n z now phys0 k : fs_rep s a K (p :: l) T -> live_dir a dir N -> ready K T (S k) ->
  a_links a !! ino = Some n -> a_sizes a !! dir = Some z -> z <= 14 * PAGE_SIZE -> name_ok name -> N !! name = None ->
  exists s' a' l', rdfs_link sbi cpu kok inode_ptr s ino dir name now phys0 = Ret (0, s') /\ fs_rep s' a' K l' T /\
    a' ≡ a_link ino dir name a.
Proof.
  intros HR HL Hrd Hn Hz Hz14 Hname Hfresh. destruct (cached s a K _ T ino n HR Hn) as (i & Hi & _).
  destruct (inc_ok _ a K _ T ino n (touch_ok s a K _ T ino i (set_i_ctime now i) HR Hi ltac:(done) eq_refl) Hn) as (s1 & E1 & HR1).
  pose proof (live_bump a dir N ino 1 HL) as HL1.
  destruct (map_dir s1 _ K _ T dir N k HR1 (live_names _ _ _ HL1) Hrd) as (s2 & va & E2 & HR2 & Ho & _).
  destruct (openK_at dir va K) as [c Hc].
  assert (Hn1 : a_links (bump ino 1 a) !! ino = Some (u32 (n + 1))) by (rewrite (bump_at _ _ n) by done; apply lookup_insert_eq).
  assert (Hz1 : a_sizes (bump ino 1 a) !! dir = Some z) by (by rewrite (bump_at _ _ n) by done).
  destruct (add_ok cpu kok s2 _ _ p l T dir N name ino _ z now phys0 HR2 HL1 (mk_is_Some _ _ Hc) Hz1 Hz14 Hname Hfresh Hn1)
    as (s3 & z' & l' & E3 & HR3 & _ & _).
  destruct (unmap_dir s3 _ K l' T dir va HR3 Ho) as (s4 & E4 & HR4).
  exists s4, (set_names dir (<[name := ino]> N) (set_size dir z' (bump ino 1 a))), l'. split; [|split; [exact HR4|]].
  - unfold rdfs_link, get_inode. rewrite Hi. cbn [mbind outcome_bind]. rewrite E1. cbn [mbind outcome_bind]. rewrite E2. cbn [mbind outcome_bind].
    rewrite E3. cbn [mbind outcome_bind Z.eqb]. by rewrite E4.
  - unfold a_link. rewrite (upd_names_at _ _ N) by apply HL1. done.
Qed.

(** ** Removing directories *)

Lemma size0_ok s a K l T ino i : fs_rep s a K l T -> f_inodes s !! ino = Some i ->
  fs_rep (put_inode (set_i_size 0 i) s) (set_size ino 0 a) K l T.
Proof using Type.
  intros (G & R & D & HI & HT) Hi. exists G, R, D. split; [|done].
  pose proof (inv_put_gen s a G K l R D ino i (set_i_size 0 i) HI Hi eq_refl) as HI'.
  rewrite set_links_id in HI' by exact (inv_link s a G K l R D ino i HI Hi). apply HI'; [|done].
  intros g rs [H1 H2 H3 H4 H5 H6 H7 H8 H9 H10 H11]. split; try done. by left.
Qed.

Lemma links_bump a ino n k x m : a_links a !! ino = Some n -> a_links a !! x = Some m ->
  exists m', a_links (bump ino k a) !! x = Some m'.
Proof using Type.
  intros Hn Hx. rewrite (bump_at _ _ n) by done. cbn. destruct (decide (x = ino)) as [->|]; [rewrite lookup_insert_eq|rewrite lookup_insert_ne by done]; eauto.
Qed.

Lemma rmdir_ok s a K l T dir N name ino Nc x now : fs_rep s a K l T -> live_dir a dir N -> live_dir a ino Nc -> ready K T 2 ->
  N !! name = Some x -> bare ino Nc -> name <> dot -> name <> dotdot ->
  exists s', rdfs_rmdir sbi kok inode_ptr s dir name ino now = Ret (0, s') /\
    fs_rep s' (bump dir (-1) (bump ino (-1) (set_size ino 0 (a_unlink dir name ino a).2))) K l T.
Proof.
  intros HR HL HLc Hrd Hx Hb N0 N1. pose proof (live_names _ _ _ HL) as HN. pose proof (live_names _ _ _ HLc) as HNc.
  destruct (map_dir s a K l T ino Nc 1 HR HNc Hrd) as (s1 & va & E1 & HR1 & Ho & Hrd1). destruct (openK_at ino va K) as [c Hc].
  destruct (empty_dir_ok s1 a _ l T ino Nc HR1 HLc (mk_is_Some _ _ Hc)) as (r & E2 & [_ Hr] & _). rewrite (Hr Hb) in E2.
  destruct (dir_links _ _ _ _ _ _ _ HR HN) as [nd Hnd]. destruct (dir_links _ _ _ _ _ _ _ HR HNc) as [nc Hnc].
  destruct (unlink_ok s1 a _ l T dir N name ino nc now 0 HR1 HL Hrd1 Hnc N0 N1) as (s2 & E3 & HR2).
  assert (Ea : a_unlink dir name ino a = (0, bump ino (-1) (upd_names dir (delete name) a))).
  { unfold a_unlink, name_of. rewrite HN. cbn. by rewrite Hx. }
  rewrite Ea in E3, HR2 |- *. cbn [fst snd] in E3, HR2 |- *. set (a2 := bump ino (-1) _) in *.
  assert (Hl0 : forall y m, a_links a !! y = Some m -> a_links (upd_names dir (delete name) a) !! y = Some m) by (intros y m; unfold upd_names; by rewrite HN).
  destruct (links_bump _ ino nc (-1) ino nc (Hl0 _ _ Hnc) (Hl0 _ _ Hnc)) as [nc2 Hnc2]. fold a2 in Hnc2.
  destruct (links_bump _ ino nc (-1) dir nd (Hl0 _ _ Hnc) (Hl0 _ _ Hnd)) as [nd2 Hnd2]. fold a2 in Hnd2.
  destruct (cached s2 a2 _ l T ino nc2 HR2 Hnc2) as (i & Hi & _).
  destruct (dec_ok _ _ _ l T ino nc2 (size0_ok s2 a2 _ l T ino i HR2 Hi) Hnc2) as (s3 & E4 & HR3).
  destruct (links_bump (set_size ino 0 a2) ino nc2 (-1) dir nd2 Hnc2 Hnd2) as [nd3 Hnd3].
  destruct (dec_ok _ _ _ l T dir nd3 HR3 Hnd3) as (s4 & E5 & HR4).
  destruct (unmap_dir s4 _ K l T ino va HR4 Ho) as (s5 & E6 & HR5). exists s5. split; [|exact HR5].
  unfold rdfs_rmdir. rewrite E1. cbn [mbind outcome_bind]. rewrite E2. cbn [mbind outcome_bind Z.eqb negb]. rewrite E3. cbn [mbind outcome_bind Z.eqb].
  unfold get_inode. rewrite Hi. cbn [mbind outcome_bind]. rewrite E4. cbn [mbind outcome_bind]. rewrite E5. cbn [mbind outcome_bind]. by rewrite E6.
Qed.

(** ** Renaming to a new name *)

Lemma take_area_mode w i ptr w' i' : take_area sbi w i ptr = Ret (w', i') -> i_mode i' = i_mode i.
Proof using Type.
  unfold take_area. intros E. destruct (_ || _); [|destruct (S_ISREG _); [|by injection E as <- <-]];
    (destruct (nvmalloc _ _) as [[? ?]|]; [|done]); cbn in E; by injection E as <- <-.
Qed.

(** The inode's mode stays what it is while a directory is mapped. *)
Lemma establish_mode s dir e s' ino i : establish sbi kok inode_ptr s dir = Ret (e, s') -> f_inodes s !! ino = Some i ->
  exists i', f_inodes s' !! ino = Some i' /\ i_mode i' = i_mode i.
Proof using Type.
  unfold establish, get_inode. intros E Hi. destruct (f_inodes s !! dir) as [j|] eqn:Ej; [|done]. cbn [mbind outcome_bind] in E.
  destruct (rdfs_establish_mapping _ _ _ _ _) as [[[e1 w1] j1]|] eqn:Em; [|done]. cbn in E. injection E as <- <-. cbn.
  destruct (decide (ino = dir)) as [->|Hne]; [|rewrite lookup_insert_ne by done; by exists i].
  rewrite lookup_insert_eq. exists j1. split; [done|]. assert (j = i) as -> by congruence.
  unfold rdfs_establish_mapping in Em. set (i2 := set_ni_mapping_count _ i) in Em.
  destruct (if ni_virt_addr i2 =? 0 then _ else _) as [[w2 i3]|] eqn:E2; [|done]. cbn [mbind outcome_bind] in Em.
  assert (Hm : i_mode i3 = i_mode i).
  { destruct (_ =? 0); [by apply take_area_mode in E2|]. by injection E2 as <- <-. }
  destruct (_ || _); [|by injection Em as _ _ <-]. destruct (nvmap _ _ _ _ _ _) as [[? ?]|]; [|done]. cbn in Em. by injection Em as _ _ <-.
Qed.

(** The steps from the change time on: the old name goes. *)
Lemma move_ok s a K l T od N on oi n x now : fs_rep s a K l T -> live_dir a od N -> is_Some (K !! od) ->
  N !! on = Some x -> on <> dot -> on <> dotdot -> a_links a !! oi = Some n ->
  exists i s1 de pde s2, get_inode s oi = Ret i /\ mark_inode_dirty sbi (put_inode (set_i_ctime now i) s) oi = Ret s1 /\
    find_entry sbi s1 od on = Ret (Some (de, pde)) /\ delete_entry sbi s1 de pde od now = Ret (0, s2) /\
    fs_rep s2 (set_names od (delete on N) a) K l T.
Proof.
  intros HR HL HK Hx N0 N1 Hn. destruct (cached s a K l T oi n HR Hn) as (i & Hi & _).
  destruct (mark_ok _ a K l T oi n (touch_ok s a K l T oi i (set_i_ctime now i) HR Hi ltac:(done) eq_refl) Hn) as (s1 & E1 & HR1).
  destruct (delete_ok s1 a K l T od N on x now HR1 HL HK Hx N0 N1) as (de & pde & s2 & E2 & E3 & HR2).
  exists i, s1, de, pde, s2. unfold get_inode. by rewrite Hi.
Qed.

(** Unmapping the two directories, the old one first. *)
Lemma unmap_two s a K l T od va1 nd va2 : fs_rep s a (openK nd va2 (openK od va1 K)) l T -> opened od va1 K -> opened nd va2 (openK od va1 K) ->
  exists s', destroy_all sbi s [od; nd] = Ret s' /\ fs_rep s' a K l T.
Proof.
  intros HR H1 H2. cbn [destroy_all]. destruct (decide (nd = od)) as [->|Hne].
  - destruct (unmap_dir s a _ l T od va2 HR H2) as (s1 & E1 & HR1). destruct (unmap_dir s1 a K l T od va1 HR1 H1) as (s2 & E2 & HR2).
    exists s2. rewrite E1. cbn [mbind outcome_bind]. by rewrite E2.
  - rewrite openK_swap in HR by done. destruct (unmap_dir s a _ l T od va1 HR) as (s1 & E1 & HR1); [by apply opened_ne|].
    rewrite opened_ne in H2 by done. destruct (unmap_dir s1 a K l T nd va2 HR1 H2) as (s2 & E2 & HR2).
    exists s2. rewrite E1. cbn [mbind outcome_bind]. by rewrite E2.
Qed.

(** The names of the old directory once the new one has its entry. *)
Lemma added_names a od N nd N2 nn oi z : live_dir a od N -> live_dir a nd N2 -> 0 < z ->
  let a1 := set_names nd (<[nn := oi]> N2) (set_size nd z a) in
  let N1 := if decide (od = nd) then <[nn := oi]> N2 else N in
  live_dir a1 od N1 /\ (forall y, y <> nn \/ od <> nd -> N1 !! y = N !! y) /\
  (forall b, b ≡ a -> upd_names nd <[nn := oi]> b ≡ a1).
Proof using Type.
  intros [H1 H2] [H3 H4] Hp a1 N1. split; [split|split]; unfold a1, N1; cbn.
  - destruct (decide (od = nd)) as [->|]; [by rewrite lookup_insert_eq|by rewrite lookup_insert_ne].
  - destruct (decide (od = nd)) as [->|]; [rewrite lookup_insert_eq; intros [= ->]; lia|by rewrite lookup_insert_ne].
  - intros y Hy. destruct (decide (od = nd)) as [->|]; [|done]. assert (N = N2) as -> by congruence.
    rewrite lookup_insert_ne; [done|]. intros ->. by destruct Hy.
  - intros b ->. by rewrite (upd_names_at _ _ N2) by done.
Qed.

Lemma live_pos s a K l T dir N z : fs_rep s a K l T -> live_dir a dir N -> a_sizes a !! dir = Some z -> 0 < z.
Proof using Type.
  intros (G & R & D & HI & _) [HN Hs] Hz. destruct (fi_dirs _ _ _ _ _ _ _ HI dir N HN) as (i & g & rs & Hi & _ & Hok & _).
  rewrite Hz in Hs. rewrite (fi_sizes _ _ _ _ _ _ _ HI), lookup_fmap, Hi in Hz. injection Hz as Hz.
  destruct Hok as [_ _ _ _ _ H6 H7 _ _ _ _]. unfold PAGE_SIZE in H6. destruct H6; [congruence|lia].
Qed.

Lemma rename_file_ok s a K p l T od N on oi n i nd N2 nn z x now phys0 : fs_rep s a K (p :: l) T -> live_dir a od N -> live_dir a nd N2 -> ready K T 2 ->
  N !! on = Some x -> on <> dot -> on <> dotdot -> a_links a !! oi = Some n -> f_inodes s !! oi = Some i -> S_ISDIR (i_mode i) = false ->
  a_sizes a !! nd = Some z -> z <= 14 * PAGE_SIZE -> name_ok nn -> N2 !! nn = None ->
  exists s' a' l', rdfs_rename sbi cpu kok inode_ptr s od on oi nd nn None now phys0 = Ret (0, s') /\ fs_rep s' a' K l' T /\
    a' ≡ a_rename od on oi nd nn false a.
Proof.
  intros HR HL HL2 Hrd Hx N0 N1 Hn Hi Hmode Hz Hz14 Hname Hfresh. pose proof (live_pos _ _ _ _ _ _ _ _ HR HL2 Hz) as Hpos.
  destruct (map_dir s a K _ T od N 1 HR (live_names _ _ _ HL) Hrd) as (s1 & va1 & E1 & HR1 & Ho1 & Hrd1). destruct (openK_at od va1 K) as [c1 Hc1].
  pose proof (find_ok s1 a _ _ T od N on HR1 HL (mk_is_Some _ _ Hc1)) as Hf. rewrite Hx in Hf. destruct Hf as [e Hf].
  destruct (establish_mode s od 0 s1 oi i E1 Hi) as (i1 & Hi1 & Em1).
  destruct (map_dir s1 a _ _ T nd N2 0 HR1 (live_names _ _ _ HL2) Hrd1) as (s2 & va2 & E2 & HR2 & Ho2 & _). destruct (openK_at nd va2 (openK od va1 K)) as [c2 Hc2].
  destruct (add_ok cpu kok s2 a _ p l T nd N2 nn oi n z now phys0 HR2 HL2 (mk_is_Some _ _ Hc2) Hz Hz14 Hname Hfresh Hn) as (s3 & z' & l' & E3 & HR3 & Hz' & _).
  destruct (added_names a od N nd N2 nn oi z' HL HL2 ltac:(lia)) as (HL3 & HN3 & Ha3). set (N3 := if decide (od = nd) then _ else N) in *.
  set (a3 := set_names nd _ _) in *. assert (Hx3 : N3 !! on = Some x).
  { rewrite HN3; [done|]. destruct (decide (od = nd)) as [->|]; [|by right]. left. intros ->. pose proof (live_names _ _ _ HL). pose proof (live_names _ _ _ HL2). congruence. }
  destruct (move_ok s3 a3 _ l' T od N3 on oi n x now HR3 HL3 (openK_keep od nd va2 _ (mk_is_Some _ _ Hc1)) Hx3 N0 N1 Hn)
    as (i4 & s4 & de & pde & s5 & G1 & G2 & G3 & G4 & HR5).
  destruct (unmap_two s5 _ K l' T od va1 nd va2 HR5 Ho1 Ho2) as (s6 & E6 & HR6).
  exists s6, (set_names od (delete on N3) a3), l'. split; [|split; [exact HR6|]].
  - unfold rdfs_rename. rewrite E1. cbn [mbind outcome_bind]. rewrite Hf. cbn [mbind outcome_bind]. unfold get_inode at 1. rewrite Hi1.
    cbn [mbind outcome_bind]. rewrite Em1, Hmode. cbn [mbind outcome_bind]. rewrite bool_decide_eq_false_2 by done. rewrite E2. cbn [mbind outcome_bind].
    rewrite E3. cbn [mbind outcome_bind Z.eqb negb]. unfold rename_finish. rewrite G1. cbn [mbind outcome_bind]. rewrite G2. cbn [mbind outcome_bind].
    rewrite G3. cbn [mbind outcome_bind]. rewrite G4. cbn [mbind outcome_bind app]. by rewrite E6.
  - unfold a_rename. rewrite (Ha3 a) by done. by rewrite (upd_names_at _ _ N3) by apply HL3.
Qed.

Lemma mapped_pos s a K l T dir n va : fs_rep s a K l T -> K !! dir = Some (n, va) -> 0 < va.
Proof using Type.
  intros (G & R & D & HI & _) Hk. destruct (used_dirs _ _ _ _ _ _ _ _ _ _ HI Hk) as [_ (j & Hj & ->)]. unfold RDFS_START, MAX_DIR_SIZE. lia.
Qed.

Lemma dir_mode s a K l T dir N : fs_rep s a K l T -> a_names a !! dir = Some N ->
  exists i, f_inodes s !! dir = Some i /\ S_ISDIR (i_mode i) = true.
Proof using Type.
  intros (G & R & D & HI & _) HN. destruct (fi_dirs _ _ _ _ _ _ _ HI dir N HN) as (i & g & rs & Hi & _ & Hok & _).
  exists i. split; [done|]. apply Hok.
Qed.

Lemma live_set_names a dir N d M : d <> dir -> live_dir a d M -> live_dir (set_names dir N a) d M.
Proof using Type. intros Hd [H1 H2]. split; [|done]. cbn. by rewrite lookup_insert_ne. Qed.

Lemma live_set_size a dir z d M : d <> dir -> live_dir a d M -> live_dir (set_size dir z a) d M.
Proof using Type. intros Hd [H1 H2]. split; [done|]. cbn. by rewrite lookup_insert_ne. Qed.

(** The moved directory's ".." and the old parent's link count. *)
Lemma reparent_ok s a K l T od oi No n va nd : fs_rep s a K l T -> live_dir a oi No -> K !! oi = Some (n, va) ->
  is_Some (a_links a !! od) -> is_Some (a_links a !! nd) -> forall now,
  exists s1 s2, (if negb (od =? nd) then set_link sbi s oi (va + 16) nd false now else Ret s) = Ret s1 /\
    inode_dec_link_count sbi s1 od = Ret s2 /\
    fs_rep s2 (bump od (-1) (if od =? nd then a else upd_names oi <[dotdot := nd]> a)) K l T.
Proof.
  intros HR HL HK [nod Hod] [nnd Hnd] now. destruct (Z.eqb_spec od nd) as [<-|Hne]; cbn [negb].
  - destruct (dec_ok s a K l T od nod HR Hod) as (s2 & E2 & HR2). by exists s, s2.
  - destruct (dotdot_ok s a K l T oi No n va HR HL HK) as [_ Hset]. destruct (Hset nd nnd false now Hnd) as (s1 & E1 & HR1).
    destruct (dec_ok s1 _ K l T od nod HR1 Hod) as (s2 & E2 & HR2). exists s1, s2. split; [done|]. split; [done|].
    by rewrite (upd_names_at _ _ No) by apply HL.
Qed.

Lemma rename_dir_ok s a K p l T od N on oi No nd N2 nn z x now phys0 : fs_rep s a K (p :: l) T -> live_dir a od N -> live_dir a nd N2 ->
  live_dir a oi No -> ready K T 3 -> oi <> od -> oi <> nd -> N !! on = Some x -> on <> dot -> on <> dotdot ->
  a_sizes a !! nd = Some z -> z <= 14 * PAGE_SIZE -> name_ok nn -> N2 !! nn = None ->
  exists s' a' l', rdfs_rename sbi cpu kok inode_ptr s od on oi nd nn None now phys0 = Ret (0, s') /\ fs_rep s' a' K l' T /\
    a' ≡ a_rename od on oi nd nn true a.
Proof.
  intros HR HL HL2 HLo Hrd Hood Hond Hx N0 N1 Hz Hz14 Hname Hfresh. pose proof (live_pos _ _ _ _ _ _ _ _ HR HL2 Hz) as Hpos.
  destruct (dir_links _ _ _ _ _ _ _ HR (live_names _ _ _ HLo)) as [n Hn]. destruct (dir_links _ _ _ _ _ _ _ HR (live_names _ _ _ HL)) as [nod Hnod].
  destruct (dir_links _ _ _ _ _ _ _ HR (live_names _ _ _ HL2)) as [nnd Hnnd].
  destruct (map_dir s a K _ T od N 2 HR (live_names _ _ _ HL) Hrd) as (s1 & va1 & E1 & HR1 & Ho1 & Hrd1). destruct (openK_at od va1 K) as [c1 Hc1].
  pose proof (find_ok s1 a _ _ T od N on HR1 HL (mk_is_Some _ _ Hc1)) as Hf. rewrite Hx in Hf. destruct Hf as [e Hf].
  destruct (dir_mode s1 a _ _ T oi No HR1 (live_names _ _ _ HLo)) as (i1 & Hi1 & Em1).
  destruct (map_dir s1 a _ _ T oi No 1 HR1 (live_names _ _ _ HLo) Hrd1) as (s2 & va2 & E2 & HR2 & Ho2 & Hrd2). destruct (openK_at oi va2 (openK od va1 K)) as [c2 Hc2].
  destruct (dotdot_ok s2 a _ _ T oi No c2 va2 HR2 HLo Hc2) as [Edd _].
  destruct (map_dir s2 a _ _ T nd N2 0 HR2 (live_names _ _ _ HL2) Hrd2) as (s3 & va3 & E3 & HR3 & Ho3 & _).
  destruct (openK_at nd va3 (openK oi va2 (openK od va1 K))) as [c3 Hc3].
  destruct (add_ok cpu kok s3 a _ p l T nd N2 nn oi n z now phys0 HR3 HL2 (mk_is_Some _ _ Hc3) Hz Hz14 Hname Hfresh Hn) as (s4 & z' & l' & E4 & HR4 & Hz' & _).
  destruct (added_names a od N nd N2 nn oi z' HL HL2 ltac:(lia)) as (HL4 & HN4 & Ha4). set (N4 := if decide (od = nd) then _ else N) in *.
  set (a4 := set_names nd _ _) in *. assert (Hx4 : N4 !! on = Some x).
  { rewrite HN4; [done|]. destruct (decide (od = nd)) as [->|]; [|by right]. left. intros ->. pose proof (live_names _ _ _ HL). pose proof (live_names _ _ _ HL2). congruence. }
  destruct (inc_ok s4 a4 _ l' T nd nnd HR4 Hnnd) as (s5 & E5 & HR5). set (a5 := bump nd 1 a4) in *.
  assert (Hl5 : forall y m, a_links a !! y = Some m -> exists m', a_links a5 !! y = Some m') by (intros y m Hy; by apply (links_bump a4 nd nnd 1 y m Hnnd)).
  destruct (Hl5 _ _ Hn) as [n5 Hn5].
  destruct (move_ok s5 a5 _ l' T od N4 on oi n5 x now HR5 (live_bump _ _ _ _ _ HL4) (openK_keep od nd va3 _ (openK_keep od oi va2 _ (mk_is_Some _ _ Hc1))) Hx4 N0 N1 Hn5)
    as (i6 & s6 & de & pde & s7 & G1 & G2 & G3 & G4 & HR7).
  assert (HLo7 : live_dir (set_names od (delete on N4) a5) oi No).
  { apply live_set_names; [done|]. apply live_bump, live_set_names; [done|]. by apply live_set_size. }
  assert (Hc7 : openK nd va3 (openK oi va2 (openK od va1 K)) !! oi = Some (c2, va2)) by (by rewrite openK_ne by done).
  destruct (reparent_ok s7 _ _ l' T od oi No c2 va2 nd HR7 HLo7 Hc7) with (now := now) as (s8 & s9 & G5 & G6 & HR9); [cbn; by destruct (Hl5 _ _ Hnod) as [? ->]|cbn; by destruct (Hl5 _ _ Hnnd) as [? ->]|].
  rewrite openK_swap in HR9 by done. destruct (unmap_dir s9 _ _ l' T oi va2 HR9) as (s10 & E10 & HR10); [by apply opened_ne|].
  rewrite opened_ne in Ho3 by done. destruct (unmap_two s10 _ K l' T od va1 nd va3 HR10 Ho1 Ho3) as (s11 & E11 & HR11).
  eexists s11, _, l'. split; [|split; [exact HR11|]].
  - pose proof (mapped_pos s2 a _ _ T oi c2 va2 HR2 Hc2) as Hva.
    unfold rdfs_rename. rewrite E1. cbn [mbind outcome_bind]. rewrite Hf. cbn [mbind outcome_bind]. unfold get_inode at 1. rewrite Hi1.
    cbn [mbind outcome_bind]. rewrite Em1, E2. cbn [mbind outcome_bind]. rewrite Edd. cbn [mbind outcome_bind].
    rewrite bool_decide_eq_false_2 by (intros [= Hd]; lia). rewrite E3. cbn [mbind outcome_bind]. rewrite E4. cbn [mbind outcome_bind Z.eqb negb]. rewrite E5.
    cbn [mbind outcome_bind]. unfold rename_finish. rewrite G1. cbn [mbind outcome_bind]. rewrite G2. cbn [mbind outcome_bind].
    rewrite G3. cbn [mbind outcome_bind]. rewrite G4. cbn [mbind outcome_bind]. rewrite G5. cbn [mbind outcome_bind]. rewrite G6. cbn [mbind outcome_bind app destroy_all].
    rewrite E10. cbn [mbind outcome_bind]. cbn [destroy_all] in E11. by rewrite E11.
  - unfold a_rename. rewrite <- (upd_names_at _ _ N4) by apply (live_bump _ _ _ _ _ HL4). unfold a5. destruct (od =? nd); by rewrite (Ha4 a).
Qed.

(** ** Looking up *)

(** The number found and the state with the directory unmapped again. *)
Lemma by_name_ok s a l T dir N name : fs_rep s a ∅ l T -> live_dir a dir N -> (1 <= T)%nat ->
  (forall ino, N !! name = Some ino -> 0 < ino < 2 ^ 32) ->
  exists s', inode_by_name sbi kok inode_ptr s dir name = Ret (default 0 (N !! name), s') /\ fs_rep s' a ∅ l T.
Proof.
  intros HR HL HT Hin. pose proof (live_names _ _ _ HL) as HN.
  destruct (map_dir s a ∅ l T dir N 0 HR HN) as (s1 & va & E1 & HR1 & Ho & _).
  { split; [rewrite map_size_empty; lia|]. split; [lia|]. apply map_Forall_empty. }
  destruct (openK_at dir va ∅) as [c Hc].
  destruct (unmap_dir s1 a ∅ l T dir va HR1 Ho) as (s2 & E2 & HR2). pose proof HR1 as (G & R & D & HI & _).
  destruct (view_ok s1 a G _ l R D dir N _ HI HL Hc) as (i & g & rs & v & [Hi _ _ _ _ En _ Hv HD] & _).
  exists s2. split; [|done]. unfold inode_by_name. rewrite E1. cbn [mbind outcome_bind]. unfold get_inode. rewrite Hi. cbn [mbind outcome_bind]. rewrite Hv.
  cbn [mbind outcome_bind]. rewrite E2. cbn [mbind outcome_bind]. rewrite (by_name_spec v i rs name HD), En.
  destruct (N !! name) as [x|] eqn:Ex; [|done]. cbn. rewrite u32_small; [done|]. destruct (Hin x eq_refl). lia.
Qed.

Lemma not_cached s a K l T ino : fs_rep s a K l T -> a_links a !! ino = None -> f_inodes s !! ino = None.
Proof.
  intros (G & R & D & HI & _) Hn. rewrite (fi_links _ _ _ _ _ _ _ HI), lookup_fmap in Hn. by destruct (f_inodes s !! ino).
Qed.

Lemma lookup_cached (s s2 : fs) (a : afs) (l : list Z) (T : nat) (dir : Z) (N : gmap (list Z) Z) name lock fresh crc32 ino : inode_by_name sbi kok inode_ptr s dir name = Ret (default 0 (N !! name), s2) ->
  fs_rep s2 a ∅ l T -> (length name <= 255)%nat -> N !! name = Some ino -> 0 < ino < 2 ^ 32 -> is_Some (a_links a !! ino) ->
  rdfs_lookup sbi kok inode_ptr crc32 s lock fresh dir name = Ret (inr (Some ino), s2, lock).
Proof.
  intros E HR Hlen Hn Hx [n Hl]. unfold rdfs_lookup. rewrite (proj2 (Z.ltb_ge _ _)) by (unfold RDFS_NAME_LEN; lia). rewrite E, Hn.
  cbn [mbind outcome_bind default]. cbn. rewrite (proj2 (Z.eqb_neq _ 0)) by lia. destruct (cached s2 a ∅ l T ino n HR Hl) as (j & Hj & Ej). rewrite Hj.
  unfold rdfs_iget. cbn [negb mbind outcome_bind].
  assert (set_i_ino ino j = j) as -> by (rewrite <- Ej; by destruct j). rewrite insert_id by done. by destruct s2.
Qed.

(** What a lookup makes of the inode that [rdfs_read_inode] was to fill. *)
Definition looked_up (s2 : fs) (ino : Z) (r : Z * option inode * bool) : (Z + option Z) * fs * bool :=
  match r with
  | (_, Some i, lk) => (inr (Some ino), mk_fs (f_world s2) (<[ino := i]> (f_inodes s2)), lk)
  | (err, None, lk) => (inl err, s2, lk)
  end.

Lemma read_inode_results m lk i ni crc32 err oi lk' : rdfs_read_inode sbi crc32 m lk i ni = Ret (err, oi, lk') ->
  (exists j, oi = Some j /\ err = 0) \/ (oi = None /\ (err = - EIO \/ err = - EINVAL)).
Proof using Type.
  unfold rdfs_read_inode. destruct lk; [done|]. destruct (negb _); [intros [= <- <- _]; right; split; [done|by left]|].
  destruct (_ && _); intros [= <- <- _]; [right; split; [done|by right]|left; by eexists].
Qed.

Lemma lookup_uncached (s s2 : fs) (a : afs) (l : list Z) (T : nat) (dir : Z) (N : gmap (list Z) Z) name fresh crc32 ino r : inode_by_name sbi kok inode_ptr s dir name = Ret (default 0 (N !! name), s2) ->
  fs_rep s2 a ∅ l T -> (length name <= 255)%nat -> N !! name = Some ino -> 0 < ino < 2 ^ 32 -> a_links a !! ino = None ->
  get_rdfs_inode (f_mem s2) sbi ino <> 0 ->
  rdfs_read_inode sbi crc32 (f_mem s2) false (set_i_ino ino fresh) (get_rdfs_inode (f_mem s2) sbi ino) = Ret r ->
  rdfs_lookup sbi kok inode_ptr crc32 s false (Some fresh) dir name = Ret (looked_up s2 ino r).
Proof.
  intros E HR Hlen Hn Hx Hl Hni Er. unfold rdfs_lookup. rewrite (proj2 (Z.ltb_ge _ _)) by (unfold RDFS_NAME_LEN; lia). rewrite E, Hn.
  cbn [mbind outcome_bind default]. cbn. rewrite (proj2 (Z.eqb_neq _ 0)) by lia. rewrite (not_cached s2 a ∅ l T ino HR Hl). cbn [fmap option_fmap option_map].
  unfold rdfs_iget. cbn [negb]. rewrite (proj2 (Z.eqb_neq _ 0)) by done. rewrite Er. destruct r as [[err oi] lk]. cbn [mbind outcome_bind].
  destruct (read_inode_results _ _ _ _ _ _ _ _ Er) as [(j & -> & ->)|[-> [-> | ->]]]; done.
Qed.

(** ** Properties

    Between operations no directory is mapped. *)

Lemma ready_empty T n : (n <= T)%nat -> (n <= 8)%nat -> ready ∅ T n.
Proof using Type. intros H1 H2. split; [rewrite map_size_empty; lia|]. split; [done|]. apply map_Forall_empty. Qed.

(** C12: unlinking. [rdfs_unlink] of a name other than "." and ".." in a directory
    in use returns what the abstract operation returns: 0, and the name is gone
    from the directory and the inode has one link less, or -ENOENT, and nothing
    has changed.  The directory is unmapped again. *)
Theorem unlink_refines s a l T dir N name ino n now :
  fs_rep s a ∅ l T -> (1 <= T)%nat -> live_dir a dir N -> a_links a !! ino = Some n -> name <> dot -> name <> dotdot ->
  exists s', rdfs_unlink sbi kok inode_ptr s dir name ino now = Ret ((a_unlink dir name ino a).1, s') /\
    fs_rep s' (a_unlink dir name ino a).2 ∅ l T.
Proof. intros HR HT HL Hn N0 N1. apply (unlink_ok s a ∅ l T dir N name ino n now 0); try done. apply ready_empty; lia. Qed.

(** C13: linking. [rdfs_link] of a name the directory does not have, with a page
    free and the directory of at most 14 pages, returns 0: the name leads to the
    inode, which has one link more, and every other name and link count is as
    before, also when the directory had to grow by a page. *)
Theorem link_refines s a p l T dir N name ino n z now phys0 :
  fs_rep s a ∅ (p :: l) T -> (1 <= T)%nat -> live_dir a dir N -> a_links a !! ino = Some n ->
  a_sizes a !! dir = Some z -> z <= 14 * PAGE_SIZE -> name_ok name -> N !! name = None ->
  exists s' a' l', rdfs_link sbi cpu kok inode_ptr s ino dir name now phys0 = Ret (0, s') /\ fs_rep s' a' ∅ l' T /\
    a' ≡ a_link ino dir name a.
Proof. intros HR HT HL Hn Hz Hz14 Hnm Hf. apply (link_ok s a ∅ p l T dir N name ino n z now phys0 0); try done. apply ready_empty; lia. Qed.

(** C9: renaming to a new name. [rdfs_rename] of a file or of a directory, within
    one directory or from one to another, returns 0: the new name leads to the
    inode and the old one is gone; for a directory its ".." leads to the new
    parent and the parents' link counts are adjusted.  The three directories it
    maps are unmapped again, whichever coincide. *)
Theorem rename_refines s a p l T od N on oi i n nd N2 nn z x now phys0 :
  fs_rep s a ∅ (p :: l) T -> (3 <= T)%nat -> live_dir a od N -> live_dir a nd N2 -> N !! on = Some x -> on <> dot -> on <> dotdot ->
  f_inodes s !! oi = Some i -> a_links a !! oi = Some n ->
  (if S_ISDIR (i_mode i) then (exists No, live_dir a oi No) /\ oi <> od /\ oi <> nd else True) ->
  a_sizes a !! nd = Some z -> z <= 14 * PAGE_SIZE -> name_ok nn -> N2 !! nn = None ->
  exists s' a' l', rdfs_rename sbi cpu kok inode_ptr s od on oi nd nn None now phys0 = Ret (0, s') /\ fs_rep s' a' ∅ l' T /\
    a' ≡ a_rename od on oi nd nn (S_ISDIR (i_mode i)) a.
Proof.
  intros HR HT HL HL2 Hx N0 N1 Hi Hn Hdir Hz Hz14 Hnm Hf. destruct (S_ISDIR (i_mode i)) eqn:Em.
  - destruct Hdir as ([No HLo] & D1 & D2). apply (rename_dir_ok s a ∅ p l T od N on oi No nd N2 nn z x now phys0); try done. apply ready_empty; lia.
  - apply (rename_file_ok s a ∅ p l T od N on oi n i nd N2 nn z x now phys0); try done. apply ready_empty; lia.
Qed.

(** C16: a rename that is refused changes nothing. Moving a directory onto one that
    is not empty returns -ENOTEMPTY, with all names and link counts as before
    and all three directories unmapped. *)
Theorem rename_refused s a l T od N on oi No nd nn x Nx y now phys0 :
  fs_rep s a ∅ l T -> (3 <= T)%nat -> live_dir a od N -> N !! on = Some y -> live_dir a oi No -> live_dir a x Nx -> ~ bare x Nx ->
  NoDup [od; oi; x] ->
  exists s', rdfs_rename sbi cpu kok inode_ptr s od on oi nd nn (Some x) now phys0 = Ret (- ENOTEMPTY, s') /\ fs_rep s' a ∅ l T.
Proof.
  intros HR HT HL Hy HLo HLx Hb Hnd. destruct (map_dir s a ∅ l T od N 2 HR (live_names _ _ _ HL)) as (s1 & va1 & E1 & HR1 & Ho1 & Hrd1); [apply ready_empty; lia|].
  destruct (openK_at od va1 ∅) as [c1 Hc1].
  pose proof (find_ok s1 a _ l T od N on HR1 HL (mk_is_Some _ _ Hc1)) as Hf. rewrite Hy in Hf. destruct Hf as [e Hf].
  destruct (dir_mode s1 a _ l T oi No HR1 (live_names _ _ _ HLo)) as (i1 & Hi1 & Em1).
  destruct (map_dir s1 a _ l T oi No 1 HR1 (live_names _ _ _ HLo) Hrd1) as (s2 & va2 & E2 & HR2 & Ho2 & Hrd2). destruct (openK_at oi va2 (openK od va1 ∅)) as [c2 Hc2].
  destruct (dotdot_ok s2 a _ l T oi No c2 va2 HR2 HLo Hc2) as [Edd _]. pose proof (mapped_pos s2 a _ l T oi c2 va2 HR2 Hc2) as Hva.
  destruct (map_dir s2 a _ l T x Nx 0 HR2 (live_names _ _ _ HLx) Hrd2) as (s3 & va3 & E3 & HR3 & Ho3 & _). destruct (openK_at x va3 (openK oi va2 (openK od va1 ∅))) as [c3 Hc3].
  destruct (empty_dir_ok s3 a _ l T x Nx HR3 HLx (mk_is_Some _ _ Hc3)) as (r & E4 & [Hr _] & H01). assert (r = 0) as -> by (destruct H01 as [|Hr1]; [done|]; by destruct Hb; apply Hr).
  destruct (unmap_dir s3 a _ l T x va3 HR3 Ho3) as (s4 & E5 & HR4). destruct (unmap_dir s4 a _ l T oi va2 HR4 Ho2) as (s5 & E6 & HR5).
  destruct (unmap_dir s5 a _ l T od va1 HR5 Ho1) as (s6 & E7 & HR6). exists s6. split; [|done].
  unfold rdfs_rename. rewrite E1. cbn [mbind outcome_bind]. rewrite Hf. cbn [mbind outcome_bind].
  assert (Eg : get_inode s1 oi = Ret i1) by (unfold get_inode; by rewrite Hi1). rewrite Eg. cbn [mbind outcome_bind]. rewrite Em1, E2. cbn [mbind outcome_bind]. rewrite Edd. cbn [mbind outcome_bind].
  rewrite bool_decide_eq_false_2 by (intros [= Hd]; lia). rewrite E3. cbn [mbind outcome_bind]. rewrite E4. cbn [mbind outcome_bind Z.eqb app destroy_all].
  rewrite E5. cbn [mbind outcome_bind]. rewrite E6. cbn [mbind outcome_bind]. rewrite E7. done.
Qed.

(** C14: removing a directory. [rdfs_rmdir] of a directory with nothing but "." and
    ".." returns 0: the name is gone, the directory has lost two links and its
    parent one, and its size is 0.  Of any other directory it returns -ENOTEMPTY
    and changes nothing. *)
Theorem rmdir_refines s a l T dir N name ino Nc x now :
  fs_rep s a ∅ l T -> (2 <= T)%nat -> live_dir a dir N -> live_dir a ino Nc -> N !! name = Some x -> name <> dot -> name <> dotdot ->
  exists err s' a', rdfs_rmdir sbi kok inode_ptr s dir name ino now = Ret (err, s') /\ fs_rep s' a' ∅ l T /\
    (bare ino Nc /\ err = 0 /\ a' ≡ a_rmdir dir name ino a /\ a_sizes a' !! ino = Some 0 \/
     ~ bare ino Nc /\ err = - ENOTEMPTY /\ a' = a).
Proof.
  intros HR HT HL HLc Hx N0 N1. pose proof (ready_empty T 2 HT ltac:(lia)) as Hrd.
  destruct (map_dir s a ∅ l T ino Nc 1 HR (live_names _ _ _ HLc) Hrd) as (s1 & va & E1 & HR1 & Ho & Hrd1). destruct (openK_at ino va ∅) as [c Hc].
  destruct (empty_dir_ok s1 a _ l T ino Nc HR1 HLc (mk_is_Some _ _ Hc)) as (r & E2 & [Hr1 Hr2] & [->| ->]).
  - destruct (unmap_dir s1 a ∅ l T ino va HR1 Ho) as (s2 & E3 & HR2). exists (- ENOTEMPTY), s2, a. split; [|split; [done|]].
    + unfold rdfs_rmdir. rewrite E1. cbn [mbind outcome_bind]. rewrite E2. cbn [mbind outcome_bind Z.eqb negb]. by rewrite E3.
    + right. split; [|done]. intros Hb. by specialize (Hr2 Hb).
  - destruct (rmdir_ok s a ∅ l T dir N name ino Nc x now HR HL HLc Hrd Hx (Hr1 eq_refl) N0 N1) as (s' & E & HR').
    eexists 0, s', _. split; [done|]. split; [exact HR'|]. left. split; [by apply Hr1|]. split; [done|]. split.
    + unfold a_rmdir. by rewrite set_size_equiv.
    + unfold bump. destruct (a_links (set_size ino 0 _) !! ino); cbn; destruct (_ !! dir); cbn; apply lookup_insert_eq.
Qed.

(** C15: looking up. [rdfs_lookup] of a name of at most 255 bytes leaves the
    directory unmapped and the filesystem represented as before. It returns
    nothing when the directory does not have the name, and the number of the map
    of names when it has and the inode is cached.  For an inode that is not
    cached the result is that of [rdfs_read_inode] on its slot: the number, with
    the inode read entered into the cache, or the error; in particular, when the
    slot's checksum does not match, -EIO, with the inode's lock still held. *)
Theorem lookup_refines s a l T dir N name lock fresh crc32 :
  fs_rep s a ∅ l T -> (1 <= T)%nat -> live_dir a dir N -> (length name <= 255)%nat ->
  (forall ino, N !! name = Some ino -> 0 < ino < 2 ^ 32) ->
  exists s', fs_rep s' a ∅ l T /\
    (N !! name = None -> rdfs_lookup sbi kok inode_ptr crc32 s lock fresh dir name = Ret (inr None, s', lock)) /\
    (forall ino, N !! name = Some ino -> is_Some (a_links a !! ino) ->
       rdfs_lookup sbi kok inode_ptr crc32 s lock fresh dir name = Ret (inr (Some ino), s', lock)) /\
    (forall ino f, N !! name = Some ino -> a_links a !! ino = None -> fresh = Some f -> lock = false ->
       let ni := get_rdfs_inode (f_mem s') sbi ino in ni <> 0 ->
       (forall r, rdfs_read_inode sbi crc32 (f_mem s') false (set_i_ino ino f) ni = Ret r ->
          rdfs_lookup sbi kok inode_ptr crc32 s lock fresh dir name = Ret (looked_up s' ino r)) /\
       (rdfs_calc_checksum crc32 (f_mem s') ni RDFS_INODE_SIZE <> 0 ->
          rdfs_lookup sbi kok inode_ptr crc32 s lock fresh dir name = Ret (inl (- EIO), s', true))).
Proof.
  intros HR HT HL Hlen Hin. destruct (by_name_ok s a l T dir N name HR HL HT Hin) as (s2 & E & HR2). exists s2. split; [done|].
  split; [|split].
  - intros Hn. unfold rdfs_lookup. rewrite (proj2 (Z.ltb_ge _ _)) by (unfold RDFS_NAME_LEN; lia). by rewrite E, Hn.
  - intros ino Hn Hl. apply (lookup_cached s s2 a l T dir N name lock fresh crc32 ino); try done. by apply Hin.
  - intros ino f Hn Hl -> -> ni Hni. split.
    + intros r Er. apply (lookup_uncached s s2 a l T dir N name f crc32 ino r); try done. by apply Hin.
    + intros Hsum. apply (lookup_uncached s s2 a l T dir N name f crc32 ino (- EIO, None, true)); try done; [by apply Hin|].
      unfold rdfs_read_inode. by rewrite (proj2 (Z.eqb_neq _ 0)).
Qed.
End refine.

(** C40: mknod never succeeds. [rdfs_mknod] does not map the directory: when it is
    not mapped otherwise, a call that got an inode takes it back and returns
    -ENOMEM whatever the name. *)
Theorem mknod_fails `{!KernelPg, !PosixAcl} sbi cpu kok bits inode_ptr n env dir mode name phys0 ino n1 d e n' :
  new_inode sbi cpu kok bits inode_ptr n env dir mode = Ret (inr ino, n1) -> f_inodes (n_fs n1) !! dir = Some d -> ni_virt_addr d = 0 ->
  rdfs_mknod sbi cpu kok bits inode_ptr n dir name mode env phys0 = Ret (e, n') -> e = - ENOMEM.
Proof.
  intros E Hd Hv. unfold rdfs_mknod. rewrite E. cbn [mbind outcome_bind]. unfold mark_inode_dirty.
  destruct (get_inode (n_fs n1) ino) as [x|] eqn:Ex; [|done]. cbn [mbind outcome_bind]. unfold rdfs_add_nondir, add_link.
  set (s1 := set_world _ _). change (get_inode s1 dir) with (get_inode (n_fs n1) dir). change (get_inode s1 ino) with (get_inode (n_fs n1) ino).
  rewrite Ex. unfold get_inode at 1. rewrite Hd. cbn [mbind outcome_bind]. rewrite Hv. cbn [mbind outcome_bind Z.eqb ENOMEM Z.opp].
  destruct (inode_dec_link_count sbi s1 ino) as [s2|]; [|done]. cbn [mbind outcome_bind].
  destruct (iput_last _ _ _ _ _ _ _ _ _) as [s3|]; [|done]. cbn. by intros [= <- _].
Qed.
