(* ===== verification/NameNew.v ===== *)
(** * Creating files and directories refines the abstract filesystem (namei.c)

    [rdfs_create] and [rdfs_mkdir] on a filesystem with free inode slots: the
    first free slot becomes the new inode, its name is entered, and for a
    directory the names "." and ".." and the parent's link are added. *)

From S2P Require Import Prelude Mem Layout FreeList Balloc Pages Demo Nvmalloc Vfs Dir Bdev Pgtable SlaveMem Mapping Acl Inode FileData DirMap DirFs DirOps DirGrow Frame Namei DirNew NewInode NameSpec.

(** ** Abstract operations *)

Definition a_create (ino dir : Z) (name : list Z) (a : afs) : afs := upd_names dir <[name := ino]> (set_links ino 1 a).

Definition a_mkdir (ino dir : Z) (name : list Z) (a : afs) : afs :=
  upd_names dir <[name := ino]> (set_names ino (dots ino dir) (set_links ino 2 (bump dir 1 a))).

(** A directory of size [z] has kept its size or grown by a page; the other sizes are
    those of [f]. *)
Definition grown_by (dir z : Z) (f g : gmap Z Z) : Prop := exists z', (z' = z \/ z' = z + PAGE_SIZE) /\ g = <[dir := z']> f.

Lemma type_dir mode : 0 <= mode < 4096 -> Z.land (Z.lor S_IFDIR mode) S_IFMT = S_IFDIR.
Proof.
  intros Hm. apply Z.bits_inj'. intros i Hi. rewrite Z.land_spec, Z.lor_spec. destruct (Z.testbit S_IFMT i) eqn:Hb.
  - apply fmt_bit in Hb; [|done]. rewrite (testbit_small mode 12) by lia. by rewrite orb_false_r, andb_true_r.
  - rewrite andb_false_r. symmetry. destruct (Z.testbit S_IFDIR i) eqn:Hd; [|done]. change S_IFDIR with (2 ^ 14) in Hd.
    rewrite Z.pow2_bits_eqb in Hd by lia. apply Z.eqb_eq in Hd. subst. by vm_compute in Hb.
Qed.

(** ** The cache under the mapping calls *)

Section cache.
Context `{!KernelPg} {sbi : rdfs_sb_info}.

Lemma inc_inodes s ino i s' : f_inodes s !! ino = Some i -> inode_inc_link_count sbi s ino = Ret s' ->
  f_inodes s' = <[i_ino i := set_i_nlink (u32 (i_nlink i + 1)) i]> (f_inodes s).
Proof.
  intros Hi. unfold inode_inc_link_count, mark_inode_dirty, get_inode. rewrite Hi. cbn [mbind outcome_bind].
  destruct (f_inodes (put_inode _ s) !! ino); [|done]. cbn. by intros [= <-].
Qed.

Lemma establish_ne kok ptr s dir e s' d : establish sbi kok ptr s dir = Ret (e, s') -> d <> dir -> f_inodes s' !! d = f_inodes s !! d.
Proof.
  unfold establish, get_inode. intros E Hd. destruct (f_inodes s !! dir); [|done]. cbn [mbind outcome_bind] in E.
  destruct (rdfs_establish_mapping _ _ _ _ _) as [[[e1 w1] j1]|]; [|done]. cbn in E. injection E as <- <-. cbn. by rewrite lookup_insert_ne.
Qed.
End cache.

Section new.
Context (sbi : rdfs_sb_info) (size : Z) (N : node) (n : Z) `{!Node sbi size N}.
Context (W : slots_ok sbi size (node_des N) n).
Context (Hgap : node_des N + 256 + n * 128 + 8 <= node_lo N - phy_addr sbi + virt_addr sbi) (Hn : n + 2 <= 2 ^ 31).
Context `{!KernelPg, !PosixAcl} (cpu : Z) (kok : Z -> bool) (bits : Z) (inode_ptr : Z -> Z).
Context (Hkok : forall va, dir_area va -> kok va = true).

Local Abbreviation SF li := (framed_free sbi (free := node_free sbi N) (page_ok := node_page N) (slots_own N li) (slots_free sbi N n li)).
Local Abbreviation SP li := (framed_page sbi (page_ok := node_page N) (slots_own N li)).
Local Abbreviation SM li := (framed_meta (meta := node_meta sbi N) (slots_own N li)).

(** The filesystem [s] represents [a]; the inode slots [li] and the pages [l] are
    free. *)
Definition slot_rep (li : list Z) (s : fs) (a : afs) (K : gmap Z (Z * Z)) (l : list Z) (T : nat) : Prop :=
  Forall (slot_range n) li /\ DirMap.fs_rep (sbi := sbi) (free := SF li) (page_ok := SP li) (meta := SM li) s a K l T.

(** A link to the new inode, in a mapped directory. *)
Lemma add_new li s a K p l T dir M name ino nl z now phys0 : slot_rep li s a K (p :: l) T -> live_dir a dir M -> is_Some (K !! dir) ->
  a_sizes a !! dir = Some z -> z <= 14 * PAGE_SIZE -> name_ok name -> M !! name = None -> a_links a !! ino = Some nl ->
  exists s' a' l', add_link sbi cpu kok s dir name ino now phys0 = Ret (0, s') /\ slot_rep li s' a' K l' T /\
    a' ≡ upd_names dir <[name := ino]> a /\ grown_by dir z (a_sizes a) (a_sizes a').
Proof using Type*.
  intros [Hl HR] HL HK Hz Hz14 Hname Hfr Hnl. pose proof (slots_framed sbi size N n W Hgap li Hl) as HF.
  destruct (add_ok cpu kok s a K p l T dir M name ino nl z now phys0 HR HL HK Hz Hz14 Hname Hfr Hnl) as (s' & z' & l' & E & HR' & _ & Hl').
  exists s', (set_names dir (<[name := ino]> M) (set_size dir z' a)), l'. split; [done|]. split; [by split|].
  split; [by rewrite (upd_names_at _ _ M) by apply HL|]. exists z'. split; [|done]. destruct Hl' as [[? _]|[? _]]; [by left|by right].
Qed.

Lemma create_ok nf dir M name mode env i0 phys0 a K ino li p1 p2 p3 p4 l T z k : slot_rep (ino :: li) (n_fs nf) a K (p1 :: p2 :: p3 :: p4 :: l) T ->
  ready K T (S k) -> live_dir a dir M -> a_sizes a !! dir = Some z -> z <= 14 * PAGE_SIZE -> usual env i0 -> name_ok name -> M !! name = None ->
  exists nf' a' l', rdfs_create sbi cpu kok bits inode_ptr nf dir name mode env phys0 = Ret (0, nf') /\
    slot_rep li (n_fs nf') a' K l' T /\ a' ≡ a_create ino dir name a /\ grown_by dir z (<[ino := 0]> (a_sizes a)) (a_sizes a') /\
    a_links a !! ino = None.
Proof using All.
  intros [Hl (G & R & D & HI & HT)] Hrd HL Hz Hz14 Hus Hname Hfr. pose proof Hl as [Hri Hrl]%Forall_cons.
  pose proof (live_names _ _ _ HL) as HM. destruct (fi_dirs _ _ _ _ _ _ _ HI dir M HM) as (d & _ & _ & Hd & _).
  destruct (new_inode_ok sbi size N n W Hgap Hn cpu kok bits inode_ptr nf env i0 dir d mode a G K ino li p1 p2 p3 (p4 :: l) R D HI Hl Hd Hus)
    as (s1 & numa & gen & i & E1 & HG & Hin & HC & _ & _ & Hni & Hfresh).
  destruct (inv_unframe _ _ _ _ _ _ _ _ _ _ HG) as [HI1 _]. clear HG. pose proof (slots_framed sbi size N n W Hgap li Hrl) as HF.
  assert (HR1 : DirMap.fs_rep (sbi := sbi) (free := SF li) (page_ok := SP li) (meta := SM li) s1 (add_inode ino i a) K (p4 :: l) T) by (by exists G, R, D).
  assert (Hln : a_links (add_inode ino i a) !! ino = Some 1) by (cbn; by rewrite lookup_insert_eq, (nc_nlink _ _ _ HC)).
  assert (Hne : dir <> ino) by (intros ->; congruence).
  assert (HL1 : live_dir (add_inode ino i a) dir M) by (destruct HL; split; [done|]; cbn; by rewrite lookup_insert_ne).
  destruct (mark_ok s1 _ K _ T ino 1 HR1 Hln) as (s2 & E2 & HR2).
  destruct (map_dir kok inode_ptr Hkok s2 _ K _ T dir M k HR2 HM Hrd) as (s3 & va & E3 & HR3 & Ho & _). destruct (openK_at dir va K) as [c Hc].
  destruct (add_new li s3 _ _ p4 l T dir M name ino 1 z (e_now env) phys0 (conj Hrl HR3) HL1 (mk_is_Some _ _ Hc)) as (s4 & a4 & l' & E4 & [_ HR4] & Ea & Hgr);
    [cbn; by rewrite lookup_insert_ne|done..|].
  destruct (unmap_dir s4 _ K l' T dir va HR4 Ho) as (s5 & E5 & HR5).
  exists (mk_nfs s5 numa gen), a4, l'. split; [|split; [by split|split; [|split]]].
  - unfold rdfs_create. rewrite E1. cbn [mbind outcome_bind n_fs]. rewrite E2. cbn [mbind outcome_bind]. rewrite E3. cbn [mbind outcome_bind].
    unfold rdfs_add_nondir. rewrite E4. cbn [mbind outcome_bind Z.eqb]. by rewrite E5.
  - rewrite Ea. unfold a_create, add_inode. by rewrite set_size_equiv, (nc_nlink _ _ _ HC).
  - cbn in Hgr. by rewrite (nc_size _ _ _ HC) in Hgr.
  - rewrite (fi_links _ _ _ _ _ _ _ HI), lookup_fmap, Hfresh. done.
Qed.
(** The new inode between [rdfs_new_inode] and [rdfs_make_empty]: a second link,
    and the parent mapped. *)
Lemma mkdir_middle li ino g s a G K l R D T i dir M k mode :
  let GF := framed_free sbi (free := SF li) (page_ok := SP li) (guest_own sbi (slot_va N ino) g) (guest sbi (slot_va N ino) g) in
  let GP := framed_page sbi (page_ok := SP li) (guest_own sbi (slot_va N ino) g) in
  let GM := framed_meta (meta := SM li) (guest_own sbi (slot_va N ino) g) in
  Framed sbi (foot := framed_foot (foot := node_foot sbi N) (slots_own N li)) (page_ok := SP li) (guest_own sbi (slot_va N ino) g) (guest sbi (slot_va N ino) g) ->
  Forall (slot_range n) li ->
  DirMap.fs_inv (sbi := sbi) (free := GF) (page_ok := GP) (meta := GM) s a G K l R D -> (length D.1 + base.size K)%nat = T ->
  f_inodes s !! ino = Some i -> new_core ino mode i -> a_names a !! dir = Some M -> dir <> ino -> ready K T (S (S k)) ->
  exists s1 s2 va G' R' D' i', inode_inc_link_count sbi s ino = Ret s1 /\ establish sbi kok inode_ptr s1 dir = Ret (0, s2) /\
    DirMap.fs_inv (sbi := sbi) (free := GF) (page_ok := GP) (meta := GM) s2 (bump ino 1 a) G' (openK dir va K) l R' D' /\
    (length D'.1 + base.size (openK dir va K))%nat = T /\ opened dir va K /\ (0 < length D'.1)%nat /\
    f_inodes s2 !! ino = Some i' /\ i_mode i' = i_mode i /\ i_size i' = 0 /\ i_blocks i' = 0 /\ ni_virt_addr i' = 0 /\ ni_mapping_count i' = 0.
Proof using All.
  intros GF GP GM HGF Hl HI HT Hi HC HM Hne Hrd. pose proof (slots_framed sbi size N n W Hgap li Hl) as HF.
  assert (HR : DirMap.fs_rep (sbi := sbi) (free := GF) (page_ok := GP) (meta := GM) s a K l T) by (by exists G, R, D).
  assert (Hln : a_links a !! ino = Some 1) by (by rewrite (inv_link _ _ _ _ _ _ _ _ _ HI Hi), (nc_nlink _ _ _ HC)).
  destruct (inc_ok s a K l T ino 1 HR Hln) as (s1 & E1 & HR1).
  assert (HM1 : a_names (bump ino 1 a) !! dir = Some M) by (by rewrite (bump_at _ _ 1) by done).
  destruct (map_dir kok inode_ptr Hkok s1 _ K l T dir M (S k) HR1 HM1 Hrd) as (s2 & va & E2 & (G' & R' & D' & HI2 & HT2) & Ho & Hrd2).
  pose proof (inc_inodes s ino i s1 Hi E1) as Ein. pose proof (establish_ne kok inode_ptr s1 dir 0 s2 ino E2 (not_eq_sym Hne)) as E3.
  rewrite Ein, (nc_ino _ _ _ HC), lookup_insert_eq in E3. destruct Hrd2 as (Hsz & _). destruct HC.
  eexists s1, s2, va, G', R', D', _. split; [done|]. split; [done|]. split; [done|]. split; [done|]. split; [done|]. split; [lia|].
  split; [exact E3|]. by repeat split.
Qed.

Lemma mkdir_ok nf dir M name mode env i0 phys0 a K ino li p1 p2 p3 p4 p5 l T z k :
  slot_rep (ino :: li) (n_fs nf) a K (p1 :: p2 :: p3 :: p4 :: p5 :: l) T -> ready K T (S (S k)) -> live_dir a dir M ->
  a_sizes a !! dir = Some z -> z <= 14 * PAGE_SIZE -> usual env i0 -> 0 <= mode < 4096 -> name_ok name -> M !! name = None ->
  exists nf' a' l', rdfs_mkdir sbi cpu kok bits inode_ptr nf dir name mode env phys0 = Ret (0, nf') /\
    slot_rep li (n_fs nf') a' K l' T /\ a' ≡ a_mkdir ino dir name a /\ grown_by dir z (<[ino := PAGE_SIZE]> (a_sizes a)) (a_sizes a') /\
    a_links a !! ino = None.
Proof using All.
  intros [Hl HR0] Hrd HL Hz Hz14 Hus Hmode Hname Hfr. pose proof Hl as [Hri Hrl]%Forall_cons. pose proof (live_names _ _ _ HL) as HM.
  pose proof (slots_framed sbi size N n W Hgap _ Hl) as HF0. pose proof (slots_framed sbi size N n W Hgap li Hrl) as HF.
  destruct (dir_links _ _ _ _ _ _ _ HR0 HM) as [nd Hnd].
  destruct (inc_ok (n_fs nf) a K _ T dir nd HR0 Hnd) as (s0 & E0 & (G & R & D & HI & HT)).
  assert (HM0 : a_names (bump dir 1 a) !! dir = Some M) by (by rewrite (bump_at _ _ nd) by done).
  destruct (fi_dirs _ _ _ _ _ _ _ HI dir M HM0) as (d & _ & _ & Hd & _).
  destruct (new_inode_ok sbi size N n W Hgap Hn cpu kok bits inode_ptr (set_fs s0 nf) env i0 dir d (Z.lor S_IFDIR mode) _ G K ino li p1 p2 p3 (p4 :: p5 :: l) R D HI Hl Hd Hus)
    as (s1 & numa & gen & i & E1 & HG & Hin & HC & Hpg & Hndp & Hni & Hfresh). cbn [n_fs set_fs] in Hfresh, Hin.
  set (g := mk_lay p1 p2 p3 []) in *. set (a1 := add_inode ino i (bump dir 1 a)) in *.
  assert (Hne : dir <> ino) by (intros ->; congruence).
  assert (Hroot : forall x, slot_va N ino + 72 <= x < slot_va N ino + 80 -> SM li x).
  { intros x Hx. apply (slot_meta sbi size N n W Hgap Hn cpu ino li x Hri Hrl Hni). lia. }
  assert (HGF : Framed sbi (foot := framed_foot (foot := node_foot sbi N) (slots_own N li)) (page_ok := SP li) (guest_own sbi (slot_va N ino) g) (guest sbi (slot_va N ino) g))
    by (apply (guest_framed sbi (meta := SM li)); done).
  assert (Hi1 : f_inodes s1 !! ino = Some i) by (rewrite Hin; apply lookup_insert_eq).
  assert (HM1 : a_names a1 !! dir = Some M) by done.
  destruct (mkdir_middle li ino g s1 a1 G K _ R D T i dir M k _ HGF Hrl HG HT Hi1 HC HM1 Hne Hrd)
    as (s2 & s3 & va & G3 & R3 & D3 & i3 & E2 & E3 & HG3 & HT3 & Ho & Hlen & Hi3 & Hm3 & Hs3 & Hb3 & Hv3 & Hc3).
  assert (Hln1 : a_links a1 !! ino = Some 1) by (cbn; by rewrite lookup_insert_eq, (nc_nlink _ _ _ HC)).
  assert (Ea3 : bump ino 1 a1 = set_links ino 2 a1) by (by rewrite (bump_at _ _ 1)).
  assert (Hdir3 : S_ISDIR (i_mode i3) = true).
  { unfold S_ISDIR. rewrite Hm3, (nc_type _ _ _ HC). apply Z.eqb_eq. apply type_dir. done. }
  assert (Hslot : DirMap.slot (sbi := sbi) s3 ino = slot_va N ino).
  { destruct (inv_unframe _ _ _ _ _ _ _ _ _ _ HG3) as [HS3 _]. destruct (inv_unframe _ _ _ _ _ _ _ _ _ _ HS3) as [HB3 _].
    apply (slot_of sbi size N n W Hgap Hn cpu s3 _ _ _ _ _ _ ino HB3). by exists i3. }
  assert (Hnone : a_names (bump ino 1 a1) !! ino = None).
  { rewrite Ea3. destruct (a_names a1 !! ino) as [M'|] eqn:E; [|done].
    destruct (fi_dirs _ _ _ _ _ _ _ HI ino M' E) as (j & _ & _ & Hj & _). congruence. }
  assert (Hpar : exists np, a_links (bump ino 1 a1) !! dir = Some np).
  { rewrite Ea3. cbn. rewrite !lookup_insert_ne by done. rewrite (bump_at _ _ nd) by done. cbn. rewrite lookup_insert_eq. by eexists. }
  destruct Hpar as [np Hpar].
  destruct (make_empty_ok cpu kok inode_ptr phys0 Hkok (slot_va N ino) g eq_refl Hpg Hndp Hroot s3 _ G3 _ p4 (p5 :: l) R3 D3 ino dir i3 np HG3 Hslot Hi3 (Build_blank_dir _ Hdir3 Hs3 Hb3 Hv3 Hc3) Hnone Hpar Hlen)
    as (s4 & D4 & E4 & HI4 & Hlen4 & _).
  set (a4 := set_names ino _ _) in HI4.
  assert (HR4 : slot_rep li s4 a4 (openK dir va K) (p5 :: l) T) by (split; [done|exists (<[ino := grown g p4]> G3), R3, D4; split; [done|lia]]).
  assert (Ea4 : a_names a4 !! dir = Some M /\ a_sizes a4 !! dir = a_sizes a !! dir).
  { unfold a4. rewrite Ea3. cbn. rewrite !lookup_insert_ne by done. by rewrite (bump_at _ _ nd) by done. }
  assert (HL4 : live_dir a4 dir M) by (destruct HL; split; [apply Ea4|by rewrite (proj2 Ea4)]).
  destruct (openK_at dir va K) as [c Hc].
  destruct (add_new li s4 a4 _ p5 l T dir M name ino 2 z (e_now env) phys0 HR4 HL4 (mk_is_Some _ _ Hc)) as (s5 & a5 & l' & E5 & [_ HR5] & Ea & Hgr);
    [by rewrite (proj2 Ea4)|done|done|done|unfold a4; rewrite Ea3; cbn; apply lookup_insert_eq|].
  destruct (unmap_dir s5 a5 K l' T dir va HR5 Ho) as (s6 & E6 & HR6).
  exists (mk_nfs s6 numa gen), a5, l'. split; [|split; [by split|split; [|split]]].
  - unfold rdfs_mkdir. rewrite E0. cbn [mbind outcome_bind]. rewrite E1. cbn [mbind outcome_bind n_fs]. rewrite E2. cbn [mbind outcome_bind].
    rewrite E3. cbn [mbind outcome_bind]. rewrite E4. cbn [mbind outcome_bind Z.eqb negb]. rewrite E5. cbn [mbind outcome_bind Z.eqb negb]. by rewrite E6.
  - rewrite Ea. unfold a_mkdir. apply upd_names_proper. unfold a4. rewrite Ea3. unfold a1, add_inode. split; cbn; [done|].
    by rewrite insert_insert_eq.
  - replace (<[ino := PAGE_SIZE]> (a_sizes a)) with (a_sizes a4); [done|]. unfold a4. rewrite Ea3. unfold a1. rewrite (bump_at _ _ nd) by done. cbn.
    apply insert_insert_eq.
  - apply (f_equal a_links) in Ea3. destruct (a_links a !! ino) as [x|] eqn:E; [|done]. exfalso.
    assert (Hx : is_Some (a_links (bump dir 1 a) !! ino)) by (rewrite (bump_at _ _ nd) by done; cbn; rewrite lookup_insert_ne by done; by rewrite E).
    rewrite (fi_links _ _ _ _ _ _ _ HI), lookup_fmap, Hfresh in Hx. by destruct Hx.
Qed.

(** C11: creating a file. On a filesystem with a free inode slot and four free
    pages, [rdfs_create] of a name that a directory of at most 14 pages does not
    have returns 0: the first free slot's inode, which was not in use, has one
    link and size 0 and the name leads to it; the directory has its size or one
    page more; the names of all other directories, and the links and sizes of all
    other inodes of the cache, are as before; the other free slots stay free and
    the directory is unmapped again.  (The stored sum and mode of the slot behind
    the new one are not part of this: clearing the new slot overwrites them, see
    [take_slot_clobbers].) *)
Theorem create_refines nf dir M name mode env i0 phys0 a ino li p1 p2 p3 p4 l T z :
  slot_rep (ino :: li) (n_fs nf) a ∅ (p1 :: p2 :: p3 :: p4 :: l) T -> (1 <= T)%nat -> live_dir a dir M -> a_sizes a !! dir = Some z ->
  z <= 14 * PAGE_SIZE -> usual env i0 -> name_ok name -> M !! name = None ->
  exists nf' a' l', rdfs_create sbi cpu kok bits inode_ptr nf dir name mode env phys0 = Ret (0, nf') /\
    slot_rep li (n_fs nf') a' ∅ l' T /\ a' ≡ a_create ino dir name a /\ grown_by dir z (<[ino := 0]> (a_sizes a)) (a_sizes a') /\
    a_links a !! ino = None.
Proof using All.
  intros HR HT HL Hz Hz14 Hus Hnm Hf. apply (create_ok nf dir M name mode env i0 phys0 a ∅ ino li p1 p2 p3 p4 l T z 0); try done. apply ready_empty; lia.
Qed.

(** C10: making a directory. Under the conditions of creation and with a fifth
    page and a second address area free, [rdfs_mkdir] returns 0: the first free
    slot's inode, which was not in use, is a directory of one page with the two
    names "." for itself and ".." for its parent and two links, its name is
    entered, and the parent has one link more and its size or one page more; the
    names of all other directories, and the links and sizes of all other inodes
    of the cache, are as before.  (The stored sum and mode of the slot behind the
    new one are not part of this: clearing the new slot overwrites them, see
    [take_slot_clobbers].) *)
Theorem mkdir_refines nf dir M name mode env i0 phys0 a ino li p1 p2 p3 p4 p5 l T z :
  slot_rep (ino :: li) (n_fs nf) a ∅ (p1 :: p2 :: p3 :: p4 :: p5 :: l) T -> (2 <= T)%nat -> live_dir a dir M -> a_sizes a !! dir = Some z ->
  z <= 14 * PAGE_SIZE -> usual env i0 -> 0 <= mode < 4096 -> name_ok name -> M !! name = None ->
  exists nf' a' l', rdfs_mkdir sbi cpu kok bits inode_ptr nf dir name mode env phys0 = Ret (0, nf') /\
    slot_rep li (n_fs nf') a' ∅ l' T /\ a' ≡ a_mkdir ino dir name a /\ grown_by dir z (<[ino := PAGE_SIZE]> (a_sizes a)) (a_sizes a') /\
    a_links a !! ino = None.
Proof using All.
  intros HR HT HL Hz Hz14 Hus Hm Hnm Hf. apply (mkdir_ok nf dir M name mode env i0 phys0 a ∅ ino li p1 p2 p3 p4 p5 l T z 0); try done. apply ready_empty; lia.
Qed.
End new.
