(* ===== verification/NameDemo.v ===== *)
(** * Name operations on a small filesystem

    Three directories and a file: the root (1) with the directories "a" (3) and
    "b" (5) and the file "f" (4).  Tables, blocks and records are built by the
    code's own functions; the theorems of [NameSpec] are instantiated on it. *)

From S2P Require Import Prelude Mem Layout FreeList Balloc Pages Demo Nvmalloc Vfs Dir Bdev Pgtable SlaveMem Mapping Acl Inode FileData DirMap DirFs DirOps DirGrow Namei NameSpec.

#[local] Existing Instance x86_pg.

Definition DIR_MODE : Z := 0x41ed.
Definition REG_MODE : Z := 0x81a4.
Definition nm_inode (ino mode nlink size blocks : Z) : inode := mk_inode ino mode 0 0 nlink size blocks 0 0 0 0 0 0 0 0 0 0 0 0 0 0.
Definition nm_dir (ino nlink : Z) : inode := nm_inode ino DIR_MODE nlink 4096 1.

(** A directory with its table, one block and the two first records. *)
Definition nm_add_dir (m : mem) (ino parent : Z) : mem :=
  let m := (rdfs_init_pg_table demo_sbi 0 m ino).2 in
  let '(_, p, m) := rdfs_new_block demo_sbi m 0 0 1 None in
  let m := memset m (rdfs_va demo_sbi p) 0 4096 in
  let i := set_ni_virt_addr RDFS_START (nm_dir ino 2) in
  let m := (rdfs_insert_page demo_sbi 0 (fun _ => true) m (mk_kmm ∅ ∅) i p).1.2 in
  empty_fill m (set_ni_virt_addr (rdfs_va demo_sbi p) i) (nm_dir parent 2).

Definition nm_root : Z := rdfs_va demo_sbi 0x1000e000.
Definition nm_mem : mem :=
  let m := nm_add_dir (nm_add_dir (nm_add_dir demo_mem 1 1) 3 1) 5 1 in
  let m := add_fill m (nm_root + 16) 16 4080 1 [97] 3 DIR_MODE in
  let m := add_fill m (nm_root + 32) 16 4064 1 [98] 5 DIR_MODE in
  add_fill m (nm_root + 48) 16 4048 1 [102] 4 REG_MODE.

Definition nm_cells : list cell := [(16, RDFS_START); (17, RDFS_START + MAX_DIR_SIZE); (18, RDFS_START + 2 * MAX_DIR_SIZE)].
Definition nm_nvm : nvm_state :=
  mk_nvm_state {[16 := mk_nvm 17 RDFS_START MAX_DIR_SIZE; 17 := mk_nvm 18 (RDFS_START + MAX_DIR_SIZE) MAX_DIR_SIZE;
                 18 := mk_nvm 0 (RDFS_START + 2 * MAX_DIR_SIZE) MAX_DIR_SIZE]}
    (mk_pool 0 0 0 0) (mk_pool 16 0 3 0).

Definition nm_fs : fs :=
  mk_fs (mk_world nm_mem (mk_kmm ∅ ∅) nm_nvm ∅ (mk_pte_page 0 0) [])
    {[1 := nm_dir 1 4; 3 := nm_dir 3 2; 5 := nm_dir 5 2; 4 := nm_inode 4 REG_MODE 1 0 0]}.

Definition nm_free : list Z := drop 12 demo_pages.
Definition nm_lay (ino : Z) : lay :=
  if ino =? 1 then mk_lay 0x1000b000 0x1000c000 0x1000d000 [0x1000e000]
  else if ino =? 3 then mk_lay 0x1000f000 0x10010000 0x10011000 [0x10012000]
  else mk_lay 0x10013000 0x10014000 0x10015000 [0x10016000].
Definition nm_recs (ino : Z) : list drec :=
  if ino =? 1 then [new_rec 16 1 DIR_MODE dot; new_rec 16 1 DIR_MODE dotdot; new_rec 16 3 DIR_MODE [97];
                    new_rec 16 5 DIR_MODE [98]; new_rec 4032 4 REG_MODE [102]]
  else empty_recs ino 1 DIR_MODE.
Definition nm_names (ino : Z) : gmap (list Z) Z := names (nm_recs ino).

Definition nm_afs : afs :=
  mk_afs {[1 := nm_names 1; 3 := nm_names 3; 5 := nm_names 5]} {[1 := 4; 3 := 2; 5 := 2; 4 := 1]} {[1 := 4096; 3 := 4096; 5 := 4096; 4 := 0]}.

(** ** It is represented *)

Lemma nm_free_ok : node_free demo_sbi demo_node nm_mem nm_free.
Proof.
  split; [vm_compute; reflexivity|]. split; [vm_compute; reflexivity|]. split.
  - vm_compute. reflexivity.
  - vm_compute. repeat split; reflexivity.
  - apply Forall_drop, demo_pages_ok.
  - apply (bool_decide_unpack _). vm_compute. exact I.
Qed.

Lemma nm_areas : areas nm_nvm ([], []) (nm_cells, []).
Proof.
  exists []. split.
  - done.
  - split; try done; constructor.
  - split; try done; [|apply (bool_decide_unpack _); vm_compute; exact I..].
    cbn [nm_cells app fst nv_chain]. split; [done|]. split; [done|]. eexists. split; [reflexivity|]. split; [done|]. split; [done|].
    eexists. split; [reflexivity|]. split; [done|]. split; [done|]. eexists. split; reflexivity.
  - cbn. set_solver.
  - constructor.
  - repeat constructor; cbn; [exists 0|exists 1|exists 2]; rewrite dir_areas_eq; cbn; lia.
Qed.

Lemma nm_cases {A} (x y z w : A) ino v : ({[1 := x; 3 := y; 5 := z; 4 := w]} : gmap Z A) !! ino = Some v ->
  (ino, v) ∈ [(1, x); (3, y); (5, z); (4, w)].
Proof.
  intros E. repeat (apply lookup_insert_Some in E as [[<- <-]|[_ E]]; [repeat constructor|]).
  apply lookup_singleton_Some in E as [<- <-]. repeat constructor.
Qed.

Lemma nm_dirs {A} (x y z : A) ino v : ({[1 := x; 3 := y; 5 := z]} : gmap Z A) !! ino = Some v -> (ino, v) ∈ [(1, x); (3, y); (5, z)].
Proof.
  intros E. repeat (apply lookup_insert_Some in E as [[<- <-]|[_ E]]; [repeat constructor|]).
  apply lookup_singleton_Some in E as [<- <-]. repeat constructor.
Qed.

(** The in-core inodes' slots, by number. *)
Lemma nm_slot ino i : f_inodes nm_fs !! ino = Some i -> i_ino i = ino /\ 0 < ino < 6 /\
  get_rdfs_inode nm_mem demo_sbi ino = 0x20008080 + (ino - 1) * 128.
Proof.
  intros E%nm_cases. repeat (apply elem_of_cons in E as [[= -> ->]|E]; [split; [done|]; split; [lia|vm_compute; reflexivity]|]).
  by apply not_elem_of_nil in E.
Qed.

(** The lowest table of a directory of one block. *)
Definition pte_check (m : mem) (g : lay) : bool :=
  forallb (fun k => ld 8 m (rdfs_va demo_sbi (l_pte g) + 8 * Z.of_nat k) =? default 0 ((page_entry <$> l_data g) !! k)) (seq 0 512).

Lemma pte_check_ok m g k : pte_check m g = true -> 0 <= k < 512 ->
  ld 8 m (rdfs_va demo_sbi (l_pte g) + 8 * k) = default 0 ((page_entry <$> l_data g) !! Z.to_nat k).
Proof.
  intros Hc Hk. unfold pte_check in Hc. rewrite forallb_forall in Hc. specialize (Hc (Z.to_nat k)).
  rewrite Z2Nat.id in Hc by lia. apply Z.eqb_eq, Hc, in_seq. lia.
Qed.

Lemma nm_page g : forallb (fun p => bool_decide (p ∈ demo_pages)) (lay_pages g) = true -> Forall (node_page demo_node) (lay_pages g).
Proof.
  intros Hc. apply Forall_forall. intros p Hp. rewrite forallb_forall in Hc. pose proof demo_pages_ok as Hd. rewrite Forall_forall in Hd.
  apply Hd. eapply bool_decide_unpack, Is_true_true, Hc, list_elem_of_In, Hp.
Qed.

(** The bytes of a record, as a decision. *)
Definition rec_check (m : mem) (a : Z) (r : drec) : bool :=
  (16 <=? r_len r) && (r_len r <? 2 ^ 16) && (de_rec_len m a =? r_len r) &&
  match r_ent r with
  | None => de_inode m a =? 0
  | Some d => (0 <? d_ino d) && (d_ino d <? 2 ^ 64) && (0 <=? d_type d) && (d_type d <? 256) &&
      forallb (fun b => (0 <=? b) && (b <? 256)) (d_name d) && (1 <=? length (d_name d))%nat && (length (d_name d) <=? 255)%nat &&
      (RDFS_DIR_REC_LEN (Z.of_nat (length (d_name d))) <=? r_len r) &&
      (de_inode m a =? d_ino d) && (de_name_len m a =? Z.of_nat (length (d_name d))) && (de_file_type m a =? d_type d) &&
      bool_decide (ld_bytes m (a + de_off.name) (length (d_name d)) = d_name d)
  end.
Fixpoint recs_check (m : mem) (a : Z) (l : list drec) : bool :=
  match l with [] => true | r :: l => rec_check m a r && recs_check m (a + r_len r) l end.

Lemma recs_check_ok m a l : recs_check m a l = true -> recs_at m a l.
Proof.
  revert a. induction l as [|r l IH]; intros a Hc; [done|]. cbn in Hc. apply andb_true_iff in Hc as [Hr Hc].
  unfold rec_check in Hr. destruct (r_ent r) as [d|] eqn:Ed; repeat rewrite andb_true_iff in Hr; cbn [recs_at]; unfold rec_ok, rec_at, dentry_ok; rewrite Ed.
  - destruct_and!. rewrite !Z.leb_le, !Z.ltb_lt, !Z.eqb_eq, !Nat.leb_le in *. split; [|split; [|by apply IH]].
    + repeat split; try lia. apply Forall_forall. intros b Hb. match goal with H : forallb _ _ = true |- _ => rewrite forallb_forall in H; specialize (H b (proj1 (list_elem_of_In _ _) Hb)); apply andb_true_iff in H as [?%Z.leb_le ?%Z.ltb_lt] end.
      by split.
    + repeat split; try done. by eapply bool_decide_unpack, Is_true_true.
  - destruct_and!. rewrite !Z.leb_le, !Z.ltb_lt, !Z.eqb_eq in *. split; [by split; [lia|]|]. split; [done|by apply IH].
Qed.

Local Abbreviation nm_dir_ok := (DirMap.dir_ok (sbi := demo_sbi) (page_ok := node_page demo_node)).
Local Abbreviation nm_inv := (DirMap.fs_inv (sbi := demo_sbi) (free := node_free demo_sbi demo_node) (page_ok := node_page demo_node)
  (meta := node_meta demo_sbi demo_node)).
Local Abbreviation nm_rep := (DirMap.fs_rep (sbi := demo_sbi) (free := node_free demo_sbi demo_node) (page_ok := node_page demo_node)
  (meta := node_meta demo_sbi demo_node)).

(** A directory of one block, checked by evaluation. *)
Lemma nm_dir_check m ino nlink p g rs : l_data g = [p] ->
  forallb (fun p => bool_decide (p ∈ demo_pages)) (lay_pages g) = true -> bool_decide (NoDup (lay_pages g)) = true ->
  ld 8 m (get_rdfs_inode m demo_sbi ino + inode_off.i_pg_addr) = l_top g ->
  ld 8 m (rdfs_va demo_sbi (l_top g)) = dir_entry (Some (l_pmd g)) ->
  ld 8 m (rdfs_va demo_sbi (l_pmd g)) = dir_entry (Some (l_pte g)) ->
  pte_check m g = true -> recs_check m (rdfs_va demo_sbi p) rs = true -> total rs = 4096 ->
  bool_decide (NoDup (d_name <$> live_ents rs)) = true -> dot_head rs ->
  nm_dir_ok m (nm_dir ino nlink) g rs.
Proof.
  intros Ed Hp Hn H1 H2 H3 H4 Hr Ht Hnm Hd. split; [done|by apply nm_page|by eapply bool_decide_unpack, Is_true_true| | | | | | |by eapply bool_decide_unpack, Is_true_true|done].
  - split; [done..|]. intros k. by apply pte_check_ok.
  - by rewrite Ed.
  - right. by rewrite Ed.
  - rewrite Ed. cbn. lia.
  - intros va. apply (stored_recs m g (rdfs_va demo_sbi p) m); [|by apply recs_check_ok|by rewrite Ed, Ht].
    rewrite Ed. intros [|k] q o; [|done]. intros [= <-] _. by rewrite Z.mul_0_r, Z.add_0_r.
  - by rewrite Ed, Ht.
Qed.

Ltac nm_dir_solve := eapply (nm_dir_check nm_mem); [reflexivity|vm_compute; reflexivity..|]; eexists _, _, _; split; [reflexivity|]; by repeat split.

Lemma nm_dir1 : nm_dir_ok nm_mem (nm_dir 1 4) (nm_lay 1) (nm_recs 1).
Proof. nm_dir_solve. Qed.
Lemma nm_dir3 : nm_dir_ok nm_mem (nm_dir 3 2) (nm_lay 3) (nm_recs 3).
Proof. nm_dir_solve. Qed.
Lemma nm_dir5 : nm_dir_ok nm_mem (nm_dir 5 2) (nm_lay 5) (nm_recs 5).
Proof. nm_dir_solve. Qed.

Definition nm_G : gmap Z lay := {[1 := nm_lay 1; 3 := nm_lay 3; 5 := nm_lay 5]}.

Lemma nm_inv_ok : nm_inv nm_fs nm_afs nm_G ∅ nm_free ([], []) (nm_cells, []).
Proof.
  split.
  - exact nm_free_ok.
  - exact nm_areas.
  - repeat constructor; vm_compute; congruence.
  - intros ino i Hi. destruct (nm_slot ino i Hi) as (E & Hr & _). split; [done|lia].
  - intros ino x [i Hi]. destruct (nm_slot ino i Hi) as (_ & Hr & E). unfold slot. change (f_mem nm_fs) with nm_mem. rewrite E.
    unfold node_meta. change (node_des demo_node + sizeof_numa_des) with 0x20008080.
    change (node_lo demo_node - phy_addr demo_sbi + virt_addr demo_sbi) with (0x2000b000). lia.
  - intros ino ino' [i Hi] [i' Hi'] Hne. destruct (nm_slot ino i Hi) as (_ & _ & E). destruct (nm_slot ino' i' Hi') as (_ & _ & E').
    unfold slot. change (f_mem nm_fs) with nm_mem. rewrite E, E'. unfold RDFS_INODE_SIZE. lia.
  - apply (bool_decide_unpack _). vm_compute. exact I.
  - apply (bool_decide_unpack _). vm_compute. exact I.
  - intros dir N E%nm_dirs. repeat (apply elem_of_cons in E as [[= -> ->]|E]); [..|by apply not_elem_of_nil in E].
    + exists (nm_dir 1 4), (nm_lay 1), (nm_recs 1). do 2 (split; [reflexivity|]). by split; [exact nm_dir1|].
    + exists (nm_dir 3 2), (nm_lay 3), (nm_recs 3). do 2 (split; [reflexivity|]). by split; [exact nm_dir3|].
    + exists (nm_dir 5 2), (nm_lay 5), (nm_recs 5). do 2 (split; [reflexivity|]). by split; [exact nm_dir5|].
  - intros dir [g E%nm_dirs]. repeat (apply elem_of_cons in E as [[= -> _]|E]; [by eexists|]). by apply not_elem_of_nil in E.
  - intros dir [k E]. by rewrite lookup_empty in E.
  - intros d d' g g' p Hne E%nm_dirs E'%nm_dirs Hp Hp'. 
    repeat (apply elem_of_cons in E as [[= -> ->]|E]); [..|by apply not_elem_of_nil in E];
      (repeat (apply elem_of_cons in E' as [[= -> ->]|E']); [..|by apply not_elem_of_nil in E']); try done;
      cbn in Hp, Hp'; unfold lay_pages in Hp, Hp'; cbn in Hp, Hp'; set_unfold; lia.
  - intros d g p E%nm_dirs Hp Hq. assert (Hd : bool_decide (p ∈ nm_free) = true) by (by apply bool_decide_eq_true).
    repeat (apply elem_of_cons in E as [[= -> ->]|E]); [..|by apply not_elem_of_nil in E];
      unfold lay_pages in Hp; cbn in Hp; repeat (apply elem_of_cons in Hp as [->|Hp]; [vm_compute in Hd; congruence|]); by apply not_elem_of_nil in Hp.
  - intros d d' n n' va E. by rewrite lookup_empty in E.
  - intros dir x [N E%nm_dirs]. assert (Hs : exists i, f_inodes nm_fs !! dir = Some i).
    { repeat (apply elem_of_cons in E as [[= -> _]|E]; [by eexists|]). by apply not_elem_of_nil in E. }
    destruct Hs as [i Hi]. destruct (nm_slot dir i Hi) as (_ & Hr & Es). unfold slot. change (f_mem nm_fs) with nm_mem. rewrite Es.
    unfold node_meta. change (node_des demo_node + sizeof_numa_des) with 0x20008080.
    change (node_lo demo_node - phy_addr demo_sbi + virt_addr demo_sbi) with (0x2000b000). lia.
Qed.

Lemma nm_rep_ok : nm_rep nm_fs nm_afs ∅ nm_free 3.
Proof. exists nm_G, ([], []), (nm_cells, []). split; [exact nm_inv_ok|reflexivity]. Qed.

(** ** The theorems on it *)

Lemma nm_live1 : live_dir nm_afs 1 (nm_names 1).
Proof. split; [reflexivity|by vm_compute]. Qed.
Lemma nm_live3 : live_dir nm_afs 3 (nm_names 3).
Proof. split; [reflexivity|by vm_compute]. Qed.
Lemma nm_live5 : live_dir nm_afs 5 (nm_names 5).
Proof. split; [reflexivity|by vm_compute]. Qed.

Definition nm_kok (va : Z) : bool := true.
Definition nm_ptr (ino : Z) : Z := 0x30000000 + 1024 * ino.

Lemma unlink_refines_witness :
  exists s', rdfs_unlink demo_sbi nm_kok nm_ptr nm_fs 1 [102] 4 7 = Ret (0, s') /\
    nm_rep s' (a_unlink 1 [102] 4 nm_afs).2 ∅ nm_free 3.
Proof.
  exact (unlink_refines nm_kok nm_ptr (fun _ _ => eq_refl) nm_fs nm_afs nm_free 3 1 (nm_names 1) [102] 4 1 7 nm_rep_ok
    ltac:(lia) nm_live1 eq_refl ltac:(done) ltac:(done)).
Defined.

Lemma name_ok_b b : (0 <=? b) && (b <? 256) = true -> name_ok [b].
Proof. intros Hb. apply andb_true_iff in Hb as [?%Z.leb_le ?%Z.ltb_lt]. split; [by repeat constructor|cbn; lia]. Qed.

Lemma nm_free_cons : nm_free = 0x10017000 :: drop 13 demo_pages.
Proof. vm_compute. reflexivity. Qed.

Lemma nm_rep_cons : nm_rep nm_fs nm_afs ∅ (0x10017000 :: drop 13 demo_pages) 3.
Proof. rewrite <- nm_free_cons. exact nm_rep_ok. Qed.

Lemma link_refines_witness :
  exists s' a' l', rdfs_link demo_sbi 0 nm_kok nm_ptr nm_fs 4 3 [103] 7 0 = Ret (0, s') /\ nm_rep s' a' ∅ l' 3 /\
    a' ≡ a_link 4 3 [103] nm_afs.
Proof.
  exact (link_refines 0 nm_kok nm_ptr (fun _ _ => eq_refl) nm_fs nm_afs _ _ 3 3 (nm_names 3) [103] 4 1 4096 7 0 nm_rep_cons
    ltac:(lia) nm_live3 eq_refl eq_refl ltac:(vm_compute; congruence) (name_ok_b 103 eq_refl) eq_refl).
Defined.

(** The directory "a" moves from the root into "b". *)
Lemma rename_refines_witness :
  exists s' a' l', rdfs_rename demo_sbi 0 nm_kok nm_ptr nm_fs 1 [97] 3 5 [103] None 7 0 = Ret (0, s') /\ nm_rep s' a' ∅ l' 3 /\
    a' ≡ a_rename 1 [97] 3 5 [103] true nm_afs.
Proof.
  pose proof (rename_refines 0 nm_kok nm_ptr (fun _ _ => eq_refl) nm_fs nm_afs _ _ 3 1 (nm_names 1) [97] 3 (nm_dir 3 2) 2 5 (nm_names 5) [103] 4096 3 7 0
    nm_rep_cons ltac:(lia) nm_live1 nm_live5 eq_refl ltac:(done) ltac:(done)) as H.
  apply H; clear H.
  - reflexivity.
  - reflexivity.
  - split; [by exists (nm_names 3); exact nm_live3|done].
  - reflexivity.
  - vm_compute. congruence.
  - apply name_ok_b. reflexivity.
  - reflexivity.
Defined.

(** The directory "a" cannot replace the root. *)
Lemma nm_not_bare : ~ bare 1 (nm_names 1).
Proof. intros Hb. by destruct (Hb [102] 4 eq_refl) as [|[? _]]. Qed.

Lemma rename_refused_witness :
  exists s', rdfs_rename demo_sbi 0 nm_kok nm_ptr nm_fs 5 dot 3 5 [103] (Some 1) 7 0 = Ret (- ENOTEMPTY, s') /\ nm_rep s' nm_afs ∅ nm_free 3.
Proof.
  exact (rename_refused 0 nm_kok nm_ptr (fun _ _ => eq_refl) nm_fs nm_afs nm_free 3 5 (nm_names 5) dot 3 (nm_names 3) 5 [103] 1 (nm_names 1) 5 7 0
    nm_rep_ok ltac:(lia) nm_live5 eq_refl nm_live3 nm_live1 nm_not_bare (bool_decide_unpack (NoDup [5; 3; 1]) I)).
Defined.

Lemma rmdir_refines_witness :
  exists err s' a', rdfs_rmdir demo_sbi nm_kok nm_ptr nm_fs 1 [97] 3 7 = Ret (err, s') /\ nm_rep s' a' ∅ nm_free 3 /\
    (bare 3 (nm_names 3) /\ err = 0 /\ a' ≡ a_rmdir 1 [97] 3 nm_afs /\ a_sizes a' !! 3 = Some 0 \/
     ~ bare 3 (nm_names 3) /\ err = - ENOTEMPTY /\ a' = nm_afs).
Proof.
  exact (rmdir_refines nm_kok nm_ptr (fun _ _ => eq_refl) nm_fs nm_afs nm_free 3 1 (nm_names 1) [97] 3 (nm_names 3) 3 7
    nm_rep_ok ltac:(lia) nm_live1 nm_live3 eq_refl ltac:(done) ltac:(done)).
Defined.

Lemma lookup_refines_witness :
  exists s', rdfs_lookup demo_sbi nm_kok nm_ptr (fun _ => 0) nm_fs false None 1 [97] = Ret (inr (Some 3), s', false) /\
    nm_rep s' nm_afs ∅ nm_free 3.
Proof.
  destruct (lookup_refines nm_kok nm_ptr (fun _ _ => eq_refl) nm_fs nm_afs nm_free 3 1 (nm_names 1) [97] false None (fun _ => 0)
    nm_rep_ok ltac:(lia) nm_live1 ltac:(cbn; lia) ltac:(intros ino E; vm_compute in E; injection E as <-; lia)) as (s' & HR & _ & Hc & _).
  exists s'. split; [|exact HR]. apply (Hc 3); [reflexivity|by eexists].
Defined.

(** A link to the file, in the mapped root. *)
Lemma add_link_inserts_witness :
  exists s va s' z' l', establish demo_sbi nm_kok nm_ptr nm_fs 1 = Ret (0, s) /\
    add_link demo_sbi 0 nm_kok s 1 [120; 121] 4 9 0 = Ret (0, s') /\
    nm_rep s' (mk_afs (<[1 := <[ ([120; 121] : list Z) := 4]> (nm_names 1)]> (a_names nm_afs)) (a_links nm_afs) (<[1 := z']> (a_sizes nm_afs))) (openK 1 va ∅) l' 3.
Proof.
  destruct (establish_ok nm_kok nm_ptr nm_fs nm_afs ∅ nm_free 3 1 (nm_names 1) nm_rep_ok eq_refl (fun _ _ => eq_refl)) as (s & va & E & HR & _).
  - intros _. rewrite map_size_empty. lia.
  - done.
  - exists s, va. destruct (add_link_inserts 0 nm_kok s nm_afs (openK 1 va ∅) 0x10017000 (drop 13 demo_pages) 3 1 (nm_names 1) [120; 121] 4 1 4096 9 0) as (s' & z' & l' & E2 & HR2 & _).
    + exact HR.
    + exact nm_live1.
    + destruct (openK_at 1 va ∅) as [c ->]. by eexists.
    + reflexivity.
    + unfold PAGE_SIZE. lia.
    + split; [unfold is_byte; repeat constructor; lia|cbn; lia].
    + vm_compute. reflexivity.
    + reflexivity.
    + exists s', z', l'. split; [exact E|]. split; [exact E2|exact HR2].
Defined.

(** A character device in the root.  The inode is created and given back; its
    three table pages are not. *)
Definition nm_acl : PosixAcl.
Proof. exact (Build_PosixAcl (fun _ m => (0, m)) (fun _ => 0) (fun _ => AclNull) (fun _ => 0)). Defined.

#[local] Existing Instance nm_acl.

Definition nm_env : new_env := mk_env (Some (nm_inode 0 0 1 0 0)) true 7 0 0 0 false None true.
Definition nm_nfs : nfs := mk_nfs nm_fs 0 0.
Definition CHR_MODE : Z := Z.lor S_IFCHR 0x1a4.

Lemma mknod_fails_witness :
  exists n', rdfs_mknod demo_sbi 0 nm_kok 12 nm_ptr nm_nfs 1 [120] CHR_MODE nm_env 0 = Ret (- ENOMEM, n') /\
    rdfs_count_free_blocks demo_sbi (f_mem (n_fs n')) = rdfs_count_free_blocks demo_sbi nm_mem - 3.
Proof.
  assert (H1 : match new_inode demo_sbi 0 nm_kok 12 nm_ptr nm_nfs nm_env 1 CHR_MODE with
               | Ret (inr _, n1) => f_inodes (n_fs n1) !! 1 = Some (nm_dir 1 4) | _ => False end) by (vm_compute; reflexivity).
  assert (H2 : match rdfs_mknod demo_sbi 0 nm_kok 12 nm_ptr nm_nfs 1 [120] CHR_MODE nm_env 0 with
               | Ret (_, n') => rdfs_count_free_blocks demo_sbi (f_mem (n_fs n')) = rdfs_count_free_blocks demo_sbi nm_mem - 3
               | Oops => False end) by (vm_compute; reflexivity).
  destruct (new_inode demo_sbi 0 nm_kok 12 nm_ptr nm_nfs nm_env 1 CHR_MODE) as [[[err|ino] n1]|] eqn:E1; [destruct H1| |destruct H1].
  destruct (rdfs_mknod demo_sbi 0 nm_kok 12 nm_ptr nm_nfs 1 [120] CHR_MODE nm_env 0) as [[e n']|] eqn:E2; [|destruct H2].
  exists n'. split; [|exact H2].
  rewrite (mknod_fails demo_sbi 0 nm_kok 12 nm_ptr nm_nfs nm_env 1 CHR_MODE [120] 0 ino n1 (nm_dir 1 4) e n' E1 H1 eq_refl E2). reflexivity.
Defined.

(** Names made by the code itself: a new directory and a symbolic link are found
    again, and the link's target is read back. *)
Example mkdir_lookup :
  match rdfs_mkdir demo_sbi 0 nm_kok 12 nm_ptr nm_nfs 1 [120] 0x1ed nm_env 0 with
  | Ret (err, n) => err = 0 /\
      match rdfs_lookup demo_sbi nm_kok nm_ptr (fun _ => 0) (n_fs n) false None 1 [120] with
      | Ret (r, _, _) => r = inr (Some 2) | Oops => False
      end
  | Oops => False
  end.
Proof. vm_compute. done. Qed.

Example symlink_readlink :
  match rdfs_symlink demo_sbi 0 nm_kok 12 nm_ptr nm_nfs 1 [120] [47; 97] nm_env 0 with
  | Ret (err, n) => err = 0 /\
      match rdfs_readlink demo_sbi nm_kok nm_ptr (n_fs n) 2 100 with
      | Ret (len, out, _) => len = 2 /\ out = [47; 97] | Oops => False
      end
  | Oops => False
  end.
Proof. vm_compute. done. Qed.

(** Creating a name that exists reports success. *)
Example create_existing :
  match rdfs_create demo_sbi 0 nm_kok 12 nm_ptr nm_nfs 1 [102] REG_MODE nm_env 0 with
  | Ret (err, n) => err = 0 /\ f_inodes (n_fs n) !! 2 = None
  | Oops => False
  end.
Proof. vm_compute. done. Qed.
