(* ===== verification/Options.v ===== *)
(** * Mount options (tool.c, super.c)

    The options of a mount are one string: the physical address first, then the
    size and the block devices, each cut off its front, and the rest parsed by
    the kernel's token matcher.  The file models these parsers and the printing of
    the options of a mounted filesystem.  The kernel's own parsers are parameters. *)

From Stdlib Require Import Ascii String.
From S2P Require Import Prelude Mem Text Layout Vfs Bdev.

Definition chars (s : String.string) : list Z := (fun a => Z.of_N (Ascii.N_of_ascii a)) <$> String.list_ascii_of_string s.
Definition comma : Z := 44.
Definition ULLONG_MAX : Z := 2 ^ 64 - 1.

(** ** The options (tool.c) *)

Definition Opt_addr : Z := 0.
Definition Opt_bpi : Z := 1.
Definition Opt_size : Z := 2.
Definition Opt_num_inodes : Z := 3.
Definition Opt_mode : Z := 4.
Definition Opt_uid : Z := 5.
Definition Opt_gid : Z := 6.
Definition Opt_blocksize : Z := 7.
Definition Opt_user_xattr : Z := 8.
Definition Opt_nouser_xattr : Z := 9.
Definition Opt_noprotect : Z := 10.
Definition Opt_acl : Z := 11.
Definition Opt_noacl : Z := 12.
Definition Opt_xip : Z := 13.
Definition Opt_err_cont : Z := 14.
Definition Opt_err_panic : Z := 15.
Definition Opt_err_ro : Z := 16.
Definition Opt_err : Z := 17.
Definition Opt_bdev : Z := 18.

(** [None] is the NULL pattern that ends a table. *)
Definition tokens : list (Z * option (list Z)) :=
  [(Opt_addr, Some (chars "physaddr=%x"%string)); (Opt_bpi, Some (chars "bpi=%u"%string)); (Opt_size, Some (chars "init=%s"%string));
   (Opt_num_inodes, Some (chars "N=%u"%string)); (Opt_mode, Some (chars "mode=%o"%string)); (Opt_uid, Some (chars "uid=%u"%string));
   (Opt_gid, Some (chars "gid=%u"%string)); (Opt_blocksize, Some (chars "bs=%s"%string)); (Opt_user_xattr, Some (chars "user_xattr"%string));
   (Opt_user_xattr, Some (chars "nouser_xattr"%string)); (Opt_noprotect, Some (chars "noprotect"%string)); (Opt_acl, Some (chars "acl"%string));
   (Opt_acl, Some (chars "noacl"%string)); (Opt_xip, Some (chars "xip"%string)); (Opt_err_cont, Some (chars "errors=continue"%string));
   (Opt_err_panic, Some (chars "errors=panic"%string)); (Opt_err_ro, Some (chars "errors=remount-ro"%string)); (Opt_err, None);
   (Opt_bdev, Some (chars "bdev=%s"%string))].

(** The kernel's parsers: [match_token] gives the token of the first pattern that
    matches and the text its argument starts with. *)
Class KernelParse := {
  kstrtoull : list Z -> option Z;
  memparse : list Z -> Z;
  match_int : list Z -> option Z;
  match_octal : list Z -> option Z;
  match_token : list (Z * option (list Z)) -> list Z -> Z * list Z;
  make_kuid : Z -> Z;
  uid_valid : Z -> bool;
  make_kgid : Z -> Z;
  gid_valid : Z -> bool;
  kstrtoull_range s v : kstrtoull s = Some v -> 0 <= v < 2 ^ 64;
  memparse_range s : 0 <= memparse s < 2 ^ 64
}.

(** ** The super-block info's fields *)

Section fields.
Context (sbi : rdfs_sb_info).
Definition set_virt_addr (x : Z) : rdfs_sb_info :=
  mk_sbi x (phy_addr sbi) (num_inodes sbi) (sb_blocksize sbi) (s_inode_size sbi) (bpi sbi) (initsize sbi) (s_mount_opt sbi)
    (sb_uid sbi) (sb_gid sbi) (sb_mode sbi) (next_generation sbi) (bdev_count sbi) (atomic_bdev_post sbi).
Definition set_phy_addr (x : Z) : rdfs_sb_info :=
  mk_sbi (virt_addr sbi) x (num_inodes sbi) (sb_blocksize sbi) (s_inode_size sbi) (bpi sbi) (initsize sbi) (s_mount_opt sbi)
    (sb_uid sbi) (sb_gid sbi) (sb_mode sbi) (next_generation sbi) (bdev_count sbi) (atomic_bdev_post sbi).
Definition set_num_inodes (x : Z) : rdfs_sb_info :=
  mk_sbi (virt_addr sbi) (phy_addr sbi) x (sb_blocksize sbi) (s_inode_size sbi) (bpi sbi) (initsize sbi) (s_mount_opt sbi)
    (sb_uid sbi) (sb_gid sbi) (sb_mode sbi) (next_generation sbi) (bdev_count sbi) (atomic_bdev_post sbi).
Definition set_blocksize (x : Z) : rdfs_sb_info :=
  mk_sbi (virt_addr sbi) (phy_addr sbi) (num_inodes sbi) x (s_inode_size sbi) (bpi sbi) (initsize sbi) (s_mount_opt sbi)
    (sb_uid sbi) (sb_gid sbi) (sb_mode sbi) (next_generation sbi) (bdev_count sbi) (atomic_bdev_post sbi).
Definition set_initsize (x : Z) : rdfs_sb_info :=
  mk_sbi (virt_addr sbi) (phy_addr sbi) (num_inodes sbi) (sb_blocksize sbi) (s_inode_size sbi) (bpi sbi) x (s_mount_opt sbi)
    (sb_uid sbi) (sb_gid sbi) (sb_mode sbi) (next_generation sbi) (bdev_count sbi) (atomic_bdev_post sbi).
Definition set_mount_opt (x : Z) : rdfs_sb_info :=
  mk_sbi (virt_addr sbi) (phy_addr sbi) (num_inodes sbi) (sb_blocksize sbi) (s_inode_size sbi) (bpi sbi) (initsize sbi) x
    (sb_uid sbi) (sb_gid sbi) (sb_mode sbi) (next_generation sbi) (bdev_count sbi) (atomic_bdev_post sbi).
(** The owner and mode of the root directory. *)
Definition set_owner (uid gid mode : Z) : rdfs_sb_info :=
  mk_sbi (virt_addr sbi) (phy_addr sbi) (num_inodes sbi) (sb_blocksize sbi) (s_inode_size sbi) (bpi sbi) (initsize sbi) (s_mount_opt sbi)
    uid gid mode (next_generation sbi) (bdev_count sbi) (atomic_bdev_post sbi).
Definition set_counters (gen post : Z) : rdfs_sb_info :=
  mk_sbi (virt_addr sbi) (phy_addr sbi) (num_inodes sbi) (sb_blocksize sbi) (s_inode_size sbi) (bpi sbi) (initsize sbi) (s_mount_opt sbi)
    (sb_uid sbi) (sb_gid sbi) (sb_mode sbi) gen (bdev_count sbi) post.
End fields.

(** ** Parsing *)

Definition starts (pre s : list Z) : bool := bool_decide (take (length pre) s = pre).

(** Up to the first comma, and from it on. *)
Fixpoint cut_comma (s : list Z) : list Z * list Z :=
  match s with
  | [] => ([], [])
  | c :: s' => if c =? comma then ([], s) else let '(a, r) := cut_comma s' in (c :: a, r)
  end.
Definition skip_comma (s : list Z) : list Z := match s with c :: s' => if c =? comma then s' else s | [] => [] end.

Definition isdigit (ch : Z) : bool := (48 <=? ch) && (ch <=? 57).
Definition is_power_of_2 (n : Z) : bool := negb (n =? 0) && (Z.land n (n - 1) =? 0).
Definition NVMM_MIN_BLOCK_SIZE : Z := PAGE_SIZE.
Definition NVMM_MAX_BLOCK_SIZE : Z := 2 * PAGE_SIZE.

(** strsep: the pieces between commas. *)
Fixpoint pieces (fuel : nat) (s : list Z) : list (list Z) :=
  match fuel with
  | O => []
  | S fuel' => let '(p, r) := cut_comma s in
               match r with [] => [p] | _ :: r' => p :: pieces fuel' r' end
  end.

Section parse.
Context `{!KernelParse}.

(** The address, or ULLONG_MAX with the options as they were. *)
Definition get_phys_addr (data : option (list Z)) : Z * option (list Z) :=
  match data with
  | None => (ULLONG_MAX, data)
  | Some options =>
      if negb (starts (chars "physaddr="%string) options) then (ULLONG_MAX, data)
      else
        let '(arg, rest) := cut_comma (drop 9 options) in
        match kstrtoull arg with
        | None => (ULLONG_MAX, data)
        | Some phys =>
            if negb (Z.land phys (PAGE_SIZE - 1) =? 0) then (ULLONG_MAX, data)
            else (phys, Some (skip_comma rest))
        end
  end.

Definition rdfs_get_init_size (sbi : rdfs_sb_info) (data : option (list Z)) : rdfs_sb_info * option (list Z) :=
  match data with
  | None => (sbi, data)
  | Some options =>
      if negb (starts (chars "init="%string) options) then (sbi, data)
      else let '(arg, rest) := cut_comma (drop 5 options) in
           (set_initsize sbi (memparse arg), Some (skip_comma rest))
  end.

(** One option: the error or the changed info. *)
Definition parse_option (sbi : rdfs_sb_info) (remount : bool) (p : list Z) : Z * rdfs_sb_info :=
  let '(token, arg) := match_token tokens p in
  let bad := (- EINVAL, sbi) in
  if token =? Opt_addr then if remount then bad else (0, sbi)
  else if token =? Opt_bpi then if remount then bad else match match_int arg with None => bad | Some _ => (0, sbi) end
  else if token =? Opt_uid then
    if remount then bad
    else match match_int arg with
         | None => bad
         | Some v => let sbi := set_owner sbi (make_kuid v) (sb_gid sbi) (sb_mode sbi) in
                     (if uid_valid (sb_uid sbi) then 0 else - EINVAL, sbi)
         end
  else if token =? Opt_gid then
    match match_int arg with
    | None => bad
    | Some v => let sbi := set_owner sbi (sb_uid sbi) (make_kgid v) (sb_mode sbi) in
                (if gid_valid (sb_gid sbi) then 0 else - EINVAL, sbi)
    end
  else if token =? Opt_mode then
    match match_octal arg with
    | None => bad
    | Some v => (0, set_owner sbi (sb_uid sbi) (sb_gid sbi) (Z.land v 0x3ff))
    end
  else if token =? Opt_size then
    if remount then bad
    else if negb (isdigit (hd 0 arg)) then bad else (0, set_initsize sbi (memparse arg))
  else if token =? Opt_num_inodes then
    if remount then bad else match match_int arg with None => bad | Some v => (0, set_num_inodes sbi (u64 v)) end
  else if token =? Opt_blocksize then
    if remount then bad
    else if negb (isdigit (hd 0 arg)) then bad
    else
      let sbi := set_blocksize sbi (memparse arg) in
      if (sb_blocksize sbi <? NVMM_MIN_BLOCK_SIZE) || (NVMM_MAX_BLOCK_SIZE <? sb_blocksize sbi) || negb (is_power_of_2 (sb_blocksize sbi))
      then (- EINVAL, sbi) else (0, sbi)
  else bad.

Fixpoint parse_loop (sbi : rdfs_sb_info) (remount : bool) (ps : list (list Z)) : Z * rdfs_sb_info :=
  match ps with
  | [] => (0, sbi)
  | [] :: ps' => parse_loop sbi remount ps'
  | p :: ps' => let '(err, sbi) := parse_option sbi remount p in
                if negb (err =? 0) then (err, sbi) else parse_loop sbi remount ps'
  end.

Definition rdfs_parse_options (options : option (list Z)) (sbi : rdfs_sb_info) (remount : bool) : Z * rdfs_sb_info :=
  match options with
  | None => (0, sbi)
  | Some s => parse_loop sbi remount (pieces (S (length s)) s)
  end.
End parse.

(** The devices named behind "bdev=", as long as the text starts with "/dev";
    [blkdev] is blkdev_get_by_path.  The descriptors are numbered from 0. *)
Fixpoint bdev_loop (fuel : nat) (blkdev : list Z -> option Z) (sbi : rdfs_sb_info) (disks : gmap Z bdev_des) (options : list Z)
  (bdev_address : Z) : rdfs_sb_info * gmap Z bdev_des * list Z * Z :=
  match fuel with
  | O => (sbi, disks, options, bdev_address)
  | S fuel' =>
      if starts (chars "/dev"%string) options then
        let '(path, rest) := cut_comma options in
        let '(_, sbi', des, bdev_address) := rdfs_init_bdev sbi (blkdev path) bdev_address in
        let disks := match des with Some b => <[bdev_count sbi := b]> disks | None => disks end in
        bdev_loop fuel' blkdev sbi' disks (skip_comma rest) bdev_address
      else (sbi, disks, options, bdev_address)
  end.

Definition rdfs_get_bdev (blkdev : list Z -> option Z) (sbi : rdfs_sb_info) (disks : gmap Z bdev_des) (data : option (list Z))
  : rdfs_sb_info * gmap Z bdev_des * option (list Z) * Z :=
  let bdev_address := u64 (virt_addr sbi + RDFS_SB_SPACE + ADDRESS_TO_INO_SPACE) in
  let sbi := set_bdev_count 0 sbi in
  match data with
  | None => (sbi, disks, data, bdev_address)
  | Some options =>
      if negb (starts (chars "bdev="%string) options) then (sbi, disks, data, bdev_address)
      else
        let '(sbi, disks, rest, bdev_address) := bdev_loop (length options) blkdev sbi disks (drop 5 options) bdev_address in
        (sbi, disks, Some rest, bdev_address)
  end.

(** ** Printing the options (super.c) *)

Definition RDFS_MOUNT_ERRORS_CONT : Z := 0x10.
Definition RDFS_MOUNT_ERRORS_RO : Z := 0x20.
Definition RDFS_MOUNT_ERRORS_PANIC : Z := 0x40.
Definition DEFAULT_MODE : Z := 0x3ff.

Definition set_default_opts (sbi : rdfs_sb_info) : rdfs_sb_info := set_mount_opt sbi (Z.lor (s_mount_opt sbi) RDFS_MOUNT_ERRORS_CONT).
Definition test_opt (sbi : rdfs_sb_info) (opt : Z) : bool := negb (Z.land (s_mount_opt sbi) opt =? 0).

(** %03o *)
Definition print_o3 (n : Z) : list Z := let d := digits 8 22 n in replicate (3 - length d) 48 ++ d.

(** [munge]: from_kuid_munged and from_kgid_munged. *)
Definition rdfs_show_options (munge : Z -> Z) (sbi : rdfs_sb_info) : list Z :=
  let opt (b : bool) (s : list Z) := if b then s else [] in
  chars ".physaddr=0x"%string ++ print_x16 (phy_addr sbi) ++
  opt (negb (initsize sbi =? 0)) (chars ",init="%string ++ print_u (Z.shiftr (initsize sbi) 10) ++ chars "k"%string) ++
  opt (negb (sb_blocksize sbi =? 0)) (chars ",bs="%string ++ print_u (sb_blocksize sbi)) ++
  opt (negb (bpi sbi =? 0)) (chars ",bpi="%string ++ print_u (bpi sbi)) ++
  opt (negb (num_inodes sbi =? 0)) (chars ",N="%string ++ print_u (num_inodes sbi)) ++
  opt (negb (sb_mode sbi =? DEFAULT_MODE)) (chars ",mode="%string ++ print_o3 (sb_mode sbi)) ++
  opt (negb (sb_uid sbi =? 0)) (chars ",uid="%string ++ print_u (munge (sb_uid sbi))) ++
  opt (negb (sb_gid sbi =? 0)) (chars ",gid="%string ++ print_u (munge (sb_gid sbi))) ++
  opt (test_opt sbi RDFS_MOUNT_ERRORS_RO) (chars ",errors=remount-ro"%string) ++
  opt (test_opt sbi RDFS_MOUNT_ERRORS_PANIC) (chars ",errors=panic"%string).

(** ** Properties *)

(** The fields the parser may set are within what the mount relies on. *)
Record opts_ok `{!KernelParse} (sbi : rdfs_sb_info) : Prop := {
  ok_blocksize : sb_blocksize sbi = 0 \/ sb_blocksize sbi = PAGE_SIZE \/ sb_blocksize sbi = 2 * PAGE_SIZE;
  ok_mode : 0 <= sb_mode sbi <= DEFAULT_MODE;
  ok_uid : uid_valid (sb_uid sbi) = true;
  ok_gid : gid_valid (sb_gid sbi) = true;
  ok_inodes : 0 <= num_inodes sbi < 2 ^ 64;
  ok_init : 0 <= initsize sbi < 2 ^ 64
}.

(** What no option changes, and what a remount does not change. *)
Definition same_place (a b : rdfs_sb_info) : Prop :=
  virt_addr b = virt_addr a /\ phy_addr b = phy_addr a /\ s_inode_size b = s_inode_size a /\ bpi b = bpi a /\
  s_mount_opt b = s_mount_opt a /\ next_generation b = next_generation a /\ bdev_count b = bdev_count a /\
  atomic_bdev_post b = atomic_bdev_post a.
Definition same_format (a b : rdfs_sb_info) : Prop :=
  initsize b = initsize a /\ sb_blocksize b = sb_blocksize a /\ num_inodes b = num_inodes a /\ sb_uid b = sb_uid a.

(** The powers of two the test on the block size leaves. *)
Lemma blocksize_pow2 n : NVMM_MIN_BLOCK_SIZE <= n <= NVMM_MAX_BLOCK_SIZE -> is_power_of_2 n = true -> n = PAGE_SIZE \/ n = 2 * PAGE_SIZE.
Proof.
  unfold NVMM_MIN_BLOCK_SIZE, NVMM_MAX_BLOCK_SIZE, PAGE_SIZE, is_power_of_2. intros Hn [_ Hp%Z.eqb_eq]%andb_true_iff.
  destruct (decide (n = 4096)); [by left|]. destruct (decide (n = 2 * 4096)); [by right|]. exfalso.
  assert (Hb : forall k, 4096 <= k < 8192 -> Z.testbit k 12 = true).
  { intros k Hk. rewrite Z.testbit_odd, Z.shiftr_div_pow2 by lia. change (2 ^ 12) with 4096.
    replace (k / 4096) with 1 by zdm. done. }
  apply (f_equal (fun x => Z.testbit x 12)) in Hp. cbv beta in Hp. rewrite Z.land_spec, !Hb, Z.bits_0 in Hp by lia. done.
Qed.

Section props.
Context `{!KernelParse}.

Lemma mode_range v : 0 <= Z.land v 0x3ff <= DEFAULT_MODE.
Proof. change 0x3ff with (Z.ones 10). rewrite Z.land_ones by lia. unfold DEFAULT_MODE. change 0x3ff with (2 ^ 10 - 1). pose proof (Z.mod_pos_bound v (2 ^ 10)). lia. Qed.

Lemma parse_option_typed sbi remount p sbi' : opts_ok sbi -> parse_option sbi remount p = (0, sbi') ->
  opts_ok sbi' /\ same_place sbi sbi' /\ (remount = true -> same_format sbi sbi').
Proof.
  intros Hok. unfold parse_option. destruct (match_token tokens p) as [token arg]. unfold EINVAL.
  pose proof (memparse_range arg) as Hmr. pose proof Hok as [H1 H2 H3 H4 H5 H6].
  assert (Hid : (0, sbi) = (0, sbi') -> opts_ok sbi' /\ same_place sbi sbi' /\ (remount = true -> same_format sbi sbi')) by (by intros [= <-]).
  assert (Hput : forall s, opts_ok s -> same_place sbi s /\ (remount = true -> same_format sbi s) -> (0, s) = (0, sbi') ->
    opts_ok sbi' /\ same_place sbi sbi' /\ (remount = true -> same_format sbi sbi')) by (by intros s Hs Hf [= <-]).
  repeat (destruct (token =? _); [destruct remount; try done|]); try done.
  all: try (destruct (match_int arg) as [v|]; [|done]); try done.
  - destruct (uid_valid (sb_uid (set_owner _ _ _ _))) eqn:Eu; cbv iota; [|done]. apply Hput; [by split|by repeat split].
  - destruct (gid_valid (sb_gid (set_owner _ _ _ _))) eqn:Eg; cbv iota; [|done]. apply Hput; [by split|by repeat split].
  - destruct (gid_valid (sb_gid (set_owner _ _ _ _))) eqn:Eg; cbv iota; [|done]. apply Hput; [by split|by repeat split].
  - destruct (match_octal arg) as [v|]; [|done]. pose proof (mode_range v). apply Hput; [by split|by repeat split].
  - destruct (match_octal arg) as [v|]; [|done]. pose proof (mode_range v). apply Hput; [by split|by repeat split].
  - destruct (isdigit _); [|done]. apply Hput; [by split|by repeat split].
  - pose proof (u64_range v). apply Hput; [by split|by repeat split].
  - destruct (isdigit _); [|done]. cbn [sb_blocksize set_blocksize].
    destruct (Z.ltb_spec (memparse arg) NVMM_MIN_BLOCK_SIZE); [done|]. destruct (Z.ltb_spec NVMM_MAX_BLOCK_SIZE (memparse arg)); [done|].
    destruct (is_power_of_2 (memparse arg)) eqn:Ep; [|done]. intros [= <-].
    destruct (blocksize_pow2 (memparse arg)) as [E|E]; [lia|done|..]; (split; [split; cbn; tauto|by split]).
Qed.
Lemma parse_loop_typed ps : forall sbi remount sbi', opts_ok sbi -> parse_loop sbi remount ps = (0, sbi') ->
  opts_ok sbi' /\ same_place sbi sbi' /\ (remount = true -> same_format sbi sbi').
Proof.
  induction ps as [|p ps IH]; intros sbi remount sbi' Hok; cbn; [by intros [= <-]|].
  destruct p as [|c p]; [by apply IH|]. destruct (parse_option sbi remount (c :: p)) as [err sbi1] eqn:E.
  destruct (Z.eqb_spec err 0) as [->|]; cbn [negb]; [|by intros [= ->]].
  destruct (parse_option_typed _ _ _ _ Hok E) as (Hok1 & Hp1 & Hf1). intros E2.
  destruct (IH sbi1 remount sbi' Hok1 E2) as (Hok2 & Hp2 & Hf2). split; [done|]. split.
  - unfold same_place in *. destruct_and!. repeat split; congruence.
  - intros Hr. specialize (Hf1 Hr). specialize (Hf2 Hr). unfold same_format in *. destruct_and!. repeat split; congruence.
Qed.

(** C17: The mount options are typed. When [rdfs_parse_options] succeeds on
    well-formed super-block information it is well formed afterwards, whatever the
    options and the kernel's parsers: the block size is unset, one page or two,
    the mode has no other than permission bits, owner and group are valid, and
    addresses, counters and devices are untouched (so is "bpi", which is parsed
    and dropped); a remount moreover changes neither the size, the block size, the
    number of inodes nor the owner. *)
Theorem parse_options_typed options sbi remount sbi' : opts_ok sbi -> rdfs_parse_options options sbi remount = (0, sbi') ->
  opts_ok sbi' /\ same_place sbi sbi' /\ (remount = true -> same_format sbi sbi').
Proof.
  intros Hok. unfold rdfs_parse_options. destruct options as [s|]; [by apply parse_loop_typed|by intros [= <-]].
Qed.

(** Options the table knows and the switch does not are refused like unknown
    ones. *)
Theorem unhandled_options_refused sbi remount p t arg : match_token tokens p = (t, arg) ->
  t ∈ [Opt_user_xattr; Opt_noprotect; Opt_acl; Opt_xip; Opt_err_cont; Opt_err_panic; Opt_err_ro; Opt_err] ->
  parse_option sbi remount p = (- EINVAL, sbi).
Proof.
  intros E Ht. unfold parse_option. rewrite E. by repeat (apply elem_of_cons in Ht as [->|Ht]; [done|]); apply not_elem_of_nil in Ht.
Qed.

(** ** The text at the front *)

Lemma cut_comma_eq s a r : cut_comma s = (a, r) -> s = a ++ r /\ (comma ∉ a) /\ (r = [] \/ exists r', r = comma :: r').
Proof.
  revert a r. induction s as [|c s IH]; cbn; intros a r.
  - intros [= <- <-]. split; [done|]. split; [by apply not_elem_of_nil|by left].
  - destruct (Z.eqb_spec c comma) as [->|Hc].
    + intros [= <- <-]. split; [done|]. split; [by apply not_elem_of_nil|right; by exists s].
    + destruct (cut_comma s) as [a' r'] eqn:E. intros [= <- <-]. destruct (IH _ _ eq_refl) as (-> & Hn & Hr). split; [done|].
      split; [|done]. rewrite elem_of_cons. intros [?|?]; [by apply Hc|done].
Qed.

Lemma starts_eq pre s : starts pre s = true -> s = pre ++ drop (length pre) s.
Proof. intros E%bool_decide_eq_true. rewrite <- E at 1. by rewrite take_drop. Qed.

Lemma cut_comma_app arg rest : comma ∉ arg -> (rest = [] \/ exists r, rest = comma :: r) -> cut_comma (arg ++ rest) = (arg, rest).
Proof.
  intros Hn Hr. induction arg as [|c arg IH]; cbn.
  - by destruct Hr as [->|(r & ->)].
  - apply not_elem_of_cons in Hn as [Hc Hn]. by rewrite (proj2 (Z.eqb_neq _ _)), IH by done.
Qed.

Lemma starts_app pre s : starts pre (pre ++ s) = true.
Proof. apply bool_decide_eq_true. by rewrite take_app_length. Qed.

(** C18: The physical address of a mount. When the options start with "physaddr=",
    the text up to the next comma decides: [get_phys_addr] returns its value and
    cuts it off when it is a number aligned to a page, which is then below
    ULLONG_MAX, and returns ULLONG_MAX with the options as they were when it is
    not; so it does with no options and with options that start otherwise. *)
Theorem get_phys_addr_spec data :
  (forall arg rest, data = Some (chars "physaddr="%string ++ arg ++ rest) -> comma ∉ arg -> (rest = [] \/ exists r, rest = comma :: r) ->
     match kstrtoull arg with
     | Some v => if v mod PAGE_SIZE =? 0 then get_phys_addr data = (v, Some (skip_comma rest)) /\ 0 <= v < ULLONG_MAX
                 else get_phys_addr data = (ULLONG_MAX, data)
     | None => get_phys_addr data = (ULLONG_MAX, data)
     end) /\
  ((forall s, data <> Some (chars "physaddr="%string ++ s)) -> get_phys_addr data = (ULLONG_MAX, data)).
Proof.
  unfold get_phys_addr. split.
  - intros arg rest -> Hn Hr. rewrite starts_app. cbn [negb].
    change (drop 9 (chars "physaddr="%string ++ arg ++ rest)) with (arg ++ rest). rewrite (cut_comma_app arg rest Hn Hr).
    destruct (kstrtoull arg) as [v|] eqn:Ek; [|done]. pose proof (kstrtoull_range _ _ Ek) as Hv.
    assert (El : Z.land v (PAGE_SIZE - 1) = v mod PAGE_SIZE) by (unfold PAGE_SIZE; change (4096 - 1) with (Z.ones 12); by rewrite Z.land_ones by lia).
    rewrite El. destruct (Z.eqb_spec (v mod PAGE_SIZE) 0) as [Hz|]; cbn [negb]; [|done]. split; [done|].
    unfold ULLONG_MAX. destruct (decide (v = 2 ^ 64 - 1)) as [->|]; [by vm_compute in Hz|lia].
  - intros Hd. destruct data as [s|]; [|done]. destruct (starts _ s) eqn:Es; cbn [negb]; [|done].
    apply starts_eq in Es. destruct (Hd (drop 9 s)). by f_equal.
Qed.

(** The printed options cannot be mounted. [rdfs_show_options] starts with a
    full stop, so that [get_phys_addr] finds no address in its output. *)
Theorem shown_options_refused munge sbi :
  get_phys_addr (Some (rdfs_show_options munge sbi)) = (ULLONG_MAX, Some (rdfs_show_options munge sbi)).
Proof. done. Qed.
End props.

(** ** Devices *)

Lemma bdev_loop_done fuel : forall blkdev sbi disks options addr, (length options <= fuel)%nat ->
  forall sbi' disks' rest addr', bdev_loop fuel blkdev sbi disks options addr = (sbi', disks', rest, addr') ->
  starts (chars "/dev"%string) rest = false /\ exists used, options = used ++ rest.
Proof.
  induction fuel as [|fuel IH]; intros blkdev sbi disks options addr Hl sbi' disks' rest addr'; cbn [bdev_loop].
  { intros [= <- <- <- <-]. destruct options; [|cbn in Hl; lia]. split; [done|]. by exists []. }
  destruct (starts (chars "/dev"%string) options) eqn:Es.
  2:{ intros [= <- <- <- <-]. split; [done|]. by exists []. }
  destruct (cut_comma options) as [path r] eqn:Ec. destruct (rdfs_init_bdev sbi (blkdev path) addr) as [[[e sbi1] des] addr1].
  destruct (cut_comma_eq _ _ _ Ec) as (E & Hn & Hr). intros E2.
  assert (Hp : (1 <= length path)%nat).
  { apply starts_eq in Es. destruct path; [|cbn; lia]. exfalso. cbn in E. rewrite Es in E. cbn in E. destruct Hr as [->|(r' & ->)]; [done|]. by injection E. }
  assert (Hsk : exists c, r = c ++ skip_comma r) by (destruct Hr as [->|(r' & ->)]; [by exists []|by exists [comma]]).
  destruct Hsk as [c Hc]. pose proof (f_equal length E) as El. pose proof (f_equal length Hc) as Elc. rewrite length_app in El, Elc.
  destruct (IH _ _ _ (skip_comma r) _ ltac:(lia) _ _ _ _ E2) as (Hs & used & Eu). split; [done|].
  exists (path ++ c ++ used). rewrite E, Hc at 1. rewrite Eu at 1. by rewrite !app_assoc.
Qed.

(** C19: Reading the list of devices ends. [rdfs_get_bdev]'s loop, which runs while
    the text starts with "/dev", consumes every device and stops at a suffix of
    the options that does not start with "/dev", whichever devices the kernel
    finds; options without a list are left alone. *)
Theorem get_bdev_ends blkdev sbi disks options sbi' disks' rest addr :
  rdfs_get_bdev blkdev sbi disks (Some options) = (sbi', disks', rest, addr) ->
  exists used tail, options = used ++ tail /\ rest = Some tail /\
    if starts (chars "bdev="%string) options then starts (chars "/dev"%string) tail = false else used = [].
Proof.
  unfold rdfs_get_bdev. destruct (starts (chars "bdev="%string) options) eqn:Es; cbn [negb].
  2:{ intros [= _ _ <- _]. by exists [], options. }
  destruct (bdev_loop _ _ _ _ _ _) as [[[s d] r] a] eqn:E. intros [= _ _ <- _].
  destruct (bdev_loop_done (length options) _ _ _ (drop 5 options) _ ltac:(rewrite length_drop; lia) _ _ _ _ E) as (Hs & used & Eu).
  exists (take 5 options ++ used), r. split; [|done]. by rewrite <- app_assoc, <- Eu, take_drop.
Qed.

(** ** Witnesses *)

(** A kernel for the witnesses: decimal numbers, and the text before a pattern's
    percent sign decides the match. *)
Fixpoint demo_number (n : Z) (s : list Z) : Z :=
  match s with c :: s' => if isdigit c then demo_number (u64 (10 * n + (c - 48))) s' else u64 n | [] => u64 n end.
Fixpoint demo_literal (s : list Z) : list Z := match s with c :: s' => if c =? 37 then [] else c :: demo_literal s' | [] => [] end.
Fixpoint demo_match (table : list (Z * option (list Z))) (p : list Z) : Z * list Z :=
  match table with
  | (t, Some pattern) :: table' =>
      if starts (demo_literal pattern) p then (t, drop (length (demo_literal pattern)) p) else demo_match table' p
  | (t, None) :: _ => (t, p)
  | [] => (Opt_err, p)
  end.
Lemma demo_number_range s : forall n, 0 <= demo_number n s < 2 ^ 64.
Proof. induction s as [|c s IH]; intros n; cbn [demo_number]; [apply u64_range|]. destruct (isdigit c); [apply IH|apply u64_range]. Qed.
#[local] Program Instance demo_kernel : KernelParse := {
  kstrtoull s := if isdigit (hd 0 s) then Some (demo_number 0 s) else None;
  memparse s := demo_number 0 s;
  match_int s := Some (demo_number 0 s);
  match_octal s := Some (demo_number 0 s);
  match_token := demo_match;
  make_kuid v := v;
  uid_valid v := negb (v =? -1);
  make_kgid v := v;
  gid_valid v := negb (v =? -1)
}.
Next Obligation. intros s v. cbn. destruct (isdigit _); [|done]. intros [= <-]. apply demo_number_range. Qed.
Next Obligation. intros s. apply demo_number_range. Qed.

Definition opt_sbi : rdfs_sb_info := mk_sbi 0xffffc90000000000 0x10000000 0 0 0 0 0x1000000 0x10 0 0 0x3ff 7 0 0.
Lemma opt_sbi_ok : opts_ok opt_sbi.
Proof. split; by vm_compute; auto. Qed.

Lemma parse_options_typed_witness :
  let sbi' := set_owner (set_blocksize opt_sbi 8192) 0 12 0x3ff in
  rdfs_parse_options (Some (chars "bs=8192,,gid=12,bpi=3"%string)) opt_sbi false = (0, sbi') /\
  opts_ok sbi' /\ same_place opt_sbi sbi' /\ (false = true -> same_format opt_sbi sbi').
Proof.
  split; [by vm_compute|]. refine (parse_options_typed (Some (chars "bs=8192,,gid=12,bpi=3"%string)) opt_sbi false _ _ _).
  - apply opt_sbi_ok.
  - by vm_compute.
Defined.

Lemma get_phys_addr_spec_witness :
  get_phys_addr (Some (chars "physaddr=8192,bs=4096"%string)) = (8192, Some (chars "bs=4096"%string)) /\
  get_phys_addr (Some (chars "physaddr=100"%string)) = (ULLONG_MAX, Some (chars "physaddr=100"%string)) /\
  get_phys_addr None = (ULLONG_MAX, None).
Proof.
  split; [|split].
  - assert (H : get_phys_addr (Some (chars "physaddr=8192,bs=4096"%string)) = (8192, Some (chars "bs=4096"%string)) /\ 0 <= 8192 < ULLONG_MAX).
    { refine (proj1 (get_phys_addr_spec (Some (chars "physaddr=8192,bs=4096"%string))) (chars "8192"%string) (chars ",bs=4096"%string) eq_refl _ _).
      - apply (bool_decide_unpack _). vm_compute. exact I.
      - right. by eexists. }
    exact (proj1 H).
  - refine (proj1 (get_phys_addr_spec (Some (chars "physaddr=100"%string))) (chars "100"%string) [] eq_refl _ _).
    + apply (bool_decide_unpack _). vm_compute. exact I.
    + by left.
  - apply (proj2 (get_phys_addr_spec None)). intros s H. discriminate H.
Defined.

Lemma unhandled_options_refused_witness : parse_option opt_sbi false (chars "acl"%string) = (- EINVAL, opt_sbi).
Proof.
  refine (unhandled_options_refused opt_sbi false (chars "acl"%string) Opt_acl [] _ _); [by vm_compute|].
  do 2 apply list_elem_of_further. apply list_elem_of_here.
Defined.

Definition demo_blkdev (path : list Z) : option Z := if bool_decide (path = chars "/dev/sda"%string) then Some 2048 else None.
Lemma get_bdev_ends_witness : exists used tail, chars "bdev=/dev/sda,/dev/sdx,uid=1"%string = used ++ tail /\
  Some (chars "uid=1"%string) = Some tail /\
  if starts (chars "bdev="%string) (chars "bdev=/dev/sda,/dev/sdx,uid=1"%string) then starts (chars "/dev"%string) tail = false else used = [].
Proof.
  refine (get_bdev_ends demo_blkdev opt_sbi ∅ (chars "bdev=/dev/sda,/dev/sdx,uid=1"%string)
            (set_bdev_count 1 opt_sbi) {[0 := open_bdev 2048]} _ _ _). by vm_compute.
Defined.
