(* ===== verification/Mount.v ===== *)
(** * Mounting (super.c, tool.c, wprotect.h, balloc.c)

    [rdfs_fill_super] reads the options, maps the area, formats it or takes the
    image that is there, and makes the root directory.  The kernel's part in a
    mount is the record [mount_env].  The registration of the RDMA client in
    rdfs_ioremap does not touch the area. *)

From S2P Require Import Prelude Mem Layout FreeList Balloc Pages Demo Nvmalloc Vfs Dir Bdev Pgtable SlaveMem Mapping Acl Inode FileData DirMap DirFs DirOps DirGrow Frame Namei DirNew NewInode NameSpec NameNew Options.

Definition RDFS_SUPER_MAGIC : Z := 0xEFFB.
Definition RDFS_LINK_MAX : Z := 32000.
Definition MAX_LFS_FILESIZE : Z := 0x7fffffffffffffff.
Definition MS_NOSEC : Z := 2 ^ 28.
Definition BDEV_VIRT_ADDR : Z := 0xffffe90000000000.
Definition BDEV_VIRT_AERA : Z := 0x400000000.
Definition MAX_CAPACITY : Z := 256 * 1024.

(** sb->s_fs_info: the super-block info, or a pointer to freed memory. *)
Inductive fs_info := NoInfo | Info (sbi : rdfs_sb_info) | Freed.

(** struct super_block, as far as the filesystem sets it; s_root is the root's
    inode number. *)
Record super_block := mk_sb {
  s_blocksize : Z; s_blocksize_bits : Z; s_magic : Z; s_maxbytes : Z; s_max_links : Z; s_flags : Z;
  s_root : option Z; s_fs_info : fs_info
}.
Definition set_s_info (x : fs_info) (sb : super_block) : super_block :=
  mk_sb (s_blocksize sb) (s_blocksize_bits sb) (s_magic sb) (s_maxbytes sb) (s_max_links sb) (s_flags sb) (s_root sb) x.
Definition set_s_root (x : option Z) (sb : super_block) : super_block :=
  mk_sb (s_blocksize sb) (s_blocksize_bits sb) (s_magic sb) (s_maxbytes sb) (s_max_links sb) (s_flags sb) x (s_fs_info sb).

(** ** Sizes and sums *)

(** fls of the kernel, on an int. *)
Definition fls (x : Z) : Z := if u32 x =? 0 then 0 else Z.log2 (u32 x) + 1.

Definition rdfs_set_blocksize (sb : super_block) (size : Z) : super_block :=
  let bits := fls size - 1 in
  mk_sb (Z.shiftl 1 bits) bits (s_magic sb) (s_maxbytes sb) (s_max_links sb) (s_flags sb) (s_root sb) (s_fs_info sb).

Definition rdfs_max_size : Z :=
  let res := 2 ^ 35 - 1 in if MAX_LFS_FILESIZE <? res then MAX_LFS_FILESIZE else res.

(** memset with the character 0 *)
Definition init_address_to_ino (m : mem) (address : Z) : mem := memset m address 48 (Z.to_nat ADDRESS_TO_INO_SPACE).

Definition cpu_to_be32 (x : Z) : Z :=
  Z.land x 0xff * 2 ^ 24 + Z.land (Z.shiftr x 8) 0xff * 2 ^ 16 + Z.land (Z.shiftr x 16) 0xff * 2 ^ 8 + Z.land (Z.shiftr x 24) 0xff.

Section sums.
Context (crc32 : list Z -> Z).

(** The copy goes to the redundant super block behind it. *)
Definition rdfs_sync_super (m : mem) (ns seconds : Z) : mem :=
  let m := st 4 m (ns + super_block_off.s_wtime) (cpu_to_be32 (u32 seconds)) in
  let m := st 4 m (ns + super_block_off.s_sum) 0 in
  let crc := u32 (crc32 (ld_bytes m (ns + 4) (Z.to_nat (RDFS_SB_SIZE - 4)))) in
  let m := st 4 m (ns + super_block_off.s_sum) crc in
  st_bytes m (ns + RDFS_SB_SIZE) (ld_bytes m ns (Z.to_nat RDFS_SB_SIZE)).

Definition rdfs_sync_inode (m : mem) (pi : Z) : mem :=
  let m := st 4 m (pi + inode_off.i_sum) 0 in
  let crc := u32 (crc32 (ld_bytes m (pi + 4) (Z.to_nat (RDFS_INODE_SIZE - 4)))) in
  st 4 m (pi + inode_off.i_sum) crc.
End sums.

(** ** The pools' pages *)

Section pools.
Context `{!KernelPg} (sbi : rdfs_sb_info) (cpu : Z) (pud_alloc_ok : Z -> bool).

(** rdfs_pmd_alloc on the kernel's own entry for an address outside the directory
    areas. *)
Definition kernel_pmd_alloc (m : mem) (km : kmm) (address : Z) : Z * mem * kmm :=
  let offset e := u64 (rdfs_va sbi (Z.land e 0x7ffffffffffff000) + 8 * pmd_index address) in
  match kpud km !! (address / PUD_SIZE) with
  | Some e => (offset e, m, km)
  | None =>
      let '(new, m) := rdfs_pmd_alloc_one sbi cpu m in
      if new =? 0 then (0, m, km)
      else
        let e := Z.lor (rdfs_pa sbi new) PAGE_TABLE in
        (offset e, m, mk_kmm (<[address / PUD_SIZE := e]> (kpud km)) (kpmd km))
  end.

(** Without memory for a level the next one dereferences NULL. *)
Definition bdev_insert_a_page (m : mem) (km : kmm) (address : Z) : outcome (mem * kmm) :=
  if negb (pud_alloc_ok address) then Oops
  else
    let '(pmd, m, km) := kernel_pmd_alloc m km address in
    if pmd =? 0 then Oops
    else
      let '(pte, m) := rdfs_pte_alloc sbi cpu m pmd address in
      if pte =? 0 then Oops
      else if ld 8 m pte =? 0 then
        '(p, m) ← rdfs_get_page sbi m cpu; Ret (rdfs_set_pte m pte (rdfs_pa sbi p), km)
      else Ret (m, km).

(** while (address < pool's end) *)
Fixpoint pool_pages (n : nat) (m : mem) (km : kmm) (address : Z) : outcome (mem * kmm) :=
  match n with
  | O => Ret (m, km)
  | S n' => '(m, km) ← bdev_insert_a_page m km address; pool_pages n' m km (u64 (address + PAGE_SIZE))
  end.

(** for (i=0;i<=CPU_NR;++i): the mapped words of each pool. *)
Fixpoint map_pools (n : nat) (m : mem) (km : kmm) (addr capacity : Z) : outcome (mem * kmm) :=
  match n with
  | O => Ret (m, km)
  | S n' =>
      '(m, km) ← pool_pages (Z.to_nat ((8 * capacity + PAGE_SIZE - 1) / PAGE_SIZE)) m km addr;
      map_pools n' m km (u64 (addr + MAX_CAPACITY * 8)) capacity
  end.

Fixpoint init_pools (n : nat) (w : world) (i address : Z) : outcome world :=
  match n with
  | O => Ret w
  | S n' =>
      if negb (pud_alloc_ok address) then Oops
      else
        let '(pgtable, m) := rdfs_get_zeroed_page sbi (w_mem w) cpu in
        let '(free_pmd_page, m) := rdfs_get_zeroed_page sbi m cpu in
        let km := mk_kmm (<[address / PUD_SIZE := Z.lor (rdfs_pa sbi pgtable) PAGE_TABLE]> (kpud (w_km w))) (kpmd (w_km w)) in
        '(m, km) ← map_pools (Z.to_nat (CPU_NR + 1)) m km address DEFAYLT_CAPACITY;
        let b := default (mk_bdev 0 0 ∅) (w_disks w !! i) in
        let w := set_disks (<[i := __rdfs_init_bdev_pool b DEFAYLT_CAPACITY]> (w_disks w)) (set_km km (set_mem m w)) in
        init_pools n' w (i + 1) (u64 (address + BDEV_VIRT_AERA))
  end.

Definition rdfs_init_bdev_pool (w : world) : outcome world := init_pools (Z.to_nat (bdev_count sbi)) w 0 BDEV_VIRT_ADDR.
End pools.

(** ** Formatting *)

(** What the kernel gives a mount: memory for the super-block info, a random number,
    the caller's user and group, the two calls that map the area, the sizes of the
    block devices, the time, the in-core inode of the root with whether it is new,
    and the root's dentry. *)
Record mount_env := mk_menv {
  me_kzalloc : bool; me_random : Z; me_fsuid : Z; me_fsgid : Z;
  me_request : Z -> Z -> bool; me_ioremap : Z -> Z -> Z; me_blkdev : list Z -> option Z;
  me_seconds : Z; me_root : option (inode * bool); me_droot : bool
}.

Section mount.
Context `{!KernelPg, !KernelParse} (crc32 : list Z -> Z) (cpu : Z) (pud_alloc_ok : Z -> bool) (inode_ptr : Z -> Z) (phys0 : Z).
Context (env : mount_env).

(** super->s_* and the node descriptors. *)
Definition init_nodes (sbi : rdfs_sb_info) (m : mem) (size end_bdev bpi : Z) : mem :=
  let super := rdfs_get_super sbi in
  let des i := super + super_block_off.s_numa_des + 8 * i in
  let physaddr := rdfs_pa sbi (virt_addr sbi) in
  let phys_bdev_end := rdfs_pa sbi end_bdev in
  if (u64 (physaddr + size) <? rdfs_NUMA_LINE) || (rdfs_NUMA_LINE <? physaddr) then
    let m := st 1 m (super + super_block_off.s_numa_flag) 0 in
    let m := st 8 m (des 0) end_bdev in
    let m := st 8 m (des 1) 0 in
    let m := (rdfs_init_numa sbi m phys_bdev_end (u64 (physaddr + size)) bpi).2 in
    let p0 := ld 8 m (des 0) in
    let m := st 8 m (super + super_block_off.s_inode_count) (ld 8 m (p0 + numa_off.free_inode_count)) in
    st 8 m (super + super_block_off.s_block_count) (ld 8 m (p0 + numa_off.free_page_count))
  else
    let m := st 1 m (super + super_block_off.s_numa_flag) 1 in
    let m := st 8 m (des 0) end_bdev in
    let m := st 8 m (des 1) (rdfs_va sbi rdfs_NUMA_LINE) in
    let m := (rdfs_init_numa sbi m phys_bdev_end rdfs_NUMA_LINE bpi).2 in
    let m := (rdfs_init_numa sbi m rdfs_NUMA_LINE (u64 (physaddr + size)) bpi).2 in
    let p0 := ld 8 m (des 0) in
    let p1 := ld 8 m (des 1) in
    let m := st 8 m (super + super_block_off.s_inode_count)
               (u64 (ld 8 m (p0 + numa_off.free_inode_count) + ld 8 m (p1 + numa_off.free_inode_count))) in
    st 8 m (super + super_block_off.s_block_count)
      (u64 (ld 8 m (p0 + numa_off.free_page_count) + ld 8 m (p1 + numa_off.free_page_count))).

(** The root's slot, its table and its sum. *)
Definition init_root (sbi : rdfs_sb_info) (m : mem) : mem :=
  let root_i := get_rdfs_inode m sbi RDFS_ROOT_INO in
  let m := st 4 m (root_i + inode_off.i_mode) (u16 (Z.lor (sb_mode sbi) S_IFDIR)) in
  let m := st 4 m (root_i + inode_off.i_uid) (sb_uid sbi) in
  let m := st 4 m (root_i + inode_off.i_gid) (sb_gid sbi) in
  let m := st 4 m (root_i + inode_off.i_link_counts) 2 in
  let m := st 8 m (root_i + inode_off.list_pro) root_i in
  let m := st 8 m (root_i + inode_off.list_next) root_i in
  let m := (rdfs_init_pg_table sbi cpu m RDFS_ROOT_INO).2 in
  let m := rdfs_sync_inode crc32 m root_i in
  if s_numa_flag m sbi then
    let root_1 := get_rdfs_inode m sbi 2 in
    st 8 (st 8 m (root_1 + inode_off.list_pro) root_1) (root_1 + inode_off.list_next) root_1
  else m.

(** The error or the root's slot. *)
Definition rdfs_nvm_init (w : world) (sb : super_block) (sbi : rdfs_sb_info) (size end_bdev : Z)
  : outcome ((Z + Z) * super_block * rdfs_sb_info * world) :=
  if virt_addr sbi =? 0 then Ret (inl (- EINVAL), sb, sbi, w)
  else
    let sb := rdfs_set_blocksize sb (if sb_blocksize sbi =? 0 then RDFS_BLOCK_SIZE else sb_blocksize sbi) in
    let blocksize := s_blocksize sb in
    let sbi := if negb (sb_blocksize sbi =? 0) && negb (sb_blocksize sbi =? blocksize) then set_blocksize sbi blocksize else sbi in
    if size <? blocksize then Ret (inl (- EINVAL), sb, sbi, w)
    else
      let bpi := if bpi sbi =? 0 then 1 else bpi sbi in
      let super := rdfs_get_super sbi in
      let m := st 8 (w_mem w) (super + super_block_off.s_size) size in
      let m := st 4 m (super + super_block_off.s_blocksize) blocksize in
      let m := st 2 m (super + super_block_off.s_magic) RDFS_SUPER_MAGIC in
      let m := init_nodes sbi m size end_bdev bpi in
      w ← rdfs_init_bdev_pool sbi cpu pud_alloc_ok (set_mem m w);
      let m := rdfs_sync_super crc32 (w_mem w) super (me_seconds env) in
      let root_i := get_rdfs_inode m sbi RDFS_ROOT_INO in
      Ret (inr root_i, sb, sbi, set_mem (init_root sbi m) w).

(** ** The mount *)

Definition rdfs_ioremap (sbi : rdfs_sb_info) (size : Z) : Z * rdfs_sb_info :=
  if negb (me_request env (phy_addr sbi) size) then (0, sbi)
  else
    let sbi := set_virt_addr sbi (me_ioremap env (phy_addr sbi) size) in
    if virt_addr sbi =? 0 then (0, sbi) else (1, sbi).

(** out: the info is freed, and the super block still points to it. *)
Definition mount_out (retval : Z) (sb : super_block) (s : fs) : outcome (Z * super_block * fs) :=
  Ret (retval, set_s_info Freed sb, s).

(** setup_sb: rdfs_iget may return an error pointer, which is written through. *)
Definition setup_sb (sb : super_block) (sbi : rdfs_sb_info) (w : world) (lock : bool) : outcome (Z * super_block * fs) :=
  let super := rdfs_get_super sbi in
  let m := st 8 (w_mem w) (super + super_block_off.p_address_to_ino) (u64 (virt_addr sbi + PAGE_SIZE)) in
  let sb := mk_sb (s_blocksize sb) (s_blocksize_bits sb) (ld 2 m (super + super_block_off.s_magic)) rdfs_max_size RDFS_LINK_MAX
              (Z.lor (s_flags sb) MS_NOSEC) (s_root sb) (Info sbi) in
  '(r, _) ← rdfs_iget sbi crc32 m lock (me_root env) RDFS_ROOT_INO;
  match r with
  | inl _ => Oops
  | inr root_i =>
      let s := put_inode (set_i_size 0 root_i) (mk_fs (set_mem m w) ∅) in
      '(_, s) ← make_empty sbi cpu pud_alloc_ok inode_ptr s RDFS_ROOT_INO RDFS_ROOT_INO phys0;
      if me_droot env then Ret (0, set_s_root (Some RDFS_ROOT_INO) sb, s) else mount_out (- ENOMEM) sb s
  end.

Definition zero_sbi : rdfs_sb_info := mk_sbi 0 0 0 0 0 0 0 0 0 0 0 0 0 0.

(** The inode cache of a new mount is empty. *)
Definition rdfs_fill_super (sb : super_block) (w : world) (data : option (list Z)) (lock : bool) : outcome (Z * super_block * fs) :=
  let s := mk_fs w ∅ in
  if negb (me_kzalloc env) then Ret (- ENOMEM, sb, s)
  else
    let sbi := set_default_opts zero_sbi in
    let '(phys, data) := get_phys_addr data in
    let sbi := set_phy_addr sbi phys in
    let '(sbi, data) := rdfs_get_init_size sbi data in
    if phy_addr sbi =? ULLONG_MAX then mount_out 0 sb s
    else
      let sbi := set_counters sbi (s32 (me_random env)) 0 in
      let sbi := set_owner sbi (me_fsuid env) (me_fsgid env) DEFAULT_MODE in
      let sbi := set_bdev_count 0 sbi in
      let initsize := initsize sbi in
      let '(retval, sbi) := rdfs_ioremap sbi initsize in
      if retval =? 0 then mount_out retval sb s
      else
        let '(sbi, disks, data, end_bdev) := rdfs_get_bdev (me_blkdev env) sbi (w_disks w) data in
        let w := set_disks disks w in
        let '(err, sbi) := rdfs_parse_options data sbi false in
        if negb (err =? 0) then mount_out retval sb (mk_fs w ∅)
        else if negb (initsize =? 0) then
          '(r, sb, sbi, w) ← rdfs_nvm_init w sb sbi initsize end_bdev;
          match r with
          | inl _ => mount_out retval sb (mk_fs w ∅)
          | inr _ => setup_sb sb sbi w lock
          end
        else if virt_addr sbi =? 0 then mount_out retval sb (mk_fs w ∅)
        else
          let super := rdfs_get_super sbi in
          let blocksize := ld 4 (w_mem w) (super + super_block_off.s_blocksize) in
          setup_sb (rdfs_set_blocksize sb blocksize) sbi w lock.
End mount.

(** ** The other super-block operations *)

Definition rdfs_put_super (sb : super_block) : super_block := set_s_info NoInfo sb.

Definition rdfs_remount : Z := 0.

Record kstatfs := mk_statfs { f_type : Z; f_bsize : Z; f_blocks : Z; f_bfree : Z; f_bavail : Z; f_files : Z; f_namelen : Z }.
Definition rdfs_statfs (sb : super_block) (sbi : rdfs_sb_info) (m : mem) : kstatfs :=
  let ns := rdfs_get_super sbi in
  let free := rdfs_count_free_blocks sbi m in
  mk_statfs RDFS_SUPER_MAGIC (s_blocksize sb) (ld 8 m (ns + super_block_off.s_block_count)) free free
    (ld 8 m (ns + super_block_off.s_inode_count)) 128.

(** rdfs_alloc_inode: the info before the kernel's inode is cleared. *)
Definition rdfs_alloc_inode (vi : option inode) : option inode :=
  (fun i => set_ni_mapping_count 0 (set_ni_virt_addr 0 (set_ni_pg_addr 0 (set_ni_dtime 0 (set_ni_dir_acl 0 (set_ni_file_acl 0
             (set_ni_flags 0 (set_ni_state 0 (set_ni_counter 0 i))))))))) <$> vi.
