(* ===== verification/MountSpec.v ===== *)
(** * A mounted filesystem (super.c)

    Formatting and mounting an area gives a filesystem that represents the root
    directory alone, with every other inode slot and every page but four free.
    From there the theorems of [NameSpec] and [NameNew] apply. *)

From Stdlib Require Import String.
From S2P Require Import Prelude Mem Layout FreeList Balloc Pages Demo Nvmalloc Vfs Dir Bdev Pgtable SlaveMem Mapping Acl Inode FileData DirMap DirFs DirOps DirGrow Frame Namei DirNew NewInode NameSpec NameNew NameDemo Options Mount.

Section geometry.
Context (sbi : rdfs_sb_info) (size : Z).

(** Without block devices the node's descriptor follows the table of addresses. *)
Definition m_start : Z := phy_addr sbi + BDEV_DES_OFFSET.
Definition m_end : Z := phy_addr sbi + size.
Definition m_node : node := mk_node (virt_addr sbi + BDEV_DES_OFFSET) (numa_pages m_start m_end 1) m_end.
Definition m_slots : Z := numa_inodes m_start m_end 1.
Definition m_pages : list Z :=
  elems (numa_pages m_start m_end 1) PAGE_SIZE (Z.to_nat ((m_end - numa_pages m_start m_end 1) / PAGE_SIZE)).

(** The area is on one node, has room for an inode and four pages, and its last
    slot does not end where the pages begin. *)
Record mountable : Prop := {
  mb_area :: Area sbi size;
  mb_format : format_ok sbi size m_start m_end 1;
  mb_line : m_end < rdfs_NUMA_LINE \/ rdfs_NUMA_LINE < phy_addr sbi;
  mb_gap : m_start + 256 + m_slots * RDFS_INODE_SIZE + 8 <= numa_pages m_start m_end 1;
  mb_count : m_slots + 2 <= 2 ^ 31;
  mb_pages : (4 <= length m_pages)%nat
}.
Context (MB : mountable).

Local Ltac geo := unfold m_start, m_end, BDEV_DES_OFFSET, ADDRESS_TO_INO_SPACE, MAX_FILE_NUM, RDFS_SB_SPACE, RDFS_INODE_SIZE, sizeof_numa_des, PAGE_SIZE in *; lia.

Lemma m_lin : lin sbi m_start = virt_addr sbi + BDEV_DES_OFFSET.
Proof using Type. unfold lin, m_start. lia. Qed.

Lemma m_geometry : 0 < m_slots /\ m_start + 256 + m_slots * 128 <= numa_pages m_start m_end 1 /\ numa_pages m_start m_end 1 <= m_end /\ BDEV_DES_OFFSET < size.
Proof using MB.
  pose proof (mb_area MB) as HA. destruct (numa_geometry sbi size _ _ _ (mb_format MB)) as (? & ? & ? & ? & ?). fold m_slots in *. geo.
Qed.

Lemma m_node_ok : Node sbi size m_node.
Proof using MB.
  pose proof m_geometry as (? & ? & ? & ?). split; cbn; [apply MB|geo..|unfold numa_pages; by apply Z.mod_mul].
Qed.

Lemma m_slots_ok : slots_ok sbi size (node_des m_node) m_slots.
Proof using MB.
  pose proof m_geometry as (? & ? & ? & ?). pose proof (mb_gap MB). pose proof (mb_area MB) as []. split; cbn -[Z.mul]; geo.
Qed.

Lemma m_gap : node_des m_node + 256 + m_slots * 128 + 8 <= node_lo m_node - phy_addr sbi + virt_addr sbi.
Proof using MB. pose proof (mb_gap MB). cbn. geo. Qed.

Lemma m_slot_list : slots sbi (node_des m_node) m_slots = node_inodes sbi m_start m_end 1.
Proof using Type.
  unfold slots, node_inodes, slots_lo, numa_slots. rewrite m_lin. fold m_slots. cbn [node_des m_node].
  replace (virt_addr sbi + BDEV_DES_OFFSET - virt_addr sbi + phy_addr sbi + 256) with (m_start + sizeof_numa_des + RDFS_INODE_SIZE)
    by (unfold m_start, sizeof_numa_des, RDFS_INODE_SIZE; lia). done.
Qed.

Lemma m_slot_elems k : forall lo ino, slot_phys sbi (node_des m_node) ino = lo ->
  slot_phys sbi (node_des m_node) <$> seqZ ino (Z.of_nat k) = elems lo RDFS_INODE_SIZE k.
Proof using Type.
  induction k as [|k IH]; intros lo ino E; [done|]. rewrite seqZ_cons by lia. cbn [elems fmap list_fmap]. rewrite E. f_equal.
  replace (Z.pred (Z.of_nat (S k))) with (Z.of_nat k) by lia. apply IH. rewrite <- E. unfold slot_phys. lia.
Qed.

Lemma m_slot_range : Forall (slot_range m_slots) (seqZ 2 m_slots).
Proof using Type. apply Forall_forall. intros ino [? ?]%elem_of_seqZ. split; lia. Qed.
End geometry.

(** ** Formatting *)

Section format.
Context (sbi : rdfs_sb_info) (size : Z) (MB : mountable sbi size).
Context `{!KernelPg, !KernelParse, !PosixAcl} (crc32 : list Z -> Z) (cpu : Z) (kok : Z -> bool) (inode_ptr : Z -> Z) (phys0 : Z) (env : mount_env).

Local Abbreviation N := (m_node sbi size).
Local Abbreviation n := (m_slots sbi size).
Local Abbreviation nd := (virt_addr sbi + BDEV_DES_OFFSET).
Local Abbreviation li := (seqZ 2 n).
Local Abbreviation SF := (framed_free sbi (free := node_free sbi N) (page_ok := node_page N) (slots_own N li) (slots_free sbi N n li)).
Local Abbreviation SP := (framed_page sbi (page_ok := node_page N) (slots_own N li)).
Local Abbreviation SM := (framed_meta (meta := node_meta sbi N) (slots_own N li)).

#[local] Instance m_node_inst : Node sbi size N := m_node_ok sbi size MB.
#[local] Instance m_area : Area sbi size := mb_area _ _ MB.

Local Ltac geo := unfold word_at, m_start, m_end, BDEV_DES_OFFSET, ADDRESS_TO_INO_SPACE, MAX_FILE_NUM, RDFS_SB_SPACE, RDFS_INODE_SIZE, sizeof_numa_des, RDFS_SB_SIZE, PAGE_SIZE,
  super_block_off.s_numa_flag, super_block_off.s_numa_des, super_block_off.s_inode_count, super_block_off.s_block_count, super_block_off.s_wtime, super_block_off.s_sum,
  super_block_off.p_address_to_ino, super_block_off.s_magic, super_block_off.s_size, super_block_off.s_blocksize in *; lia.

(** The root's slot is clear. *)
Definition root_clear (m : mem) : Prop := forall x, nd + 128 <= x < nd + 256 -> ldb m x = 0.

(** Free pages and slots, and the root's slot, after [rdfs_init_numa]. *)
Lemma init_numa_framed m : s_numa_flag m sbi = false -> s_numa_des m sbi 0 = nd ->
  exists m', rdfs_init_numa sbi m (m_start sbi) (m_end sbi size) 1 = (0, m') /\ SF m' (m_pages sbi size) /\ root_clear m' /\
    (forall k b, b + Z.of_nat k <= nd -> ld k m' b = ld k m b).
Proof using All.
  intros Hfl Hde. destruct (init_numa_lists sbi size m _ _ _ (mb_format _ _ MB)) as (m' & E & Ri & Rp & Hb & Hz).
  rewrite m_lin in Hb, Hz. pose proof (m_geometry sbi size MB) as (G1 & _). exists m'. split; [done|]. split; [|split; [|done]].
  - split; [|split].
    + split; [|split].
      * unfold s_numa_flag in *. rewrite Hb; [done|]. unfold rdfs_get_super. cbn. geo.
      * unfold s_numa_des in *. rewrite Hb; [done|]. unfold rdfs_get_super. geo.
      * unfold node_pages in Rp. rewrite m_lin in Rp. exact Rp.
    + apply (pages_framed sbi size N n (m_slots_ok sbi size MB) (m_gap sbi size MB)); [apply m_slot_range|].
      pose proof (rep_elems _ _ _ _ Rp) as He. unfold node_pages in He. by rewrite m_lin in He.
    + unfold slots_free. rewrite m_slot_list. pose proof (m_slot_elems sbi size (Z.to_nat n) (numa_slots (m_start sbi)) 2) as El.
      rewrite Z2Nat.id in El by lia. rewrite El; [exact Ri|]. unfold slot_phys, slots_lo, numa_slots. cbn. geo.
  - intros x Hx. assert (Ez : ld 1 m' x = 0) by (apply Hz; geo). rewrite ld_S in Ez. change (ld 0 m' (x + 1)) with 0 in Ez. lia.
Qed.

(** What the free lists and the root's slot depend on. *)
Definition super_keeps (m m' : mem) : Prop :=
  forall x, nd <= x \/ x = virt_addr sbi + super_block_off.s_numa_flag \/ word_at (virt_addr sbi + super_block_off.s_numa_des) x -> ldb m' x = ldb m x.

Lemma super_ok m m' l : SF m l -> root_clear m -> super_keeps m m' -> SF m' l /\ root_clear m'.
Proof using All.
  intros HS Hc Hk. split.
  - exact (super_framed sbi size N n (m_slots_ok sbi size MB) (m_gap sbi size MB) (mb_count _ _ MB) cpu li m m' l (m_slot_range sbi size) HS Hk).
  - intros x Hx. rewrite Hk by (left; geo). by apply Hc.
Qed.

(** A store into the rest of the super block. *)
Lemma super_meta_st k m o v : 0 <= o -> o + Z.of_nat k <= BDEV_DES_OFFSET -> (o + Z.of_nat k <= 48 \/ 49 <= o) -> (o + Z.of_nat k <= 104 \/ 112 <= o) ->
  super_keeps m (st k m (virt_addr sbi + o) v).
Proof using Type. intros Ho1 Ho2 Ho3 Ho4 x Hx. rewrite ldb_st, decide_False; [done|]. geo. Qed.

Lemma super_trans m1 m2 m3 : super_keeps m1 m2 -> super_keeps m2 m3 -> super_keeps m1 m3.
Proof using Type. intros H12 H23 x Hx. by rewrite H23, H12. Qed.

Lemma init_nodes_ok m : exists m', init_nodes sbi m size nd 1 = m' /\ SF m' (m_pages sbi size) /\ root_clear m'.
Proof using All.
  pose proof (m_geometry sbi size MB) as (G1 & G2 & G3 & G4). pose proof (mb_area _ _ MB) as []. unfold init_nodes, rdfs_get_super.
  rewrite (pa_eq (size := size) (virt_addr sbi)), (pa_eq (size := size) nd) by geo.
  replace (virt_addr sbi - virt_addr sbi + phy_addr sbi) with (phy_addr sbi) by lia.
  replace (nd - virt_addr sbi + phy_addr sbi) with (m_start sbi) by (unfold m_start; lia).
  rewrite (u64_small (phy_addr sbi + size)) by lia. fold (m_end sbi size).
  assert (Hl : (m_end sbi size <? rdfs_NUMA_LINE) || (rdfs_NUMA_LINE <? phy_addr sbi) = true).
  { pose proof (mb_line _ _ MB) as [Hl|Hl]; apply orb_true_iff; [left|right]; by apply Z.ltb_lt. }
  rewrite Hl. set (m3 := st 8 (st 8 (st 1 _ _ _) _ _) _ _).
  destruct (init_numa_framed m3) as (m4 & E & HS & Hc & Hb).
  { unfold m3, s_numa_flag, rdfs_get_super. rewrite !ld_st_ne by (cbn; geo). by rewrite ld_st_same. }
  { unfold m3, s_numa_des, rdfs_get_super. rewrite !Z.mul_0_r, !Z.add_0_r. rewrite ld_st_ne by (cbn; geo). rewrite ld8_st8; [done|geo]. }
  rewrite E. cbn [snd]. pose proof HS as ((F1 & F2 & F3) & _).
  unfold s_numa_des, rdfs_get_super in F2. cbn [node_des m_node] in F2. rewrite F2.
  set (v1 := ld 8 m4 (nd + numa_off.free_inode_count)). set (v2 := ld 8 _ (nd + numa_off.free_page_count)).
  eexists. split; [reflexivity|].
  assert (Hk : forall v w, super_keeps m4 (st 8 (st 8 m4 (virt_addr sbi + super_block_off.s_inode_count) v) (virt_addr sbi + super_block_off.s_block_count) w))
    by (intros v w; eapply super_trans; [|apply super_meta_st; geo]; apply super_meta_st; geo).
  destruct (super_ok m4 _ _ HS Hc (Hk v1 v2)) as [HS' Hc']. by split.
Qed.

Lemma sync_super_keeps m seconds : super_keeps m (rdfs_sync_super crc32 m (virt_addr sbi) seconds).
Proof using MB.
  unfold rdfs_sync_super. eapply super_trans; [|intros x Hx; rewrite ldb_st_bytes, decide_False; [reflexivity|rewrite length_ld_bytes; change RDFS_SB_SIZE with 2048; geo]].
  do 2 (eapply super_trans; [|apply super_meta_st; geo]). apply super_meta_st; geo.
Qed.

(** ** The root *)

Local Abbreviation ri := (slot_va N 1).

Lemma root_at m l : SF m l -> get_rdfs_inode m sbi 1 = ri.
Proof using All.
  intros ((F1 & F2 & _) & _). pose proof (m_geometry sbi size MB) as (G1 & _).
  apply (slot_addr sbi size (node_des N) n (m_slots_ok sbi size MB)); [done|done|lia].
Qed.

Lemma m_root_meta x : ri <= x < ri + 128 -> SM x.
Proof using All.
  exact (root_meta sbi size N n (m_slots_ok sbi size MB) (m_gap sbi size MB) (mb_count _ _ MB) cpu li x (m_slot_range sbi size)).
Qed.

#[local] Instance m_framed : Framed sbi (foot := node_foot sbi N) (page_ok := node_page N) (slots_own N li) (slots_free sbi N n li) :=
  slots_framed sbi size N n (m_slots_ok sbi size MB) (m_gap sbi size MB) li (m_slot_range sbi size).

(** Stores into the root's slot. *)
Lemma root_st k m l o v : SF m l -> 0 <= o -> o + Z.of_nat k <= 128 -> SF (st k m (ri + o) v) l.
Proof using All.
  intros HS Ho1 Ho2. apply (free_ext sbi (meta := SM) m); [|done]. intros x Hf. rewrite ldb_st, decide_False; [done|]. intros Hx.
  destruct (free_pages sbi (meta := SM) m l HS) as [Hl _]. apply (meta_foot sbi (meta := SM) l x Hl); [|done]. apply m_root_meta. lia.
Qed.

Lemma root_word k m o : root_clear m -> 0 <= o -> o + Z.of_nat k <= 128 -> ld k m (ri + o) = 0.
Proof using Type. intros Hc Ho1 Ho2. apply ld_zero. intros x Hx. apply Hc. unfold slot_va in *. cbn [node_des m_node] in *. lia. Qed.

(** The root's slot as [rdfs_read_inode] finds it. *)
Record root_slot (m : mem) : Prop := {
  rs_mode : ld 4 m (ri + inode_off.i_mode) = u16 (Z.lor (sb_mode sbi) S_IFDIR);
  rs_links : ld 4 m (ri + inode_off.i_link_counts) = 2;
  rs_size : ld 8 m (ri + inode_off.i_size) = 0;
  rs_blocks : ld 8 m (ri + inode_off.i_blocks) = 0;
  rs_sum : rdfs_calc_checksum crc32 m ri RDFS_INODE_SIZE = 0
}.

Lemma sync_inode_sum m pi : rdfs_calc_checksum crc32 (rdfs_sync_inode crc32 m pi) pi RDFS_INODE_SIZE = 0.
Proof using Type.
  unfold rdfs_sync_inode, rdfs_calc_checksum, inode_off.i_sum. rewrite Z.add_0_r. rewrite (ld_bytes_st_ne 4 (st 4 m pi 0)) by (cbn; lia).
  rewrite ld4_st4 by apply u32_range. by rewrite Z.eqb_refl.
Qed.

Lemma sync_inode_frame k m pi x : pi + 4 <= x \/ x + Z.of_nat k <= pi -> ld k (rdfs_sync_inode crc32 m pi) x = ld k m x.
Proof using Type. intros Hx. unfold rdfs_sync_inode, inode_off.i_sum. rewrite Z.add_0_r, !ld_st_ne by (cbn; lia). done. Qed.

Lemma init_root_ok m p1 p2 p3 l : SF m (p1 :: p2 :: p3 :: l) -> root_clear m ->
  exists m', init_root crc32 cpu sbi m = m' /\ SF m' l /\ guest sbi ri (mk_lay p1 p2 p3 []) m' /\ root_slot m'.
Proof using All.
  intros HS Hc. unfold init_root. change RDFS_ROOT_INO with 1. rewrite (root_at m _ HS).
  set (m1 := st 8 (st 8 (st 4 (st 4 (st 4 (st 4 m _ _) _ _) _ _) _ _) _ _) _ _).
  assert (HS1 : SF m1 (p1 :: p2 :: p3 :: l)) by (unfold m1; repeat (apply root_st; [|done|done]); done).
  destruct (init_pg_table_ok sbi (meta := SM) m1 cpu 1 p1 p2 p3 l HS1) as (m2 & E2 & [T1 _ T2 _ T4 T5] & _ & M2).
  { intros x. rewrite (root_at m1 _ HS1). apply m_root_meta. }
  rewrite E2. cbn [snd]. rewrite (root_at m1 _ HS1) in M2. set (m3 := rdfs_sync_inode crc32 m2 ri).
  assert (HS3 : SF m3 l) by (unfold m3, rdfs_sync_inode; repeat (apply root_st; [|done|done]); done).
  assert (Hflag : s_numa_flag m3 sbi = false) by (by destruct HS3 as ((? & _) & _)). rewrite Hflag.
  exists m3. split; [done|]. split; [done|].
  assert (Hld : forall k o, 4 <= o -> o + Z.of_nat k <= 72 -> ld k m3 (ri + o) = ld k m1 (ri + o)).
  { intros k o Ho1 Ho2. unfold m3. rewrite sync_inode_frame by lia. apply ld_ext. intros i Hi. apply M2; [apply m_root_meta; lia|].
    unfold inode_off.i_pg_addr. lia. }
  split.
  - assert (Hp : Forall SP (lay_pages (mk_lay p1 p2 p3 []))) by (destruct (free_pages sbi (meta := SM) m1 _ HS1) as [Hl _];
      repeat (apply Forall_cons in Hl as [? Hl]; constructor; [done|]); constructor).
    destruct (guest_framed sbi (meta := SM) ri (mk_lay p1 p2 p3 []) Hp) as [Hext _]; [intros x Hx; apply m_root_meta; lia|].
    apply (Hext m2); [|apply (new_guest_table sbi m2 1); [exact T2|by apply (root_at m2 l)]].
    intros x Hx. assert (Hn : ~ (ri <= x < ri + 4)).
    { intros Hr. destruct Hx as [?|(q & Hq & Hqx)]; [lia|]. rewrite Forall_forall in Hp. apply (meta_page sbi (meta := SM) q x (Hp q Hq)); [|done]. apply m_root_meta. lia. }
    unfold m3, rdfs_sync_inode, inode_off.i_sum. rewrite Z.add_0_r, !ldb_st, !decide_False by (cbn; lia). done.
  - unfold inode_off.i_mode, inode_off.i_link_counts, inode_off.i_size, inode_off.i_blocks.
    split; unfold inode_off.i_mode, inode_off.i_link_counts, inode_off.i_size, inode_off.i_blocks; [rewrite Hld by lia..|apply sync_inode_sum];
      unfold m1, inode_off.i_mode, inode_off.i_link_counts, inode_off.i_uid, inode_off.i_gid, inode_off.list_pro, inode_off.list_next.
    + rewrite !ld_st_ne by (cbn; lia). rewrite ld4_st4; [done|]. pose proof (u16_range (Z.lor (sb_mode sbi) S_IFDIR)). lia.
    + rewrite !ld_st_ne by (cbn; lia). by rewrite ld4_st4.
    + rewrite !ld_st_ne by (cbn; lia). by apply root_word.
    + rewrite !ld_st_ne by (cbn; lia). by apply root_word.
Qed.

Lemma blocksize_set sb b : b = PAGE_SIZE \/ b = 2 * PAGE_SIZE -> s_blocksize (rdfs_set_blocksize sb b) = b.
Proof using Type. by intros [-> | ->]. Qed.

(** [rdfs_nvm_init] without block devices. *)
Lemma nvm_init_ok w sb p1 p2 p3 l : m_pages sbi size = p1 :: p2 :: p3 :: l ->
  (sb_blocksize sbi = 0 \/ sb_blocksize sbi = PAGE_SIZE \/ sb_blocksize sbi = 2 * PAGE_SIZE) -> bpi sbi = 0 -> bdev_count sbi = 0 ->
  exists sb' m', rdfs_nvm_init crc32 cpu kok env w sb sbi size nd = Ret (inr ri, sb', sbi, set_mem m' w) /\
    SF m' l /\ guest sbi ri (mk_lay p1 p2 p3 []) m' /\ root_slot m' /\ Forall SP (lay_pages (mk_lay p1 p2 p3 [])) /\ NoDup (p1 :: p2 :: p3 :: l).
Proof using All.
  intros Ep Hbs Hbpi Hbd. pose proof (mb_area _ _ MB) as []. pose proof (m_geometry sbi size MB) as (_ & _ & _ & G4).
  unfold rdfs_nvm_init. rewrite (proj2 (Z.eqb_neq (virt_addr sbi) 0)) by lia.
  set (b := if sb_blocksize sbi =? 0 then RDFS_BLOCK_SIZE else sb_blocksize sbi).
  assert (Hb : b = PAGE_SIZE \/ b = 2 * PAGE_SIZE).
  { unfold b. destruct (Z.eqb_spec (sb_blocksize sbi) 0); [by left|]. by destruct Hbs as [?|[?|?]]; [|left|right]. }
  rewrite (blocksize_set sb b Hb).
  assert (Eb : (negb (sb_blocksize sbi =? 0) && negb (sb_blocksize sbi =? b))%bool = false).
  { unfold b. destruct (Z.eqb_spec (sb_blocksize sbi) 0); [done|]. by rewrite Z.eqb_refl. }
  rewrite Eb, (proj2 (Z.ltb_ge _ _)) by (destruct Hb as [-> | ->]; geo). rewrite Hbpi. cbn [Z.eqb].
  set (m0 := st 2 _ _ _). destruct (init_nodes_ok m0) as (m1 & -> & HS & Hc). unfold rdfs_init_bdev_pool. rewrite Hbd.
  change (Z.to_nat 0) with 0%nat. cbn [init_pools mbind outcome_bind]. unfold rdfs_get_super.
  destruct (super_ok _ _ _ HS Hc (sync_super_keeps m1 (me_seconds env))) as [HS2 Hc2]. change (w_mem (set_mem m1 w)) with m1. set (m2 := rdfs_sync_super crc32 m1 (virt_addr sbi) (me_seconds env)) in *.
  change RDFS_ROOT_INO with 1. rewrite (root_at m2 _ HS2). rewrite Ep in HS2.
  destruct (init_root_ok m2 p1 p2 p3 l HS2 Hc2) as (m3 & -> & HS3 & HG3 & HR3). eexists _, m3. do 4 (split; [done|]).
  destruct (free_pages sbi (meta := SM) m2 _ HS2) as [Hl Hn]. split; [|done].
  change (p1 :: p2 :: p3 :: l) with (lay_pages (mk_lay p1 p2 p3 []) ++ l) in Hl. by apply Forall_app in Hl as [Hl _].
Qed.

(** ** The first inode of the cache *)

Local Abbreviation g3 p1 p2 p3 := (mk_lay p1 p2 p3 []).
Local Abbreviation GF g := (framed_free sbi (free := SF) (page_ok := SP) (guest_own sbi ri g) (guest sbi ri g)).
Local Abbreviation GP g := (framed_page sbi (page_ok := SP) (guest_own sbi ri g)).
Local Abbreviation GM g := (framed_meta (meta := SM) (guest_own sbi ri g)).

(** The root before it has names. *)
Definition a_blank : afs := mk_afs ∅ {[1 := 2]} {[1 := 0]}.

Lemma root_guest m g l : SF m l -> guest sbi ri g m -> Forall SP (lay_pages g) -> (forall p, p ∈ lay_pages g -> p ∉ l) -> GF g m l.
Proof using All.
  intros HS HG Hp Hd. split; [done|]. split; [|done]. destruct (free_pages sbi (meta := SM) m l HS) as [Hl _]. rewrite Forall_forall in Hl, Hp.
  apply Forall_forall. intros q Hq. split; [by apply Hl|]. intros x Hx [Hr|(p & Hin & Hpx)].
  - apply (meta_page sbi (meta := SM) q x (Hl q Hq)); [|done]. apply m_root_meta. lia.
  - apply (Hd p Hin). by rewrite <- (page_disjoint sbi (page_ok := SP) (meta := SM) q p x (Hl q Hq) (Hp p Hin) Hx Hpx).
Qed.

Lemma root_inv w i g l R D : SF (w_mem w) l -> guest sbi ri g (w_mem w) -> Forall SP (lay_pages g) -> (forall p, p ∈ lay_pages g -> p ∉ l) ->
  areas (w_nvm w) R D -> Forall (fun c : cell => room c.2) (D.1 ++ D.2) -> i_ino i = 1 -> i_nlink i = 2 -> i_size i = 0 ->
  DirMap.fs_inv (sbi := sbi) (free := GF g) (page_ok := GP g) (meta := GM g) (mk_fs w {[1 := i]}) a_blank ∅ ∅ l R D.
Proof using All.
  intros HS HG Hp Hd Hnv Hrm Hi1 Hi2 Hi3. pose proof (root_guest _ g l HS HG Hp Hd) as HF.
  assert (Hone : forall ino j, ({[1 := i]} : gmap Z inode) !! ino = Some j -> ino = 1 /\ j = i) by (by intros ino j [<- <-]%lookup_singleton_Some).
  split; try done; cbn [f_inodes a_names a_blank]; try (intros *; by rewrite lookup_empty).
  - intros ino j [-> ->]%Hone. split; [done|lia].
  - intros ino x [j [-> ->]%Hone]. change (DirMap.slot (sbi := sbi) _ 1) with (get_rdfs_inode (w_mem w) sbi 1). rewrite (root_at _ _ HS). intros Hx.
    pose proof (m_root_meta x ltac:(lia)) as Hm. split; [done|]. intros [?|(p & Hin & Hpx)]; [lia|]. rewrite Forall_forall in Hp.
    by apply (meta_page sbi (meta := SM) p x (Hp p Hin)).
  - intros ino ino' [j [-> _]%Hone] [j' [-> _]%Hone]. done.
  - cbn. by rewrite map_fmap_singleton, Hi2.
  - cbn. by rewrite map_fmap_singleton, Hi3.
Qed.

(** ** Reading the root *)

Lemma root_mode : 0 <= sb_mode sbi <= DEFAULT_MODE -> u16 (u16 (Z.lor (sb_mode sbi) S_IFDIR)) = Z.lor (sb_mode sbi) S_IFDIR.
Proof using Type.
  intros Hm. unfold DEFAULT_MODE in Hm. assert (Hr : 0 <= Z.lor (sb_mode sbi) S_IFDIR < 2 ^ 16).
  { split; [apply Z.lor_nonneg; unfold S_IFDIR; lia|]. apply Z.log2_lt_cancel. change (Z.log2 (2 ^ 16)) with 16. rewrite Z.log2_lor by (unfold S_IFDIR; lia).
    apply Z.max_lub_lt; [|by vm_compute]. apply Z.le_lt_trans with (Z.log2 1023); [apply Z.log2_le_mono; lia|by vm_compute]. }
  rewrite (u16_small (Z.lor (sb_mode sbi) S_IFDIR)) by lia. by apply u16_small.
Qed.

Lemma read_root m l i0 : SF m l -> root_slot m -> 0 <= sb_mode sbi <= DEFAULT_MODE ->
  exists i, rdfs_iget sbi crc32 m false (Some (i0, true)) 1 = Ret (inr i, false) /\ i_ino i = 1 /\ S_ISDIR (i_mode i) = true /\ i_nlink i = 2 /\
    i_size i = 0 /\ i_blocks i = 0 /\ ni_virt_addr i = ni_virt_addr i0 /\ ni_mapping_count i = ni_mapping_count i0.
Proof using All.
  intros HS [R1 R2 R3 R4 R5] Hm. pose proof (root_at m l HS) as Er. pose proof HS as ((F1 & F2 & _) & _). pose proof (m_geometry sbi size MB) as (G1 & _).
  destruct (slot_number sbi size (node_des N) n (m_slots_ok sbi size MB) m 1 F1 F2 ltac:(lia)) as [En Ep]. rewrite Ep, Er in En.
  assert (Hdir : Z.land (Z.lor (sb_mode sbi) S_IFDIR) S_IFMT = S_IFDIR) by (rewrite Z.lor_comm; apply type_dir; unfold DEFAULT_MODE in Hm; lia).
  assert (Hri : ri <> 0) by (pose proof (mb_area _ _ MB) as []; unfold slot_va; cbn; geo).
  unfold rdfs_iget. cbn [negb]. rewrite Er, (proj2 (Z.eqb_neq ri 0) Hri). unfold rdfs_read_inode. rewrite R5, R1, (root_mode Hm), R2, R3, R4, En.
  cbn [Z.eqb negb]. eexists. cbn -[Z.land Z.lor S_IFMT S_IFDIR S_IFREG S_IFLNK]. rewrite Hdir. cbn -[Z.land Z.lor]. split; [reflexivity|].
  split; [done|]. split; [|done]. unfold S_ISDIR. apply Z.eqb_eq. exact Hdir.
Qed.

(** ** The root directory *)

Context (Hkok : forall va, dir_area va -> kok va = true).

Definition a_root : afs := mk_afs {[1 := dots 1 1]} {[1 := 2]} {[1 := PAGE_SIZE]}.

(** The root's slot and table do not depend on the super block. *)
Lemma root_slot_above m m' : (forall x, nd <= x -> ldb m' x = ldb m x) -> root_slot m -> root_slot m'.
Proof using Type.
  intros Hx [R1 R2 R3 R4 R5]. assert (Hld : forall k o, 0 <= o -> ld k m' (ri + o) = ld k m (ri + o)).
  { intros k o Ho. apply ld_ext. intros i Hi. apply Hx. unfold slot_va. cbn. lia. }
  split; [rewrite Hld; [done|by vm_compute]..|].
  unfold rdfs_calc_checksum in *. rewrite (ld_bytes_ext m' m (ri + 4) (ri + 4)), <- (Z.add_0_r ri), Hld, Z.add_0_r; [done|done|].
  intros i Hi. apply Hx. unfold slot_va. cbn. lia.
Qed.

Lemma root_guest_above m m' g : (forall x, nd <= x -> ldb m' x = ldb m x) -> Forall SP (lay_pages g) -> guest sbi ri g m -> guest sbi ri g m'.
Proof using All.
  intros Hx Hp. destruct (guest_framed sbi (meta := SM) ri g Hp) as [Hext _]; [intros x Hr; apply m_root_meta; lia|].
  apply Hext. intros x [Hr|(p & Hin & Hpx)]; apply Hx; [unfold slot_va in Hr; cbn in Hr; lia|].
  rewrite Forall_forall in Hp. destruct (Hp p Hin) as [Hpp _]. destruct (node_page_range sbi size N p Hpp) as (_ & Hlo & _).
  unfold in_page in Hpx. cbn in Hlo. unfold sizeof_numa_des in Hlo. lia.
Qed.

Lemma setup_ok sb w p1 p2 p3 p4 l i0 R D : SF (w_mem w) (p4 :: l) -> guest sbi ri (g3 p1 p2 p3) (w_mem w) -> root_slot (w_mem w) ->
  Forall SP (lay_pages (g3 p1 p2 p3)) -> NoDup (p1 :: p2 :: p3 :: p4 :: l) -> 0 <= sb_mode sbi <= DEFAULT_MODE ->
  me_root env = Some (i0, true) -> ni_virt_addr i0 = 0 -> ni_mapping_count i0 = 0 -> me_droot env = true ->
  areas (w_nvm w) R D -> Forall (fun c : cell => room c.2) (D.1 ++ D.2) -> (0 < length D.1)%nat ->
  exists sb' s', setup_sb crc32 cpu kok inode_ptr phys0 env sb sbi w false = Ret (0, sb', s') /\ s_root sb' = Some 1 /\ s_fs_info sb' = Info sbi /\
    slot_rep sbi N n li s' a_root ∅ l (length D.1).
Proof using All.
  intros HS HG HR Hp Hnd Hm Hr Hv Hc Hdr Hnv Hrm Hlen. set (m := st 8 (w_mem w) (virt_addr sbi + super_block_off.p_address_to_ino) (u64 (virt_addr sbi + PAGE_SIZE))).
  assert (Hk : super_keeps (w_mem w) m) by (apply super_meta_st; geo). assert (Hab : forall x, nd <= x -> ldb m x = ldb (w_mem w) x) by (intros x Hx; apply Hk; by left).
  assert (HS' : SF m (p4 :: l)).
  { exact (super_framed sbi size N n (m_slots_ok sbi size MB) (m_gap sbi size MB) (mb_count _ _ MB) cpu li _ m _ (m_slot_range sbi size) HS Hk). }
  pose proof (root_guest_above _ _ _ Hab Hp HG) as HG'. pose proof (root_slot_above _ _ Hab HR) as HR'.
  destruct (read_root m _ i0 HS' HR' Hm) as (i & Ei & I1 & I2 & I3 & I4 & I5 & I6 & I7).
  assert (Hd : NoDup (lay_pages (g3 p1 p2 p3)) /\ forall p, p ∈ lay_pages (g3 p1 p2 p3) -> p ∉ p4 :: l).
  { change (p1 :: p2 :: p3 :: p4 :: l) with (lay_pages (g3 p1 p2 p3) ++ p4 :: l) in Hnd. apply NoDup_app in Hnd as (N1 & N2 & _). by split. }
  destruct Hd as [Hn3 Hd]. set (w' := set_mem m w). set (i' := set_i_size 0 i).
  pose proof (root_inv w' i' (g3 p1 p2 p3) (p4 :: l) R D HS' HG' Hp Hd Hnv Hrm I1 I3 eq_refl) as HI.
  assert (HB : blank_dir i') by (split; [exact I2|done|exact I5|by rewrite <- Hv|by rewrite <- Hc]).
  assert (Hi' : f_inodes (mk_fs w' {[1 := i']}) !! 1 = Some i') by apply lookup_singleton_eq.
  destruct (make_empty_ok (free := SF) (meta := SM) cpu kok inode_ptr phys0 Hkok ri (g3 p1 p2 p3) eq_refl Hp Hn3 ltac:(intros x Hx; apply m_root_meta; lia)
    (mk_fs w' {[1 := i']}) a_blank ∅ ∅ p4 l R D 1 1 i' 2 HI (root_at m _ HS') Hi' HB eq_refl eq_refl Hlen)
    as (s' & D' & E & HI' & Hlen' & _).
  eexists _, s'. split; [|split; [|split]].
  - unfold setup_sb, rdfs_get_super. fold m. change RDFS_ROOT_INO with 1. rewrite Hr, Ei. cbn [mbind outcome_bind]. fold i' w'.
    unfold put_inode. cbn [f_world f_inodes]. change (i_ino i') with (i_ino i). rewrite I1. change (<[1 := i']> ∅) with ({[1 := i']} : gmap Z inode).
    rewrite E. cbn [mbind outcome_bind]. rewrite Hdr. reflexivity.
  - done.
  - done.
  - split; [apply m_slot_range|]. exists (<[1 := grown (g3 p1 p2 p3) p4]> ∅), R, D'. split; [exact HI'|]. rewrite map_size_empty. lia.
Qed.
End format.

(** ** The whole mount *)

Section fill_super.
Context `{!KernelPg, !KernelParse, !PosixAcl} (crc32 : list Z -> Z) (cpu : Z) (kok : Z -> bool) (inode_ptr : Z -> Z) (phys0 : Z) (env : mount_env).

Definition has_bdev (data : option (list Z)) : bool := match data with Some s => starts (chars "bdev="%string) s | None => false end.

(** The info the options are parsed into. *)
Definition default_sbi (sbi : rdfs_sb_info) : rdfs_sb_info :=
  set_bdev_count 0 (set_owner (set_counters sbi (s32 (me_random env)) 0) (me_fsuid env) (me_fsgid env) DEFAULT_MODE).

(** What the options of a mount without block devices ask for: the super-block info
    and the size of the area. *)
Definition mount_options (data : option (list Z)) : option (rdfs_sb_info * Z) :=
  let '(phys, data) := get_phys_addr data in
  let '(sbi, data) := rdfs_get_init_size (set_phy_addr (set_default_opts zero_sbi) phys) data in
  let sbi := default_sbi sbi in
  let size := initsize sbi in
  let sbi := set_bdev_count 0 (set_virt_addr sbi (me_ioremap env phys size)) in
  if (phys =? ULLONG_MAX) || negb (me_request env phys size) || has_bdev data then None
  else let '(err, sbi) := rdfs_parse_options data sbi false in if err =? 0 then Some (sbi, size) else None.

(** The kernel plays along: memory, a valid caller, a fresh in-core inode for the
    root, and a dentry. *)
Record mount_usual : Prop := {
  mu_kzalloc : me_kzalloc env = true;
  mu_uid : uid_valid (me_fsuid env) = true;
  mu_gid : gid_valid (me_fsgid env) = true;
  mu_root : exists i0, me_root env = Some (i0, true) /\ ni_virt_addr i0 = 0 /\ ni_mapping_count i0 = 0;
  mu_droot : me_droot env = true
}.

Lemma init_size_ok sbi data sbi' data' : rdfs_get_init_size sbi data = (sbi', data') -> 0 <= initsize sbi < 2 ^ 64 ->
  0 <= initsize sbi' < 2 ^ 64 /\ phy_addr sbi' = phy_addr sbi /\ bpi sbi' = bpi sbi /\ sb_blocksize sbi' = sb_blocksize sbi /\ num_inodes sbi' = num_inodes sbi.
Proof using Type.
  unfold rdfs_get_init_size. destruct data as [s|]; [|by intros [= <- <-]]. destruct (negb _); [by intros [= <- <-]|].
  destruct (cut_comma _) as [arg rest]. intros [= <- <-] _. split; [apply memparse_range|done].
Qed.

Lemma parse_default phys d1 sbi1 d2 va sbi : rdfs_get_init_size (set_phy_addr (set_default_opts zero_sbi) phys) d1 = (sbi1, d2) ->
  uid_valid (me_fsuid env) = true -> gid_valid (me_fsgid env) = true ->
  let sbi3 := set_bdev_count 0 (set_virt_addr (default_sbi sbi1) va) in
  rdfs_parse_options d2 sbi3 false = (0, sbi) -> opts_ok sbi /\ same_place sbi3 sbi /\ bpi sbi = 0 /\ bdev_count sbi = 0.
Proof using Type.
  intros Ei Hu Hg sbi3 E. destruct (init_size_ok _ _ _ _ Ei) as (I1 & _ & I2 & I3 & I4); [cbn; lia|].
  assert (Hok : opts_ok sbi3).
  { split; cbn; [rewrite I3; by left|unfold DEFAULT_MODE; lia|done|done|rewrite I4; cbn; lia|done]. }
  assert (H3 : opts_ok sbi /\ same_place sbi3 sbi).
  { destruct d2 as [s|]; cbn [rdfs_parse_options] in E; [|by injection E as <-]. by destruct (parse_loop_typed _ _ _ _ Hok E) as (? & ? & _). }
  destruct H3 as [Hok3 Hp]. split; [done|]. split; [done|]. destruct Hp as (_ & _ & _ & -> & _ & _ & -> & _). cbn. by rewrite I2.
Qed.

Lemma get_bdev_none blkdev sbi disks data : has_bdev data = false ->
  rdfs_get_bdev blkdev sbi disks data = (set_bdev_count 0 sbi, disks, data, u64 (virt_addr sbi + RDFS_SB_SPACE + ADDRESS_TO_INO_SPACE)).
Proof using Type. unfold rdfs_get_bdev, has_bdev. destruct data as [s|]; [|done]. by intros ->. Qed.

(** A mount that formats reduces to [rdfs_nvm_init] and the setup. *)
Lemma fill_super_formats data sbi size sb w : me_kzalloc env = true -> mount_options data = Some (sbi, size) ->
  uid_valid (me_fsuid env) = true -> gid_valid (me_fsgid env) = true -> 0 < size -> 0 < virt_addr sbi -> virt_addr sbi + BDEV_DES_OFFSET < 2 ^ 64 ->
  opts_ok sbi /\ bpi sbi = 0 /\ bdev_count sbi = 0 /\
  exists w', w_mem w' = w_mem w /\ w_nvm w' = w_nvm w /\ rdfs_fill_super crc32 cpu kok inode_ptr phys0 env sb w data false =
    ('(r, sb, sbi, w) ← rdfs_nvm_init crc32 cpu kok env w' sb sbi size (virt_addr sbi + BDEV_DES_OFFSET);
     match r with inl _ => mount_out 1 sb (mk_fs w ∅) | inr _ => setup_sb crc32 cpu kok inode_ptr phys0 env sb sbi w false end).
Proof using Type.
  unfold mount_options, rdfs_fill_super. intros -> Ho Hu Hg Hs Hv Hb. cbn [negb]. destruct (get_phys_addr data) as [phys d1].
  destruct (rdfs_get_init_size _ d1) as [sbi1 d2] eqn:Ei. destruct (init_size_ok _ _ _ _ Ei ltac:(cbn; lia)) as (_ & I2 & _). rewrite I2.
  cbn [phy_addr set_phy_addr]. destruct (phys =? ULLONG_MAX); [done|]. cbn [orb] in Ho. fold (default_sbi sbi1).
  assert (Ep : phy_addr (default_sbi sbi1) = phys) by exact I2.
  unfold rdfs_ioremap. rewrite Ep. destruct (me_request env phys (initsize (default_sbi sbi1))); [|done]. cbn [negb orb] in *.
  destruct (has_bdev d2) eqn:Ebd; [done|]. set (sbi3 := set_bdev_count 0 (set_virt_addr _ _)) in Ho.
  destruct (rdfs_parse_options d2 sbi3 false) as [err sbi4] eqn:E. destruct (Z.eqb_spec err 0) as [->|]; [|done]. injection Ho as -> Esz.
  destruct (parse_default phys d1 sbi1 d2 _ sbi Ei Hu Hg E) as (Hok & Hp & Hbpi & Hbd). split; [done|]. split; [done|]. split; [done|].
  change (initsize (default_sbi sbi1) = size) in Esz. rewrite Esz in *. assert (Ev : me_ioremap env phys size = virt_addr sbi) by (symmetry; apply Hp).
  exists (set_disks (w_disks w) w). split; [done|]. split; [done|]. cbn [virt_addr set_virt_addr].
  rewrite Ev, (proj2 (Z.eqb_neq (virt_addr sbi) 0)), (get_bdev_none _ _ _ _ Ebd) by lia. cbn [Z.eqb]. unfold sbi3 in E. rewrite Esz, Ev in E. rewrite E.
  rewrite (proj2 (Z.eqb_neq size 0)) by lia. cbn [Z.eqb negb virt_addr set_virt_addr]. unfold BDEV_DES_OFFSET in *.
  rewrite u64_small by (unfold RDFS_SB_SPACE, ADDRESS_TO_INO_SPACE, MAX_FILE_NUM, PAGE_SIZE in *; lia). by rewrite Z.add_assoc.
Qed.

Context (Hkok : forall va, dir_area va -> kok va = true).

Lemma mount_ok data sbi size sb w R D : mount_usual -> mount_options data = Some (sbi, size) -> mountable sbi size ->
  areas (w_nvm w) R D -> Forall (fun c : cell => room c.2) (D.1 ++ D.2) -> (0 < length D.1)%nat ->
  exists sb' s', rdfs_fill_super crc32 cpu kok inode_ptr phys0 env sb w data false = Ret (0, sb', s') /\
    s_root sb' = Some 1 /\ s_fs_info sb' = Info sbi /\
    slot_rep sbi (m_node sbi size) (m_slots sbi size) (seqZ 2 (m_slots sbi size)) s' a_root ∅ (drop 4 (m_pages sbi size)) (length D.1).
Proof using All.
  intros [M1 M2 M3 (i0 & M4 & M5 & M6) M7] Ho MB Hnv Hrm Hlen. pose proof (mb_area _ _ MB) as []. pose proof (m_geometry _ _ MB) as (_ & _ & _ & G4).
  destruct (fill_super_formats data sbi size sb w M1 Ho M2 M3) as (Hok & Hbpi & Hbd & w' & _ & Env & ->); [lia..|].
  pose proof (mb_pages _ _ MB) as Hlen4. destruct (m_pages sbi size) as [|p1 [|p2 [|p3 [|p4 l]]]] eqn:Ep; [cbn in Hlen4; lia..|].
  destruct (nvm_init_ok sbi size MB crc32 cpu kok inode_ptr phys0 env w' sb p1 p2 p3 (p4 :: l) Ep (ok_blocksize _ Hok) Hbpi Hbd) as (sb1 & m1 & -> & HS & HG & HR & Hp & Hnd).
  cbn [mbind outcome_bind drop].
  destruct (setup_ok sbi size MB crc32 cpu kok inode_ptr phys0 env Hkok sb1 (set_mem m1 w') p1 p2 p3 p4 l i0 R D HS HG HR) as (sb2 & s & E & Hrt & Hin & HR2);
    try done.
  - apply Hok.
  - cbn. by rewrite Env.
  - by exists sb2, s.
Qed.

(** The address areas after [nvmalloc_init]: all but the last are used. *)
Lemma fresh_areas `{!Kzalloc} nv : (forall h, kzalloc h <> 0) -> nvmalloc_init DIR_AREAS nvm_reset = Ret (0, nv) ->
  exists R D, areas nv R (D, []) /\ Forall (fun c : cell => room c.2) D /\ length D = Nat.pred DIR_AREAS.
Proof using Type.
  intros Hkz E. destruct (nvmalloc_init_ok Hkz) as (s & R & D & E' & HR & _ & ED). rewrite E in E'. injection E' as <-.
  pose proof (f_equal length ED) as El. rewrite length_fmap, length_elems in El. rewrite dir_areas_eq in *. cbn [Nat.pred].
  exists (R, []), (take (Z.to_nat 16383) D). split; [|split].
  - exists (drop (Z.to_nat 16383) D). cbn [fst snd]. by rewrite take_drop.
  - apply Forall_lookup. intros k c Hc. apply lookup_take_Some in Hc as [Hc Hk].
    assert (Hl : D.*2 !! k = Some c.2) by (by rewrite list_lookup_fmap, Hc).
    rewrite ED in Hl. apply elems_lookup in Hl as [-> _]. unfold room, RDFS_START, MAX_DIR_SIZE, DIR_AREA_SIZE. lia.
  - rewrite length_take. lia.
Qed.

(** C2: mounting. When the module has set up its address areas, the options of a
    mount name an address and a size and no block device, the kernel maps the area
    and the area has room on one node for an inode and four pages,
    [rdfs_fill_super] returns 0 with the root directory in place: the filesystem
    represents a root with the names "." and ".." for itself and two links and
    nothing else; every slot from inode 2 on and every page but four is free, and
    all address areas of directories but the last are available. *)
Theorem mount_represents `{!Kzalloc} data sbi size sb w :
  (forall h, kzalloc h <> 0) -> nvmalloc_init DIR_AREAS nvm_reset = Ret (0, w_nvm w) ->
  mount_usual -> mount_options data = Some (sbi, size) -> mountable sbi size ->
  exists sb' s', rdfs_fill_super crc32 cpu kok inode_ptr phys0 env sb w data false = Ret (0, sb', s') /\
    s_root sb' = Some 1 /\ s_fs_info sb' = Info sbi /\
    slot_rep sbi (m_node sbi size) (m_slots sbi size) (seqZ 2 (m_slots sbi size)) s' a_root ∅ (drop 4 (m_pages sbi size)) (Nat.pred DIR_AREAS).
Proof using All.
  intros Hkz E Hu Ho MB. destruct (fresh_areas _ Hkz E) as (R & D & Hnv & Hrm & El). rewrite <- El.
  apply (mount_ok data sbi size sb w R (D, [])); try done; cbn [fst snd]; [by rewrite app_nil_r|]. rewrite El, dir_areas_eq. cbn. lia.
Qed.

(** C20: failed mounts. Without an address in front of the options, or when the
    area cannot be mapped, [rdfs_fill_super] returns 0, which is success, without
    a root directory; when an option is refused it returns 1, which is no error
    code either. In each case the super block super_keeps the pointer to its info,
    which has been freed. *)
Theorem mount_failures data sb w phys d1 sbi1 d2 : me_kzalloc env = true -> get_phys_addr data = (phys, d1) ->
  rdfs_get_init_size (set_phy_addr (set_default_opts zero_sbi) phys) d1 = (sbi1, d2) ->
  let size := initsize sbi1 in
  let va := me_ioremap env phys size in
  let failed r := rdfs_fill_super crc32 cpu kok inode_ptr phys0 env sb w data false = Ret (r, set_s_info Freed sb, mk_fs w ∅) in
  (phys = ULLONG_MAX -> failed 0) /\
  (phys <> ULLONG_MAX -> me_request env phys size = false \/ va = 0 -> failed 0) /\
  (forall err sbi, phys <> ULLONG_MAX -> me_request env phys size = true -> va <> 0 -> has_bdev d2 = false ->
     rdfs_parse_options d2 (set_bdev_count 0 (set_virt_addr (default_sbi sbi1) va)) false = (err, sbi) -> err <> 0 -> failed 1).
Proof using Type.
  intros Hk Ep Ei size va failed. destruct (init_size_ok _ _ _ _ Ei ltac:(cbn; lia)) as (_ & I2 & _). cbn [phy_addr set_phy_addr] in I2.
  assert (Ed : set_disks (w_disks w) w = w) by (by destruct w).
  unfold failed, rdfs_fill_super. rewrite Hk, Ep, Ei, I2. cbn [negb]. fold (default_sbi sbi1). unfold rdfs_ioremap.
  change (phy_addr (default_sbi sbi1)) with (phy_addr sbi1). rewrite I2. change (initsize (default_sbi sbi1)) with size. fold va.
  split; [|split].
  - intros ->. done.
  - intros Hp%Z.eqb_neq Hf. rewrite Hp. destruct (me_request env phys size) eqn:Er; [|done]. destruct Hf as [|Hv]; [done|]. cbn. by rewrite Hv.
  - intros err sbi Hp%Z.eqb_neq Hr Hv%Z.eqb_neq Hb E He%Z.eqb_neq. rewrite Hp, Hr. cbn [negb virt_addr set_virt_addr]. rewrite Hv, (get_bdev_none _ _ _ _ Hb).
    cbn [Z.eqb]. rewrite E, He. cbn [negb]. by rewrite Ed.
Qed.

(** A root slot with a wrong sum. Mounting uses the result of [rdfs_iget]
    before it tests it, so when the sum of the root's slot does not match, the
    mount writes through an error pointer. *)
Theorem mount_bad_sum sb sbi w lock i0 : me_root env = Some (i0, true) ->
  let m := st 8 (w_mem w) (virt_addr sbi + super_block_off.p_address_to_ino) (u64 (virt_addr sbi + PAGE_SIZE)) in
  rdfs_calc_checksum crc32 m (get_rdfs_inode m sbi 1) RDFS_INODE_SIZE <> 0 ->
  setup_sb crc32 cpu kok inode_ptr phys0 env sb sbi w lock = Oops.
Proof using Type.
  intros Hr m Hs. unfold setup_sb, rdfs_get_super. fold m. rewrite Hr. unfold rdfs_iget. cbn [negb]. change RDFS_ROOT_INO with 1.
  destruct (get_rdfs_inode m sbi 1 =? 0); [done|]. unfold rdfs_read_inode. destruct lock; [done|]. by rewrite (proj2 (Z.eqb_neq _ _) Hs).
Qed.
End fill_super.

(** ** On a small area *)

#[local] Existing Instance x86_pg.
#[local] Existing Instance demo_kernel.
#[local] Existing Instance nm_acl.

Definition mt_env : mount_env :=
  mk_menv true 7 0 0 (fun _ _ => true) (fun _ _ => 0x20000000) (fun _ => None) 99 (rdfs_alloc_inode (Some blank) ≫= fun i => Some (i, true)) true.
Definition mt_crc (l : list Z) : Z := foldr (fun x y => x + 3 * y) 0 l.
Definition mt_data : option (list Z) := Some (chars "physaddr=268435456,init=131072"%string).
Definition mt_size : Z := 131072.
Definition mt_sbi : rdfs_sb_info := mk_sbi 0x20000000 268435456 0 0 0 0 131072 16 0 0 0x3ff 7 0 0.
Definition mt_sb : super_block := mk_sb 0 0 0 0 0 0 None NoInfo.
Definition mt_world (nv : nvm_state) : world := mk_world ∅ (mk_kmm ∅ ∅) nv ∅ (mk_pte_page 0 0) [].

Lemma mt_usual : mount_usual mt_env.
Proof. split; try reflexivity. by eexists. Qed.

Lemma mt_options : mount_options mt_env mt_data = Some (mt_sbi, mt_size).
Proof. vm_compute. reflexivity. Qed.

Lemma mt_mountable : mountable mt_sbi mt_size.
Proof.
  split.
  - split; cbn; unfold mt_size; lia.
  - split; vm_compute; repeat split; congruence.
  - left. vm_compute. reflexivity.
  - vm_compute. congruence.
  - vm_compute. congruence.
  - vm_compute. lia.
Qed.

Lemma mount_represents_witness :
  exists nv sb s, nvmalloc_init DIR_AREAS nvm_reset = Ret (0, nv) /\
    rdfs_fill_super mt_crc 0 nm_kok nm_ptr 0 mt_env mt_sb (mt_world nv) mt_data false = Ret (0, sb, s) /\ s_root sb = Some 1.
Proof.
  destruct (nvmalloc_init_ok top_kzalloc_ok) as (nv & R & D & E & _).
  destruct (mount_represents mt_crc 0 nm_kok nm_ptr 0 mt_env (fun _ _ => eq_refl) mt_data mt_sbi mt_size mt_sb (mt_world nv) top_kzalloc_ok E
    mt_usual mt_options mt_mountable) as (sb & s & E2 & Er & _). exists nv, sb, s. split; [exact E|]. split; [exact E2|exact Er].
Defined.

(** Mounted with three areas. *)
Lemma mt_mounted : exists sb s, rdfs_fill_super mt_crc 0 nm_kok nm_ptr 0 mt_env mt_sb (mt_world nm_nvm) mt_data false = Ret (0, sb, s) /\
  slot_rep mt_sbi (m_node mt_sbi mt_size) 8 (seqZ 2 8) s a_root ∅ (drop 4 (m_pages mt_sbi mt_size)) 3.
Proof.
  destruct (mount_ok mt_crc 0 nm_kok nm_ptr 0 mt_env (fun _ _ => eq_refl) mt_data mt_sbi mt_size mt_sb (mt_world nm_nvm) ([], []) (nm_cells, [])
    mt_usual mt_options mt_mountable nm_areas) as (sb & s & E & _ & _ & HR).
  - repeat constructor; vm_compute; congruence.
  - cbn. lia.
  - exists sb, s. split; [exact E|exact HR].
Qed.

Definition mt_new : new_env := mk_env (Some (nm_inode 0 0 1 0 0)) true 7 0 0 0 false None true.
Lemma mt_new_usual : usual mt_new (nm_inode 0 0 1 0 0).
Proof. split; try reflexivity. cbn. lia. Qed.
Lemma mt_live : live_dir a_root 1 (dots 1 1).
Proof. split; [reflexivity|by vm_compute]. Qed.

#[local] Instance mt_node : Node mt_sbi mt_size (m_node mt_sbi mt_size) := m_node_ok mt_sbi mt_size mt_mountable.

(** A file and a directory created in the root of the new filesystem. *)
Lemma create_refines_witness :
  exists sb s nf' a' l', rdfs_fill_super mt_crc 0 nm_kok nm_ptr 0 mt_env mt_sb (mt_world nm_nvm) mt_data false = Ret (0, sb, s) /\
    rdfs_create mt_sbi 0 nm_kok 12 nm_ptr (mk_nfs s 0 7) 1 [97] REG_MODE mt_new 0 = Ret (0, nf') /\
    slot_rep mt_sbi (m_node mt_sbi mt_size) 8 (seqZ 3 7) (n_fs nf') a' ∅ l' 3 /\ a' ≡ a_create 2 1 [97] a_root /\ a_sizes a' !! 2 = Some 0.
Proof.
  destruct mt_mounted as (sb & s & E & HR).
  destruct (create_refines mt_sbi mt_size (m_node mt_sbi mt_size) 8 (m_slots_ok _ _ mt_mountable) (m_gap _ _ mt_mountable) (mb_count _ _ mt_mountable)
    0 nm_kok 12 nm_ptr (fun _ _ => eq_refl) (mk_nfs s 0 7) 1 (dots 1 1) [97] REG_MODE mt_new (nm_inode 0 0 1 0 0) 0 a_root 2 (seqZ 3 7)
    0x10008000 0x10009000 0x1000a000 0x1000b000 (drop 8 (m_pages mt_sbi mt_size)) 3 4096) as (nf' & a' & l' & E2 & HR2 & Ha & Hgr & _).
  - exact HR.
  - lia.
  - exact mt_live.
  - reflexivity.
  - unfold PAGE_SIZE. lia.
  - exact mt_new_usual.
  - apply name_ok_b. reflexivity.
  - reflexivity.
  - exists sb, s, nf', a', l'. split; [exact E|]. split; [exact E2|]. split; [exact HR2|]. split; [exact Ha|].
    destruct Hgr as (z' & _ & ->). rewrite lookup_insert_ne by done. apply lookup_insert_eq.
Defined.

Lemma mkdir_refines_witness :
  exists sb s nf' a' l', rdfs_fill_super mt_crc 0 nm_kok nm_ptr 0 mt_env mt_sb (mt_world nm_nvm) mt_data false = Ret (0, sb, s) /\
    rdfs_mkdir mt_sbi 0 nm_kok 12 nm_ptr (mk_nfs s 0 7) 1 [97] 0x1ed mt_new 0 = Ret (0, nf') /\
    slot_rep mt_sbi (m_node mt_sbi mt_size) 8 (seqZ 3 7) (n_fs nf') a' ∅ l' 3 /\ a' ≡ a_mkdir 2 1 [97] a_root /\ a_sizes a' !! 2 = Some PAGE_SIZE.
Proof.
  destruct mt_mounted as (sb & s & E & HR).
  destruct (mkdir_refines mt_sbi mt_size (m_node mt_sbi mt_size) 8 (m_slots_ok _ _ mt_mountable) (m_gap _ _ mt_mountable) (mb_count _ _ mt_mountable)
    0 nm_kok 12 nm_ptr (fun _ _ => eq_refl) (mk_nfs s 0 7) 1 (dots 1 1) [97] 0x1ed mt_new (nm_inode 0 0 1 0 0) 0 a_root 2 (seqZ 3 7)
    0x10008000 0x10009000 0x1000a000 0x1000b000 0x1000c000 (drop 9 (m_pages mt_sbi mt_size)) 3 4096) as (nf' & a' & l' & E2 & HR2 & Ha & Hgr & _).
  - exact HR.
  - lia.
  - exact mt_live.
  - reflexivity.
  - unfold PAGE_SIZE. lia.
  - exact mt_new_usual.
  - lia.
  - apply name_ok_b. reflexivity.
  - reflexivity.
  - exists sb, s, nf', a', l'. split; [exact E|]. split; [exact E2|]. split; [exact HR2|]. split; [exact Ha|].
    destruct Hgr as (z' & _ & ->). rewrite lookup_insert_ne by done. apply lookup_insert_eq.
Defined.

(** A mount with an unknown option. *)
Lemma mount_failures_witness :
  rdfs_fill_super mt_crc 0 nm_kok nm_ptr 0 mt_env mt_sb (mt_world nm_nvm) (Some (chars "physaddr=4096,init=8192,acl"%string)) false
  = Ret (1, set_s_info Freed mt_sb, mk_fs (mt_world nm_nvm) ∅).
Proof.
  refine (proj2 (proj2 (mount_failures mt_crc 0 nm_kok nm_ptr 0 mt_env (Some (chars "physaddr=4096,init=8192,acl"%string)) mt_sb (mt_world nm_nvm) 4096
    (Some (chars "init=8192,acl"%string)) (set_initsize (set_phy_addr (set_default_opts zero_sbi) 4096) 8192) (Some (chars "acl"%string)) _ _ _)) (- EINVAL) _ _ _ _ _ _ _);
    try (vm_compute; reflexivity); vm_compute; congruence.
Defined.

(** The area just mounted, mounted again as it is: making the root directory wrote
    its slot without its sum. *)
Definition mt_again : option world :=
  match rdfs_fill_super mt_crc 0 nm_kok nm_ptr 0 mt_env mt_sb (mt_world nm_nvm) mt_data false with
  | Ret (_, _, s) => Some (f_world s)
  | Oops => None
  end.

Lemma mount_bad_sum_witness :
  match mt_again with
  | Some w => setup_sb mt_crc 0 nm_kok nm_ptr 0 mt_env mt_sb mt_sbi w false = Oops
  | None => False
  end.
Proof.
  assert (H : match mt_again with
              | Some w => negb (let m := st 8 (w_mem w) (virt_addr mt_sbi + super_block_off.p_address_to_ino) (u64 (virt_addr mt_sbi + PAGE_SIZE)) in
                  rdfs_calc_checksum mt_crc m (get_rdfs_inode m mt_sbi 1) RDFS_INODE_SIZE =? 0) = true
              | None => False end) by (vm_compute; reflexivity).
  destruct mt_again as [w|]; [|destruct H].
  refine (mount_bad_sum mt_crc 0 nm_kok nm_ptr 0 mt_env mt_sb mt_sbi w false (set_ni_pg_addr 0 blank) eq_refl _).
  apply Z.eqb_neq. apply negb_true_iff. exact H.
Defined.

(** An area that was mounted cannot be mounted again without formatting. *)
Example second_mount_faults :
  match mt_again with
  | Some w => rdfs_fill_super mt_crc 0 nm_kok nm_ptr 0 mt_env mt_sb w (Some (chars "physaddr=268435456"%string)) false = Oops
  | None => False
  end.
Proof. vm_compute. reflexivity. Qed.
