(* ===== verification/Client.v ===== *)
(** * The client library (rdfs_client/rdfs.cpp)

    A client asks the user-space server to open and close files and the master for
    their inodes and blocks, and keeps a map of its open files.  It exchanges
    structs of its own size, 1032 bytes, with a server whose structs have 1028
    and a master whose structs have 4104; the connections are streams of bytes,
    from which each side takes as much as its struct holds.  The theorems put
    [Server] and [Service] in the peers' places. *)

From S2P Require Import Prelude Mem Text Layout Vfs Pgtable SlaveMem Mapping Inode FileData Protocol Service Server.

(** What a call of the library comes to: it returns, waits for bytes that never
    come, or leaves its arrays. *)
Inductive run (A : Type) := Done (a : A) | Waits | Crash.
Arguments Done {A} a.
Arguments Waits {A}.
Arguments Crash {A}.

#[global] Instance run_bind : MBind run := fun A B f r => match r with Done a => f a | Waits => Waits | Crash => Crash end.
Definition lift {A} (o : outcome A) : run A := match o with Ret a => Done a | Oops => Crash end.

Ltac run_step := cbn [lift mbind run_bind].

Record rdfs_file := mk_file { inode_ino : Z; file_size : Z; file_offset : Z }.

(** The two sockets, file_map, and the bytes that have arrived on each socket. *)
Record client := mk_client {
  master_kernel_sock_fd : Z;
  master_userspace_sock_fd : Z;
  file_map : gmap Z rdfs_file;
  kernel_in : list Z;
  user_in : list Z
}.

(** ** struct rdfs_message as bytes: m_type, m_data, nums *)

Definition CLIENT_FRAME : nat := frame_size CLIENT_MAX.

Definition set_type (t : Z) (buf : list Z) : list Z := word_bytes 4 t ++ drop 4 buf.

(** sprintf into m_data *)
Definition set_text (text buf : list Z) : run (list Z) :=
  if (length text <? CLIENT_MAX)%nat then Done (take 4 buf ++ text ++ 0 :: drop (5 + length text) buf) else Crash.

Definition get_text (buf : list Z) : run (list Z) :=
  let data := take CLIENT_MAX (drop 4 buf) in
  if bool_decide (0 ∈ data) then Done (c_string data) else Crash.

Definition get_nums (buf : list Z) : Z := s32 (bytes_word (take 4 (drop (4 + CLIENT_MAX) buf))).

(** recv of at most [size] bytes into [buf] *)
Definition recv_data (size : nat) (stream buf : list Z) : run (list Z * list Z) :=
  if bool_decide (stream = []) then Waits
  else
    let bs := take size stream in
    if (length buf <? length bs)%nat then Crash else Done (bs ++ drop (length bs) buf, drop size stream).

(** ** The library *)

Section client.
(** The peers: from a state and the bytes sent to it, the next state and the bytes
    it sends back. *)
Context {U K : Type} (user : U -> list Z -> outcome (U * list Z)) (kernel : K -> list Z -> outcome (K * list Z)).

(** [kfd], [ufd]: what the two calls of rdfs_connect return.  The result: the return
    value, the slaves connected to, the client and the master. *)
Definition rdfsConnect (kfd ufd : Z) (k : K) : run (Z * list slave_addr * client * K) :=
  if kfd =? -1 then Done (-1, [], mk_client kfd 0 ∅ [] [], k)
  else
    '(k, stream) ← lift (kernel k (frame CLIENT_MAX (mk_msg CLIENT_SERACH_SLAVE_INFO [] 0)));
    match client_recv_slaves (length stream) stream with
    | None => Waits
    | Some Oops => Crash
    | Some (Ret (slaves, rest)) => Done (if ufd <=? 0 then -1 else 0, slaves, mk_client kfd ufd ∅ rest [], k)
    end.

(** [junk]: what message holds before it is written.  The reply overwrites the
    request, its type included; insert does nothing to a descriptor that is in
    the map. *)
Definition rdfsOpenFile (junk : list Z) (u : U) (k : K) (c : client) (path : list Z) (flags : Z) : run (Z * client * U * K) :=
  buf ← set_text (print_list [print_d flags; print_d 420; path]) (set_type RDFS_CLIENT_OPEN junk);
  '(u, r) ← lift (user u buf);
  '(buf, user_in) ← recv_data CLIENT_FRAME (user_in c ++ r) buf;
  text ← get_text buf;
  let open_fd := match (scan_list [CD] text).1 with [fd] => s32 fd | _ => 0 end in
  buf ← set_text path buf;
  '(k, r) ← lift (kernel k buf);
  '(buf, kernel_in) ← recv_data CLIENT_FRAME (kernel_in c ++ r) buf;
  text ← get_text buf;
  let '(ino, size) := match (scan_list [CD; CD] text).1 with
                      | [ino; size] => (s32 ino, s64 size)
                      | [ino] => (s32 ino, 10)
                      | _ => (1, 10)
                      end in
  let files := match file_map c !! open_fd with Some _ => file_map c | None => <[open_fd := mk_file ino size 0]> (file_map c) end in
  Done (open_fd, mk_client (master_kernel_sock_fd c) (master_userspace_sock_fd c) files kernel_in user_in, u, k).

(** A descriptor that is not in the map dereferences file_map.end(). *)
Definition rdfsCloseFile (junk : list Z) (u : U) (c : client) (rdfs_fd : Z) : run (Z * client * U) :=
  buf ← set_text (print_d rdfs_fd) (set_type RDFS_CLIENT_CLOSE junk);
  '(u, r) ← lift (user u buf);
  '(buf, user_in) ← recv_data CLIENT_FRAME (user_in c ++ r) buf;
  _ ← get_text buf;
  match file_map c !! rdfs_fd with
  | None => Crash
  | Some _ => Done (0, mk_client (master_kernel_sock_fd c) (master_userspace_sock_fd c) (delete rdfs_fd (file_map c)) (kernel_in c) user_in, u)
  end.

(** The segments of a reply; the text behind the fourth number is copied to [s]. *)
Fixpoint io_loop (n : nat) (p s : list Z) : list (list Z) :=
  match n with
  | O => []
  | S n' =>
      let '(vs, rest) := scan_list [CD; CD; CD; CD] p in
      let s := match vs, rest with
               | [_; _; _; _], x :: rest' =>
                   let w := (take_word (skip_spaces rest')).1 in
                   if (x =? colon) && negb (bool_decide (w = [])) then w else s
               | _, _ => s
               end in
      vs :: io_loop n' s s
  end.

(** sizeof(struct rdfs_search_message) *)
Definition SEARCH_FRAME : nat := 8 + 4 * 1024 * 8.

(** The answer is received as a struct rdfs_search_message into a struct
    rdfs_message.  The result: the length, the segments read, the client and the
    master; no data is transferred. *)
Definition rdfs_io (junk : list Z) (k : K) (c : client) (rdfs_fd length offset : Z) (s : list Z) : run (Z * list (list Z) * client * K) :=
  match file_map c !! rdfs_fd with
  | None => Crash
  | Some f =>
      buf ← set_text (print_list [print_d (inode_ino f); print_d (s64 offset); print_d (s64 length)]) (set_type RDFS_CLIENT_WRITE junk);
      '(k, r) ← lift (kernel k buf);
      '(buf, kernel_in) ← recv_data SEARCH_FRAME (kernel_in c ++ r) buf;
      text ← get_text buf;
      Done (s32 length, io_loop (Z.to_nat (get_nums buf)) text s,
            mk_client (master_kernel_sock_fd c) (master_userspace_sock_fd c) (file_map c) kernel_in (user_in c), k)
  end.

Definition rdfsWrite (junk : list Z) (k : K) (c : client) (rdfs_fd length offset : Z) (s : list Z) := rdfs_io junk k c rdfs_fd length offset s.
Definition rdfsRead (junk : list Z) (k : K) (c : client) (rdfs_fd length offset : Z) (s : list Z) := rdfs_io junk k c rdfs_fd length offset s.
End client.

(** ** The server as a peer *)

(** The server's struct has no nums; the text is all that is read of a message. *)
Definition server_frame (m : message) : list Z :=
  word_bytes 4 (m_type m) ++ m_data m ++ replicate (1024 - length (m_data m)) 0.
Definition server_unframe (bs : list Z) : message :=
  mk_msg (bytes_word (take 4 bs)) (c_string (take 1024 (drop 4 bs))) 0.

(** The event loop serves connection [k] until no byte of [inb] is left to read;
    every request takes three rounds. [res]: what open returns. *)
Fixpoint server_run (fuel : nat) (k : nat) (res : Z) (s : server) (inb : list Z) : outcome (server * list Z) :=
  match fuel with
  | O => Ret (s, [])
  | S fuel =>
      match g_events s !! k with
      | None => Oops
      | Some ev =>
          match call_back ev with
          | rdfs_send_data_cb =>
              let '(s, m) := rdfs_send_data s k ev MESSAGE_SIZE in
              '(s, out) ← server_run fuel k res s inb; Ret (s, server_frame m ++ out)
          | _ =>
              if bool_decide (inb = []) then Ret (s, [])
              else
                let bs := take (Z.to_nat MESSAGE_SIZE) inb in
                s ← rdfs_recv_data s k ev (Z.of_nat (length bs)) (server_unframe bs) res;
                server_run fuel k res s (drop (Z.to_nat MESSAGE_SIZE) inb)
          end
      end
  end.

(** ** The master as a peer *)

Section master.
Context `{!KernelPg} (sbi : rdfs_sb_info) (cpu : Z) (pud_alloc_ok : Z -> bool) (s_blocksize_bits : Z) (crc32 : list Z -> Z).
Context (filp_open : list Z -> Z -> Z -> option inode).

(** The request is received into a cleared struct and queued at the fresh address
    [p]; the worker answers it. *)
Definition master_peer (p sock : Z) (ms : mstate) (bs : list Z) : outcome (mstate * list Z) :=
  ts ← Service.rdfs_process_request (ms_tasks ms) p sock (unframe MASTER_MAX bs);
  '(ms, out) ← rdfs_process_task sbi cpu pud_alloc_ok s_blocksize_bits crc32 filp_open (mk_mstate (ms_world ms) (ms_inodes ms) (ms_slaves ms) ts);
  Ret (ms, concat (frame MASTER_MAX <$> out.*2)).
End master.

(** ** A struct with a text *)

(** The type, the text with its NUL, and whatever follows. *)
Definition struct_of (t : Z) (text tail : list Z) : list Z := word_bytes 4 t ++ text ++ 0 :: tail.

Lemma c_string_stop text tail n : no_nul text -> (length text < n)%nat -> c_string (take n (text ++ 0 :: tail)) = text.
Proof.
  intros Ht. revert n. induction Ht as [|b text Hb Ht IH]; intros n Hn; (destruct n as [|n]; [cbn in Hn; lia|]); cbn; [done|].
  rewrite (proj2 (Z.eqb_neq b 0)) by done. f_equal. apply IH. cbn in Hn. lia.
Qed.

Lemma length_struct t text tail : length (struct_of t text tail) = (5 + length text + length tail)%nat.
Proof. unfold struct_of. rewrite !length_app, length_word_bytes. cbn [length]. lia. Qed.

Lemma struct_data t text tail : drop 4 (struct_of t text tail) = text ++ 0 :: tail.
Proof. unfold struct_of. apply drop_app_length'. by rewrite length_word_bytes. Qed.

Lemma struct_type t text tail : take 4 (struct_of t text tail) = word_bytes 4 t.
Proof. unfold struct_of. apply take_app_length'. by rewrite length_word_bytes. Qed.

Lemma get_text_struct t text tail : no_nul text -> (length text < CLIENT_MAX)%nat -> get_text (struct_of t text tail) = Done text.
Proof.
  intros Ht Hl. unfold get_text. rewrite struct_data, c_string_stop by done. rewrite bool_decide_eq_true_2; [done|].
  apply list_elem_of_lookup_2 with (length text). rewrite lookup_take_lt by done. by rewrite list_lookup_middle.
Qed.

Lemma set_text_struct t text text' tail : (length text' < CLIENT_MAX)%nat -> (length (struct_of t text tail) = CLIENT_FRAME)%nat ->
  exists tail', set_text text' (struct_of t text tail) = Done (struct_of t text' tail') /\ length (struct_of t text' tail') = CLIENT_FRAME.
Proof.
  intros Hl Hf. unfold set_text. rewrite (proj2 (Nat.ltb_lt _ _)) by done. rewrite struct_type. eexists. split; [reflexivity|].
  rewrite length_struct, length_drop, Hf. unfold CLIENT_FRAME, frame_size, CLIENT_MAX in *. lia.
Qed.

Lemma set_text_new t text junk : (length text < CLIENT_MAX)%nat -> length junk = CLIENT_FRAME ->
  exists tail, set_text text (set_type t junk) = Done (struct_of t text tail) /\ length (struct_of t text tail) = CLIENT_FRAME.
Proof.
  intros Hl Hf. unfold set_text, set_type. rewrite (proj2 (Nat.ltb_lt _ _)) by done.
  rewrite take_app_length' by (by rewrite length_word_bytes). eexists. split; [reflexivity|].
  rewrite length_struct, length_drop, length_app, length_word_bytes, length_drop, Hf. unfold CLIENT_FRAME, frame_size, CLIENT_MAX in *. lia.
Qed.

(** The server's answer is shorter than the client's struct. *)
Lemma recv_answer buf text : length buf = CLIENT_FRAME -> (length text < 1024)%nat ->
  exists tail, recv_data CLIENT_FRAME (server_frame (mk_msg 0 text 0)) buf = Done (struct_of 0 text tail, []) /\
    length (struct_of 0 text tail) = CLIENT_FRAME.
Proof.
  intros Hb Hl. set (z := (1023 - length text)%nat).
  assert (Es : server_frame (mk_msg 0 text 0) = struct_of 0 text (replicate z 0)).
  { unfold server_frame, struct_of. cbn [m_type m_data]. replace (1024 - length text)%nat with (S z) by lia. done. }
  assert (Hn : length (struct_of 0 text (replicate z 0)) = 1028%nat) by (rewrite length_struct, length_replicate; lia).
  rewrite Es. unfold recv_data. rewrite bool_decide_eq_false_2 by done.
  rewrite (take_ge (struct_of _ _ _)) by (rewrite Hn; unfold CLIENT_FRAME, frame_size, CLIENT_MAX; lia).
  rewrite (drop_ge (struct_of _ _ _)) by (rewrite Hn; unfold CLIENT_FRAME, frame_size, CLIENT_MAX; lia).
  rewrite Hn, Hb. change (CLIENT_FRAME <? 1028)%nat with false. cbv iota.
  exists (replicate z 0 ++ drop 1028 buf). split.
  - unfold struct_of. by rewrite <- !app_assoc.
  - rewrite length_struct, length_app, length_replicate, length_drop, Hb. unfold CLIENT_FRAME, frame_size, CLIENT_MAX. lia.
Qed.

(** The client receives padding. *)
Lemma recv_padding n rest buf : length buf = CLIENT_FRAME -> (1032 <= n)%nat ->
  recv_data CLIENT_FRAME (replicate n 0 ++ rest) buf = Done (replicate 1032 0, replicate (n - 1032) 0 ++ rest).
Proof.
  intros Hb Hn. unfold recv_data. change CLIENT_FRAME with 1032%nat in *. rewrite bool_decide_eq_false_2 by (destruct n; [lia|done]).
  rewrite take_app_le, drop_app_le by (rewrite length_replicate; lia). rewrite take_replicate, drop_replicate, length_replicate.
  replace (1032 `min` n)%nat with 1032%nat by lia. rewrite Hb, Nat.ltb_irrefl, (drop_ge buf), app_nil_r by lia. done.
Qed.

Lemma get_text_padding : get_text (replicate 1032 0) = Done [].
Proof. unfold get_text. rewrite drop_replicate, take_replicate. unfold CLIENT_MAX. rewrite bool_decide_eq_true_2; [done|]. apply elem_of_replicate. split; [done|]. cbn. lia. Qed.

(** ** The server's rounds *)

(** The server takes all of a request but its last four bytes. *)
Lemma server_unframe_struct t text tail : 0 <= t < 2 ^ 31 -> no_nul text -> (length text < 1024)%nat ->
  length (struct_of t text tail) = CLIENT_FRAME ->
  server_unframe (take 1028 (struct_of t text tail)) = mk_msg t text 0 /\
  length (take 1028 (struct_of t text tail)) = 1028%nat /\ length (drop 1028 (struct_of t text tail)) = 4%nat.
Proof.
  intros Ht Hn Hl Hf. change CLIENT_FRAME with 1032%nat in Hf. split; [|rewrite length_take, length_drop, Hf; lia].
  unfold server_unframe. f_equal.
  - rewrite take_take. change (4 `min` 1028)%nat with 4%nat. rewrite struct_type, bytes_word_bytes. apply Z.mod_small. change (256 ^ Z.of_nat 4) with (2 ^ 32). lia.
  - rewrite take_drop_commute, take_take. change ((4 + 1024) `min` 1028)%nat with (4 + 1024)%nat. rewrite <- take_drop_commute, struct_data. by apply c_string_stop.
Qed.

(** A connection that is back to receiving, with the open files [o]. *)
Definition idle (s s' : server) (k : nat) (fd : Z) (o : gset Z) : Prop :=
  server_ok s' /\ receiving s' k fd /\ opened s' = o /\ socks s' = socks s /\ global_epoll_fd s' = global_epoll_fd s.

(** After the request's own round: the answer is sent, and the last four bytes of the
    request are read and dropped. *)
Lemma server_finish s k fd m tail res : server_ok s -> answering s k fd m -> length tail = 4%nat ->
  exists s', server_run 3 k res s tail = Ret (s', server_frame (mk_msg 0 (m_data m) 0)) /\ idle s s' k fd (opened s).
Proof.
  intros Hok (ev & Hk & Hs & Hcb & Hfd & Hm) Ht. destruct (send_turn s k ev Hok Hk Hs Hcb) as (s1 & E1 & Hok1 & (ev1 & Hk1 & Hs1 & Hcb1 & Hfd1) & Ho1 & Hsk1 & Hg1).
  destruct (short_turn s1 k ev1 4 (server_unframe tail) res Hok1 Hk1 Hs1 Hcb1) as (s2 & E2 & Hok2 & Hr2 & Ho2 & Hsk2 & Hg2).
  { done. }
  exists s2. split.
  - cbn [server_run]. rewrite Hk, Hcb, E1, Hk1, Hcb1. rewrite bool_decide_eq_false_2 by (by destruct tail).
    change (Z.to_nat MESSAGE_SIZE) with 1028%nat. rewrite (take_ge tail), (drop_ge tail) by lia. rewrite Ht. change (Z.of_nat 4) with 4. rewrite E2. cbn [mbind outcome_bind].
    destruct Hr2 as (ev2 & Hk2 & _ & Hcb2 & _). rewrite Hk2, Hcb2. rewrite bool_decide_eq_true_2 by done. cbn [mbind outcome_bind]. by rewrite app_nil_r, Hm.
  - rewrite Hfd1 in Hr2. rewrite Hfd in Hr2. split; [done|]. split; [done|]. split_and!; congruence.
Qed.

Lemma server_run_recv fuel k res s ev t text tail s1 : 0 <= t < 2 ^ 31 -> no_nul text -> (length text < 1024)%nat ->
  length (struct_of t text tail) = CLIENT_FRAME -> g_events s !! k = Some ev -> call_back ev = rdfs_recv_data_cb ->
  rdfs_recv_data s k ev MESSAGE_SIZE (mk_msg t text 0) res = Ret s1 ->
  server_run (S fuel) k res s (struct_of t text tail) = server_run fuel k res s1 (drop 1028 (struct_of t text tail)).
Proof.
  intros Ht Hn Hl Hf Hk Hcb E. destruct (server_unframe_struct t text tail Ht Hn Hl Hf) as (E1 & E2 & _).
  cbn [server_run]. rewrite Hk, Hcb, bool_decide_eq_false_2 by done. change (Z.to_nat MESSAGE_SIZE) with 1028%nat.
  rewrite E2, E1. change (Z.of_nat 1028) with MESSAGE_SIZE. rewrite E. done.
Qed.

Lemma server_opens s k fd text tail res : server_ok s -> receiving s k fd -> no_nul text -> (length text < 1024)%nat ->
  length (struct_of RDFS_CLIENT_OPEN text tail) = CLIENT_FRAME -> open_fields (mk_msg RDFS_CLIENT_OPEN text 0) = true -> 0 <= res ->
  exists s', server_run 4 k res s (struct_of RDFS_CLIENT_OPEN text tail) = Ret (s', server_frame (mk_msg 0 (print_d res) 0)) /\
    idle s s' k fd (opened s ∪ {[res]}).
Proof.
  intros Hok (ev & Hk & Hs & Hcb & Hfd) Hn Hl Hf Ho Hr.
  destruct (open_turn s k ev (mk_msg RDFS_CLIENT_OPEN text 0) res) as (s1 & E1 & Hok1 & Ha1 & Ho1 & Hs1 & Hg1); try done; [by apply Nat.ltb_lt|].
  destruct (server_unframe_struct RDFS_CLIENT_OPEN text tail) as (_ & _ & E3); try done.
  destruct (server_finish s1 k (ev_fd ev) _ _ res Hok1 Ha1 E3) as (s2 & E2 & H1 & H2 & H3 & H4 & H5).
  exists s2. rewrite (server_run_recv 3 k res s ev RDFS_CLIENT_OPEN text tail s1) by done. split; [exact E2|].
  rewrite Hfd in H2. split; [done|]. split; [done|]. split_and!; congruence.
Qed.

Lemma server_closes s k fd x tail res : server_ok s -> receiving s k fd -> 0 <= x < 2 ^ 31 -> x ∈ opened s -> x ∉ socks s ->
  global_epoll_fd s <> Some x -> length (struct_of RDFS_CLIENT_CLOSE (print_d x) tail) = CLIENT_FRAME ->
  exists s', server_run 4 k res s (struct_of RDFS_CLIENT_CLOSE (print_d x) tail) = Ret (s', server_frame (mk_msg 0 (print_d 0) 0)) /\
    server_ok s' /\ receiving s' k fd /\ opened s' = opened s ∖ {[x]}.
Proof.
  intros Hok (ev & Hk & Hs & Hcb & Hfd) Hx Ho Hn Hg Hf. pose proof (length_print_d x 10 ltac:(lia) ltac:(lia)) as Hl. pose proof (print_d_no_nul x) as Hnn.
  destruct (close_turn s k ev x res) as (s1 & E1 & Hok1 & Ha1 & Ho1); try done.
  destruct (server_unframe_struct RDFS_CLIENT_CLOSE (print_d x) tail) as (_ & _ & E3); try done; [lia|].
  destruct (server_finish s1 k (ev_fd ev) _ _ res Hok1 Ha1 E3) as (s2 & E2 & H1 & H2 & H3 & H4 & H5).
  exists s2. rewrite (server_run_recv 3 k res s ev RDFS_CLIENT_CLOSE (print_d x) tail s1) by (done || lia). split; [exact E2|].
  rewrite Hfd in H2. split; [done|]. split; [done|]. congruence.
Qed.

(** ** The master's answers *)

Definition path_ok (path : list Z) : Prop := path <> [] /\ Forall (fun c => is_space c = false) path /\ no_nul path.

Lemma take_path path : path_ok path -> (take_word (skip_spaces path)).1 = path.
Proof.
  intros (Hne & Hp & _). assert (Hs : skip_spaces path = path).
  { destruct path as [|c p]; [done|]. apply Forall_cons in Hp as [Hc _]. cbn. by rewrite Hc. }
  rewrite Hs. clear Hs Hne. induction Hp as [|c p Hc Hp IH]; [done|]. cbn. rewrite Hc. destruct (take_word p) as [w r]. cbn in *. by rewrite IH.
Qed.

(** The slaves the master tells a client of. *)
Definition slave_addrs (ms : mstate) : list slave_addr :=
  (fun s => mk_addr (slave_id s) SLAVE_IP CLIENT_REGISTER_SLAVE_PORT) <$> take (Z.to_nat (ms_slaves ms)) (w_slaves (ms_world ms)).

Lemma queue_one ts p sock m : task_list ts = 0 -> p <> 0 ->
  exists mem, Service.rdfs_process_request ts p sock m = Ret (mk_tasks p mem) /\
    rdfs_remove_task (mk_tasks p mem) = Ret (p, mk_tasks 0 mem) /\ mem !! p = Some (mk_task m sock 0).
Proof.
  intros Ht Hp. exists (<[p := mk_task m sock 0]> (task_mem ts)). unfold Service.rdfs_process_request, rdfs_add_task, rdfs_remove_task.
  cbn [task_mem task_list]. rewrite lookup_insert_eq, Ht, (proj2 (Z.eqb_neq p 0)) by done. split; [done|]. split; [|done].
  cbn [t_next set_next t_message t_sock]. do 3 f_equal. apply insert_insert_eq.
Qed.

Section answers.
Context `{!KernelPg} (sbi : rdfs_sb_info) (cpu : Z) (pud_alloc_ok : Z -> bool) (s_blocksize_bits : Z) (crc32 : list Z -> Z).
Context (filp_open : list Z -> Z -> Z -> option inode).
Local Abbreviation peer := (master_peer sbi cpu pud_alloc_ok s_blocksize_bits crc32 filp_open).

Lemma master_lists p sock ms : task_list (ms_tasks ms) = 0 -> p <> 0 ->
  exists ms', peer p sock ms (frame CLIENT_MAX (mk_msg CLIENT_SERACH_SLAVE_INFO [] 0)) = Ret (ms', slave_stream (slave_addrs ms)) /\
    task_list (ms_tasks ms') = 0.
Proof.
  intros Ht Hp. unfold master_peer.
  assert (Eu : unframe MASTER_MAX (frame CLIENT_MAX (mk_msg CLIENT_SERACH_SLAVE_INFO [] 0)) = mk_msg CLIENT_SERACH_SLAVE_INFO [] 0) by (vm_compute; reflexivity).
  destruct (queue_one (ms_tasks ms) p sock (mk_msg CLIENT_SERACH_SLAVE_INFO [] 0) Ht Hp) as (mem & E1 & E2 & E3).
  rewrite Eu. rewrite E1. cbn [mbind outcome_bind]. unfold rdfs_process_task. cbn [ms_tasks]. rewrite E2. cbn [mbind outcome_bind task_mem].
  rewrite (proj2 (Z.eqb_neq p 0)), E3 by done. cbn [t_message t_sock m_type ms_world ms_inodes ms_slaves ms_tasks]. change (CLIENT_SERACH_SLAVE_INFO =? CLIENT_SERACH_SLAVE_INFO) with true. cbv iota.
  cbn [mbind outcome_bind]. rewrite <- (list_fmap_compose _ snd). change (snd ∘ _) with (@id message). rewrite list_fmap_id.
  eexists. split; [reflexivity|done].
Qed.

Lemma master_opens p sock ms path tail i : task_list (ms_tasks ms) = 0 -> p <> 0 -> path_ok path -> (length path < CLIENT_MAX)%nat ->
  path_to_inode filp_open path = Some i ->
  exists ms' r, peer p sock ms (struct_of RDFS_CLIENT_OPEN path tail) = Ret (ms', frame MASTER_MAX r) /\
    m_data r = print_list [print_d (s32 (i_ino i)); print_d (s64 (i_size i))].
Proof.
  intros Ht Hp Hpath Hl Hi. unfold master_peer. set (m := unframe MASTER_MAX _).
  assert (Em1 : m_type m = RDFS_CLIENT_OPEN) by (unfold m, unframe; cbn [m_type]; by rewrite struct_type).
  assert (Em2 : m_data m = path).
  { unfold m, unframe. cbn [m_data]. rewrite struct_data. apply c_string_stop; [by destruct Hpath as (_ & _ & ?)|]. unfold CLIENT_MAX, MASTER_MAX in *. lia. }
  clearbody m.
  destruct (queue_one (ms_tasks ms) p sock m Ht Hp) as (mem & E1 & E2 & E3).
  rewrite E1. cbn [mbind outcome_bind]. unfold rdfs_process_task. cbn [ms_tasks]. rewrite E2. cbn [mbind outcome_bind task_mem].
  rewrite (proj2 (Z.eqb_neq p 0)), E3 by done. cbn [t_message t_sock m_type ms_world ms_inodes ms_slaves ms_tasks]. rewrite Em1.
  change (RDFS_CLIENT_OPEN =? CLIENT_SERACH_SLAVE_INFO) with false. change (RDFS_CLIENT_OPEN =? RDFS_CLIENT_READ) with false.
  change (RDFS_CLIENT_OPEN =? RDFS_CLIENT_WRITE) with false. change (RDFS_CLIENT_OPEN =? RDFS_CLIENT_OPEN) with true. cbn [orb].
  unfold Service.rdfs_client_open. rewrite Em2, (take_path path Hpath), Hi. cbn [mbind outcome_bind].
  eexists _, _. split; [|]. { cbn [fmap list_fmap concat snd]. by rewrite app_nil_r. } done.
Qed.
End answers.

(** ** Connecting, opening and closing *)

Lemma union_minus (x : Z) (o : gset Z) : x ∉ o -> (o ∪ {[x]}) ∖ {[x]} = o.
Proof. set_solver. Qed.

Lemma open_text flags path : - 2 ^ 31 <= flags < 2 ^ 31 ->
  scan_list [CD; CD] (print_list [print_d flags; print_d 420; path]) = ([flags; 420], colon :: path).
Proof.
  intros Hf. destruct (scan_print_list [CD; CD] [flags; 420] [print_d flags; print_d 420] (colon :: path)) as [E|]; [..|done].
  - repeat constructor; lia.
  - done.
  - rewrite <- E. f_equal. cbn [print_list]. by rewrite <- app_assoc.
Qed.

Lemma open_text_fields flags path : - 2 ^ 31 <= flags < 2 ^ 31 -> path_ok path ->
  open_fields (mk_msg RDFS_CLIENT_OPEN (print_list [print_d flags; print_d 420; path]) 0) = true.
Proof.
  intros Hf Hp. unfold open_fields. cbn [m_data]. rewrite (open_text flags path Hf), (take_path path Hp).
  rewrite bool_decide_eq_false_2 by (by destruct Hp). done.
Qed.

Lemma reply_one n : - 2 ^ 31 <= n < 2 ^ 31 -> match (scan_list [CD] (print_d n)).1 with [fd] => s32 fd | _ => 0 end = n.
Proof.
  intros Hn. pose proof (scan_exact [CD] [n] [print_d n] ltac:(done) ltac:(repeat constructor; lia)) as E. cbn [print_list] in E. rewrite E. by apply s32_small.
Qed.

Lemma open_fits flags path : 0 <= flags < 2 ^ 31 -> (length path <= 1000)%nat ->
  (length (print_list [print_d flags; print_d 420; path]) < CLIENT_MAX)%nat.
Proof.
  intros Hf Hl. pose proof (length_print_d flags 10 ltac:(lia) ltac:(lia)) as H1.
  cbn [print_list]. rewrite length_app. change (length (colon :: ?l)) with (S (length l)). cbn [length]. rewrite length_app. cbn [length].
  change (length (print_d 420)) with 3%nat. unfold CLIENT_MAX. lia.
Qed.

Lemma open_text_no_nul flags path : path_ok path -> no_nul (print_list [print_d flags; print_d 420; path]).
Proof. intros (_ & _ & Hn). apply print_list_no_nul. repeat constructor; try apply print_d_no_nul; done. Qed.

Section open_close.
Context `{!KernelPg} (sbi : rdfs_sb_info) (cpu : Z) (pud_alloc_ok : Z -> bool) (s_blocksize_bits : Z) (crc32 : list Z -> Z).
Context (filp_open : list Z -> Z -> Z -> option inode).
Local Abbreviation master := (master_peer sbi cpu pud_alloc_ok s_blocksize_bits crc32 filp_open).
(** The server reads a request, answers it, and reads its last four bytes. *)
Local Abbreviation userspace k res := (server_run 4 k res).

Lemma connect_reads p sock kfd ufd ms a infos : task_list (ms_tasks ms) = 0 -> p <> 0 -> kfd <> -1 -> 0 < ufd ->
  slave_addrs ms = a :: infos -> Forall addr_ok (a :: infos) -> (length infos < 10)%nat ->
  exists ms' rest, rdfsConnect (master p sock) kfd ufd ms = Done (0, [a], mk_client kfd ufd ∅ (replicate (unread infos) 0 ++ rest) [], ms') /\
    task_list (ms_tasks ms') = 0.
Proof.
  intros Ht Hp Hk Hu Ea Hok Hl. destruct (master_lists sbi cpu pud_alloc_ok s_blocksize_bits crc32 filp_open p sock ms Ht Hp) as (ms' & E & Ht').
  exists ms', (word_bytes 4 0 ++ slave_stream infos). split; [|done]. unfold rdfsConnect. rewrite (proj2 (Z.eqb_neq kfd (-1))) by done.
  rewrite E, Ea. run_step.
  destruct (slave_list_first a infos (length (slave_stream (a :: infos)))) as [_ Es]; [done|done| |].
  { unfold slave_stream. cbn [slave_messages fmap list_fmap concat]. unfold frame. rewrite !length_app, !length_word_bytes. lia. }
  rewrite Es. by rewrite (proj2 (Z.leb_gt ufd 0)) by lia.
Qed.

Lemma open_reads_padding p sock k fd s res junk c ms path flags i n rest :
  server_ok s -> receiving s k fd -> 0 <= res < 2 ^ 31 -> task_list (ms_tasks ms) = 0 -> p <> 0 -> length junk = CLIENT_FRAME ->
  path_ok path -> (length path <= 1000)%nat -> 0 <= flags < 2 ^ 31 -> path_to_inode filp_open path = Some i ->
  user_in c = [] -> kernel_in c = replicate n 0 ++ rest -> (1032 <= n)%nat -> file_map c !! res = None ->
  exists c' s' ms', rdfsOpenFile (userspace k res) (master p sock) junk s ms c path flags = Done (res, c', s', ms') /\
    file_map c' = <[res := mk_file 1 10 0]> (file_map c) /\ user_in c' = [] /\ idle s s' k fd (opened s ∪ {[res]}).
Proof.
  intros Hok Hr Hres Ht Hp Hj Hpath Hl Hf Hi Hu Hk Hn Hfm. pose proof (open_fits flags path Hf Hl) as Hfit.
  pose proof (open_text_no_nul flags path Hpath) as Hnn. pose proof (length_print_d res 10 ltac:(lia) ltac:(lia)) as Hlr.
  destruct (set_text_new RDFS_CLIENT_OPEN _ junk Hfit Hj) as (tail1 & E1 & Hb1).
  destruct (server_opens s k fd _ tail1 res Hok Hr Hnn Hfit Hb1) as (s' & E2 & Hs'); [by apply open_text_fields; [lia|]|lia|].
  destruct (recv_answer _ (print_d res) Hb1) as (tail2 & E3 & Hb2); [lia|].
  destruct (set_text_struct 0 (print_d res) path tail2) as (tail3 & E4 & Hb3); [unfold CLIENT_MAX; lia|done|].
  destruct (master_opens sbi cpu pud_alloc_ok s_blocksize_bits crc32 filp_open p sock ms path tail3 i) as (ms' & r & E5 & _); [done|done|done|unfold CLIENT_MAX; lia|done|].
  unfold rdfsOpenFile. rewrite E1. run_step. rewrite E2. run_step. rewrite Hu. cbn [app]. rewrite E3. run_step.
  rewrite get_text_struct by (apply print_d_no_nul || (unfold CLIENT_MAX; lia)). run_step. rewrite (reply_one res) by lia. rewrite E4. run_step.
  change RDFS_CLIENT_OPEN with 0 in E5. rewrite E5. run_step. rewrite Hk, <- app_assoc, recv_padding by done. run_step. rewrite get_text_padding. run_step.
  change (scan_list [CD; CD] []).1 with (@nil Z). cbv iota. rewrite Hfm.
  eexists _, s', ms'. split; [reflexivity|]. done.
Qed.

Lemma close_ends k fd s res res' junk c : server_ok s -> receiving s k fd -> 0 <= res < 2 ^ 31 -> res ∈ opened s -> res ∉ socks s ->
  global_epoll_fd s <> Some res -> length junk = CLIENT_FRAME -> user_in c = [] -> is_Some (file_map c !! res) ->
  exists c' s', rdfsCloseFile (userspace k res') junk s c res = Done (0, c', s') /\ file_map c' = delete res (file_map c) /\
    opened s' = opened s ∖ {[res]}.
Proof.
  intros Hok Hr Hres Ho Hn Hg Hj Hu [f Hfm]. pose proof (length_print_d res 10 ltac:(lia) ltac:(lia)) as Hlr.
  destruct (set_text_new RDFS_CLIENT_CLOSE (print_d res) junk) as (tail1 & E1 & Hb1); [unfold CLIENT_MAX; lia|done|].
  destruct (server_closes s k fd res tail1 res' Hok Hr Hres Ho Hn Hg Hb1) as (s' & E2 & _ & _ & Hs').
  assert (H1 : length (print_d 0) = 1%nat) by (vm_compute; reflexivity).
  destruct (recv_answer _ (print_d 0) Hb1) as (tail2 & E3 & Hb2); [lia|].
  unfold rdfsCloseFile. rewrite E1. run_step. rewrite E2. run_step. rewrite Hu. cbn [app]. rewrite E3. run_step.
  rewrite get_text_struct by (apply print_d_no_nul || (unfold CLIENT_MAX; lia)). run_step. rewrite Hfm. eexists _, s'. split; [reflexivity|]. done.
Qed.

(** C37: The client library end to end, on the bytes of its connections. A client
    connects to a master with one to ten slaves, opens a file that the server and
    the master can open, and closes it; the server has read each request to its
    last byte before the next one arrives.  [rdfsConnect] connects to the first
    slave alone.  [rdfsOpenFile] has the server open the file and returns its
    descriptor, but what it reads of the master is padding of the list of
    slaves: whatever inode the path has, the client's map gets the numbers the
    variables were initialised with, inode 1 and size 10.  [rdfsCloseFile] has
    the server close exactly that descriptor and empties the map. *)
Theorem open_close_after_connect p sock kfd ufd ms a infos k fd s res res' junk junk' path flags i :
  task_list (ms_tasks ms) = 0 -> p <> 0 -> kfd <> -1 -> 0 < ufd ->
  slave_addrs ms = a :: infos -> Forall addr_ok (a :: infos) -> (length infos < 10)%nat ->
  server_ok s -> receiving s k fd -> fresh_fd s res -> res < 2 ^ 31 ->
  length junk = CLIENT_FRAME -> length junk' = CLIENT_FRAME ->
  path_ok path -> (length path <= 1000)%nat -> 0 <= flags < 2 ^ 31 -> path_to_inode filp_open path = Some i ->
  exists c ms1, rdfsConnect (master p sock) kfd ufd ms = Done (0, [a], c, ms1) /\
  exists c1 s1 ms2, rdfsOpenFile (userspace k res) (master p sock) junk s ms1 c path flags = Done (res, c1, s1, ms2) /\
    opened s1 = opened s ∪ {[res]} /\ file_map c1 = {[res := mk_file 1 10 0]} /\
  exists c2 s2, rdfsCloseFile (userspace k res') junk' s1 c1 res = Done (0, c2, s2) /\
    opened s2 = opened s /\ file_map c2 = ∅.
Proof.
  intros Ht Hp Hkfd Hufd Ea Haok Hlen Hok Hr (H0 & Hns & Hno & Hne) Hmax Hj Hj' Hpath Hl Hf Hi.
  destruct (connect_reads p sock kfd ufd ms a infos Ht Hp Hkfd Hufd Ea Haok Hlen) as (ms1 & rest & E & Ht1). eexists _, ms1. split; [exact E|].
  set (c := mk_client _ _ _ _ _) in *.
  destruct (open_reads_padding p sock k fd s res junk c ms1 path flags i (unread infos) rest) as (c1 & s1 & ms2 & E1 & Hm1 & Hu1 & Hok1 & Hr1 & Ho1 & Hs1 & Hg1);
    [done|done|lia|done|done|done|done|done|done|done|done|done|unfold unread; case_bool_decide; lia|done|].
  eexists c1, s1, ms2. split; [exact E1|]. split; [exact Ho1|]. split; [exact Hm1|].
  destruct (close_ends k fd s1 res res' junk' c1) as (c2 & s2 & E2 & Hm2 & Ho2);
    [done|done|lia|rewrite Ho1; by apply elem_of_union_r, elem_of_singleton|by rewrite Hs1|by rewrite Hg1|done|done|by rewrite Hm1, lookup_insert_eq|].
  exists c2, s2. split; [exact E2|]. split; [rewrite Ho2, Ho1; by apply union_minus|]. rewrite Hm2, Hm1. by rewrite delete_insert_id.
Qed.
End open_close.

(** Reading and writing through the client library. The master answers with
    its own struct, 4104 bytes, which [rdfs_io] receives into a buffer of 1032
    bytes on its stack. *)
Theorem client_io_overflows {K} (kernel : K -> list Z -> outcome (K * list Z)) junk k k' r c fd f len offset s text :
  file_map c !! fd = Some f -> text = print_list [print_d (inode_ino f); print_d (s64 offset); print_d (s64 len)] ->
  (forall bs, kernel k bs = Ret (k', frame MASTER_MAX r)) -> length junk = CLIENT_FRAME -> (length text < CLIENT_MAX)%nat ->
  rdfs_io kernel junk k c fd len offset s = Crash.
Proof.
  intros Hf -> Hk Hj Hl. unfold rdfs_io. rewrite Hf. destruct (set_text_new RDFS_CLIENT_WRITE _ junk Hl Hj) as (tail & E & Hb). rewrite E.
  run_step. rewrite Hk. run_step. unfold recv_data.
  assert (Hn : (4104 <= length (kernel_in c ++ frame MASTER_MAX r))%nat).
  { unfold frame. rewrite !length_app, !length_word_bytes, length_replicate. unfold MASTER_MAX. lia. }
  rewrite bool_decide_eq_false_2 by (intros En; rewrite En in Hn; cbn in Hn; lia).
  rewrite (proj2 (Nat.ltb_lt _ _)); [done|]. rewrite length_take, Hb. unfold SEARCH_FRAME. change CLIENT_FRAME with 1032%nat. lia.
Qed.

(** ** Witnesses *)

Definition cl_path : list Z := [47; 97].
Definition cl_inode : inode := mk_inode 2 0x81a4 0 0 1 10000 3 0 0 0 0 0 0 0 0 0 0 0 0 0 0.
(** The one path is a regular file. *)
Definition cl_filp_open (path : list Z) (flags mode : Z) : option inode :=
  if bool_decide (path = cl_path) && (flags =? O_RDONLY) then Some cl_inode else None.
Definition cl_world : world := 
  mk_world (w_mem demo_world) (w_km demo_world) (w_nvm demo_world) (w_disks demo_world) (w_pte demo_world) [mk_slave 0 0 0 []].
Definition cl_master : mstate := mk_mstate cl_world ∅ 1 (mk_tasks 0 ∅).
#[local] Existing Instance Demo.x86_pg.

(** Inode 2 of size 10000 is opened as descriptor 7, and entered as inode 1 of size
    10. *)
Lemma open_close_after_connect_witness :
  path_to_inode cl_filp_open cl_path = Some cl_inode /\
  exists c ms1, rdfsConnect (master_peer Demo.demo_sbi 0 (fun _ => true) 12 (fun _ => 0) cl_filp_open 8 1) 3 4 cl_master = Done (0, [mk_addr 0 SLAVE_IP CLIENT_REGISTER_SLAVE_PORT], c, ms1) /\
  exists c1 s1 ms2, rdfsOpenFile (server_run 4 0 7) (master_peer Demo.demo_sbi 0 (fun _ => true) 12 (fun _ => 0) cl_filp_open 8 1) (replicate 1032 7) one_client ms1 c cl_path 66 = Done (7, c1, s1, ms2) /\
    file_map c1 = {[7 := mk_file 1 10 0]}.
Proof.
  split; [reflexivity|].
  destruct (open_close_after_connect Demo.demo_sbi 0 (fun _ => true) 12 (fun _ => 0) cl_filp_open 8 1 3 4 cl_master
    (mk_addr 0 SLAVE_IP CLIENT_REGISTER_SLAVE_PORT) [] 0 5 one_client 7 (-1) (replicate 1032 7) (replicate 1032 8) cl_path 66 cl_inode)
    as (c & ms1 & E & c1 & s1 & ms2 & E1 & _ & Hm & _).
  - reflexivity.
  - lia.
  - lia.
  - lia.
  - reflexivity.
  - repeat constructor; cbn; unfold SLAVE_IP, CLIENT_REGISTER_SLAVE_PORT; lia.
  - cbn. lia.
  - exact one_client_ok.
  - eexists. split; [reflexivity|]. repeat split.
  - repeat split; vm_compute; discriminate.
  - lia.
  - apply length_replicate.
  - apply length_replicate.
  - split; [discriminate|]. split; repeat constructor; lia.
  - cbn. lia.
  - lia.
  - reflexivity.
  - exists c, ms1. split; [exact E|]. exists c1, s1, ms2. split; [exact E1|exact Hm].
Defined.

Lemma client_io_overflows_witness :
  rdfs_io (fun (k : unit) _ => Ret (k, frame MASTER_MAX (mk_msg 6 [] 0))) (replicate 1032 7) tt (mk_client 3 4 {[7 := mk_file 2 10000 0]} [] []) 7 100 0 [] = Crash.
Proof.
  apply (client_io_overflows _ _ _ tt (mk_msg 6 [] 0) _ 7 (mk_file 2 10000 0) _ _ _ (print_list [print_d 2; print_d 0; print_d 100])).
  - reflexivity.
  - vm_compute. reflexivity.
  - reflexivity.
  - apply length_replicate.
  - vm_compute. lia.
Defined.
